(* ===== verification/_CoqProject ===== *)
-Q . S2P
Prelude.v
SortedAssoc.v
CDouble.v
CString.v
Logging.v
Order.v
AvlTree.v
OrderBook.v
MatchSpec.v
BookRefine.v
BookHistory.v
Trader.v
Trade.v
CJson.v
Protocol.v
JsonProtocol.v
WsServer.v
Session.v
Handlers.v
HandlerQueue.v
HandlerBooks.v
HandlerSafety.v
Workers.v
BookTable.v
MarketData.v
ServerApp.v
ClientCommands.v
OrderEntry.v
TradeHistory.v
OrderLoader.v
MarketMonitor.v
WsClient.v
ClientApp.v
ClientProgram.v
EndToEnd.v
