(* ===== verification/Prelude.v ===== *)
(** * Verification of the QuantTradingWebSocket trading system

    The program is a trading server and a client, in C.  Clients send JSON over
    WebSockets; the server queues the texts, worker threads place and cancel orders in
    one order book per symbol, match the book and answer; the client parses commands,
    sends requests and displays what comes back.  This development translates the C
    files under src/src/ into executable Rocq definitions, named as in the source, and
    proves what makes them correct, and where they are not, exactly what they do.

    ** How C is modelled

    A computation has an outcome [res]: a value, undefined behaviour of a named kind
    (null dereference, use after free, out of bounds, signed overflow, unterminated
    string, ...), or exhausted fuel.  An [int] is a [Z]; additions that may overflow are
    checked.  A [double] is a binary64 number of the Standard Library's SpecFloat
    (CDouble.v).  A [char*] is a [string], a [char[n]] is a buffer of [n] characters read
    up to its NUL (CString.v, with the parts of the C library the program uses: strncpy,
    strtok, atof, atoi, snprintf, ...).  Objects that several parts point to (orders,
    traders, queued strings) live in stores, finite maps from locations; the rest are
    values passed along.  Allocation results, the clock, strftime and thread creation are
    arguments.  A write by strncpy beyond its buffer is out of bounds.  An operation that
    holds a mutex throughout is one step; threads are interleaved by lists of events, each a
    step of one thread, and a step relation that is a function ([pool_step], [race_step],
    [program_step], [client_step]).  The end of the process is an outcome, with the
    components then still alive ([created], [destroyed]): destroying one that is not alive is
    a double free.  Calls of the logging functions are left out of the components: nothing
    reads what they write (Logging.v).

    ** Files

    - Prelude.v: outcomes, machine integers, tactics, hints.  SortedAssoc.v: sorted
      association lists under a comparison ([RankedCompare]), the specification of the
      tree.  CDouble.v, CString.v: doubles, strings, buffers, name tables.  Logging.v
      (utils/logging.c).
    - Order.v (trading_engine/order.c): orders in a store.  AvlTree.v (avl_tree.c): the
      tree, with stored heights.  OrderBook.v (order_book.c and the interface of
      trade_broadcaster.c): adding, matching, cancelling, quantities.  MatchSpec.v: the
      abstract matching of two lists of orders.  BookRefine.v: the book refines it.
      BookHistory.v: whole histories of calls on a book refine the abstract book.
    - Trader.v, Trade.v (trader.c, trade.c).
    - CJson.v: the interface of cJSON, its laws ([CJsonLaws]) and an instance ([RefJson]).
      Protocol.v (protocol_validation.c, protocol_constants.c, message_types.h) and
      JsonProtocol.v (json_protocol.c).
    - WsServer.v (server/ws_server.c and the text of trade_broadcaster.c), over the
      interface [Lws] of libwebsockets.  Session.v (session_manager.c).  Handlers.v
      (server_handlers.c), with HandlerQueue.v (the ring buffer), HandlerBooks.v (the
      books and the message handlers), HandlerSafety.v (every acceptable message is
      handled; the interface [HandlerPromise] of the handlers to the workers), Workers.v
      (the worker pool with the mutex and the condition variable of the queue; handlers run
      at the same time, as [EvWork] steps that may change all that handlers share, or alone,
      as [handle_alone]) and BookTable.v (the race of workers on the book table, access by
      access).  MarketData.v (market_data.c).  ServerApp.v (server_app.c: start, threads,
      shutdown).
    - ClientCommands.v, OrderEntry.v, TradeHistory.v, MarketMonitor.v, WsClient.v
      (client/*.c of the same names), ClientApp.v (command_line.c and the handlers of
      client_app.c), ClientProgram.v (main and the signal handler of client_app.c).
      OrderLoader.v (utils/order_loader.c).
    - EndToEnd.v: from a command typed at the client to a trade in a book, and back.

    ** What is proved

    - The AVL tree implements a sorted list: insertion and deletion keep every AVL
      invariant and act as insertion and deletion on the in-order entries, the searches
      return the extreme entries, and after any history of insertions and deletions the
      longest path is logarithmic ([tree_history_shallow]).
    - Matching refines [spec_match]; with that it terminates, conserves quantity, leaves
      live books of one symbol uncrossed, trades only fairly and takes the best orders first.
      Adding an order that ties with none files it; cancelling never marks the wrong order.
      An order ties with another of its side when price and second are the same: it is
      dropped, so [untied] is a hypothesis of the theorems that say an order is filed.
      Histories of these calls, ties and orders of negative quantity included, are histories
      of the abstract book ([book_history_refines]); without ties they conserve quantity from
      the first order on ([book_history_conserves]).
    - Orders and traders keep their invariants under every operation.
    - Messages survive serialisation and parsing; validation accepts exactly what its
      specification says; message types are recognised.
    - The ring buffer is a bounded FIFO queue.  Placing an order and requesting a book of at
      most 200 levels a side do what they promise on well-formed servers; a worker handles
      every servable message ([message_handled]); the symbol table works up to its bound.
    - The session manager keeps its invariant, implements sets of subscriptions, and
      under concurrent additions exceeds its limit by at most the number of callers less
      one.  The main loop never expires a session.
    - Client: accepted commands are valid; order entry respects its limits; trade
      messages are recorded; books are displayed, the bids in reverse; the service thread
      makes at most three connection attempts ([service_thread_budget]); an order typed is
      read by the server's parser as typed ([typed_order_sent]).  The loader puts every order
      of a file into the book and counts them ([load_orders_correct]).
    - Workers: under every interleaving of arrivals, workers, spurious wake-ups and a stop,
      whatever concurrent handlers do to the books, each message is handled, in hand or
      queued exactly once and taken in order of acceptance ([pool_serves_exactly_once]); the
      workers drain the queue ([pool_drains]) and end when stopped, unless one of them was
      just about to wait ([pool_stops], [stop_loses_wakeup]).  The find-or-create section of
      the order handler is harmless for listed symbols ([listed_symbols_undisturbed]) and
      within the table while there is room ([race_stays_in_table]); for a worker alone it is
      the one-step definition ([section_alone_is_atomic]).
    - Programs: the service thread delivers every message once and in order; a failed start
      of the server or the client destroys what was created, each component once
      ([server_start_cleans_up], [client_start_status]); the shutdown is clean exactly if
      nothing was ever served ([server_exit_clean_iff_idle]).  Parsing any JSON object yields
      the order in it, a refusal or one specific fault ([parse_order_outcome]).
    - [command_is_placed] composes client, network, queue, worker, book and matching.
    - Several theorems state defects of the code, on concrete or on all inputs:
      [left_order_not_cancellable], [cancelled_best_blocks_matching],
      [equal_price_bids_newest_first], [same_second_order_lost],
      [no_broadcaster_no_orders], [symbol_table_overrun], [long_symbol_unterminated],
      [destroy_after_take_double_free], [trade_note_typed_rejected],
      [trade_note_crashes_client], [broadcast_delivers_nothing],
      [concurrent_adds_exceed_limit], [order_ids_repeat], [add_trade_evicts_newest],
      [cancel_never_formatted], [command_accepts_nan_and_wraps],
      [market_snapshot_unfilled], [untyped_id_crashes_worker], [cancel_overtakes_order],
      [two_books_for_one_symbol], [race_loses_a_book], [race_loses_a_count],
      [stop_loses_wakeup], [load_counts_dropped], [snapshot_lists_live_orders] (the cut at 200),
      [server_program_stays_empty], [server_exit_clean_iff_idle], [reply_after_close], [signal_waits_for_line],
      [client_start_status], [order_entry_never_consulted].

    ** Bounds and fuel

    Only the matching loop has fuel, one round per order of the book plus one: each round
    but the last removes an order, and [match_orders_refines] proves that this is enough
    ([handle_place_order] is given that much).  Reading a file has the length of the file
    as fuel ([file_lines_lossless]).  A worker alone in the find-or-create section is run for
    the number of its accesses, one per book plus six.  All other recursion is structural, on the data or on
    the list of events a thread sees.

    ** Assumptions

    Theorems about JSON hold for every cJSON satisfying [CJsonLaws], the documented
    behaviour with memory available; [num_exact] are the numbers whose printed form reads
    back, which include every [int].  Theorems about the network hold for every [Lws].
    The theorems about filed orders suppose memory, a trade broadcaster (which main of the
    server does not configure, see [no_broadcaster_no_orders]) and no tie; those about the
    worker pool suppose that handlers return, for which [message_handled] gives conditions
    for a handler that is not disturbed.

    ** Not modelled

    The third-party libraries (readline, cJSON, libwebsockets), of which only the stated
    interfaces are used; how long threads sleep (the delays themselves are computed);
    the effect of simultaneous changes of one order book by two workers, and of one struct by
    a thread and the handler of a signal, which are data races in C.  The worker pool allows
    concurrent handlers any effect on what they share; the theorems that say what a handler
    does to the books are about one that runs undisturbed. *)

From Stdlib Require Import ZArith Lia Sorted.
From stdpp Require Import base list numbers.

(** ** C outcomes

    A C computation either yields a value, runs into undefined behaviour (which
    the model reports instead of inventing a value for it), or exhausts the fuel
    given to a loop of the model. *)

Inductive ub : Type :=
| NullDeref
| UseAfterFree
| DoubleFree
| OutOfBounds
| SignedOverflow
| Unterminated
| Uninitialised
| DivisionByZero.

Inductive res (A : Type) : Type :=
| Ok (a : A)
| UB (u : ub)
| OutOfFuel.

Arguments Ok {A} a.
Arguments UB {A} u.
Arguments OutOfFuel {A}.

#[global] Instance ub_eq_dec : EqDecision ub.
Proof. solve_decision. Defined.

#[global] Instance res_ret : MRet res := fun A a => Ok a.

#[global] Instance res_bind : MBind res := fun A B f m =>
  match m with
  | Ok a => f a
  | UB u => UB u
  | OutOfFuel => OutOfFuel
  end.

#[global] Instance res_fmap : FMap res := fun A B f m =>
  match m with
  | Ok a => Ok (f a)
  | UB u => UB u
  | OutOfFuel => OutOfFuel
  end.

(** Reading through a pointer that may be [NULL]. *)
Definition deref {A : Type} (p : option A) : res A :=
  match p with
  | Some a => Ok a
  | None => UB NullDeref
  end.

(** The outcome of a computation is a value: it is neither undefined nor out of fuel. *)
Definition is_ok {A : Type} (m : res A) : Prop := exists a, m = Ok a.

(** ** Machine integers

    An [int] is a [Z] in the range of a 32-bit two's-complement integer, an
    [int64_t] or [time_t] one in the range of 64 bits.  Signed overflow is
    undefined behaviour, so the checked operations report it. *)

Definition INT_MAX : Z := 2147483647.
Definition INT_MIN : Z := -2147483648.
Definition INT64_MAX : Z := 9223372036854775807.
Definition INT64_MIN : Z := -9223372036854775808.

Definition in_int (z : Z) : Prop := (INT_MIN <= z <= INT_MAX)%Z.
Definition in_int64 (z : Z) : Prop := (INT64_MIN <= z <= INT64_MAX)%Z.

Definition in_intb (z : Z) : bool := ((INT_MIN <=? z) && (z <=? INT_MAX))%Z.
Definition in_int64b (z : Z) : bool := ((INT64_MIN <=? z) && (z <=? INT64_MAX))%Z.

Definition int_add (a b : Z) : res Z :=
  if in_intb (a + b) then Ok (a + b)%Z else UB SignedOverflow.

Definition int_mul (a b : Z) : res Z :=
  if in_intb (a * b) then Ok (a * b)%Z else UB SignedOverflow.

Definition int64_sub (a b : Z) : res Z :=
  if in_int64b (a - b) then Ok (a - b)%Z else UB SignedOverflow.

Definition int64_mul (a b : Z) : res Z :=
  if in_int64b (a * b) then Ok (a * b)%Z else UB SignedOverflow.

(** Conversion of an out-of-range integer to [int]: the two's-complement
    truncation every supported compiler performs. *)
Definition to_int (z : Z) : Z :=
  let r := (z mod 4294967296)%Z in
  if (r <=? INT_MAX)%Z then r else (r - 4294967296)%Z.

(** Conversion to [size_t]. *)
Definition to_size (z : Z) : Z := (z mod 18446744073709551616)%Z.

(** ** Components on the heap

    A program that creates and destroys components is followed by the list of those alive. *)

Section Objects.

Context {C : Type} `{EqDecision C}.

(** After [x = create(...)], null when the creation failed. *)
Definition created {A : Type} (c : C) (x : option A) (live : list C) : list C :=
  match x with Some _ => c :: live | None => live end.

(** [destroy(x)]: null is ignored, destroying what is not alive is undefined. *)
Definition destroyed {A : Type} (c : C) (x : option A) (live : list C) : res (list C) :=
  match x with
  | None => Ok live
  | Some _ => if decide (c ∈ live) then Ok (list_difference live [c]) else UB DoubleFree
  end.

End Objects.

(** ** Automation shared by the components *)

Create HintDb trading.

(** Invert every equation between outcomes in the context. *)
Ltac inv_res :=
  repeat match goal with
  | H : Ok _ = Ok _ |- _ => injection H; clear H; intros; subst
  | H : Ok _ = UB _ |- _ => discriminate H
  | H : Ok _ = OutOfFuel |- _ => discriminate H
  | H : UB _ = Ok _ |- _ => discriminate H
  | H : OutOfFuel = Ok _ |- _ => discriminate H
  end.

(** Case analysis on the tests of a definition, boolean comparisons turned into
    arithmetic. *)
Ltac case_test :=
  match goal with
  | |- context [ (?a <? ?b)%Z ] => destruct (Z.ltb_spec a b)
  | |- context [ (?a <=? ?b)%Z ] => destruct (Z.leb_spec a b)
  | |- context [ (?a =? ?b)%Z ] => destruct (Z.eqb_spec a b)
  | |- context [ if ?b then _ else _ ] => destruct b eqn:?
  end.

Ltac case_test_in H :=
  match type of H with
  | context [ (?a <? ?b)%Z ] => destruct (Z.ltb_spec a b)
  | context [ (?a <=? ?b)%Z ] => destruct (Z.leb_spec a b)
  | context [ (?a =? ?b)%Z ] => destruct (Z.eqb_spec a b)
  | context [ if ?b then _ else _ ] => destruct b eqn:?
  end.

(** Close a goal whose proposition is decidable by evaluating its decision. *)
Ltac by_decide := apply (bool_decide_unpack _); vm_compute; exact I.

(** ** Shared lemmas *)

Lemma bind_ok {A B : Type} (m : res A) (f : A -> res B) (b : B) :
  mbind f m = Ok b <-> exists a, m = Ok a /\ f a = Ok b.
Proof.
  split.
  - destruct m; cbn; [eauto | discriminate..].
  - intros (a & -> & H). exact H.
Qed.

Lemma in_intb_spec (z : Z) : in_intb z = true <-> in_int z.
Proof. unfold in_intb, in_int. rewrite andb_true_iff, !Z.leb_le. reflexivity. Qed.

Lemma int_add_ok (a b : Z) : in_int (a + b) -> int_add a b = Ok (a + b)%Z.
Proof. intros H%in_intb_spec. unfold int_add. now rewrite H. Qed.

Lemma int_mul_ok (a b : Z) : in_int (a * b) -> int_mul a b = Ok (a * b)%Z.
Proof. intros H%in_intb_spec. unfold int_mul. now rewrite H. Qed.

Lemma to_int_id (z : Z) : in_int z -> to_int z = z.
Proof.
  unfold in_int, to_int, INT_MIN, INT_MAX. intros H.
  destruct (Z.leb_spec 0 z).
  - rewrite Z.mod_small by lia. case_test; lia.
  - replace (z mod 4294967296)%Z with (z + 4294967296)%Z.
    + case_test; lia.
    + apply Z.mod_unique with (q := (-1)%Z); lia.
Qed.

Lemma to_int_range (z : Z) : in_int (to_int z).
Proof.
  unfold to_int, in_int, INT_MIN, INT_MAX.
  pose proof (Z.mod_pos_bound z 4294967296 ltac:(lia)). case_test; lia.
Qed.

Lemma to_size_nat (n : nat) : (n <= 200)%nat -> to_size (Z.of_nat n) = Z.of_nat n.
Proof. intros H. unfold to_size. apply Z.mod_small. lia. Qed.

(** An entry of a list, before and after it is replaced. *)
Lemma entry_split {A : Type} (xs : list A) (i : nat) (x : A) :
  xs !! i = Some x -> exists a b, xs = a ++ x :: b /\ forall y, <[i := y]> xs = a ++ y :: b.
Proof.
  intros Hi. exists (take i xs), (drop (S i) xs). split; [symmetry; now apply take_drop_middle |].
  intros y. apply insert_take_drop. eapply lookup_lt_Some; eauto.
Qed.

#[export] Hint Resolve int_add_ok int_mul_ok to_int_id to_int_range : trading.
