(* ===== verification/SortedAssoc.v ===== *)
(** * Sorted association lists

    The reference data structure the AVL trees are compared with: a list of
    key/value pairs in strictly increasing key order, with the insertion and
    deletion a search tree performs.  The comparison is a C comparison function
    ([int] result, negative / zero / positive); what the lists need of it is the
    interface [RankedCompare]: on the keys satisfying [ok] it is the comparison of
    the lexicographically ordered ranks. *)

From Stdlib Require Import ZArith Lia Sorted.
From stdpp Require Import base list numbers sorting.
From S2P Require Import Prelude.

(** Lexicographic order on ranks. *)
Definition rank_lt (a b : Z * Z) : Prop :=
  (a.1 < b.1 \/ (a.1 = b.1 /\ a.2 < b.2))%Z.

(** What a comparison function promises to the containers built on it. *)
Class RankedCompare {K : Type} (cmp : K -> K -> Z) (ok : K -> Prop) (rank : K -> Z * Z) : Prop := {
  rc_lt : forall a b, ok a -> ok b -> (cmp a b < 0)%Z <-> rank_lt (rank a) (rank b);
  rc_gt : forall a b, ok a -> ok b -> (0 < cmp a b)%Z <-> rank_lt (rank b) (rank a)
}.

Section Operations.
Context {K V : Type} (cmp : K -> K -> Z).

(** Insertion keeps an entry that already has the key. *)
Fixpoint sa_insert (k : K) (v : V) (l : list (K * V)) : list (K * V) :=
  match l with
  | [] => [(k, v)]
  | (k', v') :: r =>
      if (cmp k k' <? 0)%Z then (k, v) :: (k', v') :: r
      else if (0 <? cmp k k')%Z then (k', v') :: sa_insert k v r
      else (k', v') :: r
  end.

Fixpoint sa_delete (k : K) (l : list (K * V)) : list (K * V) :=
  match l with
  | [] => []
  | (k', v') :: r =>
      if (cmp k k' <? 0)%Z then (k', v') :: r
      else if (0 <? cmp k k')%Z then (k', v') :: sa_delete k r
      else r
  end.
End Operations.

Definition entry_lt {K V : Type} (rank : K -> Z * Z) (a b : K * V) : Prop :=
  rank_lt (rank a.1) (rank b.1).

(** Strictly sorted, and every key usable with the comparison. *)
Definition sa_sorted {K V : Type} (ok : K -> Prop) (rank : K -> Z * Z) (l : list (K * V)) : Prop :=
  StronglySorted (entry_lt rank) l /\ Forall (fun e => ok e.1) l.

#[export] Instance rank_lt_dec (a b : Z * Z) : Decision (rank_lt a b).
Proof. unfold rank_lt. apply _. Defined.

#[export] Instance entry_lt_dec {K V : Type} (rank : K -> Z * Z) (a b : K * V) :
  Decision (entry_lt rank a b).
Proof. unfold entry_lt. apply _. Defined.

(** ** Order facts *)

Lemma rank_lt_irrefl (a : Z * Z) : ~ rank_lt a a.
Proof. unfold rank_lt. lia. Qed.

Lemma rank_lt_trans (a b c : Z * Z) : rank_lt a b -> rank_lt b c -> rank_lt a c.
Proof. unfold rank_lt. lia. Qed.

Lemma rank_lt_total (a b : Z * Z) : rank_lt a b \/ a = b \/ rank_lt b a.
Proof.
  destruct a as [a1 a2], b as [b1 b2]. unfold rank_lt; cbn.
  destruct (Z.lt_trichotomy a1 b1) as [|[->|]]; [lia | | lia].
  destruct (Z.lt_trichotomy a2 b2) as [|[->|]]; auto; lia.
Qed.

Section Theory.
Context {K V : Type} (cmp : K -> K -> Z) (ok : K -> Prop) (rank : K -> Z * Z).
Context `{HC : !RankedCompare cmp ok rank}.

Implicit Types l r : list (K * V).

Lemma rc_eq (a b : K) : ok a -> ok b -> cmp a b = 0%Z <-> rank a = rank b.
Proof.
  intros Ha Hb. pose proof (rc_lt a b Ha Hb) as Hl. pose proof (rc_gt a b Ha Hb) as Hg.
  pose proof (rank_lt_irrefl (rank a)) as Hi.
  destruct (rank_lt_total (rank a) (rank b)) as [H|[H|H]].
  - split; [intros E; exfalso; apply Hl in H; lia | intros E; exfalso; rewrite <- E in H; auto].
  - split; [auto | intros _]. rewrite H in *.
    destruct (Z.lt_trichotomy (cmp a b) 0) as [C|[C|C]]; [exfalso | exact C | exfalso]; tauto.
  - split; [intros E; exfalso; apply Hg in H; lia | intros E; exfalso; rewrite <- E in H; auto].
Qed.

Lemma sa_sorted_nil : sa_sorted ok rank ([] : list (K * V)).
Proof. split; constructor. Qed.

Lemma sa_sorted_cons (e : K * V) l :
  sa_sorted ok rank (e :: l) <->
  ok e.1 /\ Forall (entry_lt rank e) l /\ sa_sorted ok rank l.
Proof.
  unfold sa_sorted. rewrite Forall_cons. split.
  - intros [HS [He HF]]. inversion HS; subst. auto.
  - intros (He & Hl & HS & HF). split; [constructor; auto | auto].
Qed.

Lemma sa_sorted_app l r :
  sa_sorted ok rank (l ++ r) <->
  sa_sorted ok rank l /\ sa_sorted ok rank r /\
  Forall (fun e => Forall (entry_lt rank e) r) l.
Proof.
  induction l as [|e l IH]; cbn.
  - rewrite Forall_nil. pose proof sa_sorted_nil. tauto.
  - rewrite !sa_sorted_cons, IH, Forall_app, Forall_cons. tauto.
Qed.

Lemma sa_sorted_mid l (x : K * V) r :
  sa_sorted ok rank (l ++ x :: r) ->
  sa_sorted ok rank l /\ sa_sorted ok rank r /\ ok x.1 /\
  Forall (fun e => entry_lt rank e x) l /\ Forall (entry_lt rank x) r.
Proof.
  rewrite sa_sorted_app, sa_sorted_cons. intros (Hl & (Hx & Hxr & Hr) & Hlr).
  split_and!; auto. eapply Forall_impl; [exact Hlr | cbn]. intros e He. now inversion He.
Qed.

(** Keys that compare below (above) a bound of a sorted list skip it. *)
Lemma sa_insert_app_lt k v l x w r :
  sa_sorted ok rank (l ++ (x, w) :: r) -> ok k -> (cmp k x < 0)%Z ->
  sa_insert cmp k v (l ++ (x, w) :: r) = sa_insert cmp k v l ++ (x, w) :: r.
Proof.
  intros HS Hk Hlt. apply sa_sorted_mid in HS as (_ & _ & _ & Hl & _).
  induction l as [|[y u] l IH]; cbn.
  - now apply Z.ltb_lt in Hlt as ->.
  - apply Forall_cons in Hl as [_ Hl]. repeat case_test; cbn; auto. now rewrite IH.
Qed.

Lemma sa_insert_app_gt k v l x w r :
  sa_sorted ok rank (l ++ (x, w) :: r) -> ok k -> (0 < cmp k x)%Z ->
  sa_insert cmp k v (l ++ (x, w) :: r) = l ++ (x, w) :: sa_insert cmp k v r.
Proof.
  intros HS Hk Hgt. apply sa_sorted_mid in HS as (HSl & _ & Hx & Hl & _).
  induction l as [|[y u] l IH]; cbn.
  - repeat case_test; auto; lia.
  - apply Forall_cons in Hl as [Hyx Hl]. apply sa_sorted_cons in HSl as (Hy & _ & HSl).
    apply rc_gt in Hgt; auto. assert (0 < cmp k y)%Z by (apply rc_gt; eauto using rank_lt_trans).
    repeat case_test; try lia. now rewrite IH.
Qed.

Lemma sa_insert_app_eq k v l x w r :
  sa_sorted ok rank (l ++ (x, w) :: r) -> ok k -> cmp k x = 0%Z ->
  sa_insert cmp k v (l ++ (x, w) :: r) = l ++ (x, w) :: r.
Proof.
  intros HS Hk Heq. apply sa_sorted_mid in HS as (HSl & _ & Hx & Hl & _).
  induction l as [|[y u] l IH]; cbn.
  - rewrite Heq. reflexivity.
  - apply Forall_cons in Hl as [Hyx Hl]. apply sa_sorted_cons in HSl as (Hy & _ & HSl).
    apply rc_eq in Heq; auto. unfold entry_lt in Hyx; cbn in *. rewrite <- Heq in Hyx.
    apply rc_gt in Hyx; auto. repeat case_test; try lia. now rewrite IH.
Qed.

Lemma sa_delete_app_lt k l x w r :
  sa_sorted ok rank (l ++ (x, w) :: r) -> ok k -> (cmp k x < 0)%Z ->
  sa_delete cmp k (l ++ (x, w) :: r) = sa_delete cmp k l ++ (x, w) :: r.
Proof.
  intros HS Hk Hlt. apply sa_sorted_mid in HS as (_ & _ & _ & Hl & _).
  induction l as [|[y u] l IH]; cbn.
  - now apply Z.ltb_lt in Hlt as ->.
  - apply Forall_cons in Hl as [_ Hl]. repeat case_test; cbn; auto. now rewrite IH.
Qed.

Lemma sa_delete_app_gt k l x w r :
  sa_sorted ok rank (l ++ (x, w) :: r) -> ok k -> (0 < cmp k x)%Z ->
  sa_delete cmp k (l ++ (x, w) :: r) = l ++ (x, w) :: sa_delete cmp k r.
Proof.
  intros HS Hk Hgt. apply sa_sorted_mid in HS as (HSl & _ & Hx & Hl & _).
  induction l as [|[y u] l IH]; cbn.
  - repeat case_test; auto; lia.
  - apply Forall_cons in Hl as [Hyx Hl]. apply sa_sorted_cons in HSl as (Hy & _ & HSl).
    apply rc_gt in Hgt; auto. assert (0 < cmp k y)%Z by (apply rc_gt; eauto using rank_lt_trans).
    repeat case_test; try lia. now rewrite IH.
Qed.

Lemma sa_delete_app_eq k l x w r :
  sa_sorted ok rank (l ++ (x, w) :: r) -> ok k -> cmp k x = 0%Z ->
  sa_delete cmp k (l ++ (x, w) :: r) = l ++ r.
Proof.
  intros HS Hk Heq. apply sa_sorted_mid in HS as (HSl & _ & Hx & Hl & _).
  induction l as [|[y u] l IH]; cbn.
  - rewrite Heq. reflexivity.
  - apply Forall_cons in Hl as [Hyx Hl]. apply sa_sorted_cons in HSl as (Hy & _ & HSl).
    apply rc_eq in Heq; auto. unfold entry_lt in Hyx; cbn in *. rewrite <- Heq in Hyx.
    apply rc_gt in Hyx; auto. repeat case_test; try lia. now rewrite IH.
Qed.

(** Insertion and deletion keep the list sorted. *)
Lemma sa_insert_Forall (P : K * V -> Prop) k v l :
  P (k, v) -> Forall P l -> Forall P (sa_insert cmp k v l).
Proof.
  intros Hk. induction 1 as [|[y u] l Hy Hl IH]; cbn; [now repeat constructor |].
  repeat case_test; repeat first [assumption | constructor].
Qed.

Lemma sa_delete_Forall (P : K * V -> Prop) k l :
  Forall P l -> Forall P (sa_delete cmp k l).
Proof.
  induction 1 as [|[y u] l Hy Hl IH]; cbn; [constructor |].
  repeat case_test; repeat first [assumption | constructor].
Qed.

Lemma sa_insert_sorted k v l :
  ok k -> sa_sorted ok rank l -> sa_sorted ok rank (sa_insert cmp k v l).
Proof.
  intros Hk. induction l as [|[y u] l IH]; cbn; intros HS.
  - apply sa_sorted_cons. split_and!; auto using sa_sorted_nil.
  - pose proof HS as HS'. apply sa_sorted_cons in HS as (Hy & Hyl & HSl).
    repeat case_test; auto; apply sa_sorted_cons; split_and!; auto.
    + assert (rank_lt (rank k) (rank y)) by (now apply rc_lt).
      constructor; [assumption |]. eapply Forall_impl; [exact Hyl |].
      unfold entry_lt. eauto using rank_lt_trans.
    + apply sa_insert_Forall; auto. now apply rc_gt.
Qed.

Lemma sa_delete_sorted k l :
  sa_sorted ok rank l -> sa_sorted ok rank (sa_delete cmp k l).
Proof.
  induction l as [|[y u] l IH]; cbn; intros HS; auto.
  pose proof HS as HS'. apply sa_sorted_cons in HS as (Hy & Hyl & HSl).
  repeat case_test; auto. apply sa_sorted_cons; split_and!; auto.
  now apply sa_delete_Forall.
Qed.

(** Deleting the key of the first or the last entry removes that entry. *)
Lemma sa_delete_head k x w l :
  cmp k x = 0%Z -> sa_delete cmp k ((x, w) :: l) = l.
Proof. intros H. cbn. now rewrite H. Qed.

Lemma sa_delete_last k x w l :
  sa_sorted ok rank (l ++ [(x, w)]) -> ok k -> cmp k x = 0%Z ->
  sa_delete cmp k (l ++ [(x, w)]) = l.
Proof. intros. erewrite sa_delete_app_eq by eauto. apply app_nil_r. Qed.

(** Whether the key was present decides what insertion does. *)
Lemma sa_insert_present k v l :
  ok k -> sa_sorted ok rank l -> Exists (fun e => rank e.1 = rank k) l ->
  sa_insert cmp k v l = l.
Proof.
  intros Hk HS HE. apply Exists_exists in HE as ([x w] & Hin & Hr). cbn in Hr.
  apply list_elem_of_split in Hin as (l1 & l2 & ->).
  apply sa_insert_app_eq; auto. apply rc_eq; auto.
  now apply sa_sorted_mid in HS as (_ & _ & ? & _).
Qed.

Lemma sa_insert_absent k v l :
  ok k -> sa_sorted ok rank l -> Forall (fun e => rank e.1 <> rank k) l ->
  sa_insert cmp k v l ≡ₚ (k, v) :: l.
Proof.
  intros Hk HS HF. induction l as [|[y u] l IH]; cbn; auto.
  apply sa_sorted_cons in HS as (Hy & _ & HS). apply Forall_cons in HF as [Hne HF]. cbn in *.
  repeat case_test; auto.
  - rewrite IH by auto. apply Permutation_swap.
  - exfalso. apply Hne. symmetry. apply rc_eq; auto. lia.
Qed.
End Theory.

#[export] Instance sa_sorted_dec {K V : Type} (ok : K -> Prop) (rank : K -> Z * Z)
  `{!forall k, Decision (ok k)} (l : list (K * V)) : Decision (sa_sorted ok rank l).
Proof.
  induction l as [|e l IH]; [left; apply sa_sorted_nil |].
  destruct (decide (ok e.1 /\ Forall (entry_lt rank e) l /\ sa_sorted ok rank l)) as [Hs|Hs].
  - left. now apply sa_sorted_cons.
  - right. intros HS. apply Hs. now apply sa_sorted_cons.
Defined.
