(* ===== verification/CDouble.v ===== *)
(** * C [double]s

    The program's prices, balances and notionals are IEEE-754 binary64 numbers.
    They are modelled by the Standard Library's executable specification
    [spec_float] at precision 53 and maximal exponent 1024 (round to nearest even,
    NaN without payload), so C's [<], [==], [*], ... on doubles are the [SF]
    operations.  The main result is that the comparison of two valid, non-NaN
    doubles is the comparison of integers ([dval], the value in units of the
    smallest subnormal), which makes prices totally ordered. *)

From Stdlib Require Import ZArith Lia SpecFloat.
From stdpp Require Import base numbers.
From S2P Require Import Prelude.

Abbreviation double := spec_float.

Definition prec : Z := 53.
Definition emax : Z := 1024.

Definition d_add : double -> double -> double := SFadd prec emax.
Definition d_sub : double -> double -> double := SFsub prec emax.
Definition d_mul : double -> double -> double := SFmul prec emax.
Definition d_div : double -> double -> double := SFdiv prec emax.

(** C's relational operators on doubles: false as soon as an operand is NaN,
    except [!=]. *)
Definition d_lt (x y : double) : bool := SFltb x y.
Definition d_le (x y : double) : bool := SFleb x y.
Definition d_gt (x y : double) : bool := SFltb y x.
Definition d_eq (x y : double) : bool := SFeqb x y.
Definition d_ne (x y : double) : bool := negb (SFeqb x y).

Definition d_zero : double := S754_zero false.

(** The conversion of an [int] (exact) or an [int64_t] (rounded) to [double]. *)
Definition d_of_Z (z : Z) : double := binary_normalize prec emax z 0 false.

(** The correctly rounded quotient of two integers: the value of a decimal
    literal [n / 10^k]. *)
Definition d_of_ratio (n : Z) (d : positive) : double :=
  match n with
  | Z0 => d_zero
  | Zpos p => let '(q, e, l) := SFdiv_core_binary prec emax (Zpos p) 0 (Zpos d) 0 in
              binary_round_aux prec emax false q e l
  | Zneg p => let '(q, e, l) := SFdiv_core_binary prec emax (Zpos p) 0 (Zpos d) 0 in
              binary_round_aux prec emax true q e l
  end.

Definition d_is_nan (x : double) : bool :=
  match x with S754_nan => true | _ => false end.

(** Representable as a binary64 number, and not NaN. *)
Definition d_ok (x : double) : Prop :=
  valid_binary prec emax x = true /\ d_is_nan x = false.

(** The value of a double in units of 2^-1074; infinities lie beyond every finite value. *)
Definition dval (x : double) : Z :=
  match x with
  | S754_zero _ => 0
  | S754_infinity s => cond_Zopp s (2 ^ 2200)
  | S754_nan => 0
  | S754_finite s m e => cond_Zopp s (Zpos m * 2 ^ (e + 1074))
  end%Z.

#[export] Instance d_ok_dec (x : double) : Decision (d_ok x).
Proof. unfold d_ok. apply _. Defined.

(** ** Mantissas and exponents *)

Lemma pow2_pos (e : Z) : (0 <= e)%Z -> (0 < 2 ^ e)%Z.
Proof. intros. apply Z.pow_pos_nonneg; lia. Qed.

Lemma digits2_pos_bounds (m : positive) :
  (2 ^ (Zpos (digits2_pos m) - 1) <= Zpos m < 2 ^ Zpos (digits2_pos m))%Z.
Proof.
  induction m as [m IH|m IH|]; cbn [digits2_pos]; [ | |cbn; lia];
    rewrite Pos2Z.inj_succ;
    replace (Z.succ (Zpos (digits2_pos m)) - 1)%Z with (Z.succ (Zpos (digits2_pos m) - 1))%Z by lia;
    rewrite (Z.pow_succ_r 2 (Zpos (digits2_pos m) - 1)), (Z.pow_succ_r 2 (Zpos (digits2_pos m))) by lia;
    lia.
Qed.

Lemma bounded_spec (m : positive) (e : Z) :
  bounded prec emax m e = true ->
  (-1074 <= e <= 971)%Z /\ (Zpos m < 2 ^ 53)%Z /\ ((-1074 < e)%Z -> (2 ^ 52 <= Zpos m)%Z).
Proof.
  unfold bounded, canonical_mantissa, fexp, emin, prec, emax.
  rewrite andb_true_iff, Z.eqb_eq, Z.leb_le. intros [He Hmax].
  pose proof (digits2_pos_bounds m) as [Hlo Hhi].
  split; [lia | split].
  - eapply Z.lt_le_trans; [exact Hhi |]. apply Z.pow_le_mono_r; lia.
  - intros Hgt. etransitivity; [|exact Hlo]. apply Z.pow_le_mono_r; lia.
Qed.

Lemma dval_finite_bounds (m : positive) (e : Z) :
  bounded prec emax m e = true -> (0 < Zpos m * 2 ^ (e + 1074) < 2 ^ 2200)%Z.
Proof.
  intros (He & Hm & _)%bounded_spec. pose proof (pow2_pos (e + 1074) ltac:(lia)).
  split; [apply Z.mul_pos_pos; lia |].
  apply Z.lt_le_trans with (2 ^ 53 * 2 ^ (e + 1074))%Z.
  - apply Z.mul_lt_mono_pos_r; lia.
  - rewrite <- Z.pow_add_r by lia. apply Z.pow_le_mono_r; lia.
Qed.

(** The exponent decides before the mantissa does. *)
Lemma finite_exponent_lt (m1 m2 : positive) (e1 e2 : Z) :
  bounded prec emax m1 e1 = true -> bounded prec emax m2 e2 = true -> (e1 < e2)%Z ->
  (Zpos m1 * 2 ^ (e1 + 1074) < Zpos m2 * 2 ^ (e2 + 1074))%Z.
Proof.
  intros (He1 & Hm1 & _)%bounded_spec (He2 & _ & Hm2)%bounded_spec Hlt.
  specialize (Hm2 ltac:(lia)). pose proof (pow2_pos (e1 + 1074) ltac:(lia)).
  apply Z.lt_le_trans with (2 ^ 53 * 2 ^ (e1 + 1074))%Z; [apply Z.mul_lt_mono_pos_r; lia |].
  replace (e2 + 1074)%Z with ((e1 + 1074) + (1 + (e2 - e1 - 1)))%Z by lia.
  rewrite (Z.pow_add_r 2 (e1 + 1074)), (Z.pow_add_r 2 1) by lia.
  assert (1 <= 2 ^ (e2 - e1 - 1))%Z by (pose proof (pow2_pos (e2 - e1 - 1)); lia).
  change (2 ^ 53)%Z with (2 * 2 ^ 52)%Z. change (2 ^ 1)%Z with 2%Z.
  remember (2 ^ 52)%Z as c. remember (2 ^ (e1 + 1074))%Z as a. remember (2 ^ (e2 - e1 - 1))%Z as b.
  assert (0 < c)%Z by (subst c; apply pow2_pos; lia).
  transitivity (2 * Zpos m2 * a)%Z; [apply Z.mul_le_mono_nonneg_r; lia |].
  replace (Zpos m2 * (a * (2 * b)))%Z with (2 * Zpos m2 * a * b)%Z by ring.
  assert (0 <= 2 * Zpos m2 * a)%Z by (apply Z.mul_nonneg_nonneg; lia).
  replace (2 * Zpos m2 * a)%Z with (2 * Zpos m2 * a * 1)%Z at 1 by ring.
  apply Z.mul_le_mono_nonneg_l; lia.
Qed.

Lemma finite_compare (m1 m2 : positive) (e1 e2 : Z) :
  bounded prec emax m1 e1 = true -> bounded prec emax m2 e2 = true ->
  match (e1 ?= e2)%Z with
  | Lt => Lt | Gt => Gt | Eq => Pos.compare_cont Eq m1 m2
  end = (Zpos m1 * 2 ^ (e1 + 1074) ?= Zpos m2 * 2 ^ (e2 + 1074))%Z.
Proof.
  intros H1 H2. destruct (Z.compare_spec e1 e2) as [->|Hlt|Hgt]; symmetry.
  - apply bounded_spec in H2 as (He & _).
    pose proof (pow2_pos (e2 + 1074) ltac:(lia)).
    rewrite <- Zmult_compare_compat_r; [reflexivity | lia].
  - apply Z.compare_lt_iff. now apply finite_exponent_lt.
  - apply Z.compare_gt_iff. now apply finite_exponent_lt.
Qed.

(** ** Comparison is integer comparison *)

Lemma SFcompare_dval (x y : double) :
  d_ok x -> d_ok y -> SFcompare x y = Some (dval x ?= dval y)%Z.
Proof.
  intros [Hx Nx] [Hy Ny].
  destruct x as [sx|sx| |sx mx ex], y as [sy|sy| |sy my ey]; try discriminate;
    cbn [valid_binary] in *; cbn [SFcompare dval];
    repeat match goal with
    | H : bounded _ _ ?m ?e = true |- _ =>
        lazymatch goal with
        | _ : (0 < Zpos m * 2 ^ (e + 1074) < _)%Z |- _ => fail
        | _ => pose proof (dval_finite_bounds m e H)
        end
    end;
    try (destruct sx, sy; f_equal; unfold cond_Zopp; symmetry;
         rewrite ?Z.compare_eq_iff, ?Z.compare_lt_iff, ?Z.compare_gt_iff; lia);
    try (try destruct sx; try destruct sy; f_equal; unfold cond_Zopp; symmetry;
         rewrite ?Z.compare_eq_iff, ?Z.compare_lt_iff, ?Z.compare_gt_iff; lia).
  destruct sx, sy; f_equal; unfold cond_Zopp.
  - rewrite Z.compare_opp, (Z.compare_antisym (Zpos mx * _)), <- finite_compare by assumption.
    now destruct (ex ?= ey)%Z.
  - symmetry. apply Z.compare_lt_iff. lia.
  - symmetry. apply Z.compare_gt_iff. lia.
  - now apply finite_compare.
Qed.

Lemma d_lt_dval (x y : double) : d_ok x -> d_ok y -> d_lt x y = (dval x <? dval y)%Z.
Proof.
  intros Hx Hy. unfold d_lt, SFltb. rewrite SFcompare_dval by assumption.
  unfold Z.ltb. now destruct (dval x ?= dval y)%Z.
Qed.

Lemma d_gt_dval (x y : double) : d_ok x -> d_ok y -> d_gt x y = (dval y <? dval x)%Z.
Proof. intros Hx Hy. unfold d_gt. now apply d_lt_dval. Qed.

Lemma d_le_dval (x y : double) : d_ok x -> d_ok y -> d_le x y = (dval x <=? dval y)%Z.
Proof.
  intros Hx Hy. unfold d_le, SFleb. rewrite SFcompare_dval by assumption.
  unfold Z.leb. now destruct (dval x ?= dval y)%Z.
Qed.

Lemma d_eq_dval (x y : double) : d_ok x -> d_ok y -> d_eq x y = (dval x =? dval y)%Z.
Proof.
  intros Hx Hy. unfold d_eq, SFeqb. rewrite SFcompare_dval by assumption.
  rewrite Z.eqb_compare. now destruct (dval x ?= dval y)%Z.
Qed.

Lemma d_ne_dval (x y : double) : d_ok x -> d_ok y -> d_ne x y = negb (dval x =? dval y)%Z.
Proof. intros Hx Hy. unfold d_ne. f_equal. now apply d_eq_dval. Qed.

Create Rewrite HintDb dval.

#[export] Hint Rewrite d_lt_dval d_gt_dval d_le_dval d_eq_dval d_ne_dval using assumption : dval.

(** ** Rounding keeps results canonical

    [canon e m] is the precondition of rounding: the exponent is not above the
    canonical one. *)

Lemma fexp_mono (a b : Z) : (a <= b)%Z -> (fexp prec emax a <= fexp prec emax b)%Z.
Proof. unfold fexp. lia. Qed.

Lemma digits2_pos_unique (m : positive) (d : Z) :
  (0 < d)%Z -> (2 ^ (d - 1) <= Zpos m < 2 ^ d)%Z -> Zpos (digits2_pos m) = d.
Proof.
  intros Hd [Hlo Hhi]. pose proof (digits2_pos_bounds m) as [Blo Bhi].
  destruct (Z.lt_trichotomy (Zpos (digits2_pos m)) d) as [H|[H|H]]; [|exact H|].
  - assert (2 ^ Zpos (digits2_pos m) <= 2 ^ (d - 1))%Z by (apply Z.pow_le_mono_r; lia). lia.
  - assert (2 ^ d <= 2 ^ (Zpos (digits2_pos m) - 1))%Z by (apply Z.pow_le_mono_r; lia). lia.
Qed.

Lemma shr_1_m (r : shr_record) : (0 <= shr_m r)%Z -> shr_m (shr_1 r) = (shr_m r / 2)%Z.
Proof.
  destruct r as [m rb sb]; cbn [shr_m]. intros Hm.
  destruct m as [|[p|p|]|]; try reflexivity; try lia; cbn [shr_1 shr_m].
  - change (Zpos p~1) with (2 * Zpos p + 1)%Z. now rewrite Z.mul_comm, Z.div_add_l.
  - change (Zpos p~0) with (2 * Zpos p)%Z. now rewrite Z.mul_comm, Z.div_mul.
Qed.

Lemma iter_shr_1_m (p : positive) (r : shr_record) :
  (0 <= shr_m r)%Z -> shr_m (SpecFloat.iter_pos shr_1 p r) = (shr_m r / 2 ^ Zpos p)%Z.
Proof.
  assert (Hpos : forall z q, (0 <= z)%Z -> (0 <= z / 2 ^ Zpos q)%Z).
  { intros z q Hz. apply Z.div_pos; [exact Hz | apply pow2_pos; lia]. }
  revert r. induction p as [p IH|p IH|]; intros r Hr; cbn [SpecFloat.iter_pos].
  - pose proof (shr_1_m r Hr) as H1.
    assert (Hr1 : (0 <= shr_m (shr_1 r))%Z) by (rewrite H1; apply Z.div_pos; lia).
    rewrite IH by (rewrite IH by exact Hr1; auto). rewrite IH, H1 by exact Hr1.
    pose proof (pow2_pos (Zpos p)). rewrite !Z.div_div by lia. f_equal.
    rewrite (Pos2Z.inj_xI p), Z.pow_add_r, Z.pow_twice_r by lia. ring.
  - rewrite IH by (rewrite IH by exact Hr; auto). rewrite IH by exact Hr.
    pose proof (pow2_pos (Zpos p)). rewrite Z.div_div by lia. f_equal.
    rewrite (Pos2Z.inj_xO p), Z.pow_twice_r. ring.
  - now rewrite shr_1_m.
Qed.

Lemma Zdigits2_bounds (m : Z) :
  (0 < m)%Z -> (0 < Zdigits2 m)%Z /\ (2 ^ (Zdigits2 m - 1) <= m < 2 ^ Zdigits2 m)%Z.
Proof. destruct m as [|p|p]; try lia. intros _. split; [reflexivity | apply digits2_pos_bounds]. Qed.

Lemma Zdigits2_unique (m d : Z) :
  (0 < d)%Z -> (2 ^ (d - 1) <= m < 2 ^ d)%Z -> Zdigits2 m = d.
Proof.
  intros Hd Hm. assert (0 < m)%Z by (pose proof (pow2_pos (d - 1)); lia).
  destruct m as [|p|p]; try lia. now apply digits2_pos_unique.
Qed.

Lemma Zdigits2_mono (a b : Z) : (0 <= a <= b)%Z -> (Zdigits2 a <= Zdigits2 b)%Z.
Proof.
  intros [Ha Hab]. destruct (Z.eq_dec a 0%Z) as [->|Hnz]; [destruct b; cbn; lia |].
  pose proof (Zdigits2_bounds a ltac:(lia)) as [? [Alo _]].
  pose proof (Zdigits2_bounds b ltac:(lia)) as [? [_ Bhi]].
  apply Z.nlt_ge. intros Hlt.
  assert (2 ^ Zdigits2 b <= 2 ^ (Zdigits2 a - 1))%Z by (apply Z.pow_le_mono_r; lia). lia.
Qed.

(** Dividing by [2^n] removes [n] digits. *)
Lemma Zdigits2_shr (m n : Z) :
  (0 <= n)%Z -> (0 < m / 2 ^ n)%Z -> Zdigits2 (m / 2 ^ n) = (Zdigits2 m - n)%Z.
Proof.
  intros Hn Hq. pose proof (pow2_pos n Hn) as Hp.
  assert (Hge : (2 ^ n <= m)%Z).
  { apply Z.nlt_ge. intros Hlt. assert (m < 0 \/ 0 <= m)%Z as [?|?] by lia.
    - assert (m / 2 ^ n < 0)%Z by (apply Z.div_lt_upper_bound; lia). lia.
    - rewrite Z.div_small in Hq; lia. }
  pose proof (Zdigits2_bounds m ltac:(lia)) as [HD [Hlo Hhi]].
  assert (n < Zdigits2 m)%Z.
  { apply Z.nle_gt. intros Hle.
    assert (2 ^ Zdigits2 m <= 2 ^ n)%Z by (apply Z.pow_le_mono_r; lia). lia. }
  apply Zdigits2_unique; [lia | split].
  - apply Z.div_le_lower_bound; [lia |]. rewrite <- Z.pow_add_r by lia.
    replace (n + (Zdigits2 m - n - 1))%Z with (Zdigits2 m - 1)%Z by lia. exact Hlo.
  - apply Z.div_lt_upper_bound; [lia |]. rewrite <- Z.pow_add_r by lia.
    replace (n + (Zdigits2 m - n))%Z with (Zdigits2 m) by lia. exact Hhi.
Qed.

(** A rounded mantissa: zero at the minimal exponent, or canonical. *)
Definition good_mantissa (m e : Z) : Prop :=
  (m = 0 /\ e = emin prec emax)%Z \/ (0 < m /\ fexp prec emax (Zdigits2 m + e) = e)%Z.

Lemma shr_fexp_good (m e : Z) (l : location) (r : shr_record) (e' : Z) :
  (0 <= m)%Z -> (e <= fexp prec emax (Zdigits2 m + e))%Z ->
  shr_fexp prec emax m e l = (r, e') -> good_mantissa (shr_m r) e'.
Proof.
  intros Hm He Hs. unfold shr_fexp in Hs.
  remember (fexp prec emax (Zdigits2 m + e) - e)%Z as n eqn:En.
  assert (Hr : shr_m r = (m / 2 ^ n)%Z /\ e' = (e + n)%Z).
  { assert (Hl : shr_m (shr_record_of_loc m l) = m) by (now destruct l as [|[]]).
    unfold shr in Hs. destruct n as [|p|p]; injection Hs as <- <-; try lia.
    - rewrite Hl, Z.pow_0_r, Z.div_1_r. lia.
    - rewrite iter_shr_1_m, Hl by lia. auto. }
  destruct Hr as [-> ->]. replace (e + n)%Z with (fexp prec emax (Zdigits2 m + e)) by lia.
  assert (0 <= m / 2 ^ n)%Z by (apply Z.div_pos; [lia | apply pow2_pos; lia]).
  destruct (Z.eq_dec (m / 2 ^ n)%Z 0%Z) as [Hz|Hnz].
  - left. split; [exact Hz |].
    assert (Zdigits2 m <= n)%Z.
    { destruct (Z.eq_dec m 0%Z) as [->|]; [cbn; lia |].
      pose proof (Zdigits2_bounds m ltac:(lia)) as [? [Hlo _]].
      apply Z.div_small_iff in Hz; [|pose proof (pow2_pos n); lia].
      apply Z.nlt_ge. intros Hlt.
      assert (2 ^ n <= 2 ^ (Zdigits2 m - 1))%Z by (apply Z.pow_le_mono_r; lia). lia. }
    unfold fexp, emin, prec, emax in *. lia.
  - right. split; [lia |]. rewrite Zdigits2_shr by lia. f_equal. lia.
Qed.

Lemma binary_round_aux_valid (s : bool) (m e : Z) (l : location) :
  (0 <= m)%Z -> (e <= fexp prec emax (Zdigits2 m + e))%Z ->
  valid_binary prec emax (binary_round_aux prec emax s m e l) = true.
Proof.
  intros Hm He. unfold binary_round_aux.
  destruct (shr_fexp prec emax m e l) as [r1 e1] eqn:E1.
  pose proof (shr_fexp_good _ _ _ _ _ Hm He E1) as G1.
  remember (round_nearest_even (shr_m r1) (loc_of_shr_record r1)) as m2 eqn:Em2.
  assert (H2 : (shr_m r1 <= m2 <= shr_m r1 + 1)%Z).
  { subst m2. unfold round_nearest_even. destruct (loc_of_shr_record r1) as [|[]]; try lia.
    destruct (Z.even (shr_m r1)); lia. }
  assert (H1 : (0 <= shr_m r1)%Z) by (destruct G1; lia).
  destruct (shr_fexp prec emax m2 e1 loc_Exact) as [r2 e2] eqn:E2.
  assert (He1 : (e1 <= fexp prec emax (Zdigits2 m2 + e1))%Z).
  { destruct G1 as [[_ ->]|[_ G1]]; [unfold fexp; lia |].
    rewrite <- G1 at 1. apply fexp_mono. pose proof (Zdigits2_mono (shr_m r1) m2). lia. }
  apply shr_fexp_good in E2; [|lia|exact He1].
  destruct (shr_m r2) as [|p|p]; try reflexivity.
  destruct (Z.leb_spec e2 (emax - prec)); [|reflexivity].
  destruct E2 as [[? _]|[_ E2]]; [lia |]. cbn [valid_binary].
  unfold bounded, canonical_mantissa. cbn [Zdigits2] in E2. rewrite E2, Z.eqb_refl. cbn.
  now apply Z.leb_le.
Qed.

Lemma iter_xO (m d : positive) : Zpos (Pos.iter xO m d) = (Zpos m * 2 ^ Zpos d)%Z.
Proof.
  induction d as [|d IH] using Pos.peano_ind; [cbn; lia |].
  rewrite Pos.iter_succ, Pos2Z.inj_xO, IH, Pos2Z.inj_succ, Z.pow_succ_r by lia. ring.
Qed.

(** Aligning a mantissa to a smaller exponent keeps its value. *)
Lemma shl_align_fst (m : positive) (e e' : Z) :
  (e' <= e)%Z -> Zpos (fst (shl_align m e e')) = (Zpos m * 2 ^ (e - e'))%Z.
Proof.
  intros He. unfold shl_align. destruct (e' - e)%Z as [|p|p] eqn:E; try lia.
  - replace (e - e')%Z with 0%Z by lia. cbn. lia.
  - cbn [fst]. rewrite iter_xO. do 2 f_equal. lia.
Qed.

Lemma Zdigits2_shl (m n : Z) :
  (0 < m)%Z -> (0 <= n)%Z -> Zdigits2 (m * 2 ^ n) = (Zdigits2 m + n)%Z.
Proof.
  intros Hm Hn. pose proof (Zdigits2_bounds m Hm) as [? [Hlo Hhi]]. pose proof (pow2_pos n Hn).
  apply Zdigits2_unique; [lia |].
  replace (Zdigits2 m + n - 1)%Z with (Zdigits2 m - 1 + n)%Z by lia.
  rewrite !Z.pow_add_r by lia. split.
  - apply Z.mul_le_mono_nonneg_r; lia.
  - apply Z.mul_lt_mono_pos_r; lia.
Qed.

Lemma binary_round_valid (s : bool) (m : positive) (e : Z) :
  valid_binary prec emax (binary_round prec emax s m e) = true.
Proof.
  unfold binary_round. remember (fexp prec emax (Zpos (digits2_pos m) + e)) as f eqn:Ef.
  destruct (shl_align m e f) as [mz ez] eqn:E. apply binary_round_aux_valid; [lia |].
  change (Zpos (digits2_pos m)) with (Zdigits2 (Zpos m)) in Ef.
  destruct (Z.le_gt_cases f e) as [Hle|Hgt].
  - pose proof (shl_align_fst m e f Hle) as Hm. rewrite E in Hm; cbn [fst] in Hm.
    assert (ez = f) as ->.
    { unfold shl_align in E. destruct (f - e)%Z eqn:?; injection E as <- <-; lia. }
    rewrite Hm, Zdigits2_shl by lia. rewrite Ef at 1. apply fexp_mono. lia.
  - unfold shl_align in E. destruct (f - e)%Z eqn:?; try lia. injection E as <- <-.
    rewrite <- Ef. lia.
Qed.

Lemma binary_normalize_valid (m e : Z) :
  valid_binary prec emax (binary_normalize prec emax m e false) = true.
Proof. destruct m; cbn; auto using binary_round_valid. Qed.

Lemma d_of_Z_valid (z : Z) : valid_binary prec emax (d_of_Z z) = true.
Proof. apply binary_normalize_valid. Qed.

Lemma d_add_valid (x y : double) :
  valid_binary prec emax x = true -> valid_binary prec emax y = true ->
  valid_binary prec emax (d_add x y) = true.
Proof.
  intros Hx Hy. unfold d_add.
  destruct x as [[]|[]| |], y as [[]|[]| |]; cbn [SFadd]; try assumption; try reflexivity;
  apply binary_normalize_valid.
Qed.

Lemma d_sub_valid (x y : double) :
  valid_binary prec emax x = true -> valid_binary prec emax y = true ->
  valid_binary prec emax (d_sub x y) = true.
Proof.
  intros Hx Hy. unfold d_sub.
  destruct x as [[]|[]| |], y as [[]|[]| |]; cbn [SFsub]; try assumption; try reflexivity;
  apply binary_normalize_valid.
Qed.

Lemma Zdigits2_mul (a b : Z) :
  (0 < a)%Z -> (0 < b)%Z -> (Zdigits2 a + Zdigits2 b - 1 <= Zdigits2 (a * b))%Z.
Proof.
  intros Ha Hb. pose proof (Zdigits2_bounds a Ha) as [? [Alo _]].
  pose proof (Zdigits2_bounds b Hb) as [? [Blo _]].
  rewrite <- (Zdigits2_unique (2 ^ (Zdigits2 a - 1) * 2 ^ (Zdigits2 b - 1))
                              (Zdigits2 a + Zdigits2 b - 1)); [| lia |].
  - apply Zdigits2_mono. split; [apply Z.mul_nonneg_nonneg; lia |].
    apply Z.mul_le_mono_nonneg; lia.
  - rewrite <- Z.pow_add_r by lia. split.
    + apply Z.pow_le_mono_r; lia.
    + apply Z.pow_lt_mono_r; lia.
Qed.

Lemma d_mul_valid (x y : double) :
  valid_binary prec emax x = true -> valid_binary prec emax y = true ->
  valid_binary prec emax (d_mul x y) = true.
Proof.
  intros Hx Hy. unfold d_mul.
  destruct x as [sx|sx| |sx mx ex], y as [sy|sy| |sy my ey]; cbn [SFmul]; try reflexivity.
  cbn [valid_binary] in *. apply binary_round_aux_valid; [lia |].
  pose proof (Zdigits2_mul (Zpos mx) (Zpos my) ltac:(lia) ltac:(lia)) as Hd.
  change (Zpos mx * Zpos my)%Z with (Zpos (mx * my)) in Hd.
  unfold bounded, canonical_mantissa in *. cbn [Zdigits2] in *.
  apply andb_true_iff in Hx as [Hx _], Hy as [Hy _]. apply Z.eqb_eq in Hx, Hy.
  unfold fexp, emin, prec, emax in *. lia.
Qed.

(** The quotient of the division algorithm has enough digits to be rounded. *)
Lemma div_core_valid (s : bool) (m1 m2 : positive) (e1 e2 q e : Z) (l : location) :
  SFdiv_core_binary prec emax (Zpos m1) e1 (Zpos m2) e2 = (q, e, l) ->
  valid_binary prec emax (binary_round_aux prec emax s q e l) = true.
Proof.
  unfold SFdiv_core_binary.
  set (d1 := Zdigits2 (Zpos m1)). set (d2 := Zdigits2 (Zpos m2)).
  set (f := fexp prec emax (d1 + e1 - (d2 + e2))).
  remember (e1 - e2 - Z.min f (e1 - e2))%Z as sh eqn:Esh.
  assert (Hsh : (0 <= sh)%Z) by lia.
  replace (match sh with | 0 => Zpos m1 | Zpos _ => Z.shiftl (Zpos m1) sh | Zneg _ => 0 end)%Z
    with (Zpos m1 * 2 ^ sh)%Z
    by (destruct sh; [cbn; lia | now rewrite Z.shiftl_mul_pow2 by lia | lia]).
  destruct (Z.div_eucl (Zpos m1 * 2 ^ sh) (Zpos m2)) as [q' r'] eqn:Eq. intros [= <- <- <-].
  assert (Hq : q' = (Zpos m1 * 2 ^ sh / Zpos m2)%Z) by (unfold Z.div; now rewrite Eq).
  pose proof (pow2_pos sh Hsh).
  assert (0 <= q')%Z by (subst q'; apply Z.div_pos; lia).
  apply binary_round_aux_valid; [assumption |].
  enough (d1 + sh - d2 <= Zdigits2 q')%Z.
  { transitivity f; [lia |]. unfold f at 1. apply fexp_mono. lia. }
  destruct (Z.le_gt_cases (d1 + sh - d2) 0) as [?|Hpos].
  { transitivity 0%Z; [assumption |]. destruct q'; cbn [Zdigits2]; lia. }
  rewrite <- (Zdigits2_unique (2 ^ (d1 + sh - d2 - 1)) (d1 + sh - d2)); [|lia|].
  2: { split; [lia | apply Z.pow_lt_mono_r; lia]. }
  apply Zdigits2_mono. split; [pose proof (pow2_pos (d1 + sh - d2 - 1)); lia |].
  pose proof (Zdigits2_bounds (Zpos m1) ltac:(lia)) as [Pos1 [Lo1 _]].
  pose proof (Zdigits2_bounds (Zpos m2) ltac:(lia)) as [Pos2 [_ Hi2]].
  fold d1 in Pos1, Lo1. fold d2 in Pos2, Hi2.
  subst q'. apply Z.div_le_lower_bound; [lia |].
  transitivity (2 ^ d2 * 2 ^ (d1 + sh - d2 - 1))%Z.
  - apply Z.mul_le_mono_nonneg_r; [|lia]. apply Z.lt_le_incl, pow2_pos. lia.
  - rewrite <- Z.pow_add_r by lia.
    replace (d2 + (d1 + sh - d2 - 1))%Z with (d1 - 1 + sh)%Z by lia.
    rewrite Z.pow_add_r by lia. apply Z.mul_le_mono_nonneg_r; lia.
Qed.

Lemma d_div_valid (x y : double) : valid_binary prec emax (d_div x y) = true.
Proof.
  unfold d_div.
  destruct x as [sx|sx| |sx mx ex], y as [sy|sy| |sy my ey]; cbn [SFdiv]; try reflexivity.
  destruct (SFdiv_core_binary _ _ _ _ _ _) as [[q e] l] eqn:E. eapply div_core_valid; eauto.
Qed.

Lemma d_of_ratio_valid (n : Z) (d : positive) : valid_binary prec emax (d_of_ratio n d) = true.
Proof.
  unfold d_of_ratio. destruct n; [reflexivity | |];
    destruct (SFdiv_core_binary _ _ _ _ _ _) as [[q e] l] eqn:E; eapply div_core_valid; eauto.
Qed.

#[export] Hint Resolve d_of_Z_valid d_add_valid d_sub_valid d_mul_valid d_div_valid
  d_of_ratio_valid : trading.

(** ** Signs of rounded results *)

Lemma binary_round_aux_nonneg (m e : Z) (l : location) :
  d_lt (binary_round_aux prec emax false m e l) d_zero = false.
Proof.
  unfold binary_round_aux. destruct (shr_fexp _ _ m e l) as [r1 e1].
  destruct (shr_fexp _ _ _ e1 _) as [r2 e2]. destruct (shr_m r2); [reflexivity | | reflexivity].
  now destruct (e2 <=? emax - prec)%Z.
Qed.

Lemma binary_normalize_nonneg (m e : Z) :
  (0 <= m)%Z -> d_lt (binary_normalize prec emax m e false) d_zero = false.
Proof.
  intros Hm. destruct m as [|p|p]; [reflexivity | | lia]. cbn. unfold binary_round.
  destruct (shl_align _ _ _). apply binary_round_aux_nonneg.
Qed.

(** The exact difference of two finite doubles over their common exponent. *)
Lemma finite_difference (sx sy : bool) (mx my : positive) (ex ey : Z) :
  bounded prec emax mx ex = true -> bounded prec emax my ey = true ->
  (dval (S754_finite sy my ey) <= dval (S754_finite sx mx ex))%Z ->
  (0 <= cond_Zopp sx (Zpos (fst (shl_align mx ex (Z.min ex ey))))
        - cond_Zopp sy (Zpos (fst (shl_align my ey (Z.min ex ey)))))%Z.
Proof.
  intros (Hex & _)%bounded_spec (Hey & _)%bounded_spec. cbn [dval].
  rewrite !shl_align_fst by lia. set (ez := Z.min ex ey).
  replace (ex + 1074)%Z with (ex - ez + (ez + 1074))%Z by lia.
  replace (ey + 1074)%Z with (ey - ez + (ez + 1074))%Z by lia.
  rewrite (Z.pow_add_r 2 (ex - ez)), (Z.pow_add_r 2 (ey - ez)), !Z.mul_assoc by lia.
  set (a := (Zpos mx * 2 ^ (ex - ez))%Z). set (b := (Zpos my * 2 ^ (ey - ez))%Z).
  pose proof (pow2_pos (ez + 1074) ltac:(lia)) as Hp. set (c := (2 ^ (ez + 1074))%Z) in *.
  destruct sx, sy; unfold cond_Zopp; rewrite <- ?Z.mul_opp_l; intros H;
    apply Z.mul_le_mono_pos_r in H; lia.
Qed.

(** Subtracting a double that is not larger never yields a negative one. *)
Lemma d_sub_nonneg (x y : double) :
  d_ok x -> d_ok y -> d_le y x = true -> d_lt (d_sub x y) d_zero = false.
Proof.
  intros Hx Hy Hle. rewrite d_le_dval, Z.leb_le in Hle by assumption.
  destruct Hx as [Vx _], Hy as [Vy _]. unfold d_sub.
  destruct x as [sx|sx| |sx mx ex], y as [sy|sy| |sy my ey]; try reflexivity; cbn [SFsub];
    cbn [valid_binary] in *;
    [ | | | | | | | |apply binary_normalize_nonneg, finite_difference; assumption];
    cbn [dval] in Hle;
    try match type of Vx with bounded _ _ _ _ = true => pose proof (dval_finite_bounds _ _ Vx) end;
    try match type of Vy with bounded _ _ _ _ = true => pose proof (dval_finite_bounds _ _ Vy) end;
    destruct sx, sy; unfold cond_Zopp in Hle; first [reflexivity | exfalso; lia].
Qed.

(** Adding is subtracting the opposite. *)
Lemma d_add_sub_opp (x y : double) : d_add x y = d_sub x (SFopp y).
Proof.
  destruct x as [[]|[]| |[] mx ex], y as [[]|[]| |[] my ey]; try reflexivity;
    unfold d_add, d_sub, SFadd, SFsub, SFopp; cbn [negb];
    destruct (shl_align mx ex _), (shl_align my ey _); cbn [cond_Zopp fst snd]; f_equal; lia.
Qed.

Lemma SFopp_ok (x : double) : d_ok x -> d_ok (SFopp x).
Proof. now destruct x. Qed.

Lemma d_lt_zero_dval (x : double) : d_ok x -> d_lt x d_zero = false <-> (0 <= dval x)%Z.
Proof. intros Hx. rewrite d_lt_dval by (auto; split; reflexivity). rewrite Z.ltb_ge. reflexivity. Qed.

Lemma dval_opp (x : double) : dval (SFopp x) = (- dval x)%Z.
Proof. destruct x as [[]|[]| |[] m e]; cbn; lia. Qed.

(** The sum of two numbers that are not negative is not negative. *)
Lemma d_add_nonneg (x y : double) :
  d_ok x -> d_ok y -> d_lt x d_zero = false -> d_lt y d_zero = false -> d_lt (d_add x y) d_zero = false.
Proof.
  intros Hx Hy Nx%d_lt_zero_dval Ny%d_lt_zero_dval; auto. rewrite d_add_sub_opp.
  apply d_sub_nonneg; auto using SFopp_ok.
  rewrite d_le_dval by auto using SFopp_ok. rewrite dval_opp, Z.leb_le. lia.
Qed.

(** The product of two positive numbers is not negative (it may underflow to 0). *)
Lemma d_mul_nonneg (x y : double) :
  d_lt d_zero x = true -> d_lt d_zero y = true -> d_lt (d_mul x y) d_zero = false.
Proof.
  intros Px Py. unfold d_mul.
  destruct x as [[]|[]| |[] mx ex], y as [[]|[]| |[] my ey]; try discriminate; try reflexivity;
    apply binary_round_aux_nonneg.
Qed.

Lemma binary_round_aux_not_nan (s : bool) (m e : Z) (l : location) :
  (0 <= m)%Z -> d_is_nan (binary_round_aux prec emax s m e l) = false.
Proof.
  intros Hm. unfold binary_round_aux.
  destruct (shr_fexp _ _ m e l) as [r1 e1] eqn:E1. destruct (shr_fexp _ _ _ e1 _) as [r2 e2] eqn:E2.
  assert (H : forall m e l r e', (0 <= m)%Z -> shr_fexp prec emax m e l = (r, e') -> (0 <= shr_m r)%Z).
  { clear. intros m e l r e' Hm. unfold shr_fexp, shr. destruct (_ - _)%Z; intros [= <- <-];
      try (destruct l as [|[]]; exact Hm).
    rewrite iter_shr_1_m by (destruct l as [|[]]; exact Hm).
    apply Z.div_pos; [destruct l as [|[]]; exact Hm | apply pow2_pos; lia]. }
  apply H in E1; [|exact Hm]. apply H in E2; [|unfold round_nearest_even; repeat case_match; lia].
  destruct (shr_m r2); [reflexivity | case_match; reflexivity | lia].
Qed.

Lemma d_mul_not_nan (x y : double) :
  d_lt d_zero x = true -> d_lt d_zero y = true -> d_is_nan (d_mul x y) = false.
Proof.
  intros Px Py. unfold d_mul.
  destruct x as [[]|[]| |[] mx ex], y as [[]|[]| |[] my ey]; try discriminate; try reflexivity;
    apply binary_round_aux_not_nan; lia.
Qed.

Lemma d_pos_of_not_le (x : double) : d_is_nan x = false -> d_le x d_zero = false -> d_lt d_zero x = true.
Proof. destruct x as [[]|[]| |[] m e]; cbn; intros; congruence. Qed.

(** A canonical mantissa is rounded to itself. *)
Lemma binary_round_aux_exact (s : bool) (m : positive) (e : Z) :
  fexp prec emax (Zpos (digits2_pos m) + e) = e -> (e <= 971)%Z ->
  binary_round_aux prec emax s (Zpos m) e loc_Exact = S754_finite s m e.
Proof.
  intros He Hb. assert (E : shr_fexp prec emax (Zpos m) e loc_Exact =
    (shr_record_of_loc (Zpos m) loc_Exact, e)).
  { unfold shr_fexp. cbn [Zdigits2]. rewrite He, Z.sub_diag. reflexivity. }
  unfold binary_round_aux. rewrite E. cbn [shr_record_of_loc shr_m round_nearest_even loc_of_shr_record].
  rewrite E. cbn [shr_record_of_loc shr_m]. unfold emax, prec in *.
  now rewrite (proj2 (Z.leb_le e (1024 - 53)) Hb).
Qed.

(** Integers below 2^53, every [int] among them, are converted exactly. *)
Lemma d_of_Z_exact (p : positive) :
  (Zpos p < 2 ^ 53)%Z ->
  exists m e, d_of_Z (Zpos p) = S754_finite false m e /\ (Zpos m = Zpos p * 2 ^ (- e) /\ -1074 <= e <= 0)%Z.
Proof.
  intros Hp. pose proof (Zdigits2_bounds (Zpos p) ltac:(lia)) as [_ [Hlo Hhi]]. cbn [Zdigits2] in *.
  assert (Hd : (Zpos (digits2_pos p) <= 53)%Z).
  { apply Z.lt_succ_r, Z.lt_pred_lt_succ, (Z.pow_lt_mono_r_iff 2); lia. }
  assert (Hf : fexp prec emax (Zpos (digits2_pos p) + 0) = (Zpos (digits2_pos p) - 53)%Z).
  { unfold fexp, emin, prec, emax. lia. }
  unfold d_of_Z. cbn [binary_normalize]. unfold binary_round. rewrite Hf.
  set (f := (Zpos (digits2_pos p) - 53)%Z) in *. destruct (shl_align p 0 f) as [mz ez] eqn:E.
  pose proof (shl_align_fst p 0 f ltac:(lia)) as Hm. rewrite E in Hm. cbn [fst] in Hm.
  assert (ez = f) as ->. { unfold shl_align in E. destruct (f - 0)%Z eqn:Ef; injection E as _ <-; lia. }
  replace (0 - f)%Z with (- f)%Z in Hm by lia. exists mz, f. split; [|split; [exact Hm | lia]].
  apply binary_round_aux_exact; [|lia].
  pose proof (Zdigits2_shl (Zpos p) (- f) ltac:(lia) ltac:(lia)) as D. rewrite <- Hm in D. cbn [Zdigits2] in D.
  rewrite D. rewrite <- Hf. f_equal. lia.
Qed.

Lemma d_of_Z_pos (z : Z) : (0 < z < 2 ^ 53)%Z -> d_lt d_zero (d_of_Z z) = true.
Proof.
  destruct z as [|p|p]; try lia. intros [_ H]. destruct (d_of_Z_exact p H) as (m & e & -> & _). reflexivity.
Qed.

Lemma d_of_Z_ok (z : Z) : d_ok (d_of_Z z).
Proof.
  split; [apply d_of_Z_valid |]. unfold d_of_Z.
  destruct z; cbn [binary_normalize]; [reflexivity | |]; unfold binary_round;
    destruct (shl_align _ _ _); apply binary_round_aux_not_nan; lia.
Qed.

#[export] Hint Resolve d_of_Z_ok : trading.

(** ** Conversion to integers: truncation towards zero, for finite numbers *)

Definition d_trunc (x : double) : option Z :=
  match x with
  | S754_zero _ => Some 0%Z
  | S754_finite s m e =>
      Some (cond_Zopp s (if (0 <=? e)%Z then Zpos m * 2 ^ e else Zpos m / 2 ^ (- e))%Z)
  | _ => None
  end.

(** [(int64_t)x]: undefined when the truncated value does not fit. *)
Definition d_to_int64 (x : double) : res Z :=
  match d_trunc x with
  | Some z => if in_int64b z then Ok z else UB SignedOverflow
  | None => UB SignedOverflow
  end.

Lemma d_trunc_of_Z (z : Z) : (0 <= z < 2 ^ 53)%Z -> d_trunc (d_of_Z z) = Some z.
Proof.
  destruct z as [|p|p]; [reflexivity | | lia]. intros [_ H].
  destruct (d_of_Z_exact p H) as (m & e & -> & Hm & He). cbn [d_trunc cond_Zopp]. f_equal.
  destruct (Z.leb_spec 0 e).
  - replace e with 0%Z in * by lia. rewrite Hm. cbn [Z.pow Z.opp]. lia.
  - rewrite Hm, Z.div_mul; [reflexivity |]. apply Z.pow_nonzero; lia.
Qed.

Lemma d_to_int64_of_Z (z : Z) : (0 <= z < 2 ^ 53)%Z -> d_to_int64 (d_of_Z z) = Ok z.
Proof.
  intros Hz. unfold d_to_int64. rewrite (d_trunc_of_Z z Hz). unfold in_int64b, INT64_MIN, INT64_MAX.
  destruct (Z.leb_spec (-9223372036854775808) z), (Z.leb_spec z 9223372036854775807); try lia. reflexivity.
Qed.
