(* ===== verification/CString.v ===== *)
(** * C strings and the parts of <string.h>, <ctype.h>, <stdlib.h> and <stdio.h>
    the program uses

    A [const char*] is a [string] (the characters before the terminating NUL);
    a [char x[n]] is a buffer, a list of [n] characters, whose C string is what
    precedes its first NUL.  Reading a buffer without a NUL is undefined.  The
    numeric conversions are those of the C locale. *)

From Stdlib Require Import Ascii String ZArith Lia SpecFloat.
From stdpp Require Import base list numbers strings.
From S2P Require Import Prelude CDouble.

Definition buffer := list ascii.

Definition NUL : ascii := Ascii.zero.

(** ** Buffers *)

(** The C string at the start of a buffer. *)
Fixpoint c_str (b : buffer) : res string :=
  match b with
  | [] => UB Unterminated
  | c :: r => if Ascii.eqb c NUL then Ok ""%string else String c <$> c_str r
  end.

(** What [strncpy(dst, src, n)] makes of the first cells of [dst]: it copies the
    characters of [src], then writes NULs up to [n]; the rest of [dst] is kept. *)
Fixpoint strncpy_fill (dst : buffer) (src : string) (n : nat) : buffer :=
  match n, dst with
  | S n, _ :: dst' =>
      match src with
      | EmptyString => NUL :: strncpy_fill dst' EmptyString n
      | String c src' => c :: strncpy_fill dst' src' n
      end
  | _, _ => dst
  end.

(** [strncpy(dst, src, n)]: it always writes [n] cells, so [dst] must have as many. *)
Definition strncpy (dst : buffer) (src : string) (n : nat) : res buffer :=
  if (n <=? length dst)%nat then Ok (strncpy_fill dst src n) else UB OutOfBounds.

(** What [strncpy] reads from a buffer of at least [n] cells: the characters up to the NUL
    or the [n]-th. *)
Fixpoint c_strn (b : buffer) (n : nat) : string :=
  match n, b with
  | S n, c :: r => if Ascii.eqb c NUL then ""%string else String c (c_strn r n)
  | _, _ => ""%string
  end.

(** [b[i] = c]. *)
Definition buf_set (b : buffer) (i : nat) (c : ascii) : buffer := <[i := c]> b.

(** The C string of a [char[n]] after [strncpy(b, src, n - 1); b[n - 1] = 0]. *)
Definition copy_str (n : nat) (src : string) : string := String.substring 0 (n - 1) src.

Definition zero_buffer (n : nat) : buffer := replicate n NUL.

Fixpoint nul_free (s : string) : bool :=
  match s with
  | EmptyString => true
  | String c s => negb (Ascii.eqb c NUL) && nul_free s
  end.

(** ** Characters *)

Definition code (c : ascii) : Z := Z.of_N (N_of_ascii c).

Definition isdigit (c : ascii) : bool := ((48 <=? code c) && (code c <=? 57))%Z.
Definition isupper (c : ascii) : bool := ((65 <=? code c) && (code c <=? 90))%Z.
Definition islower (c : ascii) : bool := ((97 <=? code c) && (code c <=? 122))%Z.
Definition isalnum (c : ascii) : bool := isdigit c || isupper c || islower c.
Definition isspace (c : ascii) : bool :=
  (((9 <=? code c) && (code c <=? 13)) || (code c =? 32))%Z.

Definition tolower (c : ascii) : ascii :=
  if isupper c then ascii_of_N (N_of_ascii c + 32) else c.

Fixpoint lower (s : string) : string :=
  match s with
  | EmptyString => EmptyString
  | String c s => String (tolower c) (lower s)
  end.

(** ** Strings *)

Definition strlen (s : string) : nat := String.length s.

(** [strcmp(a, b) == 0] and [strcasecmp(a, b) == 0]. *)
Definition str_eq (a b : string) : bool := String.eqb a b.
Definition str_case_eq (a b : string) : bool := String.eqb (lower a) (lower b).

Fixpoint mem (c : ascii) (s : string) : bool :=
  match s with
  | EmptyString => false
  | String d s => Ascii.eqb c d || mem c s
  end.

(** Skip the characters satisfying [f]. *)
Fixpoint skip_while (f : ascii -> bool) (s : string) : string :=
  match s with
  | EmptyString => EmptyString
  | String c s' => if f c then skip_while f s' else s
  end.

(** The longest prefix of characters satisfying [f], and the rest. *)
Fixpoint span (f : ascii -> bool) (s : string) : string * string :=
  match s with
  | EmptyString => (EmptyString, EmptyString)
  | String c s' =>
      if f c then let '(a, b) := span f s' in (String c a, b) else (EmptyString, s)
  end.

(** [strtok]: skip leading delimiters, return the token and what the next call
    starts from (past the delimiter that ended the token). *)
Definition strtok (delim : string) (s : string) : option (string * string) :=
  match skip_while (fun c => mem c delim) s with
  | EmptyString => None
  | s' =>
      let '(token, rest) := span (fun c => negb (mem c delim)) s' in
      Some (token, match rest with String _ r => r | EmptyString => EmptyString end)
  end.

(** [strrchr(s, c)], without the character itself: what follows the last [c]. *)
Fixpoint after_last (c : ascii) (s : string) : option string :=
  match s with
  | EmptyString => None
  | String d s' =>
      match after_last c s' with
      | Some r => Some r
      | None => if Ascii.eqb d c then Some s' else None
      end
  end.

(** The part of [s] before the first [c] ([strchr] followed by a NUL write). *)
Fixpoint before_first (c : ascii) (s : string) : string :=
  match s with
  | EmptyString => EmptyString
  | String d s' => if Ascii.eqb d c then EmptyString else String d (before_first c s')
  end.

(** ** Numbers from strings *)

Definition digit_value (c : ascii) : Z := code c - 48.

Definition hex_value (c : ascii) : option Z :=
  if isdigit c then Some (code c - 48)%Z
  else if ((97 <=? code c) && (code c <=? 102))%Z then Some (code c - 87)%Z
  else if ((65 <=? code c) && (code c <=? 70))%Z then Some (code c - 55)%Z
  else None.

Definition ishex (c : ascii) : bool :=
  match hex_value c with Some _ => true | None => false end.

(** Value of a digit sequence in a base, most significant first. *)
Fixpoint digits_value (base : Z) (acc : Z) (s : string) : Z :=
  match s with
  | EmptyString => acc
  | String c s =>
      digits_value base (acc * base + match hex_value c with Some d => d | None => 0 end) s
  end.

(** An optional sign. *)
Definition parse_sign (s : string) : bool * string :=
  match s with
  | String c r => if (code c =? 45)%Z then (true, r) else if (code c =? 43)%Z then (false, r) else (false, s)
  | EmptyString => (false, s)
  end.

(** [atoi]: [strtol] in base 10, saturating at 64 bits, converted to [int]. *)
Definition atoi (s : string) : Z :=
  let '(neg, r) := parse_sign (skip_while isspace s) in
  let v := digits_value 10 0 (fst (span isdigit r)) in
  let v := if neg then (- v)%Z else v in
  to_int (Z.max INT64_MIN (Z.min INT64_MAX v)).

(** An exponent part [e[sign]digits]; absent or malformed counts as 0. *)
Definition parse_exponent (marker : ascii -> bool) (s : string) : Z :=
  match s with
  | String c r =>
      if marker c then
        let '(neg, r) := parse_sign r in
        let v := digits_value 10 0 (fst (span isdigit r)) in
        if neg then (- v)%Z else v
      else 0%Z
  | EmptyString => 0%Z
  end.

(** Integer part, fraction and what follows, for a digit class. *)
Definition parse_mantissa (isd : ascii -> bool) (s : string) : string * string * string :=
  let '(int_part, r) := span isd s in
  match r with
  | String c r' =>
      if (code c =? 46)%Z then let '(frac, r'') := span isd r' in (int_part, frac, r'')
      else (int_part, EmptyString, r)
  | EmptyString => (int_part, EmptyString, EmptyString)
  end.

(** [n * 10^e], correctly rounded. *)
Definition d_of_decimal (neg : bool) (n e : Z) : double :=
  match n with
  | Zpos _ =>
      let x := if (0 <=? e)%Z then d_of_Z (n * 10 ^ e) else d_of_ratio n (Z.to_pos (10 ^ (- e))) in
      if neg then SFopp x else x
  | _ => S754_zero neg
  end.

(** [n * 2^e], correctly rounded. *)
Definition d_of_binary (neg : bool) (n e : Z) : double :=
  match n with
  | Zpos p => binary_round prec emax neg p e
  | _ => S754_zero neg
  end.

Definition is_prefix (p s : string) : bool := String.prefix p s.

(** [atof], that is [strtod]: decimal and hexadecimal numbers, infinities, NaN;
    0 when no conversion is possible. *)
Definition atof (s : string) : double :=
  let '(neg, r) := parse_sign (skip_while isspace s) in
  let l := lower r in
  if is_prefix "inf" l then S754_infinity neg
  else if is_prefix "nan" l then S754_nan
  else
    let hex := is_prefix "0x" l in
    let '(hi, hf, hr) := parse_mantissa ishex (String.substring 2 (strlen r - 2) r) in
    if hex && negb (str_eq (hi +:+ hf) "") then
      d_of_binary neg (digits_value 16 0 (hi +:+ hf))
        (parse_exponent (fun c => (code c =? 112)%Z || (code c =? 80)%Z) hr - 4 * Z.of_nat (strlen hf))
    else
      let '(di, df, dr) := parse_mantissa isdigit r in
      if str_eq (di +:+ df) "" then d_zero
      else d_of_decimal neg (digits_value 10 0 (di +:+ df))
             (parse_exponent (fun c => (code c =? 101)%Z || (code c =? 69)%Z) dr - Z.of_nat (strlen df)).

(** ** Numbers to strings *)

Definition digit_char (d : Z) : ascii := ascii_of_N (Z.to_N (d + 48)).

(** Decimal digits of a non-negative integer; [fuel] bounds their number. *)
Fixpoint nat_digits (fuel : nat) (n : Z) (acc : string) : string :=
  match fuel with
  | O => acc
  | S fuel =>
      let acc := String (digit_char (n mod 10)) acc in
      if (n <? 10)%Z then acc else nat_digits fuel (n / 10) acc
  end.

(** Enough fuel: one binary digit never needs more than one decimal digit. *)
Definition print_nat (n : Z) : string := nat_digits (S (Z.to_nat (Z.log2_up (n + 1)))) n "".

(** [%d] and [%ld]. *)
Definition print_int (n : Z) : string :=
  if (n <? 0)%Z then String "-" (print_nat (- n)) else print_nat n.

(** Round [n / d] to the nearest integer, ties to even. *)
Definition div_round_even (n d : Z) : Z :=
  let q := (n / d)%Z in
  match (2 * (n mod d) ?= d)%Z with
  | Lt => q
  | Gt => q + 1
  | Eq => if Z.even q then q else q + 1
  end%Z.

(** [%.2f]. *)
Definition print_double2 (x : double) : string :=
  let print (s : bool) (cents : Z) :=
    (if s then "-" else "")%string +:+ print_nat (cents / 100) +:+ "." +:+
    String (digit_char (cents mod 100 / 10)) (String (digit_char (cents mod 10)) "") in
  match x with
  | S754_nan => "nan"
  | S754_infinity s => if s then "-inf" else "inf"
  | S754_zero s => print s 0%Z
  | S754_finite s m e =>
      print s (if (0 <=? e)%Z then (Zpos m * 100 * 2 ^ e)%Z
               else div_round_even (Zpos m * 100) (2 ^ (- e)))
  end.

(** The C string of a [char[n]] after [snprintf(b, n, ...)] producing [s]. *)
Definition snprintf (n : nat) (s : string) : string := String.substring 0 (n - 1) s.

(** ** Lemmas *)

Lemma strncpy_ok (dst : buffer) (src : string) (n : nat) :
  (n <= length dst)%nat -> strncpy dst src n = Ok (strncpy_fill dst src n).
Proof. intros H. unfold strncpy. now rewrite (proj2 (Nat.leb_le _ _) H). Qed.

Lemma length_strncpy (dst : buffer) (src : string) (n : nat) :
  length (strncpy_fill dst src n) = length dst.
Proof.
  revert dst src. induction n as [|n IH]; intros [|c dst] src; try reflexivity.
  cbn. destruct src; cbn; now rewrite IH.
Qed.

Lemma eqb_NUL (c : ascii) (s : string) : nul_free (String c s) = true -> Ascii.eqb c NUL = false.
Proof. cbn. now destruct (Ascii.eqb c NUL). Qed.

(** A short string is copied whole and terminated, whatever the buffer held. *)
Lemma c_str_strncpy (dst : buffer) (src : string) (n : nat) :
  nul_free src = true -> (strlen src < n)%nat -> (n <= length dst)%nat ->
  c_str (strncpy_fill dst src n) = Ok src.
Proof.
  revert dst src. induction n as [|n IH]; intros dst src Hf Hs Hd; [lia |].
  destruct dst as [|c dst]; cbn in Hd; [lia |].
  destruct src as [|a src]; cbn in Hs |- *; [reflexivity |].
  pose proof (eqb_NUL _ _ Hf) as ->. cbn in Hf. apply andb_true_iff in Hf as [_ Hf].
  rewrite IH by (unfold strlen in *; auto; lia). reflexivity.
Qed.

Lemma substring_full (s : string) (n : nat) :
  (strlen s <= n)%nat -> String.substring 0 n s = s.
Proof.
  unfold strlen. revert n. induction s as [|c s IH]; intros [|n] H; cbn in *; auto; [lia |].
  now rewrite IH by lia.
Qed.

Lemma length_substring (s : string) (n : nat) :
  strlen (String.substring 0 n s) = Nat.min n (strlen s).
Proof.
  unfold strlen. revert n. induction s as [|c s IH]; intros [|n]; cbn; auto.
Qed.

(** The explicit terminator makes the copy the truncated string. *)
Lemma c_str_copy (dst : buffer) (src : string) (n : nat) :
  nul_free src = true -> (0 < n)%nat -> length dst = n ->
  c_str (buf_set (strncpy_fill dst src (n - 1)) (n - 1) NUL) = Ok (copy_str n src).
Proof.
  unfold copy_str, buf_set. revert dst src.
  induction n as [|n IH]; intros dst src Hf Hn Hd; [lia |].
  replace (S n - 1)%nat with n by lia. destruct dst as [|c dst]; [discriminate |]. cbn in Hd.
  destruct n as [|n].
  - destruct src; reflexivity.
  - destruct src as [|a src]; [reflexivity |]. cbn [strncpy_fill].
    change (<[S n:=NUL]> (a :: strncpy_fill dst src n)) with (a :: <[n:=NUL]> (strncpy_fill dst src n)).
    cbn [c_str]. rewrite (eqb_NUL _ _ Hf). cbn in Hf. apply andb_true_iff in Hf as [_ Hf].
    specialize (IH dst src Hf ltac:(lia) ltac:(lia)).
    replace (S n - 1)%nat with n in IH by lia. rewrite IH. reflexivity.
Qed.

Lemma copy_str_short (n : nat) (s : string) : (strlen s < n)%nat -> copy_str n s = s.
Proof. intros H. apply substring_full. lia. Qed.

Lemma str_eq_spec (a b : string) : str_eq a b = true <-> a = b.
Proof. apply String.eqb_eq. Qed.

Lemma SFopp_valid (x : double) :
  valid_binary prec emax x = true -> valid_binary prec emax (SFopp x) = true.
Proof. now destruct x. Qed.

(** Every conversion yields a binary64 number. *)
Lemma atof_valid (s : string) : valid_binary prec emax (atof s) = true.
Proof.
  unfold atof. destruct (parse_sign _) as [neg r].
  destruct (is_prefix "inf" _); [reflexivity |]. destruct (is_prefix "nan" _); [reflexivity |].
  destruct (parse_mantissa ishex _) as [[hi hf] hr]. case_match.
  - unfold d_of_binary. case_match; auto using binary_round_valid.
  - destruct (parse_mantissa isdigit _) as [[di df] dr]. case_match; [reflexivity |].
    unfold d_of_decimal. case_match; try reflexivity.
    destruct neg; try apply SFopp_valid; case_match; auto with trading.
Qed.

Lemma atoi_range (s : string) : in_int (atoi s).
Proof. unfold atoi. destruct (parse_sign _). apply to_int_range. Qed.

#[export] Hint Resolve atof_valid atoi_range : trading.

(** ** More on buffers *)

Fixpoint chars (s : string) : list ascii :=
  match s with
  | EmptyString => []
  | String c s => c :: chars s
  end.

(** [snprintf(b, n, ...)] with [n] the size of [b], producing [s]: the output is cut
    to leave room for the NUL; the rest of [b] is kept. *)
Definition snprintf_buf (b : buffer) (s : string) : buffer :=
  match b with
  | [] => []
  | _ => let out := chars (snprintf (length b) s) ++ [NUL] in out ++ drop (length out) b
  end.

(** [strncpy(b, s, n)] with [n] the size of [b]. *)
Definition strncpy_buf (b : buffer) (s : string) : buffer := strncpy_fill b s (length b).

Lemma strncpy_c_strn (dst b : buffer) (s : string) (n : nat) :
  c_str b = Ok s -> strncpy_fill dst (c_strn b n) n = strncpy_fill dst s n.
Proof.
  revert dst b s. induction n as [|n IH]; intros dst b s Hb; destruct dst as [|d dst]; try reflexivity.
  destruct b as [|c b]; cbn in Hb |- *; [discriminate Hb |]. destruct (Ascii.eqb c NUL); [now injection Hb as <- |].
  destruct (c_str b) as [r| |] eqn:E; cbn in Hb; inv_res. f_equal. now apply IH.
Qed.

Lemma length_chars (s : string) : length (chars s) = strlen s.
Proof. unfold strlen. induction s; cbn; auto. Qed.

Lemma length_snprintf_buf (b : buffer) (s : string) : length (snprintf_buf b s) = length b.
Proof.
  destruct b as [|c b]; [reflexivity |]. unfold snprintf_buf, snprintf. cbv zeta.
  rewrite !length_app, length_drop, ?length_app, length_chars, length_substring. cbn. lia.
Qed.

Lemma c_str_chars (s : string) (rest : buffer) :
  nul_free s = true -> c_str (chars s ++ NUL :: rest) = Ok s.
Proof.
  induction s as [|c s IH]; intros Hf; [reflexivity |]. cbn.
  rewrite (eqb_NUL _ _ Hf). cbn in Hf. apply andb_true_iff in Hf as [_ Hf]. now rewrite IH.
Qed.

Lemma c_str_nul_free (b : buffer) (s : string) : c_str b = Ok s -> nul_free s = true.
Proof.
  revert s. induction b as [|c b IH]; intros s; cbn; [discriminate |].
  destruct (Ascii.eqb c NUL) eqn:E; [intros [= <-]; reflexivity |].
  destruct (c_str b) as [r| |]; cbn; try discriminate. intros [= <-]. cbn. now rewrite E, IH.
Qed.

(** A C string is shorter than the buffer that holds it. *)
Lemma c_str_length (b : buffer) (s : string) : c_str b = Ok s -> (strlen s < length b)%nat.
Proof.
  unfold strlen. revert s. induction b as [|c b IH]; intros s; cbn; [discriminate |].
  destruct (Ascii.eqb c NUL); [intros [= <-]; cbn; lia |].
  destruct (c_str b) as [r| |]; cbn; try discriminate. intros [= <-]. cbn. specialize (IH r eq_refl). lia.
Qed.

(** A copy that fills all but the last byte is terminated only if that byte is. *)
Lemma c_str_strncpy_full (dst : buffer) (c : ascii) (src : string) :
  nul_free src = true -> (length dst <= strlen src)%nat -> Ascii.eqb c NUL = false ->
  c_str (strncpy_fill (dst ++ [c]) src (length dst)) = UB Unterminated.
Proof.
  revert src. induction dst as [|d dst IH]; intros src Hf Hl Hc; cbn.
  - now rewrite Hc.
  - destruct src as [|a src]; cbn in Hl; [unfold strlen in Hl; cbn in Hl; lia |]. cbn.
    pose proof (eqb_NUL _ _ Hf) as ->. cbn in Hf. apply andb_true_iff in Hf as [_ Hf].
    rewrite IH by (unfold strlen in *; cbn in *; auto; lia). reflexivity.
Qed.

(** A copy into 15 bytes of a zeroed [char[16]] stays terminated. *)
Lemma strncpy_zero_last (dst : buffer) (src : string) (n : nat) :
  strncpy_fill (dst ++ [NUL]) src n = strncpy_fill dst src n ++ [NUL] \/ (length dst < n)%nat.
Proof.
  revert dst src. induction n as [|n IH]; intros [|c dst] src; cbn; auto; [right; lia |].
  destruct src as [|a src]; [destruct (IH dst EmptyString) as [->|?] | destruct (IH dst src) as [->|?]];
    solve [left; reflexivity | right; lia].
Qed.

Lemma c_str_zeroed (symbol : string) :
  nul_free symbol = true -> c_str (strncpy_fill (zero_buffer 16) symbol 15) = Ok (copy_str 16 symbol).
Proof.
  intros Hf. rewrite <- (c_str_copy (zero_buffer 16) symbol 16 Hf ltac:(lia) eq_refl). cbn [Nat.sub]. f_equal.
  change (zero_buffer 16) with (zero_buffer 15 ++ [NUL]).
  destruct (strncpy_zero_last (zero_buffer 15) symbol 15) as [E|E]; [|cbn in E; lia]. rewrite E. symmetry.
  apply list_insert_id. rewrite lookup_app_r; rewrite length_strncpy; cbn; [reflexivity | lia].
Qed.

Lemma c_str_zeroed_short (symbol : string) :
  nul_free symbol = true -> (strlen symbol <= 15)%nat -> c_str (strncpy_fill (zero_buffer 16) symbol 15) = Ok symbol.
Proof. intros Hf Hl. rewrite c_str_zeroed by exact Hf. now rewrite copy_str_short by lia. Qed.

(** ** Searching a table of names *)

(** The loop over [names[i .. i + n - 1]]: the index of the first one [strcmp] finds
    equal to [symbol]. *)
Fixpoint find_name (names : list buffer) (symbol : string) (i n : nat) : res (option nat) :=
  match n with
  | O => Ok None
  | S n =>
      match names !! i with
      | None => UB OutOfBounds
      | Some b => s ← c_str b;
                  if str_eq s symbol then Ok (Some i) else find_name names symbol (S i) n
      end
  end.

Lemma find_name_spec (names : list string) (bufs : list buffer) (symbol : string) (i : nat) :
  (forall k name, names !! k = Some name -> exists b, bufs !! (i + k)%nat = Some b /\ c_str b = Ok name) ->
  find_name bufs symbol i (length names) =
  Ok ((fun k => (i + k)%nat) <$> (fst <$> list_find (fun x => x = symbol) names)).
Proof.
  revert i. induction names as [|name names IH]; intros i H; [reflexivity |]. cbn [length find_name].
  destruct (H 0%nat name eq_refl) as (b & Hb & Hc). rewrite Nat.add_0_r in Hb. rewrite Hb, Hc.
  cbn [mbind res_bind list_find]. destruct (decide (name = symbol)) as [->|Hne].
  - unfold str_eq. rewrite String.eqb_refl. cbn. do 2 f_equal. lia.
  - unfold str_eq. rewrite (proj2 (String.eqb_neq _ _) Hne). rewrite IH.
    + destruct (list_find _ names) as [[k x]|]; cbn; [|reflexivity]. do 2 f_equal. lia.
    + intros k x Hx. destruct (H (S k) x Hx) as (b' & Hb' & Hc'). exists b'. split; [|exact Hc'].
      rewrite <- Hb'. f_equal. lia.
Qed.

(** ** Printed integers *)

Lemma digit_not_NUL d : (0 <= d < 10)%Z -> Ascii.eqb (digit_char d) NUL = false.
Proof.
  intros Hd. assert (Hc : (d = 0 \/ d = 1 \/ d = 2 \/ d = 3 \/ d = 4 \/ d = 5 \/ d = 6 \/ d = 7 \/ d = 8 \/ d = 9)%Z) by lia.
  destruct_or? Hc; subst d; reflexivity.
Qed.

Lemma nat_digits_nul_free fuel n acc : nul_free acc = true -> nul_free (nat_digits fuel n acc) = true.
Proof.
  revert n acc. induction fuel as [|fuel IH]; intros n acc Ha; [exact Ha |]. cbn [nat_digits].
  assert (Hd : nul_free (String (digit_char (n mod 10)) acc) = true).
  { cbn [nul_free]. rewrite digit_not_NUL by (apply Z.mod_pos_bound; lia). exact Ha. }
  destruct (n <? 10)%Z; [exact Hd | now apply IH].
Qed.

Lemma nat_digits_length k fuel n acc :
  (0 <= n < 10 ^ Z.of_nat (S k))%Z -> (strlen (nat_digits fuel n acc) <= S k + strlen acc)%nat.
Proof.
  revert k n acc. induction fuel as [|fuel IH]; intros k n acc Hn; [cbn; unfold strlen; lia |]. cbn [nat_digits].
  destruct (Z.ltb_spec n 10); [cbn; unfold strlen; lia |]. destruct k as [|k]; [cbn in Hn; lia |].
  rewrite Nat2Z.inj_succ, Z.pow_succ_r in Hn by lia.
  specialize (IH k (n / 10)%Z (String (digit_char (n mod 10)) acc)). cbn in IH. unfold strlen in *.
  assert (0 <= n / 10 < 10 ^ Z.of_nat (S k))%Z by (split; [apply Z.div_pos; lia | apply Z.div_lt_upper_bound; lia]).
  specialize (IH ltac:(assumption)). cbn in IH |- *. lia.
Qed.

Lemma print_int_nul_free n : nul_free (print_int n) = true.
Proof. unfold print_int, print_nat. destruct (n <? 0)%Z; [change (nul_free (nat_digits (S (Z.to_nat (Z.log2_up (- n + 1)))) (- n) "") = true) |]; now apply nat_digits_nul_free. Qed.

Lemma print_int_length n : (0 <= n <= INT64_MAX)%Z -> (strlen (print_int n) <= 19)%nat.
Proof.
  intros Hn. unfold print_int, print_nat. destruct (Z.ltb_spec n 0); [lia |].
  generalize (S (Z.to_nat (Z.log2_up (n + 1)))). intros fuel. pose proof (nat_digits_length 18 fuel n "") as H0.
  assert (E : (10 ^ Z.of_nat 19 = 10000000000000000000)%Z) by reflexivity. rewrite E in H0. unfold INT64_MAX in Hn.
  specialize (H0 ltac:(lia)). unfold strlen in *. cbn [String.length] in H0. lia.
Qed.

Lemma nul_free_app a b : nul_free (a +:+ b) = nul_free a && nul_free b.
Proof.
  induction a as [|c a IH]; [reflexivity |]. change (String c a +:+ b) with (String c (a +:+ b)). cbn [nul_free].
  now rewrite IH, andb_assoc.
Qed.

Lemma strlen_app a b : strlen (a +:+ b) = (strlen a + strlen b)%nat.
Proof. induction a as [|c a IH]; [reflexivity | exact (f_equal S IH)]. Qed.

Lemma snprintf_short n s : (strlen s < n)%nat -> snprintf n s = s.
Proof. exact (copy_str_short n s). Qed.

(** ** Words *)

(** A token: not empty, without delimiters. *)
Definition word (delim s : string) : Prop :=
  s <> ""%string /\ span (fun c => negb (mem c delim)) s = (s, ""%string).

#[export] Instance word_dec delim s : Decision (word delim s).
Proof. unfold word. apply _. Defined.

Lemma span_word (f : ascii -> bool) a c r :
  span f a = (a, ""%string) -> f c = false -> span f (a +:+ String c r) = (a, String c r).
Proof.
  intros Ha Hc. induction a as [|d a IH]; [change (""%string +:+ String c r) with (String c r); cbn; now rewrite Hc |].
  change (String d a +:+ String c r) with (String d (a +:+ String c r)). cbn in *.
  destruct (f d); [|discriminate]. destruct (span f a) as [x y]. injection Ha as -> ->. now rewrite IH.
Qed.

Lemma skip_word delim s r : word delim s -> skip_while (fun c => mem c delim) (s +:+ r) = s +:+ r.
Proof.
  intros [Hne Hs]. destruct s as [|c s]; [congruence |]. change (String c s +:+ r) with (String c (s +:+ r)). cbn in *.
  destruct (mem c delim); [discriminate | reflexivity].
Qed.

Lemma strtok_word delim s c r : word delim s -> mem c delim = true -> strtok delim (s +:+ String c r) = Some (s, r).
Proof.
  intros Hw Hc. unfold strtok. rewrite (skip_word delim s _ Hw). destruct Hw as [Hne Hs].
  destruct s as [|d s]; [congruence |]. change (String d s +:+ String c r) with (String d (s +:+ String c r)) at 1. cbv beta iota.
  change (String d (s +:+ String c r)) with (String d s +:+ String c r).
  now rewrite (span_word _ _ c r Hs) by (now rewrite Hc).
Qed.

Lemma strtok_last delim s : word delim s -> strtok delim s = Some (s, ""%string).
Proof.
  intros Hw. pose proof (skip_word delim s "" Hw) as Hk.
  assert (E : forall s, s +:+ "" = s) by (induction s0 as [|c s0 IH]; [reflexivity | exact (f_equal (String c) IH)]).
  rewrite E in Hk. unfold strtok. rewrite Hk. destruct Hw as [Hne Hs]. destruct s as [|d s]; [congruence |]. now rewrite Hs.
Qed.
