(* ===== verification/Logging.v ===== *)
(** * Logging (src/src/utils/logging.c)

    [log_message] writes one line to standard error unless its level is below the current
    one.  The static [current_log_level] is passed along; the formatted message is an
    argument, as is the formatted time.  What a line appends to standard error is the
    result, so that the other components can leave their log lines out: no operation of
    the program reads them. *)

From Stdlib Require Import Ascii String ZArith Lia.
From stdpp Require Import base list numbers strings.
From S2P Require Import Prelude CDouble CString.

Inductive LogLevel : Type :=
| LOG_DEBUG
| LOG_INFO
| LOG_WARNING
| LOG_ERROR.

#[export] Instance LogLevel_eq_dec : EqDecision LogLevel.
Proof. solve_decision. Defined.

(** The values of the enumeration. *)
Definition level_value (level : LogLevel) : Z :=
  match level with
  | LOG_DEBUG => 0
  | LOG_INFO => 1
  | LOG_WARNING => 2
  | LOG_ERROR => 3
  end.

Definition level_strings : list string := ["DEBUG"; "INFO"; "WARNING"; "ERROR"]%string.

(** The last occurrence of a character, as the string that starts there. *)
Fixpoint strrchr (s : string) (c : ascii) : option string :=
  match s with
  | EmptyString => None
  | String a r =>
      match strrchr r c with
      | Some t => Some t
      | None => if Ascii.eqb a c then Some s else None
      end
  end.

Definition get_filename (path : string) : string :=
  match strrchr path "/" with
  | Some (String _ filename) => filename
  | _ => path
  end.

Definition log_eol : string := String (ascii_of_nat 10) "".

(** What a call appends to standard error; [timestamp] is the formatted clock. *)
Definition log_message (current_log_level : LogLevel) (timestamp : string) (level : LogLevel) (file : string)
    (line : Z) (text : string) : res string :=
  if (level_value level <? level_value current_log_level)%Z then Ok ""%string
  else
    match level_strings !! Z.to_nat (level_value level) with
    | None => UB OutOfBounds
    | Some name =>
        Ok ("[" +:+ timestamp +:+ "] [" +:+ name +:+ "] [" +:+ get_filename file +:+ ":" +:+ print_int line +:+ "] " +:+
            text +:+ log_eol)
    end.

(** The new value of [current_log_level]. *)
Definition set_log_level (level : LogLevel) : LogLevel := level.

(** ** Lemmas *)

Fixpoint has_char (c : ascii) (s : string) : bool :=
  match s with
  | EmptyString => false
  | String a r => Ascii.eqb a c || has_char c r
  end.

Lemma strrchr_none s c : has_char c s = false -> strrchr s c = None.
Proof.
  induction s as [|a s IH]; cbn; [reflexivity |]. intros [Ha Hs]%orb_false_iff. now rewrite (IH Hs), Ha.
Qed.

Lemma strrchr_last dir base c : has_char c base = false -> strrchr (dir +:+ String c base) c = Some (String c base).
Proof.
  intros Hb. induction dir as [|a dir IH].
  - change (strrchr (String c base) c = Some (String c base)).
    cbn [strrchr]. now rewrite (strrchr_none _ _ Hb), Ascii.eqb_refl.
  - change (strrchr (String a (dir +:+ String c base)) c = Some (String c base)).
    cbn [strrchr]. now rewrite IH.
Qed.

(** ** Properties *)

(** The file name shown is the path after its last slash, or the path itself. *)
Theorem get_filename_basename dir base :
  has_char "/" base = false ->
  get_filename (dir +:+ String "/" base) = base /\ get_filename base = base.
Proof.
  intros Hb. unfold get_filename. rewrite (strrchr_last dir base "/" Hb), (strrchr_none base "/" Hb). auto.
Qed.

Lemma get_filename_basename_witness :
  get_filename "src/utils/logging.c" = "logging.c"%string /\ get_filename "logging.c" = "logging.c"%string.
Proof. exact (get_filename_basename "src/utils" "logging.c" eq_refl). Defined.

(** A message is written exactly when its level is not below the current one, and then as
    one line with its level's name; in particular errors are always written. *)
Theorem log_message_filters current timestamp level file line text :
  exists name, level_strings !! Z.to_nat (level_value level) = Some name /\
    log_message current timestamp level file line text =
    Ok (if bool_decide (level_value level < level_value current)%Z then ""%string
        else "[" +:+ timestamp +:+ "] [" +:+ name +:+ "] [" +:+ get_filename file +:+ ":" +:+ print_int line +:+ "] " +:+
             text +:+ log_eol)%string.
Proof.
  destruct level, current; eexists; (split; [reflexivity |]); reflexivity.
Qed.
