(* ===== verification/Order.v ===== *)
(** * Orders (src/src/trading_engine/order.c, src/include/trading_engine/order.h)

    Orders live in a store shared by the order book's trees, the loader, the
    server handlers and their callers, so an [Order*] is a location of the store
    [order_heap] and a nullable pointer an [option loc].  Reading a location that
    was freed is undefined.  [malloc] may fail: the operations that allocate take
    whether it succeeds; those that read the clock take its value.  The log lines
    of the source have no effect on the state and are not modelled. *)

From Stdlib Require Import Ascii String ZArith Lia SpecFloat.
From stdpp Require Import base list numbers strings gmap.
From S2P Require Import Prelude CDouble CString.

Definition MAX_ID_LENGTH : nat := 64.
Definition MAX_SYMBOL_LENGTH : nat := 16.

(** The struct; its [char[n]] members by the C string they hold. *)
Record Order : Type := mkOrder {
  o_order_id : string;
  o_trader_id : string;
  o_symbol : string;
  o_price : double;
  o_quantity : Z;
  o_remaining_quantity : Z;
  o_is_buy_order : bool;
  o_timestamp : Z;
  o_is_canceled : bool
}.

Definition loc : Type := positive.
Abbreviation order_heap := (gmap loc Order).

(** Member assignment. *)
Definition set_remaining (o : Order) (q : Z) : Order :=
  mkOrder (o_order_id o) (o_trader_id o) (o_symbol o) (o_price o) (o_quantity o) q
    (o_is_buy_order o) (o_timestamp o) (o_is_canceled o).
Definition set_both_quantities (o : Order) (q : Z) : Order :=
  mkOrder (o_order_id o) (o_trader_id o) (o_symbol o) (o_price o) q q
    (o_is_buy_order o) (o_timestamp o) (o_is_canceled o).
Definition set_price (o : Order) (p : double) : Order :=
  mkOrder (o_order_id o) (o_trader_id o) (o_symbol o) p (o_quantity o) (o_remaining_quantity o)
    (o_is_buy_order o) (o_timestamp o) (o_is_canceled o).
Definition set_canceled (o : Order) : Order :=
  mkOrder (o_order_id o) (o_trader_id o) (o_symbol o) (o_price o) (o_quantity o)
    (o_remaining_quantity o) (o_is_buy_order o) (o_timestamp o) true.

(** [*p] for a non-null [p]. *)
Definition load (h : order_heap) (l : loc) : res Order :=
  match h !! l with
  | Some o => Ok o
  | None => UB UseAfterFree
  end.

(** A member access guarded by [if (!order) return null]. *)
Definition on_order {A : Type} (h : order_heap) (p : option loc) (null : A)
    (f : loc -> Order -> res A) : res A :=
  match p with
  | None => Ok null
  | Some l => o ← load h l; f l o
  end.

(** ** Constructor and destructor *)

Definition order_create (malloc_ok : bool) (now : Z) (h : order_heap)
    (order_id trader_id symbol : string) (price : double) (quantity : Z) (is_buy_order : bool)
    : option loc * order_heap :=
  if negb malloc_ok then (None, h)
  else if (MAX_ID_LENGTH <=? strlen order_id)%nat || (MAX_ID_LENGTH <=? strlen trader_id)%nat
          || (MAX_SYMBOL_LENGTH <=? strlen symbol)%nat
  then (None, h)
  else
    let l := fresh (dom h) in
    (Some l,
     <[l := mkOrder (copy_str MAX_ID_LENGTH order_id) (copy_str MAX_ID_LENGTH trader_id)
              (copy_str MAX_SYMBOL_LENGTH symbol) price quantity quantity is_buy_order now false]> h).

Definition order_destroy (h : order_heap) (p : option loc) : res order_heap :=
  match p with
  | None => Ok h
  | Some l => match h !! l with Some _ => Ok (delete l h) | None => UB DoubleFree end
  end.

(** ** Getters *)

Definition order_get_id (h : order_heap) (p : option loc) : res (option string) :=
  on_order h p None (fun _ o => Ok (Some (o_order_id o))).
Definition order_get_trader_id (h : order_heap) (p : option loc) : res (option string) :=
  on_order h p None (fun _ o => Ok (Some (o_trader_id o))).
Definition order_get_symbol (h : order_heap) (p : option loc) : res (option string) :=
  on_order h p None (fun _ o => Ok (Some (o_symbol o))).
Definition order_get_price (h : order_heap) (p : option loc) : res double :=
  on_order h p d_zero (fun _ o => Ok (o_price o)).
Definition order_get_quantity (h : order_heap) (p : option loc) : res Z :=
  on_order h p 0%Z (fun _ o => Ok (o_quantity o)).
Definition order_get_remaining_quantity (h : order_heap) (p : option loc) : res Z :=
  on_order h p 0%Z (fun _ o => Ok (o_remaining_quantity o)).
Definition order_is_buy_order (h : order_heap) (p : option loc) : res bool :=
  on_order h p false (fun _ o => Ok (o_is_buy_order o)).
Definition order_get_timestamp (h : order_heap) (p : option loc) : res Z :=
  on_order h p 0%Z (fun _ o => Ok (o_timestamp o)).
Definition order_is_canceled (h : order_heap) (p : option loc) : res bool :=
  on_order h p false (fun _ o => Ok (o_is_canceled o)).

(** ** Setters *)

Definition order_set_price (h : order_heap) (p : option loc) (new_price : double) : res order_heap :=
  on_order h p h (fun l o =>
    if d_le new_price d_zero then Ok h else Ok (<[l := set_price o new_price]> h)).

Definition order_set_quantity (h : order_heap) (p : option loc) (new_quantity : Z)
    : res (Z * order_heap) :=
  on_order h p ((-1)%Z, h) (fun l o =>
    if (new_quantity <? 0)%Z then Ok ((-1)%Z, h)
    else Ok (0%Z, <[l := set_both_quantities o new_quantity]> h)).

Definition order_reduce_quantity (h : order_heap) (p : option loc) (amount : Z)
    : res (Z * order_heap) :=
  on_order h p ((-1)%Z, h) (fun l o =>
    if (amount <? 0)%Z then Ok ((-1)%Z, h)
    else if (o_remaining_quantity o <? amount)%Z then Ok ((-1)%Z, h)
    else Ok (0%Z, <[l := set_remaining o (o_remaining_quantity o - amount)]> h)).

Definition order_cancel (h : order_heap) (p : option loc) : res order_heap :=
  on_order h p h (fun l o =>
    if o_is_canceled o then Ok h else Ok (<[l := set_canceled o]> h)).

(** ** Comparison *)

Definition order_equals (h : order_heap) (p1 p2 : option loc) : res bool :=
  match p1, p2 with
  | Some l1, Some l2 =>
      o1 ← load h l1; o2 ← load h l2; Ok (str_eq (o_order_id o1) (o_order_id o2))
  | _, _ => Ok false
  end.

(** The comparison of two orders that are not null. *)
Definition compare_orders (o1 o2 : Order) : Z :=
  if d_ne (o_price o1) (o_price o2) then
    if o_is_buy_order o1 then (if d_gt (o_price o1) (o_price o2) then -1 else 1)%Z
    else (if d_lt (o_price o1) (o_price o2) then -1 else 1)%Z
  else if negb (o_timestamp o1 =? o_timestamp o2)%Z then
    (if o_timestamp o1 <? o_timestamp o2 then -1 else 1)%Z
  else 0%Z.

Definition order_compare (h : order_heap) (p1 p2 : option loc) : res Z :=
  match p1, p2 with
  | Some l1, Some l2 => o1 ← load h l1; o2 ← load h l2; Ok (compare_orders o1 o2)
  | _, _ => Ok 0%Z
  end.

(** ** String representation *)

Definition order_to_string (malloc_ok : bool) (h : order_heap) (p : option loc)
    : res (option string) :=
  on_order h p None (fun _ o =>
    if negb malloc_ok then Ok None
    else Ok (Some (snprintf 256
      ("Order{id=" +:+ o_order_id o +:+ ", trader=" +:+ o_trader_id o +:+
       ", symbol=" +:+ o_symbol o +:+ ", price=" +:+ print_double2 (o_price o) +:+
       ", qty=" +:+ print_int (o_quantity o) +:+ ", remaining=" +:+
       print_int (o_remaining_quantity o) +:+ ", " +:+
       (if o_is_buy_order o then "BUY" else "SELL") +:+ ", " +:+
       (if o_is_canceled o then "CANCELED" else "ACTIVE") +:+ "}")))).

(** ** Invariant *)

(** An order's quantities are [int]s and the unfilled part lies between nothing and the
    whole order.  No operation refuses to create an order with a negative quantity; such an
    order stays unfilled as a whole. *)
Definition order_ok (o : Order) : Prop :=
  in_int (o_quantity o) /\ (Z.min 0 (o_quantity o) <= o_remaining_quantity o <= o_quantity o)%Z.

Definition heap_ok (h : order_heap) : Prop := map_Forall (fun _ o => order_ok o) h.

(** One mutation of an order through the API. *)
Inductive order_op : Type :=
| OpCreate (malloc_ok : bool) (now : Z) (order_id trader_id symbol : string)
           (price : double) (quantity : Z) (is_buy : bool)
| OpSetPrice (p : option loc) (price : double)
| OpSetQuantity (p : option loc) (quantity : Z)
| OpReduce (p : option loc) (amount : Z)
| OpCancel (p : option loc)
| OpDestroy (p : option loc).

Definition order_step (h : order_heap) (op : order_op) : res order_heap :=
  match op with
  | OpCreate m now i t s p q b => Ok (snd (order_create m now h i t s p q b))
  | OpSetPrice l p => order_set_price h l p
  | OpSetQuantity l q => snd <$> order_set_quantity h l q
  | OpReduce l a => snd <$> order_reduce_quantity h l a
  | OpCancel l => order_cancel h l
  | OpDestroy l => order_destroy h l
  end.

(** The quantities an operation is given are [int]s. *)
Definition op_int (op : order_op) : Prop :=
  match op with
  | OpCreate _ _ _ _ _ _ q _ => in_int q
  | OpSetQuantity _ q => in_int q
  | OpReduce _ a => in_int a
  | _ => True
  end.

(** The order an operation is given is null or allocated. *)
Definition op_live (h : order_heap) (op : order_op) : Prop :=
  match op with
  | OpSetPrice (Some l) _ | OpSetQuantity (Some l) _ | OpReduce (Some l) _ | OpCancel (Some l)
  | OpDestroy (Some l) => is_Some (h !! l)
  | _ => True
  end.

(** ** Lemmas *)

Lemma load_ok (h : order_heap) (l : loc) (o : Order) : h !! l = Some o -> load h l = Ok o.
Proof. unfold load. now intros ->. Qed.

Lemma load_inv (h : order_heap) (l : loc) (o : Order) : load h l = Ok o -> h !! l = Some o.
Proof. unfold load. case_match; intros; now inv_res. Qed.

#[export] Hint Resolve load_ok load_inv : trading.

Lemma on_order_Some {A : Type} (h : order_heap) (l : loc) (null : A) f (o : Order) :
  h !! l = Some o -> on_order h (Some l) null f = f l o.
Proof. intros H. cbn. now rewrite (load_ok _ _ _ H). Qed.

Lemma on_order_inv {A : Type} (h : order_heap) (p : option loc) (null : A) f (a : A) :
  on_order h p null f = Ok a ->
  (p = None /\ a = null) \/ exists l o, p = Some l /\ h !! l = Some o /\ f l o = Ok a.
Proof.
  destruct p as [l|]; cbn; intros H.
  - apply bind_ok in H as (o & Ho & H). right. eauto 6 with trading.
  - inv_res. auto.
Qed.

Lemma order_create_spec (now : Z) (h : order_heap) (i t s : string) (p : double) (q : Z) (b : bool) :
  (strlen i < MAX_ID_LENGTH)%nat -> (strlen t < MAX_ID_LENGTH)%nat ->
  (strlen s < MAX_SYMBOL_LENGTH)%nat ->
  order_create true now h i t s p q b =
  (Some (fresh (dom h)), <[fresh (dom h) := mkOrder i t s p q q b now false]> h).
Proof.
  intros Hi Ht Hs. unfold order_create. cbn [negb].
  rewrite (proj2 (Nat.leb_gt _ _) Hi), (proj2 (Nat.leb_gt _ _) Ht), (proj2 (Nat.leb_gt _ _) Hs).
  cbn [orb]. now rewrite !copy_str_short.
Qed.

Lemma fresh_loc (h : order_heap) : h !! fresh (dom h) = None.
Proof. apply not_elem_of_dom, is_fresh. Qed.

(** A successful reduction within the remaining quantity. *)
Lemma order_reduce_quantity_ok (h : order_heap) (l : loc) (o : Order) (a : Z) :
  h !! l = Some o -> (0 <= a <= o_remaining_quantity o)%Z ->
  order_reduce_quantity h (Some l) a =
  Ok (0%Z, <[l := set_remaining o (o_remaining_quantity o - a)]> h).
Proof.
  intros Hl Ha. unfold order_reduce_quantity. rewrite (on_order_Some _ _ _ _ _ Hl).
  repeat case_test; try lia. reflexivity.
Qed.

Lemma heap_ok_insert (h : order_heap) (l : loc) (o : Order) :
  heap_ok h -> order_ok o -> heap_ok (<[l := o]> h).
Proof. intros. now apply map_Forall_insert_2. Qed.

#[export] Hint Resolve heap_ok_insert : trading.

Lemma order_create_heap_ok m now h i t s p q b :
  heap_ok h -> in_int q -> heap_ok (snd (order_create m now h i t s p q b)).
Proof.
  intros Hh Hq. unfold order_create. repeat case_match; cbn; auto.
  apply heap_ok_insert; auto. unfold order_ok; cbn. split; [exact Hq | lia].
Qed.

Lemma order_step_ok (h h' : order_heap) (op : order_op) :
  heap_ok h -> op_int op -> order_step h op = Ok h' -> heap_ok h'.
Proof.
  intros Hh Hop Hs.
  destruct op as [m now i t s p q b|l p|l q|l a|l|l]; cbn [order_step op_int] in *.
  - inv_res. now apply order_create_heap_ok.
  - apply on_order_inv in Hs as [[_ ->]|(l' & o & -> & Hl & Hs)]; auto.
    case_match; inv_res; auto. apply heap_ok_insert; auto. exact (Hh _ _ Hl).
  - destruct (order_set_quantity h l q) as [[r h'']| |] eqn:E; cbn in Hs; inv_res.
    apply on_order_inv in E as [[_ [= -> ->]]|(l' & o & -> & Hl & E)]; auto.
    case_test_in E; inv_res; auto.
    apply heap_ok_insert; auto. unfold order_ok, in_int in *; cbn. lia.
  - destruct (order_reduce_quantity h l a) as [[r h'']| |] eqn:E; cbn in Hs; inv_res.
    apply on_order_inv in E as [[_ [= -> ->]]|(l' & o & -> & Hl & E)]; auto.
    repeat case_test_in E; inv_res; auto.
    apply heap_ok_insert; auto. destruct (Hh _ _ Hl) as [Hq Hr]. split; [exact Hq | cbn; lia].
  - apply on_order_inv in Hs as [[_ ->]|(l' & o & -> & Hl & Hs)]; auto.
    case_match; inv_res; auto. apply heap_ok_insert; auto. exact (Hh _ _ Hl).
  - destruct l as [l|]; cbn in Hs; [|now inv_res]. case_match; inv_res.
    now apply map_Forall_delete.
Qed.

(** An operation on a null pointer or on an allocated order is defined. *)
Lemma order_step_total (h : order_heap) (op : order_op) : op_live h op -> exists h', order_step h op = Ok h'.
Proof.
  unfold op_live. destruct op as [m now i t s p q b|[l|] p|[l|] q|[l|] a|[l|]|[l|]]; cbn; eauto; intros [o Hl];
    unfold load; rewrite Hl; cbn; repeat case_match; cbn; eauto.
Qed.

(** ** Properties *)

(** C26: every call of the order API on a null pointer or on an order that was created and
    not destroyed, with any [int] as quantity, completes without undefined behaviour and
    keeps every order sound: its quantity stays an [int], its unfilled quantity never
    exceeds it and never falls below 0, unless the order was created with a negative
    quantity, which then stays unfilled. *)
Theorem order_step_preserves_ok (h : order_heap) (op : order_op) :
  heap_ok h -> op_int op -> op_live h op -> exists h', order_step h op = Ok h' /\ heap_ok h'.
Proof.
  intros Hh Hop Hl. destruct (order_step_total h op Hl) as [h' E]. exists h'. eauto using order_step_ok.
Qed.

Lemma order_step_preserves_ok_witness :
  exists h', order_step (<[1%positive := mkOrder "A" "T" "AAPL" (d_of_Z 150) 100 100 true 7 false]> ∅)
               (OpReduce (Some 1%positive) 60) = Ok h' /\ heap_ok h'.
Proof.
  apply (order_step_preserves_ok
           (<[1%positive := mkOrder "A" "T" "AAPL" (d_of_Z 150) 100 100 true 7 false]> ∅)
           (OpReduce (Some 1%positive) 60)).
  - apply heap_ok_insert; [apply map_Forall_empty | unfold order_ok, in_int, INT_MIN, INT_MAX; cbn; lia].
  - unfold op_int, in_int, INT_MIN, INT_MAX. lia.
  - eexists. reflexivity.
Defined.
