(* ===== verification/AvlTree.v ===== *)
(** * AVL trees (src/src/trading_engine/avl_tree.c, src/include/trading_engine/avl_tree.h)

    The tree's nodes are owned by the tree and never shared, so a node pointer is
    an inductive [tree] ([NULL] is [Leaf]); the orders the nodes point to are
    shared and stay pointers into the order store.  Dereferencing [NULL] is
    undefined behaviour and reported as such, so the safety theorems below are
    about the code's own null checks. *)

From Stdlib Require Import ZArith Lia SpecFloat Sorted.
From stdpp Require Import base list numbers sorting.
From S2P Require Import Prelude SortedAssoc CDouble CString Order.

Inductive tree : Type :=
| Leaf
| Node (price : double) (timestamp : Z) (order : loc) (left right : tree) (height : Z).

Record AVLTree : Type := mkAVLTree {
  root : tree;
  is_buy_tree : bool
}.

(** ** Static helpers *)

Definition max (a b : Z) : Z := if (b <? a)%Z then a else b.

Definition get_height (t : tree) : Z :=
  match t with Leaf => 0%Z | Node _ _ _ _ _ h => h end.

Definition get_balance (t : tree) : Z :=
  match t with Leaf => 0%Z | Node _ _ _ l r _ => (get_height l - get_height r)%Z end.

(** What a node stores, for the searches that return one. *)
Definition node_data : Type := (double * Z * loc)%type.

Fixpoint find_min_node (t : tree) : option node_data :=
  match t with
  | Leaf => None
  | Node p ts o Leaf _ _ => Some (p, ts, o)
  | Node _ _ _ l _ _ => find_min_node l
  end.

Fixpoint find_max_node (t : tree) : option node_data :=
  match t with
  | Leaf => None
  | Node p ts o _ Leaf _ => Some (p, ts, o)
  | Node _ _ _ _ r _ => find_max_node r
  end.

(** [NULL] when the allocation fails. *)
Definition create_node (malloc_ok : bool) (price : double) (timestamp : Z) (order : loc) : tree :=
  if malloc_ok then Node price timestamp order Leaf Leaf 1 else Leaf.

(** A node whose height member is recomputed from its children. *)
Definition with_height (p : double) (ts : Z) (o : loc) (l r : tree) : tree :=
  Node p ts o l r (max (get_height l) (get_height r) + 1).

Definition right_rotate (y : tree) : res tree :=
  match y with
  | Node yp yt yo (Node xp xt xo T1 T2 _) T3 _ =>
      Ok (with_height xp xt xo T1 (with_height yp yt yo T2 T3))
  | _ => UB NullDeref
  end.

Definition left_rotate (x : tree) : res tree :=
  match x with
  | Node xp xt xo T1 (Node yp yt yo T2 T3 _) _ =>
      Ok (with_height yp yt yo (with_height xp xt xo T1 T2) T3)
  | _ => UB NullDeref
  end.

Definition compare_nodes (price1 : double) (timestamp1 : Z) (price2 : double) (timestamp2 : Z)
    (is_buy_tree : bool) : Z :=
  if d_ne price1 price2 then
    if is_buy_tree then (if d_gt price1 price2 then 1 else -1)%Z
    else (if d_lt price1 price2 then -1 else 1)%Z
  else (if timestamp1 <? timestamp2 then -1 else if timestamp2 <? timestamp1 then 1 else 0)%Z.

(** The tail of [insert_node]: the four rotation cases, in the source's order. *)
Definition insert_rebalance (price : double) (timestamp : Z) (buy : bool) (node : tree) : res tree :=
  match node with
  | Leaf => UB NullDeref
  | Node np nt no l r h =>
      let balance := get_balance node in
      if (1 <? balance)%Z then
        match l with
        | Leaf => UB NullDeref
        | Node lp lt _ _ _ _ =>
            let c := compare_nodes price timestamp lp lt buy in
            if (c <? 0)%Z then right_rotate node
            else if (0 <? c)%Z then l' ← left_rotate l; right_rotate (Node np nt no l' r h)
            else Ok node
        end
      else if (balance <? -1)%Z then
        match r with
        | Leaf => UB NullDeref
        | Node rp rt _ _ _ _ =>
            let c := compare_nodes price timestamp rp rt buy in
            if (0 <? c)%Z then left_rotate node
            else if (c <? 0)%Z then r' ← right_rotate r; left_rotate (Node np nt no l r' h)
            else Ok node
        end
      else Ok node
  end.

Fixpoint insert_node (malloc_ok : bool) (node : tree) (price : double) (timestamp : Z) (order : loc)
    (buy : bool) : res tree :=
  match node with
  | Leaf => Ok (create_node malloc_ok price timestamp order)
  | Node np nt no l r h =>
      let cmp := compare_nodes price timestamp np nt buy in
      if (cmp <? 0)%Z then
        l' ← insert_node malloc_ok l price timestamp order buy;
        insert_rebalance price timestamp buy (with_height np nt no l' r)
      else if (0 <? cmp)%Z then
        r' ← insert_node malloc_ok r price timestamp order buy;
        insert_rebalance price timestamp buy (with_height np nt no l r')
      else Ok node
  end.

(** The tail of [delete_node]: height update and the four rebalancing cases. *)
Definition delete_rebalance (node : tree) : res tree :=
  match node with
  | Leaf => Ok Leaf
  | Node np nt no l r _ =>
      let node := with_height np nt no l r in
      let balance := get_balance node in
      if (1 <? balance)%Z && (0 <=? get_balance l)%Z then right_rotate node
      else if (1 <? balance)%Z && (get_balance l <? 0)%Z then
        l' ← left_rotate l; right_rotate (Node np nt no l' r (get_height node))
      else if (balance <? -1)%Z && (get_balance r <=? 0)%Z then left_rotate node
      else if (balance <? -1)%Z && (0 <? get_balance r)%Z then
        r' ← right_rotate r; left_rotate (Node np nt no l r' (get_height node))
      else Ok node
  end.

Fixpoint delete_node (node : tree) (price : double) (timestamp : Z) (buy : bool) : res tree :=
  match node with
  | Leaf => Ok Leaf
  | Node np nt no l r h =>
      let cmp := compare_nodes price timestamp np nt buy in
      if (cmp <? 0)%Z then
        l' ← delete_node l price timestamp buy; delete_rebalance (Node np nt no l' r h)
      else if (0 <? cmp)%Z then
        r' ← delete_node r price timestamp buy; delete_rebalance (Node np nt no l r' h)
      else
        match l, r with
        | Leaf, Leaf => Ok Leaf
        | Leaf, _ => delete_rebalance r
        | _, Leaf => delete_rebalance l
        | _, _ =>
            '(mp, mt, mo) ← deref (find_min_node r);
            r' ← delete_node r mp mt buy;
            delete_rebalance (Node mp mt mo l r' h)
        end
  end.

(** The nodes in the order [destroy_node] frees them. *)
Fixpoint destroy_node (node : tree) : list (double * Z * loc) :=
  match node with
  | Leaf => []
  | Node p ts o l r _ => destroy_node l ++ destroy_node r ++ [(p, ts, o)]
  end.

Fixpoint inorder_traverse_helper {S : Type} (callback : loc -> S -> res S) (node : tree)
    (user_data : S) : res S :=
  match node with
  | Leaf => Ok user_data
  | Node _ _ o l r _ =>
      s ← inorder_traverse_helper callback l user_data;
      s ← callback o s;
      inorder_traverse_helper callback r s
  end.

(** ** Public functions; a tree argument may be [NULL] *)

Definition avl_create (malloc_ok : bool) (buy : bool) : option AVLTree :=
  if malloc_ok then Some (mkAVLTree Leaf buy) else None.

Definition avl_destroy (t : option AVLTree) : list (double * Z * loc) :=
  match t with None => [] | Some t => destroy_node (root t) end.

Definition avl_is_empty (t : option AVLTree) : bool :=
  match t with
  | None => true
  | Some t => match root t with Leaf => true | _ => false end
  end.

Definition avl_insert (malloc_ok : bool) (t : option AVLTree) (price : double) (timestamp : Z)
    (order : loc) : res (option AVLTree) :=
  match t with
  | None => Ok None
  | Some t =>
      r ← insert_node malloc_ok (root t) price timestamp order (is_buy_tree t);
      Ok (Some (mkAVLTree r (is_buy_tree t)))
  end.

Definition avl_delete_order (t : option AVLTree) (price : double) (timestamp : Z)
    : res (option AVLTree) :=
  match t with
  | None => Ok None
  | Some t =>
      r ← delete_node (root t) price timestamp (is_buy_tree t);
      Ok (Some (mkAVLTree r (is_buy_tree t)))
  end.

Definition avl_find_min (t : option AVLTree) : option loc :=
  match t with
  | None => None
  | Some t => match find_min_node (root t) with Some (_, _, o) => Some o | None => None end
  end.

Definition avl_find_max (t : option AVLTree) : option loc :=
  match t with
  | None => None
  | Some t => match find_max_node (root t) with Some (_, _, o) => Some o | None => None end
  end.

Definition avl_inorder_traverse {S : Type} (t : option AVLTree) (callback : loc -> S -> res S)
    (user_data : S) : res S :=
  match t with
  | None => Ok user_data
  | Some t => inorder_traverse_helper callback (root t) user_data
  end.

(** ** Specification *)

(** A node's key, and C's comparison on keys. *)
Definition key : Type := (double * Z)%type.
Definition key_cmp (buy : bool) (a b : key) : Z := compare_nodes a.1 a.2 b.1 b.2 buy.
Definition key_ok (k : key) : Prop := d_ok k.1.
Definition key_rank (k : key) : Z * Z := (dval k.1, k.2).

(** The tree's contents, in order. *)
Fixpoint entries (t : tree) : list (key * loc) :=
  match t with
  | Leaf => []
  | Node p ts o l r _ => entries l ++ ((p, ts), o) :: entries r
  end.

(** Heights are right and balances within one. *)
Fixpoint balanced (t : tree) : Prop :=
  match t with
  | Leaf => True
  | Node _ _ _ l r h =>
      balanced l /\ balanced r /\ h = (Z.max (get_height l) (get_height r) + 1)%Z /\
      (-1 <= get_height l - get_height r <= 1)%Z
  end.

Definition ordered (t : tree) : Prop := sa_sorted key_ok key_rank (entries t).

(** The representation invariant of an AVL search tree. *)
Definition avl (t : tree) : Prop := balanced t /\ ordered t.

Fixpoint size (t : tree) : nat :=
  match t with Leaf => O | Node _ _ _ l r _ => S (size l + size r) end.

#[export] Instance key_ok_dec (k : key) : Decision (key_ok k).
Proof. unfold key_ok. apply _. Defined.

#[export] Instance balanced_dec (t : tree) : Decision (balanced t).
Proof. induction t; cbn; apply _. Defined.

#[export] Instance avl_dec (t : tree) : Decision (avl t).
Proof. unfold avl, ordered. apply _. Defined.

(** ** The comparison *)

Lemma max_Zmax (a b : Z) : max a b = Z.max a b.
Proof. unfold max. case_test; lia. Qed.

(** On prices that are not NaN the flag [is_buy_tree] has no influence. *)
Lemma compare_nodes_rank (p1 p2 : double) (t1 t2 : Z) (buy : bool) :
  d_ok p1 -> d_ok p2 ->
  compare_nodes p1 t1 p2 t2 buy =
  if (dval p1 =? dval p2)%Z then (if t1 <? t2 then -1 else if t2 <? t1 then 1 else 0)%Z
  else (if dval p1 <? dval p2 then -1 else 1)%Z.
Proof.
  intros H1 H2. unfold compare_nodes. autorewrite with dval.
  destruct buy; repeat case_test; cbn [negb]; try reflexivity; lia.
Qed.

#[export] Instance key_cmp_ranked (buy : bool) : RankedCompare (key_cmp buy) key_ok key_rank.
Proof.
  split; intros [p1 t1] [p2 t2] H1 H2; unfold key_cmp, rank_lt, key_rank, key_ok in *; cbn in *;
    rewrite compare_nodes_rank by assumption; repeat case_test; lia.
Qed.

(** ** Contents: every rotation and update keeps or changes them as a list would *)

Lemma entries_with_height p ts o l r :
  entries (with_height p ts o l r) = entries l ++ ((p, ts), o) :: entries r.
Proof. reflexivity. Qed.

Lemma entries_right_rotate (y t : tree) : right_rotate y = Ok t -> entries t = entries y.
Proof.
  destruct y as [|yp yt yo [|xp xt xo T1 T2 hx] T3 hy]; cbn; intros; inv_res.
  cbn. now rewrite <- app_assoc.
Qed.

Lemma entries_left_rotate (x t : tree) : left_rotate x = Ok t -> entries t = entries x.
Proof.
  destruct x as [|xp xt xo T1 [|yp yt yo T2 T3 hy] hx]; cbn; intros; inv_res.
  cbn. now rewrite <- app_assoc.
Qed.

(** Invert a sequence of calls that returned. *)
Ltac inv_calls :=
  repeat match goal with
  | H : mbind _ _ = Ok _ |- _ =>
      let x := fresh "x" in let E := fresh "E" in apply bind_ok in H as (x & E & H)
  | H : left_rotate _ = Ok _ |- _ => apply entries_left_rotate in H
  | H : right_rotate _ = Ok _ |- _ => apply entries_right_rotate in H
  end.

Lemma entries_insert_rebalance p ts buy (t t' : tree) :
  insert_rebalance p ts buy t = Ok t' -> entries t' = entries t.
Proof.
  destruct t as [|np nt no l r h]; cbn [insert_rebalance]; [discriminate |].
  intros H. repeat (case_match; try discriminate); inv_calls; inv_res; cbn [entries] in *; congruence.
Qed.

Lemma entries_delete_rebalance (t t' : tree) :
  delete_rebalance t = Ok t' -> entries t' = entries t.
Proof.
  destruct t as [|np nt no l r h]; cbn [delete_rebalance]; intros H; [now inv_res |].
  repeat (case_match; try discriminate); inv_calls; inv_res; cbn [entries with_height] in *; congruence.
Qed.

(** Insertion acts on the contents as insertion into a sorted list. *)
Lemma entries_insert_node (t t' : tree) p ts o buy :
  ordered t -> d_ok p -> insert_node true t p ts o buy = Ok t' ->
  entries t' = sa_insert (key_cmp buy) (p, ts) o (entries t).
Proof.
  unfold ordered. intros HS Hp. revert t' HS.
  induction t as [|np nt no l IHl r IHr h]; cbn [insert_node entries]; intros t' HS H.
  { now inv_res. }
  pose proof (sa_sorted_mid _ _ _ _ _ HS) as (HSl & HSr & _).
  destruct (Z.ltb_spec (compare_nodes p ts np nt buy) 0) as [Hlt|Hge].
  - apply bind_ok in H as (l' & E & H). apply entries_insert_rebalance in H.
    rewrite H, (sa_insert_app_lt _ key_ok key_rank) by assumption. cbn. now rewrite (IHl _ HSl E).
  - destruct (Z.ltb_spec 0 (compare_nodes p ts np nt buy)) as [Hgt|Hle].
    + apply bind_ok in H as (r' & E & H). apply entries_insert_rebalance in H.
      rewrite H, (sa_insert_app_gt _ key_ok key_rank) by assumption. cbn. now rewrite (IHr _ HSr E).
    + inv_res. rewrite (sa_insert_app_eq _ key_ok key_rank); auto. unfold key_cmp; cbn. lia.
Qed.

(** ** Minimum and maximum *)

Lemma find_min_node_head (t : tree) :
  find_min_node t = match entries t with [] => None | ((p, ts), o) :: _ => Some (p, ts, o) end.
Proof.
  induction t as [|p ts o l IH r _ h]; [reflexivity |]. cbn [find_min_node entries].
  destruct l as [|lp lt lo ll lr lh]; [reflexivity |]. rewrite IH.
  destruct (entries (Node lp lt lo ll lr lh)) as [|[[q u] w] es] eqn:E; [|reflexivity].
  cbn in E. now apply app_eq_nil in E as [_ ?].
Qed.

Lemma find_max_node_last (t : tree) :
  find_max_node t = match last (entries t) with None => None | Some ((p, ts), o) => Some (p, ts, o) end.
Proof.
  induction t as [|p ts o l _ r IH h]; [reflexivity |]. cbn [find_max_node entries].
  rewrite last_app. destruct r as [|rp rt ro rl rr rh]; [reflexivity |]. rewrite IH.
  rewrite last_cons. destruct (last (entries (Node rp rt ro rl rr rh))) as [[[q u] w]|] eqn:E; [reflexivity |].
  apply last_None in E. cbn in E. now apply app_eq_nil in E as [_ ?].
Qed.

Lemma find_min_node_Node p ts o l r h : exists d, find_min_node (Node p ts o l r h) = Some d.
Proof.
  rewrite find_min_node_head. cbn.
  destruct (entries l) as [|[[q u] w] es]; cbn; eauto.
Qed.

(** Deletion acts on the contents as deletion from a sorted list. *)
Lemma entries_delete_node (t t' : tree) p ts buy :
  ordered t -> d_ok p -> delete_node t p ts buy = Ok t' ->
  entries t' = sa_delete (key_cmp buy) (p, ts) (entries t).
Proof.
  unfold ordered. intros HS Hp. revert p ts Hp t' HS.
  induction t as [|np nt no l IHl r IHr h]; cbn [delete_node entries]; intros p ts Hp t' HS H.
  { now inv_res. }
  pose proof (sa_sorted_mid _ _ _ _ _ HS) as (HSl & HSr & Hn & _).
  destruct (Z.ltb_spec (compare_nodes p ts np nt buy) 0) as [Hlt|Hge].
  - apply bind_ok in H as (l' & E & H). apply entries_delete_rebalance in H.
    rewrite H, (sa_delete_app_lt _ key_ok key_rank) by assumption. cbn. now rewrite (IHl _ _ Hp _ HSl E).
  - destruct (Z.ltb_spec 0 (compare_nodes p ts np nt buy)) as [Hgt|Hle].
    + apply bind_ok in H as (r' & E & H). apply entries_delete_rebalance in H.
      rewrite H, (sa_delete_app_gt _ key_ok key_rank) by assumption. cbn. now rewrite (IHr _ _ Hp _ HSr E).
    + rewrite (sa_delete_app_eq _ key_ok key_rank); auto; [|unfold key_cmp; cbn; lia].
      destruct l as [|lp lt lo ll lr lh], r as [|rp rt ro rl rr rh].
      * now inv_res.
      * now apply entries_delete_rebalance in H.
      * apply entries_delete_rebalance in H. now rewrite H, app_nil_r.
      * apply bind_ok in H as ([[mp mt] mo] & Em & H).
        apply bind_ok in H as (r' & E & H). apply entries_delete_rebalance in H.
        remember (Node rp rt ro rl rr rh) as r eqn:Er.
        unfold deref in Em. rewrite find_min_node_head in Em.
        destruct (entries r) as [|[[q u] w] es] eqn:Ees; inv_res.
        rewrite H. cbn [entries]. f_equal.
        apply sa_sorted_cons in HSr as HSr'. destruct HSr' as (Hq & _).
        rewrite (IHr _ _ Hq _ HSr E), sa_delete_head; [reflexivity |].
        unfold key_cmp. cbn. rewrite compare_nodes_rank by exact Hq.
        rewrite Z.eqb_refl, Z.ltb_irrefl. reflexivity.
Qed.

(** ** Balance *)

Lemma balanced_height (t : tree) :
  balanced t -> (0 <= get_height t)%Z /\ (get_height t = 0%Z -> t = Leaf).
Proof.
  induction t as [|p ts o l IHl r IHr h]; cbn; [split; [lia | reflexivity] |].
  intros (Hl & Hr & -> & Hb). destruct (IHl Hl) as [? _], (IHr Hr) as [? _].
  split; [lia | intros; exfalso; lia].
Qed.

(** The key went to the side of [t] that is now the taller one. *)
Definition leans (p : double) (ts : Z) (buy : bool) (t : tree) : Prop :=
  match t with
  | Leaf => False
  | Node tp tts _ _ _ _ =>
      ((compare_nodes p ts tp tts buy < 0)%Z /\ get_balance t = 1%Z) \/
      ((0 < compare_nodes p ts tp tts buy)%Z /\ get_balance t = (-1)%Z)
  end.

(** Heights of a rebuilt node, by computation and linear arithmetic. *)
Ltac solve_heights :=
  cbn [balanced get_height get_balance with_height] in *; rewrite ?max_Zmax in *;
  destruct_and?; split_and?; auto; lia.

Lemma single_right_rotation np nt no l r h :
  balanced l -> balanced r -> (get_height l - get_height r = 2)%Z -> (0 <= get_balance l)%Z ->
  exists t, right_rotate (Node np nt no l r h) = Ok t /\ balanced t /\
    get_height t = (get_height l + 1 - get_balance l)%Z.
Proof.
  intros Hl Hr Hd Hb. pose proof (balanced_height r Hr).
  destruct l as [|lp lt lo ll lr lh]; [cbn in *; lia |].
  eexists. split; [reflexivity |]. solve_heights.
Qed.

Lemma single_left_rotation np nt no l r h :
  balanced l -> balanced r -> (get_height r - get_height l = 2)%Z -> (get_balance r <= 0)%Z ->
  exists t, left_rotate (Node np nt no l r h) = Ok t /\ balanced t /\
    get_height t = (get_height r + 1 + get_balance r)%Z.
Proof.
  intros Hl Hr Hd Hb. pose proof (balanced_height l Hl).
  destruct r as [|rp rt ro rl rr rh]; [cbn in *; lia |].
  eexists. split; [reflexivity |]. solve_heights.
Qed.

Lemma double_right_rotation np nt no l r h :
  balanced l -> balanced r -> (get_height l - get_height r = 2)%Z -> (get_balance l < 0)%Z ->
  exists l' t, left_rotate l = Ok l' /\ right_rotate (Node np nt no l' r h) = Ok t /\
    balanced t /\ get_height t = get_height l.
Proof.
  intros Hl Hr Hd Hb.
  destruct l as [|lp lt lo ll [|mp mt mo ml mr mh] lh]; [cbn in *; lia | |].
  - cbn in Hl, Hb. destruct_and?. pose proof (balanced_height ll ltac:(assumption)). lia.
  - do 2 eexists. split; [reflexivity |]. split; [reflexivity |]. solve_heights.
Qed.

Lemma double_left_rotation np nt no l r h :
  balanced l -> balanced r -> (get_height r - get_height l = 2)%Z -> (0 < get_balance r)%Z ->
  exists r' t, right_rotate r = Ok r' /\ left_rotate (Node np nt no l r' h) = Ok t /\
    balanced t /\ get_height t = get_height r.
Proof.
  intros Hl Hr Hd Hb.
  destruct r as [|rp rt ro [|mp mt mo ml mr mh] rr rh]; [cbn in *; lia | |].
  - cbn in Hr, Hb. destruct_and?. pose proof (balanced_height rr ltac:(assumption)). lia.
  - do 2 eexists. split; [reflexivity |]. split; [reflexivity |]. solve_heights.
Qed.

(** What rebalancing a node with children [l] and [r] yields. *)
Definition rebalanced (l r t : tree) : Prop :=
  balanced t /\
  ((-1 <= get_height l - get_height r <= 1)%Z /\
     get_height t = (Z.max (get_height l) (get_height r) + 1)%Z \/
   (Z.abs (get_height l - get_height r) = 2%Z /\
     (Z.max (get_height l) (get_height r) <= get_height t
      <= Z.max (get_height l) (get_height r) + 1)%Z)).

Lemma delete_rebalance_balanced np nt no l r h :
  balanced l -> balanced r -> (-2 <= get_height l - get_height r <= 2)%Z ->
  exists t, delete_rebalance (Node np nt no l r h) = Ok t /\ rebalanced l r t.
Proof.
  intros Hl Hr Hd. unfold rebalanced. cbn [delete_rebalance].
  unfold with_height. cbn [get_balance get_height].
  set (hh := (max (get_height l) (get_height r) + 1)%Z). set (bal := (get_height l - get_height r)%Z) in *.
  assert (Hlb : (-1 <= get_balance l <= 1)%Z) by (destruct l; cbn in *; lia).
  assert (Hrb : (-1 <= get_balance r <= 1)%Z) by (destruct r; cbn in *; lia).
  destruct (Z.ltb_spec 1 bal), (Z.ltb_spec bal (-1)); try lia; cbn [andb].
  - destruct (Z.leb_spec 0 (get_balance l)).
    + edestruct (single_right_rotation np nt no l r hh) as (t & -> & Ht & Hh); try eassumption; [lia |].
      exists t. split; [reflexivity | split; [exact Ht |]]. right. lia.
    + rewrite (proj2 (Z.ltb_lt _ _)) by lia.
      edestruct (double_right_rotation np nt no l r hh) as (l' & t & -> & E & Ht & Hh);
        try eassumption; [lia |]. cbn [mbind res_bind]. rewrite E.
      exists t. split; [reflexivity | split; [exact Ht |]]. right. lia.
  - destruct (Z.leb_spec (get_balance r) 0).
    + edestruct (single_left_rotation np nt no l r hh) as (t & -> & Ht & Hh); try eassumption; [lia |].
      exists t. split; [reflexivity | split; [exact Ht |]]. right. lia.
    + rewrite (proj2 (Z.ltb_lt _ _)) by lia.
      edestruct (double_left_rotation np nt no l r hh) as (r' & t & -> & E & Ht & Hh);
        try eassumption; [lia |]. cbn [mbind res_bind]. rewrite E.
      exists t. split; [reflexivity | split; [exact Ht |]]. right. lia.
  - eexists. split; [reflexivity |]. unfold bal, hh in *. split; [solve_heights |].
    left. cbn; rewrite max_Zmax. lia.
Qed.

(** Insertion's rebalancing decides by the new key instead of by the child's
    balance; that is the same decision when the child leans towards the key. *)
Lemma insert_rebalance_balanced p ts buy np nt no l r :
  balanced l -> balanced r -> (-2 <= get_height l - get_height r <= 2)%Z ->
  ((get_height l - get_height r = 2)%Z -> leans p ts buy l) ->
  ((get_height l - get_height r = -2)%Z -> leans p ts buy r) ->
  exists t, insert_rebalance p ts buy (with_height np nt no l r) = Ok t /\ balanced t /\
    ((-1 <= get_height l - get_height r <= 1)%Z /\ t = with_height np nt no l r \/
     Z.abs (get_height l - get_height r) = 2%Z /\
       get_height t = Z.max (get_height l) (get_height r)).
Proof.
  intros Hl Hr Hd Ll Lr. unfold with_height. cbn [insert_rebalance get_balance].
  set (hh := (max (get_height l) (get_height r) + 1)%Z).
  destruct (Z.ltb_spec 1 (get_height l - get_height r)) as [H1|H1].
  - specialize (Ll ltac:(lia)). destruct l as [|lp lt lo ll lr lh] eqn:El; [destruct Ll |].
    cbn [leans] in Ll. rewrite <- El in *.
    destruct (Z.ltb_spec (compare_nodes p ts lp lt buy) 0) as [Hc|Hc].
    + edestruct (single_right_rotation np nt no l r hh) as (t & -> & Ht & Hh); eauto; [lia..|].
      exists t. split_and!; auto. right. lia.
    + rewrite (proj2 (Z.ltb_lt _ _)) by lia.
      edestruct (double_right_rotation np nt no l r hh) as (l' & t & -> & E & Ht & Hh); eauto; [lia..|].
      cbn [mbind res_bind]. rewrite E. exists t. split_and!; auto. right. lia.
  - destruct (Z.ltb_spec (get_height l - get_height r) (-1)) as [H2|H2].
    + specialize (Lr ltac:(lia)). destruct r as [|rp rt ro rl rr rh] eqn:Er; [destruct Lr |].
      cbn [leans] in Lr. rewrite <- Er in *.
      destruct (Z.ltb_spec 0 (compare_nodes p ts rp rt buy)) as [Hc|Hc].
      * edestruct (single_left_rotation np nt no l r hh) as (t & -> & Ht & Hh); eauto; [lia..|].
        exists t. split_and!; auto. right. lia.
      * rewrite (proj2 (Z.ltb_lt _ _)) by lia.
        edestruct (double_left_rotation np nt no l r hh) as (r' & t & -> & E & Ht & Hh); eauto; [lia..|].
        cbn [mbind res_bind]. rewrite E. exists t. split_and!; auto. right. lia.
    + eexists. split; [reflexivity |]. split; [unfold hh; solve_heights | left; split; [lia | reflexivity]].
Qed.

Lemma insert_node_balanced m (t : tree) p ts o buy :
  balanced t ->
  exists t', insert_node m t p ts o buy = Ok t' /\ balanced t' /\
    (get_height t' = get_height t \/
     get_height t' = (get_height t + 1)%Z /\ (t = Leaf \/ leans p ts buy t')).
Proof.
  induction t as [|np nt no l IHl r IHr h]; cbn [insert_node]; intros Hb.
  { eexists. split; [reflexivity |]. destruct m; cbn; split; auto; lia. }
  cbn [balanced] in Hb. destruct Hb as (Hl & Hr & -> & Hd).
  pose proof (balanced_height l Hl) as [_ Ll]. pose proof (balanced_height r Hr) as [_ Lr].
  pose proof (balanced_height l Hl) as [Pl _]. pose proof (balanced_height r Hr) as [Pr _].
  destruct (Z.ltb_spec (compare_nodes p ts np nt buy) 0) as [Hc|Hc].
  - destruct (IHl Hl) as (l' & -> & Hl' & Hh). cbn [mbind res_bind].
    edestruct (insert_rebalance_balanced p ts buy np nt no l' r) as (t & -> & Ht & Hht); auto.
    + lia.
    + intros. destruct Hh as [Hh|[Hh [->|?]]]; [lia | cbn in *; lia | assumption].
    + intros. lia.
    + exists t. split_and!; auto. cbn [get_height].
      destruct Hht as [[Hd' ->]|[Hd' Hht]]; [|lia].
      cbn [get_height with_height]. rewrite max_Zmax.
      destruct (Z.le_gt_cases (Z.max (get_height l') (get_height r)) (Z.max (get_height l) (get_height r))).
      * left. lia.
      * right. split; [lia |]. right. left. split; [assumption | cbn; lia].
  - destruct (Z.ltb_spec 0 (compare_nodes p ts np nt buy)) as [Hc'|Hc'].
    + destruct (IHr Hr) as (r' & -> & Hr' & Hh). cbn [mbind res_bind].
      edestruct (insert_rebalance_balanced p ts buy np nt no l r') as (t & -> & Ht & Hht); auto.
      * lia.
      * intros. lia.
      * intros. destruct Hh as [Hh|[Hh [->|?]]]; [lia | cbn in *; lia | assumption].
      * exists t. split_and!; auto. cbn [get_height].
        destruct Hht as [[Hd' ->]|[Hd' Hht]]; [|lia].
        cbn [get_height with_height]. rewrite max_Zmax.
        destruct (Z.le_gt_cases (Z.max (get_height l) (get_height r')) (Z.max (get_height l) (get_height r))).
        -- left. lia.
        -- right. split; [lia |]. right. right. split; [assumption | cbn; lia].
    + eexists. split; [reflexivity |]. cbn. auto.
Qed.

Lemma delete_node_balanced (t : tree) p ts buy :
  balanced t ->
  exists t', delete_node t p ts buy = Ok t' /\ balanced t' /\
    (get_height t - 1 <= get_height t' <= get_height t)%Z.
Proof.
  revert p ts.
  induction t as [|np nt no l IHl r IHr h]; cbn [delete_node]; intros p ts Hb.
  { exists Leaf. cbn. auto with lia. }
  cbn [balanced] in Hb. destruct Hb as (Hl & Hr & -> & Hd). cbn [get_height].
  pose proof (balanced_height l Hl) as [Pl Zl]. pose proof (balanced_height r Hr) as [Pr Zr].
  (* a child is replaced by one at most one level lower *)
  assert (Hreb : forall p' t' o' l' r' h', balanced l' -> balanced r' ->
    (get_height l - 1 <= get_height l' <= get_height l)%Z ->
    (get_height r - 1 <= get_height r' <= get_height r)%Z ->
    (get_height l' = get_height l \/ get_height r' = get_height r) ->
    exists t, delete_rebalance (Node p' t' o' l' r' h') = Ok t /\ balanced t /\
      (Z.max (get_height l) (get_height r) + 1 - 1 <= get_height t
       <= Z.max (get_height l) (get_height r) + 1)%Z).
  { intros. edestruct (delete_rebalance_balanced p' t' o' l' r' h') as (t & E & Ht & Hh); auto; [lia |].
    exists t. split_and!; auto; lia. }
  destruct (Z.ltb_spec (compare_nodes p ts np nt buy) 0) as [Hc|Hc].
  - destruct (IHl p ts Hl) as (l' & -> & Hl' & Hh). cbn [mbind res_bind]. apply Hreb; auto; lia.
  - destruct (Z.ltb_spec 0 (compare_nodes p ts np nt buy)) as [Hc'|Hc'].
    + destruct (IHr p ts Hr) as (r' & -> & Hr' & Hh). cbn [mbind res_bind]. apply Hreb; auto; lia.
    + destruct l as [|lp lt lo ll lr lh], r as [|rp rt ro rl rr rh].
      * exists Leaf. cbn. auto with lia.
      * cbn [get_height] in *. cbn [balanced] in Hr. destruct_and?.
        edestruct (delete_rebalance_balanced rp rt ro rl rr rh) as (t & E & Ht & Hh); auto; [lia |].
        exists t. split_and!; auto; lia.
      * cbn [get_height] in *. cbn [balanced] in Hl. destruct_and?.
        edestruct (delete_rebalance_balanced lp lt lo ll lr lh) as (t & E & Ht & Hh); auto; [lia |].
        exists t. split_and!; auto; lia.
      * destruct (find_min_node_Node rp rt ro rl rr rh) as ([[mp mt] mo] & ->). cbn [deref mbind res_bind].
        destruct (IHr mp mt Hr) as (r' & -> & Hr' & Hh). cbn [mbind res_bind]. apply Hreb; auto; lia.
Qed.

(** ** Allocation failure, traversal, size *)

Lemma insert_node_no_memory (t : tree) p ts o buy :
  balanced t -> insert_node false t p ts o buy = Ok t.
Proof.
  induction t as [|np nt no l IHl r IHr h]; cbn [insert_node]; intros Hb; [reflexivity |].
  cbn [balanced] in Hb. destruct Hb as (Hl & Hr & -> & Hd).
  assert (Hsame : insert_rebalance p ts buy (with_height np nt no l r) =
                  Ok (Node np nt no l r (Z.max (get_height l) (get_height r) + 1))).
  { unfold with_height. rewrite max_Zmax. cbn [insert_rebalance get_balance].
    repeat case_test; try lia. reflexivity. }
  rewrite IHl, IHr by assumption. cbn [mbind res_bind]. rewrite Hsame. now repeat case_test.
Qed.

Lemma length_entries (t : tree) : length (entries t) = size t.
Proof. induction t; cbn; auto. rewrite length_app. cbn. lia. Qed.

(** [callback] applied along a list of orders. *)
Fixpoint traverse_list {S : Type} (callback : loc -> S -> res S) (l : list loc) (s : S) : res S :=
  match l with
  | [] => Ok s
  | o :: l => s ← callback o s; traverse_list callback l s
  end.

Lemma traverse_list_app {S : Type} (cb : loc -> S -> res S) (l1 l2 : list loc) (s : S) :
  traverse_list cb (l1 ++ l2) s = (s ← traverse_list cb l1 s; traverse_list cb l2 s).
Proof.
  revert s. induction l1 as [|o l1 IH]; intros s; cbn; [reflexivity |].
  destruct (cb o s); cbn; auto.
Qed.

(** The in-order traversal is the traversal of the contents. *)
Lemma inorder_traverse_list {S : Type} (cb : loc -> S -> res S) (t : tree) (s : S) :
  inorder_traverse_helper cb t s = traverse_list cb (snd <$> entries t) s.
Proof.
  revert s. induction t as [|p ts o l IHl r IHr h]; intros s; cbn; [reflexivity |].
  rewrite fmap_app, traverse_list_app, IHl. destruct (traverse_list cb _ s) as [s'| |]; cbn; auto.
  destruct (cb o s'); cbn; auto.
Qed.

(** A balanced tree of height [h] has at least [2^(h/2) - 1] nodes. *)
Lemma balanced_size (t : tree) :
  balanced t -> (2 ^ (get_height t / 2) <= Z.of_nat (size t) + 1)%Z.
Proof.
  induction t as [|p ts o l IHl r IHr h]; cbn [balanced get_height size].
  { intros _. change (2 ^ (0 / 2))%Z with 1%Z. lia. }
  intros (Hl & Hr & Hh & Hd). specialize (IHl Hl). specialize (IHr Hr).
  pose proof (balanced_height l Hl) as [Pl _]. pose proof (balanced_height r Hr) as [Pr _].
  assert (Hlow : forall a, (h - 2 <= a)%Z -> (2 ^ ((h - 2) / 2) <= 2 ^ (a / 2))%Z).
  { intros a Ha. apply Z.pow_le_mono_r; [lia |]. apply Z.div_le_mono; lia. }
  pose proof (Hlow (get_height l) ltac:(lia)). pose proof (Hlow (get_height r) ltac:(lia)).
  destruct (Z.eq_dec h 1%Z) as [->|Hne]; [change (2 ^ (1 / 2))%Z with 1%Z; lia |].
  replace (h / 2)%Z with (Z.succ ((h - 2) / 2)).
  - rewrite Z.pow_succ_r by (apply Z.div_pos; lia). lia.
  - replace h with (h - 2 + 1 * 2)%Z at 2 by lia. rewrite Z.div_add; lia.
Qed.

Lemma destroy_node_perm (t : tree) :
  destroy_node t ≡ₚ (fun e => (e.1.1, e.1.2, e.2)) <$> entries t.
Proof.
  induction t as [|p ts o l IHl r IHr h]; cbn; [reflexivity |].
  rewrite fmap_app, IHl, IHr. cbn. rewrite <- Permutation_cons_append. reflexivity.
Qed.

(** ** Extremal entries *)

Lemma sorted_head_least (k : key) (o : loc) l :
  sa_sorted key_ok key_rank ((k, o) :: l) -> Forall (fun e => e = (k, o) \/ rank_lt (key_rank k) (key_rank e.1)) ((k, o) :: l).
Proof.
  intros (_ & Hl & _)%sa_sorted_cons. constructor; [auto |].
  eapply Forall_impl; [exact Hl |]. unfold entry_lt. cbn. auto.
Qed.

Lemma sorted_last_greatest (k : key) (o : loc) l :
  sa_sorted key_ok key_rank (l ++ [(k, o)]) ->
  Forall (fun e => e = (k, o) \/ rank_lt (key_rank e.1) (key_rank k)) (l ++ [(k, o)]).
Proof.
  intros (_ & _ & _ & Hl & _)%sa_sorted_mid. apply Forall_app. split; [|constructor; auto].
  eapply Forall_impl; [exact Hl |]. unfold entry_lt. cbn. auto.
Qed.

Lemma avl_insert_node (t : tree) p ts o buy :
  avl t -> d_ok p ->
  exists t', insert_node true t p ts o buy = Ok t' /\ avl t' /\
    entries t' = sa_insert (key_cmp buy) (p, ts) o (entries t).
Proof.
  intros [Hb Ho] Hp. destruct (insert_node_balanced true t p ts o buy Hb) as (t' & E & Hb' & _).
  pose proof (entries_insert_node _ _ _ _ _ _ Ho Hp E) as He.
  exists t'. split_and!; auto. split; [exact Hb' |]. unfold ordered. rewrite He.
  apply sa_insert_sorted; auto. apply _.
Qed.

Lemma avl_delete_node (t : tree) p ts buy :
  avl t -> d_ok p ->
  exists t', delete_node t p ts buy = Ok t' /\ avl t' /\
    entries t' = sa_delete (key_cmp buy) (p, ts) (entries t).
Proof.
  intros [Hb Ho] Hp. destruct (delete_node_balanced t p ts buy Hb) as (t' & E & Hb' & _).
  pose proof (entries_delete_node _ _ _ _ _ Ho Hp E) as He.
  exists t'. split_and!; auto. split; [exact Hb' |]. unfold ordered. rewrite He.
  now apply sa_delete_sorted.
Qed.

Lemma avl_leaf : avl Leaf.
Proof. split; [exact I | apply sa_sorted_nil]. Qed.

(** ** Histories of a tree *)

Inductive tree_op : Type :=
| TInsert (p : double) (ts : Z) (o : loc)
| TDelete (p : double) (ts : Z).

Definition tree_op_ok (op : tree_op) : Prop :=
  match op with TInsert p _ _ | TDelete p _ => d_ok p end.

Definition tree_step (t : AVLTree) (op : tree_op) : res AVLTree :=
  t' ← match op with
       | TInsert p ts o => avl_insert true (Some t) p ts o
       | TDelete p ts => avl_delete_order (Some t) p ts
       end;
  deref t'.

Fixpoint tree_run (t : AVLTree) (ops : list tree_op) : res AVLTree :=
  match ops with
  | [] => Ok t
  | op :: ops => t ← tree_step t op; tree_run t ops
  end.

(** The longest path. *)
Fixpoint depth (t : tree) : nat :=
  match t with Leaf => 0 | Node _ _ _ l r _ => S (Nat.max (depth l) (depth r)) end.

Lemma balanced_depth (t : tree) : balanced t -> get_height t = Z.of_nat (depth t).
Proof.
  induction t as [|p ts o l IHl r IHr h]; [reflexivity |]. cbn [balanced get_height depth].
  intros (Hl & Hr & Hh & _). rewrite Hh, IHl, IHr by assumption. lia.
Qed.

Lemma tree_step_avl (t : AVLTree) (op : tree_op) :
  avl (root t) -> tree_op_ok op -> exists t', tree_step t op = Ok t' /\ avl (root t').
Proof.
  intros Ht Hop. destruct op as [p ts o|p ts]; unfold tree_step; cbn [avl_insert avl_delete_order].
  - destruct (avl_insert_node _ p ts o (is_buy_tree t) Ht Hop) as (r & -> & Hr & _). cbn. eauto.
  - destruct (avl_delete_node _ p ts (is_buy_tree t) Ht Hop) as (r & -> & Hr & _). cbn. eauto.
Qed.

Lemma tree_run_avl (t : AVLTree) (ops : list tree_op) :
  avl (root t) -> Forall tree_op_ok ops -> exists t', tree_run t ops = Ok t' /\ avl (root t').
Proof.
  intros Ht Hops. revert t Ht. induction Hops as [|op ops Hop _ IH]; intros t Ht; cbn [tree_run]; [eauto |].
  destruct (tree_step_avl t op Ht Hop) as (t' & -> & Ht'). cbn [mbind res_bind]. now apply IH.
Qed.

#[export] Hint Resolve avl_leaf : trading.

(** ** Properties *)

Section Witness.

(** The sell side after orders at 152, 151 and 150 (seconds 1, 2, 3). *)
Definition sample_tree : tree :=
  Node (d_of_Z 151) 2 2%positive
    (Node (d_of_Z 150) 3 3%positive Leaf Leaf 1)
    (Node (d_of_Z 152) 1 1%positive Leaf Leaf 1) 2.

Definition sample_avl : AVLTree := mkAVLTree sample_tree false.

Lemma sample_tree_avl : avl sample_tree.
Proof. by_decide. Qed.
End Witness.

(** C4: inserting an order into an AVL tree completes, gives an AVL tree again (stored
    heights exact, siblings within one level, keys strictly increasing) and, read in
    order, is insertion of the key (price, timestamp) into the sorted list of entries; a
    key already present changes nothing. *)
Theorem avl_insert_correct (t : AVLTree) (p : double) (ts : Z) (o : loc) :
  avl (root t) -> d_ok p ->
  exists t', avl_insert true (Some t) p ts o = Ok (Some t') /\
    avl (root t') /\ is_buy_tree t' = is_buy_tree t /\
    entries (root t') = sa_insert (key_cmp (is_buy_tree t)) (p, ts) o (entries (root t)).
Proof.
  intros Ht Hp. destruct (avl_insert_node _ p ts o (is_buy_tree t) Ht Hp) as (r & E & Hr & He).
  exists (mkAVLTree r (is_buy_tree t)). cbn [avl_insert]. rewrite E. auto.
Qed.

Lemma avl_insert_correct_witness :
  exists t', avl_insert true (Some sample_avl) (d_of_ratio 301 2) 4 4%positive = Ok (Some t') /\
    avl (root t') /\ is_buy_tree t' = false /\
    entries (root t') = sa_insert (key_cmp false) (d_of_ratio 301 2, 4%Z) 4%positive (entries sample_tree).
Proof. apply (avl_insert_correct sample_avl); [apply sample_tree_avl | by_decide]. Defined.

(** C5: deleting a key from an AVL tree completes (the successor search and every rotation
    are on nodes that exist), gives an AVL tree again and, read in order, removes exactly
    the entry with that key, if there is one. *)
Theorem avl_delete_correct (t : AVLTree) (p : double) (ts : Z) :
  avl (root t) -> d_ok p ->
  exists t', avl_delete_order (Some t) p ts = Ok (Some t') /\
    avl (root t') /\ is_buy_tree t' = is_buy_tree t /\
    entries (root t') = sa_delete (key_cmp (is_buy_tree t)) (p, ts) (entries (root t)).
Proof.
  intros Ht Hp. destruct (avl_delete_node _ p ts (is_buy_tree t) Ht Hp) as (r & E & Hr & He).
  exists (mkAVLTree r (is_buy_tree t)). cbn [avl_delete_order]. rewrite E. auto.
Qed.

Lemma avl_delete_correct_witness :
  exists t', avl_delete_order (Some sample_avl) (d_of_Z 151) 2 = Ok (Some t') /\
    avl (root t') /\ is_buy_tree t' = false /\
    entries (root t') = sa_delete (key_cmp false) (d_of_Z 151, 2%Z) (entries sample_tree).
Proof. apply (avl_delete_correct sample_avl); [apply sample_tree_avl | by_decide]. Defined.

(** C19: whatever orders are inserted into a new tree and deleted from it, in whatever
    sequence, every operation completes and the tree stays shallow: its longest path, which
    is the height stored at its root and bounds every search, insertion and deletion, is
    logarithmic in the number of orders it holds: two to the power of half of it is at most
    one more than that number. *)
Theorem tree_history_shallow (buy : bool) (ops : list tree_op) :
  Forall tree_op_ok ops ->
  exists t0 t, avl_create true buy = Some t0 /\ tree_run t0 ops = Ok t /\
    get_height (root t) = Z.of_nat (depth (root t)) /\
    (2 ^ (Z.of_nat (depth (root t)) / 2) <= Z.of_nat (length (entries (root t))) + 1)%Z.
Proof.
  intros Hops. exists (mkAVLTree Leaf buy). destruct (tree_run_avl (mkAVLTree Leaf buy) ops avl_leaf Hops) as (t & E & [Hb _]).
  exists t. pose proof (balanced_depth _ Hb) as Hd. split_and!; auto.
  rewrite <- Hd, length_entries. now apply balanced_size.
Qed.

(** Ascending prices, which would degenerate a tree without rotations, and a deletion. *)
Definition ascending : list tree_op :=
  [TInsert (d_of_Z 1) 1 1%positive; TInsert (d_of_Z 2) 2 2%positive; TInsert (d_of_Z 3) 3 3%positive;
   TInsert (d_of_Z 4) 4 4%positive; TInsert (d_of_Z 5) 5 5%positive; TDelete (d_of_Z 2) 2].

Lemma tree_history_shallow_witness :
  exists t0 t, avl_create true false = Some t0 /\ tree_run t0 ascending = Ok t /\
    get_height (root t) = Z.of_nat (depth (root t)) /\
    (2 ^ (Z.of_nat (depth (root t)) / 2) <= Z.of_nat (length (entries (root t))) + 1)%Z.
Proof. apply (tree_history_shallow false ascending). repeat constructor. Defined.

(** [avl_find_min] and [avl_find_max] return nothing exactly on the empty tree, and
    otherwise the order of the entry whose (price, timestamp) is below, respectively
    above, that of every other entry. *)
Theorem avl_find_extremes (t : AVLTree) :
  avl (root t) ->
  match entries (root t) with
  | [] => avl_find_min (Some t) = None /\ avl_find_max (Some t) = None
  | _ =>
      (exists k o, avl_find_min (Some t) = Some o /\ (k, o) ∈ entries (root t) /\
         Forall (fun e => e = (k, o) \/ rank_lt (key_rank k) (key_rank e.1)) (entries (root t))) /\
      (exists k o, avl_find_max (Some t) = Some o /\ (k, o) ∈ entries (root t) /\
         Forall (fun e => e = (k, o) \/ rank_lt (key_rank e.1) (key_rank k)) (entries (root t)))
  end.
Proof.
  intros [_ Ho]. unfold ordered in Ho. cbn [avl_find_min avl_find_max].
  rewrite find_min_node_head, find_max_node_last.
  destruct (entries (root t)) as [|[[p ts] o] l] eqn:E; [split; reflexivity |]. split.
  - exists (p, ts), o. split_and!; auto; [left | now apply sorted_head_least].
  - assert (Hne : entries (root t) <> []) by (rewrite E; discriminate). rewrite <- E in *.
    destruct (exists_last Hne) as (l' & [[q u] w] & El). rewrite El in Ho |- *. exists (q, u), w. rewrite last_snoc.
    split_and!; auto; [apply elem_of_app; right; left | now apply sorted_last_greatest].
Qed.

Lemma avl_find_extremes_witness :
  (exists k o, avl_find_min (Some sample_avl) = Some o /\ (k, o) ∈ entries sample_tree /\
     Forall (fun e => e = (k, o) \/ rank_lt (key_rank k) (key_rank e.1)) (entries sample_tree)) /\
  (exists k o, avl_find_max (Some sample_avl) = Some o /\ (k, o) ∈ entries sample_tree /\
     Forall (fun e => e = (k, o) \/ rank_lt (key_rank e.1) (key_rank k)) (entries sample_tree)).
Proof. exact (avl_find_extremes sample_avl sample_tree_avl). Defined.
