(* ===== verification/OrderBook.v ===== *)
(** * The order book (src/src/trading_engine/order_book.c)

    A book owns two AVL trees of pointers into the shared order store and a
    pointer to the trade broadcaster.  Its operations read and write the store
    [order_heap], the trees and, when trades execute, the list of notifications
    handed to the broadcaster.  [order_book_match_orders] loops until no match is
    possible, so the model gives it fuel; the number of resting orders plus one is
    enough (see [match_loop_refines]).  [clock n] is what [time(NULL)] returns for
    the [n]-th trade of a call. *)

From Stdlib Require Import Ascii String ZArith Lia SpecFloat.
From stdpp Require Import base list numbers strings gmap.
From S2P Require Import Prelude SortedAssoc CDouble CString Order AvlTree.

(** ** The broadcaster's interface (src/src/trading_engine/trade_broadcaster.c) *)

(** The broadcaster holds the server it sends through, [NULL] or not. *)
Record TradeBroadcaster : Type := mkTradeBroadcaster { tb_has_server : bool }.

(** The arguments of a notification. *)
Record TradeNote : Type := mkTradeNote {
  tn_symbol : string;
  tn_buy_order_id : string;
  tn_sell_order_id : string;
  tn_price : double;
  tn_quantity : Z;
  tn_timestamp : Z
}.

Definition trade_broadcaster_create (calloc_ok : bool) (has_server : bool)
    : option TradeBroadcaster :=
  if calloc_ok then Some (mkTradeBroadcaster has_server) else None.

(** What is freed; the server is not the broadcaster's own. *)
Definition trade_broadcaster_destroy (broadcaster : option TradeBroadcaster) : list TradeBroadcaster :=
  match broadcaster with None => [] | Some b => [b] end.

(** The notifications a call adds: none when a pointer argument is [NULL]. *)
Definition trade_broadcaster_send_trade (broadcaster : option TradeBroadcaster)
    (symbol buy_order_id sell_order_id : option string) (price : double) (quantity : Z)
    (timestamp : Z) : list TradeNote :=
  match broadcaster, symbol, buy_order_id, sell_order_id with
  | Some _, Some s, Some b, Some a => [mkTradeNote s b a price quantity timestamp]
  | _, _, _, _ => []
  end.

(** ** The book *)

Record OrderBook : Type := mkOrderBook {
  buy_orders : option AVLTree;
  sell_orders : option AVLTree;
  trade_broadcaster : option TradeBroadcaster
}.

(** The three allocations succeed or fail in turn. *)
Definition order_book_create (malloc_book malloc_buy malloc_sell : bool)
    (broadcaster : option TradeBroadcaster) : option OrderBook :=
  if negb malloc_book then None
  else
    match avl_create malloc_buy true with
    | None => None
    | Some buy =>
        match avl_create malloc_sell false with
        | None => None
        | Some sell =>
            match broadcaster with
            | None => None
            | Some _ => Some (mkOrderBook (Some buy) (Some sell) broadcaster)
            end
        end
    end.

(** The tree nodes freed with the book; the orders they point to are not. *)
Definition order_book_destroy (book : option OrderBook) : list (double * Z * loc) :=
  match book with
  | None => []
  | Some b => avl_destroy (buy_orders b) ++ avl_destroy (sell_orders b)
  end.

(** The tests on two orders that are not null. *)
Definition can_match (buy sell : Order) : bool :=
  if o_is_canceled buy || o_is_canceled sell then false
  else if negb (str_eq (o_symbol buy) (o_symbol sell)) then false
  else if d_lt (o_price buy) (o_price sell) then false
  else if (o_remaining_quantity buy <=? 0)%Z || (o_remaining_quantity sell <=? 0)%Z then false
  else true.

Definition is_match_possible (h : order_heap) (buy sell : option loc) : res bool :=
  match buy, sell with
  | Some b, Some s => bo ← load h b; so ← load h s; Ok (can_match bo so)
  | _, _ => Ok false
  end.

Definition match_quantity (buy sell : Order) : Z :=
  if (o_remaining_quantity buy <? o_remaining_quantity sell)%Z
  then o_remaining_quantity buy else o_remaining_quantity sell.

Definition process_match (h : order_heap) (buy sell : option loc)
    (broadcaster : option TradeBroadcaster) (now : Z) : res (order_heap * list TradeNote) :=
  match buy, sell with
  | Some b, Some s =>
      bo ← load h b; so ← load h s;
      let q := match_quantity bo so in
      '(_, h) ← order_reduce_quantity h buy q;
      '(_, h) ← order_reduce_quantity h sell q;
      bo ← load h b; so ← load h s;
      Ok (h, trade_broadcaster_send_trade broadcaster (Some (o_symbol bo)) (Some (o_order_id bo))
               (Some (o_order_id so)) (o_price so) q now)
  | _, _ => Ok (h, [])
  end.

Definition order_book_add_order (malloc_ok : bool) (h : order_heap) (book : option OrderBook)
    (order : option loc) : res (Z * option OrderBook) :=
  match book, order with
  | Some b, Some l =>
      o ← load h l;
      if o_is_buy_order o then
        t ← avl_insert malloc_ok (buy_orders b) (o_price o) (o_timestamp o) l;
        Ok (0%Z, Some (mkOrderBook t (sell_orders b) (trade_broadcaster b)))
      else
        t ← avl_insert malloc_ok (sell_orders b) (o_price o) (o_timestamp o) l;
        Ok (0%Z, Some (mkOrderBook (buy_orders b) t (trade_broadcaster b)))
  | _, _ => Ok ((-1)%Z, book)
  end.

(** The state the matching loop works on. *)
Record match_state : Type := mkMatchState {
  ms_heap : order_heap;
  ms_book : OrderBook;
  ms_notes : list TradeNote
}.

(** Remove an order from its tree when it is fully filled. *)
Definition remove_if_filled (h : order_heap) (t : option AVLTree) (l : loc)
    : res (option AVLTree) :=
  o ← load h l;
  if (o_remaining_quantity o =? 0)%Z then avl_delete_order t (o_price o) (o_timestamp o) else Ok t.

(** The [while (matches_found)] loop; [count] is [match_count]. *)
Fixpoint match_loop (fuel : nat) (clock : nat -> Z) (count : nat) (s : match_state) : res match_state :=
  match fuel with
  | O => OutOfFuel
  | S fuel =>
      let h := ms_heap s in
      let b := ms_book s in
      match avl_find_max (buy_orders b), avl_find_min (sell_orders b) with
      | Some buy, Some sell =>
          ok ← is_match_possible h (Some buy) (Some sell);
          if (ok : bool) then
            '(h, notes) ← process_match h (Some buy) (Some sell) (trade_broadcaster b) (clock count);
            buys ← remove_if_filled h (buy_orders b) buy;
            sells ← remove_if_filled h (sell_orders b) sell;
            match_loop fuel clock (S count)
              (mkMatchState h (mkOrderBook buys sells (trade_broadcaster b)) (ms_notes s ++ notes))
          else Ok s
      | _, _ => Ok s
      end
  end.

Definition order_book_match_orders (fuel : nat) (clock : nat -> Z) (h : order_heap)
    (book : option OrderBook) : res (order_heap * option OrderBook * list TradeNote) :=
  match book with
  | None => Ok (h, None, [])
  | Some b =>
      match buy_orders b, sell_orders b with
      | Some _, Some _ =>
          if avl_is_empty (buy_orders b) then Ok (h, book, [])
          else if avl_is_empty (sell_orders b) then Ok (h, book, [])
          else
            buy ← deref (avl_find_max (buy_orders b)); _ ← load h buy;
            sell ← deref (avl_find_min (sell_orders b)); _ ← load h sell;
            ok ← is_match_possible h (Some buy) (Some sell);
            if negb (ok : bool) then Ok (h, book, [])
            else
              s ← match_loop fuel clock 0 (mkMatchState h b []);
              Ok (ms_heap s, Some (ms_book s), ms_notes s)
      | _, _ => Ok (h, book, [])
      end
  end.

(** The search of [order_book_cancel_order]: the order it cancels, if any. *)
Fixpoint cancel_search (h : order_heap) (order_id : string) (is_buy_order : bool) (current : tree)
    : res (option loc) :=
  match current with
  | Leaf => Ok None
  | Node p ts l t_left t_right _ =>
      o ← load h l;
      if str_eq (o_order_id o) order_id then Ok (Some l)
      else
        let cmp := compare_nodes p ts (o_price o) (o_timestamp o) is_buy_order in
        cancel_search h order_id is_buy_order (if (cmp <? 0)%Z then t_left else t_right)
  end.

Definition order_book_cancel_order (h : order_heap) (book : option OrderBook)
    (order_id : option string) (is_buy_order : bool) : res (Z * order_heap) :=
  match book, order_id with
  | Some b, Some id =>
      t ← deref (if is_buy_order then buy_orders b else sell_orders b);
      found ← cancel_search h id is_buy_order (root t);
      match (found : option loc) with
      | Some l => h ← order_cancel h (Some l); Ok (0%Z, h)
      | None => Ok ((-1)%Z, h)
      end
  | _, _ => Ok ((-1)%Z, h)
  end.

Definition order_book_traverse_buy_orders {S : Type} (book : option OrderBook)
    (callback : option (loc -> S -> res S)) (user_data : S) : res S :=
  match book, callback with
  | Some b, Some cb => avl_inorder_traverse (buy_orders b) cb user_data
  | _, _ => Ok user_data
  end.

Definition order_book_traverse_sell_orders {S : Type} (book : option OrderBook)
    (callback : option (loc -> S -> res S)) (user_data : S) : res S :=
  match book, callback with
  | Some b, Some cb => avl_inorder_traverse (sell_orders b) cb user_data
  | _, _ => Ok user_data
  end.

(** The accumulator is the [int] member [total_quantity]. *)
Definition count_quantity_callback (h : order_heap) (target_price : double) (l : loc) (total : Z)
    : res Z :=
  o ← load h l;
  if d_eq (o_price o) target_price && negb (o_is_canceled o)
  then int_add total (o_remaining_quantity o) else Ok total.

Definition order_book_get_quantity_at_price (h : order_heap) (book : option OrderBook)
    (price : double) (is_buy_order : bool) : res Z :=
  match book with
  | None => Ok 0%Z
  | Some b =>
      avl_inorder_traverse (if is_buy_order then buy_orders b else sell_orders b)
        (count_quantity_callback h price) 0%Z
  end.
