(* ===== verification/MatchSpec.v ===== *)
(** * Abstract specification of matching

    What an order book promises, without trees, store or pointers: the bids and
    the asks are lists of orders in priority order, and matching trades the two
    heads as long as they match, removing what is filled.  The refinement theorem
    of [BookRefine] shows that the code implements this. *)

From Stdlib Require Import Ascii String ZArith Lia SpecFloat.
From stdpp Require Import base list numbers strings gmap.
From S2P Require Import Prelude SortedAssoc CDouble CString Order AvlTree OrderBook.

(** An order after [q] of it was filled. *)
Definition fill (o : Order) (q : Z) : Order := set_remaining o (o_remaining_quantity o - q).

(** A side after its head was filled by [q]: the head leaves when nothing remains. *)
Definition fill_head (o : Order) (q : Z) (rest : list Order) : list Order :=
  if (o_remaining_quantity o - q =? 0)%Z then rest else fill o q :: rest.

Definition note_of (b a : Order) (q now : Z) : TradeNote :=
  mkTradeNote (o_symbol b) (o_order_id b) (o_order_id a) (o_price a) q now.

(** Notifications, remaining bids and remaining asks. *)
Fixpoint spec_match (fuel : nat) (clock : nat -> Z) (count : nat) (bids asks : list Order)
    : list TradeNote * list Order * list Order :=
  match fuel, bids, asks with
  | S fuel, b :: bids', a :: asks' =>
      if can_match b a then
        let q := match_quantity b a in
        let '(notes, bs, as_) :=
          spec_match fuel clock (S count) (fill_head b q bids') (fill_head a q asks') in
        (note_of b a q (clock count) :: notes, bs, as_)
      else ([], bids, asks)
  | _, _, _ => ([], bids, asks)
  end.

(** No further trade is possible between the best bid and the best ask. *)
Definition no_match (bids asks : list Order) : Prop :=
  match bids, asks with
  | b :: _, a :: _ => can_match b a = false
  | _, _ => True
  end.

Definition total_remaining (l : list Order) : Z := foldr (fun o s => o_remaining_quantity o + s)%Z 0%Z l.
Definition total_traded (l : list TradeNote) : Z := foldr (fun n s => tn_quantity n + s)%Z 0%Z l.

(** A notification is a trade between one of the bids and one of the asks, at the
    ask's price, within the bid's limit and both remaining quantities. *)
Definition fair_trade (bids asks : list Order) (n : TradeNote) : Prop :=
  exists b a, b ∈ bids /\ a ∈ asks /\
    tn_symbol n = o_symbol b /\ o_symbol b = o_symbol a /\
    tn_buy_order_id n = o_order_id b /\ tn_sell_order_id n = o_order_id a /\
    tn_price n = o_price a /\ d_lt (o_price b) (o_price a) = false /\
    o_is_canceled b = false /\ o_is_canceled a = false /\
    (0 < tn_quantity n <= Z.min (o_remaining_quantity b) (o_remaining_quantity a))%Z.

(** ** Lemmas *)

Lemma can_match_inv (b a : Order) :
  can_match b a = true ->
  o_is_canceled b = false /\ o_is_canceled a = false /\ o_symbol b = o_symbol a /\
  d_lt (o_price b) (o_price a) = false /\
  (0 < o_remaining_quantity b)%Z /\ (0 < o_remaining_quantity a)%Z.
Proof.
  unfold can_match. destruct (o_is_canceled b), (o_is_canceled a); cbn; try discriminate.
  destruct (str_eq (o_symbol b) (o_symbol a)) eqn:Es; cbn; try discriminate.
  apply str_eq_spec in Es. destruct (d_lt _ _); try discriminate.
  destruct (Z.leb_spec (o_remaining_quantity b) 0), (Z.leb_spec (o_remaining_quantity a) 0);
    cbn; try discriminate. intros _. split_and!; auto.
Qed.

Lemma match_quantity_min (b a : Order) :
  match_quantity b a = Z.min (o_remaining_quantity b) (o_remaining_quantity a).
Proof. unfold match_quantity. case_test; lia. Qed.

Lemma total_fill_head (o : Order) (q : Z) (l : list Order) :
  total_remaining (fill_head o q l) = (o_remaining_quantity o - q + total_remaining l)%Z.
Proof.
  unfold fill_head. case_test; [lia |].
  change (total_remaining (fill o q :: l)) with (o_remaining_quantity (fill o q) + total_remaining l)%Z.
  cbn. lia.
Qed.

(** Matching one pair removes at least one of the heads. *)
Lemma fill_heads_shorter (b a : Order) (bids asks : list Order) :
  let q := match_quantity b a in
  (length (fill_head b q bids) + length (fill_head a q asks) < S (length bids) + S (length asks))%nat.
Proof.
  cbn. rewrite match_quantity_min. unfold fill_head. repeat case_test; cbn; lia.
Qed.

Lemma elem_of_fill_head (o x : Order) (q : Z) (l : list Order) :
  x ∈ fill_head o q l -> x ∈ l \/ x = fill o q.
Proof. unfold fill_head. case_test; rewrite ?elem_of_cons; tauto. Qed.

(** A trade with a partially filled head is one with the head. *)
Lemma fair_trade_fill (b a : Order) (q : Z) (bids asks : list Order) (n : TradeNote) :
  (0 <= q)%Z ->
  fair_trade (fill_head b q bids) (fill_head a q asks) n -> fair_trade (b :: bids) (a :: asks) n.
Proof.
  intros Hq (b' & a' & Hb & Ha & H). unfold fair_trade.
  assert (Hb' : exists b0, b0 ∈ b :: bids /\ o_symbol b0 = o_symbol b' /\ o_order_id b0 = o_order_id b' /\
    o_price b0 = o_price b' /\ o_is_canceled b0 = o_is_canceled b' /\
    (o_remaining_quantity b' <= o_remaining_quantity b0)%Z).
  { apply elem_of_fill_head in Hb as [Hb| ->]; [exists b' | exists b]; rewrite elem_of_cons; cbn; auto 8 with lia. }
  assert (Ha' : exists a0, a0 ∈ a :: asks /\ o_symbol a0 = o_symbol a' /\ o_order_id a0 = o_order_id a' /\
    o_price a0 = o_price a' /\ o_is_canceled a0 = o_is_canceled a' /\
    (o_remaining_quantity a' <= o_remaining_quantity a0)%Z).
  { apply elem_of_fill_head in Ha as [Ha| ->]; [exists a' | exists a]; rewrite elem_of_cons; cbn; auto 8 with lia. }
  destruct Hb' as (b0 & ? & ? & ? & ? & ? & ?), Ha' as (a0 & ? & ? & ? & ? & ? & ?).
  exists b0, a0. destruct_and!. split_and!; try congruence; lia.
Qed.

Lemma spec_match_stop (fuel count : nat) (clock : nat -> Z) (bids asks : list Order) :
  no_match bids asks -> spec_match fuel clock count bids asks = ([], bids, asks).
Proof. destruct fuel, bids, asks; cbn; try reflexivity. now intros ->. Qed.

(** Enough fuel exhausts the possible matches. *)
Lemma spec_match_done (fuel count : nat) (clock : nat -> Z) (bids asks bs as_ : list Order) notes :
  (length bids + length asks < fuel)%nat ->
  spec_match fuel clock count bids asks = (notes, bs, as_) -> no_match bs as_.
Proof.
  revert count bids asks notes. induction fuel as [|fuel IH]; intros count bids asks notes Hf; [lia |].
  destruct bids as [|b bids], asks as [|a asks]; cbn [spec_match]; try (intros [= <- <- <-]; exact I).
  destruct (can_match b a) eqn:Em; [|intros [= <- <- <-]; exact Em].
  destruct (spec_match _ _ _ _ _) as [[notes' bs'] as'] eqn:E. intros [= <- <- <-].
  eapply IH; [|exact E]. pose proof (fill_heads_shorter b a bids asks). cbn in *. lia.
Qed.

Lemma spec_match_conserves (fuel count : nat) (clock : nat -> Z) (bids asks bs as_ : list Order) notes :
  spec_match fuel clock count bids asks = (notes, bs, as_) ->
  (total_remaining bids = total_traded notes + total_remaining bs)%Z /\
  (total_remaining asks = total_traded notes + total_remaining as_)%Z.
Proof.
  revert count bids asks notes. induction fuel as [|fuel IH]; intros count bids asks notes.
  { intros [= <- <- <-]. cbn. lia. }
  destruct bids as [|b bids], asks as [|a asks]; cbn [spec_match]; try (intros [= <- <- <-]; cbn; lia).
  destruct (can_match b a); [|intros [= <- <- <-]; cbn; lia].
  destruct (spec_match _ _ _ _ _) as [[notes' bs'] as'] eqn:E. intros [= <- <- <-].
  apply IH in E. rewrite !total_fill_head in E.
  change (total_remaining (b :: bids)) with (o_remaining_quantity b + total_remaining bids)%Z.
  change (total_remaining (a :: asks)) with (o_remaining_quantity a + total_remaining asks)%Z.
  unfold note_of. cbn [total_traded foldr tn_quantity]. fold (total_traded notes'). lia.
Qed.

Lemma spec_match_fair (fuel count : nat) (clock : nat -> Z) (bids asks bs as_ : list Order) notes :
  spec_match fuel clock count bids asks = (notes, bs, as_) ->
  Forall (fair_trade bids asks) notes.
Proof.
  revert count bids asks notes. induction fuel as [|fuel IH]; intros count bids asks notes.
  { intros [= <- <- <-]. constructor. }
  destruct bids as [|b bids], asks as [|a asks]; cbn [spec_match]; try (intros [= <- <- <-]; constructor).
  destruct (can_match b a) eqn:Em; [|intros [= <- <- <-]; constructor].
  destruct (spec_match _ _ _ _ _) as [[notes' bs'] as'] eqn:E. intros [= <- <- <-].
  apply can_match_inv in Em as (? & ? & ? & ? & ? & ?).
  pose proof (match_quantity_min b a) as Hq. constructor.
  - exists b, a. cbn. split_and!; auto; [left | left | lia | lia].
  - apply IH in E. eapply Forall_impl; [exact E |]. intros n. apply fair_trade_fill. lia.
Qed.

(** A property of orders that a partial fill keeps holds of what matching leaves. *)
Lemma spec_match_Forall (P : Order -> Prop) fuel clock count bs as_ notes bs' as' :
  (forall o q, P o -> (0 < q < o_remaining_quantity o)%Z -> P (fill o q)) ->
  Forall P bs -> Forall P as_ -> spec_match fuel clock count bs as_ = (notes, bs', as') ->
  Forall P bs' /\ Forall P as'.
Proof.
  intros HP. revert count bs as_ notes. induction fuel as [|fuel IH]; intros count bs as_ notes Hb Ha.
  { intros [= _ <- <-]. auto. }
  destruct Hb as [|b bs Hb Hbs]; [intros [= _ <- <-]; auto |].
  destruct Ha as [|a as_ Ha Has]; [intros [= _ <- <-]; auto |]. cbn [spec_match].
  destruct (can_match b a) eqn:Em; [|intros [= _ <- <-]; auto].
  destruct (spec_match _ _ _ _ _) as [[notes' bs''] as''] eqn:E. intros [= _ -> ->].
  apply can_match_inv in Em as (_ & _ & _ & _ & Hqb & Hqa). pose proof (match_quantity_min b a) as Hq.
  eapply IH; [| |exact E]; unfold fill_head; case_test; auto; constructor; auto; apply HP; auto; lia.
Qed.

(** ** Priority *)

(** A side of which trades took some of the first orders, and perhaps a part of the next. *)
Definition consumed (l l' : list Order) : Prop :=
  exists gone rest, l = gone ++ rest /\
    (l' = rest \/ exists o r q, rest = o :: r /\ (0 < q < o_remaining_quantity o)%Z /\ l' = fill o q :: r).

Lemma consumed_refl l : consumed l l.
Proof. exists [], l. auto. Qed.

Lemma consumed_fill_head o q l l' :
  (0 < q <= o_remaining_quantity o)%Z -> consumed (fill_head o q l) l' -> consumed (o :: l) l'.
Proof.
  intros Hq. unfold fill_head. case_test; intros (gone & rest & E & H).
  { exists (o :: gone), rest. now rewrite E. }
  destruct gone as [|g gone]; cbn in E.
  - exists [], (o :: l). split; [reflexivity |]. right. destruct H as [-> |(o' & r & q' & E' & Hq' & ->)]; subst rest.
    + exists o, l, q. split_and!; [reflexivity | lia..|reflexivity].
    + injection E' as <- <-. exists o, l, (q + q')%Z. cbn in Hq'. split_and!; [reflexivity | lia.. |].
      unfold fill. cbn. do 2 f_equal. lia.
  - injection E as _ ->. exists (o :: gone), rest. auto.
Qed.

Lemma spec_match_consumes (fuel count : nat) (clock : nat -> Z) (bids asks bs as_ : list Order) notes :
  spec_match fuel clock count bids asks = (notes, bs, as_) -> consumed bids bs /\ consumed asks as_.
Proof.
  revert count bids asks notes. induction fuel as [|fuel IH]; intros count bids asks notes.
  { intros [= _ <- <-]. auto using consumed_refl. }
  destruct bids as [|b bids], asks as [|a asks]; cbn [spec_match]; try (intros [= _ <- <-]; auto using consumed_refl).
  destruct (can_match b a) eqn:Em; [|intros [= _ <- <-]; auto using consumed_refl].
  destruct (spec_match _ _ _ _ _) as [[notes' bs'] as'] eqn:E. intros [= _ -> ->].
  apply can_match_inv in Em as (_ & _ & _ & _ & Hb & Ha). pose proof (match_quantity_min b a) as Hq.
  apply IH in E as [E1 E2]. split; (eapply consumed_fill_head; [|eassumption]); lia.
Qed.
