(* ===== verification/BookRefine.v ===== *)
(** * The order book implements the abstract matching

    The invariant of a book against the order store, its preservation by the
    operations of [OrderBook], and the refinement of [MatchSpec] by
    [order_book_match_orders], from which the properties of matching follow. *)

From Stdlib Require Import Ascii String ZArith Lia SpecFloat.
From stdpp Require Import base list numbers strings gmap sorting.
From S2P Require Import Prelude SortedAssoc CDouble CString Order AvlTree OrderBook MatchSpec.

(** ** Abstraction and invariant *)

Fixpoint orders_of (h : order_heap) (es : list (key * loc)) : list Order :=
  match es with
  | [] => []
  | e :: es => match h !! e.2 with Some o => o :: orders_of h es | None => orders_of h es end
  end.

Definition tree_orders (h : order_heap) (t : option AVLTree) : list Order :=
  match t with Some t => orders_of h (entries (root t)) | None => [] end.

(** The bids best first (highest key), the asks best first (lowest key). *)
Definition bids (h : order_heap) (b : OrderBook) : list Order := reverse (tree_orders h (buy_orders b)).
Definition asks (h : order_heap) (b : OrderBook) : list Order := tree_orders h (sell_orders b).

(** A node refers to a live order of its side and is filed under its key. *)
Definition entry_ok (h : order_heap) (buy : bool) (e : key * loc) : Prop :=
  match h !! e.2 with
  | Some o => e.1 = (o_price o, o_timestamp o) /\ o_is_buy_order o = buy
  | None => False
  end.

Definition tree_ok (h : order_heap) (buy : bool) (t : AVLTree) : Prop :=
  is_buy_tree t = buy /\ avl (root t) /\ Forall (entry_ok h buy) (entries (root t)).

Definition book_wf (h : order_heap) (b : OrderBook) : Prop :=
  match buy_orders b, sell_orders b, trade_broadcaster b with
  | Some bt, Some st, Some _ => tree_ok h true bt /\ tree_ok h false st
  | _, _, _ => False
  end.

(** Number of resting orders. *)
Definition book_size (b : OrderBook) : nat :=
  (match buy_orders b with Some t => size (root t) | None => 0 end +
   match sell_orders b with Some t => size (root t) | None => 0 end)%nat.

(** The store after matching: same orders, of which only unfilled quantities shrank. *)
Definition refilled (h h' : order_heap) : Prop :=
  forall l, match h !! l, h' !! l with
            | Some o, Some o' => exists r, o' = set_remaining o r /\ (r <= o_remaining_quantity o)%Z
            | None, None => True
            | _, _ => False
            end.

#[export] Instance double_eq_dec : EqDecision double.
Proof. solve_decision. Defined.

#[export] Instance entry_ok_dec h buy e : Decision (entry_ok h buy e).
Proof. unfold entry_ok. destruct (h !! e.2); apply _. Defined.

#[export] Instance tree_ok_dec h buy t : Decision (tree_ok h buy t).
Proof. unfold tree_ok. apply _. Defined.

#[export] Instance book_wf_dec h b : Decision (book_wf h b).
Proof. unfold book_wf. repeat case_match; apply _. Defined.

(** ** Entries and the store *)

Lemma entry_ok_inv h buy k l :
  entry_ok h buy (k, l) ->
  exists o, h !! l = Some o /\ k = (o_price o, o_timestamp o) /\ o_is_buy_order o = buy.
Proof. unfold entry_ok. cbn. destruct (h !! l) as [o|]; [eauto | contradiction]. Qed.

Lemma entry_ok_refill h buy l o r e :
  h !! l = Some o -> entry_ok h buy e -> entry_ok (<[l := set_remaining o r]> h) buy e.
Proof.
  intros Hl. unfold entry_ok. destruct (decide (e.2 = l)) as [->|Hne].
  - rewrite Hl, lookup_insert_eq. auto.
  - rewrite lookup_insert_ne by congruence. auto.
Qed.

Lemma tree_ok_refill h buy l o r t :
  h !! l = Some o -> tree_ok h buy t -> tree_ok (<[l := set_remaining o r]> h) buy t.
Proof.
  intros Hl (Hb & Ha & He). split_and!; auto.
  eapply Forall_impl; [exact He |]. intros e. now apply entry_ok_refill.
Qed.

Lemma orders_of_frame h l o es :
  Forall (fun e => e.2 <> l) es -> orders_of (<[l := o]> h) es = orders_of h es.
Proof.
  induction 1 as [|e es He Hes IH]; cbn; [reflexivity |].
  rewrite lookup_insert_ne by congruence. now rewrite IH.
Qed.

Lemma orders_of_app h es1 es2 : orders_of h (es1 ++ es2) = orders_of h es1 ++ orders_of h es2.
Proof. induction es1 as [|e es1 IH]; cbn; [reflexivity |]. rewrite IH. now case_match. Qed.

Lemma orders_of_cons h k l o es :
  h !! l = Some o -> orders_of h ((k, l) :: es) = o :: orders_of h es.
Proof. intros H. cbn. now rewrite H. Qed.

Lemma length_orders_of h buy es :
  Forall (entry_ok h buy) es -> length (orders_of h es) = length es.
Proof.
  induction 1 as [|[k l] es He Hes IH]; [reflexivity |].
  apply entry_ok_inv in He as (o & Hl & _). rewrite (orders_of_cons _ _ _ _ _ Hl). cbn. now rewrite IH.
Qed.

(** Within a tree, only one node refers to an order. *)
Lemma entries_distinct h buy es1 k l es2 :
  sa_sorted key_ok key_rank (es1 ++ (k, l) :: es2) ->
  Forall (entry_ok h buy) (es1 ++ (k, l) :: es2) ->
  Forall (fun e => e.2 <> l) es1 /\ Forall (fun e => e.2 <> l) es2.
Proof.
  intros (_ & _ & _ & H1 & H2)%sa_sorted_mid HF.
  apply Forall_app in HF as [F1 [F F2]%Forall_cons].
  apply entry_ok_inv in F as (o & Hl & -> & _).
  assert (Hkey : forall e, entry_ok h buy e -> e.2 = l -> e.1 = (o_price o, o_timestamp o)).
  { intros [k' l'] He E. cbn in E. subst l'. apply entry_ok_inv in He as (o' & Hl' & -> & _). cbn. congruence. }
  split.
  - apply Forall_forall. intros e He E. rewrite Forall_forall in H1, F1.
    specialize (H1 e He). unfold entry_lt in H1. rewrite (Hkey e (F1 e He) E) in H1.
    now apply rank_lt_irrefl in H1.
  - apply Forall_forall. intros e He E. rewrite Forall_forall in H2, F2.
    specialize (H2 e He). unfold entry_lt in H2. rewrite (Hkey e (F2 e He) E) in H2.
    now apply rank_lt_irrefl in H2.
Qed.

(** An order of one side is not referred to from the other. *)
Lemma entries_other_side h buy l o es :
  Forall (entry_ok h buy) es -> h !! l = Some o -> o_is_buy_order o = negb buy ->
  Forall (fun e => e.2 <> l) es.
Proof.
  intros HF Hl Hb. eapply Forall_impl; [exact HF |]. intros [k l'] He <-. cbn in Hl.
  apply entry_ok_inv in He as (o' & Hl' & _ & Hb'). destruct buy; cbn in *; congruence.
Qed.

(** ** Removing a filled order *)

Lemma remove_filled h buy t es1 k l es2 o :
  tree_ok h buy t -> entries (root t) = es1 ++ (k, l) :: es2 -> h !! l = Some o ->
  exists t', remove_if_filled h (Some t) l = Ok (Some t') /\ tree_ok h buy t' /\
    entries (root t') = es1 ++ (if (o_remaining_quantity o =? 0)%Z then [] else [(k, l)]) ++ es2.
Proof.
  intros (Hb & Ha & HF) He Hl. unfold remove_if_filled. rewrite (load_ok _ _ _ Hl). cbn [mbind res_bind].
  destruct (Z.eqb_spec (o_remaining_quantity o) 0).
  2: { exists t. split_and!; auto. now split_and!. }
  pose proof HF as HF'. rewrite He in HF'. apply Forall_app in HF' as [F1 [F F2]%Forall_cons].
  apply entry_ok_inv in F as (o' & Hl' & -> & _). assert (o' = o) as -> by congruence.
  pose proof (proj2 Ha) as HS. unfold ordered in HS. rewrite He in HS.
  pose proof (sa_sorted_mid _ _ _ _ _ HS) as (_ & _ & Hk & _). cbn in Hk.
  destruct (avl_delete_node (root t) (o_price o) (o_timestamp o) (is_buy_tree t) Ha Hk) as (r & E & Hr & Hre).
  rewrite He, (sa_delete_app_eq _ key_ok key_rank) in Hre; auto.
  2: { unfold key_cmp; cbn. rewrite compare_nodes_rank by exact Hk. now rewrite Z.eqb_refl, Z.ltb_irrefl. }
  cbn [avl_delete_order]. rewrite E. cbn [mbind res_bind].
  exists (mkAVLTree r (is_buy_tree t)). split_and!; auto. split_and!; auto.
  cbn. rewrite Hre. now apply Forall_app.
Qed.

(** ** One trade *)

Lemma refilled_refl h : refilled h h.
Proof.
  intros l. destruct (h !! l) as [o|]; [|exact I].
  exists (o_remaining_quantity o). split; [now destruct o | lia].
Qed.

Lemma refilled_trans h1 h2 h3 : refilled h1 h2 -> refilled h2 h3 -> refilled h1 h3.
Proof.
  intros H12 H23 l. specialize (H12 l). specialize (H23 l).
  destruct (h1 !! l) as [o1|], (h2 !! l) as [o2|], (h3 !! l) as [o3|]; try contradiction; auto.
  destruct H12 as (r1 & -> & ?), H23 as (r2 & -> & ?). exists r2. cbn in *. split; [reflexivity | lia].
Qed.

Lemma refilled_fill h l o q :
  h !! l = Some o -> (0 <= q)%Z -> refilled h (<[l := fill o q]> h).
Proof.
  intros Hl Hq l'. destruct (decide (l' = l)) as [->|Hne].
  - rewrite Hl, lookup_insert_eq. exists (o_remaining_quantity o - q)%Z. split; [reflexivity | lia].
  - rewrite lookup_insert_ne by congruence. apply (refilled_refl h).
Qed.

Section Trade.
Context (h : order_heap) (lb ls : loc) (bo so : Order).
Context (Hb : h !! lb = Some bo) (Hs : h !! ls = Some so).
Context (Hbuy : o_is_buy_order bo = true) (Hsell : o_is_buy_order so = false).
Context (Hm : can_match bo so = true).

Let q := match_quantity bo so.
Let h1 := <[ls := fill so q]> (<[lb := fill bo q]> h).

Lemma trade_locs : lb <> ls.
Proof. intros ->. rewrite Hb in Hs. injection Hs as E. congruence. Qed.

Lemma trade_quantity : (0 < q <= o_remaining_quantity bo)%Z /\ (q <= o_remaining_quantity so)%Z.
Proof. apply can_match_inv in Hm as (_ & _ & _ & _ & ? & ?). unfold q. rewrite match_quantity_min. lia. Qed.

Lemma trade_lookup_buy : h1 !! lb = Some (fill bo q).
Proof.
  unfold h1. rewrite lookup_insert_ne by (apply not_eq_sym, trade_locs). apply lookup_insert_eq.
Qed.

Lemma trade_lookup_sell : h1 !! ls = Some (fill so q).
Proof. apply lookup_insert_eq. Qed.

Lemma process_match_ok br now :
  process_match h (Some lb) (Some ls) (Some br) now = Ok (h1, [note_of bo so q now]).
Proof.
  pose proof trade_quantity as [Hq1 Hq2].
  assert (Hs' : <[lb := fill bo q]> h !! ls = Some so)
    by (rewrite lookup_insert_ne by exact trade_locs; exact Hs).
  unfold process_match. rewrite (load_ok _ _ _ Hb), (load_ok _ _ _ Hs). cbn [mbind res_bind]. fold q.
  rewrite (order_reduce_quantity_ok _ _ _ _ Hb) by lia. cbn [mbind res_bind]. fold (fill bo q).
  rewrite (order_reduce_quantity_ok _ _ _ _ Hs') by lia. cbn [mbind res_bind]. fold (fill so q). fold h1.
  rewrite (load_ok _ _ _ trade_lookup_buy), (load_ok _ _ _ trade_lookup_sell). reflexivity.
Qed.

Lemma trade_refilled : refilled h h1.
Proof.
  pose proof trade_quantity. eapply refilled_trans; [apply (refilled_fill h lb bo q Hb); lia |].
  apply refilled_fill; [|lia]. rewrite lookup_insert_ne by exact trade_locs. exact Hs.
Qed.

Lemma trade_tree_ok buy t : tree_ok h buy t -> tree_ok h1 buy t.
Proof.
  intros Ht. apply tree_ok_refill; [|now apply tree_ok_refill].
  rewrite lookup_insert_ne by exact trade_locs. exact Hs.
Qed.

Lemma trade_frame es :
  Forall (fun e => e.2 <> lb) es -> Forall (fun e => e.2 <> ls) es -> orders_of h1 es = orders_of h es.
Proof. intros F1 F2. unfold h1. now rewrite !orders_of_frame. Qed.

(** The buy side after the trade: the best bid filled, or gone. *)
Lemma trade_buy_side bt eb kb :
  tree_ok h true bt -> entries (root bt) = eb ++ [(kb, lb)] ->
  exists bt', remove_if_filled h1 (Some bt) lb = Ok (Some bt') /\ tree_ok h1 true bt' /\
    reverse (orders_of h1 (entries (root bt'))) = fill_head bo q (reverse (orders_of h eb)).
Proof.
  intros Ht He. pose proof Ht as (_ & [_ HS] & HF). unfold ordered in HS. rewrite He in HS, HF.
  destruct (entries_distinct _ _ _ _ _ _ HS HF) as [D1 _]. apply Forall_app in HF as [F1 _].
  destruct (remove_filled h1 true bt eb kb lb [] (fill bo q)) as (bt' & -> & Ht' & He');
    auto using trade_tree_ok, trade_lookup_buy.
  exists bt'. split_and!; auto. rewrite He'. unfold fill_head. cbn [fill set_remaining o_remaining_quantity].
  pose proof (entries_other_side _ _ _ _ _ F1 Hs Hsell) as D2.
  case_test; cbn [app]; rewrite ?orders_of_app, ?app_nil_r, trade_frame by assumption; auto.
  rewrite (orders_of_cons _ _ _ _ _ trade_lookup_buy). cbn [orders_of]. now rewrite reverse_snoc.
Qed.

Lemma trade_sell_side st es ks :
  tree_ok h false st -> entries (root st) = (ks, ls) :: es ->
  exists st', remove_if_filled h1 (Some st) ls = Ok (Some st') /\ tree_ok h1 false st' /\
    orders_of h1 (entries (root st')) = fill_head so q (orders_of h es).
Proof.
  intros Ht He. pose proof Ht as (_ & [_ HS] & HF). unfold ordered in HS. rewrite He in HS, HF.
  destruct (entries_distinct _ _ [] _ _ _ HS HF) as [_ D1]. apply Forall_cons in HF as [_ F1].
  destruct (remove_filled h1 false st [] ks ls es (fill so q)) as (st' & -> & Ht' & He');
    auto using trade_tree_ok, trade_lookup_sell.
  exists st'. split_and!; auto. rewrite He'. unfold fill_head. cbn [fill set_remaining o_remaining_quantity].
  pose proof (entries_other_side _ _ _ _ _ F1 Hb Hbuy) as D2.
  case_test; cbn [app]; rewrite ?(orders_of_cons _ _ _ _ _ trade_lookup_sell), trade_frame by assumption; auto.
Qed.
End Trade.

(** ** Best orders *)

Lemma best_buy h t :
  tree_ok h true t ->
  (entries (root t) = [] /\ avl_find_max (Some t) = None) \/
  exists es k l o, entries (root t) = es ++ [(k, l)] /\ avl_find_max (Some t) = Some l /\
    h !! l = Some o /\ o_is_buy_order o = true /\
    reverse (orders_of h (entries (root t))) = o :: reverse (orders_of h es).
Proof.
  intros (_ & _ & HF). cbn [avl_find_max]. rewrite find_max_node_last.
  destruct (entries (root t)) as [|e es] eqn:E using rev_ind; [left; auto |]. right.
  destruct e as [[p ts] l]. apply Forall_app in HF as [_ [He _]%Forall_cons].
  apply entry_ok_inv in He as (o & Hl & _ & Ho). rewrite last_snoc.
  exists es, (p, ts), l, o. split_and!; auto.
  rewrite orders_of_app, (orders_of_cons _ _ _ _ _ Hl). cbn. apply reverse_snoc.
Qed.

Lemma best_sell h t :
  tree_ok h false t ->
  (entries (root t) = [] /\ avl_find_min (Some t) = None) \/
  exists es k l o, entries (root t) = (k, l) :: es /\ avl_find_min (Some t) = Some l /\
    h !! l = Some o /\ o_is_buy_order o = false /\
    orders_of h (entries (root t)) = o :: orders_of h es.
Proof.
  intros (_ & _ & HF). cbn [avl_find_min]. rewrite find_min_node_head.
  destruct (entries (root t)) as [|[[p ts] l] es] eqn:E; [left; auto |]. right.
  apply Forall_cons in HF as [He _]. apply entry_ok_inv in He as (o & Hl & _ & Ho).
  exists es, (p, ts), l, o. split_and!; auto. now apply orders_of_cons.
Qed.

Lemma tree_ok_size h buy t : tree_ok h buy t -> size (root t) = length (orders_of h (entries (root t))).
Proof. intros (_ & _ & HF). rewrite (length_orders_of _ _ _ HF). symmetry. apply length_entries. Qed.

Lemma book_size_lists h b :
  book_wf h b -> book_size b = (length (bids h b) + length (asks h b))%nat.
Proof.
  unfold book_wf, book_size, bids, asks, tree_orders.
  destruct (buy_orders b) as [bt|], (sell_orders b) as [st|], (trade_broadcaster b); try contradiction.
  intros [Hb Hs]. rewrite length_reverse, (tree_ok_size _ _ _ Hb), (tree_ok_size _ _ _ Hs). reflexivity.
Qed.

(** ** The loop *)

(** What a run of the loop from a state establishes. *)
Definition loop_post (fuel : nat) (clock : nat -> Z) (count : nat) (s : match_state)
    (r : res match_state) : Prop :=
  exists s' notes, r = Ok s' /\
    book_wf (ms_heap s') (ms_book s') /\ refilled (ms_heap s) (ms_heap s') /\
    ms_notes s' = ms_notes s ++ notes /\
    spec_match fuel clock count (bids (ms_heap s) (ms_book s)) (asks (ms_heap s) (ms_book s)) =
      (notes, bids (ms_heap s') (ms_book s'), asks (ms_heap s') (ms_book s')).

Lemma loop_stops fuel clock count s :
  book_wf (ms_heap s) (ms_book s) ->
  no_match (bids (ms_heap s) (ms_book s)) (asks (ms_heap s) (ms_book s)) ->
  loop_post fuel clock count s (Ok s).
Proof.
  intros Hwf Hn. exists s, []. rewrite app_nil_r. split_and!; auto using refilled_refl, spec_match_stop.
Qed.

Lemma match_loop_refines fuel clock count s :
  book_wf (ms_heap s) (ms_book s) -> (book_size (ms_book s) < fuel)%nat ->
  loop_post fuel clock count s (match_loop fuel clock count s).
Proof.
  revert count s. induction fuel as [|fuel IH]; intros count [h b notes0] Hwf Hf; [lia |].
  cbn [ms_heap ms_book ms_notes] in Hwf, Hf. rewrite (book_size_lists _ _ Hwf) in Hf.
  cbn [match_loop ms_heap ms_book ms_notes].
  pose proof (loop_stops (S fuel) clock count (mkMatchState h b notes0) Hwf) as Hstop.
  cbn [ms_heap ms_book ms_notes] in Hstop. pose proof Hwf as Hwf'. unfold book_wf in Hwf'.
  assert (HB : bids h b = reverse (tree_orders h (buy_orders b))) by reflexivity.
  assert (HA : asks h b = tree_orders h (sell_orders b)) by reflexivity.
  destruct (buy_orders b) as [bt|], (sell_orders b) as [st|], (trade_broadcaster b) as [br|]; try contradiction.
  destruct Hwf' as [Hbt Hst]. cbn [tree_orders] in HB, HA.
  destruct (best_buy h bt Hbt) as [[Eb ->]|(eb & kb & lb & bo & Eb & -> & Hlb & Hbo & Ob)].
  { apply Hstop. now rewrite HB, Eb. }
  destruct (best_sell h st Hst) as [[Es ->]|(es & ks & ls & so & Es & -> & Hls & Hso & Os)].
  { apply Hstop. rewrite HB, Ob, HA, Es. exact I. }
  rewrite Ob in HB. rewrite Os in HA. rewrite HB, HA in Hf, Hstop.
  cbn [is_match_possible]. rewrite (load_ok _ _ _ Hlb), (load_ok _ _ _ Hls). cbn [mbind res_bind].
  destruct (can_match bo so) eqn:Hm; [|apply Hstop; exact Hm]. clear Hstop.
  rewrite (process_match_ok h lb ls bo so) by assumption. cbn [mbind res_bind].
  destruct (trade_buy_side h lb ls bo so Hlb Hls Hbo Hso Hm bt eb kb Hbt Eb) as (bt' & -> & Hbt' & Ob').
  destruct (trade_sell_side h lb ls bo so Hlb Hls Hbo Hso Hm st es ks Hst Es) as (st' & -> & Hst' & Os').
  cbn [mbind res_bind]. set (q := match_quantity bo so) in *.
  set (h1 := <[ls:=fill so q]> (<[lb:=fill bo q]> h)) in *.
  set (b1 := mkOrderBook (Some bt') (Some st') (Some br)).
  assert (HB1 : bids h1 b1 = fill_head bo q (reverse (orders_of h eb))) by exact Ob'.
  assert (HA1 : asks h1 b1 = fill_head so q (orders_of h es)) by exact Os'.
  assert (Hwf1 : book_wf h1 b1) by (split; assumption).
  destruct (IH (S count) (mkMatchState h1 b1 (notes0 ++ [note_of bo so q (clock count)])))
    as (s' & notes' & -> & Hwf' & Hr' & Hn' & Hsp); [exact Hwf1 | |].
  - cbn [ms_book]. rewrite (book_size_lists _ _ Hwf1), HB1, HA1.
    pose proof (fill_heads_shorter bo so (reverse (orders_of h eb)) (orders_of h es)) as Hsh.
    cbn zeta in Hsh. fold q in Hsh. cbn [length] in Hf. lia.
  - exists s', (note_of bo so q (clock count) :: notes'). cbn [ms_heap ms_book ms_notes] in *.
    split_and!; auto.
    + eapply refilled_trans; [|exact Hr']. now apply trade_refilled.
    + rewrite Hn'. now rewrite <- app_assoc.
    + rewrite HB, HA. cbn [spec_match]. rewrite Hm. fold q. rewrite <- HB1, <- HA1, Hsp. reflexivity.
Qed.

(** ** The operations *)

Lemma avl_is_empty_entries t : avl_is_empty (Some t) = match entries (root t) with [] => true | _ => false end.
Proof.
  cbn. destruct (root t) as [|p ts o l r h]; [reflexivity |]. cbn.
  destruct (entries l); reflexivity.
Qed.

Lemma match_orders_spec fuel clock h b :
  book_wf h b -> (book_size b < fuel)%nat ->
  exists h' b' notes, order_book_match_orders fuel clock h (Some b) = Ok (h', Some b', notes) /\
    book_wf h' b' /\ refilled h h' /\
    spec_match fuel clock 0 (bids h b) (asks h b) = (notes, bids h' b', asks h' b').
Proof.
  intros Hwf Hf. pose proof (match_loop_refines fuel clock 0 (mkMatchState h b []) Hwf Hf)
    as (s' & notes & Hl & Hwf' & Hr & Hn & Hsp). cbn [ms_heap ms_book ms_notes app] in *. subst notes.
  assert (Hstop : no_match (bids h b) (asks h b) ->
    exists h' b' notes, Ok (h, Some b, []) = Ok (h', Some b', notes) /\ book_wf h' b' /\ refilled h h' /\
      spec_match fuel clock 0 (bids h b) (asks h b) = (notes, bids h' b', asks h' b')).
  { intros Hn. do 3 eexists. split_and!; eauto using refilled_refl. now apply spec_match_stop. }
  pose proof Hwf as Hwf0. unfold book_wf in Hwf0. unfold order_book_match_orders.
  assert (HB : bids h b = reverse (tree_orders h (buy_orders b))) by reflexivity.
  assert (HA : asks h b = tree_orders h (sell_orders b)) by reflexivity.
  destruct (buy_orders b) as [bt|], (sell_orders b) as [st|], (trade_broadcaster b) as [br|]; try contradiction.
  destruct Hwf0 as [Hbt Hst]. cbn [tree_orders] in HB, HA. rewrite !avl_is_empty_entries.
  destruct (best_buy h bt Hbt) as [[Eb Fb]|(eb & kb & lb & bo & Eb & Fb & Hlb & Hbo & Ob)].
  { rewrite Eb. apply Hstop. now rewrite HB, Eb. }
  destruct (best_sell h st Hst) as [[Es Fs]|(es & ks & ls & so & Es & Fs & Hls & Hso & Os)].
  { rewrite Es, Eb. destruct eb; cbn; (apply Hstop; rewrite HB, Ob, HA, Es; exact I). }
  rewrite Fb, Fs, Es. replace (match entries (root bt) with [] => true | _ => false end) with false
    by (rewrite Eb; now destruct eb).
  cbn [deref mbind res_bind is_match_possible].
  rewrite (load_ok _ _ _ Hlb), (load_ok _ _ _ Hls). cbn [mbind res_bind].
  destruct (can_match bo so) eqn:Hm; cbn [negb].
  - rewrite Hl. cbn [mbind res_bind]. do 3 eexists. split_and!; eauto.
  - apply Hstop. rewrite HB, Ob, HA, Os. exact Hm.
Qed.

(** The key an order is filed under. *)
Definition order_key (o : Order) : key := (o_price o, o_timestamp o).

Definition side (b : OrderBook) (buy : bool) : option AVLTree :=
  if buy then buy_orders b else sell_orders b.

Definition side_entries (b : OrderBook) (buy : bool) : list (key * loc) :=
  match side b buy with Some t => entries (root t) | None => [] end.

Lemma add_order_spec h b l o :
  book_wf h b -> h !! l = Some o -> d_ok (o_price o) ->
  exists b', order_book_add_order true h (Some b) (Some l) = Ok (0%Z, Some b') /\
    book_wf h b' /\ trade_broadcaster b' = trade_broadcaster b /\
    side_entries b' (o_is_buy_order o) =
      sa_insert (key_cmp (o_is_buy_order o)) (order_key o) l (side_entries b (o_is_buy_order o)) /\
    side_entries b' (negb (o_is_buy_order o)) = side_entries b (negb (o_is_buy_order o)).
Proof.
  intros Hwf Hl Hp. unfold order_book_add_order. rewrite (load_ok _ _ _ Hl). cbn [mbind res_bind].
  unfold book_wf in *. unfold side_entries, side.
  destruct b as [[bt|] [st|] [br|]]; try contradiction. cbn in Hwf. destruct Hwf as [Hbt Hst].
  assert (Hins : forall buy t, tree_ok h buy t -> o_is_buy_order o = buy ->
    exists t', avl_insert true (Some t) (o_price o) (o_timestamp o) l = Ok (Some t') /\ tree_ok h buy t' /\
      entries (root t') = sa_insert (key_cmp buy) (order_key o) l (entries (root t))).
  { intros buy t (Hb & Ha & HF) Ho. cbn [avl_insert].
    destruct (avl_insert_node (root t) (o_price o) (o_timestamp o) l (is_buy_tree t) Ha Hp) as (r & -> & Hr & He).
    exists (mkAVLTree r (is_buy_tree t)). rewrite Hb in *. split_and!; auto. split_and!; auto. cbn [root].
    rewrite He. apply sa_insert_Forall; [|exact HF]. unfold entry_ok. cbn. now rewrite Hl. }
  destruct (o_is_buy_order o) eqn:Ho; cbn [buy_orders sell_orders negb].
  - destruct (Hins true bt Hbt eq_refl) as (t' & -> & Ht' & He). cbn [mbind res_bind].
    eexists. split; [reflexivity |]. cbn. split_and!; auto.
  - destruct (Hins false st Hst eq_refl) as (t' & -> & Ht' & He). cbn [mbind res_bind].
    eexists. split; [reflexivity |]. cbn. split_and!; auto.
Qed.

(** ** Cancellation *)

(** The nodes the search of [order_book_cancel_order] visits. *)
Fixpoint right_spine (t : tree) : list loc :=
  match t with Leaf => [] | Node _ _ l _ r _ => l :: right_spine r end.

(** The first of the locations whose order has the id. *)
Fixpoint find_id (h : order_heap) (id : string) (ls : list loc) : option loc :=
  match ls with
  | [] => None
  | l :: ls =>
      match h !! l with
      | Some o => if str_eq (o_order_id o) id then Some l else find_id h id ls
      | None => find_id h id ls
      end
  end.

Lemma cancel_search_spine h buy id t :
  Forall (entry_ok h buy) (entries t) -> ordered t ->
  cancel_search h id buy t = Ok (find_id h id (right_spine t)).
Proof.
  unfold ordered. induction t as [|p ts l lt _ rt IH hh]; cbn [entries]; intros HF HS; [reflexivity |].
  apply sa_sorted_mid in HS as (_ & HSr & Hk & _). apply Forall_app in HF as [_ [He HFr]%Forall_cons].
  apply entry_ok_inv in He as (o & Hl & [= -> ->] & Ho). cbn [cancel_search right_spine find_id].
  rewrite Hl, (load_ok _ _ _ Hl). cbn [mbind res_bind]. destruct (str_eq _ _); [reflexivity |].
  rewrite compare_nodes_rank, Z.eqb_refl, Z.ltb_irrefl by exact Hk. cbn. now apply IH.
Qed.

Lemma find_id_Some h id ls l :
  find_id h id ls = Some l -> exists o, h !! l = Some o /\ o_order_id o = id /\ l ∈ ls.
Proof.
  induction ls as [|l' ls IH]; cbn; [discriminate |].
  destruct (h !! l') as [o|] eqn:E.
  - destruct (str_eq (o_order_id o) id) eqn:Ei.
    + intros [= <-]. apply str_eq_spec in Ei. exists o. rewrite elem_of_cons. auto.
    + intros H. destruct (IH H) as (o' & ? & ? & ?). exists o'. rewrite elem_of_cons. auto.
  - intros H. destruct (IH H) as (o' & ? & ? & ?). exists o'. rewrite elem_of_cons. auto.
Qed.

(** The store after cancelling an order (once or again). *)
Lemma order_cancel_ok h l o : h !! l = Some o -> order_cancel h (Some l) = Ok (<[l := set_canceled o]> h).
Proof.
  intros Hl. unfold order_cancel. rewrite (on_order_Some _ _ _ _ _ Hl).
  destruct (o_is_canceled o) eqn:E; [|reflexivity]. f_equal. symmetry. apply insert_id.
  rewrite Hl. f_equal. destruct o; cbn in *. now subst.
Qed.

Lemma tree_ok_cancel h l o buy t :
  h !! l = Some o -> tree_ok h buy t -> tree_ok (<[l := set_canceled o]> h) buy t.
Proof.
  intros Hl (Hb & Ha & HF). split_and!; auto. eapply Forall_impl; [exact HF |].
  intros e. unfold entry_ok. destruct (decide (e.2 = l)) as [->|Hne].
  - rewrite Hl, lookup_insert_eq. auto.
  - rewrite lookup_insert_ne by congruence. auto.
Qed.

Lemma book_wf_cancel h l o b :
  h !! l = Some o -> book_wf h b -> book_wf (<[l := set_canceled o]> h) b.
Proof. intros Hl. unfold book_wf. repeat case_match; intuition eauto using tree_ok_cancel. Qed.

Lemma book_wf_side h b buy : book_wf h b -> exists t, side b buy = Some t /\ tree_ok h buy t.
Proof. unfold book_wf, side. destruct buy; repeat case_match; try contradiction; intros []; eauto. Qed.

(** Cancelling: the first order with the id on the right spine of the side's tree. *)
Lemma cancel_order_spec h b id buy t :
  book_wf h b -> side b buy = Some t ->
  match find_id h id (right_spine (root t)) with
  | Some l => exists o, h !! l = Some o /\ o_order_id o = id /\
      order_book_cancel_order h (Some b) (Some id) buy = Ok (0%Z, <[l := set_canceled o]> h) /\
      book_wf (<[l := set_canceled o]> h) b
  | None => order_book_cancel_order h (Some b) (Some id) buy = Ok ((-1)%Z, h)
  end.
Proof.
  intros Hwf Ht. destruct (book_wf_side h b buy Hwf) as (t' & Ht' & _ & [_ Ho] & HF).
  assert (t' = t) as -> by congruence.
  assert (E : order_book_cancel_order h (Some b) (Some id) buy =
    match find_id h id (right_spine (root t)) with
    | Some l => h ← order_cancel h (Some l); Ok (0%Z, h)
    | None => Ok ((-1)%Z, h)
    end).
  { cbn [order_book_cancel_order]. change (if buy then _ else _) with (side b buy). rewrite Ht.
    cbn [deref mbind res_bind]. now rewrite (cancel_search_spine _ _ _ _ HF Ho). }
  rewrite E. destruct (find_id h id _) as [l|] eqn:Ef; [|reflexivity].
  destruct (find_id_Some _ _ _ _ Ef) as (o & Hl & Hid & _). exists o.
  rewrite (order_cancel_ok _ _ _ Hl). split_and!; auto using book_wf_cancel.
Qed.

(** ** Quantity at a price *)

(** Whether [order_book_get_quantity_at_price] counts an order. *)
Definition counts_at (price : double) (o : Order) : bool :=
  d_eq (o_price o) price && negb (o_is_canceled o).

Lemma count_quantity_callback_eq h price l o total :
  h !! l = Some o ->
  count_quantity_callback h price l total =
  if counts_at price o then int_add total (o_remaining_quantity o) else Ok total.
Proof. intros Hl. unfold count_quantity_callback. now rewrite (load_ok _ _ _ Hl). Qed.

Lemma total_remaining_cons o l : total_remaining (o :: l) = (o_remaining_quantity o + total_remaining l)%Z.
Proof. reflexivity. Qed.

Lemma count_quantity_sum h buy price es total :
  Forall (entry_ok h buy) es ->
  Forall (fun o => 0 <= o_remaining_quantity o)%Z (orders_of h es) ->
  (0 <= total)%Z ->
  (total + total_remaining (List.filter (counts_at price) (orders_of h es)) <= INT_MAX)%Z ->
  traverse_list (count_quantity_callback h price) (snd <$> es) total =
  Ok (total + total_remaining (List.filter (counts_at price) (orders_of h es)))%Z.
Proof.
  intros HF. revert total. induction HF as [|[k l] es He HF IH]; intros total Hpos Ht Hmax.
  { cbn. f_equal. lia. }
  apply entry_ok_inv in He as (o & Hl & _). rewrite (orders_of_cons _ _ _ _ _ Hl) in *.
  apply Forall_cons in Hpos as [Ho Hpos].
  assert (Hnn : (0 <= total_remaining (List.filter (counts_at price) (orders_of h es)))%Z).
  { clear -Hpos. induction Hpos as [|x xs Hx Hxs IHx]; cbn [List.filter]; [cbn; lia |].
    destruct (counts_at price x); rewrite ?total_remaining_cons; lia. }
  cbn [fmap list_fmap snd traverse_list]. rewrite (count_quantity_callback_eq _ _ _ _ _ Hl).
  cbn [List.filter] in *. destruct (counts_at price o).
  - rewrite total_remaining_cons in *. rewrite int_add_ok by (unfold in_int, INT_MIN in *; lia). cbn [mbind res_bind].
    rewrite IH by (auto; lia). f_equal. lia.
  - cbn [mbind res_bind]. now apply IH.
Qed.

(** ** Priority *)

(** [o] is filed strictly before [o'] in its tree. *)
Definition filed_before (o o' : Order) : Prop := rank_lt (key_rank (order_key o)) (key_rank (order_key o')).

Lemma orders_of_Forall h buy (P : Order -> Prop) es :
  Forall (entry_ok h buy) es ->
  (forall k l o, (k, l) ∈ es -> h !! l = Some o -> k = order_key o -> P o) ->
  Forall P (orders_of h es).
Proof.
  induction 1 as [|[k l] es He HF IH]; intros HP; [constructor |].
  apply entry_ok_inv in He as (o & Hl & Hk & _). rewrite (orders_of_cons _ _ _ _ _ Hl). constructor.
  - eapply HP; eauto. left.
  - apply IH. intros k' l' o' Hin. apply HP. now right.
Qed.

Lemma best_ask_first h t o rest :
  tree_ok h false t -> orders_of h (entries (root t)) = o :: rest -> Forall (filed_before o) rest.
Proof.
  intros Ht E. pose proof Ht as (_ & [_ HS] & HF). unfold ordered in HS.
  destruct (best_sell h t Ht) as [[E' _]|(es & k & l & o' & E' & _ & Hl & _ & Os)]; [now rewrite E' in E |].
  rewrite Os in E. injection E as -> <-. rewrite E' in HS, HF.
  apply sa_sorted_cons in HS as (_ & Hlt & _). apply Forall_cons in HF as [He HF].
  apply entry_ok_inv in He as (o2 & Hl2 & -> & _). assert (o2 = o) as -> by congruence.
  eapply orders_of_Forall; [exact HF |]. intros k' l' o3 Hin Hl3 ->.
  rewrite Forall_forall in Hlt. exact (Hlt _ Hin).
Qed.

Lemma best_bid_first h t o rest :
  tree_ok h true t -> reverse (orders_of h (entries (root t))) = o :: rest ->
  Forall (fun o' => filed_before o' o) rest.
Proof.
  intros Ht E. pose proof Ht as (_ & [_ HS] & HF). unfold ordered in HS.
  destruct (best_buy h t Ht) as [[E' _]|(es & k & l & o' & E' & _ & Hl & _ & Ob)]; [now rewrite E' in E |].
  rewrite Ob in E. injection E as -> <-. rewrite E' in HS, HF.
  apply sa_sorted_mid in HS as (_ & _ & _ & Hlt & _). apply Forall_app in HF as [HF [He _]%Forall_cons].
  apply entry_ok_inv in He as (o2 & Hl2 & -> & _). assert (o2 = o) as -> by congruence.
  apply Forall_reverse. eapply orders_of_Forall; [exact HF |]. intros k' l' o3 Hin Hl3 ->.
  rewrite Forall_forall in Hlt. exact (Hlt _ Hin).
Qed.

Lemma right_spine_entries t l : l ∈ right_spine t -> exists es1 k es2, entries t = es1 ++ (k, l) :: es2.
Proof.
  induction t as [|p ts l' lt _ rt IH hh]; cbn; [now intros ?%elem_of_nil |].
  intros [-> |H]%elem_of_cons; [eauto |]. destruct (IH H) as (es1 & k & es2 & ->).
  exists (entries lt ++ (p, ts, l') :: es1), k, es2. now rewrite <- app_assoc.
Qed.

(** The node of the highest key is on the right spine. *)
Lemma right_spine_last t es k l : entries t = es ++ [(k, l)] -> l ∈ right_spine t.
Proof.
  revert es. induction t as [|p ts l' lt _ rt IH hh]; cbn; intros es E; [now destruct es |].
  destruct (entries rt) as [|e es'] eqn:Er using rev_ind.
  - apply app_inj_tail in E as [_ [= _ ->]]. left.
  - right. rewrite app_comm_cons, app_assoc in E. apply app_inj_tail in E as [_ ->].
    now apply (IH es').
Qed.

Lemma find_id_None h id ls l o : find_id h id ls = None -> l ∈ ls -> h !! l = Some o -> o_order_id o <> id.
Proof.
  induction ls as [|l' ls IH]; cbn; [now intros _ ?%elem_of_nil |].
  intros H [-> |Hin]%elem_of_cons Hl.
  - rewrite Hl in H. destruct (str_eq (o_order_id o) id) eqn:E; [discriminate |].
    intros Ei. apply str_eq_spec in Ei. congruence.
  - apply IH; auto. repeat case_match; congruence.
Qed.

(** The order of the last entry. *)
Lemma last_entry h buy es o :
  Forall (entry_ok h buy) es -> last (orders_of h es) = Some o ->
  exists es' k l, es = es' ++ [(k, l)] /\ h !! l = Some o.
Proof.
  intros HF. destruct es as [|[k l] es] using rev_ind; [discriminate |].
  apply Forall_app in HF as [_ [He _]%Forall_cons]. apply entry_ok_inv in He as (o' & Hl & _ & _).
  rewrite orders_of_app, (orders_of_cons _ _ _ _ _ Hl). cbn [orders_of]. rewrite last_snoc. intros [= <-]. eauto.
Qed.

(** ** The priority lists *)

Lemma orders_sorted h buy es :
  sa_sorted key_ok key_rank es -> Forall (entry_ok h buy) es -> StronglySorted filed_before (orders_of h es).
Proof.
  intros HS HF. induction HF as [|[k l] es He HF IH]; [constructor |].
  apply sa_sorted_cons in HS as (_ & Hlt & HS). apply entry_ok_inv in He as (o & Hl & Ek & _). cbn in Ek.
  rewrite (orders_of_cons _ _ _ _ _ Hl). constructor; [now apply IH |].
  eapply orders_of_Forall; [exact HF |]. intros k' l' o' Hin Hl' ->. rewrite Forall_forall in Hlt.
  specialize (Hlt _ Hin). unfold entry_lt in Hlt. cbn in Hlt. now rewrite Ek in Hlt.
Qed.

Lemma StronglySorted_reverse {A : Type} (R : relation A) (l : list A) :
  StronglySorted R l -> StronglySorted (flip R) (reverse l).
Proof.
  induction 1 as [|x l HS IH HF]; [constructor |]. rewrite reverse_cons. apply StronglySorted_app_2; auto.
  - intros y z Hy ->%list_elem_of_singleton. rewrite elem_of_reverse in Hy. rewrite Forall_forall in HF. exact (HF _ Hy).
  - repeat constructor.
Qed.

Lemma StronglySorted_impl {A : Type} (R R' : relation A) (l : list A) :
  (forall x y, R x y -> R' x y) -> StronglySorted R l -> StronglySorted R' l.
Proof. intros H. induction 1 as [|x l HS IH HF]; constructor; auto. eapply Forall_impl; eauto. Qed.

Lemma asks_sorted h b : book_wf h b -> StronglySorted filed_before (asks h b).
Proof.
  intros Hwf. destruct (book_wf_side h b false Hwf) as (t & Ht & _ & [_ Ho] & HF). cbn in Ht.
  unfold asks. rewrite Ht. eapply orders_sorted; eauto.
Qed.

Lemma bids_sorted h b : book_wf h b -> StronglySorted (flip filed_before) (bids h b).
Proof.
  intros Hwf. destruct (book_wf_side h b true Hwf) as (t & Ht & _ & [_ Ho] & HF). cbn in Ht.
  unfold bids. rewrite Ht. eapply StronglySorted_reverse, orders_sorted; eauto.
Qed.

(** Every price of a well-formed book is a number. *)
Lemma resting_price_ok h b o : book_wf h b -> o ∈ bids h b \/ o ∈ asks h b -> d_ok (o_price o).
Proof.
  intros Hwf.
  assert (H : forall buy, Forall (fun o => d_ok (o_price o)) (tree_orders h (side b buy))).
  { intros buy. destruct (book_wf_side h b buy Hwf) as (t & Ht & _ & [_ [_ Hk]] & HF). rewrite Ht. cbn [tree_orders].
    eapply orders_of_Forall; [exact HF |]. intros k l o' Hin _ ->. rewrite Forall_forall in Hk. exact (Hk _ Hin). }
  pose proof (H true) as H1. pose proof (H false) as H2. rewrite Forall_forall in H1, H2. unfold bids, asks.
  rewrite elem_of_reverse. intros [Ho|Ho]; auto.
Qed.

(** An order of a symbol that can trade. *)
Definition live_order (sym : string) (o : Order) : Prop :=
  o_symbol o = sym /\ o_is_canceled o = false /\ (0 < o_remaining_quantity o)%Z.

#[export] Instance live_order_dec sym o : Decision (live_order sym o).
Proof. unfold live_order. apply _. Defined.

Lemma live_order_fill sym o q :
  live_order sym o -> (0 < q < o_remaining_quantity o)%Z -> live_order sym (fill o q).
Proof. unfold live_order. cbn. intuition lia. Qed.

(** If the best orders of live sides cannot trade, none can. *)
Lemma uncrossed_lists sym h b :
  book_wf h b -> Forall (live_order sym) (bids h b) -> Forall (live_order sym) (asks h b) ->
  no_match (bids h b) (asks h b) ->
  Forall (fun x => Forall (fun y => (dval (o_price x) < dval (o_price y))%Z) (asks h b)) (bids h b).
Proof.
  intros Hwf Lb La Hn. pose proof (bids_sorted h b Hwf) as Sb. pose proof (asks_sorted h b Hwf) as Sa.
  pose proof (resting_price_ok h b) as Hok.
  destruct (bids h b) as [|x bs]; [constructor |].
  destruct (asks h b) as [|y as_]; [apply Forall_forall; intros; constructor |].
  apply Forall_cons in Lb as [(Sx & Cx & Qx) _]. apply Forall_cons in La as [(Sy & Cy & Qy) _]. cbn in Hn.
  unfold can_match in Hn. rewrite Cx, Cy, Sx, Sy in Hn. unfold str_eq in Hn. rewrite String.eqb_refl in Hn. cbn in Hn.
  destruct (d_lt (o_price x) (o_price y)) eqn:Hlt.
  2: { destruct (Z.leb_spec (o_remaining_quantity x) 0), (Z.leb_spec (o_remaining_quantity y) 0); try lia. discriminate Hn. }
  rewrite d_lt_dval in Hlt by (apply Hok; auto; first [left; left | right; left]). apply Z.ltb_lt in Hlt.
  apply StronglySorted_cons in Sb as [Sb _]. apply StronglySorted_cons in Sa as [Sa _]. rewrite Forall_forall in Sb, Sa.
  unfold flip, filed_before, rank_lt, key_rank in *. cbn in Sb, Sa.
  apply Forall_forall. intros x' Hx. apply Forall_forall. intros y' Hy.
  apply elem_of_cons in Hx as [-> |Hx%Sb], Hy as [-> |Hy%Sa]; lia.
Qed.

(** ** Filing an order that does not tie *)

(** No order of its side has both its price and its second. *)
Definition untied (b : OrderBook) (o : Order) : Prop :=
  Forall (fun e => key_rank e.1 <> key_rank (order_key o)) (side_entries b (o_is_buy_order o)).

#[export] Instance untied_dec b o : Decision (untied b o).
Proof. unfold untied. apply _. Defined.

Lemma insert_untied h b l o :
  book_wf h b -> d_ok (o_price o) -> untied b o ->
  sa_insert (key_cmp (o_is_buy_order o)) (order_key o) l (side_entries b (o_is_buy_order o)) ≡ₚ
  (order_key o, l) :: side_entries b (o_is_buy_order o).
Proof.
  intros Hwf Hp Hu. destruct (book_wf_side h b (o_is_buy_order o) Hwf) as (t & Ht & _ & [_ Ho] & _).
  unfold untied, side_entries in *. rewrite Ht in *.
  apply sa_insert_absent with (ok := key_ok) (rank := key_rank); auto. apply _.
Qed.

Lemma add_order_files h b l o :
  book_wf h b -> h !! l = Some o -> d_ok (o_price o) -> untied b o ->
  exists b', order_book_add_order true h (Some b) (Some l) = Ok (0%Z, Some b') /\ book_wf h b' /\
    trade_broadcaster b' = trade_broadcaster b /\
    side_entries b' (o_is_buy_order o) ≡ₚ (order_key o, l) :: side_entries b (o_is_buy_order o) /\
    side_entries b' (negb (o_is_buy_order o)) = side_entries b (negb (o_is_buy_order o)).
Proof.
  intros Hwf Hl Hp Hu. destruct (add_order_spec h b l o Hwf Hl Hp) as (b' & E & Hwf' & Ht & Hs & Ho).
  exists b'. rewrite Hs. split_and!; auto. eapply insert_untied; eauto.
Qed.

(** ** A concrete book: the orders of [test_multiple_matches] in tests/trading_engine *)

Definition sample_order (id trader : string) (price : double) (q : Z) (buy : bool) (ts : Z) : Order :=
  mkOrder id trader "AAPL" price q q buy ts false.

Definition sample_heap : order_heap :=
  <[1%positive := sample_order "BUY1" "TRADER1" (d_of_Z 150) 100 true 1]>
  (<[2%positive := sample_order "BUY2" "TRADER1" (d_of_Z 149) 100 true 2]>
  (<[3%positive := sample_order "SELL1" "TRADER2" (d_of_Z 148) 250 false 3]> ∅)).

(** Add the orders at the given locations to a new book. *)
Definition add_all (h : order_heap) (ls : list loc) : res (option OrderBook) :=
  foldl (fun r l => b ← r; p ← order_book_add_order true h b (Some l); Ok (snd p))
    (Ok (order_book_create true true true (Some (mkTradeBroadcaster true)))) ls.

Definition book_or_empty (r : res (option OrderBook)) : OrderBook :=
  match r with Ok (Some b) => b | _ => mkOrderBook None None None end.

Definition sample_book : OrderBook := book_or_empty (add_all sample_heap [1; 2; 3]%positive).

Lemma sample_book_wf : book_wf sample_heap sample_book.
Proof. by_decide. Qed.

Definition sample_clock (n : nat) : Z := 100 + Z.of_nat n.

(** ** Properties *)

(** C3: matching a well-formed book terminates within one round per order of the book,
    without undefined behaviour, leaves a well-formed book in which only unfilled
    quantities changed, and computes the abstract matching of the two sorted lists of
    orders: the same trade notifications in the same order, the same remaining bids
    and asks. *)
Theorem match_orders_refines fuel clock h b :
  book_wf h b -> (book_size b < fuel)%nat ->
  exists h' b' notes, order_book_match_orders fuel clock h (Some b) = Ok (h', Some b', notes) /\
    book_wf h' b' /\ refilled h h' /\
    spec_match fuel clock 0 (bids h b) (asks h b) = (notes, bids h' b', asks h' b').
Proof. apply match_orders_spec. Qed.

Lemma match_orders_refines_witness :
  exists h' b' notes,
    order_book_match_orders 4 sample_clock sample_heap (Some sample_book) = Ok (h', Some b', notes) /\
    book_wf h' b' /\ refilled sample_heap h' /\
    spec_match 4 sample_clock 0 (bids sample_heap sample_book) (asks sample_heap sample_book) =
      (notes, bids h' b', asks h' b').
Proof. apply (match_orders_refines 4 sample_clock); [apply sample_book_wf | vm_compute; lia]. Defined.

(** C8: on a book of one symbol whose orders are all live, matching trades exactly what
    crosses: every trade is between a bid and an ask of the book whose prices cross, at
    the ask's price, and afterwards every order left is still live and every bid left is
    priced strictly below every ask left. *)
Theorem match_orders_uncrosses fuel clock h b sym :
  book_wf h b -> (book_size b < fuel)%nat ->
  Forall (live_order sym) (bids h b) -> Forall (live_order sym) (asks h b) ->
  exists h' b' notes, order_book_match_orders fuel clock h (Some b) = Ok (h', Some b', notes) /\
    Forall (fun n => exists x y, x ∈ bids h b /\ y ∈ asks h b /\ tn_buy_order_id n = o_order_id x /\
      tn_sell_order_id n = o_order_id y /\ tn_price n = o_price y /\ (dval (o_price y) <= dval (o_price x))%Z) notes /\
    Forall (live_order sym) (bids h' b') /\ Forall (live_order sym) (asks h' b') /\
    Forall (fun x => Forall (fun y => (dval (o_price x) < dval (o_price y))%Z) (asks h' b')) (bids h' b').
Proof.
  intros Hwf Hf Lb La. destruct (match_orders_spec fuel clock h b Hwf Hf) as (h' & b' & notes & E & Hwf' & _ & Hsp).
  exists h', b', notes. split; [exact E |].
  destruct (spec_match_Forall (live_order sym) _ _ _ _ _ _ _ _ (live_order_fill sym) Lb La Hsp) as [Lb' La'].
  split_and!; auto.
  - eapply Forall_impl; [exact (spec_match_fair _ _ _ _ _ _ _ _ Hsp) |].
    intros n (x & y & Hx & Hy & _ & _ & H1 & H2 & H3 & Hlt & _). exists x, y. split_and!; auto.
    rewrite d_lt_dval in Hlt by (apply (resting_price_ok h b); auto). apply Z.ltb_ge in Hlt. exact Hlt.
  - apply (uncrossed_lists sym h' b' Hwf' Lb' La'). eapply spec_match_done; [|exact Hsp]. now rewrite <- book_size_lists.
Qed.

Lemma match_orders_uncrosses_witness :
  exists h' b' notes,
    order_book_match_orders 4 sample_clock sample_heap (Some sample_book) = Ok (h', Some b', notes) /\
    Forall (fun n => exists x y, x ∈ bids sample_heap sample_book /\ y ∈ asks sample_heap sample_book /\
      tn_buy_order_id n = o_order_id x /\ tn_sell_order_id n = o_order_id y /\ tn_price n = o_price y /\
      (dval (o_price y) <= dval (o_price x))%Z) notes /\
    Forall (live_order "AAPL") (bids h' b') /\ Forall (live_order "AAPL") (asks h' b') /\
    Forall (fun x => Forall (fun y => (dval (o_price x) < dval (o_price y))%Z) (asks h' b')) (bids h' b').
Proof.
  apply (match_orders_uncrosses 4 sample_clock sample_heap sample_book "AAPL");
    [apply sample_book_wf | vm_compute; lia | |]; by_decide.
Defined.

(** Matching conserves quantity: on each side the unfilled quantity before is the
    quantity traded plus the unfilled quantity after. *)
Theorem match_orders_conserves fuel clock h b :
  book_wf h b -> (book_size b < fuel)%nat ->
  exists h' b' notes, order_book_match_orders fuel clock h (Some b) = Ok (h', Some b', notes) /\
    (total_remaining (bids h b) = total_traded notes + total_remaining (bids h' b'))%Z /\
    (total_remaining (asks h b) = total_traded notes + total_remaining (asks h' b'))%Z.
Proof.
  intros Hwf Hf. destruct (match_orders_spec fuel clock h b Hwf Hf) as (h' & b' & notes & E & _ & _ & Hsp).
  exists h', b', notes. split; [exact E |]. now apply spec_match_conserves in Hsp.
Qed.

Lemma match_orders_conserves_witness :
  exists h' b' notes,
    order_book_match_orders 4 sample_clock sample_heap (Some sample_book) = Ok (h', Some b', notes) /\
    (total_remaining (bids sample_heap sample_book) = total_traded notes + total_remaining (bids h' b'))%Z /\
    (total_remaining (asks sample_heap sample_book) = total_traded notes + total_remaining (asks h' b'))%Z.
Proof. apply (match_orders_conserves 4 sample_clock); [apply sample_book_wf | vm_compute; lia]. Defined.

(** C9: every trade notified by matching is between a bid and an ask of the book that were
    not canceled, for the same symbol, at the ask's price, which the bid's price
    reaches, and for a positive quantity within what was unfilled of both. *)
Theorem match_orders_fair fuel clock h b :
  book_wf h b -> (book_size b < fuel)%nat ->
  exists h' b' notes, order_book_match_orders fuel clock h (Some b) = Ok (h', Some b', notes) /\
    Forall (fair_trade (bids h b) (asks h b)) notes.
Proof.
  intros Hwf Hf. destruct (match_orders_spec fuel clock h b Hwf Hf) as (h' & b' & notes & E & _ & _ & Hsp).
  exists h', b', notes. split; [exact E |]. now apply spec_match_fair in Hsp.
Qed.

Lemma match_orders_fair_witness :
  exists h' b' notes,
    order_book_match_orders 4 sample_clock sample_heap (Some sample_book) = Ok (h', Some b', notes) /\
    Forall (fair_trade (bids sample_heap sample_book) (asks sample_heap sample_book)) notes.
Proof. apply (match_orders_fair 4 sample_clock); [apply sample_book_wf | vm_compute; lia]. Defined.

(** C10: matching follows priority: on each side the orders it fills are the first ones of
    the side's priority list, all of them completely but perhaps the last, and the rest of
    the list is untouched; the bids are listed with the highest price first, the asks with
    the lowest price first and, at one price, the earliest first.  So no order is filled,
    even in part, while one with a better price (or, among asks, the same price and an
    earlier time) is left. *)
Theorem matching_priority fuel clock h b :
  book_wf h b -> (book_size b < fuel)%nat ->
  exists h' b' notes, order_book_match_orders fuel clock h (Some b) = Ok (h', Some b', notes) /\
    consumed (bids h b) (bids h' b') /\ consumed (asks h b) (asks h' b') /\
    StronglySorted (fun o o' => dval (o_price o') <= dval (o_price o))%Z (bids h b) /\
    StronglySorted (fun o o' => dval (o_price o) < dval (o_price o') \/
      (dval (o_price o) = dval (o_price o') /\ o_timestamp o < o_timestamp o'))%Z (asks h b).
Proof.
  intros Hwf Hf. destruct (match_orders_spec fuel clock h b Hwf Hf) as (h' & b' & notes & E & _ & _ & Hsp).
  exists h', b', notes. split; [exact E |]. destruct (spec_match_consumes _ _ _ _ _ _ _ _ Hsp).
  split_and!; auto using asks_sorted. eapply StronglySorted_impl; [|exact (bids_sorted h b Hwf)].
  unfold filed_before, rank_lt, key_rank. cbn. lia.
Qed.

Lemma matching_priority_witness :
  exists h' b' notes,
    order_book_match_orders 4 sample_clock sample_heap (Some sample_book) = Ok (h', Some b', notes) /\
    consumed (bids sample_heap sample_book) (bids h' b') /\ consumed (asks sample_heap sample_book) (asks h' b') /\
    StronglySorted (fun o o' => dval (o_price o') <= dval (o_price o))%Z (bids sample_heap sample_book) /\
    StronglySorted (fun o o' => dval (o_price o) < dval (o_price o') \/
      (dval (o_price o) = dval (o_price o') /\ o_timestamp o < o_timestamp o'))%Z (asks sample_heap sample_book).
Proof. apply (matching_priority 4 sample_clock); [apply sample_book_wf | vm_compute; lia]. Defined.

(** C17: adding an allocated order, with a price that is a number, to a well-formed book
    where no order of its side has both its price and its second returns 0 and files the
    order: its side then holds the orders it held and the new one, in priority order (the
    book stays well-formed), and the other side is unchanged. *)
Theorem add_order_correct h b l o :
  book_wf h b -> h !! l = Some o -> d_ok (o_price o) -> untied b o ->
  exists b', order_book_add_order true h (Some b) (Some l) = Ok (0%Z, Some b') /\ book_wf h b' /\
    side_entries b' (o_is_buy_order o) ≡ₚ (order_key o, l) :: side_entries b (o_is_buy_order o) /\
    side_entries b' (negb (o_is_buy_order o)) = side_entries b (negb (o_is_buy_order o)).
Proof.
  intros Hwf Hl Hp Hu. destruct (add_order_files h b l o Hwf Hl Hp Hu) as (b' & E & Hwf' & _ & Hs & Ho). eauto 6.
Qed.

Definition late_heap : order_heap :=
  <[4%positive := sample_order "BUY3" "TRADER3" (d_of_Z 149) 10 true 4]> sample_heap.

Lemma add_order_correct_witness :
  exists b', order_book_add_order true late_heap (Some sample_book) (Some 4%positive) = Ok (0%Z, Some b') /\
    book_wf late_heap b' /\
    side_entries b' true ≡ₚ ((d_of_Z 149, 4%Z), 4%positive) :: side_entries sample_book true /\
    side_entries b' false = side_entries sample_book false.
Proof.
  apply (add_order_correct late_heap sample_book 4%positive
           (sample_order "BUY3" "TRADER3" (d_of_Z 149) 10 true 4)); [by_decide | reflexivity | by_decide | by_decide].
Defined.

(** C18: cancelling by id on a well-formed book never runs into undefined behaviour and
    never cancels the wrong order: it either returns 0 and has marked exactly one order,
    of that side and with that id, or returns -1 and has changed nothing.  It returns -1
    when no order of the side has the id, and 0 when the side's highest order (on the buy
    side the best bid) has it. *)
Theorem cancel_order_correct h b id buy :
  book_wf h b ->
  exists r h', order_book_cancel_order h (Some b) (Some id) buy = Ok (r, h') /\ book_wf h' b /\
    ((r = 0%Z /\ exists k l o, (k, l) ∈ side_entries b buy /\ h !! l = Some o /\ o_order_id o = id /\
        h' = <[l := set_canceled o]> h) \/
     (r = (-1)%Z /\ h' = h)) /\
    (Forall (fun o => o_order_id o <> id) (tree_orders h (side b buy)) -> r = (-1)%Z) /\
    (forall o, last (tree_orders h (side b buy)) = Some o -> o_order_id o = id -> r = 0%Z).
Proof.
  intros Hwf. destruct (book_wf_side h b buy Hwf) as (t & Ht & Hb & Ha & HF).
  pose proof (cancel_order_spec h b id buy t Hwf Ht) as Hc. unfold side_entries. rewrite Ht. cbn [tree_orders].
  destruct (find_id h id (right_spine (root t))) as [l|] eqn:Ef.
  - destruct Hc as (o & Hl & Hid & E & Hwf'). exists 0%Z, (<[l := set_canceled o]> h).
    apply find_id_Some in Ef as (_ & _ & _ & (es1 & k & es2 & Es)%right_spine_entries). rewrite Es in *.
    split_and!; auto.
    + left. split; [reflexivity |]. exists k, l, o. split_and!; auto. apply elem_of_app. right. left.
    + rewrite orders_of_app, (orders_of_cons _ _ _ _ _ Hl). intros [_ [Hne _]%Forall_cons]%Forall_app. contradiction.
  - exists (-1)%Z, h. split_and!; auto. intros o Ho Hid.
    destruct (last_entry h buy _ o HF Ho) as (es & k & l & Es & Hl).
    destruct (find_id_None _ _ _ _ _ Ef (right_spine_last _ _ _ _ Es) Hl Hid).
Qed.

Lemma cancel_order_correct_witness :
  exists r h', order_book_cancel_order sample_heap (Some sample_book) (Some "BUY1"%string) true = Ok (r, h') /\
    book_wf h' sample_book /\
    ((r = 0%Z /\ exists k l o, (k, l) ∈ side_entries sample_book true /\ sample_heap !! l = Some o /\
        o_order_id o = "BUY1"%string /\ h' = <[l := set_canceled o]> sample_heap) \/
     (r = (-1)%Z /\ h' = sample_heap)) /\
    (Forall (fun o => o_order_id o <> "BUY1"%string) (tree_orders sample_heap (side sample_book true)) -> r = (-1)%Z) /\
    (forall o, last (tree_orders sample_heap (side sample_book true)) = Some o -> o_order_id o = "BUY1"%string -> r = 0%Z).
Proof. exact (cancel_order_correct sample_heap sample_book "BUY1" true sample_book_wf). Defined.

(** On a well-formed book whose resting quantities are not negative and whose total
    at the price fits an [int], the quantity reported at a price is the sum of what is
    unfilled over exactly the side's orders at that price that are not cancelled. *)
Theorem quantity_at_price_correct h b price buy :
  book_wf h b ->
  Forall (fun o => 0 <= o_remaining_quantity o)%Z (tree_orders h (side b buy)) ->
  (total_remaining (List.filter (counts_at price) (tree_orders h (side b buy))) <= INT_MAX)%Z ->
  order_book_get_quantity_at_price h (Some b) price buy =
  Ok (total_remaining (List.filter (counts_at price) (tree_orders h (side b buy)))).
Proof.
  intros Hwf. destruct (book_wf_side h b buy Hwf) as (t & Ht & _ & _ & HF). cbn [order_book_get_quantity_at_price].
  change (if buy then _ else _) with (side b buy). rewrite Ht. cbn [tree_orders]. intros Hpos Hmax.
  cbn [avl_inorder_traverse]. rewrite inorder_traverse_list.
  rewrite (count_quantity_sum h buy) by (auto; lia). f_equal.
Qed.

Lemma quantity_at_price_correct_witness :
  order_book_get_quantity_at_price sample_heap (Some sample_book) (d_of_Z 149) true = Ok 100%Z.
Proof.
  apply (quantity_at_price_correct sample_heap sample_book (d_of_Z 149) true sample_book_wf); [by_decide |].
  vm_compute. discriminate.
Defined.

(** ** What the book does on particular books *)

(** Two asks, the cheaper one below the root on the left. *)
Definition left_heap : order_heap :=
  <[1%positive := sample_order "SELL1" "TRADER1" (d_of_Z 101) 5 false 1]>
  (<[2%positive := sample_order "SELL2" "TRADER2" (d_of_Z 100) 5 false 2]> ∅).

Definition left_book : OrderBook := book_or_empty (add_all left_heap [1; 2]%positive).

(** An order filed in a left subtree cannot be cancelled: on a well-formed book with
    a live order SELL2, cancelling SELL2 reports failure and leaves the order live. *)
Theorem left_order_not_cancellable :
  book_wf left_heap left_book /\ 2%positive ∈ (side_entries left_book false).*2 /\
  (o_order_id <$> left_heap !! 2%positive) = Some "SELL2"%string /\
  order_book_cancel_order left_heap (Some left_book) (Some "SELL2"%string) false = Ok ((-1)%Z, left_heap).
Proof. split_and!; [by_decide | by_decide | reflexivity | reflexivity]. Qed.

(** The best bid is cancelled (or carries no quantity); a lower bid still crosses. *)
Definition stuck_heap : order_heap :=
  <[1%positive := set_canceled (sample_order "BUY1" "TRADER1" (d_of_Z 102) 5 true 1)]>
  (<[2%positive := sample_order "BUY2" "TRADER2" (d_of_Z 101) 5 true 2]>
  (<[3%positive := sample_order "SELL1" "TRADER3" (d_of_Z 100) 5 false 3]> ∅)).

Definition stuck_book : OrderBook := book_or_empty (add_all stuck_heap [1; 2; 3]%positive).

(** A cancelled order at the top of its side blocks matching: the book is well-formed
    and holds a bid and an ask that can match, and yet matching executes no trade. *)
Theorem cancelled_best_blocks_matching fuel clock :
  book_wf stuck_heap stuck_book /\
  Exists (fun buy => Exists (fun sell => can_match buy sell = true) (asks stuck_heap stuck_book))
    (bids stuck_heap stuck_book) /\
  order_book_match_orders fuel clock stuck_heap (Some stuck_book) = Ok (stuck_heap, Some stuck_book, []).
Proof. split_and!; [by_decide | by_decide | reflexivity]. Qed.

(** Two bids at one price, the second entered later. *)
Definition tie_heap : order_heap :=
  <[1%positive := sample_order "EARLY" "TRADER1" (d_of_Z 100) 5 true 1]>
  (<[2%positive := sample_order "LATE" "TRADER2" (d_of_Z 100) 5 true 2]>
  (<[3%positive := sample_order "SELL1" "TRADER3" (d_of_Z 100) 5 false 3]> ∅)).

Definition tie_book : OrderBook := book_or_empty (add_all tie_heap [1; 2; 3]%positive).

(** Among bids at one price the latest is filled first: with bids EARLY and LATE at
    100 and an ask for the quantity of one of them, the trade goes to LATE. *)
Theorem equal_price_bids_newest_first :
  exists h b, order_book_match_orders 4 sample_clock tie_heap (Some tie_book) =
    Ok (h, Some b, [mkTradeNote "AAPL" "LATE" "SELL1" (d_of_Z 100) 5 100]) /\
  (o_order_id <$> bids h b) = ["EARLY"%string].
Proof. eexists _, _. split; [reflexivity |]. vm_compute. reflexivity. Qed.
