(* ===== verification/BookHistory.v ===== *)
(** * Histories of an order book

    Orders are created and filed, cancelled and matched by sequences of calls of
    src/src/trading_engine/order.c and order_book.c.  The abstract book is the pair
    of priority lists of [MatchSpec]: [spec_step] says what each call may answer and
    how it changes them, without trees, keys or store.  Every history of the code is
    one of the abstract book, and over a whole history no quantity is created or
    lost. *)

From Stdlib Require Import Ascii String ZArith Lia SpecFloat.
From stdpp Require Import base list numbers strings gmap.
From S2P Require Import Prelude SortedAssoc CDouble CString Order AvlTree OrderBook MatchSpec BookRefine.

(** ** The code's histories *)

(** The calls on one book; [now] is the second the order is created in, [clock] the
    seconds the trades of the call are stamped with. *)
Inductive book_op : Type :=
| OpPlace (now : Z) (order_id trader_id symbol : string) (price : double) (quantity : Z) (is_buy : bool)
| OpCancelId (order_id : string) (is_buy : bool)
| OpMatch (clock : nat -> Z).

(** What a call answers, and the notifications it sends. *)
Definition answer : Type := (Z * list TradeNote)%type.

Definition history_step (h : order_heap) (b : OrderBook) (op : book_op)
    : res (answer * order_heap * OrderBook) :=
  match op with
  | OpPlace now i t s p q buy =>
      match order_create true now h i t s p q buy with
      | (None, h) => Ok (((-1)%Z, []), h, b)
      | (order, h) =>
          '(r, b) ← order_book_add_order true h (Some b) order;
          b ← deref b; Ok ((r, []), h, b)
      end
  | OpCancelId i buy =>
      '(r, h) ← order_book_cancel_order h (Some b) (Some i) buy; Ok ((r, []), h, b)
  | OpMatch clock =>
      '(h, b, notes) ← order_book_match_orders (S (book_size b)) clock h (Some b);
      b ← deref b; Ok ((0%Z, notes), h, b)
  end.

Fixpoint history_run (h : order_heap) (b : OrderBook) (ops : list book_op)
    : res (list answer * order_heap * OrderBook) :=
  match ops with
  | [] => Ok ([], h, b)
  | op :: ops =>
      '(a, h, b) ← history_step h b op;
      '(outs, h, b) ← history_run h b ops;
      Ok (a :: outs, h, b)
  end.

(** ** The abstract book *)

(** The bids and the asks, each best first. *)
Definition abook : Type := (list Order * list Order)%type.

Definition aside (ab : abook) (buy : bool) : list Order := if buy then ab.1 else ab.2.
Definition with_aside (ab : abook) (buy : bool) (l : list Order) : abook :=
  if buy then (l, ab.2) else (ab.1, l).

(** Which of two orders of a side goes first: the higher price and, at one price, the
    later bid, the earlier ask. *)
Definition goes_first (buy : bool) (o x : Order) : bool :=
  if buy then bool_decide (filed_before x o) else bool_decide (filed_before o x).

(** Filing keeps the priority order; an order that ties with a resting one is dropped. *)
Fixpoint file_order (buy : bool) (o : Order) (l : list Order) : list Order :=
  match l with
  | [] => [o]
  | x :: r =>
      if goes_first buy o x then o :: x :: r
      else if goes_first buy x o then x :: file_order buy o r
      else x :: r
  end.

(** The lengths [order_create] accepts. *)
Definition fits (order_id trader_id symbol : string) : bool :=
  (strlen order_id <? MAX_ID_LENGTH)%nat && (strlen trader_id <? MAX_ID_LENGTH)%nat
  && (strlen symbol <? MAX_SYMBOL_LENGTH)%nat.

(** The order of a side with the highest price (and the latest, at that price). *)
Definition highest (ab : abook) (buy : bool) : option Order :=
  if buy then head ab.1 else last ab.2.

Inductive spec_step (ab : abook) : book_op -> answer -> abook -> Prop :=
| SpecRefuse now i t s p q buy :
    fits i t s = false -> spec_step ab (OpPlace now i t s p q buy) ((-1)%Z, []) ab
| SpecPlace now i t s p q buy :
    fits i t s = true ->
    spec_step ab (OpPlace now i t s p q buy) (0%Z, [])
      (with_aside ab buy (file_order buy (mkOrder i t s p q q buy now false) (aside ab buy)))
| SpecCancel i buy l1 o l2 :
    aside ab buy = l1 ++ o :: l2 -> o_order_id o = i ->
    spec_step ab (OpCancelId i buy) (0%Z, []) (with_aside ab buy (l1 ++ set_canceled o :: l2))
| SpecCancelNot i buy :
    (forall o, highest ab buy = Some o -> o_order_id o <> i) ->
    spec_step ab (OpCancelId i buy) ((-1)%Z, []) ab
| SpecMatch clock notes bs as_ :
    spec_match (S (length ab.1 + length ab.2)) clock 0 ab.1 ab.2 = (notes, bs, as_) ->
    spec_step ab (OpMatch clock) (0%Z, notes) (bs, as_).

Inductive spec_run : abook -> list book_op -> list answer -> abook -> Prop :=
| SpecNil ab : spec_run ab [] [] ab
| SpecCons ab op a ab1 ops outs ab2 :
    spec_step ab op a ab1 -> spec_run ab1 ops outs ab2 -> spec_run ab (op :: ops) (a :: outs) ab2.

Definition abstract (h : order_heap) (b : OrderBook) : abook := (bids h b, asks h b).

(** Prices are numbers. *)
Definition op_ok (op : book_op) : Prop :=
  match op with OpPlace _ _ _ _ p _ _ => d_ok p | _ => True end.

(** The orders placed have no negative quantity. *)
Definition op_nonneg (op : book_op) : Prop :=
  match op with OpPlace _ _ _ _ _ q _ => (0 <= q)%Z | _ => True end.

(** Every order is created in a later second than those before it. *)
Fixpoint ticking (t : Z) (ops : list book_op) : Prop :=
  match ops with
  | [] => True
  | OpPlace now _ _ _ _ _ _ :: ops => (t < now)%Z /\ ticking now ops
  | _ :: ops => ticking t ops
  end.

(** The quantity of the orders accepted on a side, and what the notifications report. *)
Fixpoint placed_quantity (buy : bool) (ops : list book_op) : Z :=
  match ops with
  | [] => 0
  | OpPlace _ i t s _ q b :: ops =>
      (if fits i t s && Bool.eqb b buy then q else 0) + placed_quantity buy ops
  | _ :: ops => placed_quantity buy ops
  end%Z.

Definition traded_quantity (outs : list answer) : Z :=
  foldr (fun a s => total_traded a.2 + s)%Z 0%Z outs.

(** ** Filing *)

Lemma bids_entries h b : bids h b = reverse (orders_of h (side_entries b true)).
Proof. unfold bids, side_entries, side, tree_orders. now case_match. Qed.

Lemma asks_entries h b : asks h b = orders_of h (side_entries b false).
Proof. unfold asks, side_entries, side, tree_orders. now case_match. Qed.

Lemma goes_first_asym buy o x : goes_first buy o x = true -> goes_first buy x o = false.
Proof.
  unfold goes_first, filed_before. destruct buy; rewrite bool_decide_eq_true, bool_decide_eq_false;
    intros H H'; exact (rank_lt_irrefl _ (rank_lt_trans _ _ _ H H')).
Qed.

(** Orders that go first are passed over; before an order that goes later the rest of the
    list does not matter. *)
Lemma file_order_skip buy o l1 l2 :
  Forall (fun x => goes_first buy x o = true) l1 ->
  file_order buy o (l1 ++ l2) = l1 ++ file_order buy o l2.
Proof.
  induction 1 as [|x l1 Hx _ IH]; cbn; [reflexivity |].
  rewrite (goes_first_asym _ _ _ Hx), Hx. now rewrite IH.
Qed.

Lemma file_order_stop buy o l x r :
  goes_first buy o x = true -> file_order buy o (l ++ x :: r) = file_order buy o l ++ x :: r.
Proof.
  intros Hx. induction l as [|y l IH]; cbn; [now rewrite Hx |].
  rewrite IH. repeat case_match; reflexivity.
Qed.

(** Every resting order either goes first or later: nothing is dropped. *)
Lemma file_order_total buy o l :
  Forall (fun x => goes_first buy o x || goes_first buy x o = true) l ->
  total_remaining (file_order buy o l) = (o_remaining_quantity o + total_remaining l)%Z.
Proof.
  induction 1 as [|x l Hx _ IH]; [reflexivity |]. cbn [file_order].
  destruct (goes_first buy o x); [now rewrite !total_remaining_cons |].
  cbn in Hx. rewrite Hx, !total_remaining_cons, IH. lia.
Qed.

Lemma file_order_Forall (P : Order -> Prop) buy o l : P o -> Forall P l -> Forall P (file_order buy o l).
Proof.
  intros Ho. induction 1 as [|x l Hx Hl IH]; cbn; [now repeat constructor |].
  repeat case_match; repeat first [assumption | constructor].
Qed.

Section Filing.
Context (h : order_heap) (l : loc) (o : Order).
Context (Hl : h !! l = Some o) (Hp : d_ok (o_price o)).

(** Inserting an order's key among the keys of other orders. *)
Lemma compare_filed buy k l' o' :
  h !! l' = Some o' -> k = order_key o' -> key_ok k ->
  (key_cmp buy (order_key o) k <? 0)%Z = bool_decide (filed_before o o') /\
  (0 <? key_cmp buy (order_key o) k)%Z = bool_decide (filed_before o' o).
Proof.
  intros _ -> Hk. unfold filed_before. split; apply eq_true_iff_eq;
    rewrite bool_decide_eq_true, Z.ltb_lt; [apply (rc_lt (rank := key_rank)) | apply (rc_gt (rank := key_rank))];
    assumption.
Qed.

Lemma orders_of_insert_ask buy es :
  Forall (fun e => key_ok e.1) es -> Forall (entry_ok h buy) es ->
  orders_of h (sa_insert (key_cmp false) (order_key o) l es) = file_order false o (orders_of h es).
Proof.
  induction es as [|[k l'] es IH]; intros Hk He; cbn [sa_insert].
  { now rewrite (orders_of_cons _ _ _ _ _ Hl). }
  apply Forall_cons in Hk as [Hk Hks]. apply Forall_cons in He as [He Hes].
  apply entry_ok_inv in He as (o' & Hl' & Ek & _).
  destruct (compare_filed false k l' o' Hl' Ek Hk) as [E1 E2]. rewrite E1, E2.
  rewrite (orders_of_cons _ k _ _ es Hl'). cbn [file_order goes_first].
  destruct (bool_decide (filed_before o o')).
  { now rewrite (orders_of_cons _ _ _ _ _ Hl), (orders_of_cons _ _ _ _ _ Hl'). }
  destruct (bool_decide (filed_before o' o)); rewrite (orders_of_cons _ _ _ _ _ Hl'); [|reflexivity].
  now rewrite IH.
Qed.

Lemma orders_of_insert_bid buy es :
  sa_sorted key_ok key_rank es -> Forall (entry_ok h buy) es ->
  reverse (orders_of h (sa_insert (key_cmp true) (order_key o) l es)) =
  file_order true o (reverse (orders_of h es)).
Proof.
  induction es as [|[k l'] es IH]; intros HS He; cbn [sa_insert].
  { now rewrite (orders_of_cons _ _ _ _ _ Hl). }
  apply sa_sorted_cons in HS as (Hk & Hlt & HS). apply Forall_cons in He as [He Hes].
  apply entry_ok_inv in He as (o' & Hl' & Ek & _). cbn [fst] in Hk.
  destruct (compare_filed true k l' o' Hl' Ek Hk) as [E1 E2]. rewrite E1, E2.
  rewrite (orders_of_cons _ k _ _ es Hl'), reverse_cons.
  assert (Hskip : ~ filed_before o' o ->
    Forall (fun x => goes_first true x o = true) (reverse (orders_of h es))).
  { intros Hn. apply Forall_reverse. eapply orders_of_Forall; [exact Hes |].
    intros k2 l2 o2 Hin Hl2 ->. cbn. apply bool_decide_eq_true. unfold filed_before in *.
    rewrite Forall_forall in Hlt. specialize (Hlt _ Hin). unfold entry_lt in Hlt. cbn in Hlt. rewrite Ek in Hlt.
    destruct (rank_lt_total (key_rank (order_key o)) (key_rank (order_key o'))) as [H|[H|H]]; [| |easy].
    - exact (rank_lt_trans _ _ _ H Hlt).
    - rewrite H. exact Hlt. }
  destruct (bool_decide_reflect (filed_before o o')) as [H1|H1].
  - rewrite (orders_of_cons _ _ _ _ _ Hl), (orders_of_cons _ _ _ _ _ Hl'), !reverse_cons, file_order_skip.
    2: { apply Hskip. intros H. exact (rank_lt_irrefl _ (rank_lt_trans _ _ _ H H1)). }
    cbn [file_order goes_first]. rewrite bool_decide_false, bool_decide_true; auto.
    2: { intros H. exact (rank_lt_irrefl _ (rank_lt_trans _ _ _ H H1)). }
    now rewrite <- app_assoc.
  - destruct (bool_decide_reflect (filed_before o' o)) as [H2|H2]; rewrite (orders_of_cons _ _ _ _ _ Hl'), reverse_cons.
    + rewrite IH by assumption. rewrite file_order_stop; [reflexivity |]. now apply bool_decide_eq_true.
    + rewrite file_order_skip by auto. cbn [file_order goes_first]. now rewrite !bool_decide_false.
Qed.
End Filing.

(** ** The store around a book *)

Lemma book_wf_entries h b buy :
  book_wf h b -> sa_sorted key_ok key_rank (side_entries b buy) /\ Forall (entry_ok h buy) (side_entries b buy).
Proof.
  intros Hwf. destruct (book_wf_side h b buy Hwf) as (t & Ht & _ & [_ Ho] & HF).
  unfold side_entries. rewrite Ht. auto.
Qed.

(** A side of the abstract book from the entries of the tree. *)
Definition side_list (h : order_heap) (buy : bool) (es : list (key * loc)) : list Order :=
  if buy then reverse (orders_of h es) else orders_of h es.

Lemma aside_entries h b buy : aside (abstract h b) buy = side_list h buy (side_entries b buy).
Proof. destruct buy; [apply bids_entries | apply asks_entries]. Qed.

Lemma abook_eta (ab ab' : abook) buy :
  aside ab' (negb buy) = aside ab (negb buy) -> ab' = with_aside ab buy (aside ab' buy).
Proof. destruct ab, ab', buy; cbn; now intros ->. Qed.

Lemma side_list_frame h l o buy es :
  Forall (fun e => e.2 <> l) es -> side_list (<[l := o]> h) buy es = side_list h buy es.
Proof. intros H. unfold side_list. now rewrite orders_of_frame. Qed.

Lemma entries_not_fresh h buy l es :
  h !! l = None -> Forall (entry_ok h buy) es -> Forall (fun e => e.2 <> l) es.
Proof.
  intros Hl HF. eapply Forall_impl; [exact HF |]. intros [k l'] He <-. cbn in Hl.
  apply entry_ok_inv in He as (o & Ho & _). congruence.
Qed.

Lemma book_wf_fresh h l o b : h !! l = None -> book_wf h b -> book_wf (<[l := o]> h) b.
Proof.
  intros Hl. assert (Ht : forall buy t, tree_ok h buy t -> tree_ok (<[l := o]> h) buy t).
  { intros buy t (Hb & Ha & HF). split_and!; auto. eapply Forall_impl; [exact HF |].
    intros e He. unfold entry_ok in *. rewrite lookup_insert_ne; [exact He |].
    intros E. now rewrite <- E, Hl in He. }
  unfold book_wf. repeat case_match; intuition auto.
Qed.

(** ** Each call *)

Lemma file_refines h b l o :
  book_wf h b -> h !! l = None -> d_ok (o_price o) ->
  exists b', order_book_add_order true (<[l := o]> h) (Some b) (Some l) = Ok (0%Z, Some b') /\
    book_wf (<[l := o]> h) b' /\
    abstract (<[l := o]> h) b' =
      with_aside (abstract h b) (o_is_buy_order o)
        (file_order (o_is_buy_order o) o (aside (abstract h b) (o_is_buy_order o))).
Proof.
  intros Hwf Hl Hp. pose proof (lookup_insert_eq h l o) as Hl'.
  pose proof (book_wf_fresh h l o b Hl Hwf) as Hwf1.
  destruct (add_order_spec _ b l o Hwf1 Hl' Hp) as (b' & E & Hwf' & _ & Es & En).
  exists b'. split; [exact E |]. split; [exact Hwf' |]. set (buy := o_is_buy_order o) in *.
  assert (Hfr : forall x, side_list (<[l := o]> h) x (side_entries b x) = side_list h x (side_entries b x)).
  { intros x. apply side_list_frame. eapply entries_not_fresh; [exact Hl | apply book_wf_entries, Hwf]. }
  rewrite (abook_eta (abstract h b) (abstract (<[l := o]> h) b') buy).
  2: { now rewrite !aside_entries, En, Hfr. }
  f_equal. rewrite !aside_entries, Es, <- Hfr. destruct (book_wf_entries _ _ buy Hwf1) as [HS HF].
  unfold side_list. destruct buy; cbn [negb] in *.
  - now apply (orders_of_insert_bid _ l o Hl' Hp true).
  - apply (orders_of_insert_ask _ l o Hl' Hp false); [apply HS | exact HF].
Qed.

Lemma place_refines h b now i t s p q buy :
  book_wf h b -> d_ok p ->
  exists a h' b', history_step h b (OpPlace now i t s p q buy) = Ok (a, h', b') /\ book_wf h' b' /\
    spec_step (abstract h b) (OpPlace now i t s p q buy) a (abstract h' b').
Proof.
  intros Hwf Hp. cbn [history_step]. destruct (fits i t s) eqn:Ef.
  - pose proof Ef as Ef'. unfold fits in Ef'. rewrite !andb_true_iff, !Nat.ltb_lt in Ef'. destruct Ef' as [[Hi Ht] Hs].
    rewrite (order_create_spec now h i t s p q buy Hi Ht Hs).
    destruct (file_refines h b (fresh (dom h)) (mkOrder i t s p q q buy now false) Hwf (fresh_loc h) Hp)
      as (b' & -> & Hwf' & Ea). cbn [mbind res_bind deref]. do 3 eexists. split; [reflexivity |].
    split; [exact Hwf' |]. rewrite Ea. now constructor.
  - assert (Ec : order_create true now h i t s p q buy = (None, h)).
    { unfold order_create, fits in *. rewrite !Nat.ltb_antisym, <- !negb_orb in Ef.
      apply negb_false_iff in Ef. now rewrite Ef. }
    rewrite Ec. do 3 eexists. split_and!; [reflexivity | exact Hwf | now constructor].
Qed.

(** Marking one order of a side. *)
Lemma side_list_mark h buy es1 k l es2 o :
  sa_sorted key_ok key_rank (es1 ++ (k, l) :: es2) -> Forall (entry_ok h buy) (es1 ++ (k, l) :: es2) ->
  h !! l = Some o ->
  exists l1 l2, side_list h buy (es1 ++ (k, l) :: es2) = l1 ++ o :: l2 /\
    side_list (<[l := set_canceled o]> h) buy (es1 ++ (k, l) :: es2) = l1 ++ set_canceled o :: l2.
Proof.
  intros HS HF Hl. destruct (entries_distinct _ _ _ _ _ _ HS HF) as [H1 H2].
  unfold side_list. rewrite !orders_of_app, (orders_of_cons _ _ _ _ _ Hl).
  rewrite (orders_of_cons _ _ _ (set_canceled o)) by apply lookup_insert_eq.
  rewrite !orders_of_frame by assumption. destruct buy; [|eauto].
  rewrite !reverse_app, !reverse_cons, <- !app_assoc. eauto.
Qed.

Lemma highest_entry h b buy o :
  book_wf h b -> highest (abstract h b) buy = Some o ->
  exists es k l, side_entries b buy = es ++ [(k, l)] /\ h !! l = Some o.
Proof.
  intros Hwf Ho. destruct (book_wf_entries _ _ buy Hwf) as [_ HF]. apply (last_entry h buy _ o HF).
  rewrite <- Ho. destruct buy; cbn; [rewrite bids_entries, head_reverse | rewrite asks_entries]; reflexivity.
Qed.

Lemma cancel_refines h b i buy :
  book_wf h b ->
  exists a h' b', history_step h b (OpCancelId i buy) = Ok (a, h', b') /\ book_wf h' b' /\
    spec_step (abstract h b) (OpCancelId i buy) a (abstract h' b').
Proof.
  intros Hwf. destruct (book_wf_side h b buy Hwf) as (t & Ht & _).
  destruct (book_wf_entries h b buy Hwf) as [HS HF].
  assert (Et : side_entries b buy = entries (root t)) by (unfold side_entries; now rewrite Ht).
  pose proof (cancel_order_spec h b i buy t Hwf Ht) as Hc. cbn [history_step].
  destruct (find_id h i (right_spine (root t))) as [l|] eqn:Ef.
  - destruct Hc as (o & Hl & Hid & -> & Hwf'). cbn [mbind res_bind]. do 3 eexists.
    split; [reflexivity |]. split; [exact Hwf' |].
    apply find_id_Some in Ef as (_ & _ & _ & (es1 & k & es2 & Es)%right_spine_entries).
    rewrite Es in Et. rewrite Et in HS, HF.
    assert (o_is_buy_order o = buy) as Hb.
    { apply Forall_app in HF as [_ [He _]%Forall_cons]. apply entry_ok_inv in He as (o' & Hl' & _ & Hb). congruence. }
    destruct (side_list_mark h buy es1 k l es2 o HS HF Hl) as (l1 & l2 & E1 & E2).
    rewrite (abook_eta (abstract h b) (abstract (<[l := set_canceled o]> h) b) buy).
    + rewrite aside_entries, Et, E2. apply SpecCancel; [|exact Hid]. now rewrite aside_entries, Et.
    + rewrite !aside_entries. apply side_list_frame.
      eapply entries_other_side; [apply book_wf_entries, Hwf | exact Hl | now rewrite negb_involutive].
  - rewrite Hc. cbn [mbind res_bind]. do 3 eexists. split_and!; [reflexivity | exact Hwf |].
    apply SpecCancelNot. intros o Ho. destruct (highest_entry h b buy o Hwf Ho) as (es & k & l & Es & Hl).
    eapply find_id_None; [exact Ef | | exact Hl]. eapply right_spine_last. rewrite <- Et. exact Es.
Qed.

Lemma match_refines h b clock :
  book_wf h b ->
  exists a h' b', history_step h b (OpMatch clock) = Ok (a, h', b') /\ book_wf h' b' /\
    spec_step (abstract h b) (OpMatch clock) a (abstract h' b').
Proof.
  intros Hwf. destruct (match_orders_spec (S (book_size b)) clock h b Hwf ltac:(lia))
    as (h' & b' & notes & E & Hwf' & _ & Hsp). cbn [history_step]. rewrite E. cbn [mbind res_bind deref].
  do 3 eexists. split_and!; [reflexivity | exact Hwf' |]. apply SpecMatch.
  rewrite <- Hsp, (book_size_lists _ _ Hwf). reflexivity.
Qed.

Lemma history_step_refines h b op :
  book_wf h b -> op_ok op ->
  exists a h' b', history_step h b op = Ok (a, h', b') /\ book_wf h' b' /\
    spec_step (abstract h b) op a (abstract h' b').
Proof.
  destruct op as [now i t s p q buy|i buy|clock]; cbn [op_ok]; intros Hwf Hop.
  - now apply place_refines.
  - now apply cancel_refines.
  - now apply match_refines.
Qed.

Lemma history_run_refines h b ops :
  book_wf h b -> Forall op_ok ops ->
  exists outs h' b', history_run h b ops = Ok (outs, h', b') /\ book_wf h' b' /\
    spec_run (abstract h b) ops outs (abstract h' b').
Proof.
  intros Hwf Hops. revert h b Hwf. induction Hops as [|op ops Hop _ IH]; intros h b Hwf; cbn [history_run].
  { do 3 eexists. split_and!; [reflexivity | exact Hwf | constructor]. }
  destruct (history_step_refines h b op Hwf Hop) as (a & h1 & b1 & -> & Hwf1 & Hs). cbn [mbind res_bind].
  destruct (IH h1 b1 Hwf1) as (outs & h2 & b2 & -> & Hwf2 & Hr). cbn [mbind res_bind].
  do 3 eexists. split_and!; [reflexivity | exact Hwf2 |]. eapply SpecCons; eassumption.
Qed.

(** ** Quantities over a history *)

(** Sides whose orders satisfy a property. *)
Definition abook_all (P : Order -> Prop) (ab : abook) : Prop := forall buy, Forall P (aside ab buy).

Lemma aside_with ab buy l buy' :
  aside (with_aside ab buy l) buy' = if Bool.eqb buy buy' then l else aside ab buy'.
Proof. now destruct ab, buy, buy'. Qed.

Lemma abook_all_with P ab buy l : abook_all P ab -> Forall P l -> abook_all P (with_aside ab buy l).
Proof. intros H Hl buy'. rewrite aside_with. now case_match. Qed.

Lemma abook_all_impl (P Q : Order -> Prop) ab : (forall o, P o -> Q o) -> abook_all P ab -> abook_all Q ab.
Proof. intros H Hab buy. eapply Forall_impl; [apply Hab | exact H]. Qed.

(** What a step leaves on the book satisfies a property that new orders have and that
    fills and cancellations keep. *)
Lemma spec_step_all (P : Order -> Prop) ab op a ab' :
  (forall o q, P o -> (0 < q < o_remaining_quantity o)%Z -> P (fill o q)) ->
  (forall o, P o -> P (set_canceled o)) ->
  match op with OpPlace now i t s p q buy => P (mkOrder i t s p q q buy now false) | _ => True end ->
  abook_all P ab -> spec_step ab op a ab' -> abook_all P ab'.
Proof.
  intros Hfill Hcan Hnew Hab Hs.
  destruct Hs as [now i tr s p q buy Ef|now i tr s p q buy Ef|i buy l1 o l2 El Hid|i buy _|clock notes bs as_ E]; auto.
  - apply abook_all_with; auto. now apply file_order_Forall.
  - apply abook_all_with; auto. specialize (Hab buy). rewrite El in Hab.
    apply Forall_app in Hab as [H1 [Ho H2]%Forall_cons]. apply Forall_app. auto.
  - destruct (spec_match_Forall P _ _ _ _ _ _ _ _ Hfill (Hab true) (Hab false) E) as [H1 H2]. now intros [].
Qed.

(** Orders created by a given second. *)
Definition created_by (t : Z) (o : Order) : Prop := (o_timestamp o <= t)%Z.

(** An order of a later second ties with no such order. *)
Lemma later_not_tied buy o x t :
  created_by t x -> (t < o_timestamp o)%Z -> goes_first buy o x || goes_first buy x o = true.
Proof.
  unfold created_by. intros Hx Ho. rewrite orb_true_iff. unfold goes_first.
  assert (H : filed_before o x \/ filed_before x o).
  { unfold filed_before. destruct (rank_lt_total (key_rank (order_key o)) (key_rank (order_key x))) as [H|[H|H]]; auto.
    injection H as _ H. lia. }
  destruct buy; rewrite !bool_decide_eq_true; tauto.
Qed.

Lemma total_remaining_app l1 l2 : total_remaining (l1 ++ l2) = (total_remaining l1 + total_remaining l2)%Z.
Proof. induction l1 as [|o l1 IH]; cbn [app]; rewrite ?total_remaining_cons, ?IH; [reflexivity | lia]. Qed.

Lemma total_remaining_nonneg l : Forall (fun o => 0 <= o_remaining_quantity o)%Z l -> (0 <= total_remaining l)%Z.
Proof. induction 1 as [|o l Ho _ IH]; [cbn; lia |]. rewrite total_remaining_cons. lia. Qed.

(** One step: what is placed on a side stays on it or is traded. *)
Lemma spec_step_conserves t ab op a ab' ops :
  abook_all (created_by t) ab -> ticking t (op :: ops) -> spec_step ab op a ab' ->
  exists t', abook_all (created_by t') ab' /\ ticking t' ops /\
    forall buy, (total_remaining (aside ab buy) + placed_quantity buy [op] =
                 total_traded a.2 + total_remaining (aside ab' buy))%Z.
Proof.
  intros Hab Htick Hs. set (t' := match op with OpPlace now _ _ _ _ _ _ => now | _ => t end). exists t'.
  assert (Ht : (t <= t')%Z /\ ticking t' ops) by (unfold t'; destruct op; cbn in Htick |- *; split; try apply Htick; lia).
  destruct Ht as [Hle Htick']. split_and!; auto.
  { apply (spec_step_all _ ab op a); auto; [destruct op; auto; unfold created_by; cbn; lia |].
    eapply abook_all_impl; [|exact Hab]. unfold created_by. lia. }
  intros b. destruct Hs as [now i tr s p q buy Ef|now i tr s p q buy Ef|i buy l1 o l2 El Hid|i buy _|clock notes bs as_ E];
    cbn [placed_quantity] in *; try rewrite Ef; cbn [andb].
  - cbn. lia.
  - rewrite aside_with. destruct (Bool.eqb_spec buy b) as [<- |_]; [|cbn; lia].
    rewrite file_order_total; [cbn; lia |]. eapply Forall_impl; [apply Hab |].
    intros x Hx. eapply later_not_tied; [exact Hx | apply Htick].
  - rewrite aside_with. destruct (Bool.eqb_spec buy b) as [<- |_]; [|cbn; lia].
    rewrite El, !total_remaining_app, !total_remaining_cons. cbn. lia.
  - cbn. lia.
  - apply spec_match_conserves in E as [E1 E2]. destruct b; cbn [aside fst snd] in *; lia.
Qed.

Lemma placed_quantity_cons buy op ops :
  placed_quantity buy (op :: ops) = (placed_quantity buy [op] + placed_quantity buy ops)%Z.
Proof. destruct op; cbn; lia. Qed.

Lemma spec_run_conserves t ab ops outs ab' :
  spec_run ab ops outs ab' -> abook_all (created_by t) ab -> ticking t ops ->
  forall buy, (total_remaining (aside ab buy) + placed_quantity buy ops =
               traded_quantity outs + total_remaining (aside ab' buy))%Z.
Proof.
  intros H. revert t. induction H as [ab|ab op a ab1 ops outs ab2 Hs _ IH]; intros t Hab Ht buy; [cbn; lia |].
  destruct (spec_step_conserves t ab op a ab1 ops Hab Ht Hs) as (t' & Hab1 & Ht' & E).
  specialize (E buy). specialize (IH t' Hab1 Ht' buy).
  rewrite placed_quantity_cons. change (traded_quantity (a :: outs)) with (total_traded a.2 + traded_quantity outs)%Z. lia.
Qed.

(** Without negative orders no side is overdrawn. *)
Lemma spec_run_nonneg ab ops outs ab' :
  spec_run ab ops outs ab' -> Forall op_nonneg ops -> abook_all (fun o => 0 <= o_remaining_quantity o)%Z ab ->
  forall buy, (0 <= total_remaining (aside ab' buy))%Z.
Proof.
  induction 1 as [ab|ab op a ab1 ops outs ab2 Hs _ IH]; intros Hops Hab buy; [now apply total_remaining_nonneg |].
  apply Forall_cons in Hops as [Hop Hops]. apply IH; auto.
  apply (spec_step_all _ ab op a); [cbn; intros; lia | auto | destruct op; [exact Hop | exact I..] | exact Hab | exact Hs].
Qed.

Lemma created_book_wf br : exists b, order_book_create true true true (Some br) = Some b /\
  book_wf ∅ b /\ abstract ∅ b = ([], []).
Proof.
  eexists. split; [reflexivity |]. split; [|reflexivity].
  repeat split; cbn; auto; first [apply Forall_nil_2 | constructor].
Qed.

#[export] Instance op_ok_dec op : Decision (op_ok op).
Proof. destruct op; cbn; apply _. Defined.

(** ** A concrete history *)

(** Two bids, a larger ask that takes both, a cancellation refused because the order
    has left the book, and a bid that buys part of the rest. *)
Definition sample_history : list book_op :=
  [OpPlace 1 "BUY1" "TRADER1" "AAPL" (d_of_Z 150) 100 true;
   OpPlace 2 "BUY2" "TRADER1" "AAPL" (d_of_Z 149) 100 true;
   OpPlace 3 "SELL1" "TRADER2" "AAPL" (d_of_Z 148) 250 false;
   OpMatch sample_clock;
   OpCancelId "BUY2" true;
   OpPlace 4 "BUY3" "TRADER3" "AAPL" (d_of_Z 148) 20 true;
   OpMatch sample_clock;
   OpCancelId "SELL1" false].

Lemma sample_history_ok : Forall op_ok sample_history.
Proof. by_decide. Qed.

Lemma sample_history_ticking : ticking 0 sample_history.
Proof. cbn. lia. Qed.

Definition fresh_book : OrderBook := book_or_empty (Ok (order_book_create true true true (Some (mkTradeBroadcaster true)))).

Example sample_history_outcome :
  match history_run ∅ fresh_book sample_history with
  | Ok (outs, h, b) => (fst <$> outs, traded_quantity outs, total_remaining (bids h b), total_remaining (asks h b))
  | _ => ([], 0, 0, 0)%Z
  end = ([0; 0; 0; 0; -1; 0; 0; 0], 220, 0, 30)%Z.
Proof. vm_compute. reflexivity. Qed.

(** ** Properties *)

(** C1: every history of creating, filing, cancelling and matching orders on a
    well-formed book, with prices that are numbers, runs to its end without undefined
    behaviour and is a history of the abstract book with the same answers and the same
    trades: an order is refused when a string does not fit and otherwise filed at its
    place in the priority order, unless it ties with a resting one; a cancellation marks
    one order with the id or is refused, and then the highest order of the side does not
    have the id; matching trades the best bid with the best ask until they no longer
    match. *)
Theorem book_history_refines h b ops :
  book_wf h b -> Forall op_ok ops ->
  exists outs h' b', history_run h b ops = Ok (outs, h', b') /\ book_wf h' b' /\
    spec_run (bids h b, asks h b) ops outs (bids h' b', asks h' b').
Proof. apply history_run_refines. Qed.

Lemma book_history_refines_witness :
  exists outs h' b', history_run sample_heap sample_book sample_history = Ok (outs, h', b') /\ book_wf h' b' /\
    spec_run (bids sample_heap sample_book, asks sample_heap sample_book) sample_history outs
      (bids h' b', asks h' b').
Proof. exact (book_history_refines sample_heap sample_book sample_history sample_book_wf sample_history_ok). Defined.

(** C2: over a whole history of a new book in which prices are numbers and every order is
    created in a later second than those before it, quantity is conserved on each side:
    what was accepted is what was traded plus what still rests.  If moreover no order was
    placed with a negative quantity, which nothing in the code prevents, what rests is not
    negative, so neither side ever trades more than was placed on it. *)
Theorem book_history_conserves br ops t :
  Forall op_ok ops -> ticking t ops ->
  exists b0 outs h b, order_book_create true true true (Some br) = Some b0 /\
    history_run ∅ b0 ops = Ok (outs, h, b) /\
    (placed_quantity true ops = traded_quantity outs + total_remaining (bids h b))%Z /\
    (placed_quantity false ops = traded_quantity outs + total_remaining (asks h b))%Z /\
    (Forall op_nonneg ops -> (0 <= total_remaining (bids h b))%Z /\ (0 <= total_remaining (asks h b))%Z).
Proof.
  intros Hops Ht. destruct (created_book_wf br) as (b0 & E0 & Hwf & Ha).
  destruct (history_run_refines ∅ b0 ops Hwf Hops) as (outs & h & b & E & _ & Hr). rewrite Ha in Hr.
  assert (Hnil : forall P, abook_all P ([], [])) by (intros P []; constructor).
  pose proof (spec_run_conserves t _ _ _ _ Hr (Hnil _) Ht) as Hc.
  exists b0, outs, h, b. split_and!; auto; [exact (Hc true) | exact (Hc false) |].
  intros Hq. pose proof (spec_run_nonneg _ _ _ _ Hr Hq (Hnil _)) as Hn. exact (conj (Hn true) (Hn false)).
Qed.

Lemma book_history_conserves_witness :
  exists b0 outs h b, order_book_create true true true (Some (mkTradeBroadcaster true)) = Some b0 /\
    history_run ∅ b0 sample_history = Ok (outs, h, b) /\
    (placed_quantity true sample_history = traded_quantity outs + total_remaining (bids h b))%Z /\
    (placed_quantity false sample_history = traded_quantity outs + total_remaining (asks h b))%Z /\
    (Forall op_nonneg sample_history -> (0 <= total_remaining (bids h b))%Z /\ (0 <= total_remaining (asks h b))%Z).
Proof.
  exact (book_history_conserves (mkTradeBroadcaster true) sample_history 0 sample_history_ok sample_history_ticking).
Defined.
