(* ===== verification/Trader.v ===== *)
(** * Traders (src/src/trading_engine/trader.c)

    Traders live in a store of their own; a [Trader*] is a location of it.  A
    trader places orders in a book ([order_book_add_order]) and, for a buy, has the
    price of the order reserved from the balance. *)

From Stdlib Require Import Ascii String ZArith Lia SpecFloat.
From stdpp Require Import base list numbers strings gmap.
From S2P Require Import Prelude SortedAssoc CDouble CString Order AvlTree OrderBook MatchSpec BookRefine.

Definition MAX_TRADER_ID_LENGTH : nat := 64.
Definition MAX_TRADER_NAME_LENGTH : nat := 128.

Record Trader : Type := mkTrader {
  tr_trader_id : string;
  tr_name : string;
  tr_balance : double
}.

Abbreviation trader_heap := (gmap loc Trader).

Definition load_trader (th : trader_heap) (l : loc) : res Trader :=
  match th !! l with
  | Some t => Ok t
  | None => UB UseAfterFree
  end.

(** A member access guarded by [if (!trader) return null]. *)
Definition on_trader {A : Type} (th : trader_heap) (p : option loc) (null : A)
    (f : loc -> Trader -> res A) : res A :=
  match p with
  | None => Ok null
  | Some l => t ← load_trader th l; f l t
  end.

(** Member assignment. *)
Definition with_trader_id (t : Trader) (s : string) : Trader := mkTrader s (tr_name t) (tr_balance t).
Definition with_name (t : Trader) (s : string) : Trader := mkTrader (tr_trader_id t) s (tr_balance t).
Definition with_balance (t : Trader) (b : double) : Trader := mkTrader (tr_trader_id t) (tr_name t) b.

Definition trader_create (malloc_ok : bool) (th : trader_heap) (trader_id name : option string)
    (balance : double) : option loc * trader_heap :=
  match trader_id, name with
  | Some i, Some n =>
      if d_lt balance d_zero then (None, th)
      else if negb malloc_ok then (None, th)
      else if (MAX_TRADER_ID_LENGTH <=? strlen i)%nat || (MAX_TRADER_NAME_LENGTH <=? strlen n)%nat
      then (None, th)
      else
        let l := fresh (dom th) in
        (Some l, <[l := mkTrader (copy_str MAX_TRADER_ID_LENGTH i) (copy_str MAX_TRADER_NAME_LENGTH n)
                          balance]> th)
  | _, _ => (None, th)
  end.

Definition trader_destroy (th : trader_heap) (p : option loc) : res trader_heap :=
  on_trader th p th (fun l _ => Ok (delete l th)).

Definition trader_get_id (th : trader_heap) (p : option loc) : res (option string) :=
  on_trader th p None (fun _ t => Ok (Some (tr_trader_id t))).
Definition trader_get_name (th : trader_heap) (p : option loc) : res (option string) :=
  on_trader th p None (fun _ t => Ok (Some (tr_name t))).
Definition trader_get_balance (th : trader_heap) (p : option loc) : res double :=
  on_trader th p d_zero (fun _ t => Ok (tr_balance t)).

Definition trader_set_id (th : trader_heap) (p : option loc) (trader_id : option string)
    : res trader_heap :=
  match p, trader_id with
  | Some l, Some s =>
      if (MAX_TRADER_ID_LENGTH <=? strlen s)%nat then Ok th
      else t ← load_trader th l; Ok (<[l := with_trader_id t (copy_str MAX_TRADER_ID_LENGTH s)]> th)
  | _, _ => Ok th
  end.

Definition trader_set_name (th : trader_heap) (p : option loc) (name : option string)
    : res trader_heap :=
  match p, name with
  | Some l, Some s =>
      if (MAX_TRADER_NAME_LENGTH <=? strlen s)%nat then Ok th
      else t ← load_trader th l; Ok (<[l := with_name t (copy_str MAX_TRADER_NAME_LENGTH s)]> th)
  | _, _ => Ok th
  end.

Definition trader_set_balance (th : trader_heap) (p : option loc) (balance : double)
    : res trader_heap :=
  on_trader th p th (fun l t =>
    if d_lt balance d_zero then Ok th else Ok (<[l := with_balance t balance]> th)).

(** The balance check and reservation for a buy order: the new trader, or [None]
    when the funds are insufficient. *)
Definition reserve_funds (t : Trader) (is_buy : bool) (price : double) (quantity : Z)
    : option Trader :=
  if is_buy then
    let required_funds := d_mul price (d_of_Z quantity) in
    if d_gt required_funds (tr_balance t) then None
    else Some (with_balance t (d_sub (tr_balance t) required_funds))
  else Some t.

Definition trader_place_order (malloc_ok : bool) (th : trader_heap) (h : order_heap)
    (trader : option loc) (book : option OrderBook) (order : option loc)
    : res (Z * trader_heap * option OrderBook) :=
  match trader, book, order with
  | Some lt, Some _, Some _ =>
      t ← load_trader th lt;
      owner ← order_get_trader_id h order;
      owner ← deref owner;
      if negb (str_eq (tr_trader_id t) owner) then Ok ((-1)%Z, th, book)
      else
        is_buy ← order_is_buy_order h order;
        price ← order_get_price h order;
        quantity ← order_get_quantity h order;
        match reserve_funds t is_buy price quantity with
        | None => Ok ((-1)%Z, th, book)
        | Some t' =>
            '(r, book) ← order_book_add_order malloc_ok h book order;
            Ok (r, <[lt := t']> th, book)
        end
  | _, _, _ => Ok ((-1)%Z, th, book)
  end.

Definition trader_update_balance (th : trader_heap) (p : option loc) (amount : double)
    : res trader_heap :=
  on_trader th p th (fun l t =>
    let new_balance := d_add (tr_balance t) amount in
    if d_lt new_balance d_zero then Ok th else Ok (<[l := with_balance t new_balance]> th)).

(** ** Invariant *)

(** The balance is a binary64 number that is not below zero, and the strings fit
    their arrays. *)
Definition trader_ok (t : Trader) : Prop :=
  valid_binary prec emax (tr_balance t) = true /\ d_lt (tr_balance t) d_zero = false /\
  (strlen (tr_trader_id t) < MAX_TRADER_ID_LENGTH)%nat /\
  (strlen (tr_name t) < MAX_TRADER_NAME_LENGTH)%nat.

Definition traders_ok (th : trader_heap) : Prop := map_Forall (fun _ t => trader_ok t) th.

#[export] Instance trader_ok_dec t : Decision (trader_ok t).
Proof. unfold trader_ok. apply _. Defined.

(** One operation on the traders. *)
Inductive trader_op : Type :=
| TrCreate (malloc_ok : bool) (trader_id name : option string) (balance : double)
| TrDestroy (p : option loc)
| TrSetId (p : option loc) (s : option string)
| TrSetName (p : option loc) (s : option string)
| TrSetBalance (p : option loc) (balance : double)
| TrUpdateBalance (p : option loc) (amount : double)
| TrPlaceOrder (malloc_ok : bool) (h : order_heap) (p : option loc) (book : option OrderBook)
    (order : option loc).

Definition trader_step (th : trader_heap) (op : trader_op) : res trader_heap :=
  match op with
  | TrCreate m i n b => Ok (snd (trader_create m th i n b))
  | TrDestroy p => trader_destroy th p
  | TrSetId p s => trader_set_id th p s
  | TrSetName p s => trader_set_name th p s
  | TrSetBalance p b => trader_set_balance th p b
  | TrUpdateBalance p a => trader_update_balance th p a
  | TrPlaceOrder m h p b o => (fun r => snd (fst r)) <$> trader_place_order m th h p b o
  end.

(** The doubles an operation is given are binary64 numbers. *)
Definition op_doubles (op : trader_op) : Prop :=
  match op with
  | TrCreate _ _ _ b => valid_binary prec emax b = true
  | TrSetBalance _ b => valid_binary prec emax b = true
  | TrUpdateBalance _ a => valid_binary prec emax a = true
  | TrPlaceOrder _ h _ _ _ => map_Forall (fun _ o => valid_binary prec emax (o_price o) = true) h
  | _ => True
  end.

(** The trader an operation is given is null or allocated; an order is placed in a
    well-formed book, with a price that is a number and memory for its node. *)
Definition trader_op_live (th : trader_heap) (op : trader_op) : Prop :=
  let live (p : option loc) := match p with Some l => is_Some (th !! l) | None => True end in
  match op with
  | TrCreate _ _ _ _ => True
  | TrDestroy p | TrSetId p _ | TrSetName p _ | TrSetBalance p _ | TrUpdateBalance p _ => live p
  | TrPlaceOrder m h p b o => live p /\ m = true /\
      match b, o with
      | Some b, Some l => book_wf h b /\ exists o, h !! l = Some o /\ d_ok (o_price o)
      | _, _ => True
      end
  end.

(** ** Lemmas *)

Lemma load_trader_ok (th : trader_heap) l t : th !! l = Some t -> load_trader th l = Ok t.
Proof. unfold load_trader. now intros ->. Qed.

Lemma load_trader_inv (th : trader_heap) l t : load_trader th l = Ok t -> th !! l = Some t.
Proof. unfold load_trader. case_match; intros; now inv_res. Qed.

#[export] Hint Resolve load_trader_ok load_trader_inv : trading.

Lemma on_trader_inv {A : Type} (th : trader_heap) (p : option loc) (null : A) f (a : A) :
  on_trader th p null f = Ok a ->
  (p = None /\ a = null) \/ exists l t, p = Some l /\ th !! l = Some t /\ f l t = Ok a.
Proof.
  destruct p as [l|]; cbn; intros H.
  - apply bind_ok in H as (o & Ho & H). right. eauto 6 with trading.
  - inv_res. auto.
Qed.

(** A reservation leaves a balance that is not negative, even when the price of the
    order is not a number. *)
Lemma reserve_funds_ok t buy price q t' :
  trader_ok t -> valid_binary prec emax price = true ->
  reserve_funds t buy price q = Some t' -> trader_ok t'.
Proof.
  intros (Hv & Hn & Hi & Hm) Hp. unfold reserve_funds. destruct buy; [|intros [= <-]; now split_and!].
  set (f := d_mul price (d_of_Z q)). destruct (d_gt f (tr_balance t)) eqn:Hg; intros [= <-].
  assert (Hf : valid_binary prec emax f = true) by (unfold f; auto with trading).
  split_and!; cbn; auto with trading.
  destruct (d_is_nan (tr_balance t)) eqn:Nb; [destruct (tr_balance t); try discriminate; reflexivity |].
  destruct (d_is_nan f) eqn:Nf; [destruct f, (tr_balance t); try discriminate; reflexivity |].
  assert (d_ok f) by (split; assumption). assert (d_ok (tr_balance t)) by (split; assumption).
  apply d_sub_nonneg; auto. rewrite d_le_dval, Z.leb_le by auto.
  rewrite d_gt_dval, Z.ltb_ge in Hg by auto. exact Hg.
Qed.

Lemma traders_ok_insert (th : trader_heap) l t : traders_ok th -> trader_ok t -> traders_ok (<[l := t]> th).
Proof. intros. now apply map_Forall_insert_2. Qed.

#[export] Hint Resolve traders_ok_insert : trading.

Lemma length_copy_str n s : (0 < n)%nat -> (strlen (copy_str n s) < n)%nat.
Proof. intros Hn. unfold copy_str. rewrite length_substring. lia. Qed.

Lemma trader_create_ok m th i n b :
  traders_ok th -> valid_binary prec emax b = true -> traders_ok (snd (trader_create m th i n b)).
Proof.
  intros Hth Hb. unfold trader_create. repeat case_match; cbn; auto.
  apply traders_ok_insert; auto. split_and!; cbn; auto; apply length_copy_str; vm_compute; lia.
Qed.

Lemma trader_place_order_ok m th h p b o r :
  traders_ok th -> map_Forall (fun _ o => valid_binary prec emax (o_price o) = true) h ->
  trader_place_order m th h p b o = Ok r -> traders_ok (snd (fst r)).
Proof.
  intros Hth Hh. unfold trader_place_order. destruct p as [lt|], b as [b|], o as [l|];
    try (intros; inv_res; exact Hth).
  intros (t & Ht%load_trader_inv & H)%bind_ok. unfold order_get_trader_id, order_is_buy_order,
    order_get_price, order_get_quantity, on_order in H.
  destruct (load h l) as [o| |] eqn:Hl; try discriminate. cbn [mbind res_bind deref] in H.
  apply load_inv in Hl. case_match; [inv_res; exact Hth |].
  destruct (reserve_funds _ _ _ _) as [t'|] eqn:Er; [|inv_res; exact Hth].
  apply bind_ok in H as ([r' b'] & _ & H). inv_res. cbn.
  apply traders_ok_insert; auto. eapply reserve_funds_ok; [exact (Hth _ _ Ht) | exact (Hh _ _ Hl) | exact Er].
Qed.

Lemma trader_step_ok (th th' : trader_heap) (op : trader_op) :
  traders_ok th -> op_doubles op -> trader_step th op = Ok th' -> traders_ok th'.
Proof.
  intros Hth Hop Hs. destruct op as [m i n b|p|p s|p s|p b|p a|m h p b o]; cbn [trader_step op_doubles] in *.
  - inv_res. now apply trader_create_ok.
  - apply on_trader_inv in Hs as [[_ ->]|(l & t & -> & Hl & Hs)]; inv_res; auto. now apply map_Forall_delete.
  - unfold trader_set_id, trader_set_name in Hs. destruct p as [l|], s as [s|]; try (inv_res; exact Hth). case_match; [inv_res; exact Hth |].
    apply bind_ok in Hs as (t & Ht%load_trader_inv & Hs). inv_res.
    destruct (Hth _ _ Ht) as (? & ? & ? & ?). apply traders_ok_insert; auto.
    split_and!; auto. apply length_copy_str. vm_compute; lia.
  - unfold trader_set_id, trader_set_name in Hs. destruct p as [l|], s as [s|]; try (inv_res; exact Hth). case_match; [inv_res; exact Hth |].
    apply bind_ok in Hs as (t & Ht%load_trader_inv & Hs). inv_res.
    destruct (Hth _ _ Ht) as (? & ? & ? & ?). apply traders_ok_insert; auto.
    split_and!; auto. apply length_copy_str. vm_compute; lia.
  - apply on_trader_inv in Hs as [[_ ->]|(l & t & -> & Hl & Hs)]; auto. case_match; inv_res; auto.
    destruct (Hth _ _ Hl) as (? & ? & ? & ?). apply traders_ok_insert; auto. now split_and!.
  - apply on_trader_inv in Hs as [[_ ->]|(l & t & -> & Hl & Hs)]; auto. cbv zeta in Hs. case_match; inv_res; auto.
    destruct (Hth _ _ Hl) as (? & ? & ? & ?). apply traders_ok_insert; auto.
    split_and!; cbn; auto with trading.
  - destruct (trader_place_order m th h p b o) as [r| |] eqn:E; try discriminate. injection Hs as <-.
    eapply trader_place_order_ok; eauto.
Qed.

(** Placing an order is defined on a live trader, a well-formed book and a live order. *)
Lemma trader_place_order_total th h p b l o :
  match p with Some lt => is_Some (th !! lt) | None => True end ->
  book_wf h b -> h !! l = Some o -> d_ok (o_price o) ->
  exists r, trader_place_order true th h p (Some b) (Some l) = Ok r.
Proof.
  intros Hp Hwf Hl Ho. destruct p as [lt|]; [|eexists; reflexivity]. destruct Hp as [t Ht].
  destruct (add_order_spec h b l o Hwf Hl Ho) as (b' & E & _).
  unfold trader_place_order, order_get_trader_id, order_is_buy_order, order_get_price, order_get_quantity.
  rewrite !(on_order_Some _ _ _ _ _ Hl), (load_trader_ok _ _ _ Ht). cbn [mbind res_bind deref].
  repeat case_match; try (eexists; reflexivity). rewrite E. eexists. reflexivity.
Qed.

Lemma trader_step_total th op : trader_op_live th op -> exists th', trader_step th op = Ok th'.
Proof.
  destruct op as [m i n b|p|p s|p s|p b|p a|m h p b o]; cbn [trader_op_live trader_step]; [eauto | ..].
  6: { intros (Hp & -> & Hb). destruct b as [b|], o as [l|]; try (destruct p; eexists; reflexivity).
    destruct Hb as (Hwf & ord & Hl & Ho). destruct (trader_place_order_total th h p b l ord Hp Hwf Hl Ho) as [r ->].
    eexists. reflexivity. }
  all: destruct p as [l|]; [|try destruct s; eexists; reflexivity]; intros [t Ht];
    unfold trader_destroy, trader_set_id, trader_set_name, trader_set_balance, trader_update_balance, on_trader,
      load_trader; rewrite Ht; repeat case_match; cbn; try case_match; eauto.
Qed.

(** ** Properties *)

(** C27: every call of the trader API on null or live pointers (and, to place an order, on a
    well-formed book) completes without undefined behaviour and keeps the invariant of
    every trader: a balance that is a binary64 number and not negative, in particular
    after funds are reserved for a buy order, and strings within their arrays. *)
Theorem trader_step_preserves_ok (th : trader_heap) (op : trader_op) :
  traders_ok th -> op_doubles op -> trader_op_live th op -> exists th', trader_step th op = Ok th' /\ traders_ok th'.
Proof.
  intros Hth Hop Hl. destruct (trader_step_total th op Hl) as [th' E]. exists th'. eauto using trader_step_ok.
Qed.

Definition sample_trader : Trader := mkTrader "TRADER3" "Carol" (d_of_Z 2000).
Definition sample_traders : trader_heap := <[1%positive := sample_trader]> ∅.

Lemma trader_step_preserves_ok_witness :
  exists th', trader_step sample_traders
      (TrPlaceOrder true late_heap (Some 1%positive) (Some sample_book) (Some 4%positive)) = Ok th' /\
    traders_ok th'.
Proof.
  apply (trader_step_preserves_ok sample_traders
           (TrPlaceOrder true late_heap (Some 1%positive) (Some sample_book) (Some 4%positive))).
  - apply traders_ok_insert; [apply map_Forall_empty | by_decide].
  - apply (bool_decide_unpack (map_Forall (fun _ o => valid_binary prec emax (o_price o) = true) late_heap)).
    vm_compute. exact I.
  - split; [eexists; reflexivity |]. split; [reflexivity |]. split; [by_decide |].
    eexists. split; [reflexivity | by_decide].
Defined.

(** C28: a trader's own order that ties with no resting order (same side, price and second)
    is filed if it is a sell, and if it is a buy exactly when the balance covers its cost,
    price times quantity, which is then deducted: the call returns 0, the order's side of
    the book gains exactly that order and the other side does not change.  An order of
    somebody else, or one that is not covered, is refused with -1, and neither the book nor
    any balance changes. *)
Theorem trader_place_order_correct th h lt t b l o :
  book_wf h b -> th !! lt = Some t -> h !! l = Some o -> d_ok (o_price o) -> untied b o ->
  let cost := d_mul (o_price o) (d_of_Z (o_quantity o)) in
  if bool_decide (tr_trader_id t = o_trader_id o) && negb (o_is_buy_order o && d_gt cost (tr_balance t))
  then exists b', trader_place_order true th h (Some lt) (Some b) (Some l) =
         Ok (0%Z, <[lt := if o_is_buy_order o then with_balance t (d_sub (tr_balance t) cost) else t]> th, Some b') /\
       book_wf h b' /\
       side_entries b' (o_is_buy_order o) ≡ₚ (order_key o, l) :: side_entries b (o_is_buy_order o) /\
       side_entries b' (negb (o_is_buy_order o)) = side_entries b (negb (o_is_buy_order o))
  else trader_place_order true th h (Some lt) (Some b) (Some l) = Ok ((-1)%Z, th, Some b).
Proof.
  intros Hwf Ht Hl Hp Hu cost. destruct (add_order_files h b l o Hwf Hl Hp Hu) as (b' & E & Hwf' & _ & Hs & Hn).
  unfold trader_place_order, order_get_trader_id, order_is_buy_order, order_get_price, order_get_quantity.
  rewrite !(on_order_Some _ _ _ _ _ Hl), (load_trader_ok _ _ _ Ht). cbn [mbind res_bind deref].
  case_bool_decide as Hid; cbn [andb].
  - rewrite Hid. unfold str_eq. rewrite String.eqb_refl. cbn [negb]. unfold reserve_funds.
    fold cost. destruct (o_is_buy_order o) eqn:Hb; cbn [andb negb].
    + destruct (d_gt cost (tr_balance t)); cbn [negb]; [reflexivity |]. rewrite E. cbn. eauto 6.
    + rewrite E. cbn. eauto 6.
  - destruct (str_eq _ _) eqn:Es; [now apply str_eq_spec in Es | reflexivity].
Qed.

Lemma trader_place_order_correct_witness :
  exists b', trader_place_order true sample_traders late_heap (Some 1%positive) (Some sample_book) (Some 4%positive) =
         Ok (0%Z, <[1%positive := with_balance sample_trader (d_of_Z 510)]> sample_traders, Some b') /\
       book_wf late_heap b' /\
       side_entries b' true ≡ₚ ((d_of_Z 149, 4%Z), 4%positive) :: side_entries sample_book true /\
       side_entries b' false = side_entries sample_book false.
Proof.
  refine (trader_place_order_correct sample_traders late_heap 1%positive sample_trader sample_book 4%positive
    (sample_order "BUY3" "TRADER3" (d_of_Z 149) 10 true 4) _ eq_refl eq_refl _ _); by_decide.
Defined.
