(* ===== verification/Trade.v ===== *)
(** * Trades (src/src/trading_engine/trade.c)

    Trades live in a store of their own; a [Trade*] is a location of it.  Executing a
    trade credits the seller through [trader_update_balance]; the buyer paid when the
    order was placed. *)

From Stdlib Require Import Ascii String ZArith Lia SpecFloat.
From stdpp Require Import base list numbers strings gmap.
From S2P Require Import Prelude CDouble CString Order Trader.

Definition MAX_ORDER_ID_LENGTH : nat := 64.

Record Trade : Type := mkTrade {
  td_buy_order_id : string;
  td_sell_order_id : string;
  td_trade_price : double;
  td_trade_quantity : Z
}.

Abbreviation trade_heap := (gmap loc Trade).

Definition load_trade (h : trade_heap) (l : loc) : res Trade :=
  match h !! l with
  | Some t => Ok t
  | None => UB UseAfterFree
  end.

(** A member access guarded by [if (!trade) return null]. *)
Definition on_trade {A : Type} (h : trade_heap) (p : option loc) (null : A) (f : Trade -> A) : res A :=
  match p with
  | None => Ok null
  | Some l => f <$> load_trade h l
  end.

(** A new trade, or [NULL]; the caller owns the result. *)
Definition trade_create (malloc_ok : bool) (h : trade_heap) (buy_order_id sell_order_id : option string)
    (trade_price : double) (trade_quantity : Z) : option loc * trade_heap :=
  match buy_order_id, sell_order_id with
  | Some b, Some s =>
      if d_le trade_price d_zero then (None, h)
      else if (trade_quantity <=? 0)%Z then (None, h)
      else if negb malloc_ok then (None, h)
      else if (MAX_ORDER_ID_LENGTH <=? strlen b)%nat || (MAX_ORDER_ID_LENGTH <=? strlen s)%nat then (None, h)
      else
        let l := fresh (dom h) in
        (Some l, <[l := mkTrade (copy_str MAX_ORDER_ID_LENGTH b) (copy_str MAX_ORDER_ID_LENGTH s)
                          trade_price trade_quantity]> h)
  | _, _ => (None, h)
  end.

(** The log line reads the trade before it is freed. *)
Definition trade_destroy (h : trade_heap) (trade : option loc) : res trade_heap :=
  match trade with
  | None => Ok h
  | Some l => _ ← load_trade h l; Ok (delete l h)
  end.

Definition trade_get_buy_order_id (h : trade_heap) (trade : option loc) : res (option string) :=
  on_trade h trade None (fun t => Some (td_buy_order_id t)).
Definition trade_get_sell_order_id (h : trade_heap) (trade : option loc) : res (option string) :=
  on_trade h trade None (fun t => Some (td_sell_order_id t)).
Definition trade_get_price (h : trade_heap) (trade : option loc) : res double := on_trade h trade d_zero td_trade_price.
Definition trade_get_quantity (h : trade_heap) (trade : option loc) : res Z := on_trade h trade 0%Z td_trade_quantity.

(** The buyer is only checked for null; the seller's identifier is read for the log. *)
Definition trade_execute (h : trade_heap) (th : trader_heap) (trade buyer seller : option loc)
    : res (Z * trader_heap) :=
  match trade, buyer, seller with
  | Some l, Some _, Some _ =>
      t ← load_trade h l;
      let total_amount := d_mul (td_trade_price t) (d_of_Z (td_trade_quantity t)) in
      _ ← trader_get_id th seller;
      th ← trader_update_balance th seller total_amount;
      Ok (0%Z, th)
  | _, _, _ => Ok ((-1)%Z, th)
  end.

Definition trade_to_string (malloc_ok : bool) (h : trade_heap) (trade : option loc) : res (option string) :=
  match trade with
  | None => Ok None
  | Some l =>
      if negb malloc_ok then Ok None
      else
        t ← load_trade h l;
        Ok (Some (snprintf 256
          ("Trade{buy_order=" +:+ td_buy_order_id t +:+ ", sell_order=" +:+ td_sell_order_id t +:+
           ", price=" +:+ print_double2 (td_trade_price t) +:+ ", quantity=" +:+
           print_int (td_trade_quantity t) +:+ "}")))
  end.

(** ** Lemmas *)

(** What every stored trade satisfies. *)
Definition trade_ok (t : Trade) : Prop :=
  d_le (td_trade_price t) d_zero = false /\ (0 < td_trade_quantity t)%Z /\
  (strlen (td_buy_order_id t) < MAX_ORDER_ID_LENGTH)%nat /\ (strlen (td_sell_order_id t) < MAX_ORDER_ID_LENGTH)%nat.

Definition trades_ok (h : trade_heap) : Prop := map_Forall (fun _ t => trade_ok t) h.

(** What [trade_create] stores. *)
Lemma trade_create_spec malloc_ok h b s price q l h' :
  trade_create malloc_ok h (Some b) (Some s) price q = (Some l, h') ->
  h !! l = None /\ h' = <[l := mkTrade b s price q]> h /\ trade_ok (mkTrade b s price q).
Proof.
  cbn [trade_create]. destruct (d_le price d_zero) eqn:Hp; [intros [=] |]. destruct (Z.leb_spec q 0); [intros [=] |].
  destruct (negb malloc_ok); [intros [=] |].
  destruct (Nat.leb_spec MAX_ORDER_ID_LENGTH (strlen b)); [intros [=] |].
  destruct (Nat.leb_spec MAX_ORDER_ID_LENGTH (strlen s)); [intros [=] |]. cbn [orb]. intros [= <- <-].
  rewrite !copy_str_short by assumption. split_and!; [apply not_elem_of_dom, is_fresh | reflexivity |].
  repeat split; auto.
Qed.

(** ** Properties *)

(** A trade lives from its creation to its destruction: creation stores exactly the given
    values at a new location and keeps every other trade, reading returns them, destroying
    it restores the store, and destroying it again is a use of freed memory. *)
Theorem trade_lifecycle h b s price q l h' :
  trade_create true h (Some b) (Some s) price q = (Some l, h') -> trades_ok h ->
  trades_ok h' /\ (forall l' t, h !! l' = Some t -> h' !! l' = Some t) /\
  trade_get_buy_order_id h' (Some l) = Ok (Some b) /\ trade_get_sell_order_id h' (Some l) = Ok (Some s) /\
  trade_get_price h' (Some l) = Ok price /\ trade_get_quantity h' (Some l) = Ok q /\
  trade_destroy h' (Some l) = Ok h /\ trade_destroy h (Some l) = UB UseAfterFree.
Proof.
  intros (Hl & -> & Hok)%trade_create_spec Hh.
  unfold trade_get_buy_order_id, trade_get_sell_order_id, trade_get_price, trade_get_quantity, on_trade, trade_destroy, load_trade.
  rewrite lookup_insert_eq, Hl. cbn [fmap res_fmap mbind res_bind].
  split_and!; auto.
  - now apply map_Forall_insert_2.
  - intros l' t Ht. rewrite lookup_insert_ne; congruence.
  - now rewrite delete_insert_id.
Qed.

Lemma trade_lifecycle_witness :
  let h' : trade_heap := {[1%positive := mkTrade "B1" "S1" (d_of_Z 150) 10]} in
  trades_ok h' /\ (forall l' t, (∅ : trade_heap) !! l' = Some t -> h' !! l' = Some t) /\
  trade_get_buy_order_id h' (Some 1%positive) = Ok (Some "B1"%string) /\
  trade_get_sell_order_id h' (Some 1%positive) = Ok (Some "S1"%string) /\
  trade_get_price h' (Some 1%positive) = Ok (d_of_Z 150) /\ trade_get_quantity h' (Some 1%positive) = Ok 10%Z /\
  trade_destroy h' (Some 1%positive) = Ok ∅ /\ trade_destroy ∅ (Some 1%positive) = UB UseAfterFree.
Proof. exact (trade_lifecycle ∅ "B1" "S1" (d_of_Z 150) 10 1%positive _ eq_refl (map_Forall_empty _)). Defined.

(** Executing a trade that [trade_create] accepted, at a price that is a number,
    always returns 0 and credits exactly the seller with the rounded value of price times
    quantity: the credit is never refused and leaves a balance that is not negative. *)
Theorem trade_execute_credits_seller h h' th buy sell price q l buyer ls seller :
  trade_create true h (Some buy) (Some sell) price q = (Some l, h') -> d_ok price -> in_int q ->
  th !! ls = Some seller -> d_ok (tr_balance seller) -> d_lt (tr_balance seller) d_zero = false ->
  let credited := d_add (tr_balance seller) (d_mul price (d_of_Z q)) in
  trade_execute h' th (Some l) (Some buyer) (Some ls) = Ok (0%Z, <[ls := with_balance seller credited]> th) /\
  d_lt credited d_zero = false.
Proof.
  intros (_ & -> & Hp & Hq0 & _)%trade_create_spec [Vp Np] Hq Hs Hb Hn credited. cbn [td_trade_price td_trade_quantity] in Hp, Hq0.
  pose proof (d_pos_of_not_le _ Np Hp) as Pp. assert (Pq : d_lt d_zero (d_of_Z q) = true).
  { apply d_of_Z_pos. unfold in_int, INT_MAX in Hq. lia. }
  assert (Hc : d_lt credited d_zero = false).
  { apply d_add_nonneg; auto using d_mul_nonneg. split; [auto with trading | now apply d_mul_not_nan]. }
  split; [|exact Hc]. cbn [trade_execute]. unfold load_trade, trader_get_id, trader_update_balance, on_trader.
  rewrite lookup_insert_eq, (load_trader_ok _ _ _ Hs). cbn [mbind res_bind td_trade_price td_trade_quantity].
  fold credited. now rewrite Hc.
Qed.

Lemma trade_execute_credits_seller_witness :
  trade_execute {[1%positive := mkTrade "B1" "S1" (d_of_Z 150) 10]} sample_traders (Some 1%positive) (Some 2%positive)
    (Some 1%positive) = Ok (0%Z, <[1%positive := with_balance sample_trader (d_of_Z 3500)]> sample_traders) /\
  d_lt (d_of_Z 3500) d_zero = false.
Proof.
  refine (trade_execute_credits_seller ∅ _ sample_traders "B1" "S1" (d_of_Z 150) 10 1%positive 2%positive 1%positive
    sample_trader eq_refl _ _ eq_refl _ eq_refl); [by_decide | unfold in_int, INT_MIN, INT_MAX; lia | by_decide].
Defined.
