(* ===== verification/CJson.v ===== *)
(** * The cJSON interface

    The program builds and reads its messages with the cJSON library, which is not
    part of the repository.  [CJson] lists the operations the program calls;
    [CJsonLaws] states what cJSON.h documents of them, in terms of the JSON value a
    node represents: object members are found by their first case-insensitive match,
    the [value*] members of a node hold its content, and a printed tree parses back
    (for numbers that survive printing).  [ref_json] is an instance, so the laws can
    be met; every component is stated for an arbitrary one. *)

From Stdlib Require Import Ascii String ZArith Lia SpecFloat.
From stdpp Require Import base list numbers strings countable.
From S2P Require Import Prelude CDouble CString.

(** ** JSON values *)

#[warnings="-register-all"]
Inductive jvalue : Type :=
| JNull
| JBool (b : bool)
| JNum (d : double)
| JStr (s : string)
| JArr (l : list jvalue)
| JObj (fields : list (string * jvalue)).

(** The first member of an object with the name, compared without case. *)
Fixpoint jlookup (k : string) (fields : list (string * jvalue)) : option jvalue :=
  match fields with
  | [] => None
  | (k', v) :: fields => if str_case_eq k' k then Some v else jlookup k fields
  end.

(** Every number of the value satisfies [P]. *)
Fixpoint jnumbers (P : double -> Prop) (v : jvalue) : Prop :=
  match v with
  | JNum d => P d
  | JArr l => (fix all (l : list jvalue) : Prop :=
                 match l with [] => True | v :: l => jnumbers P v /\ all l end) l
  | JObj fs => (fix all (fs : list (string * jvalue)) : Prop :=
                  match fs with [] => True | (_, v) :: fs => jnumbers P v /\ all fs end) fs
  | _ => True
  end.

(** ** Operations *)

Class CJson (J : Type) : Type := {
  cJSON_Parse : string -> option J;
  cJSON_Print : J -> option string;
  cJSON_CreateObject : option J;
  cJSON_CreateArray : option J;
  cJSON_AddStringToObject : J -> string -> string -> J;
  cJSON_AddNumberToObject : J -> string -> double -> J;
  cJSON_AddBoolToObject : J -> string -> bool -> J;
  cJSON_AddItemToObject : J -> string -> J -> J;
  cJSON_AddItemToArray : J -> J -> J;
  cJSON_GetObjectItem : J -> string -> option J;
  cJSON_GetArraySize : J -> Z;
  cJSON_GetArrayItem : J -> Z -> option J;
  cJSON_IsNumber : J -> bool;
  cJSON_IsString : J -> bool;
  cJSON_IsTrue : J -> bool;
  cJSON_IsArray : J -> bool;
  cJSON_IsObject : J -> bool;
  valuestring : J -> option string;
  valuedouble : J -> double;
  valueint : J -> Z
}.

(** ** Laws *)

Class CJsonLaws (J : Type) `{CJson J} : Type := {
  (** The value a node represents. *)
  repr : J -> jvalue -> Prop;
  (** The numbers that printing writes with enough digits to be read back. *)
  num_exact : double -> Prop;

  repr_parse s j : cJSON_Parse s = Some j -> exists v, repr j v;
  print_some j v : repr j v -> is_Some (cJSON_Print j);
  parse_print j v s : repr j v -> jnumbers num_exact v -> cJSON_Print j = Some s ->
    exists j', cJSON_Parse s = Some j' /\ repr j' v;
  num_exact_int z : in_int z -> num_exact (d_of_Z z);

  create_object : exists j, cJSON_CreateObject = Some j /\ repr j (JObj []);
  create_array : exists j, cJSON_CreateArray = Some j /\ repr j (JArr []);
  add_string j fs k s : repr j (JObj fs) ->
    repr (cJSON_AddStringToObject j k s) (JObj (fs ++ [(k, JStr s)]));
  add_number j fs k d : repr j (JObj fs) ->
    repr (cJSON_AddNumberToObject j k d) (JObj (fs ++ [(k, JNum d)]));
  add_bool j fs k b : repr j (JObj fs) ->
    repr (cJSON_AddBoolToObject j k b) (JObj (fs ++ [(k, JBool b)]));
  add_item j fs k i v : repr j (JObj fs) -> repr i v ->
    repr (cJSON_AddItemToObject j k i) (JObj (fs ++ [(k, v)]));
  add_array_item j l i v : repr j (JArr l) -> repr i v ->
    repr (cJSON_AddItemToArray j i) (JArr (l ++ [v]));

  get_object_item j fs k : repr j (JObj fs) ->
    match jlookup k fs with
    | Some v => exists i, cJSON_GetObjectItem j k = Some i /\ repr i v
    | None => cJSON_GetObjectItem j k = None
    end;
  get_array_size j l : repr j (JArr l) -> cJSON_GetArraySize j = Z.of_nat (length l);
  get_array_item j l n v : repr j (JArr l) -> l !! n = Some v ->
    exists i, cJSON_GetArrayItem j (Z.of_nat n) = Some i /\ repr i v;

  is_number j v : repr j v -> cJSON_IsNumber j = match v with JNum _ => true | _ => false end;
  is_string j v : repr j v -> cJSON_IsString j = match v with JStr _ => true | _ => false end;
  is_true j v : repr j v -> cJSON_IsTrue j = match v with JBool b => b | _ => false end;
  is_array j v : repr j v -> cJSON_IsArray j = match v with JArr _ => true | _ => false end;
  is_object j v : repr j v -> cJSON_IsObject j = match v with JObj _ => true | _ => false end;
  value_string j v : repr j v -> valuestring j = match v with JStr s => Some s | _ => None end;
  value_double j d : repr j (JNum d) -> valuedouble j = d;
  value_int j z : repr j (JNum (d_of_Z z)) -> in_int z -> valueint j = z;
  value_int_range j : in_int (valueint j);
  value_double_valid s r k j : cJSON_Parse s = Some r -> cJSON_GetObjectItem r k = Some j ->
    valid_binary prec emax (valuedouble j) = true;
  (** A parsed [true] or [false] also carries 1 or 0. *)
  value_int_bool s r k j b : cJSON_Parse s = Some r -> cJSON_GetObjectItem r k = Some j ->
    repr j (JBool b) -> valueint j = if b then 1%Z else 0%Z
}.

(** ** An instance

    Nodes are JSON values; the text of a value is the binary numeral of its code. *)

Module RefJson.

Definition leaf : Type := unit + (bool + (string + (nat * bool * positive * Z))).

Definition double_code (d : double) : nat * bool * positive * Z :=
  match d with
  | S754_zero s => (0%nat, s, 1%positive, 0%Z)
  | S754_infinity s => (1%nat, s, 1%positive, 0%Z)
  | S754_nan => (2%nat, false, 1%positive, 0%Z)
  | S754_finite s m e => (3%nat, s, m, e)
  end.

Definition double_decode (c : nat * bool * positive * Z) : double :=
  match c with
  | (0%nat, s, _, _) => S754_zero s
  | (1%nat, s, _, _) => S754_infinity s
  | (2%nat, _, _, _) => S754_nan
  | (_, s, m, e) => S754_finite s m e
  end.

Fixpoint to_gen (v : jvalue) : gen_tree leaf :=
  match v with
  | JNull => GenLeaf (inl tt)
  | JBool b => GenLeaf (inr (inl b))
  | JStr s => GenLeaf (inr (inr (inl s)))
  | JNum d => GenLeaf (inr (inr (inr (double_code d))))
  | JArr l => GenNode 0 (map to_gen l)
  | JObj fs => GenNode 1 (map (fun f => GenNode 2 [GenLeaf (inr (inr (inl (fst f)))); to_gen (snd f)]) fs)
  end.

Fixpoint of_gen (t : gen_tree leaf) : jvalue :=
  match t with
  | GenLeaf (inl _) => JNull
  | GenLeaf (inr (inl b)) => JBool b
  | GenLeaf (inr (inr (inl s))) => JStr s
  | GenLeaf (inr (inr (inr c))) => JNum (double_decode c)
  | GenNode 0 l => JArr (map of_gen l)
  | GenNode _ l =>
      JObj (map (fun f => match f with
                          | GenNode _ [GenLeaf (inr (inr (inl k))); t] => (k, of_gen t)
                          | _ => (EmptyString, JNull)
                          end) l)
  end.

Fixpoint bits (p : positive) : string :=
  match p with
  | xH => EmptyString
  | xO p => String "0" (bits p)
  | xI p => String "1" (bits p)
  end.

Fixpoint of_bits (s : string) : option positive :=
  match s with
  | EmptyString => Some xH
  | String c s =>
      if Ascii.eqb c "0" then xO <$> of_bits s
      else if Ascii.eqb c "1" then xI <$> of_bits s else None
  end.

(** Every number of the value is a binary64 number. *)
Fixpoint jvalid (v : jvalue) : bool :=
  match v with
  | JNum d => valid_binary prec emax d
  | JArr l => forallb jvalid l
  | JObj fs => forallb (fun f => jvalid (snd f)) fs
  | _ => true
  end.

Definition print (v : jvalue) : string := bits (encode (to_gen v)).
Definition parse (s : string) : option jvalue :=
  match of_bits s with
  | Some p =>
      match of_gen <$> decode p with
      | Some v => if jvalid v then Some v else None
      | None => None
      end
  | None => None
  end.

#[export] Instance ref_json : CJson jvalue := {
  cJSON_Parse := parse;
  cJSON_Print v := Some (print v);
  cJSON_CreateObject := Some (JObj []);
  cJSON_CreateArray := Some (JArr []);
  cJSON_AddStringToObject j k s := match j with JObj fs => JObj (fs ++ [(k, JStr s)]) | _ => j end;
  cJSON_AddNumberToObject j k d := match j with JObj fs => JObj (fs ++ [(k, JNum d)]) | _ => j end;
  cJSON_AddBoolToObject j k b := match j with JObj fs => JObj (fs ++ [(k, JBool b)]) | _ => j end;
  cJSON_AddItemToObject j k i := match j with JObj fs => JObj (fs ++ [(k, i)]) | _ => j end;
  cJSON_AddItemToArray j i := match j with JArr l => JArr (l ++ [i]) | _ => j end;
  cJSON_GetObjectItem j k := match j with JObj fs => jlookup k fs | _ => None end;
  cJSON_GetArraySize j := match j with JArr l => Z.of_nat (length l) | _ => 0%Z end;
  cJSON_GetArrayItem j n := match j with JArr l => if (n <? 0)%Z then None else l !! Z.to_nat n | _ => None end;
  cJSON_IsNumber j := match j with JNum _ => true | _ => false end;
  cJSON_IsString j := match j with JStr _ => true | _ => false end;
  cJSON_IsTrue j := match j with JBool b => b | _ => false end;
  cJSON_IsArray j := match j with JArr _ => true | _ => false end;
  cJSON_IsObject j := match j with JObj _ => true | _ => false end;
  valuestring j := match j with JStr s => Some s | _ => None end;
  valuedouble j := match j with JNum d => d | _ => d_zero end;
  valueint j :=
    match j with
    | JBool b => if b then 1 else 0
    | JNum d => Z.max INT_MIN (Z.min INT_MAX (Z.quot (dval d) (2 ^ 1074)))
    | _ => 0
    end%Z
}.

Lemma jvalue_ind' (P : jvalue -> Prop)
  (Hn : P JNull) (Hb : forall b, P (JBool b)) (Hd : forall d, P (JNum d)) (Hs : forall s, P (JStr s))
  (Ha : forall l, Forall P l -> P (JArr l)) (Ho : forall fs, Forall (fun f => P (snd f)) fs -> P (JObj fs))
  (v : jvalue) : P v.
Proof.
  revert v. fix IH 1. intros [|b|d|s|l|fs]; [exact Hn | apply Hb | apply Hd | apply Hs | apply Ha | apply Ho].
  - induction l as [|v l IHl]; constructor; [apply IH | exact IHl].
  - induction fs as [|[k v] fs IHf]; constructor; [apply IH | exact IHf].
Qed.

Lemma double_decode_code d : double_decode (double_code d) = d.
Proof. now destruct d. Qed.

Lemma of_to_gen v : of_gen (to_gen v) = v.
Proof.
  induction v as [|b|d|s|l IH|fs IH] using jvalue_ind'; cbn; auto.
  - now rewrite double_decode_code.
  - f_equal. induction IH; cbn; congruence.
  - f_equal. induction IH as [|[k v] fs Hv _ IHf]; cbn in *; congruence.
Qed.

Lemma of_bits_bits p : of_bits (bits p) = Some p.
Proof. induction p; cbn; rewrite ?IHp; reflexivity. Qed.

Lemma parse_print_value v : jvalid v = true -> parse (print v) = Some v.
Proof.
  intros Hv. unfold parse, print. rewrite of_bits_bits, decode_encode. cbn. now rewrite of_to_gen, Hv.
Qed.

Lemma jvalid_numbers v : jnumbers (fun d => valid_binary prec emax d = true) v -> jvalid v = true.
Proof.
  induction v as [|b|d|s|l IH|fs IH] using jvalue_ind'; cbn; auto.
  - induction IH as [|v l Hv _ IHl]; [reflexivity |]. intros [H1 H2]. cbn. now rewrite Hv, IHl.
  - induction IH as [|[k v] fs Hv _ IHf]; [reflexivity |]. intros [H1 H2]. cbn in *. now rewrite Hv, IHf.
Qed.

Lemma parse_valid s v : parse s = Some v -> jvalid v = true.
Proof. unfold parse. repeat case_match; congruence. Qed.

Lemma jlookup_valid k fs v : jvalid (JObj fs) = true -> jlookup k fs = Some v -> jvalid v = true.
Proof.
  cbn. induction fs as [|[k' v'] fs IH]; cbn; [discriminate |].
  intros [H1 H2]%andb_true_iff. case_match; [intros [= <-]; exact H1 | auto].
Qed.

Lemma dval_of_Z z : in_int z -> dval (d_of_Z z) = (z * 2 ^ 1074)%Z.
Proof.
  unfold in_int, INT_MIN, INT_MAX. intros Hz. destruct z as [|p|p]; [reflexivity | |].
  - destruct (d_of_Z_exact p ltac:(lia)) as (m & e & -> & Hm & He). cbn [dval cond_Zopp].
    rewrite Hm, <- Z.mul_assoc, <- Z.pow_add_r by lia. do 2 f_equal. lia.
  - assert (E : d_of_Z (Zneg p) = SFopp (d_of_Z (Zpos p))).
    { unfold d_of_Z. cbn [binary_normalize]. destruct (d_of_Z_exact p ltac:(lia)) as (m & e & E & _).
      unfold d_of_Z in E. cbn [binary_normalize] in E. rewrite E. cbn [SFopp negb].
      unfold binary_round in *. destruct (shl_align p 0 _) as [mz ez]. revert E. unfold binary_round_aux.
      repeat (match goal with |- context [let '(_, _) := ?x in _] => destruct x end).
      repeat case_match; intros [= <- <-]; reflexivity. }
    rewrite E, dval_opp. destruct (d_of_Z_exact p ltac:(lia)) as (m & e & -> & Hm & He). cbn [dval cond_Zopp].
    rewrite Hm, <- Z.mul_assoc, <- Z.pow_add_r by lia. replace (- e + (e + 1074))%Z with 1074%Z by lia. lia.
Qed.

(** In this instance a node represents itself. *)
#[export] Instance ref_laws : CJsonLaws jvalue.
Proof.
  refine {| repr j v := j = v; num_exact d := valid_binary prec emax d = true |};
    try (intros; subst; reflexivity).
  - eauto.
  - cbn. eauto.
  - intros j v s -> Hn [= <-]. exists v. split; [|reflexivity]. apply parse_print_value, jvalid_numbers, Hn.
  - intros. apply d_of_Z_valid.
  - cbn. eauto.
  - cbn. eauto.
  - intros j fs k ->. cbn. case_match; eauto.
  - intros j l n v -> Hn. cbn. rewrite (proj2 (Z.ltb_ge _ _)), Nat2Z.id by lia. eauto.
  - intros j z -> Hz. cbn [valueint ref_json]. rewrite (dval_of_Z _ Hz), Z.quot_mul by (vm_compute; discriminate).
    unfold in_int in Hz. lia.
  - intros j. unfold in_int, INT_MIN, INT_MAX. destruct j as [|[]| | | |]; cbn; unfold INT_MIN, INT_MAX; lia.
  - cbn. intros s r k j Hp%parse_valid Hk. destruct r; try discriminate.
    pose proof (jlookup_valid _ _ _ Hp Hk) as Hv. destruct j; try reflexivity. exact Hv.
Defined.

End RefJson.
