(* ===== verification/Protocol.v ===== *)
(** * Protocol messages and their validation
    (src/include/protocol/*.h, src/src/protocol/protocol_validation.c,
    src/src/protocol/protocol_constants.c)

    Message structs keep their [char[n]] members as buffers, because the parser
    fills them with [strncpy] and no terminator; a member is read as a C string
    only where the source reads it so.  Arrays of a snapshot are heap cells that
    may be null, freed or not yet written. *)

From Stdlib Require Import Ascii String ZArith Lia SpecFloat.
From stdpp Require Import base list numbers strings.
From S2P Require Import Prelude CDouble CString.

(** ** Message types *)

Definition MSG_PLACE_ORDER : Z := 1.
Definition MSG_CANCEL_ORDER : Z := 2.
Definition MSG_REQUEST_BOOK : Z := 3.
Definition MSG_SUBSCRIBE_SYMBOL : Z := 4.
Definition MSG_UNSUBSCRIBE_SYMBOL : Z := 5.
Definition MSG_ORDER_ACCEPTED : Z := 101.
Definition MSG_ORDER_REJECTED : Z := 102.
Definition MSG_ORDER_CANCELED : Z := 103.
Definition MSG_TRADE_EXECUTED : Z := 104.
Definition MSG_BOOK_SNAPSHOT : Z := 105.
Definition MSG_SERVER_STATUS : Z := 106.
Definition MSG_ERROR : Z := 107.

(** ** Limits of protocol_constants.h *)

Module Limits.

Definition MAX_SYMBOL_LENGTH : nat := 16.
Definition MAX_ORDER_ID_LENGTH : nat := 32.
Definition MAX_TRADER_ID_LENGTH : nat := 32.
Definition MIN_PRICE : double := d_of_ratio 1 10000.
Definition MAX_PRICE : double := d_of_Z 1000000.
Definition MIN_QUANTITY : Z := 1.
Definition MAX_QUANTITY : Z := 1000000.

End Limits.

Definition VALID_SYMBOLS : list string := ["AAPL"; "GOOG"; "MSFT"; "AMZN"; "TSLA"]%string.

(** ** Structs *)

Record OrderMessage : Type := mkOrderMessage {
  om_symbol : buffer;
  om_order_id : buffer;
  om_trader_id : buffer;
  om_price : double;
  om_quantity : Z;
  om_is_buy : bool
}.

Record TradeMessage : Type := mkTradeMessage {
  tm_symbol : buffer;
  tm_buy_order_id : buffer;
  tm_sell_order_id : buffer;
  tm_price : double;
  tm_quantity : Z;
  tm_timestamp : Z
}.

(** An array on the heap: its cells hold a value once written. *)
Inductive arr (A : Type) : Type :=
| ArrNull
| ArrFreed
| Arr (cells : list (option A)).

Arguments ArrNull {A}.
Arguments ArrFreed {A}.
Arguments Arr {A} cells.

Record BookSnapshot : Type := mkBookSnapshot {
  bs_symbol : buffer;
  bs_num_bids : Z;
  bs_num_asks : Z;
  bs_max_orders : Z;
  bs_bid_prices : arr double;
  bs_bid_quantities : arr Z;
  bs_ask_prices : arr double;
  bs_ask_quantities : arr Z
}.

Record ServerStatus : Type := mkServerStatus {
  ss_is_ready : bool;
  ss_num_connected_clients : Z;
  ss_num_active_orders : Z;
  ss_timestamp : Z
}.

(** [a[i]] as a value and as a target of an assignment. *)
Definition arr_get {A : Type} (a : arr A) (i : nat) : res A :=
  match a with
  | ArrNull => UB NullDeref
  | ArrFreed => UB UseAfterFree
  | Arr cells =>
      match cells !! i with
      | Some (Some x) => Ok x
      | Some None => UB Uninitialised
      | None => UB OutOfBounds
      end
  end.

Definition arr_set {A : Type} (a : arr A) (i : nat) (x : A) : res (arr A) :=
  match a with
  | ArrNull => UB NullDeref
  | ArrFreed => UB UseAfterFree
  | Arr cells => if (i <? length cells)%nat then Ok (Arr (<[i := Some x]> cells)) else UB OutOfBounds
  end.

(** The values of the first [n] cells. *)
Definition arr_values {A : Type} (a : arr A) (n : nat) : option (list A) :=
  match a with
  | Arr cells => if (n <=? length cells)%nat then mapM id (take n cells) else None
  | _ => None
  end.

(** ** Field validation *)

Definition validate_symbol (symbol : option string) : bool :=
  match symbol with
  | None => false
  | Some s =>
      if (strlen s =? 0)%nat || (Limits.MAX_SYMBOL_LENGTH <=? strlen s)%nat then false
      else existsb (str_eq s) VALID_SYMBOLS
  end.

Fixpoint all_chars (f : ascii -> bool) (s : string) : bool :=
  match s with
  | EmptyString => true
  | String c s => if negb (f c) then false else all_chars f s
  end.

Definition order_id_char (c : ascii) : bool := isalnum c || Ascii.eqb c "_" || Ascii.eqb c "-".
Definition trader_id_char (c : ascii) : bool := isalnum c || Ascii.eqb c "_".

Definition validate_order_id (order_id : option string) : bool :=
  match order_id with
  | None => false
  | Some s =>
      if (strlen s =? 0)%nat || (Limits.MAX_ORDER_ID_LENGTH <=? strlen s)%nat then false
      else all_chars order_id_char s
  end.

Definition validate_trader_id (trader_id : option string) : bool :=
  match trader_id with
  | None => false
  | Some s =>
      if (strlen s =? 0)%nat || (Limits.MAX_TRADER_ID_LENGTH <=? strlen s)%nat then false
      else all_chars trader_id_char s
  end.

Definition validate_price (price : double) : bool :=
  if d_lt price Limits.MIN_PRICE || d_gt price Limits.MAX_PRICE then false else true.

Definition validate_quantity (quantity : Z) : bool :=
  if (quantity <? Limits.MIN_QUANTITY)%Z || (Limits.MAX_QUANTITY <? quantity)%Z then false else true.

(** ** Message validation

    [error_msg] is the caller's buffer and [error_size] its length; the result is
    the returned flag and the buffer. *)

Definition validate_order_message (order : option OrderMessage) (error_msg : buffer)
    : res (bool * buffer) :=
  match order with
  | None => Ok (false, strncpy_buf error_msg "Null order message")
  | Some o =>
      order_id ← c_str (om_order_id o);
      if negb (validate_order_id (Some order_id))
      then Ok (false, snprintf_buf error_msg ("Invalid order ID: " +:+ order_id))
      else
        trader_id ← c_str (om_trader_id o);
        if negb (validate_trader_id (Some trader_id))
        then Ok (false, snprintf_buf error_msg ("Invalid trader ID: " +:+ trader_id))
        else
          symbol ← c_str (om_symbol o);
          if negb (validate_symbol (Some symbol))
          then Ok (false, snprintf_buf error_msg ("Invalid symbol: " +:+ symbol))
          else if negb (validate_price (om_price o))
          then Ok (false, snprintf_buf error_msg ("Invalid price: " +:+ print_double2 (om_price o)))
          else if negb (validate_quantity (om_quantity o))
          then Ok (false, snprintf_buf error_msg ("Invalid quantity: " +:+ print_int (om_quantity o)))
          else Ok (true, error_msg)
  end.

Definition validate_trade_message (trade : option TradeMessage) (error_msg : buffer)
    : res (bool * buffer) :=
  match trade with
  | None => Ok (false, strncpy_buf error_msg "Null trade message")
  | Some t =>
      symbol ← c_str (tm_symbol t);
      if negb (validate_symbol (Some symbol))
      then Ok (false, snprintf_buf error_msg ("Invalid symbol: " +:+ symbol))
      else
        buy ← c_str (tm_buy_order_id t);
        if negb (validate_order_id (Some buy))
        then Ok (false, snprintf_buf error_msg ("Invalid buy order ID: " +:+ buy))
        else
          sell ← c_str (tm_sell_order_id t);
          if negb (validate_order_id (Some sell))
          then Ok (false, snprintf_buf error_msg ("Invalid sell order ID: " +:+ sell))
          else if negb (validate_price (tm_price t))
          then Ok (false, snprintf_buf error_msg ("Invalid price: " +:+ print_double2 (tm_price t)))
          else if negb (validate_quantity (tm_quantity t))
          then Ok (false, snprintf_buf error_msg ("Invalid quantity: " +:+ print_int (tm_quantity t)))
          else Ok (true, error_msg)
  end.

(** One of the two loops of [validate_book_snapshot], from index [i] for [n] rounds:
    the error text of the first level that fails. *)
Fixpoint validate_levels (side : string) (prices : arr double) (quantities : arr Z) (i n : nat)
    : res (option string) :=
  match n with
  | O => Ok None
  | S n =>
      price ← arr_get prices i;
      quantity ← arr_get quantities i;
      if negb (validate_price price) || negb (validate_quantity quantity)
      then Ok (Some ("Invalid " +:+ side +:+ ": price=" +:+ print_double2 price +:+
                     ", quantity=" +:+ print_int quantity))
      else validate_levels side prices quantities (S i) n
  end.

Definition validate_book_snapshot (snapshot : option BookSnapshot) (error_msg : buffer)
    : res (bool * buffer) :=
  match snapshot with
  | None => Ok (false, strncpy_buf error_msg "Null book snapshot")
  | Some s =>
      symbol ← c_str (bs_symbol s);
      if negb (validate_symbol (Some symbol))
      then Ok (false, snprintf_buf error_msg ("Invalid symbol: " +:+ symbol))
      else if (bs_num_bids s <? 0)%Z || (bs_num_asks s <? 0)%Z
      then Ok (false, snprintf_buf error_msg ("Invalid number of orders: bids=" +:+
                 print_int (bs_num_bids s) +:+ ", asks=" +:+ print_int (bs_num_asks s)))
      else
        bad_bid ← validate_levels "bid" (bs_bid_prices s) (bs_bid_quantities s) 0 (Z.to_nat (bs_num_bids s));
        match (bad_bid : option string) with
        | Some e => Ok (false, snprintf_buf error_msg e)
        | None =>
            bad_ask ← validate_levels "ask" (bs_ask_prices s) (bs_ask_quantities s) 0 (Z.to_nat (bs_num_asks s));
            match (bad_ask : option string) with
            | Some e => Ok (false, snprintf_buf error_msg e)
            | None => Ok (true, error_msg)
            end
        end
  end.

Definition validate_server_status (status : option ServerStatus) (error_msg : buffer)
    : bool * buffer :=
  match status with
  | None => (false, strncpy_buf error_msg "Null server status")
  | Some s =>
      if (ss_num_connected_clients s <? 0)%Z
      then (false, snprintf_buf error_msg ("Invalid client count: " +:+ print_int (ss_num_connected_clients s)))
      else if (ss_num_active_orders s <? 0)%Z
      then (false, snprintf_buf error_msg ("Invalid order count: " +:+ print_int (ss_num_active_orders s)))
      else (true, error_msg)
  end.

(** ** What the fields must be *)

Definition id_spec (f : ascii -> bool) (limit : nat) (s : string) : Prop :=
  (0 < strlen s < limit)%nat /\ Forall (fun c => f c = true) (chars s).

(** In units of the last place: between 0.0001 and 1000000, or not a number. *)
Definition price_spec (p : double) : Prop :=
  d_is_nan p = true \/ (dval Limits.MIN_PRICE <= dval p <= dval Limits.MAX_PRICE)%Z.

Definition quantity_spec (q : Z) : Prop := (1 <= q <= 1000000)%Z.

Definition order_spec (symbol order_id trader_id : string) (price : double) (quantity : Z) : Prop :=
  id_spec order_id_char 32 order_id /\ id_spec trader_id_char 32 trader_id /\
  symbol ∈ VALID_SYMBOLS /\ price_spec price /\ quantity_spec quantity.

(** ** Lemmas *)

Lemma all_chars_spec f s : all_chars f s = true <-> Forall (fun c => f c = true) (chars s).
Proof.
  induction s as [|c s IH]; cbn; [rewrite Forall_nil; tauto |]. rewrite Forall_cons, <- IH.
  destruct (f c); cbn; intuition congruence.
Qed.

Lemma length_guard n limit (b : bool) :
  (if (n =? 0)%nat || (limit <=? n)%nat then false else b) = true <-> (0 < n < limit)%nat /\ b = true.
Proof. destruct (Nat.eqb_spec n 0), (Nat.leb_spec limit n); cbn; intuition (try discriminate; try lia). Qed.

Lemma validate_order_id_spec s :
  validate_order_id (Some s) = true <-> id_spec order_id_char 32 s.
Proof. unfold validate_order_id, id_spec. now rewrite length_guard, all_chars_spec. Qed.

Lemma validate_trader_id_spec s :
  validate_trader_id (Some s) = true <-> id_spec trader_id_char 32 s.
Proof. unfold validate_trader_id, id_spec. now rewrite length_guard, all_chars_spec. Qed.

Lemma validate_symbol_spec s : validate_symbol (Some s) = true <-> s ∈ VALID_SYMBOLS.
Proof.
  unfold validate_symbol. rewrite length_guard, existsb_exists, list_elem_of_In. split.
  - intros (_ & x & Hx & ->%str_eq_spec). exact Hx.
  - intros Hs. split; [|exists s; split; [exact Hs | now apply str_eq_spec]].
    unfold Limits.MAX_SYMBOL_LENGTH. cbn in Hs. intuition (subst; cbn; lia).
Qed.

Lemma validate_price_spec p :
  valid_binary prec emax p = true -> validate_price p = true <-> price_spec p.
Proof.
  intros Hv. unfold validate_price, price_spec. destruct (d_is_nan p) eqn:Hn.
  { destruct p; try discriminate. cbn. tauto. }
  assert (Hp : d_ok p) by (split; assumption).
  assert (d_ok Limits.MIN_PRICE) by by_decide. assert (d_ok Limits.MAX_PRICE) by by_decide.
  rewrite d_lt_dval, d_gt_dval by assumption. generalize (dval Limits.MIN_PRICE), (dval Limits.MAX_PRICE).
  intros lo hi. destruct (Z.ltb_spec (dval p) lo), (Z.ltb_spec hi (dval p)); cbn;
    intuition (try discriminate; try lia).
Qed.

Lemma validate_quantity_spec q : validate_quantity q = true <-> quantity_spec q.
Proof.
  unfold validate_quantity, quantity_spec, Limits.MIN_QUANTITY, Limits.MAX_QUANTITY.
  destruct (Z.ltb_spec q 1), (Z.ltb_spec 1000000 q); cbn; intuition (try discriminate; try lia).
Qed.

Lemma arr_values_lookup {A : Type} (a : arr A) n l i x :
  arr_values a n = Some l -> l !! i = Some x -> arr_get a i = Ok x.
Proof.
  destruct a as [| |cells]; try discriminate. cbn. case_match; [|discriminate].
  intros Hm Hi. assert (Hc : take n cells !! i = Some (Some x)).
  { apply mapM_Some_1 in Hm. destruct (Forall2_lookup_r _ _ _ _ _ Hm Hi) as (c & Hc & Hid). now rewrite Hc, <- Hid. }
  rewrite lookup_take_Some in Hc. now destruct Hc as [-> _].
Qed.

Definition level_spec (pq : double * Z) : Prop := price_spec (fst pq) /\ quantity_spec (snd pq).

Lemma validate_levels_spec side prices quantities ps qs i :
  Forall (fun p => valid_binary prec emax p = true) ps -> length ps = length qs ->
  (forall k p, ps !! k = Some p -> arr_get prices (i + k) = Ok p) ->
  (forall k q, qs !! k = Some q -> arr_get quantities (i + k) = Ok q) ->
  exists e, validate_levels side prices quantities i (length ps) = Ok e /\
    (e = None <-> Forall level_spec (zip ps qs)).
Proof.
  intros Hv. revert qs i. induction Hv as [|p ps Hp Hps IH]; intros [|q qs] i Hl Gp Gq; try discriminate.
  { exists None. cbn. split; [reflexivity |]. split; [constructor | reflexivity]. }
  cbn [length validate_levels zip zip_with]. pose proof (Gp 0%nat p eq_refl) as E1.
  pose proof (Gq 0%nat q eq_refl) as E2. rewrite Nat.add_0_r in E1, E2. rewrite E1, E2. cbn [mbind res_bind].
  assert (HF : Forall level_spec ((p, q) :: zip ps qs) <->
    (validate_price p = true /\ validate_quantity q = true) /\ Forall level_spec (zip ps qs)).
  { rewrite Forall_cons, (validate_price_spec p Hp), validate_quantity_spec. reflexivity. }
  destruct (validate_price p), (validate_quantity q); cbn [negb orb];
    try (eexists; split; [reflexivity |]; rewrite HF; intuition discriminate).
  destruct (IH qs (S i)) as (e & -> & He).
  - now injection Hl.
  - intros k x Hk. replace (S i + k)%nat with (i + S k)%nat by lia. now apply Gp.
  - intros k x Hk. replace (S i + k)%nat with (i + S k)%nat by lia. now apply Gq.
  - exists e. split; [reflexivity |]. rewrite HF, He. tauto.
Qed.

(** ** Properties *)

(** C32: validation of an order message whose strings are terminated accepts exactly
    the messages the protocol's limits allow: ids of 1 to 31 characters from their
    alphabets, one of the five symbols, a quantity from 1 to 1000000 and a price from
    0.0001 to 1000000, or a price that is not a number; an accepted message leaves the
    error buffer alone, and no input makes it crash. *)
Theorem validate_order_message_correct m error_msg symbol order_id trader_id :
  c_str (om_symbol m) = Ok symbol -> c_str (om_order_id m) = Ok order_id ->
  c_str (om_trader_id m) = Ok trader_id -> valid_binary prec emax (om_price m) = true ->
  exists ok err, validate_order_message (Some m) error_msg = Ok (ok, err) /\
    length err = length error_msg /\
    (ok = true <-> order_spec symbol order_id trader_id (om_price m) (om_quantity m)) /\
    (ok = true -> err = error_msg).
Proof.
  intros Hs Ho Ht Hp. cbn [validate_order_message]. rewrite Ho, Ht, Hs. cbn [mbind res_bind].
  assert (HS : order_spec symbol order_id trader_id (om_price m) (om_quantity m) <->
    validate_order_id (Some order_id) = true /\ validate_trader_id (Some trader_id) = true /\
    validate_symbol (Some symbol) = true /\ validate_price (om_price m) = true /\
    validate_quantity (om_quantity m) = true).
  { unfold order_spec. now rewrite validate_order_id_spec, validate_trader_id_spec, validate_symbol_spec,
      (validate_price_spec _ Hp), validate_quantity_spec. }
  destruct (validate_order_id (Some order_id)), (validate_trader_id (Some trader_id)),
    (validate_symbol (Some symbol)), (validate_price (om_price m)), (validate_quantity (om_quantity m)); cbn [negb];
    eexists _, _; (split; [reflexivity |]); rewrite HS, ?length_snprintf_buf; intuition congruence.
Qed.

Definition sample_message : OrderMessage :=
  mkOrderMessage (strncpy_buf (zero_buffer 16) "AAPL") (strncpy_buf (zero_buffer 32) "ORD-1")
    (strncpy_buf (zero_buffer 32) "T_1") (d_of_ratio 15025 100) 100 true.

Lemma validate_order_message_correct_witness :
  exists ok err, validate_order_message (Some sample_message) (zero_buffer 8) = Ok (ok, err) /\
    length err = 8%nat /\
    (ok = true <-> order_spec "AAPL" "ORD-1" "T_1" (d_of_ratio 15025 100) 100) /\
    (ok = true -> err = zero_buffer 8).
Proof. apply (validate_order_message_correct sample_message (zero_buffer 8)); vm_compute; reflexivity. Defined.

(** Validation of a snapshot whose arrays hold as many values as it announces
    accepts exactly the snapshots of a valid symbol in which every bid and every ask
    has a valid price and a valid quantity. *)
Theorem validate_book_snapshot_correct s error_msg symbol bp bq ap aq :
  c_str (bs_symbol s) = Ok symbol -> (0 <= bs_num_bids s)%Z -> (0 <= bs_num_asks s)%Z ->
  arr_values (bs_bid_prices s) (Z.to_nat (bs_num_bids s)) = Some bp ->
  arr_values (bs_bid_quantities s) (Z.to_nat (bs_num_bids s)) = Some bq ->
  arr_values (bs_ask_prices s) (Z.to_nat (bs_num_asks s)) = Some ap ->
  arr_values (bs_ask_quantities s) (Z.to_nat (bs_num_asks s)) = Some aq ->
  Forall (fun p => valid_binary prec emax p = true) bp -> Forall (fun p => valid_binary prec emax p = true) ap ->
  exists ok err, validate_book_snapshot (Some s) error_msg = Ok (ok, err) /\
    (ok = true <-> symbol ∈ VALID_SYMBOLS /\ Forall level_spec (zip bp bq) /\ Forall level_spec (zip ap aq)).
Proof.
  intros Hs Hb Ha Ebp Ebq Eap Eaq Vb Va. cbn [validate_book_snapshot]. rewrite Hs. cbn [mbind res_bind].
  pose proof (validate_symbol_spec symbol) as HS. destruct (validate_symbol (Some symbol)); cbn [negb].
  2: { eexists _, _. split; [reflexivity |]. rewrite <- HS. intuition discriminate. }
  rewrite (proj2 (Z.ltb_ge _ _) Hb), (proj2 (Z.ltb_ge _ _) Ha). cbn [orb].
  assert (Hlen : forall (A : Type) (a : arr A) n l, arr_values a n = Some l -> length l = n).
  { clear. intros A [| |cells] n l; try discriminate. cbn. destruct (Nat.leb_spec n (length cells)); [|discriminate].
    intros E%length_mapM. rewrite length_take in E. lia. }
  destruct (validate_levels_spec "bid" (bs_bid_prices s) (bs_bid_quantities s) bp bq 0 Vb) as (e1 & E1 & H1);
    eauto using arr_values_lookup. { now rewrite (Hlen _ _ _ _ Ebp), (Hlen _ _ _ _ Ebq). }
  destruct (validate_levels_spec "ask" (bs_ask_prices s) (bs_ask_quantities s) ap aq 0 Va) as (e2 & E2 & H2);
    eauto using arr_values_lookup. { now rewrite (Hlen _ _ _ _ Eap), (Hlen _ _ _ _ Eaq). }
  rewrite <- (Hlen _ _ _ _ Ebp), E1. cbn [mbind res_bind].
  destruct e1; [eexists _, _; split; [reflexivity | rewrite <- H1; intuition discriminate] |].
  rewrite <- (Hlen _ _ _ _ Eap), E2. cbn [mbind res_bind].
  destruct e2; eexists _, _; (split; [reflexivity | rewrite <- HS, <- H1, <- H2; intuition discriminate]).
Qed.

Definition sample_snapshot : BookSnapshot :=
  mkBookSnapshot (strncpy_buf (zero_buffer 16) "MSFT") 1 1 2
    (Arr [Some (d_of_Z 99); None]) (Arr [Some 10%Z; None])
    (Arr [Some (d_of_Z 101); None]) (Arr [Some 0%Z; None]).

Lemma validate_book_snapshot_correct_witness :
  exists ok err, validate_book_snapshot (Some sample_snapshot) (zero_buffer 64) = Ok (ok, err) /\
    (ok = true <-> "MSFT"%string ∈ VALID_SYMBOLS /\
       Forall level_spec [(d_of_Z 99, 10%Z)] /\ Forall level_spec [(d_of_Z 101, 0%Z)]).
Proof.
  apply (validate_book_snapshot_correct sample_snapshot (zero_buffer 64) "MSFT" [d_of_Z 99] [10%Z] [d_of_Z 101] [0%Z]);
    try reflexivity; try (cbn; lia); by_decide.
Defined.
