(* ===== verification/JsonProtocol.v ===== *)
(** * Messages to and from JSON text (src/src/protocol/json_protocol.c)

    Stated for an arbitrary [CJson].  A [cJSON*] that may be [NULL] is an
    [option J]; cJSON's functions accept [NULL] and then do nothing or return
    [NULL].  A parser writes into the struct its caller passes, so it takes the
    struct's previous contents. *)

From Stdlib Require Import Ascii String ZArith Lia SpecFloat.
From stdpp Require Import base list numbers strings.
From S2P Require Import Prelude CDouble CString CJson Protocol.

Section JsonProtocol.

Context {J : Type} `{CJ : CJson J}.

(** ** cJSON calls on a possibly null node *)

Definition add_string_to (o : option J) (k s : string) : option J :=
  (fun j => cJSON_AddStringToObject j k s) <$> o.
Definition add_number_to (o : option J) (k : string) (d : double) : option J :=
  (fun j => cJSON_AddNumberToObject j k d) <$> o.
Definition add_bool_to (o : option J) (k : string) (b : bool) : option J :=
  (fun j => cJSON_AddBoolToObject j k b) <$> o.
Definition add_item_to (o : option J) (k : string) (i : option J) : option J :=
  match o, i with
  | Some j, Some i => Some (cJSON_AddItemToObject j k i)
  | _, _ => o
  end.
Definition add_to_array (o i : option J) : option J :=
  match o, i with
  | Some j, Some i => Some (cJSON_AddItemToArray j i)
  | _, _ => o
  end.
Definition print_node (o : option J) : option string :=
  match o with Some j => cJSON_Print j | None => None end.
Definition get_item (o : option J) (k : string) : option J :=
  match o with Some j => cJSON_GetObjectItem j k | None => None end.

Definition present (o : option J) : bool := match o with Some _ => true | None => false end.

(** ** parse_base_message: the type written to [*type], or [None] for [false] *)

Definition parse_base_message (json : option string) : option Z :=
  match json with
  | None => None
  | Some text =>
      match cJSON_Parse text with
      | None => None
      | Some root =>
          let by_content :=
            if present (cJSON_GetObjectItem root "symbol") && present (cJSON_GetObjectItem root "bids")
               && present (cJSON_GetObjectItem root "asks")
            then Some MSG_BOOK_SNAPSHOT
            else if present (cJSON_GetObjectItem root "Trade Details") then Some MSG_ORDER_ACCEPTED
            else None in
          match cJSON_GetObjectItem root "type" with
          | Some t => if cJSON_IsNumber t then Some (valueint t) else by_content
          | None => by_content
          end
      end
  end.

(** ** Serialisation; [last_error] is the module's static buffer *)

Definition serialize_order_message (order : option OrderMessage) (last_error : buffer)
    : res (option string * buffer) :=
  match order with
  | None => Ok (None, strncpy_buf last_error "Null order message")
  | Some o =>
      match cJSON_CreateObject with
      | None => Ok (None, last_error)
      | Some root =>
          order_id ← c_str (om_order_id o);
          trader_id ← c_str (om_trader_id o);
          symbol ← c_str (om_symbol o);
          let root := add_string_to (Some root) "order_id" order_id in
          let root := add_string_to root "trader_id" trader_id in
          let root := add_string_to root "symbol" symbol in
          let root := add_number_to root "price" (om_price o) in
          let root := add_number_to root "quantity" (d_of_Z (om_quantity o)) in
          let root := add_bool_to root "is_buy" (om_is_buy o) in
          Ok (print_node root, last_error)
      end
  end.

Definition serialize_trade_message (trade : option TradeMessage) (last_error : buffer)
    : res (option string * buffer) :=
  match trade with
  | None => Ok (None, strncpy_buf last_error "Null trade message")
  | Some t =>
      symbol ← c_str (tm_symbol t);
      buy ← c_str (tm_buy_order_id t);
      sell ← c_str (tm_sell_order_id t);
      let root := cJSON_CreateObject in
      let root := add_string_to root "symbol" symbol in
      let root := add_string_to root "buy_order_id" buy in
      let root := add_string_to root "sell_order_id" sell in
      let root := add_number_to root "price" (tm_price t) in
      let root := add_number_to root "quantity" (d_of_Z (tm_quantity t)) in
      let root := add_number_to root "timestamp" (d_of_Z (tm_timestamp t)) in
      Ok (print_node root, last_error)
  end.

(** One of the two loops that add the levels [i .. i + n - 1] to an array. *)
Fixpoint add_levels (prices : arr double) (quantities : arr Z) (array : option J) (i n : nat)
    : res (option J) :=
  match n with
  | O => Ok array
  | S n =>
      price ← arr_get prices i;
      quantity ← arr_get quantities i;
      let level := cJSON_CreateObject in
      let level := add_number_to level "price" price in
      let level := add_number_to level "quantity" (d_of_Z quantity) in
      add_levels prices quantities (add_to_array array level) (S i) n
  end.

Definition serialize_book_snapshot (snapshot : option BookSnapshot) : res (option string) :=
  match snapshot with
  | None => Ok None
  | Some s =>
      symbol ← c_str (bs_symbol s);
      let root := add_string_to cJSON_CreateObject "symbol" symbol in
      bids ← add_levels (bs_bid_prices s) (bs_bid_quantities s) cJSON_CreateArray 0 (Z.to_nat (bs_num_bids s));
      asks ← add_levels (bs_ask_prices s) (bs_ask_quantities s) cJSON_CreateArray 0 (Z.to_nat (bs_num_asks s));
      let root := add_item_to root "bids" bids in
      let root := add_item_to root "asks" asks in
      Ok (print_node root)
  end.

(** ** Parsing *)

(** [strncpy(dst, item->valuestring, sizeof(dst) - 1)]. *)
Definition copy_value (dst : buffer) (item : J) : res buffer :=
  s ← deref (valuestring item); strncpy dst s (length dst - 1).

Definition parse_order_message (json : option string) (order : option OrderMessage)
    : res (bool * option OrderMessage) :=
  match json, order with
  | Some text, Some o =>
      match cJSON_Parse text with
      | None => Ok (false, order)
      | Some root =>
          match cJSON_GetObjectItem root "order_id", cJSON_GetObjectItem root "trader_id",
                cJSON_GetObjectItem root "symbol", cJSON_GetObjectItem root "price",
                cJSON_GetObjectItem root "quantity", cJSON_GetObjectItem root "is_buy" with
          | Some order_id, Some trader_id, Some symbol, Some price, Some quantity, Some is_buy =>
              oid ← copy_value (om_order_id o) order_id;
              tid ← copy_value (om_trader_id o) trader_id;
              sym ← copy_value (om_symbol o) symbol;
              Ok (true, Some (mkOrderMessage sym oid tid (valuedouble price) (valueint quantity)
                                (cJSON_IsTrue is_buy)))
          | _, _, _, _, _, _ => Ok (false, order)
          end
      end
  | _, _ => Ok (false, order)
  end.

Definition parse_trade_message (json : option string) (trade : option TradeMessage)
    : res (bool * option TradeMessage) :=
  match json, trade with
  | Some text, Some t =>
      match cJSON_Parse text with
      | None => Ok (false, trade)
      | Some root =>
          match cJSON_GetObjectItem root "symbol", cJSON_GetObjectItem root "buy_order_id",
                cJSON_GetObjectItem root "sell_order_id", cJSON_GetObjectItem root "price",
                cJSON_GetObjectItem root "quantity", cJSON_GetObjectItem root "timestamp" with
          | Some symbol, Some buy, Some sell, Some price, Some quantity, Some timestamp =>
              sym ← copy_value (tm_symbol t) symbol;
              b ← copy_value (tm_buy_order_id t) buy;
              s ← copy_value (tm_sell_order_id t) sell;
              ts ← d_to_int64 (valuedouble timestamp);
              Ok (true, Some (mkTradeMessage sym b s (valuedouble price) (valueint quantity) ts))
          | _, _, _, _, _, _ => Ok (false, trade)
          end
      end
  | _, _ => Ok (false, trade)
  end.

(** One of the two loops that read the levels [i .. i + n - 1] of an array. *)
Fixpoint read_levels (items : J) (prices : arr double) (quantities : arr Z) (i n : nat)
    : res (arr double * arr Z) :=
  match n with
  | O => Ok (prices, quantities)
  | S n =>
      let level := cJSON_GetArrayItem items (Z.of_nat i) in
      match get_item level "price", get_item level "quantity" with
      | Some price, Some quantity =>
          prices ← arr_set prices i (valuedouble price);
          quantities ← arr_set quantities i (valueint quantity);
          read_levels items prices quantities (S i) n
      | _, _ => read_levels items prices quantities (S i) n
      end
  end.

(** An array of [n] cells just allocated. *)
Definition new_arr {A : Type} (n : Z) : arr A := Arr (replicate (Z.to_nat n) None).

(** [alloc_ok] says whether the four allocations succeed. *)
Definition parse_book_snapshot (alloc_ok : bool) (json : option string) (snapshot : option BookSnapshot)
    : res (bool * option BookSnapshot) :=
  match json, snapshot with
  | Some text, Some s =>
      match cJSON_Parse text with
      | None => Ok (false, snapshot)
      | Some root =>
          match cJSON_GetObjectItem root "symbol", cJSON_GetObjectItem root "bids",
                cJSON_GetObjectItem root "asks" with
          | Some symbol, Some bids, Some asks =>
              if negb (cJSON_IsArray bids) || negb (cJSON_IsArray asks) then Ok (false, snapshot)
              else
                sym ← copy_value (bs_symbol s) symbol;
                let nb := cJSON_GetArraySize bids in
                let na := cJSON_GetArraySize asks in
                if negb alloc_ok then
                  Ok (false, Some (mkBookSnapshot sym nb na (bs_max_orders s)
                                     ArrFreed ArrFreed ArrFreed ArrFreed))
                else
                  '(bp, bq) ← read_levels bids (new_arr nb) (new_arr nb) 0 (Z.to_nat nb);
                  '(ap, aq) ← read_levels asks (new_arr na) (new_arr na) 0 (Z.to_nat na);
                  Ok (true, Some (mkBookSnapshot sym nb na (bs_max_orders s) bp bq ap aq))
          | _, _, _ => Ok (false, snapshot)
          end
      end
  | _, _ => Ok (false, snapshot)
  end.

Definition get_last_protocol_error (last_error : buffer) : res string := c_str last_error.

(** ** The messages as JSON values *)

Definition order_fields (order_id trader_id symbol : string) (price : double) (quantity : Z) (is_buy : bool)
    : list (string * jvalue) :=
  [("order_id", JStr order_id); ("trader_id", JStr trader_id); ("symbol", JStr symbol);
   ("price", JNum price); ("quantity", JNum (d_of_Z quantity)); ("is_buy", JBool is_buy)]%string.

Definition order_json (order_id trader_id symbol : string) (price : double) (quantity : Z) (is_buy : bool)
    : jvalue := JObj (order_fields order_id trader_id symbol price quantity is_buy).

Definition trade_json (symbol buy sell : string) (price : double) (quantity timestamp : Z) : jvalue :=
  JObj [("symbol", JStr symbol); ("buy_order_id", JStr buy); ("sell_order_id", JStr sell);
        ("price", JNum price); ("quantity", JNum (d_of_Z quantity));
        ("timestamp", JNum (d_of_Z timestamp))]%string.

Definition level_json (pq : double * Z) : jvalue :=
  JObj [("price", JNum (fst pq)); ("quantity", JNum (d_of_Z (snd pq)))]%string.

Definition snapshot_json (symbol : string) (bids asks : list (double * Z)) : jvalue :=
  JObj [("symbol", JStr symbol); ("bids", JArr (map level_json bids)); ("asks", JArr (map level_json asks))]%string.

(** The members of an order request, among others such as its type. *)
Definition order_members (fs : list (string * jvalue)) (order_id trader_id symbol : string) (price : double)
    (quantity : Z) (is_buy : bool) : Prop :=
  jlookup "order_id" fs = Some (JStr order_id) /\ jlookup "trader_id" fs = Some (JStr trader_id) /\
  jlookup "symbol" fs = Some (JStr symbol) /\ jlookup "price" fs = Some (JNum price) /\
  jlookup "quantity" fs = Some (JNum (d_of_Z quantity)) /\ jlookup "is_buy" fs = Some (JBool is_buy).

(** The members of a trade message, among others such as its type. *)
Definition trade_members (fs : list (string * jvalue)) (symbol buy sell : string) (price : double)
    (quantity timestamp : Z) : Prop :=
  jlookup "symbol" fs = Some (JStr symbol) /\ jlookup "buy_order_id" fs = Some (JStr buy) /\
  jlookup "sell_order_id" fs = Some (JStr sell) /\ jlookup "price" fs = Some (JNum price) /\
  jlookup "quantity" fs = Some (JNum (d_of_Z quantity)) /\ jlookup "timestamp" fs = Some (JNum (d_of_Z timestamp)).

(** What [parse_base_message] makes of an object: an explicit numeric type wins, then
    the shape of a snapshot, then that of an acceptance. *)
Definition base_type (fs : list (string * jvalue)) (explicit : Z) : option Z :=
  match jlookup "type" fs with
  | Some (JNum _) => Some explicit
  | _ =>
      if bool_decide (is_Some (jlookup "symbol" fs) /\ is_Some (jlookup "bids" fs) /\ is_Some (jlookup "asks" fs))
      then Some MSG_BOOK_SNAPSHOT
      else if bool_decide (is_Some (jlookup "Trade Details" fs)) then Some MSG_ORDER_ACCEPTED
      else None
  end.

(** ** Lemmas *)

Context `{CL : !CJsonLaws J}.

Lemma get_found j fs k v :
  repr j (JObj fs) -> jlookup k fs = Some v -> exists i, cJSON_GetObjectItem j k = Some i /\ repr i v.
Proof. intros Hj Hk. pose proof (get_object_item j fs k Hj) as H. now rewrite Hk in H. Qed.

Lemma get_present j fs k :
  repr j (JObj fs) -> present (cJSON_GetObjectItem j k) = bool_decide (is_Some (jlookup k fs)).
Proof.
  intros Hj. pose proof (get_object_item j fs k Hj) as H. destruct (jlookup k fs).
  - destruct H as (i & -> & _). reflexivity.
  - now rewrite H.
Qed.

Lemma copy_value_str dst i s :
  repr i (JStr s) -> copy_value dst i = Ok (strncpy_fill dst s (length dst - 1)).
Proof. intros Hi. unfold copy_value. rewrite (value_string _ _ Hi). apply strncpy_ok. lia. Qed.

Lemma c_str_copied dst s :
  nul_free s = true -> (strlen s < length dst - 1)%nat -> c_str (strncpy_fill dst s (length dst - 1)) = Ok s.
Proof. intros. apply c_str_strncpy; auto. lia. Qed.

Lemma parse_printed j v :
  repr j v -> jnumbers num_exact v ->
  exists s j', print_node (Some j) = Some s /\ cJSON_Parse s = Some j' /\ repr j' v.
Proof.
  intros Hj Hn. destruct (print_some j v Hj) as [s Hs]. destruct (parse_print j v s Hj Hn Hs) as (j' & Hp & Hj').
  eauto.
Qed.

(** What a parsed order message reads, from the members of its text. *)
Lemma parse_order_members text j fs oid tid sym price q buy dst :
  cJSON_Parse text = Some j -> repr j (JObj fs) -> order_members fs oid tid sym price q buy -> in_int q ->
  parse_order_message (Some text) (Some dst) =
  Ok (true, Some (mkOrderMessage
    (strncpy_fill (om_symbol dst) sym (length (om_symbol dst) - 1))
    (strncpy_fill (om_order_id dst) oid (length (om_order_id dst) - 1))
    (strncpy_fill (om_trader_id dst) tid (length (om_trader_id dst) - 1)) price q buy)).
Proof.
  intros Hp Hj (M1 & M2 & M3 & M4 & M5 & M6) Hq. cbn [parse_order_message]. rewrite Hp.
  destruct (get_found _ _ _ _ Hj M1) as (i1 & -> & H1). destruct (get_found _ _ _ _ Hj M2) as (i2 & -> & H2).
  destruct (get_found _ _ _ _ Hj M3) as (i3 & -> & H3). destruct (get_found _ _ _ _ Hj M4) as (i4 & -> & H4).
  destruct (get_found _ _ _ _ Hj M5) as (i5 & -> & H5). destruct (get_found _ _ _ _ Hj M6) as (i6 & -> & H6).
  rewrite (copy_value_str _ _ _ H1), (copy_value_str _ _ _ H2), (copy_value_str _ _ _ H3). cbn [mbind res_bind].
  now rewrite (value_double _ _ H4), (value_int _ _ H5 Hq), (is_true _ _ H6).
Qed.

Lemma order_fields_members oid tid sym price q buy :
  order_members (order_fields oid tid sym price q buy) oid tid sym price q buy.
Proof. repeat split. Qed.

Lemma serialize_order_json m oid tid sym le :
  c_str (om_order_id m) = Ok oid -> c_str (om_trader_id m) = Ok tid -> c_str (om_symbol m) = Ok sym ->
  exists j, repr j (order_json oid tid sym (om_price m) (om_quantity m) (om_is_buy m)) /\
    serialize_order_message (Some m) le = Ok (print_node (Some j), le).
Proof.
  intros H1 H2 H3. destruct create_object as (r & Hr & R). cbn [serialize_order_message]. rewrite Hr, H1, H2, H3.
  cbn [mbind res_bind]. eexists. split; [|reflexivity].
  apply (add_string _ _ "order_id" oid) in R. apply (add_string _ _ "trader_id" tid) in R.
  apply (add_string _ _ "symbol" sym) in R. apply (add_number _ _ "price" (om_price m)) in R.
  apply (add_number _ _ "quantity" (d_of_Z (om_quantity m))) in R. apply (add_bool _ _ "is_buy" (om_is_buy m)) in R.
  exact R.
Qed.

Lemma parse_trade_members text j fs sym buy sell price q ts dst :
  cJSON_Parse text = Some j -> repr j (JObj fs) -> trade_members fs sym buy sell price q ts ->
  in_int q -> (0 <= ts < 2 ^ 53)%Z ->
  parse_trade_message (Some text) (Some dst) =
  Ok (true, Some (mkTradeMessage
    (strncpy_fill (tm_symbol dst) sym (length (tm_symbol dst) - 1))
    (strncpy_fill (tm_buy_order_id dst) buy (length (tm_buy_order_id dst) - 1))
    (strncpy_fill (tm_sell_order_id dst) sell (length (tm_sell_order_id dst) - 1)) price q ts)).
Proof.
  intros Hp Hj (M1 & M2 & M3 & M4 & M5 & M6) Hq Hts. cbn [parse_trade_message]. rewrite Hp.
  destruct (get_found _ _ "symbol" _ Hj M1) as (i1 & -> & H1).
  destruct (get_found _ _ "buy_order_id" _ Hj M2) as (i2 & -> & H2).
  destruct (get_found _ _ "sell_order_id" _ Hj M3) as (i3 & -> & H3).
  destruct (get_found _ _ "price" _ Hj M4) as (i4 & -> & H4).
  destruct (get_found _ _ "quantity" _ Hj M5) as (i5 & -> & H5).
  destruct (get_found _ _ "timestamp" _ Hj M6) as (i6 & -> & H6).
  rewrite (copy_value_str _ _ _ H1), (copy_value_str _ _ _ H2), (copy_value_str _ _ _ H3). cbn [mbind res_bind].
  rewrite (value_double _ _ H6), (d_to_int64_of_Z ts Hts). cbn [mbind res_bind].
  now rewrite (value_double _ _ H4), (value_int _ _ H5 Hq).
Qed.

Lemma serialize_trade_json t sym buy sell le :
  c_str (tm_symbol t) = Ok sym -> c_str (tm_buy_order_id t) = Ok buy -> c_str (tm_sell_order_id t) = Ok sell ->
  exists j, repr j (trade_json sym buy sell (tm_price t) (tm_quantity t) (tm_timestamp t)) /\
    serialize_trade_message (Some t) le = Ok (print_node (Some j), le).
Proof.
  intros H1 H2 H3. destruct create_object as (r & Hr & R). cbn [serialize_trade_message]. rewrite H1, H2, H3.
  cbn [mbind res_bind]. rewrite Hr. eexists. split; [|reflexivity].
  apply (add_string _ _ "symbol" sym) in R. apply (add_string _ _ "buy_order_id" buy) in R.
  apply (add_string _ _ "sell_order_id" sell) in R. apply (add_number _ _ "price" (tm_price t)) in R.
  apply (add_number _ _ "quantity" (d_of_Z (tm_quantity t))) in R.
  apply (add_number _ _ "timestamp" (d_of_Z (tm_timestamp t))) in R. exact R.
Qed.

(** The serialising loop appends one object per level. *)
Lemma add_levels_repr prices quantities lv a l i :
  repr a (JArr l) ->
  (forall k pq, lv !! k = Some pq -> arr_get prices (i + k) = Ok (fst pq) /\ arr_get quantities (i + k) = Ok (snd pq)) ->
  exists a', add_levels prices quantities (Some a) i (length lv) = Ok (Some a') /\
    repr a' (JArr (l ++ map level_json lv)).
Proof.
  revert a l i. induction lv as [|[p q] lv IH]; intros a l i Ha Hg.
  { exists a. cbn. rewrite app_nil_r. auto. }
  cbn [length add_levels]. destruct (Hg 0%nat _ eq_refl) as [E1 E2]. rewrite Nat.add_0_r in E1, E2.
  rewrite E1, E2. cbn [mbind res_bind fst snd]. destruct create_object as (r & -> & R).
  apply (add_number _ _ "price" p) in R. apply (add_number _ _ "quantity" (d_of_Z q)) in R.
  destruct (IH _ _ (S i) (add_array_item _ _ _ _ Ha R)) as (a' & E & H').
  { intros k pq Hk. replace (S i + k)%nat with (i + S k)%nat by lia. now apply Hg. }
  exists a'. split; [exact E |]. now rewrite <- app_assoc in H'.
Qed.

(** The parsing loop fills the cells from the objects of the array. *)
Lemma read_levels_repr items pre lv :
  repr items (JArr (map level_json (pre ++ lv))) -> Forall (fun pq => in_int (snd pq)) lv ->
  read_levels items (Arr (map (fun pq => Some (fst pq)) pre ++ replicate (length lv) None))
    (Arr (map (fun pq => Some (snd pq)) pre ++ replicate (length lv) None)) (length pre) (length lv) =
  Ok (Arr (map (fun pq => Some (fst pq)) (pre ++ lv)), Arr (map (fun pq => Some (snd pq)) (pre ++ lv))).
Proof.
  intros Hi Hq. revert pre Hi. induction Hq as [|[p q] lv Hq Hqs IH]; intros pre Hi.
  { cbn. now rewrite !app_nil_r. }
  cbn [length read_levels]. destruct (get_array_item _ _ (length pre) (level_json (p, q)) Hi) as (i & -> & Hp).
  { change (map level_json (pre ++ (p, q) :: lv)) with (level_json <$> (pre ++ (p, q) :: lv)).
    now rewrite list_lookup_fmap, list_lookup_middle. }
  cbn [get_item]. destruct (get_found _ _ "price" (JNum p) Hp eq_refl) as (ip & -> & H1).
  destruct (get_found _ _ "quantity" (JNum (d_of_Z q)) Hp eq_refl) as (iq & -> & H2).
  rewrite (value_double _ _ H1), (value_int _ _ H2 Hq). cbn [arr_set].
  rewrite !length_app, !length_map, !length_replicate, (proj2 (Nat.ltb_lt _ _)) by lia. cbn [mbind res_bind replicate].
  rewrite !insert_app_r_alt, !length_map, Nat.sub_diag by (rewrite length_map; lia). cbn [insert list_insert].
  specialize (IH (pre ++ [(p, q)])). rewrite <- app_assoc in IH. specialize (IH Hi).
  rewrite !map_app, <- !app_assoc, length_app in IH. cbn in IH. rewrite Nat.add_1_r in IH.
  rewrite IH. now rewrite !map_app.
Qed.

Lemma serialize_snapshot_json s sym bids asks :
  c_str (bs_symbol s) = Ok sym ->
  length bids = Z.to_nat (bs_num_bids s) -> length asks = Z.to_nat (bs_num_asks s) ->
  (forall k pq, bids !! k = Some pq ->
     arr_get (bs_bid_prices s) k = Ok (fst pq) /\ arr_get (bs_bid_quantities s) k = Ok (snd pq)) ->
  (forall k pq, asks !! k = Some pq ->
     arr_get (bs_ask_prices s) k = Ok (fst pq) /\ arr_get (bs_ask_quantities s) k = Ok (snd pq)) ->
  exists j, repr j (snapshot_json sym bids asks) /\ serialize_book_snapshot (Some s) = Ok (print_node (Some j)).
Proof.
  intros Hs Lb La Gb Ga. destruct create_object as (r & Hr & R). destruct create_array as (a & Ha & A).
  destruct (add_levels_repr (bs_bid_prices s) (bs_bid_quantities s) bids a [] 0 A Gb) as (b' & Eb & Rb).
  destruct (add_levels_repr (bs_ask_prices s) (bs_ask_quantities s) asks a [] 0 A Ga) as (a' & Ea & Ra).
  cbn [serialize_book_snapshot]. rewrite Hs, Hr, Ha, <- Lb, <- La. cbn [mbind res_bind]. rewrite Eb.
  cbn [mbind res_bind]. rewrite Ea. cbn [mbind res_bind]. eexists. split; [|reflexivity].
  apply (add_string _ _ "symbol" sym) in R. apply (add_item _ _ "bids" _ _ R) in Rb.
  exact (add_item _ _ "asks" _ _ Rb Ra).
Qed.

Lemma parse_snapshot_json text j sym bids asks dst :
  cJSON_Parse text = Some j -> repr j (snapshot_json sym bids asks) ->
  Forall (fun pq => in_int (snd pq)) (bids ++ asks) ->
  parse_book_snapshot true (Some text) (Some dst) =
  Ok (true, Some (mkBookSnapshot (strncpy_fill (bs_symbol dst) sym (length (bs_symbol dst) - 1))
    (Z.of_nat (length bids)) (Z.of_nat (length asks)) (bs_max_orders dst)
    (Arr (map (fun pq => Some (fst pq)) bids)) (Arr (map (fun pq => Some (snd pq)) bids))
    (Arr (map (fun pq => Some (fst pq)) asks)) (Arr (map (fun pq => Some (snd pq)) asks)))).
Proof.
  intros Hp Hj [Hb Ha]%Forall_app. cbn [parse_book_snapshot]. rewrite Hp.
  destruct (get_found _ _ "symbol" (JStr sym) Hj eq_refl) as (i1 & -> & H1).
  destruct (get_found _ _ "bids" (JArr (map level_json bids)) Hj eq_refl) as (i2 & -> & H2).
  destruct (get_found _ _ "asks" (JArr (map level_json asks)) Hj eq_refl) as (i3 & -> & H3).
  rewrite (is_array _ _ H2), (is_array _ _ H3), (copy_value_str _ _ _ H1). cbn [negb orb mbind res_bind].
  rewrite (get_array_size _ _ H2), (get_array_size _ _ H3), !length_map. unfold new_arr. rewrite !Nat2Z.id.
  pose proof (read_levels_repr i2 [] bids H2 Hb) as E2. pose proof (read_levels_repr i3 [] asks H3 Ha) as E3.
  cbn [map app length] in E2, E3. rewrite E2. cbn [mbind res_bind]. rewrite E3. reflexivity.
Qed.

Lemma jnumbers_levels P lv :
  Forall (fun pq => P (fst pq) /\ P (d_of_Z (snd pq))) lv -> jnumbers P (JArr (map level_json lv)).
Proof. cbn. induction 1 as [|pq lv [] _ IH]; cbn in *; tauto. Qed.

(** Cells that are all written hold their values. *)
Lemma cells_values {A : Type} (f : double * Z -> A) lv :
  arr_values (Arr (map (fun pq => Some (f pq)) lv)) (length lv) = Some (map f lv).
Proof.
  cbn. rewrite length_map, Nat.leb_refl, firstn_all2 by (rewrite length_map; lia).
  induction lv as [|x lv IH]; cbn; [reflexivity |]. now rewrite IH.
Qed.

Lemma level_cells lv ap aq k (pq : double * Z) :
  arr_values ap (length lv) = Some (map fst lv) -> arr_values aq (length lv) = Some (map snd lv) ->
  lv !! k = Some pq -> arr_get ap k = Ok (fst pq) /\ arr_get aq k = Ok (snd pq).
Proof.
  intros H1 H2 Hk. split; (eapply arr_values_lookup; [eassumption |]);
    [change (map fst lv) with (fst <$> lv) | change (map snd lv) with (snd <$> lv)];
    now rewrite list_lookup_fmap, Hk.
Qed.

(** The text of a snapshot whose levels are written, and what it parses to. *)
Lemma snapshot_text s sym bids asks :
  c_str (bs_symbol s) = Ok sym ->
  bs_num_bids s = Z.of_nat (length bids) -> bs_num_asks s = Z.of_nat (length asks) ->
  arr_values (bs_bid_prices s) (length bids) = Some (map fst bids) ->
  arr_values (bs_bid_quantities s) (length bids) = Some (map snd bids) ->
  arr_values (bs_ask_prices s) (length asks) = Some (map fst asks) ->
  arr_values (bs_ask_quantities s) (length asks) = Some (map snd asks) ->
  Forall (fun pq => num_exact (fst pq) /\ in_int (snd pq)) (bids ++ asks) ->
  exists text j, serialize_book_snapshot (Some s) = Ok (Some text) /\ cJSON_Parse text = Some j /\
    repr j (snapshot_json sym bids asks).
Proof.
  intros Hs Nb Na V1 V2 V3 V4 [HFb HFa]%Forall_app.
  destruct (serialize_snapshot_json s sym bids asks Hs) as (j & Hj & ->); try lia; eauto using level_cells.
  assert (HN : forall lv, Forall (fun pq => num_exact (fst pq) /\ in_int (snd pq)) lv ->
    jnumbers num_exact (JArr (map level_json lv))).
  { intros lv H. apply jnumbers_levels. eapply Forall_impl; [exact H |]. intros pq []. auto using num_exact_int. }
  destruct (parse_printed j _ Hj) as (text & j' & -> & Hp & Hj').
  { pose proof (HN _ HFb). pose proof (HN _ HFa). cbn in *. tauto. }
  eauto.
Qed.

Lemma base_message_spec text j fs z :
  cJSON_Parse text = Some j -> repr j (JObj fs) -> in_int z ->
  (forall d, jlookup "type" fs = Some (JNum d) -> d = d_of_Z z) ->
  parse_base_message (Some text) = base_type fs z.
Proof.
  intros Hp Hj Hz Ht. cbn [parse_base_message]. rewrite Hp, !(get_present _ _ _ Hj).
  pose proof (get_object_item _ _ "type" Hj) as Hg. unfold base_type. rewrite !bool_decide_and.
  rewrite andb_assoc. destruct (jlookup "type" fs) as [v|].
  - destruct Hg as (i & -> & Hi). rewrite (is_number _ _ Hi). destruct v; try reflexivity.
    rewrite (Ht d eq_refl) in Hi. now rewrite (value_int _ _ Hi Hz).
  - now rewrite Hg.
Qed.

Lemma snapshot_base_type text j sym bids asks :
  cJSON_Parse text = Some j -> repr j (snapshot_json sym bids asks) ->
  parse_base_message (Some text) = Some MSG_BOOK_SNAPSHOT.
Proof. intros Hp Hj. rewrite (base_message_spec text j _ 0 Hp Hj); [reflexivity | split; vm_compute; discriminate | discriminate]. Qed.

(** ** Properties *)

(** C20: an order message whose strings leave room for a terminator survives the trip
    through JSON: serialising it and parsing the text into any struct of the right size,
    whatever it held, gives back the strings, price, quantity and side. *)
Theorem order_message_roundtrip m dst oid tid sym le :
  c_str (om_order_id m) = Ok oid -> c_str (om_trader_id m) = Ok tid -> c_str (om_symbol m) = Ok sym ->
  (strlen oid < length (om_order_id dst) - 1)%nat -> (strlen tid < length (om_trader_id dst) - 1)%nat ->
  (strlen sym < length (om_symbol dst) - 1)%nat -> in_int (om_quantity m) -> num_exact (om_price m) ->
  exists text m', serialize_order_message (Some m) le = Ok (Some text, le) /\
    parse_order_message (Some text) (Some dst) = Ok (true, Some m') /\
    c_str (om_order_id m') = Ok oid /\ c_str (om_trader_id m') = Ok tid /\ c_str (om_symbol m') = Ok sym /\
    om_price m' = om_price m /\ om_quantity m' = om_quantity m /\ om_is_buy m' = om_is_buy m.
Proof.
  intros H1 H2 H3 L1 L2 L3 Hq Hn. destruct (serialize_order_json m _ _ _ le H1 H2 H3) as (j & Hj & ->).
  destruct (parse_printed j _ Hj) as (text & j' & -> & Hp & Hj'). { cbn. split_and!; auto using num_exact_int. }
  exists text. rewrite (parse_order_members _ _ _ _ _ _ _ _ _ dst Hp Hj' (order_fields_members _ _ _ _ _ _) Hq). eexists.
  split_and!; cbn; eauto using c_str_copied, c_str_nul_free.
Qed.

(** A trade message survives the trip through JSON likewise, timestamps up to 2^53
    included (a later one is rounded to a double on the way). *)
Theorem trade_message_roundtrip t dst sym buy sell le :
  c_str (tm_symbol t) = Ok sym -> c_str (tm_buy_order_id t) = Ok buy -> c_str (tm_sell_order_id t) = Ok sell ->
  (strlen sym < length (tm_symbol dst) - 1)%nat -> (strlen buy < length (tm_buy_order_id dst) - 1)%nat ->
  (strlen sell < length (tm_sell_order_id dst) - 1)%nat -> in_int (tm_quantity t) ->
  (0 <= tm_timestamp t < 2 ^ 53)%Z -> num_exact (tm_price t) -> num_exact (d_of_Z (tm_timestamp t)) ->
  exists text t', serialize_trade_message (Some t) le = Ok (Some text, le) /\
    parse_trade_message (Some text) (Some dst) = Ok (true, Some t') /\
    c_str (tm_symbol t') = Ok sym /\ c_str (tm_buy_order_id t') = Ok buy /\ c_str (tm_sell_order_id t') = Ok sell /\
    tm_price t' = tm_price t /\ tm_quantity t' = tm_quantity t /\ tm_timestamp t' = tm_timestamp t.
Proof.
  intros H1 H2 H3 L1 L2 L3 Hq Hts Hn Hn'. destruct (serialize_trade_json t _ _ _ le H1 H2 H3) as (j & Hj & ->).
  destruct (parse_printed j _ Hj) as (text & j' & -> & Hp & Hj'). { cbn. split_and!; auto using num_exact_int. }
  exists text. rewrite (parse_trade_members text j' _ sym buy sell (tm_price t) (tm_quantity t) (tm_timestamp t) dst Hp Hj' ltac:(now split_and!) Hq Hts). eexists.
  split_and!; cbn; eauto using c_str_copied, c_str_nul_free.
Qed.

(** C21: a snapshot whose levels are written survives the trip through JSON: the text
    parses back to the same symbol, counts and levels, in order, and
    [parse_base_message] recognises the text as a book snapshot. *)
Theorem book_snapshot_roundtrip s dst sym bids asks :
  c_str (bs_symbol s) = Ok sym -> (strlen sym < length (bs_symbol dst) - 1)%nat ->
  bs_num_bids s = Z.of_nat (length bids) -> bs_num_asks s = Z.of_nat (length asks) ->
  arr_values (bs_bid_prices s) (length bids) = Some (map fst bids) ->
  arr_values (bs_bid_quantities s) (length bids) = Some (map snd bids) ->
  arr_values (bs_ask_prices s) (length asks) = Some (map fst asks) ->
  arr_values (bs_ask_quantities s) (length asks) = Some (map snd asks) ->
  Forall (fun pq => num_exact (fst pq) /\ in_int (snd pq)) (bids ++ asks) ->
  exists text s', serialize_book_snapshot (Some s) = Ok (Some text) /\
    parse_base_message (Some text) = Some MSG_BOOK_SNAPSHOT /\
    parse_book_snapshot true (Some text) (Some dst) = Ok (true, Some s') /\
    c_str (bs_symbol s') = Ok sym /\ bs_num_bids s' = bs_num_bids s /\ bs_num_asks s' = bs_num_asks s /\
    arr_values (bs_bid_prices s') (length bids) = Some (map fst bids) /\
    arr_values (bs_bid_quantities s') (length bids) = Some (map snd bids) /\
    arr_values (bs_ask_prices s') (length asks) = Some (map fst asks) /\
    arr_values (bs_ask_quantities s') (length asks) = Some (map snd asks).
Proof.
  intros Hs Hl Nb Na V1 V2 V3 V4 HF.
  destruct (snapshot_text s sym bids asks) as (text & j' & -> & Hp & Hj'); auto.
  exists text. erewrite parse_snapshot_json; eauto.
  2: { eapply Forall_impl; [exact HF |]. now intros pq []. }
  eexists. split_and!; cbn [bs_symbol bs_num_bids bs_num_asks bs_bid_prices bs_bid_quantities bs_ask_prices bs_ask_quantities];
    eauto using c_str_copied, c_str_nul_free, cells_values, snapshot_base_type.
Qed.

(** On the text of any object, the message type is an explicit numeric [type] if
    there is one, else 105 for an object with [symbol], [bids] and [asks], else 101 for
    one with [Trade Details], else none; text that is not JSON has none. *)
Theorem parse_base_message_correct text j fs z :
  cJSON_Parse text = Some j -> repr j (JObj fs) -> in_int z ->
  (forall d, jlookup "type" fs = Some (JNum d) -> d = d_of_Z z) ->
  parse_base_message (Some text) = base_type fs z.
Proof. apply base_message_spec. Qed.

Definition is_jstring (v : option jvalue) : bool := match v with Some (JStr _) => true | _ => false end.

(** A C array that holds a JSON string, when the string leaves room for a terminator. *)
Definition holds (b : buffer) (v : option jvalue) : Prop :=
  forall s, v = Some (JStr s) -> nul_free s = true -> (strlen s < length b - 1)%nat -> c_str b = Ok s.

(** A struct filled from the members of an object. *)
Definition filled_from (fs : list (string * jvalue)) (m : OrderMessage) : Prop :=
  holds (om_order_id m) (jlookup "order_id" fs) /\ holds (om_trader_id m) (jlookup "trader_id" fs) /\
  holds (om_symbol m) (jlookup "symbol" fs) /\
  (forall d, jlookup "price" fs = Some (JNum d) -> om_price m = d) /\
  (forall z, jlookup "quantity" fs = Some (JNum (d_of_Z z)) -> in_int z -> om_quantity m = z) /\
  (om_is_buy m = true <-> jlookup "is_buy" fs = Some (JBool true)).

Lemma copy_value_cases dst item v :
  repr item v ->
  match v with
  | JStr x => copy_value dst item = Ok (strncpy_fill dst x (length dst - 1))
  | _ => copy_value dst item = UB NullDeref
  end.
Proof.
  intros Hi. pose proof (value_string _ _ Hi) as E. unfold copy_value.
  destruct v; rewrite E; cbn; try reflexivity. apply strncpy_ok. lia.
Qed.

Lemma holds_copied dst x : holds (strncpy_fill dst x (length dst - 1)) (Some (JStr x)).
Proof. intros s [= <-] Hf. rewrite length_strncpy. now apply c_str_copied. Qed.

(** C37: what parsing an order does with any JSON object at all: if one of the six members is
    missing the message is refused and the struct is left alone; if all are there and the
    ids and the symbol are strings it is accepted and the struct holds the members (the
    strings that fit, the price and quantity if they are numbers, and as side "buy" only
    for the literal true); and if all are there but an id or the symbol is no string, the
    parser, which does not check, dereferences null. *)
Theorem parse_order_outcome text j fs dst :
  cJSON_Parse text = Some j -> repr j (JObj fs) ->
  if negb (forallb (fun k => bool_decide (is_Some (jlookup k fs)))
             ["order_id"; "trader_id"; "symbol"; "price"; "quantity"; "is_buy"]%string)
  then parse_order_message (Some text) (Some dst) = Ok (false, Some dst)
  else if forallb (fun k => is_jstring (jlookup k fs)) ["order_id"; "trader_id"; "symbol"]%string
  then exists m, parse_order_message (Some text) (Some dst) = Ok (true, Some m) /\ filled_from fs m
  else parse_order_message (Some text) (Some dst) = UB NullDeref.
Proof.
  intros Hp Hj. cbn [parse_order_message forallb]. rewrite Hp. unfold filled_from.
  pose proof (get_object_item j fs "order_id" Hj) as G1. pose proof (get_object_item j fs "trader_id" Hj) as G2.
  pose proof (get_object_item j fs "symbol" Hj) as G3. pose proof (get_object_item j fs "price" Hj) as G4.
  pose proof (get_object_item j fs "quantity" Hj) as G5. pose proof (get_object_item j fs "is_buy" Hj) as G6.
  destruct (jlookup "order_id" fs) as [v1|]; [destruct G1 as (i1 & -> & R1) | rewrite G1; reflexivity].
  destruct (jlookup "trader_id" fs) as [v2|]; [destruct G2 as (i2 & -> & R2) | rewrite G2; reflexivity].
  destruct (jlookup "symbol" fs) as [v3|]; [destruct G3 as (i3 & -> & R3) | rewrite G3; reflexivity].
  destruct (jlookup "price" fs) as [v4|]; [destruct G4 as (i4 & -> & R4) | rewrite G4; reflexivity].
  destruct (jlookup "quantity" fs) as [v5|]; [destruct G5 as (i5 & -> & R5) | rewrite G5; reflexivity].
  destruct (jlookup "is_buy" fs) as [v6|]; [destruct G6 as (i6 & -> & R6) | rewrite G6; reflexivity].
  rewrite !bool_decide_eq_true_2 by eauto. cbn [andb negb].
  pose proof (copy_value_cases (om_order_id dst) _ _ R1) as C1. pose proof (copy_value_cases (om_trader_id dst) _ _ R2) as C2.
  pose proof (copy_value_cases (om_symbol dst) _ _ R3) as C3.
  destruct v1; cbn [is_jstring andb]; try (rewrite C1; reflexivity). rewrite C1. cbn [mbind res_bind].
  destruct v2; cbn [is_jstring andb]; try (rewrite C2; reflexivity). rewrite C2. cbn [mbind res_bind].
  destruct v3; cbn [is_jstring andb]; try (rewrite C3; reflexivity). rewrite C3. cbn [mbind res_bind].
  eexists. split; [reflexivity |]. cbn [om_order_id om_trader_id om_symbol om_price om_quantity om_is_buy].
  split_and!; auto using holds_copied.
  - intros d [= ->]. now apply value_double.
  - intros z [= ->] Hz. now apply value_int.
  - rewrite (is_true _ _ R6). destruct v6 as [|[]| | | |]; split; congruence.
Qed.

(** An order whose symbol fills the array is accepted but left without a
    terminator: parsing one with a symbol of 15 or more characters into a struct whose
    last symbol byte is not zero succeeds, and reading the symbol runs off the array. *)
Theorem long_symbol_unterminated text j fs oid tid sym price q buy dst pre c :
  cJSON_Parse text = Some j -> repr j (JObj fs) -> order_members fs oid tid sym price q buy -> in_int q ->
  nul_free sym = true -> om_symbol dst = pre ++ [c] -> (length pre <= strlen sym)%nat -> Ascii.eqb c NUL = false ->
  exists m, parse_order_message (Some text) (Some dst) = Ok (true, Some m) /\
    c_str (om_symbol m) = UB Unterminated.
Proof.
  intros Hp Hj Hm Hq Hf Hd Hl Hc. rewrite (parse_order_members _ _ _ _ _ _ _ _ _ dst Hp Hj Hm Hq).
  eexists. split; [reflexivity |]. cbn [om_symbol]. rewrite Hd, length_app. cbn [length].
  rewrite Nat.add_sub. now apply c_str_strncpy_full.
Qed.

End JsonProtocol.

(** ** Witnesses, on the reference instance of cJSON *)

Import RefJson.

(** A struct on the stack that held other data. *)
Definition dirty (n : nat) : buffer := replicate n "x"%char.
Definition dirty_order : OrderMessage := mkOrderMessage (dirty 16) (dirty 32) (dirty 32) d_zero 0 false.
Definition dirty_trade : TradeMessage := mkTradeMessage (dirty 16) (dirty 32) (dirty 32) d_zero 0 0.
Definition dirty_snapshot : BookSnapshot := mkBookSnapshot (dirty 16) 7 7 7 ArrNull ArrNull ArrNull ArrNull.

Definition sample_trade_message : TradeMessage :=
  mkTradeMessage (strncpy_buf (zero_buffer 16) "AAPL") (strncpy_buf (zero_buffer 32) "B1")
    (strncpy_buf (zero_buffer 32) "S1") (d_of_ratio 15025 100) 100 1700000000.

Lemma order_message_roundtrip_witness :
  exists text m', serialize_order_message (J := jvalue) (Some sample_message) [] = Ok (Some text, []) /\
    parse_order_message (J := jvalue) (Some text) (Some dirty_order) = Ok (true, Some m') /\
    c_str (om_order_id m') = Ok "ORD-1"%string /\ c_str (om_trader_id m') = Ok "T_1"%string /\
    c_str (om_symbol m') = Ok "AAPL"%string /\
    om_price m' = d_of_ratio 15025 100 /\ om_quantity m' = 100%Z /\ om_is_buy m' = true.
Proof.
  apply (order_message_roundtrip sample_message dirty_order); try reflexivity; try (vm_compute; lia).
  split; vm_compute; discriminate.
Defined.

Lemma trade_message_roundtrip_witness :
  exists text t', serialize_trade_message (J := jvalue) (Some sample_trade_message) [] = Ok (Some text, []) /\
    parse_trade_message (J := jvalue) (Some text) (Some dirty_trade) = Ok (true, Some t') /\
    c_str (tm_symbol t') = Ok "AAPL"%string /\ c_str (tm_buy_order_id t') = Ok "B1"%string /\
    c_str (tm_sell_order_id t') = Ok "S1"%string /\
    tm_price t' = d_of_ratio 15025 100 /\ tm_quantity t' = 100%Z /\ tm_timestamp t' = 1700000000%Z.
Proof.
  apply (trade_message_roundtrip sample_trade_message dirty_trade); try reflexivity; try (vm_compute; lia).
  all: split; vm_compute; congruence.
Defined.

Lemma book_snapshot_roundtrip_witness :
  exists text s', serialize_book_snapshot (J := jvalue) (Some sample_snapshot) = Ok (Some text) /\
    parse_base_message (J := jvalue) (Some text) = Some MSG_BOOK_SNAPSHOT /\
    parse_book_snapshot (J := jvalue) true (Some text) (Some dirty_snapshot) = Ok (true, Some s') /\
    c_str (bs_symbol s') = Ok "MSFT"%string /\ bs_num_bids s' = 1%Z /\ bs_num_asks s' = 1%Z /\
    arr_values (bs_bid_prices s') 1 = Some [d_of_Z 99] /\ arr_values (bs_bid_quantities s') 1 = Some [10%Z] /\
    arr_values (bs_ask_prices s') 1 = Some [d_of_Z 101] /\ arr_values (bs_ask_quantities s') 1 = Some [0%Z].
Proof.
  refine (book_snapshot_roundtrip (J := jvalue) sample_snapshot dirty_snapshot "MSFT" [(d_of_Z 99, 10%Z)]
    [(d_of_Z 101, 0%Z)] eq_refl _ eq_refl eq_refl eq_refl eq_refl eq_refl eq_refl _); [vm_compute; lia |].
  repeat constructor; try reflexivity; vm_compute; discriminate.
Defined.

Lemma parse_base_message_correct_witness :
  parse_base_message (J := jvalue) (Some (print (JObj [("type", JNum (d_of_Z 3))]%string))) = Some 3%Z.
Proof.
  apply (parse_base_message_correct _ (JObj [("type", JNum (d_of_Z 3))]%string) [("type", JNum (d_of_Z 3))]%string 3);
    [vm_compute; reflexivity | reflexivity | split; vm_compute; discriminate |].
  intros d [= <-]. reflexivity.
Defined.

Lemma long_symbol_unterminated_witness :
  exists m, parse_order_message (J := jvalue)
      (Some (print (order_json "A" "T" "ABCDEFGHIJKLMNOP" d_zero 1 true))) (Some dirty_order) = Ok (true, Some m) /\
    c_str (om_symbol m) = UB Unterminated.
Proof.
  apply (long_symbol_unterminated _ (order_json "A" "T" "ABCDEFGHIJKLMNOP" d_zero 1 true)
           (order_fields "A" "T" "ABCDEFGHIJKLMNOP" d_zero 1 true) "A" "T" "ABCDEFGHIJKLMNOP" d_zero 1 true dirty_order (dirty 15) "x"%char);
    [vm_compute; reflexivity | reflexivity | apply order_fields_members | split; vm_compute; discriminate
    | reflexivity | reflexivity | vm_compute; lia | reflexivity].
Defined.

(** A request whose order id is a number. *)
Definition untyped_request : list (string * jvalue) :=
  [("type", JNum (d_of_Z 1)); ("order_id", JNum (d_of_Z 5)); ("trader_id", JStr "T1"); ("symbol", JStr "AAPL");
   ("price", JNum (d_of_Z 150)); ("quantity", JNum (d_of_Z 10)); ("is_buy", JBool true)]%string.

Lemma parse_order_outcome_witness :
  parse_order_message (J := jvalue) (Some (print (JObj untyped_request))) (Some dirty_order) = UB NullDeref.
Proof.
  assert (E : cJSON_Parse (J := jvalue) (print (JObj untyped_request)) = Some (JObj untyped_request)) by (vm_compute; reflexivity).
  exact (parse_order_outcome (J := jvalue) (print (JObj untyped_request)) (JObj untyped_request) untyped_request dirty_order E eq_refl).
Defined.
