(* ===== verification/WsServer.v ===== *)
(** * The WebSocket server (src/src/server/ws_server.c) and the text of a trade
    notification (src/src/trading_engine/trade_broadcaster.c)

    libwebsockets is not part of the repository: [Lws] lists what the program asks of
    it, on a world [W] that also holds the state the server's callbacks work on.
    The service thread calls [callback_trading] for every event of a connection, so an
    event is one call of it. *)

From Stdlib Require Import Ascii String ZArith Lia SpecFloat.
From stdpp Require Import base list numbers strings gmap.
From S2P Require Import Prelude CDouble CString CJson Protocol Order AvlTree OrderBook JsonProtocol.

(** A [WSClient*] that is not null: the per-connection data libwebsockets allocates. *)
Definition client := positive.

(** The library: [lws_write] hands text to a connection and returns the number of bytes
    taken, or a negative number; [lws_clients] are the connections of the protocol, for
    which [lws_callback_all_protocol] calls back; [lws_name] is the connection's address
    as [%p] prints it. *)
Class Lws (W : Type) : Type := {
  lws_write : client -> string -> W -> Z * W;
  lws_clients : W -> list client;
  lws_name : client -> string
}.

Inductive lws_reason : Type :=
| LWS_CALLBACK_PROTOCOL_INIT
| LWS_CALLBACK_ESTABLISHED
| LWS_CALLBACK_CLOSED
| LWS_CALLBACK_RECEIVE
| LWS_CALLBACK_SERVER_WRITEABLE
| LWS_CALLBACK_OTHER.

#[export] Instance lws_reason_eq_dec : EqDecision lws_reason.
Proof. solve_decision. Defined.

Record WSServerConfig : Type := mkWSServerConfig {
  wc_host : string;
  wc_port : Z;
  wc_max_clients : Z;
  wc_ping_interval_ms : Z;
  wc_status_interval_ms : Z
}.

Record WSClientInfo : Type := mkWSClientInfo {
  ci_client_id : string;
  ci_connect_time : Z;
  ci_last_ping_time : Z
}.

Section WsServer.

Context {W : Type} `{L : Lws W}.

(** A callback runs on the world; its [user_data] is the location it was registered with. *)
Definition connect_callback : Type := client -> option loc -> W -> res W.
Definition message_callback : Type := client -> string -> option loc -> W -> res W.

Record WSServer : Type := mkWSServer {
  ws_config : WSServerConfig;
  connect_cb : option connect_callback;
  disconnect_cb : option connect_callback;
  message_cb : option message_callback;
  user_data : option loc;
  ws_running : bool;
  broadcast_buf : option string;
  ws_infos : gmap client WSClientInfo
}.

(** [context_ok]: [lws_create_context] returned a context. *)
Definition ws_server_create (calloc_ok context_ok : bool) (config : WSServerConfig) : option WSServer :=
  if negb calloc_ok then None
  else if negb context_ok then None
  else Some (mkWSServer config None None None None false None ∅).

Definition with_running (s : WSServer) (r : bool) : WSServer :=
  mkWSServer (ws_config s) (connect_cb s) (disconnect_cb s) (message_cb s) (user_data s) r
    (broadcast_buf s) (ws_infos s).
Definition with_broadcast (s : WSServer) (b : option string) : WSServer :=
  mkWSServer (ws_config s) (connect_cb s) (disconnect_cb s) (message_cb s) (user_data s) (ws_running s) b (ws_infos s).
Definition with_info (s : WSServer) (c : client) (i : WSClientInfo) : WSServer :=
  mkWSServer (ws_config s) (connect_cb s) (disconnect_cb s) (message_cb s) (user_data s) (ws_running s)
    (broadcast_buf s) (<[c := i]> (ws_infos s)).

(** Starting and stopping the service thread. *)
Definition ws_server_start (thread_ok : bool) (server : option WSServer) : Z * option WSServer :=
  match server with
  | None => ((-1)%Z, None)
  | Some s => if thread_ok then (0%Z, Some (with_running s true)) else ((-1)%Z, Some (with_running s false))
  end.

Definition ws_server_stop (server : option WSServer) : option WSServer :=
  match server with
  | None => None
  | Some s => if negb (ws_running s) then server else Some (with_running s false)
  end.

Definition ws_server_set_connect_callback (server : option WSServer) (cb : option connect_callback)
    (ud : option loc) : option WSServer :=
  (fun s => mkWSServer (ws_config s) cb (disconnect_cb s) (message_cb s) ud (ws_running s)
              (broadcast_buf s) (ws_infos s)) <$> server.
Definition ws_server_set_disconnect_callback (server : option WSServer) (cb : option connect_callback)
    (ud : option loc) : option WSServer :=
  (fun s => mkWSServer (ws_config s) (connect_cb s) cb (message_cb s) ud (ws_running s)
              (broadcast_buf s) (ws_infos s)) <$> server.
Definition ws_server_set_message_callback (server : option WSServer) (cb : option message_callback)
    (ud : option loc) : option WSServer :=
  (fun s => mkWSServer (ws_config s) (connect_cb s) (disconnect_cb s) cb ud (ws_running s)
              (broadcast_buf s) (ws_infos s)) <$> server.

Definition ws_server_get_client_info (s : WSServer) (c : option client) : option WSClientInfo :=
  match c with None => None | Some c => ws_infos s !! c end.

(** One event; [now] is the clock and [inp] the C string at the address the library
    passes: the received text and whatever precedes the next NUL of the receive buffer.
    The per-connection data starts zeroed. *)
Definition callback_trading (now : Z) (s : WSServer) (c : client) (reason : lws_reason) (inp : string) (w : W)
    : res (Z * WSServer * W) :=
  match reason with
  | LWS_CALLBACK_ESTABLISHED =>
      let s := with_info s c (mkWSClientInfo (snprintf 32 ("client-" +:+ lws_name c)) now 0) in
      match connect_cb s with
      | Some cb => w ← cb c (user_data s) w; Ok (0%Z, s, w)
      | None => Ok (0%Z, s, w)
      end
  | LWS_CALLBACK_CLOSED =>
      match disconnect_cb s with
      | Some cb => w ← cb c (user_data s) w; Ok (0%Z, s, w)
      | None => Ok (0%Z, s, w)
      end
  | LWS_CALLBACK_RECEIVE =>
      match message_cb s with
      | Some cb => w ← cb c inp (user_data s) w; Ok (0%Z, s, w)
      | None => Ok (0%Z, s, w)
      end
  | _ => Ok (0%Z, s, w)
  end.

(** [lws_callback_all_protocol(context, protocol, reason)]. *)
Fixpoint callback_all (now : Z) (s : WSServer) (cs : list client) (reason : lws_reason) (w : W)
    : res (WSServer * W) :=
  match cs with
  | [] => Ok (s, w)
  | c :: cs =>
      '(_, s, w) ← callback_trading now s c reason "" w;
      callback_all now s cs reason w
  end.

Definition ws_server_broadcast (malloc_ok : bool) (now : Z) (server : option WSServer) (message : option string)
    (w : W) : res (Z * option WSServer * W) :=
  match server, message with
  | Some s, Some m =>
      if negb malloc_ok then Ok ((-1)%Z, server, w)
      else
        let s := with_broadcast s (Some m) in
        '(s, w) ← callback_all now s (lws_clients w) LWS_CALLBACK_SERVER_WRITEABLE w;
        Ok (0%Z, Some (with_broadcast s None), w)
  | _, _ => Ok ((-1)%Z, server, w)
  end.

Definition ws_server_send (malloc_ok : bool) (c : option client) (message : option string) (w : W) : Z * W :=
  match c, message with
  | Some c, Some m =>
      if negb malloc_ok then ((-1)%Z, w)
      else
        let '(written, w) := lws_write c m w in
        ((if (0 <=? written)%Z && (written =? Z.of_nat (strlen m))%Z then 0 else -1)%Z, w)
  | _, _ => ((-1)%Z, w)
  end.

(** ** The service thread *)

(** What happens during one [lws_service]: the library calls back for an event of a
    connection, or another thread runs [ws_server_stop]. *)
Inductive server_event : Type :=
| SvLws (now : Z) (c : client) (reason : lws_reason) (inp : string)
| SvStop.

Fixpoint run_service (evs : list server_event) (s : WSServer) (w : W) : res (WSServer * W) :=
  match evs with
  | [] => Ok (s, w)
  | SvStop :: evs => run_service evs (with_running s false) w
  | SvLws now c reason inp :: evs =>
      '(_, s, w) ← callback_trading now s c reason inp w;
      run_service evs s w
  end.

(** The loop, over the events of the successive calls of [lws_service]. *)
Fixpoint service_thread (batches : list (list server_event)) (s : WSServer) (w : W) : res (WSServer * W) :=
  match batches with
  | [] => Ok (s, w)
  | evs :: batches =>
      if negb (ws_running s) then Ok (s, w)
      else '(s, w) ← run_service evs s w; service_thread batches s w
  end.

(** [closed]: the connections [lws_context_destroy] closes, calling back for each. *)
Definition ws_server_destroy (now : Z) (closed : list client) (server : option WSServer) (w : W) : res W :=
  match server with
  | None => Ok w
  | Some s =>
      s ← deref (if ws_running s then ws_server_stop (Some s) else Some s);
      snd <$> callback_all now s closed LWS_CALLBACK_CLOSED w
  end.

(** ** The text of a trade notification *)

Section Notification.

Context {J : Type} `{CJ : CJson J}.

(** What [trade_broadcaster_send_trade] prints; [time_str] is the formatted timestamp. *)
Definition trade_note_text (time_str : string) (n : TradeNote) : option string :=
  let msg := add_number_to cJSON_CreateObject "type" (d_of_Z 102) in
  let details := add_string_to cJSON_CreateObject "symbol" (tn_symbol n) in
  let details := add_string_to details "buy_order" (tn_buy_order_id n) in
  let details := add_string_to details "sell_order" (tn_sell_order_id n) in
  let details := add_number_to details "price" (tn_price n) in
  let details := add_number_to details "quantity" (d_of_Z (tn_quantity n)) in
  let details := add_string_to details "time" time_str in
  print_node (add_item_to msg "trade" details).

(** The rest of it: broadcasting the text; [strlen] reads it. *)
Definition broadcast_trade (malloc_ok : bool) (now : Z) (server : option WSServer) (time_str : string)
    (n : TradeNote) (w : W) : res (option WSServer * W) :=
  text ← deref (trade_note_text time_str n);
  '(_, server, w) ← ws_server_broadcast malloc_ok now server (Some text) w;
  Ok (server, w).

(** ** Properties *)

Context `{CL : !CJsonLaws J}.

(** The JSON value of a notification. *)
Definition trade_note_json (time_str : string) (n : TradeNote) : jvalue :=
  JObj [("type", JNum (d_of_Z 102));
        ("trade", JObj [("symbol", JStr (tn_symbol n)); ("buy_order", JStr (tn_buy_order_id n));
                        ("sell_order", JStr (tn_sell_order_id n)); ("price", JNum (tn_price n));
                        ("quantity", JNum (d_of_Z (tn_quantity n))); ("time", JStr time_str)])]%string.

(** The text of a notification, and what it parses to. *)
Lemma trade_note_parses time_str n :
  num_exact (tn_price n) -> in_int (tn_quantity n) ->
  exists text j, trade_note_text time_str n = Some text /\ cJSON_Parse text = Some j /\
    repr j (trade_note_json time_str n) /\ parse_base_message (Some text) = Some MSG_ORDER_REJECTED.
Proof.
  intros Hp Hq. destruct create_object as (r & Hr & R).
  assert (Hj : exists j, trade_note_text time_str n = print_node (Some j) /\ repr j (trade_note_json time_str n)).
  { unfold trade_note_text. rewrite Hr. eexists. split; [reflexivity |].
    pose proof (add_number _ _ "type" (d_of_Z 102) R) as Rm.
    apply (add_string _ _ "symbol" (tn_symbol n)) in R. apply (add_string _ _ "buy_order" (tn_buy_order_id n)) in R.
    apply (add_string _ _ "sell_order" (tn_sell_order_id n)) in R. apply (add_number _ _ "price" (tn_price n)) in R.
    apply (add_number _ _ "quantity" (d_of_Z (tn_quantity n))) in R. apply (add_string _ _ "time" time_str) in R.
    exact (add_item _ _ "trade" _ _ Rm R). }
  destruct Hj as (j & -> & Hj). destruct (parse_printed j _ Hj) as (text & j' & -> & Hpj & Hj').
  { cbn [jnumbers trade_note_json]. split_and!; auto; apply num_exact_int; [split; vm_compute; discriminate | exact Hq]. }
  exists text, j'. split_and!; auto.
  apply (base_message_spec text j' _ MSG_ORDER_REJECTED Hpj Hj'); [split; vm_compute; discriminate |].
  intros d [= <-]. reflexivity.
Qed.

(** A trade notification carries the type number of a rejected order: its text always
    prints, parses back to an object with the trade's symbol, orders, price and quantity,
    and [parse_base_message] types it 102, which is [MSG_ORDER_REJECTED], not
    [MSG_TRADE_EXECUTED]. *)
Theorem trade_note_typed_rejected time_str n :
  num_exact (tn_price n) -> in_int (tn_quantity n) ->
  exists text j, trade_note_text time_str n = Some text /\ cJSON_Parse text = Some j /\
    repr j (trade_note_json time_str n) /\
    parse_base_message (Some text) = Some MSG_ORDER_REJECTED /\ MSG_ORDER_REJECTED <> MSG_TRADE_EXECUTED.
Proof. intros Hp Hq. destruct (trade_note_parses time_str n Hp Hq) as (text & j & H). exists text, j. now destruct_and!. Qed.

End Notification.

(** ** What the service thread delivers *)

Definition is_stop (ev : server_event) : bool := match ev with SvStop => true | _ => false end.

(** The events the thread sees: those of every call of [lws_service] up to and including
    the one during which the server is stopped. *)
Fixpoint heard (batches : list (list server_event)) : list server_event :=
  match batches with
  | [] => []
  | evs :: batches => evs ++ (if existsb is_stop evs then [] else heard batches)
  end.

(** The messages among some events, and their delivery to a callback. *)
Definition received (evs : list server_event) : list (client * string) :=
  omap (fun ev => match ev with SvLws _ c LWS_CALLBACK_RECEIVE inp => Some (c, inp) | _ => None end) evs.

Fixpoint deliver (cb : message_callback) (data : option loc) (ms : list (client * string)) (w : W) : res W :=
  match ms with
  | [] => Ok w
  | (c, m) :: ms => w ← cb c m data w; deliver cb data ms w
  end.

(** Only messages are called back for. *)
Definition only_messages (s : WSServer) (cb : message_callback) : Prop :=
  connect_cb s = None /\ disconnect_cb s = None /\ message_cb s = Some cb.

Lemma deliver_app cb data ms1 ms2 w : deliver cb data (ms1 ++ ms2) w = (w ← deliver cb data ms1 w; deliver cb data ms2 w).
Proof. revert w. induction ms1 as [|[c m] ms1 IH]; intros w; [reflexivity |]. cbn. destruct (cb c m data w); cbn; auto. Qed.

(** One event changes the callbacks, the stop flag and the user data of nothing. *)
Lemma callback_trading_messages cb now s c reason inp w w' :
  only_messages s cb -> deliver cb (user_data s) (received [SvLws now c reason inp]) w = Ok w' ->
  exists s', callback_trading now s c reason inp w = Ok (0%Z, s', w') /\ only_messages s' cb /\
    user_data s' = user_data s /\ ws_running s' = ws_running s.
Proof.
  intros (H1 & H2 & H3) Hd. unfold only_messages.
  destruct reason; cbn in Hd |- *; rewrite ?H1, ?H2, ?H3; simplify_eq; eauto 8.
  apply bind_ok in Hd as (w1 & -> & [= ->]). cbn. eauto 8.
Qed.

Lemma run_service_messages cb evs s w w' :
  only_messages s cb -> deliver cb (user_data s) (received evs) w = Ok w' ->
  exists s', run_service evs s w = Ok (s', w') /\ only_messages s' cb /\ user_data s' = user_data s /\
    ws_running s' = ws_running s && negb (existsb is_stop evs).
Proof.
  revert s w. induction evs as [|ev evs IH]; intros s w Hs Hd.
  { injection Hd as <-. exists s. now rewrite andb_true_r. }
  replace (received (ev :: evs)) with (received [ev] ++ received evs) in Hd by (unfold received; now rewrite <- omap_app).
  rewrite deliver_app in Hd. apply bind_ok in Hd as (w1 & H1 & H2). destruct ev as [now c reason inp|].
  - destruct (callback_trading_messages cb now s c reason inp w w1 Hs H1) as (s1 & E1 & Hs1 & D1 & R1).
    cbn [run_service]. rewrite E1. cbn [mbind res_bind]. rewrite <- D1 in H2.
    destruct (IH s1 w1 Hs1 H2) as (s' & E & Hs' & D & R). exists s'. rewrite E, R, R1, D, D1. auto.
  - injection H1 as <-. destruct (IH (with_running s false) w Hs H2) as (s' & E & Hs' & D & R).
    exists s'. cbn [run_service existsb is_stop orb negb]. rewrite andb_false_r, E, R. auto.
Qed.

(** C36: with only a message callback registered, which is how the server program sets the
    server up, the service thread hands every message of every batch of events up to the
    one in which the server is stopped to the callback, once, in order and with its
    connection, whatever other events come in between; nothing later is delivered, and
    the thread has ended exactly when the server was stopped. *)
Theorem service_thread_delivers cb batches s w w' :
  only_messages s cb -> ws_running s = true ->
  deliver cb (user_data s) (received (heard batches)) w = Ok w' ->
  exists s', service_thread batches s w = Ok (s', w') /\ ws_running s' = negb (existsb is_stop (concat batches)).
Proof.
  revert s w. induction batches as [|evs batches IH]; intros s w Hs Hr Hd; cbn [heard service_thread concat] in *.
  { injection Hd as <-. eauto. }
  unfold received in Hd. rewrite Hr, omap_app, deliver_app in *. apply bind_ok in Hd as (w1 & H1 & H2). cbn [negb].
  destruct (run_service_messages cb evs s w w1 Hs H1) as (s1 & E1 & Hs1 & D1 & R1). rewrite E1. cbn [mbind res_bind].
  rewrite Hr, andb_true_l in R1. rewrite existsb_app. destruct (existsb is_stop evs); cbn [negb orb] in *.
  - injection H2 as <-. exists s1. destruct batches; cbn [service_thread]; [auto |]. now rewrite R1.
  - rewrite <- D1 in H2. exact (IH s1 w1 Hs1 R1 H2).
Qed.

Lemma callback_all_writeable now s cs w : callback_all now s cs LWS_CALLBACK_SERVER_WRITEABLE w = Ok (s, w).
Proof. revert s. induction cs; intros s; cbn; auto. Qed.

(** A broadcast reports success but reaches nobody: whatever the connections, the
    world (and so what was written to clients) is the same after it, because the
    protocol callback ignores the writeable event it is delivered by. *)
Theorem broadcast_delivers_nothing now s m w :
  ws_server_broadcast true now (Some s) (Some m) w = Ok (0%Z, Some (with_broadcast s None), w).
Proof. cbn [ws_server_broadcast negb]. rewrite callback_all_writeable. reflexivity. Qed.

(** Sending to a client returns 0 exactly when the library took every byte of the
    text, and then exactly one write of exactly that text was made. *)
Theorem send_reports_full_write c m w :
  fst (ws_server_send true (Some c) (Some m) w) = 0%Z <-> fst (lws_write c m w) = Z.of_nat (strlen m).
Proof.
  cbn [ws_server_send negb]. destruct (lws_write c m w) as [n w'] eqn:E. cbn [fst].
  destruct (Z.leb_spec 0 n), (Z.eqb_spec n (Z.of_nat (strlen m))); cbn; lia.
Qed.

End WsServer.

Arguments WSServer W : clear implicits.

(** ** A world for witnesses: what was written, and two connections *)

Definition text_world : Type := list (client * string).

#[export] Instance text_lws : Lws text_world := {
  lws_write c m w := (Z.of_nat (strlen m), w ++ [(c, m)]);
  lws_clients _ := [1; 2]%positive;
  lws_name _ := "0x1"
}.

Definition sample_note : TradeNote := mkTradeNote "AAPL" "B1" "S1" (d_of_Z 150) 10 1700000000.

(** A callback that echoes, as a server's only callback. *)
Definition echo : message_callback (W := text_world) := fun c m _ w => Ok (snd (ws_server_send true (Some c) (Some m) w)).
Definition echo_server : WSServer text_world :=
  mkWSServer (mkWSServerConfig "0.0.0.0" 8080 100 30000 60000) None None (Some echo) None true None ∅.
Definition sample_batches : list (list server_event) :=
  [[SvLws 0 1%positive LWS_CALLBACK_ESTABLISHED ""]; [SvLws 1 1%positive LWS_CALLBACK_RECEIVE "a"];
   [SvStop; SvLws 2 1%positive LWS_CALLBACK_RECEIVE "b"]; [SvLws 3 1%positive LWS_CALLBACK_RECEIVE "c"]]%string.

Lemma service_thread_delivers_witness :
  exists s', service_thread sample_batches echo_server [] = Ok (s', [(1%positive, "a"); (1%positive, "b")]%string) /\
    ws_running s' = false.
Proof.
  refine (service_thread_delivers echo sample_batches echo_server [] _ _ eq_refl _); [now split_and! | reflexivity].
Defined.

Import RefJson.

Lemma trade_note_typed_rejected_witness :
  exists text (j : jvalue), trade_note_text (J := jvalue) "t" sample_note = Some text /\ cJSON_Parse text = Some j /\
    repr j (trade_note_json "t" sample_note) /\
    parse_base_message (J := jvalue) (Some text) = Some MSG_ORDER_REJECTED /\ MSG_ORDER_REJECTED <> MSG_TRADE_EXECUTED.
Proof.
  apply (trade_note_typed_rejected (J := jvalue) "t" sample_note); [reflexivity | split; vm_compute; discriminate].
Defined.
