(* ===== verification/Session.v ===== *)
(** * The session manager (src/src/server/session_manager.c)

    Sessions form a singly linked list, here a list, newest first.  A session owns
    an array of [MAX_SUBSCRIPTIONS] string pointers of which the first
    [subscription_count] are in use; unsubscribing moves the later ones down.
    Every operation runs under the manager's mutex, so one operation is one step;
    only the capacity check of [session_manager_add_client] is made before the lock
    is taken, and [add_step] separates the two. *)

From Stdlib Require Import Ascii String ZArith Lia.
From stdpp Require Import base list numbers strings relations.
From S2P Require Import Prelude CString WsServer.

Definition MAX_SUBSCRIPTIONS : nat := 100.

Record SessionConfig : Type := mkSessionConfig {
  sc_max_sessions : Z;
  sc_session_timeout_ms : Z;
  sc_cleanup_interval_ms : Z
}.

Record ClientSession : Type := mkClientSession {
  cs_client : client;
  subscribed_symbols : list (option string);
  subscription_count : nat;
  last_ping_time : Z
}.

Record SessionManager : Type := mkSessionManager {
  sessions : list ClientSession;
  session_count : Z;
  max_sessions : Z;
  session_timeout_ms : Z
}.

Definition with_sessions (m : SessionManager) (ss : list ClientSession) (n : Z) : SessionManager :=
  mkSessionManager ss n (max_sessions m) (session_timeout_ms m).

Definition session_manager_create (calloc_ok : bool) (config : SessionConfig) : option SessionManager :=
  if calloc_ok then Some (mkSessionManager [] 0 (sc_max_sessions config) (sc_session_timeout_ms config))
  else None.

(** The strings freed with a session. *)
Fixpoint free_symbols (syms : list (option string)) (i n : nat) : res (list string) :=
  match n with
  | O => Ok []
  | S n =>
      match syms !! i with
      | Some (Some s) => r ← free_symbols syms (S i) n; Ok (s :: r)
      | Some None => free_symbols syms (S i) n
      | None => UB OutOfBounds
      end
  end.

Definition free_session (s : ClientSession) : res (list string) :=
  free_symbols (subscribed_symbols s) 0 (subscription_count s).

(** Everything freed with the manager. *)
Fixpoint destroy_sessions (ss : list ClientSession) : res (list string) :=
  match ss with
  | [] => Ok []
  | s :: ss => a ← free_session s; b ← destroy_sessions ss; Ok (a ++ b)
  end.

Definition session_manager_destroy (m : option SessionManager) : res (list string) :=
  match m with
  | None => Ok []
  | Some m => destroy_sessions (sessions m)
  end.

Fixpoint find_session (ss : list ClientSession) (c : client) : option ClientSession :=
  match ss with
  | [] => None
  | s :: ss => if bool_decide (cs_client s = c) then Some s else find_session ss c
  end.

(** The check before the lock is taken. *)
Definition add_check (m : SessionManager) : bool := (session_count m <? max_sessions m)%Z.

(** The part of [session_manager_add_client] under the lock. *)
Definition add_locked (alloc_session alloc_array : bool) (now : Z) (m : SessionManager) (c : client)
    : res (Z * SessionManager) :=
  match find_session (sessions m) c with
  | Some _ => Ok ((-1)%Z, m)
  | None =>
      if negb alloc_session then Ok ((-1)%Z, m)
      else if negb alloc_array then Ok ((-1)%Z, m)
      else
        n ← int_add (session_count m) 1;
        Ok (0%Z, with_sessions m
              (mkClientSession c (replicate MAX_SUBSCRIPTIONS None) 0 now :: sessions m) n)
  end.

Definition session_manager_add_client (alloc_session alloc_array : bool) (now : Z)
    (m : option SessionManager) (c : option client) : res (Z * option SessionManager) :=
  match m, c with
  | Some m, Some c =>
      if negb (add_check m) then Ok ((-1)%Z, Some m)
      else '(r, m) ← add_locked alloc_session alloc_array now m c; Ok (r, Some m)
  | _, _ => Ok ((-1)%Z, m)
  end.

(** The unlinking loop: the list without the first session of the client, if there
    is one. *)
Fixpoint unlink (ss : list ClientSession) (c : client) : option (list ClientSession * ClientSession) :=
  match ss with
  | [] => None
  | s :: ss =>
      if bool_decide (cs_client s = c) then Some (ss, s)
      else match unlink ss c with
           | Some (rest, s') => Some (s :: rest, s')
           | None => None
           end
  end.

Definition session_manager_remove_client (m : option SessionManager) (c : option client)
    : res (Z * option SessionManager) :=
  match m, c with
  | Some m, Some c =>
      match unlink (sessions m) c with
      | Some (rest, s) =>
          _ ← free_session s;
          n ← int_add (session_count m) (-1);
          Ok (0%Z, Some (with_sessions m rest n))
      | None => Ok ((-1)%Z, Some m)
      end
  | _, _ => Ok ((-1)%Z, m)
  end.

(** The loop that compares the symbols [i .. i + n - 1] with [symbol]: the index of
    the first that is equal. *)
Fixpoint find_symbol (syms : list (option string)) (symbol : string) (i n : nat) : res (option nat) :=
  match n with
  | O => Ok None
  | S n =>
      match syms !! i with
      | Some (Some s) => if str_eq s symbol then Ok (Some i) else find_symbol syms symbol (S i) n
      | Some None => UB NullDeref
      | None => UB OutOfBounds
      end
  end.

Definition has_symbol (s : ClientSession) (symbol : string) : res (option nat) :=
  find_symbol (subscribed_symbols s) symbol 0 (subscription_count s).

(** Assign to the session of the client. *)
Fixpoint update_session (ss : list ClientSession) (s' : ClientSession) : list ClientSession :=
  match ss with
  | [] => []
  | s :: ss => if bool_decide (cs_client s = cs_client s') then s' :: ss else s :: update_session ss s'
  end.

Definition session_manager_subscribe_symbol (strdup_ok : bool) (m : option SessionManager)
    (c : option client) (symbol : option string) : res (Z * option SessionManager) :=
  match m, c, symbol with
  | Some mg, Some c, Some symbol =>
      match find_session (sessions mg) c with
      | None => Ok ((-1)%Z, m)
      | Some s =>
          if (MAX_SUBSCRIPTIONS <=? subscription_count s)%nat then Ok ((-1)%Z, m)
          else
            found ← has_symbol s symbol;
            match (found : option nat) with
            | Some _ => Ok (0%Z, m)
            | None =>
                if negb strdup_ok then Ok ((-1)%Z, m)
                else if (subscription_count s <? length (subscribed_symbols s))%nat then
                  let s' := mkClientSession (cs_client s)
                              (<[subscription_count s := Some symbol]> (subscribed_symbols s))
                              (S (subscription_count s)) (last_ping_time s) in
                  Ok (0%Z, Some (with_sessions mg (update_session (sessions mg) s') (session_count mg)))
                else UB OutOfBounds
            end
      end
  | _, _, _ => Ok ((-1)%Z, m)
  end.

(** [for (j = i; ...) syms[j] = syms[j + 1]], [n] rounds. *)
Fixpoint shift_down (syms : list (option string)) (j n : nat) : res (list (option string)) :=
  match n with
  | O => Ok syms
  | S n =>
      match syms !! S j with
      | Some x => shift_down (<[j := x]> syms) (S j) n
      | None => UB OutOfBounds
      end
  end.

Definition session_manager_unsubscribe_symbol (m : option SessionManager)
    (c : option client) (symbol : option string) : res (Z * option SessionManager) :=
  match m, c, symbol with
  | Some mg, Some c, Some symbol =>
      match find_session (sessions mg) c with
      | None => Ok ((-1)%Z, m)
      | Some s =>
          found ← has_symbol s symbol;
          match (found : option nat) with
          | None => Ok ((-1)%Z, m)
          | Some i =>
              syms ← shift_down (subscribed_symbols s) i (subscription_count s - 1 - i);
              let s' := mkClientSession (cs_client s) syms (subscription_count s - 1) (last_ping_time s) in
              Ok (0%Z, Some (with_sessions mg (update_session (sessions mg) s') (session_count mg)))
          end
      end
  | _, _, _ => Ok ((-1)%Z, m)
  end.

Definition session_manager_is_subscribed (m : option SessionManager) (c : option client)
    (symbol : option string) : res bool :=
  match m, c, symbol with
  | Some m, Some c, Some symbol =>
      match find_session (sessions m) c with
      | None => Ok false
      | Some s => found ← has_symbol s symbol;
                  Ok (match (found : option nat) with Some _ => true | None => false end)
      end
  | _, _, _ => Ok false
  end.

(** The loop of [session_manager_get_subscribers]: at most [room] clients. *)
Fixpoint collect_subscribers (ss : list ClientSession) (symbol : string) (room : nat) : res (list client) :=
  match ss, room with
  | [], _ => Ok []
  | _, O => Ok []
  | s :: ss, S room' =>
      found ← has_symbol s symbol;
      match (found : option nat) with
      | Some _ => r ← collect_subscribers ss symbol room'; Ok (cs_client s :: r)
      | None => collect_subscribers ss symbol room
      end
  end.

(** The returned count and what was written to [clients]. *)
Definition session_manager_get_subscribers (m : option SessionManager) (symbol : option string)
    (max_clients : Z) : res (Z * list client) :=
  match m, symbol with
  | Some m, Some symbol =>
      if (max_clients <=? 0)%Z then Ok ((-1)%Z, [])
      else cs ← collect_subscribers (sessions m) symbol (Z.to_nat max_clients);
           Ok (Z.of_nat (length cs), cs)
  | _, _ => Ok ((-1)%Z, [])
  end.

(** [(current_time - last_ping_time) * 1000 > session_timeout_ms] in 64 bits. *)
Definition timed_out (now timeout : Z) (s : ClientSession) : res bool :=
  d ← int64_sub now (last_ping_time s);
  ms ← int64_mul d 1000;
  Ok (timeout <? ms)%Z.

(** The cleanup loop: what remains and the count after it. *)
Fixpoint cleanup_loop (now timeout : Z) (ss : list ClientSession) (n : Z) : res (list ClientSession * Z) :=
  match ss with
  | [] => Ok ([], n)
  | s :: ss =>
      out ← timed_out now timeout s;
      if (out : bool) then
        _ ← free_session s;
        n ← int_add n (-1);
        cleanup_loop now timeout ss n
      else
        '(rest, n) ← cleanup_loop now timeout ss n;
        Ok (s :: rest, n)
  end.

Definition session_manager_cleanup_sessions (now : Z) (m : option SessionManager)
    : res (option SessionManager) :=
  match m with
  | None => Ok None
  | Some m =>
      '(ss, n) ← cleanup_loop now (session_timeout_ms m) (sessions m) (session_count m);
      Ok (Some (with_sessions m ss n))
  end.

(** [clock i] is what [time(NULL)] returns for the [i]-th session. *)
Definition session_manager_ping_clients (clock : nat -> Z) (m : option SessionManager)
    : option SessionManager :=
  match m with
  | None => None
  | Some m =>
      Some (with_sessions m
        (imap (fun i s => mkClientSession (cs_client s) (subscribed_symbols s) (subscription_count s) (clock i))
           (sessions m)) (session_count m))
  end.

(** ** Abstraction and invariant *)

(** The symbols a session is subscribed to. *)
Definition symbols_of (s : ClientSession) : list string :=
  omap id (take (subscription_count s) (subscribed_symbols s)).

Definition session_ok (s : ClientSession) : Prop :=
  exists syms rest, subscribed_symbols s = map Some syms ++ rest /\ length syms = subscription_count s /\
    length (subscribed_symbols s) = MAX_SUBSCRIPTIONS /\ NoDup syms.

Definition sessions_wf (m : SessionManager) : Prop :=
  session_count m = Z.of_nat (length (sessions m)) /\ (session_count m <= max_sessions m <= INT_MAX)%Z /\
  NoDup (cs_client <$> sessions m) /\ Forall session_ok (sessions m).

(** The subscriptions of every client, as a specification sees the manager. *)
Definition subscriptions (m : SessionManager) (c : client) : option (list string) :=
  symbols_of <$> find_session (sessions m) c.

(** ** Lemmas: one session *)

Lemma omap_id_map {A : Type} (l : list A) : omap id (map Some l) = l.
Proof.
  induction l as [|x l IH]; [reflexivity |]. cbn [map].
  change (omap id (Some x :: map Some l)) with (x :: omap id (map Some l)). now rewrite IH.
Qed.

Lemma session_ok_symbols s syms rest :
  subscribed_symbols s = map Some syms ++ rest -> length syms = subscription_count s -> symbols_of s = syms.
Proof.
  intros E L. unfold symbols_of. rewrite E, <- L, take_app_length'; [apply omap_id_map | now rewrite length_map].
Qed.

Lemma find_symbol_spec syms pre rest symbol :
  find_symbol (map Some (pre ++ syms) ++ rest) symbol (length pre) (length syms) =
  Ok ((fun i => (length pre + i)%nat) <$> (fst <$> list_find (fun s => s = symbol) syms)).
Proof.
  revert pre. induction syms as [|s syms IH]; intros pre; [reflexivity |]. cbn [length find_symbol list_find].
  rewrite map_app. cbn [map]. rewrite <- app_assoc, lookup_app_r, length_map, Nat.sub_diag by (rewrite length_map; lia).
  cbn [lookup list_lookup app]. destruct (decide (s = symbol)) as [->|Hne].
  - unfold str_eq. rewrite String.eqb_refl. cbn. do 2 f_equal. lia.
  - unfold str_eq. rewrite (proj2 (String.eqb_neq _ _) Hne).
    specialize (IH (pre ++ [s])). rewrite <- app_assoc, length_app, Nat.add_1_r, map_app, <- app_assoc in IH. cbn in IH.
    rewrite IH. destruct (list_find _ syms) as [[i x]|]; cbn; [|reflexivity]. do 2 f_equal. lia.
Qed.

Lemma has_symbol_spec s symbol :
  session_ok s -> has_symbol s symbol = Ok (fst <$> list_find (fun x => x = symbol) (symbols_of s)).
Proof.
  intros (syms & rest & E & L & _). rewrite (session_ok_symbols _ _ _ E L). unfold has_symbol. rewrite E, <- L.
  pose proof (find_symbol_spec syms [] rest symbol) as H. cbn in H. rewrite H.
  now destruct (list_find _ syms) as [[]|].
Qed.

Lemma list_find_None_iff (symbol : string) l : list_find (fun x => x = symbol) l = None <-> symbol ∉ l.
Proof. rewrite list_find_None, Forall_forall. split; [intros H Hin; now apply (H symbol) | intros H x Hx ->; auto]. Qed.

Lemma shift_down_spec (pre : list (option string)) x post rest :
  exists rest', shift_down (pre ++ x :: post ++ rest) (length pre) (length post) = Ok (pre ++ post ++ rest') /\
    length rest' = S (length rest).
Proof.
  revert pre x. induction post as [|y post IH]; intros pre x.
  { exists (x :: rest). cbn. auto. }
  cbn [length shift_down app]. rewrite lookup_app_r by lia. replace (S (length pre) - length pre)%nat with 1%nat by lia.
  cbn [lookup list_lookup]. rewrite insert_app_r_alt, Nat.sub_diag by lia. cbn [insert list_insert].
  destruct (IH (pre ++ [y]) y) as (rest' & E & L). rewrite length_app, Nat.add_1_r in E.
  rewrite <- !app_assoc in E. cbn [app] in E. exists rest'. auto.
Qed.

Lemma subscribe_session_ok s symbol :
  session_ok s -> (subscription_count s < MAX_SUBSCRIPTIONS)%nat -> symbol ∉ symbols_of s ->
  let s' := mkClientSession (cs_client s) (<[subscription_count s := Some symbol]> (subscribed_symbols s))
              (S (subscription_count s)) (last_ping_time s) in
  session_ok s' /\ symbols_of s' = symbols_of s ++ [symbol].
Proof.
  intros (syms & rest & E & L & N & D) Hc Hn s'. rewrite (session_ok_symbols _ _ _ E L) in *.
  assert (Hr : exists y rest', rest = y :: rest').
  { destruct rest; [|eauto]. rewrite E, app_nil_r, length_map in N. unfold MAX_SUBSCRIPTIONS in *. lia. }
  destruct Hr as (y & rest' & ->).
  assert (E' : subscribed_symbols s' = map Some (syms ++ [symbol]) ++ rest').
  { cbn. rewrite E, <- L, insert_app_r_alt, length_map, Nat.sub_diag by (rewrite length_map; lia). cbn.
    now rewrite map_app, <- app_assoc. }
  assert (L' : length (syms ++ [symbol]) = subscription_count s') by (rewrite length_app; cbn; lia).
  split; [|exact (session_ok_symbols _ _ _ E' L')]. exists (syms ++ [symbol]), rest'. split_and!; auto.
  - cbn. now rewrite length_insert.
  - apply NoDup_app. split_and!; [auto | intros x Hx ->%list_elem_of_singleton; auto | apply NoDup_singleton].
Qed.

Lemma unsubscribe_session_ok s symbol i :
  session_ok s -> fst <$> list_find (fun x => x = symbol) (symbols_of s) = Some i ->
  exists syms', shift_down (subscribed_symbols s) i (subscription_count s - 1 - i) = Ok syms' /\
    let s' := mkClientSession (cs_client s) syms' (subscription_count s - 1) (last_ping_time s) in
    session_ok s' /\ symbols_of s' = List.filter (fun x => negb (str_eq x symbol)) (symbols_of s).
Proof.
  intros (syms & rest & E & L & N & D) Hf. rewrite (session_ok_symbols _ _ _ E L) in *.
  destruct (list_find _ syms) as [[k x]|] eqn:Hk; [|discriminate]. cbn in Hf. injection Hf as <-.
  apply list_find_Some in Hk as (Hk & -> & _). apply list_elem_of_split_length in Hk as (pre & post & -> & ->).
  rewrite map_app, <- app_assoc in E. cbn [map app] in E.
  destruct (shift_down_spec (map Some pre) (Some symbol) (map Some post) rest) as (rest' & Es & Lr).
  rewrite !length_map in Es. rewrite length_app in L. cbn [length] in L.
  replace (subscription_count s - 1 - length pre)%nat with (length post) by lia.
  rewrite E, Es. eexists. split; [reflexivity |]. cbv zeta.
  set (s' := mkClientSession _ _ _ _).
  assert (E' : subscribed_symbols s' = map Some (pre ++ post) ++ rest') by (cbn; now rewrite map_app, <- app_assoc).
  assert (L' : length (pre ++ post) = subscription_count s') by (rewrite length_app; cbn; lia).
  apply NoDup_app in D as (D1 & D2 & D3). apply NoDup_cons in D3 as [D3 D4]. split.
  - exists (pre ++ post), rest'. split_and!; auto.
    + rewrite E in N. cbn. rewrite !length_app in *. cbn in N. rewrite !length_app, !length_map in *. lia.
    + apply NoDup_app. split_and!; auto. set_solver.
  - rewrite (session_ok_symbols _ _ _ E' L'), List.filter_app. cbn [List.filter].
    unfold str_eq at 2. rewrite String.eqb_refl. cbn [negb].
    assert (Hid : forall l, symbol ∉ l -> List.filter (fun x => negb (str_eq x symbol)) l = l).
    { clear. induction l as [|y l IH]; intros Hn; cbn; [reflexivity |].
      unfold str_eq. rewrite (proj2 (String.eqb_neq _ _)) by set_solver. cbn. f_equal. apply IH. set_solver. }
    rewrite !Hid; [reflexivity | auto |]. intros Hin. apply (D2 _ Hin). left.
Qed.

Lemma free_symbols_spec pre syms rest :
  free_symbols (map Some (pre ++ syms) ++ rest) (length pre) (length syms) = Ok syms.
Proof.
  revert pre. induction syms as [|s syms IH]; intros pre; [reflexivity |]. cbn [length free_symbols].
  rewrite map_app. cbn [map]. rewrite <- app_assoc, lookup_app_r, length_map, Nat.sub_diag by (rewrite length_map; lia).
  cbn [lookup list_lookup app]. specialize (IH (pre ++ [s])).
  rewrite <- app_assoc, length_app, Nat.add_1_r, map_app, <- app_assoc in IH. cbn in IH. now rewrite IH.
Qed.

Lemma free_session_ok s : session_ok s -> free_session s = Ok (symbols_of s).
Proof.
  intros (syms & rest & E & L & _). rewrite (session_ok_symbols _ _ _ E L). unfold free_session. rewrite E, <- L.
  apply (free_symbols_spec [] syms rest).
Qed.

(** ** Lemmas: the list of sessions *)

Lemma find_session_Some ss c s : find_session ss c = Some s -> s ∈ ss /\ cs_client s = c.
Proof.
  induction ss as [|s' ss IH]; cbn; [discriminate |]. case_bool_decide as E.
  - intros [= <-]. split; [left | exact E].
  - intros H. destruct (IH H). split; [now right | assumption].
Qed.

Lemma find_session_None ss c : find_session ss c = None <-> c ∉ cs_client <$> ss.
Proof.
  induction ss as [|s ss IH]; cbn; [split; auto; intros _ H; inversion H |].
  rewrite not_elem_of_cons. case_bool_decide; [split; [discriminate | intros []; congruence] |].
  rewrite IH. intuition congruence.
Qed.

Lemma update_session_clients ss s' : cs_client <$> update_session ss s' = cs_client <$> ss.
Proof.
  induction ss as [|s ss IH]; cbn; [reflexivity |]. case_bool_decide as E; cbn; [now rewrite E | now rewrite IH].
Qed.

Lemma update_session_find ss s' c :
  find_session (update_session ss s') c =
  if bool_decide (cs_client s' = c) then (fun _ => s') <$> find_session ss c else find_session ss c.
Proof.
  induction ss as [|s ss IH]; cbn [find_session update_session]; [now case_bool_decide |].
  destruct (decide (cs_client s = cs_client s')) as [E1|E1];
    [rewrite (bool_decide_eq_true_2 _ E1) | rewrite (bool_decide_eq_false_2 _ E1)]; cbn [find_session].
  - rewrite E1. now case_bool_decide.
  - destruct (decide (cs_client s = c)) as [E2|E2].
    + rewrite !(bool_decide_eq_true_2 _ E2), bool_decide_eq_false_2 by congruence. reflexivity.
    + now rewrite !(bool_decide_eq_false_2 _ E2), IH.
Qed.

Lemma update_session_Forall (P : ClientSession -> Prop) ss s' : Forall P ss -> P s' -> Forall P (update_session ss s').
Proof. intros HF Hs. induction HF; cbn; [constructor |]. case_bool_decide; constructor; auto. Qed.

Lemma length_clients ss : length (cs_client <$> ss) = length ss.
Proof. apply length_fmap. Qed.

Lemma unlink_spec ss c :
  NoDup (cs_client <$> ss) ->
  match unlink ss c with
  | Some (rest, s) => find_session ss c = Some s /\ length ss = S (length rest) /\ rest `sublist_of` ss /\
      (forall c', find_session rest c' = if bool_decide (c' = c) then None else find_session ss c')
  | None => find_session ss c = None
  end.
Proof.
  induction ss as [|s ss IH]; cbn; [reflexivity |]. intros [Hn Hd]%NoDup_cons. case_bool_decide as E.
  - split_and!; auto; [now apply sublist_skip' || (apply sublist_cons; reflexivity) |]. intros c'. subst c.
    case_bool_decide as E'; [subst c'; now apply find_session_None |]. now rewrite bool_decide_eq_false_2 by congruence.
  - specialize (IH Hd). destruct (unlink ss c) as [[rest s']|]; [|exact IH].
    destruct IH as (H1 & H2 & H3 & H4). split_and!; [exact H1 | cbn; lia | now apply sublist_skip |].
    intros c'. cbn. case_bool_decide as E2; [case_bool_decide; [congruence | reflexivity] | apply H4].
Qed.

Lemma sublist_clients_NoDup ss ss' :
  ss' `sublist_of` ss -> NoDup (cs_client <$> ss) -> NoDup (cs_client <$> ss').
Proof. intros Hs Hd. eapply sublist_NoDup; [exact Hd |]. now apply fmap_sublist. Qed.

(** ** Cleanup *)

(** The clock does not run so far ahead that the computation overflows. *)
Definition clock_ok (now : Z) (s : ClientSession) : Prop :=
  in_int64 (now - last_ping_time s) /\ in_int64 ((now - last_ping_time s) * 1000).

Definition expired (now timeout : Z) (s : ClientSession) : bool :=
  (timeout <? (now - last_ping_time s) * 1000)%Z.

Lemma timed_out_ok now timeout s : clock_ok now s -> timed_out now timeout s = Ok (expired now timeout s).
Proof.
  intros [H1 H2]. unfold timed_out, int64_sub, int64_mul, in_int64b, in_int64 in *.
  repeat (rewrite (proj2 (andb_true_iff _ _)) by (split; apply Z.leb_le; lia); cbn [mbind res_bind]). reflexivity.
Qed.

Lemma cleanup_loop_spec now timeout ss n :
  Forall (clock_ok now) ss -> Forall session_ok ss -> (Z.of_nat (length ss) <= n <= INT_MAX)%Z ->
  let kept := List.filter (fun s => negb (expired now timeout s)) ss in
  cleanup_loop now timeout ss n = Ok (kept, n - Z.of_nat (length ss - length kept))%Z.
Proof.
  intros Hc. revert n. induction Hc as [|s ss Hs Hc IH]; intros n Ho Hn.
  { cbn. do 2 f_equal. lia. }
  apply Forall_cons in Ho as [Ho1 Ho]. cbn [cleanup_loop List.filter length] in *.
  pose proof (List.filter_length_le (fun s => negb (expired now timeout s)) ss) as Hle.
  rewrite (timed_out_ok _ _ _ Hs). cbn [mbind res_bind]. destruct (expired now timeout s); cbn [negb].
  - rewrite (free_session_ok _ Ho1). cbn [mbind res_bind].
    rewrite int_add_ok by (unfold in_int, INT_MIN; lia). cbn [mbind res_bind]. rewrite IH by (auto; lia).
    do 2 f_equal. lia.
  - rewrite IH by (auto; lia). cbn [mbind res_bind length]. reflexivity.
Qed.

(** ** Subscribers *)

Lemma collect_subscribers_spec ss symbol room :
  Forall session_ok ss ->
  collect_subscribers ss symbol room =
  Ok (take room (cs_client <$> List.filter (fun s => bool_decide (symbol ∈ symbols_of s)) ss)).
Proof.
  intros Ho. revert room. induction Ho as [|s ss Hs Ho IH]; intros room; [now destruct room |].
  destruct room as [|room]; [reflexivity |]. cbn [collect_subscribers List.filter].
  rewrite (has_symbol_spec _ _ Hs). cbn [mbind res_bind].
  destruct (list_find (fun x => x = symbol) (symbols_of s)) as [[i x]|] eqn:E; cbn [fmap option_fmap option_map fst].
  - rewrite bool_decide_eq_true_2, IH; [reflexivity |].
    apply list_find_Some in E as (E & -> & _). now apply list_elem_of_lookup_2 in E.
  - rewrite bool_decide_eq_false_2 by now apply list_find_None_iff. apply IH.
Qed.

(** ** Operations as steps *)

Inductive session_op : Type :=
| SAdd (alloc_session alloc_array : bool) (now : Z) (c : client)
| SRemove (c : client)
| SSubscribe (strdup_ok : bool) (c : client) (symbol : string)
| SUnsubscribe (c : client) (symbol : string)
| SCleanup (now : Z)
| SPing (clock : nat -> Z).

Definition session_step (m : SessionManager) (op : session_op) : res (option SessionManager) :=
  match op with
  | SAdd a1 a2 now c => snd <$> session_manager_add_client a1 a2 now (Some m) (Some c)
  | SRemove c => snd <$> session_manager_remove_client (Some m) (Some c)
  | SSubscribe ok c s => snd <$> session_manager_subscribe_symbol ok (Some m) (Some c) (Some s)
  | SUnsubscribe c s => snd <$> session_manager_unsubscribe_symbol (Some m) (Some c) (Some s)
  | SCleanup now => session_manager_cleanup_sessions now (Some m)
  | SPing clock => Ok (session_manager_ping_clients clock (Some m))
  end.

(** Cleanup computes its difference in 64 bits. *)
Definition step_clock_ok (m : SessionManager) (op : session_op) : Prop :=
  match op with SCleanup now => Forall (clock_ok now) (sessions m) | _ => True end.

Lemma sessions_wf_update m s s' :
  sessions_wf m -> find_session (sessions m) (cs_client s') = Some s -> session_ok s' ->
  sessions_wf (with_sessions m (update_session (sessions m) s') (session_count m)).
Proof.
  intros (Hn & Hm & Hd & Ho) Hf Hs. unfold sessions_wf. cbn. split_and!; auto using update_session_Forall.
  - rewrite Hn. f_equal. now rewrite <- !length_clients, update_session_clients.
  - lia.
  - lia.
  - now rewrite update_session_clients.
Qed.

(** The outcome of each kind of request, on a well-formed manager. *)
Lemma add_client_spec a1 a2 now m c :
  sessions_wf m ->
  exists r m', session_manager_add_client a1 a2 now (Some m) (Some c) = Ok (r, Some m') /\ sessions_wf m' /\
    (r = 0%Z \/ r = (-1)%Z /\ m' = m) /\
    (r = 0%Z <-> a1 = true /\ a2 = true /\ (session_count m < max_sessions m)%Z /\ subscriptions m c = None) /\
    (r = 0%Z -> forall c', subscriptions m' c' = if bool_decide (c' = c) then Some [] else subscriptions m c').
Proof.
  intros Hwf. pose proof Hwf as (Hn & Hm & Hd & Ho). cbn [session_manager_add_client]. unfold add_check, subscriptions.
  destruct (Z.ltb_spec (session_count m) (max_sessions m)); cbn [negb].
  2: { exists (-1)%Z, m. split_and!; auto; [intuition lia | lia]. }
  unfold add_locked. destruct (find_session (sessions m) c) as [s|] eqn:Hf.
  { exists (-1)%Z, m. cbn. split_and!; auto; [intuition discriminate | discriminate]. }
  destruct a1; cbn [negb]; [|exists (-1)%Z, m; cbn; split_and!; auto; [intuition discriminate | discriminate]].
  destruct a2; cbn [negb]; [|exists (-1)%Z, m; cbn; split_and!; auto; [intuition discriminate | discriminate]].
  rewrite int_add_ok by (unfold in_int, INT_MIN; lia). cbn [mbind res_bind]. do 2 eexists.
  split; [reflexivity |]. split_and!; [| now left | intuition |].
  - unfold sessions_wf. cbn. split_and!; try lia.
    + constructor; [now apply find_session_None | exact Hd].
    + constructor; [|exact Ho]. exists [], (replicate MAX_SUBSCRIPTIONS None). split_and!; auto. constructor.
  - intros _ c'. cbn. rewrite (bool_decide_ext (c = c') (c' = c)) by intuition. now case_bool_decide.
Qed.

Lemma remove_client_spec m c :
  sessions_wf m ->
  exists r m', session_manager_remove_client (Some m) (Some c) = Ok (r, Some m') /\ sessions_wf m' /\
    (r = 0%Z \/ r = (-1)%Z /\ m' = m) /\ (r = 0%Z <-> is_Some (subscriptions m c)) /\
    forall c', subscriptions m' c' = if bool_decide (c' = c) then None else subscriptions m c'.
Proof.
  intros Hwf. pose proof Hwf as (Hn & Hm & Hd & Ho). cbn [session_manager_remove_client]. unfold subscriptions.
  pose proof (unlink_spec (sessions m) c Hd) as Hu. destruct (unlink (sessions m) c) as [[rest s]|].
  - destruct Hu as (Hf & Hl & Hs & Hr). pose proof (find_session_Some _ _ _ Hf) as [Hin _].
    rewrite Forall_forall in Ho. rewrite (free_session_ok s (Ho _ Hin)). cbn [mbind res_bind].
    rewrite int_add_ok by (unfold in_int, INT_MIN; lia). cbn [mbind res_bind]. do 2 eexists.
    split; [reflexivity |]. split_and!; [| now left | |].
    + unfold sessions_wf. cbn. split_and!; try lia; [now apply (sublist_clients_NoDup (sessions m)) |].
      apply Forall_forall. intros x Hx. apply Ho. eapply elem_of_sublist; eauto.
    + rewrite Hf. cbn. intuition eauto.
    + intros c'. cbn. rewrite Hr. now case_bool_decide.
  - exists (-1)%Z, m. split_and!; auto.
    + rewrite Hu. cbn. split; [discriminate | intros [? [=]]].
    + intros c'. case_bool_decide; subst; now rewrite ?Hu.
Qed.

Lemma subscribe_spec ok m c symbol :
  sessions_wf m ->
  exists r m', session_manager_subscribe_symbol ok (Some m) (Some c) (Some symbol) = Ok (r, Some m') /\
    sessions_wf m' /\ (r = 0%Z \/ r = (-1)%Z /\ m' = m) /\
    match subscriptions m c with
    | Some syms => r = 0%Z <-> (length syms < MAX_SUBSCRIPTIONS)%nat /\ (symbol ∈ syms \/ ok = true)
    | None => r = (-1)%Z
    end /\
    (r = 0%Z -> forall c', subscriptions m' c' =
       if bool_decide (c' = c)
       then (fun syms => if bool_decide (symbol ∈ syms) then syms else syms ++ [symbol]) <$> subscriptions m c
       else subscriptions m c').
Proof.
  intros Hwf. pose proof Hwf as (Hn & Hm & Hd & Ho). cbn [session_manager_subscribe_symbol]. unfold subscriptions.
  destruct (find_session (sessions m) c) as [s|] eqn:Hf; cbn [fmap option_fmap option_map].
  2: { exists (-1)%Z, m. split_and!; auto. discriminate. }
  pose proof (find_session_Some _ _ _ Hf) as [Hin Hc]. rewrite Forall_forall in Ho. specialize (Ho _ Hin).
  pose proof Ho as (syms & rest & E & L & N & D). pose proof (session_ok_symbols _ _ _ E L) as Es.
  rewrite Es. destruct (Nat.leb_spec MAX_SUBSCRIPTIONS (subscription_count s)) as [Hfull|Hfull].
  { exists (-1)%Z, m. split_and!; auto; [intuition (discriminate || lia) | discriminate]. }
  rewrite (has_symbol_spec _ _ Ho), Es. cbn [mbind res_bind].
  destruct (list_find (fun x => x = symbol) syms) as [[i x]|] eqn:El; cbn [fmap option_fmap option_map fst].
  { apply list_find_Some in El as (El & -> & _). apply list_elem_of_lookup_2 in El.
    exists 0%Z, m. split_and!; auto; [intuition lia |]. intros _ c'.
    case_bool_decide as Ec; [|reflexivity]. subst c'. rewrite Hf. cbn. now rewrite Es, bool_decide_eq_true_2. }
  apply list_find_None_iff in El. destruct ok; cbn [negb].
  2: { exists (-1)%Z, m. split_and!; auto; [intuition discriminate | discriminate]. }
  rewrite (proj2 (Nat.ltb_lt _ _)) by (rewrite N; exact Hfull). rewrite <- Es in El.
  destruct (subscribe_session_ok s symbol Ho Hfull El) as [Ho' Es']. do 2 eexists. split; [reflexivity |].
  split_and!; [apply (sessions_wf_update m s); auto; cbn; now rewrite Hc | now left | intuition lia |].
  intros _ c'. cbn [sessions with_sessions]. rewrite update_session_find. cbn [cs_client].
  rewrite (bool_decide_ext (cs_client s = c') (c' = c)) by (rewrite Hc; intuition). case_bool_decide as Ec; [|reflexivity]. subst c'.
  rewrite Hf. cbn [fmap option_fmap option_map]. rewrite Es', <- Es. now rewrite bool_decide_eq_false_2.
Qed.

Lemma unsubscribe_spec m c symbol :
  sessions_wf m ->
  exists r m', session_manager_unsubscribe_symbol (Some m) (Some c) (Some symbol) = Ok (r, Some m') /\
    sessions_wf m' /\ (r = 0%Z \/ r = (-1)%Z /\ m' = m) /\
    (r = 0%Z <-> exists syms, subscriptions m c = Some syms /\ symbol ∈ syms) /\
    (r = 0%Z -> forall c', subscriptions m' c' =
       if bool_decide (c' = c) then List.filter (fun x => negb (str_eq x symbol)) <$> subscriptions m c
       else subscriptions m c').
Proof.
  intros Hwf. pose proof Hwf as (Hn & Hm & Hd & Ho). cbn [session_manager_unsubscribe_symbol]. unfold subscriptions.
  destruct (find_session (sessions m) c) as [s|] eqn:Hf; cbn [fmap option_fmap option_map].
  2: { exists (-1)%Z, m. split_and!; auto; [|discriminate]. split; [discriminate | intros (? & [=] & _)]. }
  pose proof (find_session_Some _ _ _ Hf) as [Hin Hc]. rewrite Forall_forall in Ho. specialize (Ho _ Hin).
  rewrite (has_symbol_spec _ _ Ho). cbn [mbind res_bind].
  destruct (list_find (fun x => x = symbol) (symbols_of s)) as [[i x]|] eqn:El; cbn [fmap option_fmap option_map fst].
  - destruct (unsubscribe_session_ok s symbol i Ho) as (syms' & -> & Ho' & Es'); [now rewrite El |].
    apply list_find_Some in El as (El & -> & _). apply list_elem_of_lookup_2 in El.
    cbn [mbind res_bind]. do 2 eexists. split; [reflexivity |].
    split_and!; [apply (sessions_wf_update m s); auto; cbn; now rewrite Hc | now left | split; eauto |].
    intros _ c'. cbn [sessions with_sessions]. rewrite update_session_find. cbn [cs_client].
    rewrite (bool_decide_ext (cs_client s = c') (c' = c)) by (rewrite Hc; intuition). case_bool_decide as Ec; [|reflexivity]. subst c'.
    rewrite Hf. cbn [fmap option_fmap option_map]. now rewrite Es'.
  - apply list_find_None_iff in El. exists (-1)%Z, m. split_and!; auto; [|discriminate].
    split; [discriminate | intros (? & [= <-] & ?); contradiction].
Qed.

Lemma cleanup_spec now m :
  sessions_wf m -> Forall (clock_ok now) (sessions m) ->
  exists m', session_manager_cleanup_sessions now (Some m) = Ok (Some m') /\ sessions_wf m' /\
    sessions m' = List.filter (fun s => negb (expired now (session_timeout_ms m) s)) (sessions m).
Proof.
  intros (Hn & Hm & Hd & Ho) Hc. cbn [session_manager_cleanup_sessions].
  rewrite cleanup_loop_spec by (auto; lia). cbn [mbind res_bind]. eexists. split; [reflexivity |].
  split; [|reflexivity]. unfold sessions_wf. cbn.
  pose proof (List.filter_length_le (fun s => negb (expired now (session_timeout_ms m) s)) (sessions m)) as Hle.
  split_and!; try lia.
  - eapply sublist_clients_NoDup; [|exact Hd]. clear. induction (sessions m) as [|s ss IH]; cbn; [constructor |].
    destruct (negb _); [now apply sublist_skip | now apply sublist_cons].
  - apply Forall_forall. intros x Hx%list_elem_of_In. apply filter_In in Hx as [Hx _].
    rewrite Forall_forall in Ho. apply Ho. now apply list_elem_of_In.
Qed.

Lemma ping_spec clock m :
  sessions_wf m ->
  exists m', session_manager_ping_clients clock (Some m) = Some m' /\ sessions_wf m' /\
    (cs_client <$> sessions m') = (cs_client <$> sessions m) /\
    (symbols_of <$> sessions m') = (symbols_of <$> sessions m).
Proof.
  intros (Hn & Hm & Hd & Ho). eexists. split; [reflexivity |].
  assert (Hfix : forall (A : Type) (f : ClientSession -> A) (g : nat -> ClientSession -> ClientSession) ss,
    (forall i s, f (g i s) = f s) -> f <$> imap g ss = f <$> ss).
  { clear. intros A f g ss Hf. revert g Hf. induction ss as [|s ss IH]; intros g Hf; cbn; [reflexivity |].
    rewrite Hf. f_equal. apply IH. intros. apply Hf. }
  split_and!; cbn [sessions with_sessions]; try (apply Hfix; reflexivity).
  unfold sessions_wf. cbn. rewrite length_imap. split_and!; auto; try lia; [now rewrite Hfix |].
  apply Forall_lookup. intros i s Hi. apply list_lookup_imap_Some in Hi as (s0 & Hi & ->).
  exact (proj1 (Forall_lookup _ _) Ho i s0 Hi).
Qed.

(** ** Properties *)

(** C22: every operation of the session manager, run to completion, succeeds without
    undefined behaviour on a well-formed manager and leaves it well-formed: the count is
    the number of sessions and within the limit, no client has two sessions, and every
    session's array holds exactly its distinct symbols. *)
Theorem session_step_preserves_wf m op :
  sessions_wf m -> step_clock_ok m op ->
  exists m', session_step m op = Ok (Some m') /\ sessions_wf m'.
Proof.
  intros Hwf Hck. destruct op; cbn [session_step step_clock_ok] in *.
  - destruct (add_client_spec alloc_session alloc_array now m c Hwf) as (r & m' & -> & ? & _). cbn. eauto.
  - destruct (remove_client_spec m c Hwf) as (r & m' & -> & ? & _). cbn. eauto.
  - destruct (subscribe_spec strdup_ok m c symbol Hwf) as (r & m' & -> & ? & _). cbn. eauto.
  - destruct (unsubscribe_spec m c symbol Hwf) as (r & m' & -> & ? & _). cbn. eauto.
  - destruct (cleanup_spec now m Hwf Hck) as (m' & -> & ? & _). eauto.
  - destruct (ping_spec clock m Hwf) as (m' & -> & ? & _). eauto.
Qed.

Definition sample_session (c : client) (syms : list string) (ping : Z) : ClientSession :=
  mkClientSession c (map Some syms ++ replicate (MAX_SUBSCRIPTIONS - length syms) None) (length syms) ping.

Definition sample_manager : SessionManager :=
  mkSessionManager [sample_session 1%positive ["AAPL"; "MSFT"]%string 100; sample_session 2%positive ["AAPL"]%string 130] 2 3 30000.

Lemma sample_session_ok c syms ping :
  (length syms <= MAX_SUBSCRIPTIONS)%nat -> NoDup syms -> session_ok (sample_session c syms ping).
Proof.
  intros Hl Hd. exists syms, (replicate (MAX_SUBSCRIPTIONS - length syms) None). split_and!; auto.
  cbn [subscribed_symbols sample_session]. rewrite length_app, length_map, length_replicate. lia.
Qed.

Lemma sample_manager_wf : sessions_wf sample_manager.
Proof.
  unfold sessions_wf. split_and!; try reflexivity; try (vm_compute; discriminate); [by_decide |].
  repeat apply Forall_cons_2; try apply Forall_nil_2; apply sample_session_ok; by_decide.
Qed.

Lemma session_step_preserves_wf_witness :
  exists m', session_step sample_manager (SUnsubscribe 1%positive "AAPL") = Ok (Some m') /\ sessions_wf m'.
Proof. apply (session_step_preserves_wf sample_manager (SUnsubscribe 1%positive "AAPL") sample_manager_wf I). Defined.

(** C23: what the manager records is what was asked: on a well-formed manager a
    subscription returns 0 exactly when the client has a session with room and the symbol
    is there or can be copied, and then only that client's list gains it (once); an
    unsubscription returns 0 exactly when the symbol is there, and removes it from that
    client's list alone; otherwise both return -1 and change nothing at all; and
    [session_manager_is_subscribed] answers whether the symbol is in the client's list. *)
Theorem subscriptions_correct ok m c symbol :
  sessions_wf m ->
  (exists r m', session_manager_subscribe_symbol ok (Some m) (Some c) (Some symbol) = Ok (r, Some m') /\
     (r = 0%Z <-> exists syms, subscriptions m c = Some syms /\ (length syms < MAX_SUBSCRIPTIONS)%nat /\
                    (symbol ∈ syms \/ ok = true)) /\
     (r = 0%Z -> forall c', subscriptions m' c' =
        if bool_decide (c' = c)
        then (fun syms => if bool_decide (symbol ∈ syms) then syms else syms ++ [symbol]) <$> subscriptions m c
        else subscriptions m c') /\
     (r <> 0%Z -> r = (-1)%Z /\ m' = m)) /\
  (exists r m', session_manager_unsubscribe_symbol (Some m) (Some c) (Some symbol) = Ok (r, Some m') /\
     (r = 0%Z <-> exists syms, subscriptions m c = Some syms /\ symbol ∈ syms) /\
     (r = 0%Z -> forall c', subscriptions m' c' =
        if bool_decide (c' = c) then List.filter (fun x => negb (str_eq x symbol)) <$> subscriptions m c
        else subscriptions m c') /\
     (r <> 0%Z -> r = (-1)%Z /\ m' = m)) /\
  session_manager_is_subscribed (Some m) (Some c) (Some symbol) =
    Ok (match subscriptions m c with Some syms => bool_decide (symbol ∈ syms) | None => false end).
Proof.
  intros Hwf. split_and!.
  - destruct (subscribe_spec ok m c symbol Hwf) as (r & m' & E & _ & Hr & Hiff & Hz). exists r, m'. split_and!; auto; [|tauto].
    destruct (subscriptions m c) as [syms|]; [|split; [lia | intros (? & [=] & _)]].
    rewrite Hiff. split; [eauto | intros (? & [= <-] & H); exact H].
  - destruct (unsubscribe_spec m c symbol Hwf) as (r & m' & E & _ & Hr & Hiff & Hz). exists r, m'. split_and!; auto. tauto.
  - cbn [session_manager_is_subscribed]. unfold subscriptions.
    destruct (find_session (sessions m) c) as [s|] eqn:Hf; [|reflexivity]. cbn [fmap option_fmap option_map].
    destruct Hwf as (_ & _ & _ & Ho). rewrite Forall_forall in Ho.
    rewrite (has_symbol_spec s symbol) by (apply Ho; now apply find_session_Some in Hf). cbn [mbind res_bind].
    destruct (list_find _ (symbols_of s)) as [[i x]|] eqn:El; cbn.
    + apply list_find_Some in El as (El & -> & _). apply list_elem_of_lookup_2 in El. now rewrite bool_decide_eq_true_2.
    + apply list_find_None_iff in El. now rewrite bool_decide_eq_false_2.
Qed.

Lemma subscriptions_correct_witness :
  session_manager_is_subscribed (Some sample_manager) (Some 2%positive) (Some "MSFT"%string) = Ok false.
Proof. exact (proj2 (proj2 (subscriptions_correct true sample_manager 2%positive "MSFT" sample_manager_wf))). Defined.

(** The subscribers of a symbol are the clients whose lists contain it, newest
    session first, cut at the caller's limit. *)
Theorem get_subscribers_correct m symbol max_clients :
  sessions_wf m -> (0 < max_clients)%Z ->
  let all := cs_client <$> List.filter (fun s => bool_decide (symbol ∈ symbols_of s)) (sessions m) in
  session_manager_get_subscribers (Some m) (Some symbol) max_clients =
  Ok (Z.min max_clients (Z.of_nat (length all)), take (Z.to_nat max_clients) all).
Proof.
  intros (_ & _ & _ & Ho) Hm all. cbn [session_manager_get_subscribers].
  rewrite (proj2 (Z.leb_gt _ _) Hm), (collect_subscribers_spec _ _ _ Ho). cbn [mbind res_bind]. fold all.
  rewrite length_take. do 2 f_equal. lia.
Qed.

Lemma get_subscribers_correct_witness :
  session_manager_get_subscribers (Some sample_manager) (Some "AAPL"%string) 1 = Ok (1%Z, [1%positive]).
Proof. apply (get_subscribers_correct sample_manager "AAPL" 1 sample_manager_wf); lia. Defined.

(** Cleanup removes exactly the sessions whose last ping is more than the timeout
    ago, keeps the order of the others, and adjusts the count. *)
Theorem cleanup_removes_expired now m :
  sessions_wf m -> Forall (clock_ok now) (sessions m) ->
  exists m', session_manager_cleanup_sessions now (Some m) = Ok (Some m') /\ sessions_wf m' /\
    sessions m' = List.filter (fun s => negb (expired now (session_timeout_ms m) s)) (sessions m).
Proof. apply cleanup_spec. Qed.

Lemma cleanup_removes_expired_witness :
  exists m', session_manager_cleanup_sessions 140 (Some sample_manager) = Ok (Some m') /\ sessions_wf m' /\
    sessions m' = [sample_session 2%positive ["AAPL"]%string 130].
Proof.
  apply (cleanup_removes_expired 140 sample_manager sample_manager_wf).
  repeat constructor; vm_compute; discriminate.
Defined.

(** ** Concurrent additions

    Threads that each run [session_manager_add_client] for one client: the capacity
    check and the body under the lock are separate steps of the interleaving. *)

Inductive add_pc : Type :=
| AddStart
| AddChecked
| AddDone (r : Z).

Definition add_state : Type := SessionManager * list (client * add_pc).

Inductive add_step (now : Z) : add_state -> add_state -> Prop :=
| StepFull m ts i c :
    ts !! i = Some (c, AddStart) -> add_check m = false ->
    add_step now (m, ts) (m, <[i := (c, AddDone (-1))]> ts)
| StepCheck m ts i c :
    ts !! i = Some (c, AddStart) -> add_check m = true ->
    add_step now (m, ts) (m, <[i := (c, AddChecked)]> ts)
| StepBody m ts i c r m' :
    ts !! i = Some (c, AddChecked) -> add_locked true true now m c = Ok (r, m') ->
    add_step now (m, ts) (m', <[i := (c, AddDone r)]> ts).

(** Threads past the check that have not added yet. *)
Fixpoint checked (ts : list (client * add_pc)) : nat :=
  match ts with
  | [] => 0
  | (_, AddChecked) :: ts => S (checked ts)
  | _ :: ts => checked ts
  end.

Definition is_checked (pc : add_pc) : nat := match pc with AddChecked => 1 | _ => 0 end.

Lemma checked_insert ts i c pc c' pc' :
  ts !! i = Some (c, pc) -> (checked (<[i := (c', pc')]> ts) + is_checked pc = checked ts + is_checked pc')%nat.
Proof.
  revert i. induction ts as [|[c0 pc0] ts IH]; intros [|i] H; try discriminate.
  - injection H as -> ->. destruct pc, pc'; cbn; lia.
  - specialize (IH i H). change (<[S i := (c', pc')]> ((c0, pc0) :: ts)) with ((c0, pc0) :: <[i := (c', pc')]> ts).
    cbn [checked]. destruct pc0; lia.
Qed.

Lemma checked_le ts : (checked ts <= length ts)%nat.
Proof. induction ts as [|[c []] ts IH]; cbn; lia. Qed.

Lemma checked_insert_le ts i c pc c' pc' :
  ts !! i = Some (c, pc) -> (checked (<[i := (c', pc')]> ts) <= length ts)%nat.
Proof. intros _. etransitivity; [apply checked_le |]. now rewrite length_insert. Qed.

(** What holds in every reachable state of [n] adding threads. *)
Definition add_inv (n : nat) (s : add_state) : Prop :=
  length (snd s) = n /\
  (session_count (fst s) + Z.of_nat (checked (snd s)) <= max_sessions (fst s) + Z.of_nat n - 1)%Z.

Lemma add_locked_count now m c r m' :
  add_locked true true now m c = Ok (r, m') ->
  max_sessions m' = max_sessions m /\ (session_count m' <= session_count m + 1)%Z.
Proof.
  unfold add_locked. destruct (find_session _ _); cbn [negb]; intros H.
  - inv_res. lia.
  - apply bind_ok in H as (n & Hn & H). unfold int_add in Hn. case_match; inv_res. cbn. lia.
Qed.

Lemma add_step_inv now n s s' : add_step now s s' -> add_inv n s -> add_inv n s'.
Proof.
  intros Hst [Hl Hb]. inversion Hst; subst; cbn [fst snd] in *; split; cbn [fst snd]; rewrite ?length_insert; auto.
  - pose proof (checked_insert _ _ _ _ c (AddDone (-1)) H). cbn in *. lia.
  - pose proof (checked_insert_le _ _ _ _ c AddChecked H). unfold add_check in H0. apply Z.ltb_lt in H0. lia.
  - pose proof (checked_insert _ _ _ _ c (AddDone r) H) as Hc. cbn in Hc.
    destruct (add_locked_count _ _ _ _ _ H0) as [-> ?]. lia.
Qed.

(** C29: however the checks and bodies of [n] concurrent additions interleave, the number
    of sessions exceeds the limit by at most [n - 1]; with one thread it never does. *)
Theorem concurrent_adds_bounded now m ts s :
  ts <> [] -> (session_count m <= max_sessions m)%Z -> Forall (fun t => snd t = AddStart) ts ->
  rtc (add_step now) (m, ts) s ->
  (session_count (fst s) <= max_sessions (fst s) + Z.of_nat (length ts) - 1)%Z.
Proof.
  intros Hne Hm HF Hr. assert (H0 : add_inv (length ts) (m, ts)).
  { split; [reflexivity |]. cbn [fst snd]. assert (checked ts = 0%nat) as ->.
    { clear -HF. induction HF as [|[c pc] ts Hx _ IH]; cbn in *; [reflexivity | now subst]. }
    destruct ts; [contradiction |]. cbn [length]. lia. }
  assert (Hi : add_inv (length ts) s).
  { clear -Hr H0. revert H0. induction Hr; [auto |]. eauto using add_step_inv. }
  destruct Hi as [_ Hb]. lia.
Qed.

(** The limit is not kept when two additions race for the last place: both pass the
    check before either adds, and the manager ends with one session too many. *)
Theorem concurrent_adds_exceed_limit now m c1 c2 :
  sessions_wf m -> (session_count m + 1 = max_sessions m)%Z -> (max_sessions m < INT_MAX)%Z -> c1 <> c2 ->
  subscriptions m c1 = None -> subscriptions m c2 = None ->
  exists m', rtc (add_step now) (m, [(c1, AddStart); (c2, AddStart)])
      (m', [(c1, AddDone 0); (c2, AddDone 0)]) /\
    session_count m' = (max_sessions m' + 1)%Z.
Proof.
  intros (Hn & Hm & _) Hlast Hmax Hne Hs1 Hs2. unfold subscriptions in *.
  destruct (find_session (sessions m) c1) eqn:F1; [discriminate |].
  destruct (find_session (sessions m) c2) eqn:F2; [discriminate |].
  assert (Hc : add_check m = true) by (apply Z.ltb_lt; lia).
  assert (H1 : exists m1, add_locked true true now m c1 = Ok (0%Z, m1) /\ session_count m1 = (session_count m + 1)%Z /\
    max_sessions m1 = max_sessions m /\ find_session (sessions m1) c2 = None).
  { unfold add_locked. rewrite F1. cbn [negb]. rewrite int_add_ok by (unfold in_int, INT_MIN; lia).
    eexists. split; [reflexivity |]. cbn. rewrite bool_decide_eq_false_2 by congruence. auto. }
  destruct H1 as (m1 & E1 & N1 & X1 & F3).
  assert (H2 : exists m2, add_locked true true now m1 c2 = Ok (0%Z, m2) /\ session_count m2 = (session_count m1 + 1)%Z /\
    max_sessions m2 = max_sessions m1).
  { unfold add_locked. rewrite F3. cbn [negb]. rewrite int_add_ok by (unfold in_int, INT_MIN; lia).
    eexists. split; [reflexivity |]. auto. }
  destruct H2 as (m2 & E2 & N2 & X2). exists m2. split; [|lia].
  eapply rtc_l; [exact (StepCheck now m [(c1, AddStart); (c2, AddStart)] 0 c1 eq_refl Hc) |]. cbn [insert list_insert].
  eapply rtc_l; [exact (StepCheck now m [(c1, AddChecked); (c2, AddStart)] 1 c2 eq_refl Hc) |]. cbn [insert list_insert].
  eapply rtc_l; [exact (StepBody now m [(c1, AddChecked); (c2, AddChecked)] 0 c1 0 m1 eq_refl E1) |]. cbn [insert list_insert].
  apply rtc_once. exact (StepBody now m1 [(c1, AddDone 0); (c2, AddChecked)] 1 c2 0 m2 eq_refl E2).
Qed.

Lemma concurrent_adds_exceed_limit_witness :
  exists m', rtc (add_step 0) (sample_manager, [(3%positive, AddStart); (4%positive, AddStart)])
      (m', [(3%positive, AddDone 0); (4%positive, AddDone 0)]) /\
    session_count m' = (max_sessions m' + 1)%Z.
Proof.
  apply (concurrent_adds_exceed_limit 0 sample_manager 3%positive 4%positive); [apply sample_manager_wf | ..];
    try (vm_compute; reflexivity); discriminate.
Defined.

(** Two clients race for the last place, both get in, and the bound is reached. *)
Lemma concurrent_adds_bounded_witness :
  exists m', session_count m' = (max_sessions m' + 1)%Z /\ (session_count m' <= max_sessions m' + Z.of_nat 2 - 1)%Z.
Proof.
  destruct concurrent_adds_exceed_limit_witness as (m' & Hr & Hm). exists m'. split; [exact Hm |].
  apply (concurrent_adds_bounded 0 sample_manager [(3%positive, AddStart); (4%positive, AddStart)]
    (m', [(3%positive, AddDone 0); (4%positive, AddDone 0)])); [discriminate | vm_compute; discriminate | repeat constructor | exact Hr].
Defined.
