(* ===== verification/Handlers.v ===== *)
(** * The server's message queue, order books and handlers
    (src/src/server/server_handlers.c)

    [ServerHandlers] is the struct; [Server] is what the handlers work on: the struct,
    the orders, the strings allocated for queued messages, the network and the trade
    notifications handed to the broadcaster.  An [Env] holds what a call gets from
    outside: the clock (also as read for each trade), its formatting, which allocations succeed, and what the stack
    held where the parser writes.  Handlers are modelled as they run one at a time. *)

From Stdlib Require Import Ascii String ZArith Lia SpecFloat.
From stdpp Require Import base list numbers strings gmap.
From S2P Require Import Prelude SortedAssoc CDouble CString CJson Protocol JsonProtocol Order AvlTree.
From S2P Require Import OrderBook MatchSpec BookRefine WsServer.

Definition MAX_SYMBOLS : nat := 100.

(** ** Text *)

Definition dq : string := String (ascii_of_nat 34) "".
Definition quoted (s : string) : string := dq +:+ s +:+ dq.
Definition nl : string := String (ascii_of_nat 10) "".

Definition error_text (error_msg : string) : string :=
  snprintf 1024 ("{" +:+ quoted "type" +:+ ": " +:+ print_int MSG_ERROR +:+ ", " +:+ quoted "status" +:+ ": " +:+
    quoted "failed" +:+ ", " +:+ quoted "reason" +:+ ": " +:+ quoted error_msg +:+ "}").

Definition accept_text (is_buy : bool) (order_id trader_id symbol : string) (price : double) (quantity : Z)
    (timestamp : string) : string :=
  snprintf 1024 ("{" +:+ nl +:+
    "    " +:+ quoted "type" +:+ ": " +:+ print_int MSG_ORDER_ACCEPTED +:+ "," +:+ nl +:+
    "    " +:+ quoted "Trade Details" +:+ ": {" +:+ nl +:+
    "        " +:+ quoted "Type" +:+ ":          " +:+ quoted (if is_buy then "Buy" else "Sell") +:+ "," +:+ nl +:+
    "        " +:+ quoted "Order ID" +:+ ":      " +:+ quoted order_id +:+ "," +:+ nl +:+
    "        " +:+ quoted "Trader ID" +:+ ":     " +:+ quoted trader_id +:+ "," +:+ nl +:+
    "        " +:+ quoted "Symbol" +:+ ":        " +:+ quoted symbol +:+ "," +:+ nl +:+
    "        " +:+ quoted "Price" +:+ ":         " +:+ print_double2 price +:+ "," +:+ nl +:+
    "        " +:+ quoted "Quantity" +:+ ":      " +:+ print_int quantity +:+ nl +:+
    "    }," +:+ nl +:+
    "    " +:+ quoted "Timestamp" +:+ ":     " +:+ quoted timestamp +:+ "," +:+ nl +:+
    "    " +:+ quoted "status" +:+ ":        " +:+ quoted "success" +:+ nl +:+ "}").

Definition cancel_text (order_id symbol timestamp : string) : string :=
  snprintf 1024 ("{" +:+ nl +:+
    "    " +:+ quoted "type" +:+ ": " +:+ print_int MSG_ORDER_CANCELED +:+ "," +:+ nl +:+
    "    " +:+ quoted "Cancellation Details" +:+ ": {" +:+ nl +:+
    "        " +:+ quoted "Order ID" +:+ ":      " +:+ quoted order_id +:+ "," +:+ nl +:+
    "        " +:+ quoted "Symbol" +:+ ":        " +:+ quoted symbol +:+ nl +:+
    "    }," +:+ nl +:+
    "    " +:+ quoted "Timestamp" +:+ ":     " +:+ quoted timestamp +:+ "," +:+ nl +:+
    "    " +:+ quoted "status" +:+ ":        " +:+ quoted "success" +:+ nl +:+ "}").

(** ** State *)

Record HandlerConfig : Type := mkHandlerConfig {
  hc_thread_pool_size : Z;
  hc_max_message_size : Z;
  hc_message_queue_size : Z;
  hc_trade_broadcaster : option TradeBroadcaster
}.

Record ServerHandlers : Type := mkServerHandlers {
  sh_thread_count : Z;
  sh_running : bool;
  message_queue : list (option loc);
  client_queue : list (option client);
  queue_size : Z;
  queue_head : Z;
  queue_tail : Z;
  books : list (option OrderBook);
  symbols : list buffer;
  book_count : nat;
  sh_broadcaster : option TradeBroadcaster
}.

(** The allocations a call may make. *)
Inductive site : Type :=
| AllocBook | AllocBuyTree | AllocSellTree | AllocOrder | AllocNode | AllocSnapshot | AllocSend | AllocMessage.

Record Env : Type := mkEnv {
  e_now : Z;
  e_clock : nat -> Z;
  e_strftime : Z -> string;
  e_alloc : site -> bool;
  e_stack : OrderMessage
}.

Section Handlers.

Context {J : Type} `{CJ : CJson J} {N : Type} `{L : Lws N}.

Record Server : Type := mkServer {
  sv_handlers : ServerHandlers;
  sv_orders : order_heap;
  sv_msgs : gmap loc string;
  sv_net : N;
  sv_notes : list TradeNote
}.

Definition set_handlers (s : Server) (h : ServerHandlers) : Server :=
  mkServer h (sv_orders s) (sv_msgs s) (sv_net s) (sv_notes s).
Definition set_orders (s : Server) (o : order_heap) : Server :=
  mkServer (sv_handlers s) o (sv_msgs s) (sv_net s) (sv_notes s).
Definition set_msgs (s : Server) (m : gmap loc string) : Server :=
  mkServer (sv_handlers s) (sv_orders s) m (sv_net s) (sv_notes s).
Definition set_net (s : Server) (n : N) : Server :=
  mkServer (sv_handlers s) (sv_orders s) (sv_msgs s) n (sv_notes s).
Definition add_notes (s : Server) (l : list TradeNote) : Server :=
  mkServer (sv_handlers s) (sv_orders s) (sv_msgs s) (sv_net s) (sv_notes s ++ l).

(** Send a text to a client over the server's network. *)
Definition send_to (e : Env) (s : Server) (c : option client) (text : string) : Z * Server :=
  let '(r, n) := ws_server_send (e_alloc e AllocSend) c (Some text) (sv_net s) in (r, set_net s n).

Definition send_error_response (e : Env) (s : Server) (c : option client) (error_msg : string) : Z * Server :=
  send_to e s c (error_text error_msg).

(** ** Snapshots *)

Definition with_bid (snap : BookSnapshot) (p : arr double) (q : arr Z) : BookSnapshot :=
  mkBookSnapshot (bs_symbol snap) (bs_num_bids snap + 1) (bs_num_asks snap) (bs_max_orders snap) p q
    (bs_ask_prices snap) (bs_ask_quantities snap).
Definition with_ask (snap : BookSnapshot) (p : arr double) (q : arr Z) : BookSnapshot :=
  mkBookSnapshot (bs_symbol snap) (bs_num_bids snap) (bs_num_asks snap + 1) (bs_max_orders snap)
    (bs_bid_prices snap) (bs_bid_quantities snap) p q.

Definition collect_orders (h : order_heap) (l : loc) (snap : BookSnapshot) : res BookSnapshot :=
  o ← load h l;
  if o_is_canceled o || (o_remaining_quantity o <=? 0)%Z then Ok snap
  else if o_is_buy_order o then
    if (to_size (bs_num_bids snap) <? bs_max_orders snap)%Z then
      p ← arr_set (bs_bid_prices snap) (Z.to_nat (bs_num_bids snap)) (o_price o);
      q ← arr_set (bs_bid_quantities snap) (Z.to_nat (bs_num_bids snap)) (o_remaining_quantity o);
      Ok (with_bid snap p q)
    else Ok snap
  else
    if (to_size (bs_num_asks snap) <? bs_max_orders snap)%Z then
      p ← arr_set (bs_ask_prices snap) (Z.to_nat (bs_num_asks snap)) (o_price o);
      q ← arr_set (bs_ask_quantities snap) (Z.to_nat (bs_num_asks snap)) (o_remaining_quantity o);
      Ok (with_ask snap p q)
    else Ok snap.

(** The snapshot struct before it is filled: zeroed, the symbol copied, room for 200. *)
Definition empty_snapshot (symbol : string) : res BookSnapshot :=
  sym ← strncpy (zero_buffer 16) symbol 15;
  Ok (mkBookSnapshot sym 0 0 200 (new_arr 200) (new_arr 200) (new_arr 200) (new_arr 200)).

Definition fill_snapshot (h : order_heap) (b : OrderBook) (symbol : string) : res BookSnapshot :=
  snap ← empty_snapshot symbol;
  snap ← avl_inorder_traverse (buy_orders b) (collect_orders h) snap;
  avl_inorder_traverse (sell_orders b) (collect_orders h) snap.

(** ** Finding and creating books *)

(** [book] after the search: the index of a book that is not null. *)
Definition find_book (h : ServerHandlers) (symbol : string) : res (option nat) :=
  found ← find_name (symbols h) symbol 0 (book_count h);
  Ok (match (found : option nat) with
      | Some i => match books h !! i with Some (Some _) => Some i | _ => None end
      | None => None
      end).

Definition with_book (h : ServerHandlers) (i : nat) (b : OrderBook) : ServerHandlers :=
  mkServerHandlers (sh_thread_count h) (sh_running h) (message_queue h) (client_queue h) (queue_size h)
    (queue_head h) (queue_tail h) (<[i := Some b]> (books h)) (symbols h) (book_count h) (sh_broadcaster h).

(** Append a book under the symbol; the arrays have [MAX_SYMBOLS] cells. *)
Definition push_book (h : ServerHandlers) (b : OrderBook) (symbol : buffer -> res buffer) : res ServerHandlers :=
  match symbols h !! book_count h with
  | Some old =>
      if (book_count h <? length (books h))%nat then
        name ← symbol old;
        Ok (mkServerHandlers (sh_thread_count h) (sh_running h) (message_queue h) (client_queue h) (queue_size h)
              (queue_head h) (queue_tail h) (<[book_count h := Some b]> (books h))
              (<[book_count h := name]> (symbols h)) (S (book_count h)) (sh_broadcaster h))
      else UB OutOfBounds
  | None => UB OutOfBounds
  end.

Definition new_book (e : Env) (h : ServerHandlers) : option OrderBook :=
  order_book_create (e_alloc e AllocBook) (e_alloc e AllocBuyTree) (e_alloc e AllocSellTree) (sh_broadcaster h).

Definition find_or_create_book (e : Env) (h : ServerHandlers) (symbol : string)
    : res (option nat * ServerHandlers) :=
  found ← find_book h symbol;
  match (found : option nat) with
  | Some i => Ok (Some i, h)
  | None =>
      match new_book e h with
      | None => Ok (None, h)
      | Some b => h' ← push_book h b (fun old => strncpy old symbol 15); Ok (Some (book_count h), h')
      end
  end.

(** ** Handlers *)

Definition book_at (h : ServerHandlers) (i : nat) : res OrderBook :=
  match books h !! i with
  | Some (Some b) => Ok b
  | Some None => UB NullDeref
  | None => UB OutOfBounds
  end.

(** Send the snapshot of a book, if its arrays were allocated and it serialises. *)
Definition send_snapshot (e : Env) (s : Server) (c : option client) (b : OrderBook) (symbol : string) : res Server :=
  if negb (e_alloc e AllocSnapshot) then Ok s
  else
    snap ← fill_snapshot (sv_orders s) b symbol;
    json ← serialize_book_snapshot (Some snap);
    match (json : option string) with
    | Some text => Ok (snd (send_to e s c text))
    | None => Ok s
    end.

(** The part of [handle_place_order] with a book and a new order at [l]. *)
Definition place_in_book (e : Env) (s : Server) (c : option client) (i : nat) (l : loc)
    (order_id trader_id symbol : string) (order : OrderMessage) : res Server :=
  b ← book_at (sv_handlers s) i;
  '(_, b) ← order_book_add_order (e_alloc e AllocNode) (sv_orders s) (Some b) (Some l);
  b ← deref b;
  let text := accept_text (om_is_buy order) order_id trader_id symbol (om_price order) (om_quantity order)
                (e_strftime e (e_now e)) in
  let s := snd (send_to e s c text) in
  '(orders, b, notes) ← order_book_match_orders (S (book_size b)) (e_clock e) (sv_orders s) (Some b);
  b ← deref b;
  let s := add_notes (set_orders (set_handlers s (with_book (sv_handlers s) i b)) orders) notes in
  send_snapshot e s c b symbol.

Definition handle_place_order (e : Env) (s : Server) (c : option client) (root : J) : res (Z * Server) :=
  '(parsed, order) ← parse_order_message (cJSON_Print root) (Some (e_stack e));
  if negb (parsed : bool) then Ok (send_error_response e s c "Invalid order format")
  else
    order ← deref order;
    order_id ← c_str (om_order_id order);
    symbol ← c_str (om_symbol order);
    '(book, h) ← find_or_create_book e (sv_handlers s) symbol;
    let s := set_handlers s h in
    match (book : option nat) with
    | None => Ok (send_error_response e s c "Failed to place order")
    | Some i =>
        trader_id ← c_str (om_trader_id order);
        let '(new_order, orders) := order_create (e_alloc e AllocOrder) (e_now e) (sv_orders s)
              order_id trader_id symbol (om_price order) (om_quantity order) (om_is_buy order) in
        match new_order with
        | None => Ok (send_error_response e s c "Failed to place order")
        | Some l => s ← place_in_book e (set_orders s orders) c i l order_id trader_id symbol order; Ok (0%Z, s)
        end
    end.

(** [item && item->valuestring]. *)
Definition string_member (root : J) (k : string) : option string :=
  match cJSON_GetObjectItem root k with
  | Some i => valuestring i
  | None => None
  end.

Definition handle_cancel_order (e : Env) (s : Server) (c : option client) (root : J) : res (Z * Server) :=
  match string_member root "order_id", string_member root "symbol" with
  | Some order_id, Some symbol =>
      found ← find_book (sv_handlers s) symbol;
      match (found : option nat) with
      | None => Ok (send_error_response e s c "Order book not found")
      | Some i =>
          match cJSON_GetObjectItem root "is_buy" with
          | None => Ok (send_error_response e s c "Missing is_buy flag")
          | Some is_buy =>
              b ← book_at (sv_handlers s) i;
              '(r, orders) ← order_book_cancel_order (sv_orders s) (Some b) (Some order_id)
                               (negb (valueint is_buy =? 0)%Z);
              let s := set_orders s orders in
              if negb (r =? 0)%Z then Ok (send_error_response e s c "Order not found or already canceled")
              else Ok (0%Z, snd (send_to e s c (cancel_text order_id symbol (e_strftime e (e_now e)))))
          end
      end
  | _, _ => Ok (send_error_response e s c "Missing order_id or symbol")
  end.

Definition handle_book_request (e : Env) (s : Server) (c : option client) (root : J) : res (Z * Server) :=
  match string_member root "symbol" with
  | None => Ok (send_error_response e s c "Missing symbol")
  | Some symbol =>
      found ← find_book (sv_handlers s) symbol;
      match (found : option nat) with
      | None => Ok (send_error_response e s c "Order book not found")
      | Some i =>
          b ← book_at (sv_handlers s) i;
          if negb (e_alloc e AllocSnapshot) then Ok (send_error_response e s c "Memory allocation failed")
          else
            snap ← fill_snapshot (sv_orders s) b symbol;
            json ← serialize_book_snapshot (Some snap);
            match (json : option string) with
            | None => Ok (send_error_response e s c "Failed to serialize book snapshot")
            | Some text => Ok (0%Z, snd (send_to e s c text))
            end
      end
  end.

(** ** The queue *)

(** [strdup] of a message. *)
Definition new_message (s : Server) (text : string) : loc * Server :=
  let l := fresh (dom (sv_msgs s)) in (l, set_msgs s (<[l := text]> (sv_msgs s))).

Definition free_message (s : Server) (l : loc) : res Server :=
  match sv_msgs s !! l with
  | Some _ => Ok (set_msgs s (delete l (sv_msgs s)))
  | None => UB DoubleFree
  end.

(** [(i + 1) % queue_size]. *)
Definition next_index (h : ServerHandlers) (i : Z) : res Z :=
  j ← int_add i 1;
  if (queue_size h =? 0)%Z then UB DivisionByZero else Ok (Z.rem j (queue_size h)).

Definition with_queue (h : ServerHandlers) (mq : list (option loc)) (cq : list (option client)) (head tail : Z)
    : ServerHandlers :=
  mkServerHandlers (sh_thread_count h) (sh_running h) mq cq (queue_size h) head tail (books h) (symbols h)
    (book_count h) (sh_broadcaster h).

Definition server_handlers_process_message (e : Env) (s : Server) (c : option client) (message : option string)
    : res (Z * Server) :=
  match message with
  | None => Ok ((-1)%Z, s)
  | Some text =>
      let h := sv_handlers s in
      next ← next_index h (queue_tail h);
      if (next =? queue_head h)%Z then Ok ((-1)%Z, s)
      else if negb (e_alloc e AllocMessage) then Ok ((-1)%Z, s)
      else
        let '(l, s) := new_message s text in
        let i := Z.to_nat (queue_tail h) in
        if (queue_tail h <? 0)%Z || (length (message_queue h) <=? i)%nat then UB OutOfBounds
        else Ok (0%Z, set_handlers s (with_queue h (<[i := Some l]> (message_queue h))
                        (<[i := c]> (client_queue h)) (queue_head h) next))
  end.

(** What [dequeue_message] does each time it holds the mutex and has evaluated the condition
    of its loop: call [pthread_cond_wait] (after which, woken, it evaluates the condition
    again), give up because the workers stop, or return a message (by its location) with its
    client.  The condition variable itself is in [Workers]. *)
Inductive dequeued : Type :=
| DqWait
| DqStop
| DqMessage (message : option loc) (c : option client) (s : Server).

Definition dequeue_message (s : Server) : res dequeued :=
  let h := sv_handlers s in
  if negb (sh_running h) then Ok DqStop
  else if (queue_head h =? queue_tail h)%Z then Ok DqWait
  else
    match message_queue h !! Z.to_nat (queue_head h), client_queue h !! Z.to_nat (queue_head h) with
    | Some m, Some c =>
        if (queue_head h <? 0)%Z then UB OutOfBounds
        else
          head ← next_index h (queue_head h);
          Ok (DqMessage m c (set_handlers s (with_queue h (message_queue h) (client_queue h) head (queue_tail h))))
    | _, _ => UB OutOfBounds
    end.

(** ** Workers *)

(** The lookup in [message_handlers] and the call. *)
Definition dispatch (e : Env) (s : Server) (c : option client) (msg_type : Z) (root : J) : res Server :=
  if (msg_type =? MSG_PLACE_ORDER)%Z then snd <$> handle_place_order e s c root
  else if (msg_type =? MSG_CANCEL_ORDER)%Z then snd <$> handle_cancel_order e s c root
  else if (msg_type =? MSG_REQUEST_BOOK)%Z then snd <$> handle_book_request e s c root
  else Ok (snd (send_error_response e s c "Unsupported message type")).

(** What a worker does with one message. *)
Definition process_text (e : Env) (s : Server) (c : option client) (text : string) : res Server :=
  match parse_base_message (J := J) (Some text) with
  | None => Ok (snd (send_error_response e s c "Invalid message format"))
  | Some msg_type =>
      match cJSON_Parse (J := J) text with
      | None => Ok (snd (send_error_response e s c "Invalid JSON"))
      | Some root => dispatch e s c msg_type root
      end
  end.

(** One turn of the loop of a worker that runs alone: [None] when it waits or ends. *)
Definition worker_turn (e : Env) (s : Server) : res (option Server) :=
  if negb (sh_running (sv_handlers s)) then Ok None
  else
    d ← dequeue_message s;
    match (d : dequeued) with
    | DqWait | DqStop => Ok None
    | DqMessage None _ s => Ok (Some s)
    | DqMessage (Some l) c s =>
        match sv_msgs s !! l with
        | None => UB UseAfterFree
        | Some text =>
            s ← process_text e s c text;
            s ← free_message s l;
            Ok (Some s)
        end
    end.

(** ** Life cycle *)

Definition server_handlers_create (calloc_ok queues_ok : bool) (config : HandlerConfig) : option ServerHandlers :=
  if negb calloc_ok then None
  else if negb queues_ok then None
  else
    let n := Z.to_nat (hc_message_queue_size config) in
    Some (mkServerHandlers (hc_thread_pool_size config) false (replicate n None) (replicate n None)
            (hc_message_queue_size config) 0 0 (replicate MAX_SYMBOLS None)
            (replicate MAX_SYMBOLS (zero_buffer 16)) 0 (hc_trade_broadcaster config)).

Definition with_sh_running (h : ServerHandlers) (r : bool) : ServerHandlers :=
  mkServerHandlers (sh_thread_count h) r (message_queue h) (client_queue h) (queue_size h)
    (queue_head h) (queue_tail h) (books h) (symbols h) (book_count h) (sh_broadcaster h).

(** The loop of [pthread_create] calls from the [i]-th on, with which of them succeed: the
    number of threads created, and whether it was all of them. *)
Fixpoint create_threads (thread_ok : nat -> bool) (i n : nat) : nat * bool :=
  match n with
  | O => (i, true)
  | S n => if thread_ok i then create_threads thread_ok (S i) n else (i, false)
  end.

(** The result, the handlers, and the number of worker threads created; after a failure
    those created before it are left to run. *)
Definition server_handlers_start_workers (thread_ok : nat -> bool) (h : option ServerHandlers)
    : Z * option ServerHandlers * nat :=
  match h with
  | None => ((-1)%Z, None, 0%nat)
  | Some hd =>
      if sh_running hd then ((-1)%Z, h, 0%nat)
      else
        let '(created, all) := create_threads thread_ok 0 (Z.to_nat (sh_thread_count hd)) in
        if all then (0%Z, Some (with_sh_running hd true), created)
        else ((-1)%Z, Some (with_sh_running hd false), created)
  end.

(** The data part of the call: the flag.  The broadcast and the joins are in [Workers]. *)
Definition server_handlers_stop_workers (h : option ServerHandlers) : Z * option ServerHandlers :=
  match h with
  | None => ((-1)%Z, None)
  | Some hd => if negb (sh_running hd) then ((-1)%Z, h) else (0%Z, Some (with_sh_running hd false))
  end.

(** [free] of every queue slot, null or not. *)
Fixpoint free_slots (s : Server) (slots : list (option loc)) : res Server :=
  match slots with
  | [] => Ok s
  | None :: slots => free_slots s slots
  | Some l :: slots => s ← free_message s l; free_slots s slots
  end.

(** The tree nodes freed with the books, and the strings that remain allocated. *)
Definition server_handlers_destroy (s : Server) : res (list (double * Z * loc) * gmap loc string) :=
  let h := snd (server_handlers_stop_workers (Some (sv_handlers s))) in
  h ← deref h;
  let nodes := concat (order_book_destroy <$> take (book_count h) (books h)) in
  s ← free_slots s (message_queue h);
  Ok (nodes, sv_msgs s).

Definition server_handlers_get_order_book (h : option ServerHandlers) (symbol : option string)
    : res (option OrderBook) :=
  match h, symbol with
  | Some h, Some symbol =>
      found ← find_name (symbols h) symbol 0 (book_count h);
      match (found : option nat) with
      | Some i => match books h !! i with Some b => Ok b | None => UB OutOfBounds end
      | None => Ok None
      end
  | _, _ => Ok None
  end.

Definition server_handlers_add_order_book (e : Env) (h : option ServerHandlers) (symbol : option string)
    : res (Z * option ServerHandlers) :=
  match h, symbol with
  | Some hd, Some symbol =>
      if (MAX_SYMBOLS <=? book_count hd)%nat then Ok ((-1)%Z, h)
      else
        found ← find_name (symbols hd) symbol 0 (book_count hd);
        match (found : option nat) with
        | Some _ => Ok ((-1)%Z, h)
        | None =>
            match new_book e hd with
            | None => Ok ((-1)%Z, h)
            | Some b =>
                h' ← push_book hd b (fun old => name ← strncpy old symbol 15; Ok (buf_set name 15 NUL));
                Ok (0%Z, Some h')
            end
        end
  | _, _ => Ok ((-1)%Z, h)
  end.

End Handlers.

Arguments Server N : clear implicits.
