(* ===== verification/HandlerQueue.v ===== *)
(** * The message queue is a bounded FIFO queue

    The ring buffer of [Handlers] ([server_handlers_process_message],
    [dequeue_message]) refines a list: [queue_rep] relates the two, enqueueing appends
    while fewer than [queue_size - 1] messages wait, dequeueing takes the oldest. *)

From Stdlib Require Import Ascii String ZArith Lia SpecFloat.
From stdpp Require Import base list numbers strings gmap fin_maps.
From S2P Require Import Prelude CDouble CString CJson Protocol JsonProtocol Order AvlTree OrderBook WsServer Handlers.

(** A queued message: its string's location and text, and the client it came from. *)
Record queued : Type := mkQueued { q_loc : loc; q_text : string; q_client : option client }.

Section Queue.

Context {N : Type}.

Implicit Types s : Server N.

(** The slot of the [k]-th waiting message. *)
Definition slot (h : ServerHandlers) (k : nat) : nat := Z.to_nat ((queue_head h + Z.of_nat k) mod queue_size h).

Definition queue_rep s (q : list queued) : Prop :=
  let h := sv_handlers s in
  (0 < queue_size h < INT_MAX)%Z /\
  length (message_queue h) = Z.to_nat (queue_size h) /\ length (client_queue h) = Z.to_nat (queue_size h) /\
  (0 <= queue_head h < queue_size h)%Z /\
  queue_tail h = ((queue_head h + Z.of_nat (length q)) mod queue_size h)%Z /\
  (Z.of_nat (length q) < queue_size h)%Z /\
  NoDup (q_loc <$> q) /\
  (forall k x, q !! k = Some x ->
     message_queue h !! slot h k = Some (Some (q_loc x)) /\ client_queue h !! slot h k = Some (q_client x) /\
     sv_msgs s !! q_loc x = Some (q_text x)).

Lemma slot_lt h k : (0 < queue_size h)%Z -> (slot h k < Z.to_nat (queue_size h))%nat.
Proof. intros H. unfold slot. pose proof (Z.mod_pos_bound (queue_head h + Z.of_nat k) _ H). lia. Qed.

(** Different positions of a queue that is not longer than the buffer use different slots. *)
Lemma slot_inj h k k' :
  (0 < queue_size h)%Z -> (Z.of_nat k < queue_size h)%Z -> (Z.of_nat k' < queue_size h)%Z ->
  slot h k = slot h k' -> k = k'.
Proof.
  intros Hn Hk Hk' E. unfold slot in E.
  pose proof (Z.mod_pos_bound (queue_head h + Z.of_nat k) _ Hn).
  pose proof (Z.mod_pos_bound (queue_head h + Z.of_nat k') _ Hn).
  apply Z2Nat.inj in E; [|lia..].
  assert (D : ((Z.of_nat k - Z.of_nat k') mod queue_size h = 0)%Z).
  { replace (Z.of_nat k - Z.of_nat k')%Z with ((queue_head h + Z.of_nat k) - (queue_head h + Z.of_nat k'))%Z by lia.
    rewrite Zminus_mod, E, Z.sub_diag. now apply Z.mod_0_l; lia. }
  apply Z.mod_divide in D as [z D]; [|lia].
  assert (z = 0%Z) by nia. lia.
Qed.

Lemma next_index_ok h i :
  (0 < queue_size h < INT_MAX)%Z -> (0 <= i < queue_size h)%Z -> next_index h i = Ok ((i + 1) mod queue_size h)%Z.
Proof.
  intros Hn Hi. unfold next_index. rewrite int_add_ok by (unfold in_int, INT_MIN; lia). cbn [mbind res_bind].
  rewrite (proj2 (Z.eqb_neq _ _)) by lia. now rewrite Z.rem_mod_nonneg by lia.
Qed.

Lemma tail_range s q : queue_rep s q -> (0 <= queue_tail (sv_handlers s) < queue_size (sv_handlers s))%Z.
Proof. intros (Hn & _ & _ & _ & -> & _). apply Z.mod_pos_bound. lia. Qed.

(** The buffer is full exactly when one slot is left. *)
Lemma full_test s q :
  queue_rep s q ->
  let h := sv_handlers s in
  ((queue_tail h + 1) mod queue_size h =? queue_head h)%Z = (Z.of_nat (length q) =? queue_size h - 1)%Z.
Proof.
  intros (Hn & _ & _ & Hh & Ht & Hl & _) h. subst h. set (h := sv_handlers s) in *. rewrite Ht.
  rewrite Zplus_mod_idemp_l. destruct (Z.eqb_spec (Z.of_nat (length q)) (queue_size h - 1)) as [E|E].
  - rewrite E. replace (queue_head h + (queue_size h - 1) + 1)%Z with (queue_head h + 1 * queue_size h)%Z by lia.
    rewrite Z_mod_plus_full, Z.mod_small by lia. apply Z.eqb_refl.
  - apply Z.eqb_neq. intros D.
    assert (H0 : ((Z.of_nat (length q) + 1) mod queue_size h = 0)%Z).
    { replace (Z.of_nat (length q) + 1)%Z with ((queue_head h + Z.of_nat (length q) + 1) - queue_head h)%Z by lia.
      rewrite Zminus_mod, D, (Z.mod_small (queue_head h)) by lia. rewrite Z.sub_diag. apply Z.mod_0_l. lia. }
    rewrite Z.mod_small in H0 by lia. lia.
Qed.

(** Enqueueing: refused when full, otherwise appended. *)
Lemma enqueue_refines e s q c text :
  queue_rep s q -> e_alloc e AllocMessage = true ->
  if (Z.of_nat (length q) =? queue_size (sv_handlers s) - 1)%Z
  then server_handlers_process_message e s c (Some text) = Ok ((-1)%Z, s)
  else exists s' l, server_handlers_process_message e s c (Some text) = Ok (0%Z, s') /\
         queue_rep s' (q ++ [mkQueued l text c]) /\
         sh_running (sv_handlers s') = sh_running (sv_handlers s) /\
         queue_size (sv_handlers s') = queue_size (sv_handlers s) /\
         sv_msgs s !! l = None /\ sv_msgs s' = <[l := text]> (sv_msgs s) /\
         queue_head (sv_handlers s') = queue_head (sv_handlers s) /\
         message_queue (sv_handlers s') = <[slot (sv_handlers s) (length q) := Some l]> (message_queue (sv_handlers s)).
Proof.
  intros Hq Ha. pose proof (tail_range s q Hq) as Htr. pose proof (full_test s q Hq) as Hft. cbv zeta in Hft.
  pose proof Hq as (Hn & Lm & Lc & Hh & Ht & Hl & Hd & Hslots).
  cbn [server_handlers_process_message]. rewrite next_index_ok by assumption. cbn [mbind res_bind]. rewrite Hft.
  destruct (Z.eqb_spec (Z.of_nat (length q)) (queue_size (sv_handlers s) - 1)) as [E|E]; [reflexivity |].
  rewrite Ha. cbn [negb new_message]. set (l := fresh (dom (sv_msgs s))).
  rewrite (proj2 (Z.ltb_ge _ _)), (proj2 (Nat.leb_gt _ _)) by lia. cbn [orb].
  assert (Hfresh : sv_msgs s !! l = None) by (apply not_elem_of_dom, is_fresh).
  assert (Hslot : Z.to_nat (queue_tail (sv_handlers s)) = slot (sv_handlers s) (length q)) by (unfold slot; now rewrite Ht).
  eexists _, l. split; [reflexivity |].
  split; [|split_and!; [reflexivity.. | exact Hfresh | reflexivity | reflexivity | now rewrite <- Hslot]].
  unfold queue_rep. cbn [sv_handlers set_handlers set_msgs sv_msgs with_queue message_queue client_queue queue_size
    queue_head queue_tail]. rewrite !length_insert, length_app. cbn [length]. split_and!; auto; try lia.
  - rewrite Ht, Zplus_mod_idemp_l. f_equal. lia.
  - rewrite fmap_app. apply NoDup_app. split_and!; [exact Hd | | apply NoDup_singleton].
    intros x Hx ->%list_elem_of_singleton. apply list_elem_of_fmap in Hx as (y & Ey & Hy).
    apply list_elem_of_lookup in Hy as (k & Hk). destruct (Hslots _ _ Hk) as (_ & _ & Hm). cbn in Ey. congruence.
  - intros k x Hk. change (slot (with_queue _ _ _ _ _) k) with (slot (sv_handlers s) k). rewrite Hslot.
    apply lookup_app_Some in Hk as [Hk|[Hge Hk]].
    + assert (Hlt : (k < length q)%nat) by (eapply lookup_lt_Some; eauto).
      destruct (Hslots _ _ Hk) as (H1 & H2 & H3).
      rewrite !list_lookup_insert_ne by (intros D; apply slot_inj in D; lia).
      rewrite lookup_insert_ne by congruence. auto.
    + apply list_lookup_singleton_Some in Hk as [Hz <-]. assert (k = length q) as -> by lia.
      pose proof (slot_lt (sv_handlers s) (length q) ltac:(lia)).
      rewrite !list_lookup_insert_eq by lia. rewrite lookup_insert_eq. auto.
Qed.

(** Without memory for the copy nothing is queued. *)
Lemma enqueue_no_memory e s q c text :
  queue_rep s q -> e_alloc e AllocMessage = false ->
  server_handlers_process_message e s c (Some text) = Ok ((-1)%Z, s).
Proof.
  intros Hq Ha. pose proof (tail_range s q Hq). cbn [server_handlers_process_message].
  rewrite next_index_ok by (try assumption; apply Hq). cbn [mbind res_bind]. rewrite Ha. now case_match.
Qed.

(** Dequeueing: waits when empty, otherwise returns the oldest. *)
Lemma dequeue_empty s : queue_rep s [] -> sh_running (sv_handlers s) = true -> dequeue_message s = Ok DqWait.
Proof.
  intros (Hn & _ & _ & Hh & Ht & _) Hr. unfold dequeue_message. rewrite Hr. cbn [negb].
  cbn [length] in Ht. rewrite Z.add_0_r, Z.mod_small in Ht by lia. now rewrite Ht, Z.eqb_refl.
Qed.

Lemma dequeue_refines s x q :
  queue_rep s (x :: q) -> sh_running (sv_handlers s) = true ->
  exists s', dequeue_message s = Ok (DqMessage (Some (q_loc x)) (q_client x) s') /\ queue_rep s' q /\
    sv_msgs s' = sv_msgs s /\ sh_running (sv_handlers s') = true /\
    queue_size (sv_handlers s') = queue_size (sv_handlers s) /\
    message_queue (sv_handlers s') = message_queue (sv_handlers s) /\
    (forall k, slot (sv_handlers s') k = slot (sv_handlers s) (S k)).
Proof.
  intros (Hn & Lm & Lc & Hh & Ht & Hl & Hd & Hslots) Hr. unfold dequeue_message. rewrite Hr. cbn [negb].
  set (h := sv_handlers s) in *. cbn [length] in Ht, Hl.
  assert (Hne : queue_head h <> queue_tail h).
  { rewrite Ht. intros D. assert (H0 : (Z.of_nat (S (length q)) mod queue_size h = 0)%Z).
    { replace (Z.of_nat (S (length q))) with ((queue_head h + Z.of_nat (S (length q))) - queue_head h)%Z by lia.
      rewrite Zminus_mod, <- D, (Z.mod_small (queue_head h)) by lia. rewrite Z.sub_diag. apply Z.mod_0_l. lia. }
    rewrite Z.mod_small in H0 by lia. lia. }
  rewrite (proj2 (Z.eqb_neq _ _) Hne). destruct (Hslots 0%nat x eq_refl) as (H1 & H2 & _).
  assert (S0 : slot h 0 = Z.to_nat (queue_head h)) by (unfold slot; now rewrite Z.add_0_r, Z.mod_small by lia).
  rewrite S0 in H1, H2. rewrite H1, H2, (proj2 (Z.ltb_ge _ _)) by lia. rewrite next_index_ok by assumption.
  cbn [mbind res_bind]. eexists. split; [reflexivity |].
  assert (Hsl : forall k, slot (with_queue h (message_queue h) (client_queue h) ((queue_head h + 1) mod queue_size h)
      (queue_tail h)) k = slot h (S k)).
  { intros k. unfold slot. cbn [queue_head queue_size with_queue]. f_equal. rewrite Zplus_mod_idemp_l. f_equal. lia. }
  split; [|repeat split; auto]. unfold queue_rep.
  cbn [sv_handlers set_handlers sv_msgs with_queue message_queue client_queue queue_size queue_head queue_tail].
  split_and!; auto; try lia; try (apply Z.mod_pos_bound; lia).
  - rewrite Ht, Zplus_mod_idemp_l. f_equal. lia.
  - now apply NoDup_cons in Hd as [_ Hd].
  - intros k y Hk. rewrite Hsl. now apply Hslots.
Qed.

(** Freeing the message taken leaves the waiting ones alone. *)
Lemma free_taken s x q :
  queue_rep s q -> sv_msgs s !! q_loc x = Some (q_text x) -> q_loc x ∉ q_loc <$> q ->
  exists s', free_message s (q_loc x) = Ok s' /\ queue_rep s' q /\ sv_handlers s' = sv_handlers s /\
    sv_msgs s' = delete (q_loc x) (sv_msgs s).
Proof.
  intros (Hn & Lm & Lc & Hh & Ht & Hl & Hd & Hslots) Hm Hni. unfold free_message. rewrite Hm.
  eexists. split; [reflexivity |]. split; [|auto]. unfold queue_rep. cbn [sv_handlers set_msgs sv_msgs].
  split_and!; auto; try lia. intros k y Hk. destruct (Hslots k y Hk) as (H1 & H2 & H3). split_and!; auto.
  rewrite lookup_delete_ne; [exact H3 |]. intros E. apply Hni. rewrite E. apply list_elem_of_fmap_2.
  eapply list_elem_of_lookup_2; eauto.
Qed.

(** The queue operations leave the books and the orders alone. *)
Definition books_kept s s' : Prop :=
  sv_orders s' = sv_orders s /\ sv_notes s' = sv_notes s /\
  books (sv_handlers s') = books (sv_handlers s) /\ symbols (sv_handlers s') = symbols (sv_handlers s) /\
  book_count (sv_handlers s') = book_count (sv_handlers s) /\
  sh_broadcaster (sv_handlers s') = sh_broadcaster (sv_handlers s).

Lemma enqueue_frame e s c text r s' :
  server_handlers_process_message e s c (Some text) = Ok (r, s') -> books_kept s s'.
Proof.
  cbn [server_handlers_process_message]. intros (next & _ & H)%bind_ok. unfold books_kept.
  repeat case_match; unfold new_message in *; simplify_eq; split_and!; reflexivity.
Qed.

Lemma dequeue_frame s m c s' : dequeue_message s = Ok (DqMessage m c s') -> books_kept s s'.
Proof.
  unfold dequeue_message. intros H. repeat case_match; simplify_eq.
  apply bind_ok in H as (head & _ & H). simplify_eq. split_and!; reflexivity.
Qed.

(** ** Runs of the queue *)

Inductive queue_op : Type :=
| QPut (text : string) (c : option client)
| QTake.

(** What an operation reports: a put its result, a take the message or that it waits. *)
Inductive queue_out : Type :=
| OPut (r : Z)
| OTake (m : option (string * option client)).

(** A take reads the message and frees it, as a worker does. *)
Definition queue_step (e : Env) s (op : queue_op) : res (queue_out * Server N) :=
  match op with
  | QPut text c => '(r, s) ← server_handlers_process_message e s c (Some text); Ok (OPut r, s)
  | QTake =>
      d ← dequeue_message s;
      match (d : dequeued) with
      | DqMessage (Some l) c s' =>
          match sv_msgs s' !! l with
          | Some text => s'' ← free_message s' l; Ok (OTake (Some (text, c)), s'')
          | None => UB UseAfterFree
          end
      | DqMessage None _ _ => UB NullDeref
      | _ => Ok (OTake None, s)
      end
  end.

Fixpoint queue_run (e : Env) s (ops : list queue_op) : res (list queue_out * Server N) :=
  match ops with
  | [] => Ok ([], s)
  | op :: ops =>
      '(o, s) ← queue_step e s op;
      '(os, s) ← queue_run e s ops;
      Ok (o :: os, s)
  end.

(** A first-in first-out queue of at most [capacity] messages. *)
Fixpoint fifo_run (capacity : Z) (q : list (string * option client)) (ops : list queue_op) : list queue_out :=
  match ops with
  | [] => []
  | QPut text c :: ops =>
      if (Z.of_nat (length q) =? capacity)%Z then OPut (-1) :: fifo_run capacity q ops
      else OPut 0 :: fifo_run capacity (q ++ [(text, c)]) ops
  | QTake :: ops =>
      match q with
      | [] => OTake None :: fifo_run capacity q ops
      | m :: q => OTake (Some m) :: fifo_run capacity q ops
      end
  end.

Definition payload (x : queued) : string * option client := (q_text x, q_client x).

(** ** Properties *)

(** C11: the ring buffer behaves, on every sequence of enqueue and dequeue operations, as a
    first-in first-out queue of [queue_size - 1] messages: a message is refused exactly
    when the queue is full, messages come out in the order they went in, each with its
    client, and nothing crashes. *)
Theorem queue_is_fifo e s q ops :
  queue_rep s q -> sh_running (sv_handlers s) = true -> e_alloc e AllocMessage = true ->
  exists s', queue_run e s ops = Ok (fifo_run (queue_size (sv_handlers s) - 1) (payload <$> q) ops, s').
Proof.
  intros Hq Hr Ha. revert s q Hq Hr. induction ops as [|op ops IH]; intros s q Hq Hr; [eexists; reflexivity |].
  destruct op as [text c|]; cbn [queue_run queue_step fifo_run].
  - pose proof (enqueue_refines e s q c text Hq Ha) as H. rewrite length_fmap. destruct (Z.eqb _ _).
    + rewrite H. cbn [mbind res_bind]. destruct (IH s q Hq Hr) as (s' & ->). eexists; reflexivity.
    + destruct H as (s1 & l & -> & Hq1 & Hr1 & Hs1 & _). cbn [mbind res_bind].
      destruct (IH s1 _ Hq1) as (s' & E); [congruence |]. rewrite E, Hs1. cbn [mbind res_bind].
      rewrite fmap_app. eexists; reflexivity.
  - destruct q as [|x q].
    + rewrite (dequeue_empty s Hq Hr). cbn [mbind res_bind]. destruct (IH s [] Hq Hr) as (s' & ->). eexists; reflexivity.
    + destruct (dequeue_refines s x q Hq Hr) as (s1 & -> & Hq1 & Hm1 & Hr1 & Hs1 & _). cbn [mbind res_bind].
      destruct Hq as (_ & _ & _ & _ & _ & _ & Hd & Hslots). destruct (Hslots 0%nat x eq_refl) as (_ & _ & Hx).
      rewrite Hm1, Hx. apply NoDup_cons in Hd as [Hni _]. rewrite <- Hm1 in Hx.
      destruct (free_taken s1 x q Hq1 Hx Hni) as (s2 & -> & Hq2 & Hh2 & _). cbn [mbind res_bind].
      destruct (IH s2 q Hq2) as (s' & E); [now rewrite Hh2 |]. rewrite E, Hh2, Hs1. eexists; reflexivity.
Qed.

Lemma free_slots_live s slots s' l :
  free_slots s slots = Ok s' -> Some l ∈ slots -> is_Some (sv_msgs s !! l).
Proof.
  revert s. induction slots as [|[l0|] slots IH]; intros s Hf Hin; cbn in Hf.
  - inversion Hin.
  - apply bind_ok in Hf as (s1 & H1 & H2). unfold free_message in H1. destruct (sv_msgs s !! l0) eqn:E0; [|discriminate].
    inv_res. apply elem_of_cons in Hin as [[= ->]|Hin]; [eauto |].
    destruct (IH _ H2 Hin) as [t Ht]. cbn in Ht. apply lookup_delete_Some in Ht as [_ Ht]. eauto.
  - apply elem_of_cons in Hin as [[=]|Hin]. eauto.
Qed.

Lemma free_slots_fails s slots : (exists s', free_slots s slots = Ok s') \/ free_slots s slots = UB DoubleFree.
Proof.
  revert s. induction slots as [|[l0|] slots IH]; intros s; cbn; eauto.
  unfold free_message. destruct (sv_msgs s !! l0); cbn; auto.
Qed.

(** Freeing the slots succeeds only if they are distinct, and then frees exactly them. *)
Lemma free_slots_distinct s slots s' i j l :
  free_slots s slots = Ok s' -> slots !! i = Some (Some l) -> slots !! j = Some (Some l) -> i = j.
Proof.
  revert s i j. induction slots as [|[l0|] slots IH]; intros s i j Hf Hi Hj; cbn in Hf; [discriminate | |].
  - apply bind_ok in Hf as (s1 & H1 & H2). unfold free_message in H1. destruct (sv_msgs s !! l0) eqn:E0; [|discriminate H1].
    inv_res. assert (Hgone : forall k, slots !! k <> Some (Some l0)).
    { intros k Hk%list_elem_of_lookup_2. destruct (free_slots_live _ _ _ _ H2 Hk) as [t Ht]. cbn in Ht.
      rewrite lookup_delete_eq in Ht. discriminate Ht. }
    destruct i as [|i], j as [|j]; cbn in Hi, Hj; [reflexivity | | |].
    + injection Hi as ->. now destruct (Hgone j).
    + injection Hj as ->. now destruct (Hgone i).
    + f_equal. eauto.
  - destruct i as [|i], j as [|j]; cbn in Hi, Hj; try discriminate; f_equal; eauto.
Qed.

Lemma free_slots_all s slots :
  (forall l, Some l ∈ slots -> is_Some (sv_msgs s !! l)) ->
  (forall i j l, slots !! i = Some (Some l) -> slots !! j = Some (Some l) -> i = j) ->
  exists s', free_slots s slots = Ok s' /\
    forall l, is_Some (sv_msgs s' !! l) -> is_Some (sv_msgs s !! l) /\ Some l ∉ slots.
Proof.
  revert s. induction slots as [|[l0|] slots IH]; intros s Hl Hd; cbn [free_slots].
  - exists s. split; [reflexivity |]. intros l H. split; [exact H | apply not_elem_of_nil].
  - assert (Hgone : Some l0 ∉ slots).
    { intros [k Hk]%list_elem_of_lookup. assert (0 = S k)%nat by (apply (Hd 0%nat (S k) l0); [reflexivity | exact Hk]). lia. }
    destruct (Hl l0) as [t Ht]; [now left |]. unfold free_message. rewrite Ht. cbn [mbind res_bind].
    destruct (IH (set_msgs s (delete l0 (sv_msgs s)))) as (s' & -> & Hs').
    + intros l Hin. cbn [sv_msgs set_msgs]. rewrite lookup_delete_ne by (intros ->; contradiction). apply Hl. now right.
    + intros i j l Hi Hj. assert (S i = S j) by (eapply Hd; eauto). lia.
    + exists s'. split; [reflexivity |]. intros l H. destruct (Hs' l H) as [[u Hu] Hni]. cbn in Hu.
      apply lookup_delete_Some in Hu as [Hne Hu]. split; [eauto |]. rewrite elem_of_cons. intros [[= ->]|]; contradiction.
  - destruct (IH s) as (s' & -> & Hs').
    + intros l Hin. apply Hl. now right.
    + intros i j l Hi Hj. assert (S i = S j) by (eapply Hd; eauto). lia.
    + exists s'. split; [reflexivity |]. intros l H. destruct (Hs' l H) as [H1 H2]. split; [exact H1 |].
      rewrite elem_of_cons. intros [[=]|]; contradiction.
Qed.

(** ** The slots outside the queue

    Before the first take they are null.  Afterwards the one before the head, which the
    queue never fills, holds the pointer of the message taken last. *)
Definition slots_after (took : bool) s (q : list queued) : Prop :=
  let h := sv_handlers s in
  if took then exists l, message_queue h !! slot h (Z.to_nat (queue_size h) - 1) = Some (Some l)
  else forall k, (length q <= k < Z.to_nat (queue_size h))%nat -> message_queue h !! slot h k = Some None.

Lemma slots_put took s s' q x l :
  queue_rep s' (q ++ [x]) -> queue_size (sv_handlers s') = queue_size (sv_handlers s) ->
  queue_head (sv_handlers s') = queue_head (sv_handlers s) ->
  message_queue (sv_handlers s') = <[slot (sv_handlers s) (length q) := Some l]> (message_queue (sv_handlers s)) ->
  slots_after took s q -> slots_after took s' (q ++ [x]).
Proof.
  intros (Hn & _ & _ & _ & _ & Hl & _) Es Eh Em. rewrite Es in Hn, Hl. rewrite length_app in *. cbn [length] in *.
  assert (Hsl : forall k, slot (sv_handlers s') k = slot (sv_handlers s) k) by (intros k; unfold slot; now rewrite Es, Eh).
  unfold slots_after. rewrite Es, Em. destruct took.
  - intros [l' H]. exists l'. rewrite Hsl, list_lookup_insert_ne; [exact H |]. intros E. apply slot_inj in E; lia.
  - intros H k Hk. rewrite Hsl, list_lookup_insert_ne; [apply H; rewrite length_app in Hk; cbn in Hk; lia |].
    rewrite length_app in Hk. cbn in Hk. intros E. apply slot_inj in E; lia.
Qed.

Lemma slots_take s s' x q :
  queue_rep s (x :: q) -> queue_size (sv_handlers s') = queue_size (sv_handlers s) ->
  message_queue (sv_handlers s') = message_queue (sv_handlers s) ->
  (forall k, slot (sv_handlers s') k = slot (sv_handlers s) (S k)) -> slots_after true s' q.
Proof.
  intros (Hn & _ & _ & _ & _ & _ & _ & Hslots) Es Em Hsl. exists (q_loc x). rewrite Es, Em, Hsl.
  destruct (Hslots 0%nat x eq_refl) as (H & _). rewrite <- H. f_equal. unfold slot.
  replace (S (Z.to_nat (queue_size (sv_handlers s)) - 1)) with (Z.to_nat (queue_size (sv_handlers s))) by lia.
  rewrite Z2Nat.id, Z.add_0_r by lia. now rewrite <- (Z.mul_1_l (queue_size _)) at 1; rewrite Z_mod_plus_full.
Qed.

(** Every slot of the buffer is some position's. *)
Lemma slot_surj h i :
  (0 < queue_size h)%Z -> (0 <= queue_head h)%Z -> (i < Z.to_nat (queue_size h))%nat ->
  exists k, (k < Z.to_nat (queue_size h))%nat /\ slot h k = i.
Proof.
  intros Hn Hh Hi. exists (Z.to_nat ((Z.of_nat i - queue_head h) mod queue_size h)).
  pose proof (Z.mod_pos_bound (Z.of_nat i - queue_head h) _ Hn). split; [lia |]. unfold slot. rewrite Z2Nat.id by lia.
  rewrite Zplus_mod_idemp_r. replace (queue_head h + (Z.of_nat i - queue_head h))%Z with (Z.of_nat i) by lia.
  rewrite Z.mod_small by lia. apply Nat2Z.id.
Qed.

(** Destroying the handlers when the strings left are those of the queue. *)
Lemma destroy_spec took s q :
  queue_rep s q -> (forall l, l ∈ q_loc <$> q <-> is_Some (sv_msgs s !! l)) -> slots_after took s q ->
  if took then server_handlers_destroy s = UB DoubleFree
  else exists nodes, server_handlers_destroy s = Ok (nodes, ∅).
Proof.
  intros (Hn & Lm & _ & Hh & _ & Hlen & Hd & Hslots) Hlive Hafter. unfold server_handlers_destroy.
  assert (Hmq : exists h, snd (server_handlers_stop_workers (Some (sv_handlers s))) = Some h /\
    message_queue h = message_queue (sv_handlers s)) by (cbn; case_match; eexists; split; reflexivity).
  destruct Hmq as (h & -> & Eh). cbn [deref mbind res_bind]. rewrite Eh.
  assert (Hq : forall k l, q !! k = Some l -> (k < length q)%nat) by (intros k l Hk; now apply lookup_lt_Some in Hk).
  destruct took; cbn in Hafter.
  - destruct Hafter as [l Hl].
    destruct (free_slots_fails s (message_queue (sv_handlers s))) as [[s' E]| ->]; [exfalso | reflexivity].
    pose proof (free_slots_live _ _ _ _ E (list_elem_of_lookup_2 _ _ _ Hl)) as Hin. apply Hlive in Hin.
    apply list_elem_of_fmap in Hin as (x & -> & [k Hk]%list_elem_of_lookup). destruct (Hslots k x Hk) as (Hs & _).
    pose proof (Hq _ _ Hk). pose proof (free_slots_distinct _ _ _ _ _ _ E Hl Hs) as D. apply slot_inj in D; lia.
  - assert (Hpos : forall i l, message_queue (sv_handlers s) !! i = Some (Some l) ->
        exists k x, q !! k = Some x /\ q_loc x = l /\ i = slot (sv_handlers s) k).
    { intros i l Hi. destruct (slot_surj (sv_handlers s) i) as (k & Hk & <-); [lia.. | rewrite <- Lm; eapply lookup_lt_Some; eauto |].
      destruct (decide (length q <= k)%nat) as [Hge|Hlt]; [rewrite (Hafter k) in Hi by lia; discriminate Hi |].
      destruct (lookup_lt_is_Some_2 q k) as [x Hx]; [lia |]. exists k, x. destruct (Hslots k x Hx) as (H & _). split_and!; congruence. }
    destruct (free_slots_all s (message_queue (sv_handlers s))) as (s' & -> & Hs').
    + intros l [i Hi]%list_elem_of_lookup. destruct (Hpos i l Hi) as (k & x & Hx & <- & _).
      destruct (Hslots k x Hx) as (_ & _ & H). eauto.
    + intros i j l Hi Hj. destruct (Hpos i l Hi) as (k & x & Hx & Ex & ->). destruct (Hpos j l Hj) as (k' & x' & Hx' & Ex' & ->).
      f_equal. eapply (NoDup_lookup _ _ _ l Hd); rewrite list_lookup_fmap; [now rewrite Hx, <- Ex | now rewrite Hx', <- Ex'].
    + cbn [mbind res_bind]. eexists. do 2 f_equal. apply map_empty. intros l. destruct (sv_msgs s' !! l) eqn:E; [exfalso | reflexivity].
      destruct (Hs' l) as [H1 H2]; [eauto |]. apply H2. apply Hlive in H1. apply list_elem_of_fmap in H1 as (x & -> & [k Hk]%list_elem_of_lookup).
      destruct (Hslots k x Hk) as (H & _). eapply list_elem_of_lookup_2; eauto.
Qed.

(** Destroying the handlers after a worker has taken and freed a message frees that
    message's string again: the slot still holds the pointer. *)
Theorem destroy_after_take_double_free e s x q :
  queue_rep s (x :: q) -> sh_running (sv_handlers s) = true ->
  exists s', queue_step e s QTake = Ok (OTake (Some (payload x)), s') /\
    server_handlers_destroy s' = UB DoubleFree.
Proof.
  intros Hq Hr. cbn [queue_step].
  destruct (dequeue_refines s x q Hq Hr) as (s1 & -> & Hq1 & Hm1 & Hr1 & Hs1 & Hmq & _). cbn [mbind res_bind].
  destruct Hq as (_ & _ & _ & _ & _ & _ & Hd & Hslots). destruct (Hslots 0%nat x eq_refl) as (Hsl & _ & Hx).
  rewrite Hm1, Hx. apply NoDup_cons in Hd as [Hni _]. rewrite <- Hm1 in Hx.
  destruct (free_taken s1 x q Hq1 Hx Hni) as (s2 & -> & Hq2 & Hh2 & Hdel). cbn [mbind res_bind].
  eexists. split; [reflexivity |]. unfold server_handlers_destroy. rewrite Hh2. cbn [server_handlers_stop_workers].
  rewrite Hr1. cbn [negb snd deref mbind res_bind message_queue with_sh_running].
  destruct (free_slots_fails s2 (message_queue (sv_handlers s1))) as [[s3 E]| ->]; [|reflexivity].
  exfalso. rewrite Hmq in E. apply (list_elem_of_lookup_2 _ _ _) in Hsl.
  destruct (free_slots_live _ _ _ _ E Hsl) as [t Ht]. rewrite Hdel, lookup_delete_eq in Ht. discriminate.
Qed.

End Queue.

(** ** Witnesses *)

Definition ok_env : Env :=
  mkEnv 1700000000 (fun n => (1700000000 + Z.of_nat n)%Z) (fun _ => "now"%string) (fun _ => true) dirty_order.

Definition broadcaster_config : HandlerConfig := mkHandlerConfig 4 4096 3 (Some (mkTradeBroadcaster true)).

(** A server just created and started, with a queue of three slots. *)
Definition started (config : HandlerConfig) : Server text_world :=
  match server_handlers_create true true config with
  | Some h => mkServer (with_sh_running h true) ∅ ∅ [] []
  | None => mkServer (mkServerHandlers 0 false [] [] 0 0 0 [] [] 0 None) ∅ ∅ [] []
  end.

Lemma started_queue_rep n :
  (0 < n < INT_MAX)%Z -> queue_rep (started (mkHandlerConfig 4 4096 n (Some (mkTradeBroadcaster true)))) [].
Proof.
  intros Hn. unfold queue_rep. cbn [started server_handlers_create negb sv_handlers with_sh_running queue_size
    message_queue client_queue queue_head queue_tail hc_message_queue_size length]. rewrite !length_replicate.
  split_and!; auto; try lia; [constructor | intros k x [=]].
Qed.

Definition sample_ops : list queue_op :=
  [QPut "a" (Some 1%positive); QPut "b" None; QPut "c" None; QTake; QTake; QTake]%string.

Lemma queue_is_fifo_witness :
  exists s', queue_run ok_env (started broadcaster_config) sample_ops =
    Ok ([OPut 0; OPut 0; OPut (-1); OTake (Some ("a", Some 1%positive)); OTake (Some ("b", None)); OTake None]%string, s').
Proof.
  apply (queue_is_fifo ok_env (started broadcaster_config) [] sample_ops); [|reflexivity..].
  apply started_queue_rep. split; vm_compute; reflexivity.
Defined.

Definition one_queued : Server text_world :=
  match server_handlers_process_message ok_env (started broadcaster_config) None (Some "m"%string) with
  | Ok (_, s) => s
  | _ => started broadcaster_config
  end.

Lemma one_queued_rep : queue_rep one_queued [mkQueued 1%positive "m" None].
Proof.
  unfold queue_rep. split_and!; try reflexivity; try (vm_compute; congruence).
  - apply NoDup_singleton.
  - intros [|k] x Hk; [|discriminate]. injection Hk as <-. split_and!; reflexivity.
Qed.

Lemma destroy_after_take_double_free_witness :
  exists s', queue_step ok_env one_queued QTake = Ok (OTake (Some ("m"%string, None)), s') /\
    server_handlers_destroy s' = UB DoubleFree.
Proof.
  apply (destroy_after_take_double_free ok_env one_queued (mkQueued 1%positive "m" None) [] one_queued_rep eq_refl).
Defined.
