(* ===== verification/HandlerBooks.v ===== *)
(** * The server keeps its books

    The invariant of the books and symbols of [ServerHandlers] ([books_wf]), the
    snapshots the handlers send, and what [handle_place_order] does to the books:
    an accepted order is filed under its symbol, matched, and the invariant kept. *)

From Stdlib Require Import Ascii String ZArith Lia SpecFloat.
From stdpp Require Import base list numbers strings gmap.
From S2P Require Import Prelude SortedAssoc CDouble CString CJson Protocol JsonProtocol Order AvlTree.
From S2P Require Import OrderBook MatchSpec BookRefine WsServer Handlers HandlerQueue.

(** ** Snapshots *)

Definition live (o : Order) : bool := negb (o_is_canceled o) && negb (o_remaining_quantity o <=? 0)%Z.

(** The levels a snapshot lists for some orders. *)
Definition levels (os : list Order) : list (double * Z) :=
  map (fun o => (o_price o, o_remaining_quantity o)) (List.filter live os).

(** An array of 200 cells of which the first hold [xs]. *)
Definition filled {A : Type} (xs : list A) : arr A := Arr (map Some xs ++ replicate (200 - length xs) None).

Definition snapshot_of (symbol : buffer) (bids asks : list (double * Z)) : BookSnapshot :=
  mkBookSnapshot symbol (Z.of_nat (length bids)) (Z.of_nat (length asks)) 200
    (filled (map fst bids)) (filled (map snd bids)) (filled (map fst asks)) (filled (map snd asks)).

Lemma filled_push {A : Type} (xs : list A) (x : A) :
  (length xs < 200)%nat -> arr_set (filled xs) (length xs) x = Ok (filled (xs ++ [x])).
Proof.
  intros Hl. unfold filled, arr_set. rewrite length_app, length_map, length_replicate.
  rewrite (proj2 (Nat.ltb_lt _ _)) by lia. do 2 f_equal.
  rewrite insert_app_r_alt, length_map, Nat.sub_diag by (rewrite length_map; lia).
  rewrite length_app. cbn [length]. replace (200 - length xs)%nat with (S (200 - (length xs + 1))) by lia.
  cbn. now rewrite map_app, <- app_assoc.
Qed.

Lemma filled_values {A : Type} (xs : list A) : arr_values (filled xs) (length xs) = Some xs.
Proof.
  unfold arr_values, filled. rewrite length_app, length_map, (proj2 (Nat.leb_le _ _)) by lia.
  rewrite take_app_length' by now rewrite length_map. induction xs as [|x xs IH]; [reflexivity |]. cbn. now rewrite IH.
Qed.

Lemma filled_map_values {A : Type} (f : double * Z -> A) lv :
  arr_values (filled (map f lv)) (length lv) = Some (map f lv).
Proof. rewrite <- (length_map f lv) at 1. apply filled_values. Qed.

(** One callback on an order of a side, as a step on the lists. *)
Lemma collect_buy_step h l o sym bs as_ :
  h !! l = Some o -> o_is_buy_order o = true -> (length bs <= 200)%nat ->
  collect_orders h l (snapshot_of sym bs as_) = Ok (snapshot_of sym (take 200 (bs ++ levels [o])) as_).
Proof.
  intros Hl Hb Hn. unfold collect_orders. rewrite (load_ok _ _ _ Hl). cbn [mbind res_bind]. rewrite Hb.
  unfold levels. cbn [List.filter]. unfold live. destruct (o_is_canceled o); cbn [orb negb andb map].
  { rewrite app_nil_r, take_ge by lia. reflexivity. }
  destruct (o_remaining_quantity o <=? 0)%Z; cbn [negb].
  { rewrite app_nil_r, take_ge by lia. reflexivity. }
  cbn [map bs_num_bids bs_max_orders snapshot_of bs_bid_prices bs_bid_quantities]. rewrite Nat2Z.id, to_size_nat by lia.
  destruct (Z.ltb_spec (Z.of_nat (length bs)) 200).
  - rewrite <- (length_map fst bs) at 1. rewrite filled_push by (rewrite length_map; lia). cbn [mbind res_bind].
    rewrite <- (length_map snd bs) at 1. rewrite filled_push by (rewrite length_map; lia). cbn [mbind res_bind].
    rewrite take_ge by (rewrite length_app; cbn; lia). f_equal. unfold with_bid, snapshot_of.
    cbn [bs_symbol bs_num_bids bs_num_asks bs_max_orders bs_ask_prices bs_ask_quantities].
    rewrite !map_app, length_app. cbn [map length fst snd]. f_equal. lia.
  - rewrite take_app_le, take_ge by lia. reflexivity.
Qed.

Lemma collect_sell_step h l o sym bs as_ :
  h !! l = Some o -> o_is_buy_order o = false -> (length as_ <= 200)%nat ->
  collect_orders h l (snapshot_of sym bs as_) = Ok (snapshot_of sym bs (take 200 (as_ ++ levels [o]))).
Proof.
  intros Hl Hb Hn. unfold collect_orders. rewrite (load_ok _ _ _ Hl). cbn [mbind res_bind]. rewrite Hb.
  unfold levels. cbn [List.filter]. unfold live. destruct (o_is_canceled o); cbn [orb negb andb map].
  { rewrite app_nil_r, take_ge by lia. reflexivity. }
  destruct (o_remaining_quantity o <=? 0)%Z; cbn [negb].
  { rewrite app_nil_r, take_ge by lia. reflexivity. }
  cbn [map bs_num_asks bs_max_orders snapshot_of bs_ask_prices bs_ask_quantities]. rewrite Nat2Z.id, to_size_nat by lia.
  destruct (Z.ltb_spec (Z.of_nat (length as_)) 200).
  - rewrite <- (length_map fst as_) at 1. rewrite filled_push by (rewrite length_map; lia). cbn [mbind res_bind].
    rewrite <- (length_map snd as_) at 1. rewrite filled_push by (rewrite length_map; lia). cbn [mbind res_bind].
    rewrite take_ge by (rewrite length_app; cbn; lia). f_equal. unfold with_ask, snapshot_of.
    cbn [bs_symbol bs_num_bids bs_num_asks bs_max_orders bs_bid_prices bs_bid_quantities].
    rewrite !map_app, length_app. cbn [map length fst snd]. f_equal. lia.
  - rewrite take_app_le, take_ge by lia. reflexivity.
Qed.

Lemma levels_app os os' : levels (os ++ os') = levels os ++ levels os'.
Proof. unfold levels. now rewrite List.filter_app, map_app. Qed.

Lemma take_take_app {A : Type} n (a b c : list A) : take n (take n (a ++ b) ++ c) = take n (a ++ b ++ c).
Proof.
  rewrite app_assoc. destruct (decide (length (a ++ b) <= n)%nat).
  - now rewrite (take_ge (a ++ b)) by lia.
  - rewrite (take_app_le (a ++ b)) by lia. rewrite take_app_le by (rewrite length_take; lia).
    now rewrite take_take, Nat.min_id.
Qed.

(** A traversal of one side appends that side's live levels, up to 200. *)
Lemma collect_buys h es sym bs as_ :
  Forall (entry_ok h true) es -> (length bs <= 200)%nat ->
  traverse_list (collect_orders h) (snd <$> es) (snapshot_of sym bs as_) =
  Ok (snapshot_of sym (take 200 (bs ++ levels (orders_of h es))) as_).
Proof.
  intros HF. revert bs. induction HF as [|[k l] es He HF IH]; intros bs Hn.
  { cbn. now rewrite app_nil_r, take_ge by lia. }
  apply entry_ok_inv in He as (o & Hl & _ & Hb). cbn [fmap list_fmap snd traverse_list].
  rewrite (collect_buy_step _ _ _ _ _ _ Hl Hb Hn). cbn [mbind res_bind]. rewrite IH by (rewrite length_take; lia).
  rewrite (orders_of_cons _ _ _ _ _ Hl). change (o :: orders_of h es) with ([o] ++ orders_of h es).
  now rewrite levels_app, take_take_app.
Qed.

Lemma collect_sells h es sym bs as_ :
  Forall (entry_ok h false) es -> (length as_ <= 200)%nat ->
  traverse_list (collect_orders h) (snd <$> es) (snapshot_of sym bs as_) =
  Ok (snapshot_of sym bs (take 200 (as_ ++ levels (orders_of h es)))).
Proof.
  intros HF. revert as_. induction HF as [|[k l] es He HF IH]; intros as_ Hn.
  { cbn. now rewrite app_nil_r, take_ge by lia. }
  apply entry_ok_inv in He as (o & Hl & _ & Hb). cbn [fmap list_fmap snd traverse_list].
  rewrite (collect_sell_step _ _ _ _ _ _ Hl Hb Hn). cbn [mbind res_bind]. rewrite IH by (rewrite length_take; lia).
  rewrite (orders_of_cons _ _ _ _ _ Hl). change (o :: orders_of h es) with ([o] ++ orders_of h es).
  now rewrite levels_app, take_take_app.
Qed.

Lemma fill_snapshot_spec h b symbol :
  book_wf h b ->
  fill_snapshot h b symbol = Ok (snapshot_of (strncpy_fill (zero_buffer 16) symbol 15)
    (take 200 (levels (tree_orders h (buy_orders b)))) (take 200 (levels (tree_orders h (sell_orders b))))).
Proof.
  intros Hwf. unfold book_wf in Hwf. unfold fill_snapshot. set (sym := strncpy_fill (zero_buffer 16) symbol 15).
  change (empty_snapshot symbol) with (Ok (snapshot_of sym [] [])). cbn [mbind res_bind].
  destruct (buy_orders b) as [bt|], (sell_orders b) as [st|], (trade_broadcaster b); try contradiction.
  destruct Hwf as [(_ & _ & HFb) (_ & _ & HFs)]. cbn [avl_inorder_traverse tree_orders].
  rewrite inorder_traverse_list, (collect_buys h _ sym [] [] HFb) by (cbn; lia). cbn [mbind res_bind].
  rewrite inorder_traverse_list. exact (collect_sells h _ sym _ [] HFs ltac:(cbn; lia)).
Qed.

(** ** Stores that grow or are refilled *)

Lemma entry_ok_mono h h' buy e : h ⊆ h' -> entry_ok h buy e -> entry_ok h' buy e.
Proof.
  intros Hs. unfold entry_ok. destruct (h !! e.2) as [o|] eqn:E; [|contradiction].
  now rewrite (lookup_weaken _ _ _ _ E Hs).
Qed.

Lemma entry_ok_refilled h h' buy e : refilled h h' -> entry_ok h buy e -> entry_ok h' buy e.
Proof.
  intros Hr. specialize (Hr e.2). unfold entry_ok. destruct (h !! e.2) as [o|], (h' !! e.2) as [o'|]; try contradiction.
  destruct Hr as (r & -> & _). auto.
Qed.

Lemma book_wf_impl h h' b :
  (forall buy e, entry_ok h buy e -> entry_ok h' buy e) -> book_wf h b -> book_wf h' b.
Proof.
  intros He. unfold book_wf. repeat case_match; auto. intros [(? & ? & F1) (? & ? & F2)].
  split; split_and!; auto; (eapply Forall_impl; [eassumption |]; auto).
Qed.

(** All orders of a book carry its symbol. *)
Definition book_named (h : order_heap) (b : OrderBook) (name : string) : Prop :=
  Forall (fun o => o_symbol o = name) (tree_orders h (buy_orders b)) /\
  Forall (fun o => o_symbol o = name) (tree_orders h (sell_orders b)).

Lemma orders_of_Forall_iff h (P : Order -> Prop) es :
  Forall P (orders_of h es) <-> Forall (fun e => forall o, h !! e.2 = Some o -> P o) es.
Proof.
  induction es as [|e es IH]; cbn; [rewrite !Forall_nil; tauto |]. rewrite Forall_cons, <- IH.
  destruct (h !! e.2) as [o|]; [rewrite Forall_cons |].
  - split; intros [H1 H2]; split; auto. intros o' [= <-]. exact H1.
  - split; [intros H; split; [discriminate | exact H] | tauto].
Qed.

Lemma orders_of_mono h h' buy (P : Order -> Prop) es :
  (forall buy e, entry_ok h buy e -> forall o', h' !! e.2 = Some o' -> exists o, h !! e.2 = Some o /\ (P o -> P o')) ->
  Forall (entry_ok h buy) es -> Forall P (orders_of h es) -> Forall P (orders_of h' es).
Proof.
  intros Hh HF. rewrite !orders_of_Forall_iff, !Forall_forall. rewrite Forall_forall in HF.
  intros HP e He o' Ho'. destruct (Hh buy e (HF e He) o' Ho') as (o & Ho & Himp). eauto.
Qed.

Lemma book_named_step h h' b name :
  (forall buy e, entry_ok h buy e -> forall o', h' !! e.2 = Some o' ->
     exists o, h !! e.2 = Some o /\ (o_symbol o = name -> o_symbol o' = name)) ->
  book_wf h b -> book_named h b name -> book_named h' b name.
Proof.
  intros Hh. unfold book_wf, book_named. destruct (buy_orders b), (sell_orders b), (trade_broadcaster b); try contradiction.
  intros [(_ & _ & F1) (_ & _ & F2)] [N1 N2]. split; eapply orders_of_mono; eauto.
Qed.

Lemma book_named_mono h h' b name : h ⊆ h' -> book_wf h b -> book_named h b name -> book_named h' b name.
Proof.
  intros Hs. apply book_named_step. intros buy e He o' Ho'. unfold entry_ok in He.
  destruct (h !! e.2) as [o|] eqn:E; [|contradiction]. rewrite (lookup_weaken _ _ _ _ E Hs) in Ho'.
  injection Ho' as <-. eauto.
Qed.

Lemma book_named_refilled h h' b name : refilled h h' -> book_wf h b -> book_named h b name -> book_named h' b name.
Proof.
  intros Hr. apply book_named_step. intros buy e He o' Ho'. specialize (Hr e.2). unfold entry_ok in He.
  destruct (h !! e.2) as [o|] eqn:E; [|contradiction]. rewrite Ho' in Hr. destruct Hr as (r & -> & _). eauto.
Qed.

Lemma book_named_lists h b name :
  book_named h b name <-> Forall (fun o => o_symbol o = name) (bids h b) /\ Forall (fun o => o_symbol o = name) (asks h b).
Proof. unfold book_named, bids, asks. now rewrite Forall_reverse. Qed.

Lemma tree_orders_side h b buy : tree_orders h (side b buy) = orders_of h (side_entries b buy).
Proof. unfold side_entries. now destruct (side b buy). Qed.

(** Adding an order of the symbol. *)
Lemma add_order_named h b l o b' name :
  h !! l = Some o -> o_symbol o = name -> book_named h b name ->
  side_entries b' (o_is_buy_order o) =
    sa_insert (key_cmp (o_is_buy_order o)) (order_key o) l (side_entries b (o_is_buy_order o)) ->
  side_entries b' (negb (o_is_buy_order o)) = side_entries b (negb (o_is_buy_order o)) ->
  book_named h b' name.
Proof.
  intros Hl Hs Hn E1 E2.
  assert (HS : forall b0, book_named h b0 name <->
    forall buy, Forall (fun o => o_symbol o = name) (orders_of h (side_entries b0 buy))).
  { intros b0. unfold book_named. change (buy_orders b0) with (side b0 true). change (sell_orders b0) with (side b0 false).
    rewrite !tree_orders_side. split; [intros [H1 H2] []; assumption | intros H; split; apply H]. }
  rewrite HS in *. assert (Hins : Forall (fun o => o_symbol o = name) (orders_of h (side_entries b' (o_is_buy_order o)))).
  { rewrite E1. rewrite orders_of_Forall_iff. apply sa_insert_Forall.
    - cbn. intros o' Ho'. congruence.
    - apply orders_of_Forall_iff, Hn. }
  intros buy. destruct (decide (buy = o_is_buy_order o)) as [->|Hne]; [exact Hins |].
  assert (buy = negb (o_is_buy_order o)) as -> by (revert Hne; destruct buy, (o_is_buy_order o); cbn; congruence). rewrite E2. apply Hn.
Qed.

(** ** The books of the server *)

Section Books.

Context {J : Type} `{CJ : CJson J} {CL : CJsonLaws J} {N : Type} `{L : Lws N}.

Implicit Types s : Server N.

(** The first [length names] books are well-formed against the store and named by
    their symbols; the other symbol arrays are still zero. *)
Definition books_wf (h : ServerHandlers) (orders : order_heap) (names : list string) : Prop :=
  length (books h) = MAX_SYMBOLS /\ length (symbols h) = MAX_SYMBOLS /\ book_count h = length names /\
  (length names <= MAX_SYMBOLS)%nat /\ NoDup names /\ is_Some (sh_broadcaster h) /\
  (forall i name, names !! i = Some name ->
     exists b buf, books h !! i = Some (Some b) /\ symbols h !! i = Some buf /\ c_str buf = Ok name /\
       book_wf orders b /\ book_named orders b name) /\
  (forall i, (length names <= i < MAX_SYMBOLS)%nat -> symbols h !! i = Some (zero_buffer 16)).

Lemma find_table_spec h orders names symbol :
  books_wf h orders names ->
  find_name (symbols h) symbol 0 (length names) = Ok (fst <$> list_find (fun x => x = symbol) names).
Proof.
  intros (_ & _ & _ & _ & _ & _ & Hb & _). rewrite (find_name_spec names).
  - now destruct (list_find _ names) as [[k x]|].
  - intros k name (b & buf & _ & Hs & Hc & _)%Hb. eauto.
Qed.

Lemma find_book_spec h orders names symbol :
  books_wf h orders names ->
  match list_find (fun x => x = symbol) names with
  | Some (i, _) => find_book h symbol = Ok (Some i) /\ names !! i = Some symbol
  | None => find_book h symbol = Ok None /\ symbol ∉ names
  end.
Proof.
  intros Hwf. pose proof Hwf as (_ & _ & Hc & _ & _ & _ & Hb & _). unfold find_book. rewrite Hc.
  rewrite (find_table_spec h orders names symbol Hwf). cbn [mbind res_bind].
  destruct (list_find (fun x => x = symbol) names) as [[i x]|] eqn:E; cbn [fmap option_fmap option_map fst Nat.add].
  - apply list_find_Some in E as (Hi & -> & _). destruct (Hb _ _ Hi) as (b & buf & -> & _). auto.
  - split; [reflexivity |]. apply list_find_None in E. rewrite Forall_forall in E. intros Hin. now apply (E symbol).
Qed.

Lemma fresh_book_wf orders br :
  is_Some br -> exists b, order_book_create true true true br = Some b /\ book_wf orders b /\
    (forall name, book_named orders b name) /\ book_size b = 0%nat.
Proof.
  intros [tb ->]. eexists. split; [reflexivity |]. split.
  - unfold book_wf. cbn. assert (Ht : forall buy, tree_ok orders buy (mkAVLTree Leaf buy)).
    { intros buy. split_and!; [reflexivity | by_decide | constructor]. }
    auto.
  - split; [|reflexivity]. intros name. split; constructor.
Qed.

(** The queue part of the handlers. *)
Definition queue_view (h : ServerHandlers) : bool * list (option loc) * list (option client) * Z * Z * Z :=
  (sh_running h, message_queue h, client_queue h, queue_size h, queue_head h, queue_tail h).

(** Appending a book under a new symbol keeps the invariant. *)
Lemma push_book_wf h orders names b symbol f buf0 :
  books_wf h orders names -> (length names < MAX_SYMBOLS)%nat -> symbol ∉ names -> book_wf orders b ->
  book_named orders b symbol -> f (zero_buffer 16) = Ok buf0 -> c_str buf0 = Ok symbol ->
  exists h', push_book h b f = Ok h' /\ books_wf h' orders (names ++ [symbol]) /\
    books h' = <[length names := Some b]> (books h) /\ queue_view h' = queue_view h.
Proof.
  intros (Lb & Ls & Hc & Hm & Hd & Hbr & Hb & Hz) Hlt Hni Hwf Hn Ef Hf. unfold push_book. rewrite Hc.
  rewrite (Hz (length names)) by lia. rewrite Lb, (proj2 (Nat.ltb_lt _ _) Hlt), Ef. cbn [mbind res_bind]. eexists. split; [reflexivity |].
  split; [|split; reflexivity]. unfold books_wf. cbn [books symbols book_count sh_broadcaster]. rewrite !length_insert, length_app. cbn [length].
  split_and!; auto; try lia.
  - apply NoDup_app. split_and!; [auto | intros x Hx ->%list_elem_of_singleton; auto | apply NoDup_singleton].
  - intros i name [Hi|[Hi Hx]]%lookup_app_Some.
    + assert (i < length names)%nat by (eapply lookup_lt_Some; eauto).
      rewrite !list_lookup_insert_ne by lia. now apply Hb.
    + apply list_lookup_singleton_Some in Hx as [Hx <-]. assert (i = length names) as -> by lia.
      rewrite !list_lookup_insert_eq by lia. exists b, buf0. split_and!; auto.
  - intros i Hi. rewrite list_lookup_insert_ne by lia. apply Hz. lia.
Qed.

(** All allocations of the call succeed. *)
Definition alloc_all (e : Env) : Prop := forall a, e_alloc e a = true.

(** The symbols after an order for [symbol]. *)
Definition grown (names : list string) (symbol : string) : list string :=
  if bool_decide (symbol ∈ names) then names else names ++ [symbol].

Lemma grown_prefix names symbol : names `prefix_of` grown names symbol.
Proof. unfold grown. case_bool_decide; [reflexivity | now apply prefix_app_r]. Qed.

Lemma elem_of_grown names symbol x : x ∈ grown names symbol <-> x ∈ names \/ x = symbol.
Proof. unfold grown. case_bool_decide as E; [split; [tauto | now intros [?| ->]] |]. rewrite elem_of_app, list_elem_of_singleton. tauto. Qed.

Lemma find_or_create_spec e h orders names symbol :
  books_wf h orders names -> alloc_all e -> nul_free symbol = true -> (strlen symbol <= 15)%nat ->
  symbol ∈ names \/ (length names < MAX_SYMBOLS)%nat ->
  exists i h' names' b0, find_or_create_book e h symbol = Ok (Some i, h') /\ books_wf h' orders names' /\
    names' !! i = Some symbol /\ names' = grown names symbol /\ books h' !! i = Some (Some b0) /\
    (if bool_decide (symbol ∈ names) then books h !! i = Some (Some b0) else book_size b0 = 0%nat) /\
    (forall k, k <> i -> books h' !! k = books h !! k) /\ queue_view h' = queue_view h.
Proof.
  intros Hwf Ha Hf Hl Hroom. unfold find_or_create_book. pose proof (find_book_spec h orders names symbol Hwf) as Hs.
  destruct (list_find (fun x => x = symbol) names) as [[i x]|].
  - destruct Hs as [-> Hi]. cbn [mbind res_bind]. pose proof Hwf as (_ & _ & _ & _ & _ & _ & Hb & _).
    destruct (Hb _ _ Hi) as (b0 & _ & Hb0 & _). exists i, h, names, b0.
    unfold grown. rewrite bool_decide_eq_true_2 by eauto using list_elem_of_lookup_2. split_and!; auto.
  - destruct Hs as [-> Hni]. cbn [mbind res_bind]. unfold new_book. rewrite !Ha.
    destruct (fresh_book_wf orders (sh_broadcaster h)) as (b & -> & Hb & Hn & Hsz); [apply Hwf |].
    destruct (push_book_wf h orders names b symbol (fun old => strncpy old symbol 15) (strncpy_fill (zero_buffer 16) symbol 15) Hwf)
      as (h' & E & Hwf' & Ebooks & Ev); auto using c_str_zeroed_short; [tauto |].
    pose proof Hwf as (Lb & _ & Hc & _). rewrite E, Hc. cbn [mbind res_bind].
    exists (length names), h', (names ++ [symbol]), b. unfold grown. rewrite bool_decide_eq_false_2 by exact Hni.
    rewrite Ebooks, list_lookup_insert_eq by (destruct Hroom; [contradiction | lia]). split_and!; auto.
    + now rewrite list_lookup_middle.
    + intros k Hk. now rewrite list_lookup_insert_ne by congruence.
Qed.

(** Replacing a book, with the store refilled by matching. *)
Lemma with_book_wf h orders orders' names i name b :
  books_wf h orders names -> refilled orders orders' -> names !! i = Some name ->
  book_wf orders' b -> book_named orders' b name -> books_wf (with_book h i b) orders' names.
Proof.
  intros (Lb & Ls & Hc & Hm & Hd & Hbr & Hb & Hz) Hr Hi Hwf Hn. unfold books_wf.
  cbn [books symbols book_count sh_broadcaster with_book]. rewrite length_insert. split_and!; auto.
  intros k nm Hk. destruct (Hb _ _ Hk) as (b0 & buf & H1 & H2 & H3 & H4 & H5).
  destruct (decide (k = i)) as [->|Hne].
  - assert (i < length names)%nat by (eapply lookup_lt_Some; eauto).
    rewrite list_lookup_insert_eq by lia. assert (nm = name) as -> by congruence. eauto 7.
  - rewrite list_lookup_insert_ne by congruence. exists b0, buf. split_and!; auto.
    + eapply book_wf_impl; [|exact H4]. intros buy e. now apply entry_ok_refilled.
    + now apply (book_named_refilled orders).
Qed.

Lemma books_wf_mono h orders orders' names : orders ⊆ orders' -> books_wf h orders names -> books_wf h orders' names.
Proof.
  intros Hs (Lb & Ls & Hc & Hm & Hd & Hbr & Hb & Hz). unfold books_wf. split_and!; auto.
  intros i name Hi. destruct (Hb _ _ Hi) as (b & buf & H1 & H2 & H3 & H4 & H5). exists b, buf. split_and!; auto.
  - eapply book_wf_impl; [|exact H4]. intros buy e. now apply entry_ok_mono.
  - now apply (book_named_mono orders).
Qed.

(** A filled snapshot always serialises. *)
Lemma snapshot_prints symbol bs as_ :
  nul_free symbol = true ->
  exists text, serialize_book_snapshot (J := J) (Some (snapshot_of (strncpy_fill (zero_buffer 16) symbol 15) bs as_)) =
    Ok (Some text).
Proof.
  intros Hf. destruct (serialize_snapshot_json (J := J) (snapshot_of (strncpy_fill (zero_buffer 16) symbol 15) bs as_)
    (copy_str 16 symbol) bs as_) as (j & Hj & ->);
    cbn [bs_symbol bs_num_bids bs_num_asks bs_bid_prices bs_bid_quantities bs_ask_prices bs_ask_quantities snapshot_of];
    eauto using c_str_zeroed, level_cells, filled_map_values; try lia.
  cbn [print_node]. destruct (print_some _ _ Hj) as [text ->]. eauto.
Qed.

(** The snapshot of a well-formed book is always sent, whatever is in it. *)
Lemma send_snapshot_ok e s c b symbol :
  book_wf (sv_orders s) b -> alloc_all e -> nul_free symbol = true ->
  exists text, send_snapshot (J := J) e s c b symbol = Ok (snd (send_to e s c text)).
Proof.
  intros Hwf Ha Hf. unfold send_snapshot. rewrite Ha. cbn [negb]. rewrite (fill_snapshot_spec _ _ symbol Hwf).
  cbn [mbind res_bind]. set (bs := take 200 (levels _)). set (as_ := take 200 (levels _)).
  destruct (snapshot_prints symbol bs as_ Hf) as [text ->]. cbn [mbind res_bind]. eauto.
Qed.

(** What the handlers of a message leave alone: the queue and the queued strings. *)
Definition queue_kept (s s' : Server N) : Prop :=
  sv_msgs s' = sv_msgs s /\ queue_view (sv_handlers s') = queue_view (sv_handlers s).

(** The order at [l] is filed in the book [b0], as sorted insertion on its side, and the
    result is matched, giving the book [b'] and the trades [notes]. *)
Definition placed (clock : nat -> Z) (b0 : OrderBook) (orders : order_heap) (l : loc) (o : Order)
    (orders' : order_heap) (b' : OrderBook) (notes : list TradeNote) : Prop :=
  exists b1, book_wf orders b0 /\ book_wf orders b1 /\
    side_entries b1 (o_is_buy_order o) =
      sa_insert (key_cmp (o_is_buy_order o)) (order_key o) l (side_entries b0 (o_is_buy_order o)) /\
    side_entries b1 (negb (o_is_buy_order o)) = side_entries b0 (negb (o_is_buy_order o)) /\
    spec_match (S (book_size b1)) clock 0 (bids orders b1) (asks orders b1) =
      (notes, bids orders' b', asks orders' b') /\
    no_match (bids orders' b') (asks orders' b').

(** The order at [l] is added to the orders of its side in the book [b0], nothing else of
    the book changes, and the result is matched, giving the book [b'] and the trades
    [notes]. *)
Definition filed_matched (clock : nat -> Z) (b0 : OrderBook) (orders : order_heap) (l : loc) (o : Order)
    (orders' : order_heap) (b' : OrderBook) (notes : list TradeNote) : Prop :=
  exists b1, book_wf orders b1 /\
    side_entries b1 (o_is_buy_order o) ≡ₚ (order_key o, l) :: side_entries b0 (o_is_buy_order o) /\
    side_entries b1 (negb (o_is_buy_order o)) = side_entries b0 (negb (o_is_buy_order o)) /\
    spec_match (S (book_size b1)) clock 0 (bids orders b1) (asks orders b1) =
      (notes, bids orders' b', asks orders' b').

Lemma placed_files clock b0 orders l o orders' b' notes :
  placed clock b0 orders l o orders' b' notes -> d_ok (o_price o) -> untied b0 o ->
  filed_matched clock b0 orders l o orders' b' notes.
Proof.
  intros (b1 & Hb0 & Hb1 & E1 & E2 & Hm & _) Hp Hu. exists b1. rewrite E1. split_and!; auto. eapply insert_untied; eauto.
Qed.

Lemma empty_untied b o : book_size b = 0%nat -> untied b o.
Proof.
  unfold book_size, untied, side_entries, side. intros H.
  assert (He : forall t : tree, size t = 0%nat -> entries t = []) by (intros [|]; [reflexivity | discriminate]).
  destruct (o_is_buy_order o), (buy_orders b) as [bt|], (sell_orders b) as [st|]; try constructor; rewrite He by lia; constructor.
Qed.

(** In the book of its symbol, if there is one, no order of its side has both the price
    and the second of [o]. *)
Definition untied_there s (names : list string) (o : Order) : Prop :=
  forall i b, names !! i = Some (o_symbol o) -> books (sv_handlers s) !! i = Some (Some b) -> untied b o.

Lemma untied_there_book s names i b0 o :
  untied_there s names o -> grown names (o_symbol o) !! i = Some (o_symbol o) ->
  (if bool_decide (o_symbol o ∈ names) then books (sv_handlers s) !! i = Some (Some b0) else book_size b0 = 0%nat) ->
  untied b0 o.
Proof. unfold grown. intros Hu. case_bool_decide; [eauto | intros _; apply empty_untied]. Qed.

Lemma send_to_frame e s c text :
  let s' := snd (send_to e s c text) in
  sv_handlers s' = sv_handlers s /\ sv_orders s' = sv_orders s /\ sv_msgs s' = sv_msgs s /\ sv_notes s' = sv_notes s.
Proof. unfold send_to. destruct (ws_server_send _ _ _ _). cbn. auto. Qed.

Lemma place_in_book_spec e s c i l o b0 names oid tid symbol m :
  books_wf (sv_handlers s) (sv_orders s) names -> alloc_all e -> names !! i = Some symbol ->
  books (sv_handlers s) !! i = Some (Some b0) ->
  sv_orders s !! l = Some o -> o_symbol o = symbol -> d_ok (o_price o) ->
  nul_free symbol = true -> (strlen symbol <= 15)%nat ->
  exists s' b' notes, place_in_book (J := J) e s c i l oid tid symbol m = Ok s' /\
    books_wf (sv_handlers s') (sv_orders s') names /\ books (sv_handlers s') !! i = Some (Some b') /\
    sv_notes s' = sv_notes s ++ notes /\ placed (e_clock e) b0 (sv_orders s) l o (sv_orders s') b' notes /\
    (forall k, k <> i -> books (sv_handlers s') !! k = books (sv_handlers s) !! k) /\ queue_kept s s'.
Proof.
  intros Hwf Ha Hi Hb0 Hl Hsym Hp Hf Hlen. pose proof Hwf as (Lb & _ & _ & Hmax & _ & _ & Hb & _).
  destruct (Hb _ _ Hi) as (b0' & buf & Hb0' & _ & _ & Hwf0 & Hn0). rewrite Hb0 in Hb0'. injection Hb0' as <-.
  unfold place_in_book, book_at. rewrite Hb0, Ha. cbn [mbind res_bind].
  destruct (add_order_spec _ b0 l o Hwf0 Hl Hp) as (b1 & -> & Hwf1 & _ & E1 & E2). cbn [mbind res_bind deref].
  match goal with |- context [send_to e s c ?t] => set (text := t) end.
  destruct (send_to_frame e s c text) as (F1 & F2 & F3 & F4). set (s1 := snd (send_to e s c text)) in *. rewrite F2.
  destruct (match_orders_spec (S (book_size b1)) (e_clock e) (sv_orders s) b1 Hwf1 ltac:(lia))
    as (orders' & b' & notes & -> & Hwf' & Hr & Hsp). cbn [mbind res_bind deref].
  assert (Hn1 : book_named (sv_orders s) b1 symbol) by (eapply add_order_named; eauto).
  assert (Hn' : book_named orders' b' symbol).
  { apply book_named_lists. apply book_named_lists in Hn1 as [Nb Na].
    eapply (spec_match_Forall (fun o => o_symbol o = symbol)); [intros ? ? H _; exact H | exact Nb | exact Na | exact Hsp]. }
  destruct (send_snapshot_ok e (add_notes (set_orders (set_handlers s1 (with_book (sv_handlers s1) i b')) orders') notes)
    c b' symbol Hwf' Ha Hf) as (text2 & ->).
  match goal with |- context [snd (send_to e ?x c text2)] => destruct (send_to_frame e x c text2) as (G1 & G2 & G3 & G4) end.
  do 3 eexists. split; [reflexivity |]. unfold queue_kept. rewrite G1, G2, G3, G4. cbn [sv_handlers sv_orders sv_msgs sv_notes add_notes set_orders set_handlers].
  rewrite F1, F3, F4. split_and!; auto.
  - eapply with_book_wf; eauto.
  - cbn [books with_book]. apply list_lookup_insert_eq. rewrite Lb. apply lookup_lt_Some in Hi. lia.
  - exists b1. split_and!; auto. eapply spec_match_done; [|exact Hsp]. rewrite <- book_size_lists by exact Hwf1. lia.
  - intros k Hk. cbn [books with_book]. now apply list_lookup_insert_ne.
Qed.

(** The first step of [handle_place_order] on an order that fits. *)
Lemma place_order_parses root fs dst oid tid sym price q buy :
  repr root (JObj fs) -> jnumbers num_exact (JObj fs) -> order_members fs oid tid sym price q buy -> in_int q ->
  (strlen oid < length (om_order_id dst) - 1)%nat -> (strlen sym < length (om_symbol dst) - 1)%nat ->
  nul_free oid = true -> nul_free sym = true ->
  exists m, parse_order_message (J := J) (cJSON_Print root) (Some dst) = Ok (true, Some m) /\
    c_str (om_order_id m) = Ok oid /\ c_str (om_symbol m) = Ok sym /\
    om_price m = price /\ om_quantity m = q /\ om_is_buy m = buy /\
    (nul_free tid = true -> (strlen tid < length (om_trader_id dst) - 1)%nat -> c_str (om_trader_id m) = Ok tid).
Proof.
  intros Hroot Hx Hm Hq L1 L2 N1 N2. destruct (parse_printed root _ Hroot Hx) as (text & j' & Ht & Hj & Hj').
  cbn [print_node] in Ht. rewrite Ht, (parse_order_members _ _ _ _ _ _ _ _ _ dst Hj Hj' Hm Hq).
  eexists. split; [reflexivity |]. cbn [om_order_id om_symbol om_trader_id om_price om_quantity om_is_buy].
  split_and!; auto using c_str_copied.
Qed.

Lemma place_order_spec e s c root fs names oid tid sym price q buy :
  books_wf (sv_handlers s) (sv_orders s) names -> alloc_all e ->
  repr root (JObj fs) -> jnumbers num_exact (JObj fs) -> order_members fs oid tid sym price q buy ->
  in_int q -> d_ok price ->
  length (om_order_id (e_stack e)) = 32%nat -> length (om_trader_id (e_stack e)) = 32%nat ->
  length (om_symbol (e_stack e)) = 16%nat ->
  nul_free oid = true -> nul_free tid = true -> nul_free sym = true ->
  (strlen oid < 31)%nat -> (strlen tid < 31)%nat -> (strlen sym < 15)%nat ->
  sym ∈ names \/ (length names < MAX_SYMBOLS)%nat ->
  exists s' names' i b0 b' notes l, handle_place_order e s c root = Ok (0%Z, s') /\
    books_wf (sv_handlers s') (sv_orders s') names' /\ names' = grown names sym /\ names' !! i = Some sym /\
    (if bool_decide (sym ∈ names) then books (sv_handlers s) !! i = Some (Some b0) else book_size b0 = 0%nat) /\
    books (sv_handlers s') !! i = Some (Some b') /\ sv_notes s' = sv_notes s ++ notes /\
    (forall k, k <> i -> books (sv_handlers s') !! k = books (sv_handlers s) !! k) /\
    let o := mkOrder oid tid sym price q q buy (e_now e) false in
    sv_orders s !! l = None /\ placed (e_clock e) b0 (<[l := o]> (sv_orders s)) l o (sv_orders s') b' notes /\
    queue_kept s s'.
Proof.
  intros Hwf Ha Hroot Hx Hms Hq Hp L1 L2 L3 N1 N2 N3 S1 S2 S3 Hroom. unfold handle_place_order.
  destruct (place_order_parses root fs (e_stack e) oid tid sym price q buy)
    as (m & -> & C1 & C2 & M1 & M2 & M3 & C3); auto; try lia.
  cbn [mbind res_bind negb deref]. rewrite C1, C2. cbn [mbind res_bind].
  destruct (find_or_create_spec e (sv_handlers s) (sv_orders s) names sym Hwf Ha N3 ltac:(lia) Hroom)
    as (i & h' & names' & b0 & -> & Hwf' & Hi & Hpre & Hb0 & Hold & Hother & Ev). cbn [mbind res_bind].
  rewrite C3, Ha, M1, M2, M3 by (auto; lia). cbn [mbind res_bind].
  rewrite order_create_spec by (unfold MAX_ID_LENGTH, MAX_SYMBOL_LENGTH; lia).
  cbn [sv_orders set_handlers]. set (l := fresh (dom (sv_orders s))). set (o := mkOrder oid tid sym price q q buy (e_now e) false).
  match goal with |- context [place_in_book e ?x c i l oid tid sym ?m] =>
    destruct (place_in_book_spec e x c i l o b0 names' oid tid sym m) as (s' & b' & notes & -> & H1 & H2 & H3 & H4 & H5 & H6 & H7) end; auto.
  - cbn [sv_handlers sv_orders set_orders set_handlers]. eapply books_wf_mono; [|exact Hwf'].
    apply insert_subseteq, fresh_loc.
  - cbn. apply lookup_insert_eq.
  - lia.
  - cbn [mbind res_bind]. exists s', names', i, b0, b', notes, l. cbn zeta.
    split_and!; auto; [|apply fresh_loc | split; [exact H6 | rewrite H7; exact Ev]].
    intros k Hk. rewrite H5 by exact Hk. now apply Hother.
Qed.

(** Without a broadcaster no book is created, so no order is placed. *)
Lemma no_broadcaster_spec e s c root fs oid tid sym price q buy :
  sh_broadcaster (sv_handlers s) = None -> book_count (sv_handlers s) = 0%nat ->
  repr root (JObj fs) -> jnumbers num_exact (JObj fs) -> order_members fs oid tid sym price q buy -> in_int q ->
  length (om_order_id (e_stack e)) = 32%nat -> length (om_symbol (e_stack e)) = 16%nat ->
  nul_free oid = true -> nul_free sym = true -> (strlen oid < 31)%nat -> (strlen sym < 15)%nat ->
  handle_place_order e s c root = Ok (send_error_response e s c "Failed to place order").
Proof.
  intros Hbr Hc Hroot Hx Hms Hq L1 L3 N1 N3 S1 S3. unfold handle_place_order.
  destruct (place_order_parses root fs (e_stack e) oid tid sym price q buy) as (m & -> & C1 & C2 & _); auto; try lia.
  cbn [mbind res_bind negb deref]. rewrite C1, C2. cbn [mbind res_bind].
  unfold find_or_create_book, find_book. rewrite Hc. cbn [find_name mbind res_bind].
  unfold new_book, order_book_create. rewrite Hbr. repeat case_match; try discriminate; simplify_eq;
    unfold set_handlers; destruct s; reflexivity.
Qed.

(** ** Properties *)

(** A snapshot lists, for each side, the price and remaining quantity of every live
    order of the book (not cancelled, quantity left), in tree order, and cuts each side
    at 200. *)
Theorem snapshot_lists_live_orders h b symbol :
  book_wf h b ->
  exists snap, fill_snapshot h b symbol = Ok snap /\
    let bs := take 200 (levels (reverse (bids h b))) in let as_ := take 200 (levels (asks h b)) in
    bs_num_bids snap = Z.of_nat (length bs) /\ bs_num_asks snap = Z.of_nat (length as_) /\
    arr_values (bs_bid_prices snap) (length bs) = Some (map fst bs) /\
    arr_values (bs_bid_quantities snap) (length bs) = Some (map snd bs) /\
    arr_values (bs_ask_prices snap) (length as_) = Some (map fst as_) /\
    arr_values (bs_ask_quantities snap) (length as_) = Some (map snd as_).
Proof.
  intros Hwf. eexists. split; [now apply fill_snapshot_spec |]. unfold bids, asks. rewrite reverse_involutive.
  cbn [bs_num_bids bs_num_asks bs_bid_prices bs_bid_quantities bs_ask_prices bs_ask_quantities snapshot_of].
  split_and!; auto using filled_map_values.
Qed.

(** C7: placing an order succeeds when memory is available, the handlers have a trade
    broadcaster (which the server program does not configure, see
    [no_broadcaster_no_orders]), the strings fit, the price is a number, there is a book
    for the symbol or room for one, and no order of that side of the book has both the
    price and the second of the new one (such an order is dropped, see
    [same_second_order_lost]): the order joins the orders of its side in the book of its
    symbol, or in a new empty book, the book is then matched exactly as the abstract
    matching prescribes, the trades are notified, no other book changes, and all books
    stay well-formed and hold only orders of their symbol. *)
Theorem place_order_correct e s c root fs names oid tid sym price q buy :
  let o := mkOrder oid tid sym price q q buy (e_now e) false in
  books_wf (sv_handlers s) (sv_orders s) names -> alloc_all e ->
  repr root (JObj fs) -> jnumbers num_exact (JObj fs) -> order_members fs oid tid sym price q buy ->
  in_int q -> d_ok price ->
  length (om_order_id (e_stack e)) = 32%nat -> length (om_trader_id (e_stack e)) = 32%nat ->
  length (om_symbol (e_stack e)) = 16%nat ->
  nul_free oid = true -> nul_free tid = true -> nul_free sym = true ->
  (strlen oid < 31)%nat -> (strlen tid < 31)%nat -> (strlen sym < 15)%nat ->
  sym ∈ names \/ (length names < MAX_SYMBOLS)%nat -> untied_there s names o ->
  exists s' names' i b0 b' notes l, handle_place_order e s c root = Ok (0%Z, s') /\
    books_wf (sv_handlers s') (sv_orders s') names' /\ names `prefix_of` names' /\ names' !! i = Some sym /\
    (if bool_decide (sym ∈ names) then books (sv_handlers s) !! i = Some (Some b0) else book_size b0 = 0%nat) /\
    books (sv_handlers s') !! i = Some (Some b') /\ sv_notes s' = sv_notes s ++ notes /\
    (forall k, k <> i -> books (sv_handlers s') !! k = books (sv_handlers s) !! k) /\
    sv_orders s !! l = None /\ filed_matched (e_clock e) b0 (<[l := o]> (sv_orders s)) l o (sv_orders s') b' notes.
Proof.
  intros. edestruct (place_order_spec e s c) as (s' & names' & i & b0 & b' & notes & l & H'); try eassumption.
  exists s', names', i, b0, b', notes, l. cbv zeta in *. destruct H' as (? & ? & -> & ? & ? & ? & ? & ? & ? & ? & _).
  split_and!; auto using grown_prefix. eapply placed_files; eauto. eapply untied_there_book; eauto.
Qed.

(** A handler without a trade broadcaster, which is how the server program configures
    it, never places an order: every well-formed request is answered with an error and
    neither the books nor the orders change. *)
Theorem no_broadcaster_no_orders e s c root fs oid tid sym price q buy :
  sh_broadcaster (sv_handlers s) = None -> book_count (sv_handlers s) = 0%nat ->
  repr root (JObj fs) -> jnumbers num_exact (JObj fs) -> order_members fs oid tid sym price q buy -> in_int q ->
  length (om_order_id (e_stack e)) = 32%nat -> length (om_symbol (e_stack e)) = 16%nat ->
  nul_free oid = true -> nul_free sym = true -> (strlen oid < 31)%nat -> (strlen sym < 15)%nat ->
  handle_place_order e s c root = Ok (send_error_response e s c "Failed to place order").
Proof. exact (no_broadcaster_spec e s c root fs oid tid sym price q buy). Qed.

(** A request with all members whose order id is not a string makes the handler
    dereference null, whatever the state of the server. *)
Theorem untyped_id_crashes_worker e s c root fs v tid sym price q buy :
  repr root (JObj fs) -> jnumbers num_exact (JObj fs) -> jlookup "order_id" fs = Some v -> (forall t, v <> JStr t) ->
  jlookup "trader_id" fs = Some tid -> jlookup "symbol" fs = Some sym -> jlookup "price" fs = Some price ->
  jlookup "quantity" fs = Some q -> jlookup "is_buy" fs = Some buy ->
  handle_place_order e s c root = UB NullDeref.
Proof.
  intros Hr Hx Hv Hn H2 H3 H4 H5 H6. unfold handle_place_order.
  destruct (parse_printed root _ Hr Hx) as (text & j & Et & Hp & Hj). unfold print_node in Et. rewrite Et. cbn [parse_order_message]. rewrite Hp.
  destruct (get_found _ _ "order_id" v Hj Hv) as (i1 & -> & R1). destruct (get_found _ _ "trader_id" tid Hj H2) as (i2 & -> & _).
  destruct (get_found _ _ "symbol" sym Hj H3) as (i3 & -> & _). destruct (get_found _ _ "price" price Hj H4) as (i4 & -> & _).
  destruct (get_found _ _ "quantity" q Hj H5) as (i5 & -> & _). destruct (get_found _ _ "is_buy" buy Hj H6) as (i6 & -> & _).
  unfold copy_value. rewrite (value_string _ _ R1). destruct v; try reflexivity. now destruct (Hn s0).
Qed.

(** The handler does not check its book table: with all 100 slots taken, an order for
    another symbol makes it write past the table. *)
Theorem symbol_table_overrun e s c root fs names oid tid sym price q buy :
  books_wf (sv_handlers s) (sv_orders s) names -> alloc_all e -> length names = MAX_SYMBOLS -> sym ∉ names ->
  repr root (JObj fs) -> jnumbers num_exact (JObj fs) -> order_members fs oid tid sym price q buy -> in_int q ->
  length (om_order_id (e_stack e)) = 32%nat -> length (om_symbol (e_stack e)) = 16%nat ->
  nul_free oid = true -> nul_free sym = true -> (strlen oid < 31)%nat -> (strlen sym < 15)%nat ->
  handle_place_order e s c root = UB OutOfBounds.
Proof.
  intros Hwf Ha Hfull Hni Hroot Hx Hms Hq L1 L3 N1 N3 S1 S3. unfold handle_place_order.
  destruct (place_order_parses root fs (e_stack e) oid tid sym price q buy) as (m & -> & C1 & C2 & _); auto; try lia.
  cbn [mbind res_bind negb deref]. rewrite C1, C2. cbn [mbind res_bind].
  unfold find_or_create_book. pose proof (find_book_spec _ _ _ sym Hwf) as Hs.
  destruct (list_find (fun x => x = sym) names) as [[i x]|].
  { destruct Hs as [_ Hi]. now apply list_elem_of_lookup_2 in Hi. }
  destruct Hs as [-> _]. cbn [mbind res_bind]. unfold new_book. rewrite !Ha.
  destruct (fresh_book_wf (sv_orders s) (sh_broadcaster (sv_handlers s))) as (b & -> & _); [apply Hwf |].
  destruct Hwf as (Lb & Ls & Hc & _). unfold push_book. rewrite lookup_ge_None_2 by (rewrite Ls, Hc, Hfull; lia).
  reflexivity.
Qed.

(** A book added for a new symbol is found again under it, empty and well-formed,
    leaving the other books as they were; adding it twice, or beyond 100 symbols, is
    refused without a change. *)
Theorem add_order_book_correct e h orders names sym :
  books_wf h orders names -> alloc_all e -> nul_free sym = true -> (strlen sym <= 15)%nat ->
  if bool_decide ((sym ∉ names) /\ (length names < MAX_SYMBOLS)%nat)
  then exists h' b, server_handlers_add_order_book e (Some h) (Some sym) = Ok (0%Z, Some h') /\
         books_wf h' orders (names ++ [sym]) /\
         server_handlers_get_order_book (Some h') (Some sym) = Ok (Some b) /\ book_size b = 0%nat /\
         (forall k, k <> length names -> books h' !! k = books h !! k)
  else server_handlers_add_order_book e (Some h) (Some sym) = Ok ((-1)%Z, Some h).
Proof.
  intros Hwf Ha Hf Hl. pose proof Hwf as (Lb & Ls & Hc & Hm & _ & Hbr & _). cbn [server_handlers_add_order_book]. rewrite Hc.
  rewrite (find_table_spec h orders names sym Hwf).
  pose proof (find_book_spec h orders names sym Hwf) as Hs.
  destruct (Nat.leb_spec MAX_SYMBOLS (length names)) as [Hfull|Hroom].
  { rewrite bool_decide_eq_false_2 by lia. reflexivity. }
  destruct (list_find (fun x => x = sym) names) as [[i x]|]; cbn [mbind res_bind fmap option_fmap option_map fst].
  { rewrite bool_decide_eq_false_2; [reflexivity |]. intros [Hni _]. destruct Hs as [_ Hi]. now apply list_elem_of_lookup_2 in Hi. }
  destruct Hs as [_ Hni]. rewrite bool_decide_eq_true_2 by auto. unfold new_book. rewrite !Ha.
  destruct (fresh_book_wf orders (sh_broadcaster h) Hbr) as (b & Eb & Hb & Hn & Hsz).
  assert (Hcs : c_str (buf_set (strncpy_fill (zero_buffer 16) sym 15) 15 NUL) = Ok sym).
  { pose proof (c_str_copy (zero_buffer 16) sym 16 Hf ltac:(lia) eq_refl) as H.
    now rewrite (copy_str_short 16) in H by lia. }
  destruct (push_book_wf h orders names b sym (fun old => name ← strncpy old sym 15; Ok (buf_set name 15 NUL))
    (buf_set (strncpy_fill (zero_buffer 16) sym 15) 15 NUL) Hwf)
    as (h' & E & Hwf' & Ebooks & _); auto. rewrite Eb, E. cbn [mbind res_bind].
  pose proof Hwf' as (_ & _ & Hc' & _). exists h', b. split_and!; auto.
  - cbn [server_handlers_get_order_book]. rewrite Hc', (find_table_spec h' orders _ sym Hwf').
    rewrite list_find_app_r; [|apply list_find_None; rewrite Forall_forall; intros x Hx ->; auto]. cbn [list_find].
    rewrite decide_True by reflexivity. cbn [mbind res_bind fmap option_fmap option_map prod_map fst Nat.add].
    now rewrite Ebooks, list_lookup_insert_eq by lia.
  - intros k Hk. rewrite Ebooks. now apply list_lookup_insert_ne.
Qed.

(** C24: a book request for a symbol with a book of at most 200 live orders a side is
    answered with one text, from which [parse_book_snapshot] reads the symbol, the number of
    live bids and of live asks, and exactly their prices and remaining quantities in
    ascending order; nothing else of the server changes. *)
Theorem book_request_correct e s c root fs names i sym b dst :
  books_wf (sv_handlers s) (sv_orders s) names -> alloc_all e ->
  repr root (JObj fs) -> jlookup "symbol" fs = Some (JStr sym) ->
  list_find (fun x => x = sym) names = Some (i, sym) -> books (sv_handlers s) !! i = Some (Some b) ->
  nul_free sym = true -> (strlen sym < 15)%nat -> length (bs_symbol dst) = 16%nat ->
  let bs := levels (reverse (bids (sv_orders s) b)) in
  let as_ := levels (asks (sv_orders s) b) in
  (length bs <= 200)%nat -> (length as_ <= 200)%nat -> Forall (fun pq => num_exact (fst pq) /\ in_int (snd pq)) (bs ++ as_) ->
  exists text snap, handle_book_request e s c root = Ok (0%Z, snd (send_to e s c text)) /\
    parse_book_snapshot (J := J) true (Some text) (Some dst) = Ok (true, Some snap) /\
    c_str (bs_symbol snap) = Ok sym /\
    bs_num_bids snap = Z.of_nat (length bs) /\ bs_num_asks snap = Z.of_nat (length as_) /\
    arr_values (bs_bid_prices snap) (length bs) = Some (map fst bs) /\
    arr_values (bs_bid_quantities snap) (length bs) = Some (map snd bs) /\
    arr_values (bs_ask_prices snap) (length as_) = Some (map fst as_) /\
    arr_values (bs_ask_quantities snap) (length as_) = Some (map snd as_).
Proof.
  intros Hwf Ha Hroot Hsym Hfind Hbk Hf Hl Hdst bs as_ Hbs Has HF. unfold handle_book_request, string_member.
  destruct (get_found _ _ "symbol" _ Hroot Hsym) as (item & -> & Hitem). rewrite (value_string _ _ Hitem).
  pose proof (find_book_spec _ _ _ sym Hwf) as Hs. rewrite Hfind in Hs. destruct Hs as [-> Hi]. cbn [mbind res_bind].
  unfold book_at. rewrite Hbk, Ha. cbn [mbind res_bind negb].
  assert (Hwfb : book_wf (sv_orders s) b).
  { destruct Hwf as (_ & _ & _ & _ & _ & _ & Hb & _). destruct (Hb _ _ Hi) as (b0 & buf & Hb0 & _ & _ & Hw & _). congruence. }
  rewrite (fill_snapshot_spec _ _ sym Hwfb). cbn [mbind res_bind].
  replace (tree_orders (sv_orders s) (buy_orders b)) with (reverse (bids (sv_orders s) b))
    by (unfold bids; apply reverse_involutive).
  change (tree_orders (sv_orders s) (sell_orders b)) with (asks (sv_orders s) b). fold bs as_.
  rewrite (take_ge bs), (take_ge as_) by assumption.
  destruct (snapshot_text (snapshot_of (strncpy_fill (zero_buffer 16) sym 15) bs as_) sym bs as_) as (text & j & -> & Hp & Hj);
    cbn [bs_symbol bs_num_bids bs_num_asks bs_bid_prices bs_bid_quantities bs_ask_prices bs_ask_quantities snapshot_of];
    auto using c_str_zeroed_short, filled_map_values with lia.
  cbn [mbind res_bind]. exists text. eexists. split; [reflexivity |].
  erewrite parse_snapshot_json; eauto. 2: { eapply Forall_impl; [exact HF |]. now intros pq []. }
  split; [reflexivity |]. cbn [bs_symbol bs_num_bids bs_num_asks bs_bid_prices bs_bid_quantities bs_ask_prices bs_ask_quantities].
  split_and!; auto using cells_values. apply c_str_copied; auto. lia.
Qed.

End Books.

(** ** Witnesses *)

Import RefJson.

Lemma started_books_wf : books_wf (sv_handlers (started broadcaster_config)) ∅ [].
Proof.
  unfold books_wf. split_and!; try reflexivity; try (vm_compute; lia); [constructor | eexists; reflexivity | intros i name [=] |].
  intros i [_ Hi]. cbn [started server_handlers_create negb broadcaster_config sv_handlers with_sh_running symbols].
  now apply lookup_replicate_2.
Qed.

Lemma snapshot_lists_live_orders_witness :
  exists snap, fill_snapshot sample_heap sample_book "AAPL" = Ok snap /\
    bs_num_bids snap = 2%Z /\ bs_num_asks snap = 1%Z /\
    arr_values (bs_bid_prices snap) 2 = Some [d_of_Z 149; d_of_Z 150] /\
    arr_values (bs_bid_quantities snap) 2 = Some [100; 100]%Z /\
    arr_values (bs_ask_prices snap) 1 = Some [d_of_Z 148] /\
    arr_values (bs_ask_quantities snap) 1 = Some [250]%Z.
Proof. exact (snapshot_lists_live_orders sample_heap sample_book "AAPL" sample_book_wf). Defined.

Lemma ok_env_alloc : alloc_all ok_env.
Proof. intros a. reflexivity. Qed.

Lemma in_int_10 : in_int 10.
Proof. split; vm_compute; discriminate. Qed.

(** A request as the client sends it. *)
Definition sample_request : list (string * jvalue) :=
  ("type"%string, JNum (d_of_Z 1)) :: order_fields "B1" "T1" "AAPL" (d_of_Z 150) 10 true.

Lemma sample_request_members : order_members sample_request "B1" "T1" "AAPL" (d_of_Z 150) 10 true.
Proof. repeat split. Qed.

Lemma sample_request_exact : jnumbers num_exact (JObj sample_request).
Proof. repeat split. Qed.

(** The configuration of the server program: no broadcaster. *)
Definition main_config : HandlerConfig := mkHandlerConfig 4 4096 1000 None.

Lemma no_broadcaster_no_orders_witness :
  handle_place_order (J := jvalue) ok_env (started main_config) (Some 1%positive) (JObj sample_request) =
  Ok (send_error_response ok_env (started main_config) (Some 1%positive) "Failed to place order").
Proof.
  refine (no_broadcaster_no_orders (J := jvalue) ok_env (started main_config) (Some 1%positive)
    (JObj sample_request) sample_request "B1" "T1" "AAPL" (d_of_Z 150) 10 true
    eq_refl eq_refl eq_refl sample_request_exact sample_request_members in_int_10 eq_refl eq_refl eq_refl eq_refl _ _); cbn; lia.
Defined.

(** A table with a book for each of S0 .. S99. *)
Definition table_name (n : nat) : string := "S" +:+ print_nat (Z.of_nat n).
Definition table_names : list string := table_name <$> seq 0 100.
Definition table_handlers : ServerHandlers :=
  mkServerHandlers 4 true [None; None] [None; None] 2 0 0
    (replicate 100 (order_book_create true true true (Some (mkTradeBroadcaster true))))
    ((fun n => strncpy_fill (zero_buffer 16) n 15) <$> table_names) 100 (Some (mkTradeBroadcaster true)).

Lemma table_books_wf : books_wf table_handlers ∅ table_names.
Proof.
  unfold books_wf. split_and!; try reflexivity; try (vm_compute; lia); [by_decide | eexists; reflexivity |].
  - intros i name Hi. destruct (fresh_book_wf ∅ (Some (mkTradeBroadcaster true))) as (b & Eb & Hb & Hn & _); [eauto |].
    exists b, (strncpy_fill (zero_buffer 16) name 15).
    assert (i < 100)%nat by (apply lookup_lt_Some in Hi; exact Hi). split_and!; auto.
    + cbn [books table_handlers]. rewrite lookup_replicate_2 by assumption. now rewrite Eb.
    + cbn [symbols table_handlers]. now rewrite list_lookup_fmap, Hi.
    + assert (HF : Forall (fun n => nul_free n = true /\ (strlen n <= 15)%nat) table_names) by by_decide.
      rewrite Forall_lookup in HF. destruct (HF _ _ Hi). now apply c_str_zeroed_short.
Qed.

Definition table_server : Server text_world := mkServer table_handlers ∅ ∅ [] [].

Lemma symbol_table_overrun_witness :
  handle_place_order (J := jvalue) ok_env table_server (Some 1%positive) (JObj sample_request) = UB OutOfBounds.
Proof.
  refine (symbol_table_overrun (J := jvalue) ok_env table_server (Some 1%positive)
    (JObj sample_request) sample_request table_names "B1" "T1" "AAPL" (d_of_Z 150) 10 true
    table_books_wf ok_env_alloc eq_refl _ eq_refl sample_request_exact sample_request_members in_int_10 eq_refl eq_refl eq_refl eq_refl _ _);
    [by_decide | cbn; lia | cbn; lia].
Defined.

Lemma add_order_book_correct_witness :
  exists h' b, server_handlers_add_order_book ok_env (Some (sv_handlers (started broadcaster_config))) (Some "AAPL"%string) =
      Ok (0%Z, Some h') /\ books_wf h' ∅ ["AAPL"%string] /\
    server_handlers_get_order_book (Some h') (Some "AAPL"%string) = Ok (Some b) /\ book_size b = 0%nat /\
    (forall k, k <> 0%nat -> books h' !! k = books (sv_handlers (started broadcaster_config)) !! k).
Proof.
  exact (add_order_book_correct ok_env (sv_handlers (started broadcaster_config)) ∅ [] "AAPL"
    started_books_wf ok_env_alloc eq_refl ltac:(cbn; lia)).
Defined.

(** ** Two orders in one second *)

(** The messages of the client, one after the other, through the dispatcher. *)
Definition place_two (root1 root2 : jvalue) : res (Z * Z * Server text_world) :=
  '(r1, s) ← handle_place_order (J := jvalue) ok_env (started broadcaster_config) (Some 1%positive) root1;
  '(r2, s) ← handle_place_order (J := jvalue) ok_env s (Some 1%positive) root2;
  Ok (r1, r2, s).

(** An order at the price of one entered in the same second is lost: both requests
    return 0 and both are acknowledged as accepted, but the book holds only the first
    order, since timestamps count seconds and equal keys are not inserted. *)
Theorem same_second_order_lost :
  exists s b, place_two (order_json "B1" "T1" "AAPL" (d_of_Z 150) 10 true)
                        (order_json "B2" "T2" "AAPL" (d_of_Z 150) 20 true) = Ok (0%Z, 0%Z, s) /\
    books (sv_handlers s) !! 0%nat = Some (Some b) /\ (o_order_id <$> bids (sv_orders s) b) = ["B1"%string] /\
    asks (sv_orders s) b = [] /\
    (1%positive, accept_text true "B2" "T2" "AAPL" (d_of_Z 150) 20 "now") ∈ sv_net s.
Proof.
  eexists _, _. split; [vm_compute; reflexivity |]. split; [reflexivity |]. split; [vm_compute; reflexivity |].
  split; [vm_compute; reflexivity |]. cbn [sv_net]. by_decide.
Qed.

(** A server whose only book is [sample_book]. *)
Definition aapl_handlers : ServerHandlers :=
  mkServerHandlers 4 true [None; None] [None; None] 2 0 0 (Some sample_book :: replicate 99 None)
    (strncpy_fill (zero_buffer 16) "AAPL" 15 :: replicate 99 (zero_buffer 16)) 1 (Some (mkTradeBroadcaster true)).

Definition aapl_server : Server text_world := mkServer aapl_handlers sample_heap ∅ [] [].

Lemma aapl_books_wf : books_wf aapl_handlers sample_heap ["AAPL"%string].
Proof.
  unfold books_wf. split_and!; try reflexivity; try (vm_compute; lia); [by_decide | eexists; reflexivity | |].
  - intros [|i] name Hi; [|discriminate]. injection Hi as <-. exists sample_book, (strncpy_fill (zero_buffer 16) "AAPL" 15).
    split_and!; try reflexivity; [apply sample_book_wf | split; by_decide].
  - intros [|i] [Hi Hi']; [cbn in Hi; lia |]. cbn [symbols aapl_handlers].
    change ((strncpy_fill (zero_buffer 16) "AAPL" 15 :: replicate 99 (zero_buffer 16)) !! S i)
      with (replicate 99 (zero_buffer 16) !! i). apply lookup_replicate_2. unfold MAX_SYMBOLS in Hi'. lia.
Qed.

(** An order for a book with two bids and an ask it crosses. *)
Lemma place_order_correct_witness :
  let o := mkOrder "B1" "T1" "AAPL" (d_of_Z 150) 10 10 true 1700000000 false in
  exists s' names' i b0 b' notes l,
    handle_place_order (J := jvalue) ok_env aapl_server (Some 1%positive) (JObj sample_request) = Ok (0%Z, s') /\
    books_wf (sv_handlers s') (sv_orders s') names' /\ ["AAPL"%string] `prefix_of` names' /\ names' !! i = Some "AAPL"%string /\
    books aapl_handlers !! i = Some (Some b0) /\ books (sv_handlers s') !! i = Some (Some b') /\ sv_notes s' = [] ++ notes /\
    (forall k, k <> i -> books (sv_handlers s') !! k = books aapl_handlers !! k) /\
    sample_heap !! l = None /\ filed_matched (e_clock ok_env) b0 (<[l := o]> sample_heap) l o (sv_orders s') b' notes.
Proof.
  refine (place_order_correct (J := jvalue) ok_env aapl_server (Some 1%positive)
    (JObj sample_request) sample_request ["AAPL"%string] "B1" "T1" "AAPL" (d_of_Z 150) 10 true
    aapl_books_wf ok_env_alloc eq_refl sample_request_exact sample_request_members in_int_10 _ eq_refl eq_refl eq_refl eq_refl eq_refl eq_refl _ _ _ _ _);
    [by_decide | cbn; lia | cbn; lia | cbn; lia | left; by_decide |].
  intros [|i] b Hi Hb; [|discriminate]. injection Hb as <-. by_decide.
Defined.

Lemma book_request_correct_witness :
  exists text snap, handle_book_request (J := jvalue) ok_env aapl_server (Some 1%positive)
      (JObj [("type", JNum (d_of_Z 3)); ("symbol", JStr "AAPL")]%string) =
      Ok (0%Z, snd (send_to ok_env aapl_server (Some 1%positive) text)) /\
    parse_book_snapshot (J := jvalue) true (Some text) (Some dirty_snapshot) = Ok (true, Some snap) /\
    c_str (bs_symbol snap) = Ok "AAPL"%string /\ bs_num_bids snap = 2%Z /\ bs_num_asks snap = 1%Z /\
    arr_values (bs_bid_prices snap) 2 = Some [d_of_Z 149; d_of_Z 150] /\
    arr_values (bs_bid_quantities snap) 2 = Some [100; 100]%Z /\
    arr_values (bs_ask_prices snap) 1 = Some [d_of_Z 148] /\
    arr_values (bs_ask_quantities snap) 1 = Some [250]%Z.
Proof.
  refine (book_request_correct (J := jvalue) ok_env aapl_server (Some 1%positive)
    (JObj [("type", JNum (d_of_Z 3)); ("symbol", JStr "AAPL")]%string)
    [("type", JNum (d_of_Z 3)); ("symbol", JStr "AAPL")]%string ["AAPL"%string] 0 "AAPL" sample_book dirty_snapshot
    aapl_books_wf ok_env_alloc eq_refl eq_refl eq_refl eq_refl eq_refl _ eq_refl _ _ _);
    [cbn; lia | vm_compute; lia | vm_compute; lia |].
  repeat constructor; try reflexivity; vm_compute; discriminate.
Defined.

Lemma untyped_id_crashes_worker_witness :
  handle_place_order (J := jvalue) ok_env (started broadcaster_config) (Some 1%positive) (JObj untyped_request) = UB NullDeref.
Proof.
  refine (untyped_id_crashes_worker (J := jvalue) ok_env (started broadcaster_config) (Some 1%positive) (JObj untyped_request)
    untyped_request _ _ _ _ _ _ eq_refl _ eq_refl _ eq_refl eq_refl eq_refl eq_refl eq_refl).
  - cbn [jnumbers untyped_request]. split_and!; auto; vm_compute; reflexivity.
  - discriminate.
Defined.
