(* ===== verification/HandlerSafety.v ===== *)
(** * The handlers serve every well-formed request

    A message is [servable] for a set of symbols when, if it is an order request, its
    strings fit and its symbol is one of the set; a cancellation, a book request, an
    unknown message or a text that is not JSON always is.  A worker handles every
    servable message of well-formed books without undefined behaviour and leaves
    well-formed books, its own queue untouched. *)

From Stdlib Require Import Ascii String ZArith Lia SpecFloat.
From stdpp Require Import base list numbers strings gmap fin_maps.
From S2P Require Import Prelude CDouble CString CJson Protocol JsonProtocol Order AvlTree OrderBook MatchSpec BookRefine.
From S2P Require Import WsServer Handlers HandlerQueue HandlerBooks.

Section Safety.

Context {J : Type} `{CJ : CJson J} `{CL : !CJsonLaws J} {N : Type} `{L : Lws N}.

Implicit Types s : Server N.

(** ** Requests *)

(** The string fits an array of [n] cells with its terminator to spare. *)
Definition fits (x : string) (n : nat) : Prop := nul_free x = true /\ (S (strlen x) < n)%nat.

(** The members of an order request that the parser copies without truncation. *)
Definition order_request_ok (syms : list string) (root : J) : Prop :=
  exists fs oid tid sym price q buy,
    repr root (JObj fs) /\ jnumbers num_exact (JObj fs) /\ order_members fs oid tid sym price q buy /\
    in_int q /\ d_ok price /\ fits oid 32 /\ fits tid 32 /\ fits sym 16 /\ sym ∈ syms.

Definition servable (syms : list string) (text : string) : Prop :=
  forall root, cJSON_Parse text = Some root -> parse_base_message (J := J) (Some text) = Some MSG_PLACE_ORDER ->
  order_request_ok syms root.

(** What a handler may rely on: memory, and the sizes of the arrays on its stack. *)
Definition env_ok (e : Env) : Prop :=
  alloc_all e /\ length (om_order_id (e_stack e)) = 32%nat /\ length (om_trader_id (e_stack e)) = 32%nat /\
  length (om_symbol (e_stack e)) = 16%nat.

(** The books are well-formed and all their symbols are among [syms]. *)
Definition books_among (syms : list string) s : Prop :=
  exists names, books_wf (sv_handlers s) (sv_orders s) names /\ names ⊆ syms.

(** ** Frames *)

Lemma books_wf_kept s s' names :
  books_kept s s' -> books_wf (sv_handlers s) (sv_orders s) names -> books_wf (sv_handlers s') (sv_orders s') names.
Proof. intros (-> & _ & E1 & E2 & E3 & E4). unfold books_wf. now rewrite E1, E2, E3, E4. Qed.

Lemma books_among_kept syms s s' : books_kept s s' -> books_among syms s -> books_among syms s'.
Proof. intros Hk (names & Hwf & Hs). exists names. eauto using books_wf_kept. Qed.

Lemma queue_rep_kept s s' q : queue_kept s s' -> queue_rep s q -> queue_rep s' q.
Proof.
  intros [Em Ev]. unfold queue_view in Ev. injection Ev as _ E2 E3 E4 E5 E6. unfold queue_rep, slot.
  rewrite Em. rewrite E2, E3, E4, E5, E6. auto.
Qed.

Lemma slots_kept took s s' q : queue_kept s s' -> slots_after took s q -> slots_after took s' q.
Proof.
  intros [_ Ev]. unfold queue_view in Ev. injection Ev as _ E2 E3 E4 E5 E6. unfold slots_after, slot.
  rewrite E2, E4, E5. auto.
Qed.

Lemma queue_kept_running s s' : queue_kept s s' -> sh_running (sv_handlers s') = sh_running (sv_handlers s).
Proof. intros [_ Ev]. unfold queue_view in Ev. congruence. Qed.

(** A reply changes only the network. *)
Lemma send_to_kept syms e s c text :
  books_among syms s -> books_among syms (snd (send_to e s c text)) /\ queue_kept s (snd (send_to e s c text)).
Proof.
  destruct (send_to_frame e s c text) as (E1 & E2 & E3 & _). unfold books_among, queue_kept. rewrite E1, E2, E3. auto.
Qed.

(** ** Cancelling *)

Lemma books_wf_canceled h orders names l o :
  orders !! l = Some o -> books_wf h orders names -> books_wf h (<[l := set_canceled o]> orders) names.
Proof.
  intros Hl (Lb & Ls & Hc & Hm & Hd & Hbr & Hb & Hz). unfold books_wf. split_and!; auto.
  intros i name Hi. destruct (Hb _ _ Hi) as (b & buf & H1 & H2 & H3 & H4 & H5). exists b, buf.
  split_and!; auto using book_wf_cancel. eapply book_named_step; [|exact H4 | exact H5].
  intros buy e He o' Ho'. unfold entry_ok in He. destruct (decide (l = e.2)) as [->|Hne].
  - rewrite lookup_insert_eq in Ho'. injection Ho' as <-. eauto.
  - rewrite lookup_insert_ne in Ho' by exact Hne. eauto.
Qed.

Lemma book_side h b buy : book_wf h b -> exists t, side b buy = Some t.
Proof. unfold book_wf, side. destruct buy; repeat case_match; try contradiction; eauto. Qed.

(** The book a search finds. *)
Lemma find_book_at syms s symbol :
  books_among syms s ->
  find_book (sv_handlers s) symbol = Ok None \/
  exists i b, find_book (sv_handlers s) symbol = Ok (Some i) /\ book_at (sv_handlers s) i = Ok b /\
    book_wf (sv_orders s) b /\ nul_free symbol = true.
Proof.
  intros (names & Hwf & _). pose proof (find_book_spec _ _ _ symbol Hwf) as Hf.
  destruct (list_find _ names) as [[i x]|]; [right | left; tauto]. destruct Hf as [E Hi].
  destruct Hwf as (_ & _ & _ & _ & _ & _ & Hb & _). destruct (Hb _ _ Hi) as (b & buf & H1 & _ & H3 & H4 & _).
  exists i, b. unfold book_at. rewrite H1. eauto using c_str_nul_free.
Qed.

(** What every handler guarantees: it returns, the books stay well-formed over the
    symbols, and the queue is left alone. *)
Definition handled (syms : list string) s (m : res (Z * Server N)) : Prop :=
  exists r s', m = Ok (r, s') /\ books_among syms s' /\ queue_kept s s'.

Lemma handled_error syms e s c msg : books_among syms s -> handled syms s (Ok (send_error_response e s c msg)).
Proof.
  intros H. unfold send_error_response. destruct (send_to_kept syms e s c (error_text msg) H) as [H1 H2].
  destruct (send_to e s c (error_text msg)) as [r s'] eqn:E. exists r, s'. auto.
Qed.

Lemma handled_reply syms e s c text : books_among syms s -> handled syms s (Ok (0%Z, snd (send_to e s c text))).
Proof. intros H. destruct (send_to_kept syms e s c text H). eexists _, _. eauto. Qed.

Lemma cancel_handled syms e s c root : books_among syms s -> handled syms s (handle_cancel_order e s c root).
Proof.
  intros Hbs. unfold handle_cancel_order. destruct (string_member root "order_id") as [oid|]; [|now apply handled_error].
  destruct (string_member root "symbol") as [sym|]; [|now apply handled_error].
  destruct (find_book_at syms s sym Hbs) as [-> |(i & b & -> & Eb & Hwf & _)]; cbn [mbind res_bind]; [now apply handled_error |].
  destruct (cJSON_GetObjectItem root "is_buy") as [item|]; [|now apply handled_error]. rewrite Eb. cbn [mbind res_bind].
  set (buy := negb (valueint item =? 0)%Z). destruct (book_side _ _ buy Hwf) as [t Ht].
  pose proof (cancel_order_spec _ _ oid buy t Hwf Ht) as H. destruct (find_id _ oid _) as [l|].
  - destruct H as (o & Hl & _ & -> & _). cbn [mbind res_bind Z.eqb negb].
    set (s1 := set_orders s (<[l := set_canceled o]> (sv_orders s))).
    destruct (handled_reply syms e s1 c (cancel_text oid sym (e_strftime e (e_now e)))) as (r & s' & E & H1 & H2).
    { destruct Hbs as (names & Hb & Hn). exists names. split; [now apply books_wf_canceled | exact Hn]. }
    exists r, s'. auto.
  - rewrite H. cbn [mbind res_bind Z.eqb negb].
    replace (set_orders s (sv_orders s)) with s by now destruct s. now apply handled_error.
Qed.

(** ** Book requests *)

Lemma request_handled syms e s c root :
  books_among syms s -> alloc_all e -> handled syms s (handle_book_request e s c root).
Proof.
  intros Hbs Ha. unfold handle_book_request. destruct (string_member root "symbol") as [sym|]; [|now apply handled_error].
  destruct (find_book_at syms s sym Hbs) as [-> |(i & b & -> & Eb & Hwf & Hf)]; cbn [mbind res_bind]; [now apply handled_error |].
  rewrite Eb, Ha. cbn [mbind res_bind negb]. rewrite (fill_snapshot_spec _ _ sym Hwf). cbn [mbind res_bind].
  set (bs := take 200 (levels _)). set (as_ := take 200 (levels _)).
  destruct (snapshot_prints (J := J) sym bs as_ Hf) as [text ->]. cbn [mbind res_bind]. now apply handled_reply.
Qed.

(** ** Orders *)

Lemma names_room (syms names : list string) sym :
  (length syms <= MAX_SYMBOLS)%nat -> NoDup names -> names ⊆ syms -> sym ∈ syms ->
  sym ∈ names \/ (length names < MAX_SYMBOLS)%nat.
Proof.
  intros Hl Hd Hs Hin. destruct (decide (sym ∈ names)) as [H|H]; [now left | right].
  assert (length (sym :: names) <= length syms)%nat; [|cbn in *; lia].
  apply submseteq_length, NoDup_submseteq; [now constructor |]. intros x. rewrite elem_of_cons. intros [-> |Hx]; auto.
Qed.

Lemma place_handled syms e s c root :
  books_among syms s -> env_ok e -> (length syms <= MAX_SYMBOLS)%nat -> order_request_ok syms root ->
  handled syms s (handle_place_order e s c root).
Proof.
  intros (names & Hwf & Hn) (Ha & L1 & L2 & L3) Hl (fs & oid & tid & sym & price & q & buy & H).
  destruct H as (Hr & Hx & Hm & Hq & Hp & [N1 S1] & [N2 S2] & [N3 S3] & Hin).
  assert (Hroom : sym ∈ names \/ (length names < MAX_SYMBOLS)%nat) by (eapply names_room; eauto; apply Hwf).
  destruct (place_order_spec e s c root fs names oid tid sym price q buy)
    as (s' & names' & i & b0 & b' & notes & l & E & Hwf' & -> & _ & _ & _ & _ & _ & _ & _ & Hk); auto; try lia.
  exists 0%Z, s'. split_and!; auto. exists (grown names sym). split; [exact Hwf' |].
  intros x [Hx'| ->]%elem_of_grown; auto.
Qed.

(** ** One message *)

Lemma process_text_handled syms e s c text :
  books_among syms s -> env_ok e -> (length syms <= MAX_SYMBOLS)%nat -> servable syms text ->
  exists s', process_text (J := J) e s c text = Ok s' /\ books_among syms s' /\ queue_kept s s'.
Proof.
  intros Hbs He Hl Hs. unfold process_text. destruct (parse_base_message (Some text)) as [ty|] eqn:Et.
  2: { eexists. split; [reflexivity |]. now apply send_to_kept. }
  destruct (cJSON_Parse text) as [root|] eqn:Ep; [|eexists; split; [reflexivity | now apply send_to_kept]].
  unfold dispatch. destruct (Z.eqb_spec ty MSG_PLACE_ORDER) as [->|_].
  { destruct (place_handled syms e s c root Hbs He Hl (Hs root Ep Et)) as (r & s' & -> & H). cbn. eauto. }
  destruct (Z.eqb_spec ty MSG_CANCEL_ORDER) as [_|_].
  { destruct (cancel_handled syms e s c root Hbs) as (r & s' & -> & H). cbn. eauto. }
  destruct (Z.eqb_spec ty MSG_REQUEST_BOOK) as [_|_].
  { destruct (request_handled syms e s c root Hbs (proj1 He)) as (r & s' & -> & H). cbn. eauto. }
  eexists. split; [reflexivity |]. now apply send_to_kept.
Qed.

(** ** Properties *)

(** C14: a worker that handles a message undisturbed serves every servable one: on well-formed
    books over at most 100 symbols, whatever the message (an order whose strings fit and
    whose symbol is one of them, a cancellation, a book request, any other JSON or no JSON at
    all), the handler returns without undefined behaviour, the books are well-formed again,
    over the same symbols, and the queue and its strings are untouched. *)
Theorem message_handled syms e s c text :
  books_among syms s -> env_ok e -> (length syms <= MAX_SYMBOLS)%nat -> servable syms text ->
  exists s', process_text (J := J) e s c text = Ok s' /\ books_among syms s' /\ queue_kept s s'.
Proof. exact (process_text_handled syms e s c text). Qed.

(** ** What the handlers promise to the workers *)

(** An invariant of the server that the queue operations and the handling of every
    acceptable message keep. *)
Class HandlerPromise (inv : Server N -> Prop) (msg_ok : string -> Prop) : Prop := {
  promise_kept s s' : books_kept s s' -> inv s -> inv s';
  promise_served e s c text : inv s -> env_ok e -> msg_ok text ->
    exists s', process_text (J := J) e s c text = Ok s' /\ inv s' /\ queue_kept s s'
}.

(** Well-formed books over at most [MAX_SYMBOLS] symbols. *)
Definition books_inv (syms : list string) s : Prop := books_among syms s /\ (length syms <= MAX_SYMBOLS)%nat.

#[export] Instance books_promise syms : HandlerPromise (books_inv syms) (servable syms).
Proof.
  split.
  - intros s s' Hk [Hb Hl]. split; [eapply books_among_kept; eauto | exact Hl].
  - intros e s c text [Hb Hl] He Hs. destruct (process_text_handled syms e s c text Hb He Hl Hs) as (s' & H1 & H2 & H3).
    exists s'. unfold books_inv. auto.
Qed.

(** No broadcaster, hence no books: the server program as it is configured. *)
Definition no_books s : Prop := sh_broadcaster (sv_handlers s) = None /\ book_count (sv_handlers s) = 0%nat.

Definition well_formed (text : string) : Prop := exists syms, servable syms text.

Lemma no_books_reply e s c text :
  no_books s -> no_books (snd (send_to e s c text)) /\ queue_kept s (snd (send_to e s c text)).
Proof. destruct (send_to_frame e s c text) as (E1 & E2 & E3 & _). unfold no_books, queue_kept. rewrite E1, E3. auto. Qed.

Lemma no_books_find s symbol : no_books s -> find_book (sv_handlers s) symbol = Ok None.
Proof. intros [_ E]. unfold find_book. now rewrite E. Qed.

(** With no books every message is answered, and nothing else happens. *)
Lemma no_books_answered e s c text :
  no_books s -> env_ok e -> well_formed text ->
  exists reply, process_text (J := J) e s c text = Ok (snd (send_to e s c reply)).
Proof.
  intros Hn (_ & L1 & _ & L3) [syms Hs]. unfold process_text. destruct (parse_base_message (Some text)) as [ty|] eqn:Et; [|eauto].
  destruct (cJSON_Parse text) as [root|] eqn:Ep; [|eauto]. unfold dispatch.
  destruct (Z.eqb_spec ty MSG_PLACE_ORDER) as [->|_].
  { destruct (Hs root Ep Et) as (fs & oid & tid & sym & price & q & buy & Hr & Hx & Hm & Hq & _ & [N1 S1] & _ & [N3 S3] & _).
    rewrite (no_broadcaster_spec e s c root fs oid tid sym price q buy); try apply Hn; auto; try lia. cbn. eauto. }
  unfold handle_cancel_order, handle_book_request. repeat case_match; rewrite ?(no_books_find s _ Hn); cbn; eauto.
Qed.

#[export] Instance no_books_promise : HandlerPromise no_books well_formed.
Proof.
  split.
  - intros s s' (_ & _ & _ & _ & E1 & E2) [H1 H2]. unfold no_books. rewrite E1, E2. auto.
  - intros e s c text Hn He Ht. destruct (no_books_answered e s c text Hn He Ht) as [reply ->].
    eexists. split; [reflexivity |]. now apply no_books_reply.
Qed.

End Safety.

(** ** Concrete messages *)

Import RefJson.

Definition request_text (fs : list (string * jvalue)) : string := print (JObj fs).

(** The order of [sample_request], and its cancellation. *)
Definition order_text : string := request_text sample_request.
Definition undo_text : string :=
  request_text [("type", JNum (d_of_Z 2)); ("order_id", JStr "B1"); ("symbol", JStr "AAPL"); ("is_buy", JBool true)]%string.

Lemma order_text_servable : servable (J := jvalue) ["AAPL"%string] order_text.
Proof.
  intros root Hp _. assert (E : cJSON_Parse (J := jvalue) order_text = Some (JObj sample_request)) by (vm_compute; reflexivity).
  rewrite E in Hp. injection Hp as <-.
  exists sample_request, "B1"%string, "T1"%string, "AAPL"%string, (d_of_Z 150), 10%Z, true.
  split_and!; try reflexivity; auto using sample_request_exact, sample_request_members, in_int_10;
    try (split; [reflexivity | vm_compute; lia]); by_decide.
Qed.

Lemma ok_env_ok : env_ok ok_env.
Proof. split_and!; try reflexivity. exact ok_env_alloc. Qed.

Lemma message_handled_witness :
  exists s', process_text (J := jvalue) ok_env aapl_server (Some 1%positive) order_text = Ok s' /\
    books_among ["AAPL"%string] s' /\ queue_kept aapl_server s'.
Proof.
  apply (message_handled (J := jvalue) ["AAPL"%string] ok_env aapl_server (Some 1%positive) order_text).
  - exists ["AAPL"%string]. split; [apply aapl_books_wf | reflexivity].
  - apply ok_env_ok.
  - vm_compute. lia.
  - apply order_text_servable.
Defined.
