(* ===== verification/Workers.v ===== *)
(** * The worker pool (src/src/server/server_handlers.c)

    The service thread puts messages into the queue while several workers take, handle
    and free them, until another thread stops them.  [Pool] is the server's state with the
    place each worker has reached in its loop; [pool_step] is one step of one thread, so a
    list of events is an interleaving.

    The mutex [queue_lock] is held by a worker that has found the queue empty and is about
    to call [pthread_cond_wait] ([WDeciding]); the other critical sections are single steps,
    possible while nobody holds it.  The condition variable is the set of workers that sleep
    on it ([WAsleep]).  [server_handlers_stop_workers] clears the flag and broadcasts without
    the mutex, in two steps.

    Handlers take only a read lock, so they run at the same time.  Between taking a message
    and having handled it a worker may change the books, the orders, the network and the
    notifications in any way, any number of times ([EvWork]); that every handler of the
    source does nothing else is [handler_is_work].  What concurrent handlers may do to the
    table of books is the subject of [BookTable]. *)

From Stdlib Require Import Ascii String ZArith Lia SpecFloat.
From stdpp Require Import base list numbers strings gmap fin_maps.
From S2P Require Import Prelude CDouble CString CJson Protocol JsonProtocol Order AvlTree OrderBook MatchSpec BookRefine.
From S2P Require Import WsServer Handlers HandlerQueue HandlerBooks HandlerSafety.

(** Where a worker is: at the test of its loop; in [dequeue_message] before it has the
    mutex; holding it, about to wait; waiting; with a message in hand; done with it but
    before [free]; or out of its loop. *)
Inductive worker : Type :=
| WLoop
| WLocking
| WDeciding
| WAsleep
| WTaken (message : loc) (c : option client)
| WHandled (message : loc)
| WExited.

#[export] Instance worker_eq_dec : EqDecision worker.
Proof. solve_decision. Defined.

(** How far [server_handlers_stop_workers] has come. *)
Inductive stopper : Type :=
| NotStopping
| FlagCleared
| Joining.

(** The string a worker holds. *)
Definition held (w : worker) : option loc :=
  match w with
  | WTaken l _ | WHandled l => Some l
  | _ => None
  end.

(** The mutex is held. *)
Definition locked (ws : list worker) : bool := bool_decide (WDeciding ∈ ws).

(** [pthread_cond_signal] wakes a waiting worker if there is one: that at [woken], or the
    first. *)
Definition cond_signal (woken : nat) (ws : list worker) : list worker :=
  match ws !! woken with
  | Some WAsleep => <[woken := WLocking]> ws
  | _ =>
      match list_find (fun w => w = WAsleep) ws with
      | Some (i, _) => <[i := WLocking]> ws
      | None => ws
      end
  end.

(** [pthread_cond_broadcast] wakes them all. *)
Definition cond_broadcast (ws : list worker) : list worker :=
  (fun w => match w with WAsleep => WLocking | w => w end) <$> ws.

(** What a step does that matters to the messages. *)
Inductive pool_out : Type :=
| Quiet
| Accepted (m : string * option client)
| Refused
| Took (m : string * option client)
| Served (m : string * option client).

Section Workers.

Context {J : Type} `{CJ : CJson J} {N : Type} `{L : Lws N}.

(** What handlers share: the table of books, the orders, the network, the notifications. *)
Record Shared : Type := mkShared {
  sd_books : list (option OrderBook);
  sd_symbols : list buffer;
  sd_count : nat;
  sd_orders : order_heap;
  sd_net : N;
  sd_notes : list TradeNote
}.

Definition shared_of (s : Server N) : Shared :=
  mkShared (books (sv_handlers s)) (symbols (sv_handlers s)) (book_count (sv_handlers s)) (sv_orders s) (sv_net s) (sv_notes s).

Definition with_shared (s : Server N) (d : Shared) : Server N :=
  let h := sv_handlers s in
  mkServer (mkServerHandlers (sh_thread_count h) (sh_running h) (message_queue h) (client_queue h) (queue_size h)
              (queue_head h) (queue_tail h) (sd_books d) (sd_symbols d) (sd_count d) (sh_broadcaster h))
    (sd_orders d) (sv_msgs s) (sd_net d) (sd_notes d).

(** A step of the service thread, of the [i]-th worker, or of the thread that stops the
    workers. *)
Inductive pool_event : Type :=
| EvArrive (e : Env) (text : string) (c : option client) (woken : nat)
| EvLoop (i : nat)
| EvLock (i : nat)
| EvWait (i : nat)
| EvSpurious (i : nat)
| EvWork (i : nat) (d : Shared)
| EvDone (i : nat)
| EvFree (i : nat)
| EvStop
| EvBroadcast.

Record Pool : Type := mkPool {
  p_server : Server N;
  p_workers : list worker;
  p_stopper : stopper
}.

Implicit Types (p : Pool) (s : Server N).

Definition set_worker p (i : nat) (s : Server N) (w : worker) : Pool := mkPool s (<[i := w]> (p_workers p)) (p_stopper p).

Definition pool_running p : bool := sh_running (sv_handlers (p_server p)).

(** The two steps of [server_handlers_stop_workers] before its joins. *)
Definition clear_flag p (h : ServerHandlers) : Pool := mkPool (set_handlers (p_server p) h) (p_workers p) FlagCleared.
Definition broadcast p : Pool := mkPool (p_server p) (cond_broadcast (p_workers p)) Joining.

(** One step: [None] when the thread cannot take it now (it is elsewhere, or the mutex is
    held). *)
Definition pool_step p (ev : pool_event) : res (option (pool_out * Pool)) :=
  let s := p_server p in
  match ev with
  | EvArrive e text c woken =>
      if locked (p_workers p) then Ok None
      else
        '(r, s') ← server_handlers_process_message e s c (Some text);
        Ok (Some (if (r =? 0)%Z then (Accepted (text, c), mkPool s' (cond_signal woken (p_workers p)) (p_stopper p))
                  else (Refused, mkPool s' (p_workers p) (p_stopper p))))
  | EvLoop i =>
      match p_workers p !! i with
      | Some WLoop => Ok (Some (Quiet, set_worker p i s (if pool_running p then WLocking else WExited)))
      | _ => Ok None
      end
  | EvLock i =>
      match p_workers p !! i with
      | Some WLocking =>
          if locked (p_workers p) then Ok None
          else
            d ← dequeue_message s;
            match (d : dequeued) with
            | DqWait => Ok (Some (Quiet, set_worker p i s WDeciding))
            | DqStop => Ok (Some (Quiet, set_worker p i s WLoop))
            | DqMessage None _ s' => Ok (Some (Quiet, set_worker p i s' WLoop))
            | DqMessage (Some l) c s' =>
                let text := default ""%string (sv_msgs s' !! l) in
                Ok (Some (Took (text, c), set_worker p i s' (WTaken l c)))
            end
      | _ => Ok None
      end
  | EvWait i =>
      match p_workers p !! i with
      | Some WDeciding => Ok (Some (Quiet, set_worker p i s WAsleep))
      | _ => Ok None
      end
  | EvSpurious i =>
      match p_workers p !! i with
      | Some WAsleep => Ok (Some (Quiet, set_worker p i s WLocking))
      | _ => Ok None
      end
  | EvWork i d =>
      match p_workers p !! i with
      | Some (WTaken l c) =>
          match sv_msgs s !! l with
          | None => UB UseAfterFree
          | Some _ => Ok (Some (Quiet, mkPool (with_shared s d) (p_workers p) (p_stopper p)))
          end
      | _ => Ok None
      end
  | EvDone i =>
      match p_workers p !! i with
      | Some (WTaken l c) =>
          match sv_msgs s !! l with
          | None => UB UseAfterFree
          | Some text => Ok (Some (Served (text, c), set_worker p i s (WHandled l)))
          end
      | _ => Ok None
      end
  | EvFree i =>
      match p_workers p !! i with
      | Some (WHandled l) =>
          s' ← free_message s l;
          Ok (Some (Quiet, set_worker p i s' WLoop))
      | _ => Ok None
      end
  | EvStop =>
      let '(r, h) := server_handlers_stop_workers (Some (sv_handlers s)) in
      h ← deref h;
      Ok (if (r =? 0)%Z then Some (Quiet, clear_flag p h) else None)
  | EvBroadcast =>
      match p_stopper p with
      | FlagCleared => Ok (Some (Quiet, broadcast p))
      | _ => Ok None
      end
  end.

(** A worker that handles its message without being disturbed. *)
Definition handle_alone (e : Env) p (i : nat) : res (option (pool_out * Pool)) :=
  match p_workers p !! i with
  | Some (WTaken l c) =>
      match sv_msgs (p_server p) !! l with
      | None => UB UseAfterFree
      | Some text =>
          s' ← process_text (J := J) e (p_server p) c text;
          Ok (Some (Served (text, c), set_worker p i s' (WHandled l)))
      end
  | _ => Ok None
  end.

(** An interleaving; events that cannot happen are skipped. *)
Fixpoint pool_run p (evs : list pool_event) : res (list pool_out * Pool) :=
  match evs with
  | [] => Ok ([], p)
  | ev :: evs =>
      r ← pool_step p ev;
      match (r : option (pool_out * Pool)) with
      | None => pool_run p evs
      | Some (o, p') => '(os, p'') ← pool_run p' evs; Ok (o :: os, p'')
      end
  end.

(** The messages of a run, by what happened to them. *)
Definition accepted (os : list pool_out) : list (string * option client) :=
  omap (fun o => match o with Accepted m => Some m | _ => None end) os.
Definition taken (os : list pool_out) : list (string * option client) :=
  omap (fun o => match o with Took m => Some m | _ => None end) os.
Definition served (os : list pool_out) : list (string * option client) :=
  omap (fun o => match o with Served m => Some m | _ => None end) os.

(** What a worker has in hand and has not handled yet, over a given set of strings. *)
Definition hand (msgs : gmap loc string) (w : worker) : option (string * option client) :=
  match w with
  | WTaken l c => (fun t => (t, c)) <$> msgs !! l
  | _ => None
  end.

Definition in_hand p : list (string * option client) := omap (hand (sv_msgs (p_server p))) (p_workers p).

(** ** Invariant *)

(** The strings allocated are exactly those queued and those in hand, each once; while the
    mutex is held the queue is empty. *)
Definition pool_ok p (q : list queued) : Prop :=
  let s := p_server p in
  queue_rep s q /\
  NoDup (omap held (p_workers p) ++ (q_loc <$> q)) /\
  (forall l, l ∈ omap held (p_workers p) ++ (q_loc <$> q) <-> is_Some (sv_msgs s !! l)) /\
  (WDeciding ∈ p_workers p -> q = []).

(** ** Lemmas *)

Lemma omap_middle {A B : Type} (f : A -> option B) a w b :
  omap f (a ++ w :: b) = omap f a ++ match f w with Some x => [x] | None => [] end ++ omap f b.
Proof. rewrite omap_app. cbn. now destruct (f w). Qed.

Lemma omap_ext_in {A B : Type} (f g : A -> option B) (l : list A) :
  (forall x, x ∈ l -> f x = g x) -> omap f l = omap g l.
Proof.
  induction l as [|x l IH]; intros H; [reflexivity |]. cbn. rewrite (H x) by (now left).
  rewrite IH by (intros; apply H; now right). reflexivity.
Qed.

(** Strings of no worker may come and go. *)
Lemma hand_frame (msgs msgs' : gmap loc string) (ws : list worker) :
  (forall l, l ∈ omap held ws -> msgs' !! l = msgs !! l) -> omap (hand msgs') ws = omap (hand msgs) ws.
Proof.
  intros H. apply omap_ext_in. intros w Hw. destruct w as [| | | |l c| |]; cbn; auto. rewrite H; [reflexivity |].
  apply list_elem_of_omap. eauto.
Qed.

Lemma held_live p q w l :
  pool_ok p q -> w ∈ p_workers p -> held w = Some l -> is_Some (sv_msgs (p_server p) !! l).
Proof. intros (_ & _ & Hm & _) Hw Hl. apply Hm, elem_of_app. left. apply list_elem_of_omap. eauto. Qed.

(** Some sleepers have been woken. *)
Definition roused (ws ws' : list worker) : Prop :=
  Forall2 (fun w w' => w' = w \/ (w = WAsleep /\ w' = WLocking)) ws ws'.

Lemma roused_refl ws : roused ws ws.
Proof. unfold roused. induction ws; constructor; auto. Qed.

Lemma roused_insert ws i : ws !! i = Some WAsleep -> roused ws (<[i := WLocking]> ws).
Proof.
  intros Hi. unfold roused. rewrite <- (list_insert_id _ _ _ Hi) at 1.
  apply Forall2_insert; [apply roused_refl | auto].
Qed.

Lemma cond_signal_roused woken ws : roused ws (cond_signal woken ws).
Proof.
  unfold cond_signal. assert (Hfirst : roused ws (match list_find (fun w => w = WAsleep) ws with
    | Some (i, _) => <[i := WLocking]> ws | None => ws end)).
  { destruct (list_find _ ws) as [[i w]|] eqn:E; [|apply roused_refl].
    apply list_find_Some in E as (Hi & -> & _). now apply roused_insert. }
  destruct (ws !! woken) as [[]|] eqn:Hw; try exact Hfirst. now apply roused_insert.
Qed.

Lemma cond_broadcast_roused ws : roused ws (cond_broadcast ws).
Proof. unfold roused, cond_broadcast. induction ws as [|[] ws IH]; constructor; auto. Qed.

Lemma roused_omap {B : Type} (f : worker -> option B) ws ws' :
  f WAsleep = None -> f WLocking = None -> roused ws ws' -> omap f ws' = omap f ws.
Proof.
  intros H1 H2. induction 1 as [|w w' ws ws' Hw _ IH]; [reflexivity |]. cbn.
  destruct Hw as [-> |[-> ->]]; rewrite IH; [reflexivity | now rewrite H1, H2].
Qed.

Lemma roused_elem w ws ws' : roused ws ws' -> w <> WLocking -> w ∈ ws' -> w ∈ ws.
Proof.
  intros Hr Hne. induction Hr as [|x x' ws ws' Hx _ IH]; [auto |]. rewrite !elem_of_cons.
  intros [-> |H]; [|auto]. destruct Hx as [-> |[_ ->]]; [now left | contradiction].
Qed.

Lemma roused_length ws ws' : roused ws ws' -> length ws' = length ws.
Proof. intros H. symmetry. eapply Forall2_length, H. Qed.

(** After a signal some worker is awake. *)
Lemma cond_signal_awake woken ws : ws <> [] -> exists w, w ∈ cond_signal woken ws /\ w <> WAsleep.
Proof.
  intros Hne. unfold cond_signal.
  assert (Hins : forall i w, ws !! i = Some w -> exists w, w ∈ <[i := WLocking]> ws /\ w <> WAsleep).
  { intros i w Hi. exists WLocking. split; [|discriminate]. apply list_elem_of_insert. eapply lookup_lt_Some; eauto. }
  assert (Hfirst : exists w, w ∈ (match list_find (fun w => w = WAsleep) ws with
    | Some (i, _) => <[i := WLocking]> ws | None => ws end) /\ w <> WAsleep).
  { destruct (list_find _ ws) as [[i w]|] eqn:E; [apply list_find_Some in E as (Hi & _); eauto |].
    apply list_find_None in E. destruct ws as [|w ws]; [contradiction |]. apply Forall_cons in E as [Hw _].
    exists w. split; [now left | exact Hw]. }
  destruct (ws !! woken) as [[]|] eqn:Hw; eauto.
Qed.

(** A worker that holds no string moves. *)
Lemma move_ok p q i w w' :
  pool_ok p q -> p_workers p !! i = Some w -> held w = None -> held w' = None -> (w' = WDeciding -> q = []) ->
  pool_ok (set_worker p i (p_server p) w') q /\ in_hand (set_worker p i (p_server p) w') = in_hand p.
Proof.
  intros (Hq & Hd & Hm & Hk) Hi Hw Hw' Hdec. destruct (entry_split _ _ _ Hi) as (a & b & Ew & Ei).
  unfold pool_ok, in_hand, set_worker. cbn [p_server p_workers]. rewrite Ei, Ew in *. rewrite !omap_middle in *.
  assert (Hh : forall x msgs, held x = None -> hand msgs x = None) by (now intros []).
  rewrite Hw, Hw', !(Hh _ _ Hw), (Hh _ _ Hw') in *. split; [|reflexivity]. split_and!; auto.
  rewrite elem_of_app, elem_of_cons. intros [H|[H|H]]; [apply Hk | auto | apply Hk]; rewrite elem_of_app, elem_of_cons; auto.
Qed.

(** Changes that leave the queue and its strings alone. *)
Lemma kept_ok p q s' :
  pool_ok p q -> queue_kept (p_server p) s' ->
  pool_ok (mkPool s' (p_workers p) (p_stopper p)) q /\ in_hand (mkPool s' (p_workers p) (p_stopper p)) = in_hand p /\
  (forall took, slots_after took (p_server p) q -> slots_after took s' q).
Proof.
  intros (Hq & Hd & Hm & Hk) Hs. unfold pool_ok, in_hand. cbn [p_server p_workers]. rewrite (proj1 Hs).
  split; [|split; [reflexivity | intros took; now apply slots_kept]]. split_and!; eauto using queue_rep_kept.
Qed.

Definition took_one (o : pool_out) : bool := match o with Took _ => true | _ => false end.

(** A step accounts for its messages: those queued change by what is accepted at the end
    and taken at the front, those in hand by what is taken and what is served; a take
    leaves its pointer in the buffer. *)
Definition accounts p (q : list queued) (o : pool_out) p' (q' : list queued) : Prop :=
  (payload <$> q) ++ accepted [o] = taken [o] ++ (payload <$> q') /\
  in_hand p ++ taken [o] ≡ₚ served [o] ++ in_hand p' /\
  (forall took, slots_after took (p_server p) q -> slots_after (took || took_one o) (p_server p') q').

(** Whether an event is a handler's work on the books. *)
Definition is_work (ev : pool_event) : bool := match ev with EvWork _ _ => true | _ => false end.

(** The strings of [p'] are those of [p] and an accepted message. *)
Definition strings_from p (o : pool_out) p' : Prop :=
  forall l t, sv_msgs (p_server p') !! l = Some t -> sv_msgs (p_server p) !! l = Some t \/ exists c, o = Accepted (t, c).

(** A step is impossible now, or leads to a pool that is well-formed again. *)
Definition step_ok (ev : pool_event) p (q : list queued) (r : res (option (pool_out * Pool))) : Prop :=
  r = Ok None \/ exists o p' q', r = Ok (Some (o, p')) /\ pool_ok p' q' /\ accounts p q o p' q' /\
    strings_from p o p' /\ (is_work ev = false -> books_kept (p_server p) (p_server p')).

Lemma books_kept_refl s : books_kept s s.
Proof. now split_and!. Qed.

(** A step that neither takes, serves nor accepts. *)
Lemma quiet_ok ev p q o p' :
  pool_ok p' q -> o = Quiet \/ o = Refused -> in_hand p' = in_hand p -> sv_msgs (p_server p') = sv_msgs (p_server p) ->
  (forall took, slots_after took (p_server p) q -> slots_after took (p_server p') q) ->
  (is_work ev = false -> books_kept (p_server p) (p_server p')) ->
  step_ok ev p q (Ok (Some (o, p'))).
Proof.
  intros Hp Ho Hh Hm Hs Hb. right. exists o, p', q. split_and!; auto.
  - unfold accounts. rewrite Hh. destruct Ho as [-> | ->]; cbn; rewrite !app_nil_r; (split_and!; [auto.. |]);
      intros took; rewrite orb_false_r; apply Hs.
  - intros l t. rewrite Hm. auto.
Qed.

Lemma move_step_ok ev p q i w w' :
  pool_ok p q -> p_workers p !! i = Some w -> held w = None -> held w' = None -> (w' = WDeciding -> q = []) ->
  step_ok ev p q (Ok (Some (Quiet, set_worker p i (p_server p) w'))).
Proof.
  intros Hp Hi Hw Hw' Hd. destruct (move_ok p q i w w' Hp Hi Hw Hw' Hd) as [H1 H2].
  apply quiet_ok; auto using books_kept_refl.
Qed.

Lemma arrive_ok p q e text c woken : pool_ok p q -> step_ok (EvArrive e text c woken) p q (pool_step p (EvArrive e text c woken)).
Proof.
  intros Hp. pose proof Hp as (Hq & Hd & Hm & Hk). cbn [pool_step].
  destruct (locked (p_workers p)) eqn:Hlk; [now left |]. apply bool_decide_eq_false in Hlk.
  assert (Hsame : mkPool (p_server p) (p_workers p) (p_stopper p) = p) by now destruct p.
  assert (Hrefused : step_ok (EvArrive e text c woken) p q (Ok (Some (Refused, mkPool (p_server p) (p_workers p) (p_stopper p))))).
  { rewrite Hsame. apply quiet_ok; auto using books_kept_refl. }
  destruct (e_alloc e AllocMessage) eqn:Ha.
  2: { now rewrite (enqueue_no_memory e _ q c text Hq Ha). }
  pose proof (enqueue_refines e _ q c text Hq Ha) as H. destruct (Z.eqb _ _); [now rewrite H |].
  destruct H as (s' & l & E & Hq' & _ & Es & Hf & Em & Eh & Emq). pose proof (enqueue_frame _ _ _ _ _ _ E) as Hbk.
  rewrite E. cbn [mbind res_bind Z.eqb]. right.
  eexists _, _, (q ++ [mkQueued l text c]). split; [reflexivity |]. pose proof (cond_signal_roused woken (p_workers p)) as Hr.
  assert (Hnew : forall x, x ∈ omap held (p_workers p) ++ (q_loc <$> q) -> x <> l).
  { intros x Hx ->. apply Hm in Hx as [t Hx]. congruence. }
  unfold pool_ok, accounts, in_hand, strings_from. cbn [p_server p_workers].
  rewrite (roused_omap held _ _ eq_refl eq_refl Hr), (roused_omap (hand (sv_msgs s')) _ _ eq_refl eq_refl Hr).
  split_and!; auto.
  - rewrite fmap_app. cbn [fmap list_fmap q_loc]. rewrite app_assoc. apply NoDup_app.
    split_and!; [exact Hd | intros x Hx ->%list_elem_of_singleton; now apply (Hnew l) | apply NoDup_singleton].
  - intros x. rewrite fmap_app. cbn [fmap list_fmap q_loc]. rewrite app_assoc, elem_of_app, list_elem_of_singleton, Hm, Em.
    destruct (decide (x = l)) as [->|Hne]; [rewrite lookup_insert_eq; split; eauto |].
    rewrite lookup_insert_ne by congruence. split; [intros [H| ->]; [exact H | congruence] | now left].
  - intros Hdec. destruct Hlk. now apply (roused_elem WDeciding _ _ Hr).
  - cbn. rewrite fmap_app. reflexivity.
  - cbn. rewrite app_nil_r. rewrite (hand_frame (sv_msgs (p_server p)) (sv_msgs s')); [reflexivity |].
    intros x Hx. rewrite Em, lookup_insert_ne; [reflexivity |]. intros ->. apply (Hnew x); [|reflexivity].
    apply elem_of_app. now left.
  - intros took. rewrite orb_false_r. eapply slots_put; eauto.
  - intros x t. rewrite Em. intros [[-> ->]|[_ H]]%lookup_insert_Some; eauto.
Qed.

Lemma lock_ok p q i : pool_ok p q -> step_ok (EvLock i) p q (pool_step p (EvLock i)).
Proof.
  intros Hp. pose proof Hp as (Hq & Hd & Hm & Hk). cbn [pool_step].
  destruct (p_workers p !! i) as [[]|] eqn:Hi; try (now left). destruct (locked (p_workers p)) eqn:Hlk; [now left |].
  apply bool_decide_eq_false in Hlk. destruct (entry_split _ _ _ Hi) as (a & b & Ew & Ei).
  destruct (sh_running (sv_handlers (p_server p))) eqn:Hr.
  2: { unfold dequeue_message. rewrite Hr. cbn [negb mbind res_bind]. eapply move_step_ok; eauto. discriminate. }
  destruct q as [|x q]; [rewrite (dequeue_empty _ Hq Hr); cbn [mbind res_bind]; eapply move_step_ok; eauto |].
  destruct (dequeue_refines _ _ _ Hq Hr) as (s' & E & Hq' & Em & Hr' & Es & Emq & Hsl). pose proof (dequeue_frame _ _ _ _ E) as Hbk.
  assert (Hx : sv_msgs (p_server p) !! q_loc x = Some (q_text x)).
  { destruct Hq as (_ & _ & _ & _ & _ & _ & _ & Hslots). now destruct (Hslots 0%nat x eq_refl) as (_ & _ & ?). }
  rewrite E. cbn [mbind res_bind]. rewrite Em, Hx. cbn [default]. right. eexists _, _, q. split; [reflexivity |].
  unfold pool_ok, accounts, in_hand, set_worker, strings_from. cbn [p_server p_workers].
  rewrite Ei, Em, Ew, !omap_middle in *. cbn [held hand fmap option_fmap option_map list_fmap app] in *.
  rewrite Hx. cbn [fmap option_fmap option_map accepted taken served omap list_omap app].
  assert (HPerm : (omap held a ++ q_loc x :: omap held b) ++ (q_loc <$> q) ≡ₚ (omap held a ++ omap held b) ++ q_loc x :: (q_loc <$> q)).
  { rewrite <- !app_assoc. apply Permutation_app_head. cbn. apply Permutation_middle. }
  split_and!; eauto.
  - now rewrite HPerm.
  - intros l. now rewrite HPerm.
  - rewrite elem_of_app, elem_of_cons in *. intros [H|[H|H]]; [destruct Hlk; auto | discriminate | destruct Hlk; auto].
  - now rewrite app_nil_r.
  - rewrite <- app_assoc. apply Permutation_app_head. symmetry. apply Permutation_cons_append.
  - intros took _. rewrite orb_true_r. eapply slots_take; eauto.
Qed.

Lemma with_shared_kept s d : queue_kept s (with_shared s d).
Proof. now split. Qed.

Lemma work_ok p q i d : pool_ok p q -> step_ok (EvWork i d) p q (pool_step p (EvWork i d)).
Proof.
  intros Hp. cbn [pool_step]. destruct (p_workers p !! i) as [[| | | |l c| |]|] eqn:Hi; try (now left).
  destruct (held_live p q _ l Hp (list_elem_of_lookup_2 _ _ _ Hi) eq_refl) as [text ->].
  destruct (kept_ok p q _ Hp (with_shared_kept (p_server p) d)) as (H1 & H2 & H3). apply quiet_ok; auto. discriminate.
Qed.

(** A message in hand has been handled, the server being [s'] now. *)
Lemma handled_ok ev p q i l c text s' :
  pool_ok p q -> p_workers p !! i = Some (WTaken l c) -> sv_msgs (p_server p) !! l = Some text ->
  queue_kept (p_server p) s' -> (is_work ev = false -> books_kept (p_server p) s') ->
  step_ok ev p q (Ok (Some (Served (text, c), set_worker p i s' (WHandled l)))).
Proof.
  intros Hp Hi Ht Hs Hb. right. eexists _, _, q. split; [reflexivity |]. pose proof (proj1 Hs) as Em.
  destruct Hp as (Hq & Hd & Hm & Hk). destruct (entry_split _ _ _ Hi) as (a & b & Ew & Ei).
  unfold pool_ok, accounts, in_hand, set_worker, strings_from. cbn [p_server p_workers].
  rewrite Ei, Em, Ew, !omap_middle in *. cbn [held hand] in *. rewrite Ht.
  split_and!; eauto using queue_rep_kept.
  - rewrite elem_of_app, elem_of_cons in *. intros [H|[H|H]]; [auto | discriminate | auto].
  - cbn. now rewrite app_nil_r.
  - cbn. rewrite app_nil_r. symmetry. apply Permutation_middle.
  - intros took. rewrite orb_false_r. now apply slots_kept.
Qed.

Lemma queue_kept_refl s : queue_kept s s.
Proof. now split. Qed.

Lemma done_ok p q i : pool_ok p q -> step_ok (EvDone i) p q (pool_step p (EvDone i)).
Proof.
  intros Hp. cbn [pool_step]. destruct (p_workers p !! i) as [[| | | |l c| |]|] eqn:Hi; try (now left).
  destruct (held_live p q _ l Hp (list_elem_of_lookup_2 _ _ _ Hi) eq_refl) as [text Ht]. rewrite Ht.
  eapply handled_ok; eauto using queue_kept_refl, books_kept_refl.
Qed.

Lemma free_ok p q i : pool_ok p q -> step_ok (EvFree i) p q (pool_step p (EvFree i)).
Proof.
  intros Hp. pose proof Hp as (Hq & Hd & Hm & Hk). cbn [pool_step].
  destruct (p_workers p !! i) as [[| | | | |l|]|] eqn:Hi; try (now left). destruct (entry_split _ _ _ Hi) as (a & b & Ew & Ei).
  rewrite Ew, omap_middle in Hd, Hm. cbn [held app] in Hd, Hm.
  assert (HPerm : (omap held a ++ l :: omap held b) ++ (q_loc <$> q) ≡ₚ l :: (omap held a ++ omap held b) ++ (q_loc <$> q)).
  { rewrite <- Permutation_middle. reflexivity. }
  rewrite HPerm in Hd. apply NoDup_cons in Hd as [Hni Hd].
  destruct (proj1 (Hm l)) as [text Ht]; [rewrite HPerm; now left |].
  destruct (free_taken (p_server p) (mkQueued l text None) q Hq Ht) as (s' & E & Hq' & Eh & Em).
  { intros H. apply Hni, elem_of_app. now right. }
  cbn [q_loc] in E, Em. rewrite E. cbn [mbind res_bind]. right. eexists _, _, q. split; [reflexivity |].
  assert (Hbk : books_kept (p_server p) s') by (unfold free_message in E; case_match; simplify_eq; now split_and!).
  unfold pool_ok, accounts, in_hand, set_worker, strings_from. cbn [p_server p_workers].
  rewrite Ei, Ew, !omap_middle in *. cbn [held hand app]. split_and!; auto.
  - intros x. rewrite Em. destruct (decide (x = l)) as [->|Hne].
    + rewrite lookup_delete_eq. split; [contradiction | intros [? [=]]].
    + rewrite lookup_delete_ne by congruence. rewrite <- Hm, HPerm, elem_of_cons. split; [now right | intros [?|?]; [contradiction | assumption]].
  - rewrite elem_of_app, elem_of_cons in *. intros [H|[H|H]]; [auto | discriminate | auto].
  - cbn. now rewrite app_nil_r.
  - cbn [taken served omap list_omap app]. rewrite app_nil_r. rewrite <- !omap_app. apply reflexive_eq. symmetry. apply hand_frame.
    intros x Hx. rewrite Em, lookup_delete_ne; [reflexivity |]. intros ->. apply Hni, elem_of_app. left.
    now rewrite <- omap_app.
  - intros took. rewrite orb_false_r. unfold slots_after. now rewrite Eh.
  - intros x t. rewrite Em. intros [_ H]%lookup_delete_Some. auto.
Qed.

Lemma stop_ok p q : pool_ok p q -> step_ok EvStop p q (pool_step p EvStop).
Proof.
  intros Hp. cbn [pool_step server_handlers_stop_workers].
  destruct (sh_running (sv_handlers (p_server p))) eqn:Hr; cbn [negb deref mbind res_bind Z.eqb]; [|now left].
  destruct Hp as (Hq & Hd & Hm & Hk). apply quiet_ok; auto; [now split_and! | now intros _; split_and!].
Qed.

Lemma broadcast_pool_ok p q : pool_ok p q -> pool_ok (broadcast p) q /\ in_hand (broadcast p) = in_hand p.
Proof.
  intros (Hq & Hd & Hm & Hk). pose proof (cond_broadcast_roused (p_workers p)) as Hr.
  unfold pool_ok, in_hand, broadcast. cbn [p_server p_workers]. rewrite (roused_omap held _ _ eq_refl eq_refl Hr).
  split; [|now apply roused_omap]. split_and!; auto.
  intros H. apply Hk, (roused_elem WDeciding _ _ Hr); [discriminate | exact H].
Qed.

Lemma broadcast_ok p q : pool_ok p q -> step_ok EvBroadcast p q (pool_step p EvBroadcast).
Proof.
  intros Hp. cbn [pool_step]. destruct (p_stopper p); try (now left). destruct (broadcast_pool_ok p q Hp).
  apply quiet_ok; auto using books_kept_refl.
Qed.

(** Every step of every thread keeps the pool well-formed. *)
Lemma pool_step_ok p q ev : pool_ok p q -> step_ok ev p q (pool_step p ev).
Proof.
  intros Hp. destruct ev as [e text c woken|i|i|i|i|i d|i|i| |];
    eauto using arrive_ok, lock_ok, work_ok, done_ok, free_ok, stop_ok, broadcast_ok; cbn [pool_step];
    destruct (p_workers p !! i) as [[]|] eqn:Hi; try (now left); eapply move_step_ok; eauto; try discriminate;
    destruct (pool_running p); discriminate || reflexivity.
Qed.

Lemma outs_cons (f : pool_out -> option (string * option client)) o os : omap f (o :: os) = omap f [o] ++ omap f os.
Proof. cbn. now destruct (f o). Qed.

(** A run leads from a well-formed pool to a well-formed pool and accounts for every
    message. *)
Lemma pool_run_ok p q evs :
  pool_ok p q ->
  exists os p' q', pool_run p evs = Ok (os, p') /\ pool_ok p' q' /\
    (payload <$> q) ++ accepted os = taken os ++ (payload <$> q') /\
    in_hand p ++ taken os ≡ₚ served os ++ in_hand p' /\
    (forall took, slots_after took (p_server p) q -> slots_after (took || existsb took_one os) (p_server p') q').
Proof.
  revert p q. induction evs as [|ev evs IH]; intros p q Hp.
  { exists [], p, q. cbn. rewrite !app_nil_r. split_and!; auto. intros took. now rewrite orb_false_r. }
  cbn [pool_run]. destruct (pool_step_ok p q ev Hp) as [-> |(o & p1 & q1 & -> & Hp1 & (A1 & A2 & A3) & _)]; cbn [mbind res_bind].
  { exact (IH p q Hp). }
  destruct (IH p1 q1 Hp1) as (os & p' & q' & -> & H1 & H2 & H3 & H4). cbn [mbind res_bind].
  exists (o :: os), p', q'. unfold accepted, taken, served in *. split_and!; auto.
  - rewrite !(outs_cons _ o os), app_assoc, A1, <- !app_assoc. now rewrite H2.
  - rewrite !(outs_cons _ o os), app_assoc, A2, <- !app_assoc. apply Permutation_app_head, H3.
  - intros took Ht. cbn [existsb]. rewrite orb_assoc. now apply H4, A3.
Qed.

(** ** Draining *)

(** The steps a worker makes at most before it sleeps, without the messages it takes. *)
Definition weight (w : worker) : nat :=
  match w with
  | WTaken _ _ => 5
  | WHandled _ => 4
  | WLoop => 3
  | WLocking => 2
  | WDeciding => 1
  | WAsleep | WExited => 0
  end.

(** The steps left: four more for each queued message. *)
Definition work p (q : list queued) : nat := 4 * length q + sum_list_with weight (p_workers p).

(** The steps an event may add, itself included: an accepted message and the worker it
    wakes, a spurious wake-up; a handler may work for as long as it likes. *)
Definition cost (ev : pool_event) : nat :=
  match ev with
  | EvArrive _ _ _ _ => 7
  | EvSpurious _ => 3
  | EvWork _ _ => 1
  | _ => 0
  end.

(** The workers run, none has left its loop, and while messages wait not all of them
    sleep. *)
Definition live_pool p (q : list queued) : Prop :=
  pool_running p = true /\ p_stopper p = NotStopping /\ p_workers p <> [] /\ (WExited ∉ p_workers p) /\
  (q <> [] -> exists w, w ∈ p_workers p /\ w <> WAsleep).

Lemma sum_weight_middle (f : worker -> nat) a w b :
  sum_list_with f (a ++ w :: b) = (sum_list_with f a + f w + sum_list_with f b)%nat.
Proof. rewrite sum_list_with_app. cbn. lia. Qed.

Lemma sum_weight_set (f : worker -> nat) p i s w w' :
  p_workers p !! i = Some w ->
  (sum_list_with f (p_workers (set_worker p i s w')) + f w = sum_list_with f (p_workers p) + f w')%nat.
Proof.
  intros Hi. destruct (entry_split _ _ _ Hi) as (a & b & Ew & Ei). unfold set_worker. cbn [p_workers].
  rewrite Ei, Ew, !sum_weight_middle. lia.
Qed.

(** A signal wakes one worker at most. *)
Lemma cond_signal_weight woken ws : (sum_list_with weight (cond_signal woken ws) <= sum_list_with weight ws + 2)%nat.
Proof.
  assert (Hins : forall i w, ws !! i = Some w ->
    (sum_list_with weight (<[i := WLocking]> ws) <= sum_list_with weight ws + 2)%nat).
  { intros i w Hi. destruct (entry_split _ _ _ Hi) as (a & b & Ew & Ei). rewrite Ei, Ew, !sum_weight_middle. cbn. lia. }
  unfold cond_signal. assert (Hfirst : (sum_list_with weight (match list_find (fun w => w = WAsleep) ws with
    | Some (i, _) => <[i := WLocking]> ws | None => ws end) <= sum_list_with weight ws + 2)%nat).
  { destruct (list_find _ ws) as [[i w]|] eqn:E; [apply list_find_Some in E as (Hi & _); eauto | lia]. }
  destruct (ws !! woken) as [[]|] eqn:Hw; eauto.
Qed.

(** Another worker state in place of one, in a pool that keeps running. *)
Lemma live_set p q q' i s w w' :
  live_pool p q -> p_workers p !! i = Some w -> sh_running (sv_handlers s) = true -> w' <> WExited ->
  (w' = WAsleep -> q' = []) -> live_pool (set_worker p i s w') q'.
Proof.
  intros (_ & Hst & Hne & Hx & _) Hi Hr Hw Hs. destruct (entry_split _ _ _ Hi) as (a & b & Ew & Ei).
  unfold live_pool, pool_running, set_worker. cbn [p_server p_workers p_stopper]. rewrite Ei, Ew in *. split_and!; auto.
  - now destruct a.
  - rewrite elem_of_app, elem_of_cons in *. intros [H|[H|H]]; [auto | congruence | auto].
  - intros Hq. exists w'. split; [apply elem_of_app; right; now left | auto].
Qed.

(** Everything a step changes in a live pool: it stays live, and the work left goes down
    by at least one but for the cost of the event. *)
Definition progresses p (q : list queued) (ev : pool_event) (r : res (option (pool_out * Pool))) : Prop :=
  forall o p' q', r = Ok (Some (o, p')) -> pool_ok p' q' ->
  (payload <$> q) ++ accepted [o] = taken [o] ++ (payload <$> q') ->
  live_pool p' q' /\ (1 + work p' q' <= work p q + cost ev)%nat.

Lemma payload_length (q q' : list queued) (o : pool_out) :
  (payload <$> q) ++ accepted [o] = taken [o] ++ (payload <$> q') ->
  (length q + length (accepted [o]) = length (taken [o]) + length q')%nat.
Proof. intros H. apply (f_equal length) in H. now rewrite !length_app, !length_fmap in H. Qed.

Lemma move_progresses p q ev i s w w' :
  live_pool p q -> p_workers p !! i = Some w -> sh_running (sv_handlers s) = true -> w' <> WExited ->
  (w' = WAsleep -> q = []) -> (1 + weight w' <= weight w + cost ev)%nat ->
  forall o, o = Quiet \/ (exists m, o = Served m) -> progresses p q ev (Ok (Some (o, set_worker p i s w'))).
Proof.
  intros Hl Hi Hr Hx Ha Hw o Ho o' p' q' E Hp' Hpay. injection E as <- <-. apply payload_length in Hpay as Hlen.
  assert (length q' = length q) as El by (destruct Ho as [-> |[m ->]]; cbn in Hlen; lia).
  split; [eapply live_set; eauto; intros Hs; rewrite (Ha Hs) in El; now destruct q' |].
  unfold work. pose proof (sum_weight_set weight p i s w w' Hi). lia.
Qed.

Lemma arrive_progresses p q e text c woken :
  pool_ok p q -> live_pool p q -> progresses p q (EvArrive e text c woken) (pool_step p (EvArrive e text c woken)).
Proof.
  intros Hp (Hr & Hst & Hne & Hx & Hw) o p' q' E Hp' Hpay. apply payload_length in Hpay as Hlen. cbn [pool_step] in E.
  destruct (locked (p_workers p)); [discriminate E |]. apply bind_ok in E as ([r s'] & E1 & E).
  assert (Hrun : sh_running (sv_handlers s') = true).
  { pose proof Hp as (Hq & _). destruct (e_alloc e AllocMessage) eqn:Ha.
    - pose proof (enqueue_refines e _ q c text Hq Ha) as H.
      destruct (Z.of_nat (length q) =? queue_size (sv_handlers (p_server p)) - 1)%Z.
      + rewrite H in E1. injection E1 as <- <-. exact Hr.
      + destruct H as (s1 & l & E2 & _ & Hr1 & _). rewrite E2 in E1. injection E1 as <- <-. now rewrite Hr1.
    - rewrite (enqueue_no_memory e _ q c text Hq Ha) in E1. injection E1 as <- <-. exact Hr. }
  destruct (r =? 0)%Z; injection E as <- <-; cbn in Hlen; unfold live_pool, pool_running, work; cbn [p_server p_workers p_stopper cost].
  - pose proof (cond_signal_roused woken (p_workers p)) as Hro. split_and!; auto.
    + intros E. apply (f_equal length) in E. rewrite (roused_length _ _ Hro) in E. now destruct (p_workers p).
    + intros H. now apply Hx, (roused_elem WExited _ _ Hro).
    + intros _. now apply cond_signal_awake.
    + pose proof (cond_signal_weight woken (p_workers p)). lia.
  - split_and!; auto; [|lia]. intros Hq'. apply Hw. intros ->. now destruct q'.
Qed.

Lemma lock_progresses p q i : pool_ok p q -> live_pool p q -> progresses p q (EvLock i) (pool_step p (EvLock i)).
Proof.
  intros Hp Hl. pose proof Hl as (Hr & _). pose proof Hp as (Hq & _). unfold pool_running in Hr. cbn [pool_step].
  destruct (p_workers p !! i) as [[]|] eqn:Hi; try discriminate. destruct (locked (p_workers p)); [discriminate |].
  destruct q as [|x q].
  { rewrite (dequeue_empty _ Hq Hr). cbn [mbind res_bind]. eapply move_progresses; eauto; discriminate || cbn; lia. }
  destruct (dequeue_refines _ _ _ Hq Hr) as (s' & E & _ & Em & Hr' & _). rewrite E. cbn [mbind res_bind].
  intros o p' q' E' Hp' Hpay. injection E' as <- <-. apply payload_length in Hpay as Hlen. cbn in Hlen.
  split; [eapply live_set; eauto; discriminate |]. unfold work.
  pose proof (sum_weight_set weight p i s' WLocking (WTaken (q_loc x) (q_client x)) Hi). cbn in *. lia.
Qed.

Lemma step_progresses p q ev : pool_ok p q -> live_pool p q -> ev <> EvStop -> progresses p q ev (pool_step p ev).
Proof.
  intros Hp Hl Hev. pose proof Hl as (Hr & Hst & Hne & Hx & Hw).
  destruct ev as [e text c woken|i|i|i|i|i d|i|i| |]; auto using arrive_progresses, lock_progresses; try contradiction; cbn [pool_step];
    try (destruct (p_workers p !! i) as [[| | | |l c|l|]|] eqn:Hi; try discriminate).
  - rewrite Hr. eapply move_progresses; eauto; discriminate || cbn; lia.
  - eapply move_progresses; eauto; try discriminate. intros _. apply Hp. eapply list_elem_of_lookup_2; eauto.
  - eapply move_progresses; eauto; discriminate || cbn; lia.
  - destruct (sv_msgs (p_server p) !! l); [|discriminate]. intros o p' q' E Hp' Hpay. injection E as <- <-.
    apply payload_length in Hpay as Hlen. cbn in Hlen. unfold live_pool, pool_running, work. cbn [p_server p_workers p_stopper cost].
    split_and!; auto; [|lia]. intros Hq'. apply Hw. intros ->. now destruct q'.
  - destruct (sv_msgs (p_server p) !! l); [|discriminate]. eapply move_progresses; eauto; discriminate || cbn; lia.
  - destruct (free_message (p_server p) l) as [s'| |] eqn:E; try discriminate. cbn [mbind res_bind].
    eapply move_progresses; eauto; try discriminate. unfold free_message in E. case_match; simplify_eq. exact Hr.
  - rewrite Hst. discriminate.
Qed.

Lemma live_run p q evs :
  pool_ok p q -> live_pool p q -> EvStop ∉ evs ->
  exists os p' q', pool_run p evs = Ok (os, p') /\ pool_ok p' q' /\ live_pool p' q' /\
    (length os + work p' q' <= work p q + sum_list_with cost evs)%nat.
Proof.
  revert p q. induction evs as [|ev evs IH]; intros p q Hp Hl Hev; [exists [], p, q; cbn; split_and!; auto; lia |].
  apply not_elem_of_cons in Hev as [He Hev]. cbn [pool_run sum_list_with].
  destruct (pool_step_ok p q ev Hp) as [-> |(o & p1 & q1 & E & Hp1 & (A1 & _) & _)]; [|rewrite E]; cbn [mbind res_bind].
  { destruct (IH p q Hp Hl Hev) as (os & p' & q' & -> & H1 & H2 & H3). exists os, p', q'. split_and!; auto; lia. }
  destruct (step_progresses p q ev Hp Hl ltac:(congruence) o p1 q1 E Hp1 A1) as [Hl1 Hw1].
  destruct (IH p1 q1 Hp1 Hl1 Hev) as (os & p' & q' & -> & H1 & H2 & H3). cbn [mbind res_bind].
  exists (o :: os), p', q'. cbn [length]. split_and!; auto; lia.
Qed.

(** No worker can move. *)
Definition stuck p : Prop :=
  forall i, pool_step p (EvLoop i) = Ok None /\ pool_step p (EvLock i) = Ok None /\ pool_step p (EvWait i) = Ok None /\
    pool_step p (EvDone i) = Ok None /\ pool_step p (EvFree i) = Ok None.

(** Then each of them sleeps or has ended. *)
Lemma stuck_workers p q w : pool_ok p q -> stuck p -> w ∈ p_workers p -> w = WAsleep \/ w = WExited.
Proof.
  intros Hp Hs Hw. assert (Hnd : WDeciding ∉ p_workers p).
  { intros [i Hi]%list_elem_of_lookup. destruct (Hs i) as (_ & _ & H & _). cbn [pool_step] in H. now rewrite Hi in H. }
  apply list_elem_of_lookup in Hw as [i Hi]. destruct (Hs i) as (H1 & H2 & H3 & H4 & H5). cbn [pool_step] in *. rewrite Hi in *.
  assert (Hlive : forall l, held w = Some l -> is_Some (sv_msgs (p_server p) !! l)).
  { intros l. apply (held_live p q); [exact Hp | eapply list_elem_of_lookup_2; eauto]. }
  destruct w as [| | | |l c|l|]; auto; exfalso; try discriminate.
  - unfold locked in H2. rewrite bool_decide_eq_false_2 in H2 by exact Hnd. pose proof Hp as (Hq & _).
    destruct (sh_running (sv_handlers (p_server p))) eqn:Hr.
    + destruct q as [|x q]; [rewrite (dequeue_empty _ Hq Hr) in H2; discriminate H2 |].
      destruct (dequeue_refines _ _ _ Hq Hr) as (s' & E & _). rewrite E in H2. discriminate H2.
    + unfold dequeue_message in H2. rewrite Hr in H2. discriminate H2.
  - destruct (Hlive l eq_refl) as [t Ht]. rewrite Ht in H4. discriminate H4.
  - destruct (Hlive l eq_refl) as [t Ht]. unfold free_message in H5. rewrite Ht in H5. discriminate H5.
Qed.

(** Workers that hold nothing leave only the queue's strings. *)
Lemma idle_workers p q :
  pool_ok p q -> Forall (fun w => w = WAsleep \/ w = WExited) (p_workers p) ->
  in_hand p = [] /\ forall l, l ∈ q_loc <$> q <-> is_Some (sv_msgs (p_server p) !! l).
Proof.
  intros (_ & _ & Hm & _) HF.
  assert (Hn : forall (B : Type) (f : worker -> option B), f WAsleep = None -> f WExited = None -> omap f (p_workers p) = []).
  { intros B f H1 H2. clear Hm. induction HF as [|w ws Hw _ IH]; [reflexivity |]. cbn. rewrite IH. destruct Hw as [-> | ->]; now rewrite ?H1, ?H2. }
  split; [now apply Hn |]. intros l. rewrite <- Hm, (Hn loc held eq_refl eq_refl). reflexivity.
Qed.

(** ** Stopping *)

(** The steps a worker makes at most once the flag is cleared and it is awake. *)
Definition exit_steps (w : worker) : nat :=
  match w with
  | WTaken _ _ => 3
  | WHandled _ | WLocking => 2
  | WLoop => 1
  | WDeciding | WAsleep | WExited => 0
  end.

Definition exit_cost (ev : pool_event) : nat :=
  match ev with
  | EvArrive _ _ _ _ | EvWork _ _ | EvBroadcast => 1
  | _ => 0
  end.

(** The flag is cleared and no worker is between its test of the flag and its wait. *)
Definition stopping p : Prop := pool_running p = false /\ WDeciding ∉ p_workers p.

Lemma set_absent p i s x w' : x ∉ p_workers p -> w' <> x -> x ∉ p_workers (set_worker p i s w').
Proof. intros Hx Hw H. apply list_elem_of_lookup in H as [k Hk]. unfold set_worker in Hk. cbn [p_workers] in Hk.
  apply list_lookup_insert_Some in Hk as [(_ & -> & _)|[_ Hk]]; [contradiction | apply Hx; eapply list_elem_of_lookup_2; eauto].
Qed.

Lemma roused_awake ws ws' : roused ws ws' -> WAsleep ∉ ws -> ws' = ws.
Proof.
  induction 1 as [|w w' ws ws' Hw _ IH]; [reflexivity |]. intros [H1 H2]%not_elem_of_cons.
  destruct Hw as [-> |[-> _]]; [now rewrite IH | contradiction].
Qed.

(** Every step of a stopping pool: no message is taken, and if all workers are awake they
    stay so and get closer to their ends. *)
Definition exiting p (ev : pool_event) (r : res (option (pool_out * Pool))) : Prop :=
  forall o p', r = Ok (Some (o, p')) -> stopping p' /\ taken [o] = [] /\ (ev <> EvBroadcast -> p_stopper p' = p_stopper p) /\
    (WAsleep ∉ p_workers p -> (WAsleep ∉ p_workers p') /\
       (1 + sum_list_with exit_steps (p_workers p') <= sum_list_with exit_steps (p_workers p) + exit_cost ev)%nat).

Lemma move_exiting p ev i s w w' o :
  stopping p -> p_workers p !! i = Some w -> sh_running (sv_handlers s) = false -> w' <> WDeciding -> w' <> WAsleep ->
  taken [o] = [] -> (w <> WAsleep -> 1 + exit_steps w' <= exit_steps w + exit_cost ev)%nat ->
  exiting p ev (Ok (Some (o, set_worker p i s w'))).
Proof.
  intros [Hr Hd] Hi Hs H1 H2 Ho Hle o' p' E. injection E as <- <-.
  pose proof (sum_weight_set exit_steps p i s w w' Hi) as Hw.
  split_and!; auto; [now split; [|apply set_absent] |]. intros Ha. split; [now apply set_absent |].
  assert (w <> WAsleep) by (intros ->; apply Ha; eapply list_elem_of_lookup_2; eauto). specialize (Hle ltac:(assumption)). lia.
Qed.

Lemma step_exiting p q ev : pool_ok p q -> stopping p -> exiting p ev (pool_step p ev).
Proof.
  intros Hp Hst. pose proof Hst as [Hr Hd]. pose proof Hp as (Hq & _). unfold pool_running in Hr.
  destruct ev as [e text c woken|i|i|i|i|i d|i|i| |]; cbn [pool_step];
    try (destruct (p_workers p !! i) as [[| | | |l c|l|]|] eqn:Hi; try discriminate).
  - intros o p' E. destruct (locked (p_workers p)); [discriminate E |]. apply bind_ok in E as ([r s'] & E1 & E).
    assert (Hrun : sh_running (sv_handlers s') = false).
    { cbn [server_handlers_process_message] in E1. apply bind_ok in E1 as (next & _ & E1).
      repeat case_match; unfold new_message in *; simplify_eq; exact Hr. }
    pose proof (cond_signal_roused woken (p_workers p)) as Hro.
    destruct (r =? 0)%Z; injection E as <- <-; unfold stopping, pool_running; cbn [p_server p_workers p_stopper exit_cost].
    + split_and!; auto; [intros H; now apply Hd, (roused_elem WDeciding _ _ Hro) |].
      intros Ha. rewrite (roused_awake _ _ Hro Ha). split; [exact Ha | lia].
    + split_and!; auto. intros Ha. split; [exact Ha | lia].
  - unfold pool_running. rewrite Hr. eapply move_exiting; eauto; discriminate || cbn; lia.
  - destruct (locked (p_workers p)); [discriminate |]. unfold dequeue_message. rewrite Hr. cbn [negb mbind res_bind].
    eapply move_exiting; eauto; discriminate || cbn; lia.
  - destruct Hd. eapply list_elem_of_lookup_2; eauto.
  - eapply move_exiting; eauto; discriminate || (cbn; intros []; reflexivity).
  - destruct (sv_msgs (p_server p) !! l); [|discriminate]. intros o p' E. injection E as <- <-.
    unfold stopping, pool_running. cbn [p_server p_workers p_stopper exit_cost]. split_and!; auto. intros Ha. split; [exact Ha | lia].
  - destruct (sv_msgs (p_server p) !! l); [|discriminate]. eapply move_exiting; eauto; discriminate || cbn; lia.
  - destruct (free_message (p_server p) l) as [s'| |] eqn:E; try discriminate. cbn [mbind res_bind].
    eapply move_exiting; eauto; try discriminate. unfold free_message in E. case_match; simplify_eq. exact Hr.
  - cbn [server_handlers_stop_workers]. rewrite Hr. discriminate.
  - destruct (p_stopper p); try discriminate. intros o p' E. injection E as <- <-.
    pose proof (cond_broadcast_roused (p_workers p)) as Hro. unfold stopping, pool_running, broadcast. cbn [p_server p_workers p_stopper exit_cost].
    split_and!; auto; [intros H; now apply Hd, (roused_elem WDeciding _ _ Hro) | congruence |].
    intros Ha. rewrite (roused_awake _ _ Hro Ha). split; [exact Ha | lia].
Qed.

Lemma stopping_run p q evs :
  pool_ok p q -> stopping p ->
  exists os p' q', pool_run p evs = Ok (os, p') /\ pool_ok p' q' /\ stopping p' /\ taken os = [] /\
    (EvBroadcast ∉ evs -> p_stopper p' = p_stopper p) /\
    (WAsleep ∉ p_workers p -> (WAsleep ∉ p_workers p') /\
       (length os + sum_list_with exit_steps (p_workers p') <=
        sum_list_with exit_steps (p_workers p) + sum_list_with exit_cost evs)%nat).
Proof.
  revert p q. induction evs as [|ev evs IH]; intros p q Hp Hs.
  { exists [], p, q. cbn. split_and!; auto. intros Ha. split; [exact Ha | lia]. }
  cbn [pool_run sum_list_with].
  destruct (pool_step_ok p q ev Hp) as [-> |(o & p1 & q1 & E & Hp1 & _)]; [|rewrite E]; cbn [mbind res_bind].
  { destruct (IH p q Hp Hs) as (os & p' & q' & -> & H1 & H2 & H3 & H4 & H5). exists os, p', q'. split_and!; auto.
    - intros [_ H]%not_elem_of_cons. auto.
    - intros Ha. destruct (H5 Ha). split; [assumption | lia]. }
  destruct (step_exiting p q ev Hp Hs o p1 E) as (Hs1 & T1 & B1 & A1).
  destruct (IH p1 q1 Hp1 Hs1) as (os & p' & q' & -> & H1 & H2 & H3 & H4 & H5). cbn [mbind res_bind].
  exists (o :: os), p', q'. unfold taken in *. rewrite outs_cons, T1, H3. split_and!; auto.
  - intros [Hev H]%not_elem_of_cons. rewrite H4, B1; congruence.
  - intros Ha. destruct (A1 Ha) as [Ha1 D1]. destruct (H5 Ha1) as [Ha2 D2]. split; [exact Ha2 | cbn [length]; lia].
Qed.

Lemma pool_run_app p evs evs' :
  pool_run p (evs ++ evs') = ('(os, p1) ← pool_run p evs; '(os', p2) ← pool_run p1 evs'; Ok (os ++ os', p2)).
Proof.
  revert p. induction evs as [|ev evs IH]; intros p; cbn [app pool_run mbind res_bind].
  { destruct (pool_run p evs') as [[os p']| |]; reflexivity. }
  destruct (pool_step p ev) as [[[o p1]|]| |]; cbn [mbind res_bind]; auto. rewrite IH.
  destruct (pool_run p1 evs) as [[os p2]| |]; cbn [mbind res_bind]; auto.
  destruct (pool_run p2 evs') as [[os' p3]| |]; reflexivity.
Qed.

Lemma step_length p ev o p' : pool_step p ev = Ok (Some (o, p')) -> length (p_workers p') = length (p_workers p).
Proof.
  assert (Hset : forall i s w, length (p_workers (set_worker p i s w)) = length (p_workers p)) by (intros; apply length_insert).
  intros E. destruct ev as [e text c woken|i|i|i|i|i d|i|i| |]; cbn [pool_step] in E.
  - destruct (locked _); [discriminate E |]. apply bind_ok in E as ([r s'] & _ & E). destruct (r =? 0)%Z; injection E as _ <-;
      [apply roused_length, cond_signal_roused | reflexivity].
  - repeat case_match; simplify_eq; apply Hset.
  - destruct (p_workers p !! i) as [[]|]; try discriminate E. destruct (locked _); [discriminate E |].
    apply bind_ok in E as (d & _ & E). repeat case_match; simplify_eq; apply Hset.
  - repeat case_match; simplify_eq; apply Hset.
  - repeat case_match; simplify_eq; apply Hset.
  - repeat case_match; simplify_eq; reflexivity.
  - repeat case_match; simplify_eq; apply Hset.
  - destruct (p_workers p !! i) as [[]|]; try discriminate E. apply bind_ok in E as (s' & _ & E). injection E as _ <-. apply Hset.
  - destruct (server_handlers_stop_workers _) as [r h]. apply bind_ok in E as (h' & _ & E). destruct (r =? 0)%Z; simplify_eq. reflexivity.
  - destruct (p_stopper p); simplify_eq. apply roused_length, cond_broadcast_roused.
Qed.

Lemma run_length p evs os p' : pool_run p evs = Ok (os, p') -> length (p_workers p') = length (p_workers p).
Proof.
  revert p os. induction evs as [|ev evs IH]; intros p os E; cbn [pool_run] in E; [now injection E as _ <- |].
  apply bind_ok in E as ([[o p1]|] & E1 & E); [|eauto]. apply bind_ok in E as ([os1 p2] & E2 & E). injection E as _ <-.
  rewrite (IH _ _ E2). eapply step_length; eauto.
Qed.

Lemma cond_broadcast_awake ws : WAsleep ∉ cond_broadcast ws.
Proof. unfold cond_broadcast. intros (w & Hw & _)%list_elem_of_fmap. destruct w; discriminate. Qed.

(** The call of [server_handlers_stop_workers] up to its broadcast, other threads running
    meanwhile: if no worker is about to wait when the flag is cleared, none sleeps after it. *)
Lemma stop_call p q mid :
  pool_ok p q -> pool_running p = true -> WDeciding ∉ p_workers p -> EvBroadcast ∉ mid ->
  exists os p' q', pool_run p (EvStop :: mid ++ [EvBroadcast]) = Ok (os, p') /\ pool_ok p' q' /\ stopping p' /\ taken os = [] /\
    (WAsleep ∉ p_workers p').
Proof.
  intros Hp Hr Hd Hm. cbn [pool_run pool_step server_handlers_stop_workers]. unfold pool_running in Hr. rewrite Hr.
  cbn [negb deref mbind res_bind Z.eqb]. set (p1 := clear_flag p _).
  assert (Hp1 : pool_ok p1 q) by (destruct Hp as (H1 & H2 & H3 & H4); now split_and!).
  destruct (stopping_run p1 q mid Hp1 ltac:(now split)) as (os & p2 & q2 & E & Hp2 & Hs2 & T2 & B2 & _).
  rewrite pool_run_app, E. cbn [mbind res_bind pool_run pool_step]. rewrite (B2 Hm). cbn [p_stopper p1 clear_flag mbind res_bind].
  eexists _, _, q2. split; [reflexivity |]. destruct Hs2 as [R2 D2]. split_and!.
  - now apply broadcast_pool_ok.
  - split; [exact R2 |]. cbn [p_workers broadcast]. intros H. now apply D2, (roused_elem WDeciding _ _ (cond_broadcast_roused _)).
  - unfold taken in *. rewrite outs_cons, omap_app, T2. reflexivity.
  - apply cond_broadcast_awake.
Qed.

(** ** Handlers *)

(** What a handler does not touch: the queue, the strings, the flag, the configuration. *)
Definition unshared (s : Server N) :=
  let h := sv_handlers s in
  (sh_thread_count h, sh_broadcaster h, queue_view h, sv_msgs s).

Lemma unshared_eq s s' : unshared s' = unshared s -> s' = with_shared s (shared_of s').
Proof.
  destruct s as [[] ? ? ? ?], s' as [[] ? ? ? ?]. unfold unshared, queue_view, with_shared, shared_of. cbn. intros. simplify_eq. reflexivity.
Qed.

Lemma send_to_unshared e s c text : unshared (snd (send_to e s c text)) = unshared s.
Proof. destruct (send_to_frame e s c text) as (E1 & _ & E3 & _). unfold unshared. now rewrite E1, E3. Qed.

Lemma error_unshared e s c msg r s' : send_error_response e s c msg = (r, s') -> unshared s' = unshared s.
Proof. unfold send_error_response. intros E. pose proof (send_to_unshared e s c (error_text msg)) as H. now rewrite E in H. Qed.

Lemma place_unshared e s c root r s' : handle_place_order (J := J) e s c root = Ok (r, s') -> unshared s' = unshared s.
Proof.
  unfold handle_place_order. intros ([parsed order] & _ & E)%bind_ok.
  destruct (negb parsed); [injection E as E; eapply error_unshared; eauto |].
  apply bind_ok in E as (m & _ & E). apply bind_ok in E as (oid & _ & E). apply bind_ok in E as (sym & _ & E).
  apply bind_ok in E as ([book h] & Eb & E).
  assert (Hh : unshared (set_handlers s h) = unshared s).
  { unfold find_or_create_book in Eb. apply bind_ok in Eb as (found & _ & Eb). destruct found; [now simplify_eq |].
    destruct (new_book e (sv_handlers s)); [|now simplify_eq]. apply bind_ok in Eb as (h' & Eb & Eh). simplify_eq.
    unfold push_book in Eb. repeat case_match; try discriminate Eb. apply bind_ok in Eb as (name & _ & Eb). now simplify_eq. }
  destruct book as [i|]; [|injection E as E; rewrite <- Hh; eapply error_unshared; eauto].
  apply bind_ok in E as (tid & _ & E). destruct (order_create _ _ _ _ _ _ _ _ _) as [[l|] orders];
    [|injection E as E; rewrite <- Hh; eapply error_unshared; eauto].
  apply bind_ok in E as (s1 & E & Es). injection Es as <- <-. rewrite <- Hh. unfold place_in_book in E.
  apply bind_ok in E as (b & _ & E). apply bind_ok in E as ([? b1] & _ & E). apply bind_ok in E as (b2 & _ & E).
  apply bind_ok in E as ([[orders' b3] notes] & _ & E). apply bind_ok in E as (b4 & _ & E). unfold send_snapshot in E.
  match type of E with context [add_notes (set_orders (set_handlers ?x (with_book (sv_handlers ?x) i b4)) orders') notes] =>
    set (s2 := add_notes (set_orders (set_handlers x (with_book (sv_handlers x) i b4)) orders') notes) in E;
    assert (H2 : unshared s2 = unshared x) by reflexivity end.
  rewrite send_to_unshared in H2. change (unshared (set_orders (set_handlers s h) orders)) with (unshared (set_handlers s h)) in H2.
  rewrite <- H2. destruct (negb _); [now injection E as -> |]. apply bind_ok in E as (snap & _ & E). apply bind_ok in E as (json & _ & E).
  destruct json; injection E as <-; [apply send_to_unshared | reflexivity].
Qed.

Lemma cancel_unshared e s c root r s' : handle_cancel_order (J := J) e s c root = Ok (r, s') -> unshared s' = unshared s.
Proof.
  unfold handle_cancel_order. intros E.
  destruct (string_member root "order_id"), (string_member root "symbol"); try (injection E as E; eapply error_unshared; eauto; fail).
  apply bind_ok in E as (found & _ & E). destruct found as [i|]; [|injection E as E; eapply error_unshared; eauto].
  destruct (cJSON_GetObjectItem root "is_buy"); [|injection E as E; eapply error_unshared; eauto].
  apply bind_ok in E as (b & _ & E). apply bind_ok in E as ([r1 orders] & _ & E).
  destruct (negb _); injection E; intros.
  - match goal with H : _ = (r, s') |- _ => apply error_unshared in H; exact H end.
  - subst. apply (send_to_unshared e (set_orders s orders)).
Qed.

Lemma request_unshared e s c root r s' : handle_book_request (J := J) e s c root = Ok (r, s') -> unshared s' = unshared s.
Proof.
  unfold handle_book_request. intros E. destruct (string_member root "symbol"); [|injection E as E; eapply error_unshared; eauto].
  apply bind_ok in E as (found & _ & E). destruct found as [i|]; [|injection E as E; eapply error_unshared; eauto].
  apply bind_ok in E as (b & _ & E). destruct (negb _); [injection E as E; eapply error_unshared; eauto |].
  apply bind_ok in E as (snap & _ & E). apply bind_ok in E as (json & _ & E).
  destruct json; [|injection E as E; eapply error_unshared; eauto]. simplify_eq. apply send_to_unshared.
Qed.

Lemma process_unshared e s c text s' : process_text (J := J) e s c text = Ok s' -> unshared s' = unshared s.
Proof.
  unfold process_text, dispatch, send_error_response. intros E.
  assert (Hsnd : forall m : res (Z * Server N), snd <$> m = Ok s' -> exists r, m = Ok (r, s'))
    by (intros [[r x]| |]; cbn; intros [= ->]; eauto).
  repeat case_match; try (apply Hsnd in E as [r E]);
    eauto using place_unshared, cancel_unshared, request_unshared; simplify_eq; apply send_to_unshared.
Qed.

(** A handler that runs undisturbed is one piece of work. *)
Lemma handle_alone_run e p i o p' :
  handle_alone e p i = Ok (Some (o, p')) -> pool_run p [EvWork i (shared_of (p_server p')); EvDone i] = Ok ([Quiet; o], p').
Proof.
  unfold handle_alone. intros E. destruct (p_workers p !! i) as [[| | | |l c| |]|] eqn:Hi; try discriminate E.
  destruct (sv_msgs (p_server p) !! l) as [text|] eqn:Ht; [|discriminate E]. apply bind_ok in E as (s' & E & E').
  injection E' as <- <-. apply process_unshared, unshared_eq in E. cbn [set_worker p_server p_workers p_stopper].
  cbn [pool_run pool_step p_workers p_server p_stopper]. rewrite Hi, Ht. cbn [mbind res_bind pool_run pool_step p_workers p_server].
  rewrite Hi. rewrite <- E. assert (sv_msgs s' = sv_msgs (p_server p)) as -> by now rewrite E. rewrite Ht. reflexivity.
Qed.

Lemma handle_alone_ok e p q i l c text s' :
  pool_ok p q -> p_workers p !! i = Some (WTaken l c) -> sv_msgs (p_server p) !! l = Some text ->
  process_text (J := J) e (p_server p) c text = Ok s' ->
  step_ok (EvWork i (shared_of s')) p q (handle_alone e p i).
Proof.
  intros Hp Hi Ht E. unfold handle_alone. rewrite Hi, Ht, E. cbn [mbind res_bind].
  eapply handled_ok; eauto; [|discriminate]. apply process_unshared in E. unfold unshared in E. split; congruence.
Qed.

(** ** Handlers that keep a promise *)

Context {inv : Server N -> Prop} {msg_ok : string -> Prop} `{HP : !HandlerPromise (J := J) inv msg_ok}.

(** The server satisfies the promise's invariant and every string is acceptable. *)
Definition pool_inv p : Prop := inv (p_server p) /\ map_Forall (fun _ t => msg_ok t) (sv_msgs (p_server p)).

Definition event_ok (ev : pool_event) : Prop :=
  match ev with
  | EvArrive _ text _ _ => msg_ok text
  | EvWork _ _ => False
  | _ => True
  end.

Lemma accepted_text p e text c woken t c' p' :
  pool_step p (EvArrive e text c woken) = Ok (Some (Accepted (t, c'), p')) -> t = text.
Proof.
  cbn [pool_step]. destruct (locked _); [discriminate |]. intros ([r s'] & _ & E)%bind_ok. destruct (r =? 0)%Z; now simplify_eq.
Qed.

Lemma accepts_arrival p ev m p' : pool_step p ev = Ok (Some (Accepted m, p')) -> exists e text c woken, ev = EvArrive e text c woken.
Proof.
  intros E. destruct ev as [e text c woken|i|i|i|i|i d|i|i| |]; [eauto | exfalso..]; cbn [pool_step] in E.
  - repeat case_match; discriminate E.
  - repeat case_match; try discriminate E. apply bind_ok in E as (d & _ & E). repeat case_match; discriminate E.
  - repeat case_match; discriminate E.
  - repeat case_match; discriminate E.
  - repeat case_match; discriminate E.
  - repeat case_match; discriminate E.
  - repeat case_match; try discriminate E. apply bind_ok in E as (s' & _ & E). discriminate E.
  - destruct (server_handlers_stop_workers _) as [r h]. apply bind_ok in E as (h' & _ & E). destruct (r =? 0)%Z; discriminate E.
  - repeat case_match; discriminate E.
Qed.

Lemma promised_step p q ev :
  pool_ok p q -> pool_inv p -> event_ok ev ->
  pool_step p ev = Ok None \/ exists o p' q', pool_step p ev = Ok (Some (o, p')) /\ pool_ok p' q' /\ accounts p q o p' q' /\ pool_inv p'.
Proof.
  intros Hp [Hi Hs] He. destruct (pool_step_ok p q ev Hp) as [E|(o & p' & q' & E & Hp' & Ha & Hf & Hb)]; [now left | right].
  exists o, p', q'. split_and!; auto. split.
  - eapply promise_kept; [apply Hb | exact Hi]. destruct ev; try reflexivity. contradiction.
  - intros l t Ht. destruct (Hf l t Ht) as [H|[c ->]]; [exact (Hs _ _ H) |].
    destruct (accepts_arrival p ev _ p' E) as (e & text & c' & woken & ->). now rewrite (accepted_text _ _ _ _ _ _ _ _ E).
Qed.

Lemma promised_handle p q e i :
  pool_ok p q -> pool_inv p -> env_ok e ->
  handle_alone e p i = Ok None \/
  exists o p' q', handle_alone e p i = Ok (Some (o, p')) /\ pool_ok p' q' /\ accounts p q o p' q' /\ pool_inv p'.
Proof.
  intros Hp [Hi Hs] He. unfold handle_alone. destruct (p_workers p !! i) as [[| | | |l c| |]|] eqn:Hw; try (now left).
  destruct (held_live p q _ l Hp (list_elem_of_lookup_2 _ _ _ Hw) eq_refl) as [text Ht]. rewrite Ht.
  destruct (promise_served e (p_server p) c text Hi He (Hs _ _ Ht)) as (s' & -> & Hi' & Hk). cbn [mbind res_bind]. right.
  destruct (handled_ok (EvWork i (shared_of s')) p q i l c text s' Hp Hw Ht Hk ltac:(discriminate)) as [[=]|(o & p' & q' & E & H1 & H2 & _)].
  exists o, p', q'. split_and!; auto. injection E as <- <-. split; [exact Hi' |]. cbn [set_worker p_server]. now rewrite (proj1 Hk).
Qed.

End Workers.

Arguments Pool N : clear implicits.
Arguments Shared N : clear implicits.
Arguments pool_event N : clear implicits.
Arguments pool_inv {N} inv msg_ok p.
Arguments event_ok {N} msg_ok ev.

(** ** Properties *)

Section PoolProperties.

Context {N : Type}.

Implicit Types p : Pool N.

(** C12: whatever the interleaving of arrivals, workers, spurious wake-ups and a stop, and
    whatever handlers do meanwhile to the books, the orders, the network and the
    notifications (which is all they do, see [handler_is_work]), the queue and its strings
    are handled without undefined behaviour and no message is lost, duplicated or leaked:
    messages are taken in the order they were accepted, what was queued, in hand or accepted
    is, each exactly once, handled, in hand or still queued, and the strings allocated are
    exactly those in hand or queued.  (The handlers are taken to return; what they need for
    that is [message_handled].) *)
Theorem pool_serves_exactly_once p q evs :
  pool_ok p q ->
  exists os p' q', pool_run p evs = Ok (os, p') /\ pool_ok p' q' /\
    (payload <$> q) ++ accepted os = taken os ++ (payload <$> q') /\
    (payload <$> q) ++ in_hand p ++ accepted os ≡ₚ served os ++ in_hand p' ++ (payload <$> q').
Proof.
  intros Hp. destruct (pool_run_ok p q evs Hp) as (os & p' & q' & E & Hp' & H1 & H2 & _).
  exists os, p', q'. split_and!; auto; try apply Hp'. rewrite (Permutation_app_comm (in_hand p)), app_assoc, H1, <- app_assoc.
  rewrite (Permutation_app_comm (payload <$> q')), app_assoc, (Permutation_app_comm (taken os)), H2.
  now rewrite <- app_assoc.
Qed.

(** C13: the workers drain the queue: while nobody stops them, no schedule, with arrivals and
    spurious wake-ups, has more steps than the work in the pool and the work it brings, so
    the workers cannot go round for ever; and when no worker can move, every message that
    was queued, in hand or accepted has been handled exactly once, every string is freed and
    every worker sleeps.  A pool is live when its workers run and, if messages wait, not all
    of them sleep; a started pool is, and every step keeps it so, which is what the signal
    after each accepted message is for. *)
Theorem pool_drains p q evs :
  pool_ok p q -> live_pool p q -> EvStop ∉ evs ->
  exists os p' q', pool_run p evs = Ok (os, p') /\ live_pool p' q' /\
    (length os <= work p q + sum_list_with cost evs)%nat /\
    (stuck p' ->
     served os ≡ₚ (payload <$> q) ++ in_hand p ++ accepted os /\ sv_msgs (p_server p') = ∅ /\
     Forall (fun w => w = WAsleep) (p_workers p')).
Proof.
  intros Hp Hl Hev. destruct (live_run p q evs Hp Hl Hev) as (os & p' & q' & E & Hp' & Hl' & Hw).
  destruct (pool_run_ok p q evs Hp) as (os0 & p0 & q0 & E0 & Hp0 & A1 & A2 & _). rewrite E in E0. injection E0 as <- <-.
  exists os, p', q'. split_and!; auto; [lia |]. intros Hstuck. pose proof Hl' as (_ & _ & Hne & Hx & Hawake).
  assert (HA : Forall (fun w => w = WAsleep) (p_workers p')).
  { apply Forall_forall. intros w Hin. destruct (stuck_workers p' q' w Hp' Hstuck Hin) as [|H]; [assumption | congruence]. }
  assert (HF : Forall (fun w => w = WAsleep \/ w = WExited) (p_workers p')) by (eapply Forall_impl; [exact HA | auto]).
  destruct (idle_workers p' q0 Hp0 HF) as [Hh Hm].
  assert (q' = []) as ->.
  { destruct q' as [|x q']; [reflexivity | exfalso]. destruct Hawake as (w & Hin & Hne'); [discriminate |].
    rewrite Forall_forall in HA. auto. }
  assert (q0 = []) as ->.
  { destruct q0 as [|x q0]; [reflexivity | exfalso]. destruct (proj1 (Hm (q_loc x))) as [t Ht]; [now left |].
    destruct (idle_workers p' [] Hp' HF) as [_ Hm']. assert (Hin : is_Some (sv_msgs (p_server p') !! q_loc x)) by eauto.
    apply Hm' in Hin. now apply not_elem_of_nil in Hin. }
  rewrite app_nil_r in A1. rewrite Hh, app_nil_r in A2. split_and!; auto.
  - rewrite <- A2, <- A1. rewrite (Permutation_app_comm (in_hand p)), <- app_assoc.
    now rewrite (Permutation_app_comm (accepted os)).
  - apply map_empty. intros l. destruct (sv_msgs (p_server p') !! l) eqn:El; [|reflexivity].
    exfalso. assert (Hin : is_Some (sv_msgs (p_server p') !! l)) by eauto. apply Hm in Hin. now apply not_elem_of_nil in Hin.
Qed.

(** C35: stopping the workers ends them, provided no worker is between its test of the flag
    and its wait when the flag is cleared (otherwise its wake-up may be lost, see
    [stop_loses_wakeup]): whatever the other threads do between the two steps of the stop and
    after it, no further message is taken, no worker makes more than three steps after the
    broadcast (apart from the work of its handler), and when none can move every worker has
    left its loop, so that the joins return; the messages in hand have then been handled, each
    once, and those queued or accepted since still wait in order. *)
Theorem pool_stops p q mid evs :
  pool_ok p q -> pool_running p = true -> WDeciding ∉ p_workers p -> EvBroadcast ∉ mid ->
  exists os1 p1 os2 p2 q2,
    pool_run p (EvStop :: mid ++ [EvBroadcast]) = Ok (os1, p1) /\ pool_run p1 evs = Ok (os2, p2) /\
    taken (os1 ++ os2) = [] /\ (length os2 <= 3 * length (p_workers p) + sum_list_with exit_cost evs)%nat /\
    (stuck p2 ->
     Forall (fun w => w = WExited) (p_workers p2) /\ served (os1 ++ os2) ≡ₚ in_hand p /\
     queue_rep (p_server p2) q2 /\ (payload <$> q2) = (payload <$> q) ++ accepted (os1 ++ os2)).
Proof.
  intros Hp Hr Hd Hmid. destruct (stop_call p q mid Hp Hr Hd Hmid) as (os1 & p1 & q1 & E1 & Hp1 & Hs1 & T1 & Ha1).
  destruct (stopping_run p1 q1 evs Hp1 Hs1) as (os2 & p2 & q2 & E2 & Hp2 & Hs2 & T2 & _ & HA). destruct (HA Ha1) as [Ha2 Hlen].
  destruct (pool_run_ok p q ((EvStop :: mid ++ [EvBroadcast]) ++ evs) Hp) as (os & p' & q' & E & Hp' & A1 & A2 & _).
  rewrite pool_run_app, E1 in E. cbn [mbind res_bind] in E. rewrite E2 in E. cbn [mbind res_bind] in E. injection E as <- <-.
  assert (HT : taken (os1 ++ os2) = []) by (unfold taken in *; now rewrite omap_app, T1, T2).
  exists os1, p1, os2, p2, q'. split_and!; auto.
  - assert (Hs : forall ws : list worker, (sum_list_with exit_steps ws <= 3 * length ws)%nat)
      by (induction ws as [|[] ws IH]; cbn; lia).
    specialize (Hs (p_workers p1)). rewrite (run_length _ _ _ _ E1) in Hs. lia.
  - intros Hstuck. assert (HX : Forall (fun w => w = WExited) (p_workers p2)).
    { apply Forall_forall. intros w Hin. destruct (stuck_workers p2 q2 w Hp2 Hstuck Hin) as [->|]; [contradiction | assumption]. }
    destruct (idle_workers p2 q' Hp') as [Hh _]; [eapply Forall_impl; [exact HX | auto] |].
    rewrite HT, Hh, !app_nil_r in A2. rewrite HT in A1. cbn [app] in A1.
    split_and!; [exact HX | now symmetry | apply Hp' | now symmetry].
Qed.

End PoolProperties.

(** Every handler of the source is work in the sense of the pool: handling a message changes
    the table of books, the orders, the network and the notifications and nothing else, so
    a worker that handles its message undisturbed is a run of the pool. *)
Theorem handler_is_work {J : Type} `{CJson J} {N : Type} `{Lws N} e (p : Pool N) i o p' :
  handle_alone (J := J) e p i = Ok (Some (o, p')) ->
  pool_run p [EvWork i (shared_of (p_server p')); EvDone i] = Ok ([Quiet; o], p').
Proof. apply handle_alone_run. Qed.

(** ** Concrete pools *)

Import RefJson.

(** Two workers and an empty queue. *)
Definition idle_pool : Pool text_world := mkPool (started broadcaster_config) [WLoop; WLoop] NotStopping.

Lemma idle_pool_ok : pool_ok idle_pool [].
Proof.
  unfold pool_ok. cbn [p_server p_workers idle_pool]. split_and!; auto.
  - apply started_queue_rep. split; vm_compute; reflexivity.
  - constructor.
  - intros l. cbn. split; [intros H; now apply not_elem_of_nil in H | intros [t [=]]].
Qed.

(** An order and its cancellation arrive, the first waking a worker that slept; a third
    message wakes nobody; two workers handle messages at the same time. *)
Definition busy_day : list (pool_event text_world) :=
  let d := shared_of (started broadcaster_config) in
  [EvLoop 0; EvLock 0; EvWait 0; EvArrive ok_env order_text (Some 1%positive) 7; EvLoop 1; EvArrive ok_env undo_text (Some 1%positive) 0;
   EvLock 1; EvLock 0; EvWork 0 d; EvWork 1 d; EvWork 0 d; EvDone 1; EvFree 1; EvArrive ok_env "m" None 0; EvDone 0; EvLoop 1; EvLock 1].

Lemma pool_serves_exactly_once_witness :
  exists os p' q', pool_run idle_pool busy_day = Ok (os, p') /\ pool_ok p' q' /\ [] ++ accepted os = taken os ++ (payload <$> q') /\
    [] ++ [] ++ accepted os ≡ₚ served os ++ in_hand p' ++ (payload <$> q').
Proof. exact (pool_serves_exactly_once idle_pool [] busy_day idle_pool_ok). Defined.

(** That run takes all three messages and leaves one in hand. *)
Example busy_day_run :
  match pool_run idle_pool busy_day with
  | Ok (os, p) => length os = 17%nat /\ length (taken os) = 3%nat /\ length (served os) = 2%nat /\ length (in_hand p) = 1%nat
  | _ => False
  end.
Proof. vm_compute. auto. Qed.

Lemma pool_drains_witness :
  exists os p' q', pool_run idle_pool busy_day = Ok (os, p') /\ live_pool p' q' /\
    (length os <= 6 + 24)%nat /\
    (stuck p' -> served os ≡ₚ [] ++ [] ++ accepted os /\ sv_msgs (p_server p') = ∅ /\
      Forall (fun w => w = WAsleep) (p_workers p')).
Proof.
  apply (pool_drains idle_pool [] busy_day idle_pool_ok).
  - split_and!; try reflexivity; [discriminate | by_decide |]. intros []. reflexivity.
  - unfold busy_day. rewrite !not_elem_of_cons. split_and!; try discriminate. apply not_elem_of_nil.
Defined.

Lemma pool_stops_witness :
  exists os1 p1 os2 p2 q2,
    pool_run idle_pool (EvStop :: [EvLoop 0] ++ [EvBroadcast]) = Ok (os1, p1) /\ pool_run p1 [EvLoop 1] = Ok (os2, p2) /\
    taken (os1 ++ os2) = [] /\ (length os2 <= 6)%nat /\
    (stuck p2 ->
     Forall (fun w => w = WExited) (p_workers p2) /\ served (os1 ++ os2) ≡ₚ [] /\
     queue_rep (p_server p2) q2 /\ (payload <$> q2) = [] ++ accepted (os1 ++ os2)).
Proof.
  apply (pool_stops idle_pool [] [EvLoop 0] [EvLoop 1] idle_pool_ok); [reflexivity | by_decide |].
  rewrite not_elem_of_cons. split; [discriminate | apply not_elem_of_nil].
Defined.

(** One worker. *)
Definition lone_pool : Pool text_world := mkPool (started broadcaster_config) [WLoop] NotStopping.

(** Neither an arrival nor a spurious wake-up. *)
Definition wakes_nobody {N : Type} (ev : pool_event N) : Prop :=
  match ev with EvArrive _ _ _ _ | EvSpurious _ => False | _ => True end.

Definition lost_pool : Pool text_world :=
  mkPool (set_handlers (p_server lone_pool) (with_sh_running (sv_handlers (p_server lone_pool)) false)) [WAsleep] Joining.

(** A stop can lose its wake-up: the worker has found the queue empty and the flag set, the
    flag is cleared and the broadcast sent, without the mutex, before the worker waits; then
    it sleeps, and no step of any thread but the arrival of a message (or a spurious wake-up)
    wakes it, so the join of [server_handlers_stop_workers] does not return. *)
Theorem stop_loses_wakeup :
  exists os p, pool_run lone_pool [EvLoop 0; EvLock 0; EvStop; EvBroadcast; EvWait 0] = Ok (os, p) /\
    pool_running p = false /\ p_stopper p = Joining /\ p_workers p = [WAsleep] /\
    forall evs, Forall wakes_nobody evs -> pool_run p evs = Ok ([], p).
Proof.
  exists [Quiet; Quiet; Quiet; Quiet; Quiet], lost_pool. split; [vm_compute; reflexivity |]. split_and!; try reflexivity.
  intros evs HF. induction HF as [|ev evs Hev _ IH]; [reflexivity |]. cbn [pool_run].
  assert (pool_step lost_pool ev = Ok None) as ->; [|exact IH].
  destruct ev as [| [|i]|[|i]|[|i]| |[|i] d|[|i]|[|i]| |]; try contradiction; reflexivity.
Qed.

(** An order and its cancellation arrive; the second worker overtakes the first. *)
Definition overtaking : res (list pool_out * Pool text_world) :=
  '(os1, p) ← pool_run idle_pool
    [EvArrive ok_env order_text (Some 1%positive) 0; EvArrive ok_env undo_text (Some 1%positive) 0; EvLoop 0; EvLock 0; EvLoop 1; EvLock 1];
  r ← handle_alone (J := jvalue) ok_env p 1;
  '(o1, p) ← deref r;
  r ← handle_alone (J := jvalue) ok_env p 0;
  '(o2, p) ← deref r;
  Ok (os1 ++ [o1; o2], p).

(** Messages of one client can be served in another order than they arrived in, even when
    handlers do not disturb each other: two workers take an order and its cancellation in
    turn, the second overtakes the first, the cancellation is refused because there is no
    such book yet, and the order rests in the book afterwards, uncancelled. *)
Theorem cancel_overtakes_order :
  exists os p', overtaking = Ok (os, p') /\
    accepted os = [(order_text, Some 1%positive); (undo_text, Some 1%positive)] /\
    served os = [(undo_text, Some 1%positive); (order_text, Some 1%positive)] /\
    (exists b, books (sv_handlers (p_server p')) !! 0%nat = Some (Some b) /\
       (o_is_canceled <$> bids (sv_orders (p_server p')) b) = [false]) /\
    (1%positive, error_text "Order book not found") ∈ sv_net (p_server p').
Proof.
  eexists _, _. split; [vm_compute; reflexivity |]. split; [vm_compute; reflexivity |]. split; [vm_compute; reflexivity |].
  split; [eexists; split; [reflexivity | vm_compute; reflexivity] |]. by_decide.
Qed.
