(* ===== verification/BookTable.v ===== *)
(** * Workers on the book table (src/src/server/server_handlers.c)

    [handle_place_order] finds or creates the book of its symbol while it holds the table's
    lock for reading only, so several workers run that section at once.  Here the section
    is split into the steps that touch the table, one per iteration of the search and one
    per store, and workers interleave.  Books are locations of a store, since a worker
    keeps the pointer it created while the table's slot may be overwritten.

    A worker alone computes [find_or_create_book] of [Handlers]; workers for listed
    symbols never disturb each other; workers for new symbols stay within the table as
    long as there is room for each of them, but may create two books for one symbol. *)

From Stdlib Require Import Ascii String ZArith Lia SpecFloat.
From stdpp Require Import base list numbers strings gmap fin_maps.
From S2P Require Import Prelude CDouble CString CJson Protocol JsonProtocol Order AvlTree OrderBook MatchSpec BookRefine.
From S2P Require Import WsServer Handlers HandlerQueue HandlerBooks.

Record Table : Type := mkTable {
  tb_books : list (option loc);
  tb_symbols : list buffer;
  tb_count : nat;
  tb_broadcaster : option TradeBroadcaster;
  tb_store : gmap loc OrderBook
}.

(** Where a worker is in the section: at the [i]-th comparison, about to create a book,
    about to store its pointer, its symbol, about to read the count it will increase, about
    to write it back, or with its result. *)
Inductive place_pc : Type :=
| PSearch (i : nat)
| PCreate
| PStoreBook (book : loc)
| PStoreSymbol (book : loc)
| PCount (book : loc)
| PWriteCount (n : nat) (book : loc)
| PFound (book : option loc).

(** One access to the table. *)
Definition place_step (e : Env) (t : Table) (symbol : string) (pc : place_pc) : res (Table * place_pc) :=
  match pc with
  | PSearch i =>
      if (i <? tb_count t)%nat then
        match tb_symbols t !! i, tb_books t !! i with
        | Some buf, Some book =>
            name ← c_str buf;
            if str_eq name symbol then Ok (t, match book with Some _ => PFound book | None => PCreate end)
            else Ok (t, PSearch (S i))
        | _, _ => UB OutOfBounds
        end
      else Ok (t, PCreate)
  | PCreate =>
      match order_book_create (e_alloc e AllocBook) (e_alloc e AllocBuyTree) (e_alloc e AllocSellTree) (tb_broadcaster t) with
      | None => Ok (t, PFound None)
      | Some b =>
          let l := fresh (dom (tb_store t)) in
          Ok (mkTable (tb_books t) (tb_symbols t) (tb_count t) (tb_broadcaster t) (<[l := b]> (tb_store t)), PStoreBook l)
      end
  | PStoreBook l =>
      if (tb_count t <? length (tb_books t))%nat then
        Ok (mkTable (<[tb_count t := Some l]> (tb_books t)) (tb_symbols t) (tb_count t) (tb_broadcaster t) (tb_store t),
            PStoreSymbol l)
      else UB OutOfBounds
  | PStoreSymbol l =>
      match tb_symbols t !! tb_count t with
      | Some old =>
          name ← strncpy old symbol 15;
          Ok (mkTable (tb_books t) (<[tb_count t := name]> (tb_symbols t)) (tb_count t)
                (tb_broadcaster t) (tb_store t), PCount l)
      | None => UB OutOfBounds
      end
  | PCount l => Ok (t, PWriteCount (tb_count t) l)
  | PWriteCount n l =>
      Ok (mkTable (tb_books t) (tb_symbols t) (S n) (tb_broadcaster t) (tb_store t), PFound (Some l))
  | PFound _ => Ok (t, pc)
  end.

(** A worker alone. *)
Fixpoint place_run (n : nat) (e : Env) (t : Table) (symbol : string) (pc : place_pc) : res (Table * place_pc) :=
  match n with
  | O => Ok (t, pc)
  | S n => '(t, pc) ← place_step e t symbol pc; place_run n e t symbol pc
  end.

(** Several workers, each with its symbol; a schedule lists who moves. *)
Abbreviation place_workers := (list (string * place_pc)).

Definition race_step (e : Env) (t : Table) (ws : place_workers) (i : nat) : res (Table * place_workers) :=
  match ws !! i with
  | None => Ok (t, ws)
  | Some (symbol, pc) => '(t, pc) ← place_step e t symbol pc; Ok (t, <[i := (symbol, pc)]> ws)
  end.

Fixpoint race_run (e : Env) (t : Table) (ws : place_workers) (schedule : list nat) : res (Table * place_workers) :=
  match schedule with
  | [] => Ok (t, ws)
  | i :: schedule => '(t, ws) ← race_step e t ws i; race_run e t ws schedule
  end.

(** ** A worker alone *)

(** The handlers' table as pointers into a store. *)
Definition table_view (t : Table) (h : ServerHandlers) : Prop :=
  symbols h = tb_symbols t /\ book_count h = tb_count t /\ sh_broadcaster h = tb_broadcaster t /\
  books h = (fun p => p ≫= (fun l => tb_store t !! l)) <$> tb_books t /\
  length (tb_symbols t) = length (tb_books t) /\
  (forall i l, tb_books t !! i = Some (Some l) -> is_Some (tb_store t !! l)).

Lemma place_run_S n e t symbol pc :
  place_run (S n) e t symbol pc = ('(t, pc) ← place_step e t symbol pc; place_run n e t symbol pc).
Proof. reflexivity. Qed.

Lemma place_run_found n e t symbol p : place_run n e t symbol (PFound p) = Ok (t, PFound p).
Proof. induction n as [|n IH]; cbn; auto. Qed.

(** The search, step by step, is the search of the table. *)
Lemma search_run e t symbol k n i :
  length (tb_symbols t) = length (tb_books t) -> (i + n = tb_count t)%nat ->
  match find_name (tb_symbols t) symbol i n with
  | Ok (Some j) => exists book k', (k <= k')%nat /\ tb_books t !! j = Some book /\
      place_run (S n + k) e t symbol (PSearch i) =
      place_run k' e t symbol (match book with Some _ => PFound book | None => PCreate end)
  | Ok None => place_run (S n + k) e t symbol (PSearch i) = place_run k e t symbol PCreate
  | UB u => place_run (S n + k) e t symbol (PSearch i) = UB u
  | OutOfFuel => False
  end.
Proof.
  intros Hlen. revert i. induction n as [|n IH]; intros i Hi.
  { cbn [find_name plus]. rewrite place_run_S. cbn [place_step]. now rewrite (proj2 (Nat.ltb_ge _ _)) by lia. }
  cbn [find_name]. change (S (S n) + k)%nat with (S (S n + k)). rewrite place_run_S. cbn [place_step].
  rewrite (proj2 (Nat.ltb_lt i _)) by lia. destruct (tb_symbols t !! i) as [buf|] eqn:Hs.
  - destruct (lookup_lt_is_Some_2 (tb_books t) i) as [book Hb]; [rewrite <- Hlen; eapply lookup_lt_Some; eauto |].
    rewrite Hb. destruct (c_str buf) as [name| |] eqn:Hc; cbn [mbind res_bind]; [|reflexivity|].
    2: { clear -Hc. exfalso. revert Hc. induction buf as [|c buf IH]; cbn; [discriminate |].
         destruct (Ascii.eqb c NUL); [discriminate |]. destruct (c_str buf); cbn; [discriminate.. | auto]. }
    destruct (str_eq name symbol); cbn [mbind res_bind]; [|apply IH; lia].
    exists book, (S n + k)%nat. split_and!; auto; lia.
  - cbn [mbind res_bind]. reflexivity.
Qed.

(** Creating a book and appending it, step by step. *)
Lemma create_run e t h symbol k :
  table_view t h ->
  match new_book e h with
  | None => place_run (5 + k) e t symbol PCreate = Ok (t, PFound None)
  | Some b =>
      match push_book h b (fun old => strncpy old symbol 15) with
      | Ok h' => exists t' l, place_run (5 + k) e t symbol PCreate = Ok (t', PFound (Some l)) /\ table_view t' h' /\
          tb_books t' !! book_count h = Some (Some l)
      | UB u => place_run (5 + k) e t symbol PCreate = UB u
      | OutOfFuel => False
      end
  end.
Proof.
  intros (Vs & Vc & Vb & Vk & Vl & Vlive). unfold new_book. rewrite Vb.
  change (5 + k)%nat with (S (S (S (S (S k))))). rewrite place_run_S. cbn [place_step].
  destruct (order_book_create _ _ _ (tb_broadcaster t)) as [b|]; cbn [mbind res_bind]; [|apply place_run_found].
  set (l := fresh (dom (tb_store t))). assert (Hf : tb_store t !! l = None) by (apply not_elem_of_dom, is_fresh).
  unfold push_book. rewrite Vs, Vc, Vk, length_fmap, place_run_S. cbn [place_step tb_count tb_books tb_symbols tb_broadcaster tb_store].
  destruct (tb_symbols t !! tb_count t) as [old|] eqn:Ho.
  2: { apply lookup_ge_None in Ho. rewrite (proj2 (Nat.ltb_ge _ _)) by lia. reflexivity. }
  assert (Hlt : (tb_count t < length (tb_books t))%nat) by (rewrite <- Vl; eapply lookup_lt_Some; eauto).
  rewrite (proj2 (Nat.ltb_lt _ _) Hlt). cbn [mbind res_bind]. rewrite place_run_S. cbn [place_step tb_count tb_books tb_symbols tb_broadcaster tb_store].
  rewrite Ho. unfold strncpy. destruct (15 <=? length old)%nat; cbn [mbind res_bind]; [|reflexivity].
  do 2 (rewrite place_run_S; cbn [mbind res_bind place_step tb_count tb_books tb_symbols tb_broadcaster tb_store]). rewrite place_run_found.
  eexists _, l. split; [reflexivity |]. cbn [tb_books]. split; [|now apply list_lookup_insert_eq].
  unfold table_view. cbn [tb_symbols tb_books tb_count tb_broadcaster tb_store symbols books book_count sh_broadcaster].
  rewrite !length_insert, ?Vs. split_and!; auto.
  - rewrite list_fmap_insert. cbn. rewrite lookup_insert_eq. f_equal. apply list_eq. intros i. rewrite !list_lookup_fmap.
    destruct (tb_books t !! i) as [[l'|]|] eqn:Ei; cbn; auto. rewrite lookup_insert_ne; [reflexivity |].
    intros <-. destruct (Vlive _ _ Ei) as [? H]. congruence.
  - intros i l' [(_ & [= <-] & _)|[_ Hi]]%list_lookup_insert_Some; [rewrite lookup_insert_eq; eauto |].
    destruct (Vlive _ _ Hi) as [b' Hb']. rewrite lookup_insert_ne by congruence. eauto.
Qed.

(** ** Interleavings *)

(** A symbol array whose last byte is still zero. *)
Definition terminated (buf : buffer) : Prop := exists r, length r = 15%nat /\ buf = r ++ [NUL].

Lemma terminated_strncpy buf symbol : terminated buf -> terminated (strncpy_fill buf symbol 15).
Proof.
  intros (r & Hr & ->). destruct (strncpy_zero_last r symbol 15) as [->|H]; [|lia].
  exists (strncpy_fill r symbol 15). now rewrite length_strncpy.
Qed.

Lemma terminated_c_str buf : terminated buf -> exists name, c_str buf = Ok name.
Proof.
  intros (r & _ & ->). induction r as [|c r [name IH]]; cbn; [eauto |].
  destruct (Ascii.eqb c NUL); [eauto |]. rewrite IH. cbn. eauto.
Qed.

(** The book a worker holds, if any, exists; a finished worker holds one. *)
Definition pc_live (store : gmap loc OrderBook) (pc : place_pc) : Prop :=
  match pc with
  | PSearch _ | PCreate => True
  | PStoreBook l | PStoreSymbol l | PCount l | PWriteCount _ l | PFound (Some l) => is_Some (store !! l)
  | PFound None => False
  end.

(** Workers that may still append a book. *)
Definition pending (pc : place_pc) : nat := match pc with PFound _ => 0 | _ => 1 end.

Definition total_pending (ws : place_workers) : nat := sum_list_with (fun w => pending w.2) ws.

(** The accesses a worker still has to make, in a table that never exceeds [bound]. *)
Definition accesses_left (bound : nat) (pc : place_pc) : nat :=
  match pc with
  | PSearch i => 6 + (bound - i)
  | PCreate => 5
  | PStoreBook _ => 4
  | PStoreSymbol _ => 3
  | PCount _ => 2
  | PWriteCount _ _ => 1
  | PFound _ => 0
  end.

(** The arrays have their size and stay terminated, every pointer is live, and there is
    room below [bound] for each worker that may append. *)
Definition table_safe (bound : nat) (t : Table) : Prop :=
  length (tb_books t) = MAX_SYMBOLS /\ length (tb_symbols t) = MAX_SYMBOLS /\ Forall terminated (tb_symbols t) /\
  is_Some (tb_broadcaster t) /\ (bound <= MAX_SYMBOLS)%nat /\
  (forall i l, tb_books t !! i = Some (Some l) -> is_Some (tb_store t !! l)).

(** A count that was read leaves room for all [total] workers that may append. *)
Definition pc_room (bound total : nat) (pc : place_pc) : Prop :=
  match pc with PWriteCount n _ => (n + total <= bound)%nat | _ => True end.

Definition race_safe (bound : nat) (t : Table) (ws : place_workers) : Prop :=
  table_safe bound t /\ (tb_count t + total_pending ws <= bound)%nat /\
  Forall (fun w => pc_live (tb_store t) w.2 /\ pc_room bound (total_pending ws) w.2) ws.

(** One access of one worker, with room for it. *)
Lemma place_step_safe bound others e t symbol pc :
  table_safe bound t -> alloc_all e -> (tb_count t + (pending pc + others) <= bound)%nat ->
  pc_live (tb_store t) pc -> pc_room bound (pending pc + others) pc ->
  exists t' pc', place_step e t symbol pc = Ok (t', pc') /\ table_safe bound t' /\ tb_store t ⊆ tb_store t' /\
    pc_live (tb_store t') pc' /\ pc_room bound (pending pc' + others) pc' /\
    (tb_count t' + (pending pc' + others) <= bound)%nat /\ (pending pc' <= pending pc)%nat /\
    (accesses_left bound pc' <= accesses_left bound pc - 1)%nat.
Proof.
  intros (Lb & Ls & Ht & Hbr & Hbd & Hlive) Ha Hroom Hpc Hpr.
  assert (Hsame : table_safe bound t) by (split_and!; auto).
  destruct pc as [i| |l|l|l|n l|[l|]]; cbn [place_step].
  - destruct (Nat.ltb_spec i (tb_count t)) as [Hi|Hi]; [|exists t, PCreate; cbn in *; split_and!; auto; lia].
    destruct (lookup_lt_is_Some_2 (tb_symbols t) i) as [buf Hs]; [cbn in Hroom; lia |].
    destruct (lookup_lt_is_Some_2 (tb_books t) i) as [book Hb]; [cbn in Hroom; lia |]. rewrite Hs, Hb.
    rewrite Forall_lookup in Ht. destruct (terminated_c_str buf (Ht _ _ Hs)) as [name ->]. cbn [mbind res_bind].
    destruct (str_eq name symbol); [|exists t, (PSearch (S i)); cbn in *; split_and!; auto; lia].
    destruct book as [l|]; eexists _, _; (split; [reflexivity |]); cbn in *; split_and!; eauto; lia.
  - rewrite !Ha. destruct Hbr as [br Hbr]. rewrite Hbr. cbn [order_book_create negb avl_create].
    set (l := fresh (dom (tb_store t))). assert (Hf : tb_store t !! l = None) by (apply not_elem_of_dom, is_fresh).
    eexists _, _. split; [reflexivity |]. unfold table_safe. cbn in *. split_and!; auto; try lia.
    + intros i l' Hi. destruct (Hlive _ _ Hi) as [b Hb]. exists b. rewrite lookup_insert_ne by congruence. exact Hb.
    + now apply insert_subseteq.
    + rewrite lookup_insert_eq. eauto.
  - cbn in Hroom. rewrite (proj2 (Nat.ltb_lt _ _)) by lia. eexists _, _. split; [reflexivity |]. unfold table_safe.
    cbn in *. rewrite length_insert. split_and!; auto; try lia.
    intros i l' [(_ & [= <-] & _)|[_ Hi]]%list_lookup_insert_Some; eauto.
  - cbn in Hroom. destruct (lookup_lt_is_Some_2 (tb_symbols t) (tb_count t)) as [old Ho]; [lia |]. rewrite Ho.
    assert (Hold : terminated old) by (rewrite Forall_lookup in Ht; eauto).
    rewrite strncpy_ok by (destruct Hold as (r & Hr & ->); rewrite length_app; lia). cbn [mbind res_bind].
    eexists _, _. split; [reflexivity |]. unfold table_safe. cbn in *. rewrite length_insert. split_and!; auto; try lia.
    apply Forall_insert; [exact Ht |]. now apply terminated_strncpy.
  - exists t, (PWriteCount (tb_count t) l). cbn in *. split_and!; auto; lia.
  - eexists _, _. split; [reflexivity |]. unfold table_safe. cbn in *. split_and!; auto; lia.
  - exists t, (PFound (Some l)). split_and!; auto; cbn; lia.
  - destruct Hpc.
Qed.

Lemma pc_live_mono store store' pc : store ⊆ store' -> pc_live store pc -> pc_live store' pc.
Proof.
  intros Hs. assert (H : forall l, is_Some (store !! l) -> is_Some (store' !! l)).
  { intros l [b Hb]. exists b. eapply lookup_weaken; eauto. }
  destruct pc as [| | | | | |[]]; cbn; auto.
Qed.

(** One step of a race keeps it safe; the worker that moves gets closer to its end and
    the others stay where they are. *)
Lemma race_step_safe bound e t ws i :
  race_safe bound t ws -> alloc_all e ->
  exists t' ws', race_step e t ws i = Ok (t', ws') /\ race_safe bound t' ws' /\ length ws' = length ws /\
    forall j symbol pc, ws !! j = Some (symbol, pc) -> exists pc', ws' !! j = Some (symbol, pc') /\
      (accesses_left bound pc' <= accesses_left bound pc - (if decide (i = j) then 1 else 0))%nat.
Proof.
  intros (Ht & Hc & HF) Ha. unfold race_step. destruct (ws !! i) as [[symbol pc]|] eqn:Hi.
  2: { exists t, ws. split_and!; auto; [split_and!; auto |]. intros j sy p Hj. exists p. split; [exact Hj |].
       rewrite decide_False by congruence. lia. }
  destruct (entry_split _ _ _ Hi) as (a & b & Ew & Ei). unfold total_pending in Hc.
  rewrite Ew, sum_list_with_app in Hc. cbn [sum_list_with snd] in Hc. rewrite Ew in HF.
  set (others := (sum_list_with (fun w => pending w.2) a + sum_list_with (fun w => pending w.2) b)%nat).
  assert (Etot : total_pending (a ++ (symbol, pc) :: b) = (pending pc + others)%nat).
  { unfold total_pending, others. rewrite sum_list_with_app. cbn [sum_list_with snd]. lia. }
  rewrite Etot in HF. apply Forall_app in HF as [Fa [[Fp Fr] Fb]%Forall_cons]. cbn [snd] in Fp, Fr.
  destruct (place_step_safe bound others e t symbol pc Ht Ha ltac:(unfold others; lia) Fp Fr)
    as (t' & pc' & -> & Ht' & Hs & Hp' & Hr' & Hr & Hle & Hl).
  cbn [mbind res_bind]. exists t', (<[i := (symbol, pc')]> ws). split_and!; auto.
  - rewrite Ei. assert (Etot' : total_pending (a ++ (symbol, pc') :: b) = (pending pc' + others)%nat).
    { unfold total_pending, others. rewrite sum_list_with_app. cbn [sum_list_with snd]. lia. }
    assert (Hmono : forall w : string * place_pc, pc_live (tb_store t) w.2 /\ pc_room bound (pending pc + others) w.2 ->
      pc_live (tb_store t') w.2 /\ pc_room bound (pending pc' + others) w.2).
    { intros w [H1 H2]. split; [eapply pc_live_mono; eauto |]. destruct w as [sy []]; cbn in *; auto; lia. }
    unfold race_safe. rewrite Etot'. split_and!; [exact Ht' | exact Hr |].
    apply Forall_app. split; [|constructor; [now split |]]; (eapply Forall_impl; [eassumption | exact Hmono]).
  - apply length_insert.
  - intros j sy p Hj. destruct (decide (i = j)) as [<-|Hne].
    + assert ((sy, p) = (symbol, pc)) as [= -> ->] by congruence. exists pc'. split; [|exact Hl].
      apply list_lookup_insert_eq. eapply lookup_lt_Some; eauto.
    + exists p. rewrite list_lookup_insert_ne by exact Hne. split; [exact Hj | lia].
Qed.

(** How often a worker moves. *)
Definition turns (j : nat) (schedule : list nat) : nat := length (List.filter (Nat.eqb j) schedule).

Lemma race_run_safe bound e t ws schedule :
  race_safe bound t ws -> alloc_all e ->
  exists t' ws', race_run e t ws schedule = Ok (t', ws') /\ race_safe bound t' ws' /\ length ws' = length ws /\
    forall j symbol pc, ws !! j = Some (symbol, pc) -> exists pc', ws' !! j = Some (symbol, pc') /\
      (accesses_left bound pc' <= accesses_left bound pc - turns j schedule)%nat.
Proof.
  intros Hs Ha. revert t ws Hs. induction schedule as [|i schedule IH]; intros t ws Hs.
  { exists t, ws. split_and!; auto. intros j symbol pc Hj. exists pc. cbn. split; [exact Hj | lia]. }
  cbn [race_run]. destruct (race_step_safe bound e t ws i Hs Ha) as (t1 & ws1 & -> & Hs1 & L1 & H1). cbn [mbind res_bind].
  destruct (IH t1 ws1 Hs1) as (t2 & ws2 & E & Hs2 & L2 & H2). exists t2, ws2. split_and!; auto; [congruence |].
  intros j symbol pc Hj. destruct (H1 j symbol pc Hj) as (pc1 & Hj1 & D1). destruct (H2 j symbol pc1 Hj1) as (pc2 & Hj2 & D2).
  exists pc2. split; [exact Hj2 |]. unfold turns in *. cbn [List.filter].
  destruct (Nat.eqb_spec j i) as [->|Hne]; [rewrite decide_True in D1 by reflexivity; cbn [length]; lia |].
  rewrite decide_False in D1 by congruence. lia.
Qed.

(** ** Listed symbols *)

(** The first [length names] entries of the table name live books. *)
Definition listed (t : Table) (names : list string) : Prop :=
  tb_count t = length names /\
  forall i name, names !! i = Some name -> exists buf l,
    tb_symbols t !! i = Some buf /\ c_str buf = Ok name /\ tb_books t !! i = Some (Some l).

(** A worker looking for a listed symbol: still before its entry, or at its book. *)
Definition looking (t : Table) (names : list string) (w : string * place_pc) : Prop :=
  match w.2 with
  | PSearch i => w.1 ∈ drop i names
  | PFound (Some l) => exists i, names !! i = Some w.1 /\ tb_books t !! i = Some (Some l)
  | _ => False
  end.

(** The comparisons it still has to make, at most. *)
Definition comparisons_left (names : list string) (pc : place_pc) : nat :=
  match pc with
  | PSearch i => length names - i
  | _ => 0
  end.

Lemma looking_step e t names symbol pc :
  listed t names -> looking t names (symbol, pc) ->
  exists pc', place_step e t symbol pc = Ok (t, pc') /\ looking t names (symbol, pc') /\
    (comparisons_left names pc' <= comparisons_left names pc - 1)%nat.
Proof.
  intros [Hc Hl] Hw. destruct pc as [i| | | | | |[l|]]; try (exfalso; exact Hw); cbn [looking fst snd place_step] in *.
  2: { exists (PFound (Some l)). split_and!; cbn; eauto; lia. }
  destruct (names !! i) as [name|] eqn:Hi.
  2: { apply lookup_ge_None in Hi. rewrite drop_ge in Hw by lia. now apply not_elem_of_nil in Hw. }
  pose proof (lookup_lt_Some _ _ _ Hi) as Hlt. rewrite Hc, (proj2 (Nat.ltb_lt _ _) Hlt).
  destruct (Hl _ _ Hi) as (buf & l & -> & Hn & Hb). rewrite Hb, Hn. cbn [mbind res_bind].
  destruct (str_eq name symbol) eqn:E.
  - apply str_eq_spec in E as ->. exists (PFound (Some l)). split_and!; cbn; eauto. lia.
  - exists (PSearch (S i)). split_and!; [reflexivity | | cbn; lia]. cbn. rewrite (drop_S _ _ _ Hi), elem_of_cons in Hw.
    destruct Hw as [->|Hw]; [|exact Hw]. rewrite (proj2 (str_eq_spec name name) eq_refl) in E. discriminate.
Qed.

(** ** Properties *)

(** A worker that runs the section alone computes [find_or_create_book]: the same book,
    the same table afterwards, the same failure, and the same undefined behaviour where
    the table is overrun or a symbol is not terminated. *)
Theorem section_alone_is_atomic e t h symbol :
  table_view t h ->
  match find_or_create_book e h symbol with
  | Ok (Some i, h') => exists t' l, place_run (tb_count t + 6) e t symbol (PSearch 0) = Ok (t', PFound (Some l)) /\
      table_view t' h' /\ tb_books t' !! i = Some (Some l)
  | Ok (None, h') => exists t', place_run (tb_count t + 6) e t symbol (PSearch 0) = Ok (t', PFound None) /\
      table_view t' h'
  | UB u => place_run (tb_count t + 6) e t symbol (PSearch 0) = UB u
  | OutOfFuel => False
  end.
Proof.
  intros V. pose proof V as (Vs & Vc & Vb & Vk & Vl & Vlive). unfold find_or_create_book, find_book.
  replace (tb_count t + 6)%nat with (S (tb_count t) + 5)%nat by lia. rewrite Vs, Vc.
  pose proof (search_run e t symbol 5 (tb_count t) 0 Vl eq_refl) as H.
  assert (Hnew : forall k, (5 <= k)%nat ->
    match (match new_book e h with
           | None => Ok (None, h)
           | Some b => h' ← push_book h b (fun old => strncpy old symbol 15); Ok (Some (book_count h), h')
           end) with
    | Ok (Some i, h') => exists t' l, place_run k e t symbol PCreate = Ok (t', PFound (Some l)) /\
        table_view t' h' /\ tb_books t' !! i = Some (Some l)
    | Ok (None, h') => exists t', place_run k e t symbol PCreate = Ok (t', PFound None) /\ table_view t' h'
    | UB u => place_run k e t symbol PCreate = UB u
    | OutOfFuel => False
    end).
  { intros k Hk. pose proof (create_run e t h symbol (k - 5) V) as Hc. replace (5 + (k - 5))%nat with k in Hc by lia.
    destruct (new_book e h) as [b|]; [|eauto]. destruct (push_book h b _); cbn [mbind res_bind]; auto. }
  destruct (find_name (tb_symbols t) symbol 0 (tb_count t)) as [[j|]| |]; cbn [mbind res_bind]; auto.
  - destruct H as (book & k' & Hk & Hb & ->). rewrite Vk, list_lookup_fmap, Hb. cbn [fmap option_fmap option_map].
    destruct book as [l|]; cbn [mbind option_bind res_bind].
    + destruct (Vlive _ _ Hb) as [b ->]. rewrite place_run_found. eauto 7.
    + rewrite <- Vc. now apply Hnew.
  - rewrite H, <- Vc. now apply Hnew.
Qed.

(** C15: workers for listed symbols share the table safely: under every schedule the table
    does not change, and a worker that has moved as often as there are books holds the
    book of its symbol. *)
Theorem listed_symbols_undisturbed e t names ws schedule :
  listed t names -> Forall (looking t names) ws ->
  exists ws', race_run e t ws schedule = Ok (t, ws') /\ Forall (looking t names) ws' /\
    forall j symbol pc, ws !! j = Some (symbol, pc) -> (length names <= turns j schedule)%nat ->
      exists i l, ws' !! j = Some (symbol, PFound (Some l)) /\ names !! i = Some symbol /\
        tb_books t !! i = Some (Some l).
Proof.
  intros Hl HF. cut (exists ws', race_run e t ws schedule = Ok (t, ws') /\ Forall (looking t names) ws' /\
    forall j symbol pc, ws !! j = Some (symbol, pc) -> exists pc', ws' !! j = Some (symbol, pc') /\
      (comparisons_left names pc' <= comparisons_left names pc - turns j schedule)%nat).
  { intros (ws' & E & HF' & H). exists ws'. split_and!; auto. intros j symbol pc Hj Ht.
    destruct (H j symbol pc Hj) as (pc' & Hj' & D). rewrite Forall_lookup in HF'. specialize (HF' _ _ Hj').
    destruct pc' as [i| | | | | |[l|]]; try (exfalso; exact HF'); cbn [looking fst snd] in HF'; [|destruct HF' as (i & ? & ?); eauto 6].
    exfalso. assert (i < length names)%nat.
    { apply list_elem_of_lookup in HF' as [k Hk]. rewrite lookup_drop in Hk. apply lookup_lt_Some in Hk. lia. }
    cbn in D. destruct pc; cbn in D; lia. }
  revert ws HF. induction schedule as [|i schedule IH]; intros ws HF.
  { exists ws. split_and!; auto. intros j symbol pc Hj. exists pc. unfold turns; cbn [List.filter length]; split; [exact Hj | lia]. }
  cbn [race_run]. unfold race_step. destruct (ws !! i) as [[symbol pc]|] eqn:Hi; cbn [mbind res_bind].
  - pose proof HF as HF0. rewrite Forall_lookup in HF0. destruct (looking_step e t names symbol pc Hl (HF0 _ _ Hi)) as (pc' & -> & Hw & D).
    cbn [mbind res_bind]. destruct (IH (<[i := (symbol, pc')]> ws)) as (ws' & E & HF' & H); [now apply Forall_insert |].
    exists ws'. split_and!; auto. intros j sy p Hj. unfold turns in *. cbn [List.filter]. destruct (Nat.eqb_spec j i) as [->|Hne].
    + assert ((sy, p) = (symbol, pc)) as [= -> ->] by congruence. destruct (H i symbol pc') as (q & Hq & Dq).
      { apply list_lookup_insert_eq. eapply lookup_lt_Some; eauto. }
      exists q. split; [exact Hq |]. cbn [length]. lia.
    + destruct (H j sy p) as (q & Hq & Dq); [now rewrite list_lookup_insert_ne by congruence |]. eauto.
  - destruct (IH ws HF) as (ws' & E & HF' & H). exists ws'. split_and!; auto. intros j sy p Hj. unfold turns in *. cbn [List.filter].
    destruct (Nat.eqb_spec j i) as [->|Hne]; [congruence |]. now apply H.
Qed.

(** C16: workers for any symbols stay within the table while there is room for one book
    each: under every schedule no access is out of bounds and no name unterminated, the
    books of the table and of the workers exist, the count never exceeds the bound, and
    every worker that has moved often enough is finished with a book. *)
Theorem race_stays_in_table bound e t ws schedule :
  race_safe bound t ws -> alloc_all e ->
  exists t' ws', race_run e t ws schedule = Ok (t', ws') /\ table_safe bound t' /\ (tb_count t' <= bound)%nat /\
    forall j symbol pc, ws !! j = Some (symbol, pc) -> (bound + 6 <= turns j schedule)%nat ->
      exists l b, ws' !! j = Some (symbol, PFound (Some l)) /\ tb_store t' !! l = Some b.
Proof.
  intros Hs Ha. destruct (race_run_safe bound e t ws schedule Hs Ha) as (t' & ws' & E & (Ht & Hc & HF) & _ & H).
  exists t', ws'. split_and!; auto; [lia |]. intros j symbol pc Hj Hn. destruct (H j symbol pc Hj) as (pc' & Hj' & D).
  rewrite Forall_lookup in HF. specialize (HF _ _ Hj'). cbn [snd] in HF.
  assert (Hz : accesses_left bound pc' = 0%nat).
  { assert (accesses_left bound pc <= bound + 6)%nat by (destruct pc; cbn; lia). lia. }
  destruct HF as [HF _].
  destruct pc' as [| | | | | |[l|]]; try discriminate Hz; [|destruct HF]. destruct HF as [b Hb]. eauto.
Qed.

(** ** Concrete tables *)

(** The table of a server just started. *)
Definition empty_table : Table :=
  mkTable (replicate 100 None) (replicate 100 (zero_buffer 16)) 0 (Some (mkTradeBroadcaster true)) ∅.

Lemma zero_terminated : terminated (zero_buffer 16).
Proof. now exists (zero_buffer 15). Qed.

Lemma empty_table_safe bound : (bound <= MAX_SYMBOLS)%nat -> table_safe bound empty_table.
Proof.
  intros Hb. unfold table_safe. cbn [tb_books tb_symbols tb_broadcaster tb_store empty_table].
  split_and!; auto; [apply Forall_replicate, zero_terminated |].
  intros i l [H _]%lookup_replicate. discriminate.
Qed.

Lemma empty_table_view : table_view empty_table (sv_handlers (started broadcaster_config)).
Proof.
  unfold table_view. split_and!; try reflexivity. intros i l Hi. cbn [tb_books empty_table] in Hi. apply lookup_replicate in Hi as [H _]. discriminate.
Qed.

Lemma section_alone_is_atomic_witness :
  exists t' l h', find_or_create_book ok_env (sv_handlers (started broadcaster_config)) "AAPL" = Ok (Some 0%nat, h') /\
    place_run 6 ok_env empty_table "AAPL" (PSearch 0) = Ok (t', PFound (Some l)) /\
    table_view t' h' /\ tb_books t' !! 0%nat = Some (Some l).
Proof.
  pose proof (section_alone_is_atomic ok_env empty_table (sv_handlers (started broadcaster_config)) "AAPL" empty_table_view) as H.
  destruct (find_or_create_book ok_env (sv_handlers (started broadcaster_config)) "AAPL") as [[[i|] h']| |] eqn:E;
    [|vm_compute in E; discriminate..].
  assert (i = 0%nat) as -> by (vm_compute in E; congruence). destruct H as (t' & l & H). exists t', l, h'. split; [reflexivity | exact H].
Defined.

(** The table after the first order for AAPL. *)
Definition aapl_table : Table :=
  match place_run 6 ok_env empty_table "AAPL" (PSearch 0) with
  | Ok (t, _) => t
  | _ => empty_table
  end.

Lemma aapl_listed : listed aapl_table ["AAPL"%string].
Proof.
  split; [reflexivity |]. intros [|i] name Hi; [|discriminate]. injection Hi as <-.
  exists (strncpy_fill (zero_buffer 16) "AAPL" 15), 1%positive. split_and!; reflexivity.
Qed.

Definition two_for_aapl : place_workers := [("AAPL", PSearch 0); ("AAPL", PSearch 0)]%string.

Lemma listed_symbols_undisturbed_witness :
  exists ws', race_run ok_env aapl_table two_for_aapl [0; 1]%nat = Ok (aapl_table, ws') /\
    Forall (looking aapl_table ["AAPL"%string]) ws' /\
    forall j symbol pc, two_for_aapl !! j = Some (symbol, pc) -> (1 <= turns j [0; 1]%nat)%nat ->
      exists i l, ws' !! j = Some (symbol, PFound (Some l)) /\ ["AAPL"%string] !! i = Some symbol /\
        tb_books aapl_table !! i = Some (Some l).
Proof.
  apply (listed_symbols_undisturbed ok_env aapl_table ["AAPL"%string] two_for_aapl [0; 1]%nat aapl_listed).
  repeat constructor.
Defined.

Lemma race_stays_in_table_witness :
  exists t' ws', race_run ok_env empty_table two_for_aapl [0; 1; 0; 1; 1]%nat = Ok (t', ws') /\ table_safe 2 t' /\
    (tb_count t' <= 2)%nat /\
    forall j symbol pc, two_for_aapl !! j = Some (symbol, pc) -> (8 <= turns j [0; 1; 0; 1; 1]%nat)%nat ->
      exists l b, ws' !! j = Some (symbol, PFound (Some l)) /\ tb_store t' !! l = Some b.
Proof.
  apply (race_stays_in_table 2 ok_env empty_table two_for_aapl [0; 1; 0; 1; 1]%nat); [|exact ok_env_alloc].
  split_and!; [apply empty_table_safe; vm_compute; lia | vm_compute; lia | repeat constructor].
Defined.

(** Two workers with orders for one new symbol can create two books: both search before
    either has counted its book.  Both orders are accepted, but only the first book is
    ever found under the symbol again. *)
Theorem two_books_for_one_symbol :
  exists t b1 b2, race_run ok_env empty_table two_for_aapl [0; 1; 0; 1; 0; 0; 0; 0; 1; 1; 1; 1]%nat =
      Ok (t, [("AAPL", PFound (Some b1)); ("AAPL", PFound (Some b2))]%string) /\
    b1 <> b2 /\ take 2 (tb_books t) = [Some b1; Some b2] /\ tb_count t = 2%nat /\
    find_name (tb_symbols t) "AAPL" 0 (tb_count t) = Ok (Some 0%nat).
Proof. eexists _, _, _. split; [vm_compute; reflexivity |]. split_and!; [discriminate | reflexivity | reflexivity | reflexivity]. Qed.

(** If both also store before either counts, the first book is overwritten and in no slot
    of the table any more, while the second slot is counted without a book. *)
Theorem race_loses_a_book :
  exists t b1 b2, race_run ok_env empty_table two_for_aapl [0; 1; 0; 1; 0; 1; 0; 1; 0; 0; 1; 1]%nat =
      Ok (t, [("AAPL", PFound (Some b1)); ("AAPL", PFound (Some b2))]%string) /\
    b1 <> b2 /\ (Some b1 ∉ tb_books t) /\ tb_count t = 2%nat /\ tb_books t !! 1%nat = Some None.
Proof. eexists _, _, _. split; [vm_compute; reflexivity |]. split_and!; [discriminate | by_decide | reflexivity | reflexivity]. Qed.

(** If both read the count before either writes it back, one increase is lost too: two
    orders were placed in two books, and the table has one. *)
Theorem race_loses_a_count :
  exists t b1 b2, race_run ok_env empty_table two_for_aapl [0; 1; 0; 1; 0; 1; 0; 1; 0; 1; 0; 1]%nat =
      Ok (t, [("AAPL", PFound (Some b1)); ("AAPL", PFound (Some b2))]%string) /\
    b1 <> b2 /\ (Some b1 ∉ tb_books t) /\ tb_count t = 1%nat /\ tb_books t !! 0%nat = Some (Some b2).
Proof. eexists _, _, _. split; [vm_compute; reflexivity |]. split_and!; [discriminate | by_decide | reflexivity | reflexivity]. Qed.
