(* ===== verification/MarketData.v ===== *)
(** * Market data (src/src/server/market_data.c)

    A second table of books, keyed by symbol.  Filling snapshots and totals from the
    books is left to do in the source, and the model does exactly as much. *)

From Stdlib Require Import Ascii String ZArith Lia SpecFloat.
From stdpp Require Import base list numbers strings.
From S2P Require Import Prelude CDouble CString Protocol JsonProtocol Order AvlTree OrderBook BookRefine.

Definition MAX_SYMBOLS : nat := 100.

Record MarketDataConfig : Type := mkMarketDataConfig {
  mdc_snapshot_interval_ms : Z;
  mdc_max_depth : Z;
  mdc_max_symbols : Z;
  mdc_trade_broadcaster : option TradeBroadcaster
}.

Record MarketData : Type := mkMarketData {
  md_broadcaster : option TradeBroadcaster;
  md_running : bool;
  md_symbols : list buffer;
  md_books : list (option OrderBook);
  md_count : nat;
  md_interval_ms : Z;
  md_max_depth : Z
}.

Definition market_data_create (calloc_ok : bool) (config : MarketDataConfig) : option MarketData :=
  if negb calloc_ok then None
  else Some (mkMarketData (mdc_trade_broadcaster config) false (replicate MAX_SYMBOLS (zero_buffer 16))
               (replicate MAX_SYMBOLS None) 0 (mdc_snapshot_interval_ms config) (mdc_max_depth config)).

Definition with_md_running (m : MarketData) (r : bool) : MarketData :=
  mkMarketData (md_broadcaster m) r (md_symbols m) (md_books m) (md_count m) (md_interval_ms m) (md_max_depth m).

Definition market_data_start_snapshot_timer (thread_ok : bool) (market : option MarketData) : Z * option MarketData :=
  match market with
  | None => ((-1)%Z, None)
  | Some m =>
      if md_running m then ((-1)%Z, market)
      else if thread_ok then (0%Z, Some (with_md_running m true)) else ((-1)%Z, Some (with_md_running m false))
  end.

Definition market_data_stop_snapshot_timer (market : option MarketData) : Z * option MarketData :=
  match market with
  | None => ((-1)%Z, None)
  | Some m => if negb (md_running m) then ((-1)%Z, market) else (0%Z, Some (with_md_running m false))
  end.

(** The tree nodes freed with the books. *)
Definition market_data_destroy (market : option MarketData) : list (double * Z * loc) :=
  match market with
  | None => []
  | Some m => concat (order_book_destroy <$> take (md_count m) (md_books m))
  end.

(** [book_ok]: the allocations of [order_book_create]. *)
Definition market_data_update_book (book_ok : bool) (market : option MarketData) (symbol : option string)
    (book : option OrderBook) : res (Z * option MarketData) :=
  match market, symbol, book with
  | Some m, Some symbol, Some _ =>
      found ← find_name (md_symbols m) symbol 0 (md_count m);
      match (found : option nat) with
      | Some _ => Ok (0%Z, market)
      | None =>
          if (md_count m <? MAX_SYMBOLS)%nat then
            match md_symbols m !! md_count m with
            | None => UB OutOfBounds
            | Some old =>
                name ← strncpy old symbol 15;
                Ok (0%Z, Some (mkMarketData (md_broadcaster m) (md_running m)
                      (<[md_count m := name]> (md_symbols m))
                      (<[md_count m := order_book_create book_ok book_ok book_ok (md_broadcaster m)]> (md_books m))
                      (S (md_count m)) (md_interval_ms m) (md_max_depth m)))
            end
          else Ok ((-1)%Z, market)
      end
  | _, _, _ => Ok ((-1)%Z, market)
  end.

(** A snapshot struct given a symbol and four arrays just allocated; its counts stay. *)
Definition allocated_snapshot (m : MarketData) (name : buffer) (s : BookSnapshot) : BookSnapshot :=
  mkBookSnapshot name (bs_num_bids s) (bs_num_asks s) (bs_max_orders s)
    (new_arr (md_max_depth m)) (new_arr (md_max_depth m)) (new_arr (md_max_depth m)) (new_arr (md_max_depth m)).

Definition snapshot_for (m : MarketData) (symbol : string) (s : BookSnapshot) : res BookSnapshot :=
  name ← strncpy (bs_symbol s) symbol 15;
  Ok (allocated_snapshot m name s).

(** The struct when an allocation failed: the others were freed. *)
Definition snapshot_failed (symbol : string) (s : BookSnapshot) : res BookSnapshot :=
  name ← strncpy (bs_symbol s) symbol 15;
  Ok (mkBookSnapshot name (bs_num_bids s) (bs_num_asks s) (bs_max_orders s) ArrFreed ArrFreed ArrFreed ArrFreed).

Definition market_data_get_snapshot (alloc_ok : bool) (market : option MarketData) (symbol : option string)
    (snapshot : option BookSnapshot) : res (Z * option BookSnapshot) :=
  match market, symbol, snapshot with
  | Some m, Some symbol, Some s =>
      found ← find_name (md_symbols m) symbol 0 (md_count m);
      match (found : option nat) with
      | None => Ok ((-1)%Z, snapshot)
      | Some _ =>
          if negb alloc_ok then s ← snapshot_failed symbol s; Ok ((-1)%Z, Some s)
          else s ← snapshot_for m symbol s; Ok (0%Z, Some s)
      end
  | _, _, _ => Ok ((-1)%Z, snapshot)
  end.

Definition zeroed_snapshot : BookSnapshot := mkBookSnapshot (zero_buffer 16) 0 0 0 ArrNull ArrNull ArrNull ArrNull.

(** ** The snapshot thread *)

Record timespec : Type := mkTimespec { tv_sec : Z; tv_nsec : Z }.

(** How long a round sleeps. *)
Definition snapshot_delay (m : MarketData) : res timespec :=
  nsec ← int_mul (Z.rem (md_interval_ms m) 1000) 1000000;
  Ok (mkTimespec (Z.quot (md_interval_ms m) 1000) nsec).

Definition free_snapshot (s : BookSnapshot) : BookSnapshot :=
  mkBookSnapshot (bs_symbol s) (bs_num_bids s) (bs_num_asks s) (bs_max_orders s) ArrFreed ArrFreed ArrFreed ArrFreed.

(** The loop over the books from entry [i]: the snapshots made, as they are when they are
    dropped, their arrays freed whether all were allocated or not. *)
Fixpoint snapshot_books (m : MarketData) (alloc_ok : nat -> bool) (i n : nat) : res (list BookSnapshot) :=
  match n with
  | O => Ok []
  | S n =>
      match md_symbols m !! i with
      | None => UB OutOfBounds
      | Some b =>
          let symbol := c_strn b 15 in
          snapshot ← (if alloc_ok i then snapshot ← snapshot_for m symbol zeroed_snapshot; Ok (free_snapshot snapshot)
                      else snapshot_failed symbol zeroed_snapshot);
          rest ← snapshot_books m alloc_ok (S i) n;
          Ok (snapshot :: rest)
      end
  end.

(** The loop, over what happens in each round: whether another thread has stopped the
    timer before the test, and which allocations succeed.  The sleeps it makes, and the
    market as it leaves it. *)
Fixpoint snapshot_thread (rounds : list (bool * (nat -> bool))) (m : MarketData) : res (list timespec * MarketData) :=
  match rounds with
  | [] => Ok ([], m)
  | (stopped, alloc_ok) :: rounds =>
      let m := if (stopped : bool) then with_md_running m false else m in
      if negb (md_running m) then Ok ([], m)
      else
        ts ← snapshot_delay m;
        _ ← snapshot_books m alloc_ok 0 (md_count m);
        '(sleeps, m) ← snapshot_thread rounds m;
        Ok (ts :: sleeps, m)
  end.

(** The loop from entry [i]; [alloc_ok k]: the arrays of entry [k] were allocated.
    [None]: everything was freed again. *)
Fixpoint collect_snapshots (m : MarketData) (alloc_ok : nat -> bool) (i n : nat) : res (option (list BookSnapshot)) :=
  match n with
  | O => Ok (Some [])
  | S n =>
      match md_symbols m !! i with
      | None => UB OutOfBounds
      | Some b =>
          let symbol := c_strn b 15 in
          if negb (alloc_ok i) then Ok None
          else
            snapshot ← snapshot_for m symbol zeroed_snapshot;
            rest ← collect_snapshots m alloc_ok (S i) n;
            Ok (match (rest : option (list BookSnapshot)) with
                | Some l => Some (snapshot :: l)
                | None => None
                end)
      end
  end.

(** The return value and the array handed out. *)
Definition market_data_get_all_snapshots (calloc_ok : bool) (alloc_ok : nat -> bool) (market : option MarketData)
    : res (Z * option (list BookSnapshot)) :=
  match market with
  | None => Ok ((-1)%Z, None)
  | Some m =>
      if negb calloc_ok then Ok ((-1)%Z, None)
      else
        l ← collect_snapshots m alloc_ok 0 (md_count m);
        Ok (match (l : option (list BookSnapshot)) with Some l => (0%Z, Some l) | None => ((-1)%Z, None) end)
  end.

Definition market_data_get_symbol_count (market : option MarketData) : Z :=
  match market with Some m => Z.of_nat (md_count m) | None => 0%Z end.

(** The loops over the books do nothing yet. *)
Definition market_data_get_total_orders (market : option MarketData) : Z := 0%Z.
Definition market_data_get_total_volume (market : option MarketData) : double := d_zero.

(** ** Lemmas *)

(** The first [length names] entries are named; the other names are zeroed. *)
Definition market_wf (m : MarketData) (names : list string) : Prop :=
  length (md_symbols m) = MAX_SYMBOLS /\ length (md_books m) = MAX_SYMBOLS /\ md_count m = length names /\
  (length names <= MAX_SYMBOLS)%nat /\
  (forall k name, names !! k = Some name -> exists b, md_symbols m !! k = Some b /\ c_str b = Ok name) /\
  (forall k, (length names <= k < MAX_SYMBOLS)%nat -> md_symbols m !! k = Some (zero_buffer 16)).

Lemma find_market_spec m names symbol :
  market_wf m names ->
  find_name (md_symbols m) symbol 0 (md_count m) = Ok (fst <$> list_find (fun x => x = symbol) names).
Proof.
  intros (_ & _ & -> & _ & Hn & _). rewrite (find_name_spec names) by exact Hn.
  now destruct (list_find _ names) as [[k x]|].
Qed.

(** The names of the first entries of a table. *)
Lemma market_entry m names i n k :
  market_wf m names -> (i + n = length names)%nat -> (k < n)%nat ->
  exists b name, md_symbols m !! (i + k)%nat = Some b /\ names !! (i + k)%nat = Some name /\ c_str b = Ok name.
Proof.
  intros (_ & _ & _ & _ & Hn & _) Hi Hk. destruct (lookup_lt_is_Some_2 names (i + k)) as [name Hname]; [lia |].
  destruct (Hn _ _ Hname) as (b & Hb & Hc). eauto.
Qed.

Lemma snapshot_books_ok m names alloc_ok i n :
  market_wf m names -> (i + n = length names)%nat -> is_ok (snapshot_books m alloc_ok i n).
Proof.
  intros Hwf. revert i. induction n as [|n IH]; intros i Hi; [eexists; reflexivity |]. cbn [snapshot_books].
  destruct (market_entry m names i (S n) 0 Hwf Hi) as (b & name & Hb & _); [lia |]. rewrite Nat.add_0_r in Hb. rewrite Hb.
  destruct (IH (S i)) as [rest ->]; [lia |]. destruct (alloc_ok i); cbn; eexists; reflexivity.
Qed.

Lemma collect_snapshots_spec m names i n :
  market_wf m names -> (i + n = length names)%nat ->
  collect_snapshots m (fun _ => true) i n = Ok (Some ((fun name => allocated_snapshot m (strncpy_fill (zero_buffer 16) name 15) zeroed_snapshot) <$> drop i names)).
Proof.
  intros Hwf. revert i. induction n as [|n IH]; intros i Hi; cbn [collect_snapshots].
  { now rewrite drop_ge by lia. }
  destruct (market_entry m names i (S n) 0 Hwf Hi) as (b & name & Hb & Hname & Hc); [lia |]. rewrite Nat.add_0_r in Hb, Hname.
  rewrite Hb. cbn [negb]. unfold snapshot_for. cbn [bs_symbol zeroed_snapshot]. rewrite strncpy_ok by (cbn; lia).
  cbn [mbind res_bind]. rewrite IH by lia. cbn [mbind res_bind]. rewrite (drop_S names name i Hname). cbn [fmap list_fmap].
  do 3 f_equal. unfold allocated_snapshot. f_equal. now apply strncpy_c_strn.
Qed.

(** The rounds before the one that sees the timer stopped. *)
Fixpoint rounds_run (rounds : list (bool * (nat -> bool))) : nat :=
  match rounds with
  | (false, _) :: rounds => S (rounds_run rounds)
  | _ => 0
  end.

(** A delay is what [nanosleep] accepts, and lasts the given number of milliseconds. *)
Definition delay_of (ms : Z) (ts : timespec) : Prop :=
  (0 <= tv_sec ts)%Z /\ (0 <= tv_nsec ts < 1000000000)%Z /\ (tv_sec ts * 1000000000 + tv_nsec ts = ms * 1000000)%Z.

Lemma snapshot_delay_spec m :
  (0 <= md_interval_ms m <= INT_MAX)%Z -> exists ts, snapshot_delay m = Ok ts /\ delay_of (md_interval_ms m) ts.
Proof.
  intros Hm. unfold snapshot_delay, INT_MAX in *. set (ms := md_interval_ms m) in *.
  rewrite Z.rem_mod_nonneg, Z.quot_div_nonneg by lia.
  pose proof (Z.mod_pos_bound ms 1000 ltac:(lia)). pose proof (Z.div_mod ms 1000 ltac:(lia)).
  rewrite int_mul_ok by (unfold in_int, INT_MIN, INT_MAX; lia). cbn [mbind res_bind].
  eexists. split; [reflexivity |]. unfold delay_of. cbn [tv_sec tv_nsec]. split_and!; lia.
Qed.

(** ** Properties *)

(** A book update for a symbol of at most 15 characters makes the table know the
    symbol, appending it with an empty book when it is new; the hundred-and-first symbol
    is refused with -1 and no change, so the table is never overrun. *)
Theorem market_update_book_correct m names symbol book :
  market_wf m names -> nul_free symbol = true -> (strlen symbol <= 15)%nat ->
  if bool_decide (symbol ∈ names)
  then market_data_update_book true (Some m) (Some symbol) (Some book) = Ok (0%Z, Some m)
  else if (length names <? MAX_SYMBOLS)%nat
  then exists m', market_data_update_book true (Some m) (Some symbol) (Some book) = Ok (0%Z, Some m') /\
         market_wf m' (names ++ [symbol]) /\
         md_books m' = <[length names := order_book_create true true true (md_broadcaster m)]> (md_books m)
  else market_data_update_book true (Some m) (Some symbol) (Some book) = Ok ((-1)%Z, Some m).
Proof.
  intros Hwf Hf Hl. cbn [market_data_update_book]. rewrite (find_market_spec m names symbol Hwf).
  pose proof Hwf as (Ls & Lb & Hc & Hm & Hn & Hz). rewrite Hc. cbn [mbind res_bind].
  destruct (list_find (fun x => x = symbol) names) as [[i x]|] eqn:E; cbn [fmap option_fmap option_map fst].
  - apply list_find_Some in E as (Hi & -> & _). now rewrite bool_decide_eq_true_2 by eauto using list_elem_of_lookup_2.
  - apply list_find_None in E. rewrite Forall_forall in E.
    rewrite bool_decide_eq_false_2 by (intros Hin; now apply (E symbol)).
    destruct (Nat.ltb_spec (length names) MAX_SYMBOLS); [|reflexivity]. rewrite Hz by lia. eexists. split; [reflexivity |].
    split; [|reflexivity]. unfold market_wf. cbn [md_symbols md_books md_count]. rewrite !length_insert, length_app. cbn [length].
    split_and!; auto; try lia.
    + intros k name [Hk|[Hk Hx]]%lookup_app_Some.
      * rewrite list_lookup_insert_ne; eauto. apply lookup_lt_Some in Hk. lia.
      * apply list_lookup_singleton_Some in Hx as [Hx <-]. assert (k = length names) as -> by lia.
        eexists. rewrite list_lookup_insert_eq by lia. eauto using c_str_zeroed_short.
    + intros k Hk. rewrite list_lookup_insert_ne by lia. apply Hz. lia.
Qed.

(** A snapshot obtained for a known symbol is not filled: the call returns 0, but the
    level counts are whatever the caller's struct held and no cell of the arrays has
    been written, so reading any level is undefined; the totals over all books are 0. *)
Theorem market_snapshot_unfilled m names symbol s :
  market_wf m names -> symbol ∈ names -> length (bs_symbol s) = 16%nat ->
  exists s', market_data_get_snapshot true (Some m) (Some symbol) (Some s) = Ok (0%Z, Some s') /\
    bs_num_bids s' = bs_num_bids s /\ bs_num_asks s' = bs_num_asks s /\
    (forall k, exists u, arr_get (bs_bid_prices s') k = UB u) /\ (forall k, exists u, arr_get (bs_ask_prices s') k = UB u) /\
    market_data_get_total_orders (Some m) = 0%Z /\ market_data_get_total_volume (Some m) = d_zero.
Proof.
  intros Hwf Hin Hs. cbn [market_data_get_snapshot]. rewrite (find_market_spec m names symbol Hwf). cbn [mbind res_bind].
  destruct (list_find (fun x => x = symbol) names) as [[i x]|] eqn:E; cbn [fmap option_fmap option_map fst negb].
  - unfold snapshot_for. rewrite strncpy_ok by lia. eexists. split; [reflexivity |].
    assert (Hun : forall k, exists u, arr_get (new_arr (A := double) (md_max_depth m)) k = UB u).
    { intros k. unfold new_arr, arr_get. destruct (replicate _ None !! k) as [c|] eqn:Ek; [|eauto].
      apply lookup_replicate in Ek as [-> _]. eauto. }
    split_and!; auto.
  - apply list_find_None in E. rewrite Forall_forall in E. now destruct (E symbol).
Qed.

(** The snapshot thread sleeps exactly the configured interval in every round, in
    seconds and nanoseconds [nanosleep] accepts and without overflow, makes one round after
    the other until the timer is stopped, whatever allocations fail, and leaves the table
    as it was. *)
Theorem snapshot_thread_paced m names rounds :
  market_wf m names -> (0 <= md_interval_ms m <= INT_MAX)%Z -> md_running m = true ->
  exists ts, delay_of (md_interval_ms m) ts /\
    snapshot_thread rounds m =
    Ok (replicate (rounds_run rounds) ts, if existsb fst rounds then with_md_running m false else m).
Proof.
  intros Hwf Hi Hr. destruct (snapshot_delay_spec m Hi) as (ts & Hts & Hd). exists ts. split; [exact Hd |].
  induction rounds as [|[stopped alloc_ok] rounds IH]; [reflexivity |]. cbn [snapshot_thread rounds_run existsb fst].
  destruct stopped; [reflexivity |]. rewrite Hr, Hts. cbn [negb mbind res_bind orb]. pose proof Hwf as (_ & _ & -> & _).
  destruct (snapshot_books_ok m names alloc_ok 0 (length names) Hwf eq_refl) as [l ->]. cbn [mbind res_bind].
  rewrite IH. reflexivity.
Qed.

(** Every snapshot of a well-formed table is handed out, in the order of the table and
    under its own symbol, with no levels. *)
Theorem market_all_snapshots m names :
  market_wf m names -> Forall (fun n => (strlen n <= 15)%nat) names ->
  exists l, market_data_get_all_snapshots true (fun _ => true) (Some m) = Ok (0%Z, Some l) /\
    Forall2 (fun s n => c_str (bs_symbol s) = Ok n /\ bs_num_bids s = 0%Z /\ bs_num_asks s = 0%Z) l names.
Proof.
  intros Hwf HF. cbn [market_data_get_all_snapshots negb]. pose proof Hwf as (_ & _ & -> & _ & Hn & _).
  rewrite (collect_snapshots_spec m names 0 (length names) Hwf eq_refl). cbn [mbind res_bind]. eexists. split; [reflexivity |].
  rewrite drop_0. apply Forall2_fmap_l. apply Forall_Forall2_diag. apply Forall_lookup. intros k name Hk.
  destruct (Hn _ _ Hk) as (b & _ & Hc). rewrite Forall_lookup in HF. unfold allocated_snapshot. cbn [bs_symbol bs_num_bids bs_num_asks].
  split_and!; auto. apply c_str_zeroed_short; [eauto using c_str_nul_free | eauto].
Qed.

(** ** Concrete instances *)

Definition sample_market : MarketData :=
  mkMarketData (Some (mkTradeBroadcaster true)) false
    (<[0%nat := strncpy_fill (zero_buffer 16) "AAPL" 15]> (replicate 100 (zero_buffer 16)))
    (<[0%nat := order_book_create true true true (Some (mkTradeBroadcaster true))]> (replicate 100 None)) 1 1000 10.

Lemma sample_market_wf : market_wf sample_market ["AAPL"%string].
Proof.
  unfold market_wf. split_and!; try reflexivity; try (vm_compute; lia).
  - intros [|k] name Hk; [|discriminate]. injection Hk as <-. eexists. split; reflexivity.
  - intros [|k] Hk; cbn in Hk; [lia |]. unfold sample_market. cbn [md_symbols].
    rewrite list_lookup_insert_ne by lia. apply lookup_replicate_2. unfold MAX_SYMBOLS in Hk. lia.
Qed.

Lemma market_update_book_correct_witness :
  exists m', market_data_update_book true (Some sample_market) (Some "GOOG"%string) (Some sample_book) = Ok (0%Z, Some m') /\
    market_wf m' ["AAPL"; "GOOG"]%string /\
    md_books m' = <[1%nat := order_book_create true true true (md_broadcaster sample_market)]> (md_books sample_market).
Proof.
  exact (market_update_book_correct sample_market _ "GOOG" sample_book sample_market_wf eq_refl ltac:(cbn; lia)).
Defined.

Lemma market_snapshot_unfilled_witness :
  exists s', market_data_get_snapshot true (Some sample_market) (Some "AAPL"%string) (Some sample_snapshot) = Ok (0%Z, Some s') /\
    bs_num_bids s' = 1%Z /\ bs_num_asks s' = 1%Z /\
    (forall k, exists u, arr_get (bs_bid_prices s') k = UB u) /\ (forall k, exists u, arr_get (bs_ask_prices s') k = UB u) /\
    market_data_get_total_orders (Some sample_market) = 0%Z /\ market_data_get_total_volume (Some sample_market) = d_zero.
Proof. apply (market_snapshot_unfilled sample_market _ "AAPL" sample_snapshot sample_market_wf); [by_decide | reflexivity]. Defined.

Lemma snapshot_thread_paced_witness :
  exists ts, delay_of 1000 ts /\
    snapshot_thread [(false, fun _ => true); (false, fun _ => false); (true, fun _ => true)] (with_md_running sample_market true) =
    Ok ([ts; ts], with_md_running (with_md_running sample_market true) false).
Proof.
  exact (snapshot_thread_paced (with_md_running sample_market true) ["AAPL"%string]
    [(false, fun _ => true); (false, fun _ => false); (true, fun _ => true)] sample_market_wf
    ltac:(cbn; unfold INT_MAX; lia) eq_refl).
Defined.

Lemma market_all_snapshots_witness :
  exists l, market_data_get_all_snapshots true (fun _ => true) (Some sample_market) = Ok (0%Z, Some l) /\
    Forall2 (fun s n => c_str (bs_symbol s) = Ok n /\ bs_num_bids s = 0%Z /\ bs_num_asks s = 0%Z) l ["AAPL"%string].
Proof. apply (market_all_snapshots sample_market ["AAPL"%string] sample_market_wf). repeat constructor. Defined.
