(* ===== verification/ServerApp.v ===== *)
(** * The server program (src/src/server/server_app.c)

    [main] creates the components, registers the message callback, starts the threads
    and then, once a second, removes timed-out sessions and pings the others, until a
    signal ends the loop and everything is stopped and destroyed.  [server_start] is
    [main] up to its loop, [program_step] a step of one of the program's threads while it
    runs, [server_shutdown] the rest of [main]. *)

From Stdlib Require Import Ascii String ZArith Lia SpecFloat.
From stdpp Require Import base list numbers strings gmap fin_maps.
From S2P Require Import Prelude CDouble CString CJson Protocol JsonProtocol Order AvlTree OrderBook MatchSpec BookRefine.
From S2P Require Import WsServer Session Handlers HandlerQueue HandlerBooks HandlerSafety Workers MarketData.

Definition ws_config : WSServerConfig := mkWSServerConfig "0.0.0.0" 8080 100 30000 60000.
Definition session_config : SessionConfig := mkSessionConfig 100 30000 60000.
Definition market_config : MarketDataConfig := mkMarketDataConfig 1000 10 100 None.

(** The callbacks of the server work on the state of the handlers. *)
#[export] Instance lws_server {N : Type} `{L : Lws N} : Lws (Server N) :=
  {| lws_write c text s := let '(r, n) := lws_write c text (sv_net s) in (r, set_net s n);
     lws_clients s := lws_clients (sv_net s);
     lws_name := lws_name (W := N) |}.

(** The components of the program. *)
Inductive server_component : Type :=
| TheServer
| TheHandlers
| TheSessions
| TheMarket.

#[export] Instance server_component_eq_dec : EqDecision server_component.
Proof. solve_decision. Defined.

Section ServerApp.

Context {J : Type} `{CJ : CJson J} {N : Type} `{L : Lws N}.

Definition message_handler_wrapper (e : Env) : message_callback (W := Server N) := fun c message user_data s =>
  snd <$> server_handlers_process_message e s (Some c) (Some message).

(** What may fail while the program starts; [sf_workers i]: the [i]-th worker thread can be
    created. *)
Record start_flags : Type := mkStartFlags {
  sf_ws : bool; sf_context : bool; sf_handlers : bool; sf_queues : bool; sf_sessions : bool; sf_market : bool;
  sf_service : bool; sf_workers : nat -> bool; sf_timer : bool
}.

Definition EXIT_SUCCESS : Z := 0.
Definition EXIT_FAILURE : Z := 1.

(** The program once it runs: [sp_running] is the static flag of the main loop, the pool
    holds the handlers with their worker threads, [sp_live] the components created and not
    destroyed. *)
Record ServerProgram : Type := mkServerProgram {
  sp_running : bool;
  sp_ws : WSServer (Server N);
  sp_pool : Pool N;
  sp_sessions : SessionManager;
  sp_market : MarketData;
  sp_live : list server_component
}.

Definition with_pool (p : ServerProgram) (pool : Pool N) : ServerProgram :=
  mkServerProgram (sp_running p) (sp_ws p) pool (sp_sessions p) (sp_market p) (sp_live p).

(** How [main] comes to its loop: it has exited, with the components it left behind, or the
    program runs. *)
Inductive start_outcome : Type :=
| StartExits (status : Z) (left : list server_component)
| StartRuns (p : ServerProgram).

(** The handlers as their callbacks see them: no order, no message yet. *)
Definition fresh_server (h : ServerHandlers) (n : N) : Server N := mkServer h ∅ ∅ n [].

(** Before there are handlers no callback is registered, so nothing looks at them. *)
Definition no_handlers : ServerHandlers := mkServerHandlers 0 false [] [] 0 0 0 [] [] 0 None.

(** The clean-up of a start that failed, of what was created so far: market, sessions,
    handlers, server; for a component that is null here the source has no call.  Nothing is
    connected yet. *)
Definition failed_start (now : Z) (live : list server_component) (market : option MarketData)
    (sessions : option SessionManager) (h : option ServerHandlers) (server : WSServer (Server N)) (n : N) : res start_outcome :=
  let w := fresh_server (default no_handlers h) n in
  let _ := market_data_destroy market in
  live ← destroyed TheMarket market live;
  _ ← session_manager_destroy sessions;
  live ← destroyed TheSessions sessions live;
  _ ← match h with Some h => _ ← server_handlers_destroy (fresh_server h n); Ok tt | None => Ok tt end;
  live ← destroyed TheHandlers h live;
  _ ← ws_server_destroy now [] (Some server) w;
  live ← destroyed TheServer (Some server) live;
  Ok (StartExits EXIT_FAILURE live).

(** [main] until its loop.  [handlers] is the location of the handlers, registered as user
    data; the results of [server_handlers_start_workers] and
    [market_data_start_snapshot_timer] are ignored. *)
Definition server_start (f : start_flags) (e : Env) (now : Z) (handlers : loc) (n : N) : res start_outcome :=
  let server := ws_server_create (sf_ws f) (sf_context f) ws_config in
  let live := created TheServer server [] in
  match server with
  | None => Ok (StartExits EXIT_FAILURE live)
  | Some server =>
      let h := server_handlers_create (sf_handlers f) (sf_queues f) main_config in
      let live := created TheHandlers h live in
      match h with
      | None => failed_start now live None None None server n
      | Some h =>
          server ← deref (ws_server_set_message_callback (Some server) (Some (message_handler_wrapper e)) (Some handlers));
          let sessions := session_manager_create (sf_sessions f) session_config in
          let live := created TheSessions sessions live in
          match sessions with
          | None => failed_start now live None None (Some h) server n
          | Some sessions =>
              let market := market_data_create (sf_market f) market_config in
              let live := created TheMarket market live in
              match market with
              | None => failed_start now live None (Some sessions) (Some h) server n
              | Some market =>
                  let '(r, server) := ws_server_start (sf_service f) (Some server) in
                  server ← deref server;
                  if negb (r =? 0)%Z then failed_start now live (Some market) (Some sessions) (Some h) server n
                  else
                    let '(_, h, threads) := server_handlers_start_workers (sf_workers f) (Some h) in
                    h ← deref h;
                    let '(_, market) := market_data_start_snapshot_timer (sf_timer f) (Some market) in
                    market ← deref market;
                    Ok (StartRuns (mkServerProgram true server
                          (mkPool (fresh_server h n) (replicate threads WLoop) NotStopping) sessions market live))
              end
          end
      end
  end.

(** One turn of the main loop: [now] is the clock of the clean-up, [clock] that of the
    pings. *)
Definition main_turn (now : Z) (clock : nat -> Z) (m : option SessionManager) : res (option SessionManager) :=
  m ← session_manager_cleanup_sessions now m;
  Ok (session_manager_ping_clients clock m).

Fixpoint main_loop (turns : list (Z * (nat -> Z))) (m : option SessionManager) : res (option SessionManager) :=
  match turns with
  | [] => Ok m
  | (now, clock) :: turns => m ← main_turn now clock m; main_loop turns m
  end.

(** ** While the program runs *)

(** A turn of the main loop, a signal, a callback of the service thread (with the worker its
    signal wakes), a step of a worker at the queue, a handler, or a round of the snapshot
    thread.  A handler is one step: this program has no books, so that a handler only looks
    for one and sends one answer (see [no_books_answered]). *)
Inductive program_event : Type :=
| PTurn (now : Z) (clock : nat -> Z)
| PSignal
| PNet (now : Z) (c : client) (reason : lws_reason) (inp : string) (woken : nat)
| PWork (ev : pool_event N)
| PHandle (i : nat) (e : Env)
| PSnapshot (alloc_ok : nat -> bool).

Definition handle_signal (p : ServerProgram) : ServerProgram :=
  mkServerProgram false (sp_ws p) (sp_pool p) (sp_sessions p) (sp_market p) (sp_live p).

(** A worker's step at the queue. *)
Definition working (ev : pool_event N) : bool :=
  match ev with
  | EvLoop _ | EvLock _ | EvWait _ | EvSpurious _ | EvFree _ => true
  | _ => false
  end.

(** The message callback of a received text runs under the mutex. *)
Definition must_wait (p : ServerProgram) (reason : lws_reason) : bool :=
  match reason with
  | LWS_CALLBACK_RECEIVE => locked (p_workers (sp_pool p))
  | _ => false
  end.

(** The workers after a callback: an accepted message has signalled the condition. *)
Definition notified (woken : nat) (pool : Pool N) (s : Server N) : list worker :=
  if (queue_tail (sv_handlers s) =? queue_tail (sv_handlers (p_server pool)))%Z then p_workers pool
  else cond_signal woken (p_workers pool).

(** What a step of the pool makes of the program. *)
Definition after_pool (p : ServerProgram) (r : option (pool_out * Pool N)) : list pool_out * ServerProgram :=
  match r with
  | None => ([], p)
  | Some (o, pool) => ([o], with_pool p pool)
  end.

(** One step of one thread, with what it does to the messages; a thread that has ended or
    cannot move does nothing. *)
Definition program_step (p : ServerProgram) (ev : program_event) : res (list pool_out * ServerProgram) :=
  match ev with
  | PTurn now clock =>
      if negb (sp_running p) then Ok ([], p)
      else
        m ← main_turn now clock (Some (sp_sessions p));
        m ← deref m;
        Ok ([], mkServerProgram (sp_running p) (sp_ws p) (sp_pool p) m (sp_market p) (sp_live p))
  | PSignal => Ok ([], handle_signal p)
  | PNet now c reason inp woken =>
      if negb (ws_running (sp_ws p)) || must_wait p reason then Ok ([], p)
      else
        '(_, ws, s) ← WsServer.callback_trading now (sp_ws p) c reason inp (p_server (sp_pool p));
        Ok ([], mkServerProgram (sp_running p) ws
                  (mkPool s (notified woken (sp_pool p) s) (p_stopper (sp_pool p))) (sp_sessions p) (sp_market p) (sp_live p))
  | PWork ev =>
      if negb (working ev) then Ok ([], p) else after_pool p <$> pool_step (sp_pool p) ev
  | PHandle i e => after_pool p <$> handle_alone (J := J) e (sp_pool p) i
  | PSnapshot alloc_ok =>
      if negb (md_running (sp_market p)) then Ok ([], p)
      else _ ← snapshot_books (sp_market p) alloc_ok 0 (md_count (sp_market p)); Ok ([], p)
  end.

Fixpoint program_run (p : ServerProgram) (evs : list program_event) : res (list pool_out * ServerProgram) :=
  match evs with
  | [] => Ok ([], p)
  | ev :: evs =>
      '(os, p) ← program_step p ev;
      '(os', p) ← program_run p evs;
      Ok (os ++ os', p)
  end.

(** ** Shutting down *)

(** The timer is stopped and its thread joined; the workers, if they run, are told to stop:
    the flag is cleared and, after the steps [between] of other threads, the broadcast made. *)
Definition stop_program (between : list program_event) (p : ServerProgram) : res (list pool_out * ServerProgram) :=
  market ← deref (snd (market_data_stop_snapshot_timer (Some (sp_market p))));
  let p := mkServerProgram (sp_running p) (sp_ws p) (sp_pool p) (sp_sessions p) market (sp_live p) in
  let '(r, h) := server_handlers_stop_workers (Some (sv_handlers (p_server (sp_pool p)))) in
  h ← deref h;
  if (r =? 0)%Z then
    '(os, p) ← program_run (with_pool p (clear_flag (sp_pool p) h)) between;
    Ok (os, with_pool p (broadcast (sp_pool p)))
  else program_run p between.

Definition all_exited (p : ServerProgram) : bool :=
  forallb (fun w => match w with WExited => true | _ => false end) (p_workers (sp_pool p)).

(** The components are destroyed; [closed] are the connections still open.  The exit status
    and what is left. *)
Definition destroy_program (now : Z) (closed : list client) (p : ServerProgram) : res (Z * list server_component) :=
  let _ := market_data_destroy (Some (sp_market p)) in
  live ← destroyed TheMarket (Some (sp_market p)) (sp_live p);
  _ ← session_manager_destroy (Some (sp_sessions p));
  live ← destroyed TheSessions (Some (sp_sessions p)) live;
  _ ← server_handlers_destroy (p_server (sp_pool p));
  live ← destroyed TheHandlers (Some (sv_handlers (p_server (sp_pool p)))) live;
  _ ← ws_server_destroy now closed (Some (sp_ws p)) (p_server (sp_pool p));
  live ← destroyed TheServer (Some (sp_ws p)) live;
  Ok (EXIT_SUCCESS, live).

(** The end of [main], after its loop.  [between] are the steps of the other threads between
    the clearing of the workers' flag and the broadcast, [joining] those while the workers are
    joined, [ending] those while the service thread is.  [None]: a worker has not ended yet,
    so the join has not returned; workers that were not all started are not joined. *)
Definition server_shutdown (now : Z) (between joining ending : list program_event) (closed : list client) (p : ServerProgram)
    : res (list pool_out * option (Z * list server_component)) :=
  let joins := pool_running (sp_pool p) in
  '(os0, p) ← stop_program between p;
  '(os1, p) ← program_run p joining;
  if joins && negb (all_exited p) then Ok (os0 ++ os1, None)
  else
    '(os2, p) ← program_run p ending;
    ws ← deref (ws_server_stop (Some (sp_ws p)));
    status ← destroy_program now closed
               (mkServerProgram (sp_running p) ws (sp_pool p) (sp_sessions p) (sp_market p) (sp_live p));
    Ok (os0 ++ os1 ++ os2, Some status).

(** ** Lemmas *)

Context `{CL : !CJsonLaws J}.

(** The session manager and the market as [main] creates them. *)
Definition idle_sessions : SessionManager := mkSessionManager [] 0 100 30000.
Definition idle_market (running : bool) : MarketData :=
  mkMarketData None running (replicate MarketData.MAX_SYMBOLS (zero_buffer 16)) (replicate MarketData.MAX_SYMBOLS None) 0 1000 10.

(** What holds while the program runs: the pool serves without books, only messages are
    called back for, sessions and market are as they were created, and every component is
    alive.  [took]: a worker has taken a message. *)
Definition program_ok (e : Env) (p : ServerProgram) (q : list queued) (took : bool) : Prop :=
  pool_ok (sp_pool p) q /\ pool_inv no_books (well_formed (J := J)) (sp_pool p) /\
  slots_after took (p_server (sp_pool p)) q /\
  only_messages (sp_ws p) (message_handler_wrapper e) /\
  sp_sessions p = idle_sessions /\ (exists r, sp_market p = idle_market r) /\
  sp_live p = [TheMarket; TheSessions; TheHandlers; TheServer].

(** The messages received are well-formed, and the workers have what they need. *)
Definition program_event_ok (ev : program_event) : Prop :=
  match ev with
  | PNet _ _ _ inp _ => well_formed (J := J) inp
  | PHandle _ e => env_ok e
  | _ => True
  end.

Lemma free_null_slots (s : Server N) k : free_slots s (replicate k None) = Ok s.
Proof. induction k; cbn; auto. Qed.

Lemma destroy_fresh h n :
  (exists k, message_queue h = replicate k None) -> exists nodes, server_handlers_destroy (fresh_server h n) = Ok (nodes, ∅).
Proof.
  intros [k Hk]. unfold server_handlers_destroy. cbn [sv_handlers fresh_server server_handlers_stop_workers].
  destruct (sh_running h); cbn [negb snd deref mbind res_bind message_queue with_sh_running];
    rewrite Hk, free_null_slots; cbn; eauto.
Qed.

Lemma callback_all_closed now (s : WSServer (Server N)) cs w :
  disconnect_cb s = None -> callback_all now s cs LWS_CALLBACK_CLOSED w = Ok (s, w).
Proof. intros H. revert w. induction cs as [|c cs IH]; intros w; cbn; [reflexivity |]. rewrite H. cbn. apply IH. Qed.

Lemma ws_destroy_quiet now cs (s : WSServer (Server N)) w :
  disconnect_cb s = None -> ws_server_destroy now cs (Some s) w = Ok w.
Proof.
  intros H. unfold ws_server_destroy. destruct (ws_running s) eqn:Hr; cbn [ws_server_stop negb]; rewrite ?Hr; cbn [negb deref mbind res_bind];
    now rewrite callback_all_closed.
Qed.

(** An accepted message moves the tail of the queue. *)
Lemma accepted_moves_tail e (s : Server N) q c text r s' :
  queue_rep s q -> server_handlers_process_message e s c (Some text) = Ok (r, s') ->
  (queue_tail (sv_handlers s') =? queue_tail (sv_handlers s))%Z = negb (r =? 0)%Z.
Proof.
  intros Hq E. destruct (e_alloc e AllocMessage) eqn:Ha.
  2: { rewrite (enqueue_no_memory e _ q c text Hq Ha) in E. injection E as <- <-. apply Z.eqb_refl. }
  pose proof (enqueue_refines e s q c text Hq Ha) as H.
  destruct (Z.eqb_spec (Z.of_nat (length q)) (queue_size (sv_handlers s) - 1)) as [|Hfull].
  { rewrite H in E. injection E as <- <-. apply Z.eqb_refl. }
  destruct H as (s1 & l & E1 & Hq1 & _ & Es & _ & _ & Eh & _). rewrite E1 in E. injection E as <- <-. cbn [Z.eqb negb].
  destruct Hq as (Hn & _ & _ & Hh & Ht & Hl & _). destruct Hq1 as (_ & _ & _ & _ & Ht1 & _).
  rewrite Ht1, Ht, Es, Eh, length_app. cbn [length]. apply Z.eqb_neq.
  set (n := queue_size (sv_handlers s)) in *. set (h := queue_head (sv_handlers s)) in *. set (k := Z.of_nat (length q)) in *.
  replace (h + Z.of_nat (length q + 1))%Z with (h + k + 1)%Z by lia. intros D.
  assert (H1 : (1 mod n = 0)%Z).
  { replace 1%Z with ((h + k + 1) - (h + k))%Z by lia. rewrite Zminus_mod, D, Z.sub_diag. apply Z.mod_0_l. lia. }
  rewrite Z.mod_1_l in H1 by lia. discriminate H1.
Qed.

(** A message handed to the callback is an arrival at the pool. *)
Lemma net_step e now (ws : WSServer (Server N)) c reason inp woken (pool : Pool N) q took :
  pool_ok pool q -> pool_inv no_books (well_formed (J := J)) pool -> slots_after took (p_server pool) q ->
  only_messages ws (message_handler_wrapper e) -> well_formed (J := J) inp ->
  (reason = LWS_CALLBACK_RECEIVE -> locked (p_workers pool) = false) ->
  exists ws' s' q', WsServer.callback_trading now ws c reason inp (p_server pool) = Ok (0%Z, ws', s') /\
    let pool' := mkPool s' (notified woken pool s') (p_stopper pool) in
    pool_ok pool' q' /\ pool_inv no_books (well_formed (J := J)) pool' /\ slots_after took s' q' /\
    only_messages ws' (message_handler_wrapper e).
Proof.
  intros Hp Hi Hs Hm Ht Hlk. destruct (decide (reason = LWS_CALLBACK_RECEIVE)) as [->|Hr].
  - destruct (promised_step pool q (EvArrive e inp (Some c) woken) Hp Hi Ht) as [E|(o & p' & q' & E & Hp' & (_ & _ & A) & Hi')];
      cbn [pool_step] in E; rewrite (Hlk eq_refl) in E; apply bind_ok in E as ([r s'] & E & E'); [discriminate E' |].
    pose proof Hm as (_ & _ & Hcb). cbn [WsServer.callback_trading]. rewrite Hcb.
    unfold message_handler_wrapper at 1. rewrite E. cbn [fmap res_fmap mbind res_bind snd].
    exists ws, s', q'. split; [reflexivity |]. cbv zeta. unfold notified. rewrite (accepted_moves_tail e _ q _ _ r s' (proj1 Hp) E).
    specialize (A took Hs). destruct (r =? 0)%Z; cbn [negb]; injection E' as <- <-; cbn in A; rewrite orb_false_r in A; auto.
  - assert (Hd : deliver (message_handler_wrapper e) (user_data ws) (received [SvLws now c reason inp]) (p_server pool) =
      Ok (p_server pool)) by (destruct reason; try reflexivity; contradiction).
    destruct (callback_trading_messages _ now ws c reason inp _ _ Hm Hd) as (ws' & E & Hm' & _).
    exists ws', (p_server pool), q. split; [exact E |]. cbv zeta. unfold notified. rewrite Z.eqb_refl.
    assert (mkPool (p_server pool) (p_workers pool) (p_stopper pool) = pool) as -> by now destruct pool. auto.
Qed.

(** A step of the pool as a step of the program. *)
Lemma after_pool_ok e p q took (r : res (option (pool_out * Pool N))) :
  program_ok e p q took ->
  r = Ok None \/ (exists o pool q', r = Ok (Some (o, pool)) /\ pool_ok pool q' /\ accounts (sp_pool p) q o pool q' /\
    pool_inv no_books (well_formed (J := J)) pool) ->
  exists os p' q', after_pool p <$> r = Ok (os, p') /\ program_ok e p' q' (took || existsb took_one os).
Proof.
  intros Hok [-> |(o & pool & q' & -> & Hp & (_ & _ & A) & Hi)]; cbn [fmap res_fmap after_pool].
  - exists [], p, q. cbn [existsb]. rewrite orb_false_r. auto.
  - destruct Hok as (_ & _ & Hs & Hm & Es & Em & El). exists [o], (with_pool p pool), q'. split; [reflexivity |].
    unfold program_ok. cbn [with_pool sp_pool sp_ws sp_sessions sp_market sp_live existsb]. rewrite orb_false_r. split_and!; auto; apply Hi.
Qed.

Lemma program_step_ok e p q took ev :
  program_ok e p q took -> program_event_ok ev ->
  exists os p' q', program_step p ev = Ok (os, p') /\ program_ok e p' q' (took || existsb took_one os).
Proof.
  intros Hok He. pose proof Hok as (Hp & Hi & Hs & Hm & Es & (r & Em) & El).
  assert (Hsame : program_ok e p q (took || existsb took_one [])) by now rewrite orb_false_r.
  destruct ev as [now clock| |now c reason inp woken|ev|i e'|alloc_ok]; cbn [program_step].
  - destruct (sp_running p); cbn [negb]; [|eauto]. rewrite Es. cbn [main_turn].
    eexists _, _, q. split; [reflexivity |]. unfold program_ok. cbn [existsb]. rewrite orb_false_r. split_and!; eauto; apply Hi.
  - eexists _, _, q. split; [reflexivity |]. exact Hsame.
  - destruct (ws_running (sp_ws p)); cbn [negb orb]; [|eauto]. destruct (must_wait p reason) eqn:Hw; [eauto |].
    destruct (net_step e now (sp_ws p) c reason inp woken (sp_pool p) q took Hp Hi Hs Hm He) as (ws' & s' & q' & -> & H1 & H2 & H3 & H4).
    { intros ->. exact Hw. }
    cbn [mbind res_bind]. eexists _, _, q'. split; [reflexivity |]. unfold program_ok. cbn [existsb]. rewrite orb_false_r.
    split_and!; eauto; apply H2.
  - destruct (working ev) eqn:Hw; cbn [negb]; [|eauto]. apply (after_pool_ok e p q took); [exact Hok |].
    apply (promised_step (sp_pool p) q ev Hp Hi). destruct ev; try discriminate Hw; exact I.
  - apply (after_pool_ok e p q took); [exact Hok |]. apply (promised_handle (sp_pool p) q e' i Hp Hi He).
  - rewrite Em. destruct r; cbn; eauto.
Qed.

Lemma program_run_ok e p q took evs :
  program_ok e p q took -> Forall program_event_ok evs ->
  exists os p' q', program_run p evs = Ok (os, p') /\ program_ok e p' q' (took || existsb took_one os).
Proof.
  intros Hp HF. revert p q took Hp. induction HF as [|ev evs He _ IH]; intros p q took Hp; cbn [program_run].
  { exists [], p, q. cbn [existsb]. now rewrite orb_false_r. }
  destruct (program_step_ok e p q took ev Hp He) as (os & p1 & q1 & -> & H1). cbn [mbind res_bind].
  destruct (IH p1 q1 _ H1) as (os' & p' & q' & -> & H'). cbn [mbind res_bind].
  exists (os ++ os'), p', q'. now rewrite existsb_app, orb_assoc.
Qed.

(** The program just started. *)
Definition start_ok (f : start_flags) : bool :=
  sf_ws f && sf_context f && sf_handlers f && sf_queues f && sf_sessions f && sf_market f && sf_service f.

Definition started_handlers (running : bool) : ServerHandlers :=
  mkServerHandlers 4 running (replicate 1000 None) (replicate 1000 None) 1000 0 0
    (replicate MAX_SYMBOLS None) (replicate MAX_SYMBOLS (zero_buffer 16)) 0 None.
Definition started_ws (e : Env) (handlers : loc) : WSServer (Server N) :=
  mkWSServer ws_config None None (Some (message_handler_wrapper e)) (Some handlers) true None ∅.
Definition started_program (e : Env) (handlers : loc) (n : N) (threads : nat) (running timer : bool) : ServerProgram :=
  mkServerProgram true (started_ws e handlers) (mkPool (fresh_server (started_handlers running) n) (replicate threads WLoop) NotStopping)
    idle_sessions (idle_market timer) [TheMarket; TheSessions; TheHandlers; TheServer].

Lemma server_start_runs f e now handlers n :
  start_ok f = true ->
  let '(threads, all) := create_threads (sf_workers f) 0 4 in
  server_start f e now handlers n = Ok (StartRuns (started_program e handlers n threads all (sf_timer f))).
Proof.
  destruct f as [[] [] [] [] [] [] [] w t]; cbn [start_ok sf_ws sf_context sf_handlers sf_queues sf_sessions sf_market
    sf_service sf_workers sf_timer andb]; intros [=].
  unfold server_start. cbn [sf_ws sf_context sf_handlers sf_queues sf_sessions sf_market sf_service sf_workers sf_timer
    ws_server_create negb server_handlers_create created ws_server_set_message_callback fmap option_fmap option_map deref mbind res_bind
    session_manager_create market_data_create ws_server_start Z.eqb server_handlers_start_workers sh_running sh_thread_count
    hc_thread_pool_size main_config]. change (Z.to_nat 4) with 4%nat.
  destruct (create_threads w 0 4) as [threads []]; destruct t; reflexivity.
Qed.

Lemma started_program_ok e handlers n threads running timer : program_ok e (started_program e handlers n threads running timer) [] false.
Proof.
  assert (Hn : forall (B : Type) (f : worker -> option B), f WLoop = None -> omap f (replicate threads WLoop) = [])
    by (intros B f Hf; induction threads; cbn; [reflexivity | now rewrite Hf]).
  unfold program_ok, pool_ok, pool_inv. cbn [started_program sp_pool sp_ws sp_sessions sp_market sp_live p_server p_workers].
  rewrite (Hn _ held eq_refl). split_and!; try reflexivity.
  - unfold queue_rep. cbn [sv_handlers fresh_server started_handlers queue_size message_queue client_queue queue_head queue_tail length].
    rewrite !length_replicate. split_and!; try reflexivity; try lia; [constructor | intros i x [=]].
  - exact NoDup_nil_2.
  - intros l. cbn. split; [intros H; now apply not_elem_of_nil in H | intros [x [=]]].
  - now split.
  - apply map_Forall_empty.
  - intros i Hi. apply lookup_replicate_2. exact (slot_lt (started_handlers running) i eq_refl).
  - now split_and!.
  - now exists timer.
Qed.

(** Workers that have ended do nothing more. *)
Lemma exited_workers p : all_exited p = true <-> Forall (fun w => w = WExited) (p_workers (sp_pool p)).
Proof.
  unfold all_exited. rewrite forallb_forall, Forall_forall. split; intros H w Hw.
  - apply list_elem_of_In in Hw. specialize (H w Hw). now destruct w.
  - apply list_elem_of_In in Hw. now rewrite (H w Hw).
Qed.

Lemma exited_step p ev os p' : all_exited p = true -> program_step p ev = Ok (os, p') -> os = [] /\ all_exited p' = true.
Proof.
  intros Hx E. pose proof (proj1 (exited_workers p) Hx) as HF.
  assert (Hw : forall i w, p_workers (sp_pool p) !! i = Some w -> w = WExited) by (rewrite Forall_lookup in HF; exact HF).
  assert (Hna : WAsleep ∉ p_workers (sp_pool p)) by (rewrite Forall_forall in HF; intros H; now apply HF in H).
  assert (Hnone : forall r : res (option (pool_out * Pool N)), r = Ok None -> after_pool p <$> r = Ok (os, p') -> os = [] /\ all_exited p' = true)
    by (intros r ->; cbn; now intros [= <- <-]).
  destruct ev as [now clock| |now c reason inp woken|ev|i e|alloc_ok]; cbn [program_step] in E.
  - destruct (negb _); [|apply bind_ok in E as (m & _ & E); apply bind_ok in E as (m' & _ & E)]; now injection E as <- <-.
  - now injection E as <- <-.
  - destruct (_ || _); [|apply bind_ok in E as ([[r ws] s] & _ & E)]; injection E as <- <-; [auto |]. split; [reflexivity |].
    apply exited_workers. cbn [sp_pool p_workers]. unfold notified. destruct (_ =? _)%Z; [exact HF |].
    now rewrite (roused_awake _ _ (cond_signal_roused woken _) Hna).
  - destruct (working ev) eqn:Hk; cbn [negb] in E; [|now injection E as <- <-]. apply (Hnone _) in E; [exact E |].
    destruct ev as [e text c woken|i|i|i|i|i d|i|i| |]; try discriminate Hk; cbn [pool_step];
      destruct (p_workers (sp_pool p) !! i) eqn:Hi; try reflexivity; now rewrite (Hw _ _ Hi).
  - apply (Hnone _) in E; [exact E |]. unfold handle_alone. destruct (p_workers (sp_pool p) !! i) eqn:Hi; try reflexivity; now rewrite (Hw _ _ Hi).
  - destruct (negb _); [|apply bind_ok in E as (m & _ & E)]; now injection E as <- <-.
Qed.

Lemma exited_run p evs os p' : all_exited p = true -> program_run p evs = Ok (os, p') -> os = [] /\ all_exited p' = true.
Proof.
  revert p os. induction evs as [|ev evs IH]; intros p os Hx E; cbn [program_run] in E; [now injection E as <- <- |].
  apply bind_ok in E as ([os1 p1] & E1 & E). apply bind_ok in E as ([os2 p2] & E2 & E). injection E as <- <-.
  destruct (exited_step p ev os1 p1 Hx E1) as [-> Hx1]. now apply (IH p1).
Qed.

Lemma stop_program_ok e p q took between :
  program_ok e p q took -> Forall program_event_ok between ->
  exists os p' q', stop_program between p = Ok (os, p') /\ program_ok e p' q' (took || existsb took_one os).
Proof.
  intros (Hp & Hi & Hs & Hm & Es & (r & Em) & El) HF. unfold stop_program. rewrite Em.
  assert (Emk : snd (market_data_stop_snapshot_timer (Some (idle_market r))) = Some (idle_market false)) by now destruct r.
  rewrite Emk. cbn [deref mbind res_bind sp_pool sp_running sp_ws sp_sessions sp_live server_handlers_stop_workers].
  set (p0 := mkServerProgram _ _ _ _ _ _).
  assert (H0 : program_ok e p0 q took) by (split_and!; eauto; apply Hi).
  destruct (sh_running (sv_handlers (p_server (sp_pool p)))) eqn:Hr; cbn [negb Z.eqb deref mbind res_bind].
  2: { exact (program_run_ok e p0 q took between H0 HF). }
  set (p1 := with_pool p0 _).
  assert (H1 : program_ok e p1 q took).
  { destruct Hp as (A1 & A2 & A3 & A4). destruct Hi as [[I1 I2] I3]. unfold program_ok, pool_ok, pool_inv. cbn. split_and!; eauto. now split. }
  destruct (program_run_ok e p1 q took between H1 HF) as (os & p2 & q2 & E & (B1 & B2 & B3 & B4 & B5 & B6 & B7)).
  rewrite E. cbn [mbind res_bind]. eexists os, _, q2. split; [reflexivity |].
  destruct (broadcast_pool_ok (sp_pool p2) q2 B1) as [B1' _]. split_and!; auto; apply B2.
Qed.

(** Destroying the program when its workers have ended. *)
Lemma destroy_program_spec e now closed p q took :
  program_ok e p q took -> all_exited p = true ->
  destroy_program now closed p = if took then UB DoubleFree else Ok (EXIT_SUCCESS, []).
Proof.
  intros (Hp & _ & Hs & Hm & Es & _ & El) Hx%exited_workers. unfold destroy_program. rewrite Es, El.
  cbn [session_manager_destroy sessions idle_sessions destroy_sessions mbind res_bind].
  assert (Hlive : forall l, l ∈ q_loc <$> q <-> is_Some (sv_msgs (p_server (sp_pool p)) !! l)).
  { apply idle_workers; [exact Hp |]. eapply Forall_impl; [exact Hx | auto]. }
  pose proof (destroy_spec took (p_server (sp_pool p)) q (proj1 Hp) Hlive Hs) as Hd.
  destruct took; [now rewrite Hd | destruct Hd as [nodes ->]]. cbn [mbind res_bind].
  rewrite ws_destroy_quiet by apply Hm. reflexivity.
Qed.

(** ** Properties *)

(** C38: how [main] of the server starts, on every combination of failures, the threads it
    starts taking no turn before it is done.  Whichever creation fails, it destroys every
    component it has created, each once and without fault, and ends with [EXIT_FAILURE] and
    nothing left.  If every creation and the service thread succeed it runs with its four
    components alive, the service thread running, the message callback registered and the
    workers that could be created at the test of their loop, whose flag is set exactly if all
    were created: neither a missing worker nor a missing snapshot timer is noticed. *)
Theorem server_start_cleans_up f e now handlers n :
  if start_ok f
  then exists p, server_start f e now handlers n = Ok (StartRuns p) /\ sp_running p = true /\
    sp_live p = [TheMarket; TheSessions; TheHandlers; TheServer] /\
    ws_running (sp_ws p) = true /\ message_cb (sp_ws p) = Some (message_handler_wrapper e) /\ user_data (sp_ws p) = Some handlers /\
    p_workers (sp_pool p) = replicate (fst (create_threads (sf_workers f) 0 4)) WLoop /\
    pool_running (sp_pool p) = forallb (sf_workers f) (seq 0 4) /\ md_running (sp_market p) = sf_timer f
  else server_start f e now handlers n = Ok (StartExits EXIT_FAILURE []).
Proof.
  destruct (start_ok f) eqn:Hok.
  - pose proof (server_start_runs f e now handlers n Hok) as E. destruct (create_threads (sf_workers f) 0 4) as [threads all] eqn:Et.
    exists (started_program e handlers n threads all (sf_timer f)). rewrite E. split_and!; try reflexivity.
    cbn [started_program sp_pool pool_running p_server fresh_server sv_handlers started_handlers sh_running forallb seq].
    cbn [create_threads] in Et. repeat case_match; now injection Et as <- <-.
  - clear -Hok. destruct f as [[] [] [] [] [] [] [] w t]; try discriminate Hok; vm_compute; reflexivity.
Qed.

(** The server program as [main] configures it serves no orders: whatever messages
    arrive and however its threads interleave, it does not run into undefined behaviour on
    well-formed messages, but it never has an order book, never has a session and never a
    market symbol, because no broadcaster is configured and neither the session manager
    nor the market data is connected to anything. *)
Theorem server_program_stays_empty f e now handlers n evs :
  start_ok f = true -> Forall program_event_ok evs ->
  exists p os p', server_start f e now handlers n = Ok (StartRuns p) /\ program_run p evs = Ok (os, p') /\
    book_count (sv_handlers (p_server (sp_pool p'))) = 0%nat /\ sessions (sp_sessions p') = [] /\ md_count (sp_market p') = 0%nat.
Proof.
  intros Hf HF. pose proof (server_start_runs f e now handlers n Hf) as E. destruct (create_threads _ 0 4) as [threads all].
  destruct (program_run_ok e _ [] false evs (started_program_ok e handlers n threads all (sf_timer f)) HF)
    as (os & p' & q' & E' & _ & Hi & _ & _ & Es & (r & Em) & _).
  eexists _, os, p'. rewrite Es, Em. split_and!; eauto. apply Hi.
Qed.

(** C34: the server program never exits cleanly once it has served a message: after any run
    of its threads, and once the workers have ended, the shutdown destroys the components
    without fault, leaves none of them and exits with [EXIT_SUCCESS] exactly if no worker
    ever took a message from the queue; otherwise it frees a message a second time.  Messages
    still queued do not matter, nor do those that arrive while the program shuts down. *)
Theorem server_exit_clean_iff_idle f e now handlers n evs between joining ending closed :
  start_ok f = true -> Forall program_event_ok evs -> Forall program_event_ok between ->
  Forall program_event_ok joining -> Forall program_event_ok ending ->
  exists p os p1 os0 p1' os1 p2, server_start f e now handlers n = Ok (StartRuns p) /\ program_run p evs = Ok (os, p1) /\
    stop_program between p1 = Ok (os0, p1') /\ program_run p1' joining = Ok (os1, p2) /\
    (all_exited p2 = true ->
     server_shutdown now between joining ending closed p1 =
     if existsb took_one (os ++ os0 ++ os1) then UB DoubleFree else Ok (os0 ++ os1, Some (EXIT_SUCCESS, []))).
Proof.
  intros Hf F1 F0 F2 F3. pose proof (server_start_runs f e now handlers n Hf) as E. destruct (create_threads _ 0 4) as [threads all].
  set (p := started_program _ _ _ _ _ _) in E.
  destruct (program_run_ok e p [] false evs (started_program_ok _ _ _ _ _ _) F1) as (os & p1 & q1 & E1 & Hp1).
  destruct (stop_program_ok e p1 q1 _ between Hp1 F0) as (os0 & p1' & q1' & E1' & Hp1').
  destruct (program_run_ok e p1' q1' _ joining Hp1' F2) as (os1 & p2 & q2 & E2 & Hp2).
  destruct (program_run_ok e p2 q2 _ ending Hp2 F3) as (os2 & p3 & q3 & E3 & Hp3).
  exists p, os, p1, os0, p1', os1, p2. split_and!; auto. intros Hx. destruct (exited_run p2 ending os2 p3 Hx E3) as [-> Hx3].
  unfold server_shutdown. rewrite E1'. cbn [mbind res_bind]. rewrite E2. cbn [mbind res_bind]. rewrite Hx, andb_false_r, E3. cbn [mbind res_bind].
  cbn [existsb orb] in Hp3. rewrite orb_false_r in Hp3. rewrite !existsb_app, app_nil_r, orb_assoc.
  set (took := existsb took_one os || existsb took_one os0 || existsb took_one os1) in *. clearbody took.
  assert (Hws : exists ws, ws_server_stop (Some (sp_ws p3)) = Some ws /\ only_messages ws (message_handler_wrapper e))
    by (cbn; destruct (negb _); eexists; (split; [reflexivity |]); apply Hp3).
  destruct Hws as (ws & -> & Hm). cbn [deref mbind res_bind].
  rewrite (destroy_program_spec e now closed _ q3 took); [now destruct took | | exact Hx3].
  destruct Hp3 as (H1 & H2 & H3 & _ & H5). now split_and!.
Qed.

End ServerApp.

Arguments ServerProgram N : clear implicits.

(** ** Lemmas *)

(** A session pinged at most [k] seconds before [now]. *)
Definition recent (now k : Z) (s : ClientSession) : Prop := (0 <= now - last_ping_time s <= k)%Z.

(** Clock readings of a loop that is never held up for more than [k] seconds: each
    clean-up comes at most [k] seconds after the pings of the turn before. *)
Fixpoint prompt_turns (k : Z) (turns : list (Z * (nat -> Z))) : Prop :=
  match turns with
  | (now, clock) :: (((now', _) :: _) as rest) => (forall i, 0 <= now' - clock i <= k)%Z /\ prompt_turns k rest
  | _ => True
  end.

Lemma recent_kept now k timeout ss :
  (k * 1000 <= timeout)%Z -> Forall (recent now k) ss ->
  List.filter (fun s => negb (expired now timeout s)) ss = ss.
Proof.
  intros Hk HF. induction HF as [|s ss Hs _ IH]; cbn; [reflexivity |]. unfold recent, expired in *.
  destruct (Z.ltb_spec timeout ((now - last_ping_time s) * 1000)); [lia |]. cbn. now rewrite IH.
Qed.

Lemma recent_clock_ok now k s : (0 <= k <= INT_MAX)%Z -> recent now k s -> clock_ok now s.
Proof. unfold recent, clock_ok, in_int64, INT64_MIN, INT64_MAX, INT_MAX. lia. Qed.

Lemma imap_Forall (P : ClientSession -> Prop) (f : nat -> ClientSession -> ClientSession) ss :
  (forall i s, P (f i s)) -> Forall P (imap f ss).
Proof. revert f. induction ss as [|s ss IH]; intros f Hf; cbn; constructor; [apply Hf | apply IH; intros; apply Hf]. Qed.

(** ** Properties *)

(** The main loop never drops a session: it pings every session itself right after
    each clean-up, so as long as no turn is held up beyond the timeout, every client
    stays in the manager with its subscriptions, however long it has been silent. *)
Theorem main_loop_keeps_sessions k turns m :
  sessions_wf m -> (0 <= k <= INT_MAX)%Z -> (k * 1000 <= session_timeout_ms m)%Z ->
  match turns with (now, _) :: _ => Forall (recent now k) (sessions m) | [] => True end -> prompt_turns k turns ->
  exists m', main_loop turns (Some m) = Ok (Some m') /\ sessions_wf m' /\
    (cs_client <$> sessions m') = (cs_client <$> sessions m) /\
    (symbols_of <$> sessions m') = (symbols_of <$> sessions m).
Proof.
  revert m. induction turns as [|[now clock] turns IH]; intros m Hwf Hk Ht Hr Hp; [cbn; eauto |].
  cbn [main_loop]. unfold main_turn.
  destruct (cleanup_spec now m Hwf) as (m1 & E1 & Hwf1 & S1); [eapply Forall_impl; eauto using recent_clock_ok |].
  assert (T1 : session_timeout_ms m1 = session_timeout_ms m).
  { cbn [session_manager_cleanup_sessions] in E1. apply bind_ok in E1 as (? & _ & E1). repeat case_match; simplify_eq; reflexivity. }
  rewrite (recent_kept now k (session_timeout_ms m)) in S1 by assumption. rewrite E1. cbn [mbind res_bind].
  destruct (ping_spec clock m1 Hwf1) as (m2 & E2 & Hwf2 & C2 & Y2). rewrite E2.
  assert (T2 : session_timeout_ms m2 = session_timeout_ms m1 /\
    sessions m2 = imap (fun i s => mkClientSession (cs_client s) (subscribed_symbols s) (subscription_count s) (clock i)) (sessions m1))
    by (injection E2 as <-; split; reflexivity). destruct T2 as [T2 S2].
  destruct (IH m2 Hwf2 Hk) as (m3 & E3 & Hwf3 & C3 & Y3).
  - congruence.
  - destruct turns as [|[now' clock'] turns]; [exact I |]. rewrite S2. apply imap_Forall. intros i s. apply Hp.
  - destruct turns as [|[now' clock'] turns]; [exact I | apply Hp].
  - exists m3. rewrite C3, Y3, C2, Y2, S1. auto.
Qed.

(** The sample manager, pinged at most two seconds before the first of three turns. *)
Definition sample_turns : list (Z * (nat -> Z)) :=
  [(1700000001, fun _ => 1700000001); (1700000002, fun _ => 1700000002); (1700000032, fun _ => 1700000032)]%Z.

Definition pinged_manager : SessionManager :=
  with_sessions sample_manager
    ((fun s => mkClientSession (cs_client s) (subscribed_symbols s) (subscription_count s) 1700000000) <$> sessions sample_manager)
    (session_count sample_manager).

Lemma main_loop_keeps_sessions_witness :
  exists m', main_loop sample_turns (Some pinged_manager) = Ok (Some m') /\ sessions_wf m' /\
    (cs_client <$> sessions m') = (cs_client <$> sessions pinged_manager) /\
    (symbols_of <$> sessions m') = (symbols_of <$> sessions pinged_manager).
Proof.
  refine (main_loop_keeps_sessions 30 sample_turns pinged_manager _ _ _ _ _).
  - destruct (ping_spec (fun _ => 1700000000%Z) sample_manager sample_manager_wf) as (m' & E & Hwf & _).
    injection E as <-. exact Hwf.
  - unfold INT_MAX. lia.
  - vm_compute. discriminate.
  - repeat apply Forall_cons_2; try apply Forall_nil_2; split; vm_compute; discriminate.
  - cbn. split_and!; auto; intros; lia.
Defined.

Import RefJson.

Definition all_started : start_flags := mkStartFlags true true true true true true true (fun _ => true) true.

Lemma m_well_formed : well_formed (J := jvalue) "m"%string.
Proof. exists []. intros root Hp. discriminate Hp. Qed.

(** A worker holds the mutex, having found the queue empty, when a message is received: the
    service thread has to try again.  Its signal then wakes the worker, which serves the
    message; after a turn of the main loop a signal ends the program. *)
Definition short_day : list (program_event (N := text_world)) :=
  [PWork (EvLoop 0); PWork (EvLock 0); PNet 0 1%positive LWS_CALLBACK_ESTABLISHED "m" 0;
   PNet 0 1%positive LWS_CALLBACK_RECEIVE "m" 0; PWork (EvWait 0); PNet 0 1%positive LWS_CALLBACK_RECEIVE "m" 0;
   PWork (EvLock 0); PHandle 0 ok_env; PWork (EvFree 0);
   PTurn 1700000001 (fun _ => 1700000001%Z); PSnapshot (fun _ => true); PSignal]%string.

Definition last_steps : list (program_event (N := text_world)) := PWork <$> [EvLoop 0; EvLoop 1; EvLoop 2; EvLoop 3].

Lemma short_day_ok : Forall (program_event_ok (J := jvalue)) short_day.
Proof.
  repeat apply Forall_cons_2; try apply Forall_nil_2; cbn [program_event_ok];
    first [exact I | exact m_well_formed | exact ok_env_ok].
Qed.

Lemma last_steps_ok : Forall (program_event_ok (J := jvalue)) last_steps.
Proof. repeat constructor. Qed.

(** A failing session manager: the handlers and the server are destroyed again. *)
Lemma server_start_cleans_up_witness :
  server_start (mkStartFlags true true true true false true true (fun _ => true) true) ok_env 0 1%positive ([] : text_world) =
  Ok (StartExits EXIT_FAILURE []).
Proof.
  exact (server_start_cleans_up (mkStartFlags true true true true false true true (fun _ => true) true) ok_env 0 1%positive
    ([] : text_world)).
Defined.

Lemma server_program_stays_empty_witness :
  exists p os p', server_start all_started ok_env 0 1%positive ([] : text_world) = Ok (StartRuns p) /\
    program_run (J := jvalue) p short_day = Ok (os, p') /\
    book_count (sv_handlers (p_server (sp_pool p'))) = 0%nat /\ sessions (sp_sessions p') = [] /\ md_count (sp_market p') = 0%nat.
Proof. exact (server_program_stays_empty (J := jvalue) all_started ok_env 0 1%positive [] short_day eq_refl short_day_ok). Defined.

(** One message served: the shutdown frees it again. *)
Lemma server_exit_clean_iff_idle_witness :
  exists p os p1, server_start all_started ok_env 0 1%positive ([] : text_world) = Ok (StartRuns p) /\
    program_run (J := jvalue) p short_day = Ok (os, p1) /\
    server_shutdown (J := jvalue) 0 [] last_steps [] [1%positive] p1 = UB DoubleFree.
Proof.
  destruct (server_exit_clean_iff_idle (J := jvalue) all_started ok_env 0 1%positive ([] : text_world) short_day [] last_steps []
    [1%positive] eq_refl short_day_ok (List.Forall_nil _) last_steps_ok (List.Forall_nil _))
    as (p & os & p1 & os0 & p1' & os1 & p2 & E & E1 & E1' & E2 & H).
  exists p, os, p1. split; [exact E |]. split; [exact E1 |].
  assert (Hrun : match server_start all_started ok_env 0 1%positive ([] : text_world) with
    | Ok (StartRuns p) => match program_run (J := jvalue) p short_day with
      | Ok (os, p1) => match stop_program (J := jvalue) [] p1 with
        | Ok (os0, p1') => match program_run (J := jvalue) p1' last_steps with
          | Ok (os1, p2) => all_exited p2 && existsb took_one (os ++ os0 ++ os1)
          | _ => false end
        | _ => false end
      | _ => false end
    | _ => false end = true) by (vm_compute; reflexivity).
  rewrite E, E1, E1', E2 in Hrun. apply andb_true_iff in Hrun as [Hx Ht]. now rewrite (H Hx), Ht.
Defined.

(** A client that disconnects with a message in the queue. *)
Definition hasty_client : list (program_event (N := text_world)) :=
  [PNet 0 1%positive LWS_CALLBACK_ESTABLISHED "m" 0; PNet 0 1%positive LWS_CALLBACK_RECEIVE "m" 0;
   PNet 0 1%positive LWS_CALLBACK_CLOSED "m" 0; PWork (EvLoop 0); PWork (EvLock 0); PHandle 0 ok_env]%string.

(** A reply is written to a client that is gone: no callback is registered for a closed
    connection, so its queued messages keep their client pointers, and a worker that takes
    such a message afterwards answers through the connection data the library has freed. *)
Theorem reply_after_close :
  exists p os p', server_start all_started ok_env 0 1%positive ([] : text_world) = Ok (StartRuns p) /\
    program_run (J := jvalue) p hasty_client = Ok (os, p') /\
    sv_net (p_server (sp_pool p')) = [(1%positive, error_text "Invalid message format")].
Proof.
  assert (Hok : Forall (program_event_ok (J := jvalue)) hasty_client).
  { repeat apply Forall_cons_2; try apply Forall_nil_2; cbn [program_event_ok];
      first [exact I | exact m_well_formed | exact ok_env_ok]. }
  pose proof (server_start_runs all_started ok_env 0 1%positive ([] : text_world) eq_refl) as E. cbn in E.
  destruct (program_run_ok ok_env _ [] false hasty_client (started_program_ok ok_env 1%positive ([] : text_world) 4 true true) Hok)
    as (os & p' & q & E1 & _).
  eexists _, os, p'. split; [exact E |]. split; [exact E1 |].
  assert (Hnet : match program_run (J := jvalue) (started_program ok_env 1%positive ([] : text_world) 4 true true) hasty_client with
      | Ok (_, p') => sv_net (p_server (sp_pool p'))
      | _ => [] end = [(1%positive, error_text "Invalid message format")]) by (vm_compute; reflexivity).
  now rewrite E1 in Hnet.
Qed.
