(* ===== verification/ClientCommands.v ===== *)
(** * The client's commands (src/src/client/client_commands.c)

    A line typed by the user becomes a [Command] and, for orders and views, a JSON
    request.  The struct is zeroed first, so its strings are always terminated; they
    are kept as the strings they hold. *)

From Stdlib Require Import Ascii String ZArith Lia SpecFloat.
From stdpp Require Import base list numbers strings.
From S2P Require Import Prelude CDouble CString CJson Protocol JsonProtocol.

Inductive CommandType : Type :=
| CMD_BUY
| CMD_SELL
| CMD_CANCEL
| CMD_VIEW
| CMD_HELP
| CMD_QUIT
| CMD_INVALID.

Record Command : Type := mkCommand {
  cmd_type : CommandType;
  cmd_symbol : string;
  cmd_price : double;
  cmd_quantity : Z;
  cmd_order_id : string
}.

(** [Command cmd = {0}] with the type set. *)
Definition bare (t : CommandType) : Command := mkCommand t "" d_zero 0 "".

(** Space, tab and newline. *)
Definition DELIMITERS : string := String " " (String (ascii_of_nat 9) (String (ascii_of_nat 10) "")).

Definition generate_order_id (size : nat) (now : Z) : string := snprintf size ("ORD" +:+ print_int now).

Definition command_type (token : string) : CommandType :=
  if str_case_eq token "BUY" then CMD_BUY
  else if str_case_eq token "SELL" then CMD_SELL
  else if str_case_eq token "CANCEL" then CMD_CANCEL
  else if str_case_eq token "VIEW" then CMD_VIEW
  else if str_case_eq token "HELP" then CMD_HELP
  else if str_case_eq token "QUIT" then CMD_QUIT
  else CMD_INVALID.

(** Price and quantity of a buy or sell whose symbol was read. *)
Definition parse_order_tokens (now : Z) (t : CommandType) (symbol rest : string) : Command :=
  match strtok DELIMITERS rest with
  | None => mkCommand CMD_INVALID symbol d_zero 0 ""
  | Some (token, rest) =>
      let price := atof token in
      if negb (validate_price price) then mkCommand CMD_INVALID symbol price 0 ""
      else
        match strtok DELIMITERS rest with
        | None => mkCommand CMD_INVALID symbol price 0 ""
        | Some (token, _) =>
            let quantity := atoi token in
            if negb (validate_quantity quantity) then mkCommand CMD_INVALID symbol price quantity ""
            else mkCommand t symbol price quantity (generate_order_id 32 now)
        end
  end.

Definition parse_command (now : Z) (input : option string) : Command :=
  match input with
  | None => bare CMD_INVALID
  | Some input =>
      let buf := copy_str 256 input in
      match strtok DELIMITERS buf with
      | None => bare CMD_INVALID
      | Some (token, rest) =>
          match command_type token with
          | CMD_HELP => bare CMD_HELP
          | CMD_QUIT => bare CMD_QUIT
          | CMD_INVALID => bare CMD_INVALID
          | t =>
              match strtok DELIMITERS rest with
              | None => bare CMD_INVALID
              | Some (token, rest) =>
                  let symbol := copy_str 16 token in
                  match t with
                  | CMD_VIEW => mkCommand CMD_VIEW symbol d_zero 0 ""
                  | CMD_CANCEL => mkCommand CMD_CANCEL symbol d_zero 0 (copy_str 32 token)
                  | _ => parse_order_tokens now t symbol rest
                  end
              end
          end
      end
  end.

Definition is_buy_command (t : CommandType) : bool := match t with CMD_BUY => true | _ => false end.

(** ** Help *)

Definition help_eol : string := String (ascii_of_nat 10) "".

(** What [print_command_help] writes to standard output. *)
Definition print_command_help : string :=
  help_eol +:+ "Available commands:" +:+ help_eol +:+ "  BUY <symbol> <price> <quantity>" +:+ help_eol +:+
  "  SELL <symbol> <price> <quantity>" +:+ help_eol +:+ "  CANCEL <order_id>" +:+ help_eol +:+
  "  VIEW <symbol>" +:+ help_eol +:+ "  HELP" +:+ help_eol +:+ "  QUIT" +:+ help_eol +:+ help_eol.


Section Format.

Context {J : Type} `{CJ : CJson J}.

Definition format_command_as_json (cmd : Command) (trader_id : string) : option string :=
  match cJSON_CreateObject with
  | None => None
  | Some root =>
      match cmd_type cmd with
      | CMD_BUY | CMD_SELL =>
          let root := add_number_to (Some root) "type" (d_of_Z MSG_PLACE_ORDER) in
          let root := add_string_to root "order_id" (cmd_order_id cmd) in
          let root := add_string_to root "trader_id" trader_id in
          let root := add_string_to root "symbol" (cmd_symbol cmd) in
          let root := add_number_to root "price" (cmd_price cmd) in
          let root := add_number_to root "quantity" (d_of_Z (cmd_quantity cmd)) in
          let root := add_bool_to root "is_buy" (is_buy_command (cmd_type cmd)) in
          print_node root
      | CMD_VIEW =>
          let root := add_number_to (Some root) "type" (d_of_Z MSG_REQUEST_BOOK) in
          let root := add_string_to root "symbol" (cmd_symbol cmd) in
          print_node root
      | _ => None
      end
  end.

(** ** The requests as JSON values *)

Definition place_fields (cmd : Command) (trader_id : string) : list (string * jvalue) :=
  ("type"%string, JNum (d_of_Z MSG_PLACE_ORDER)) ::
  order_fields (cmd_order_id cmd) trader_id (cmd_symbol cmd) (cmd_price cmd) (cmd_quantity cmd)
    (is_buy_command (cmd_type cmd)).

Context `{CL : !CJsonLaws J}.

Lemma format_order_json cmd trader_id :
  cmd_type cmd = CMD_BUY \/ cmd_type cmd = CMD_SELL ->
  exists j, format_command_as_json cmd trader_id = print_node (Some j) /\ repr j (JObj (place_fields cmd trader_id)).
Proof.
  intros Ht. destruct create_object as (r & Hr & R). unfold format_command_as_json. rewrite Hr.
  apply (add_number _ _ "type" (d_of_Z MSG_PLACE_ORDER)) in R. apply (add_string _ _ "order_id" (cmd_order_id cmd)) in R.
  apply (add_string _ _ "trader_id" trader_id) in R. apply (add_string _ _ "symbol" (cmd_symbol cmd)) in R.
  apply (add_number _ _ "price" (cmd_price cmd)) in R. apply (add_number _ _ "quantity" (d_of_Z (cmd_quantity cmd))) in R.
  apply (add_bool _ _ "is_buy" (is_buy_command (cmd_type cmd))) in R.
  destruct Ht as [Ht|Ht]; rewrite Ht in *; eexists; (split; [reflexivity |]); unfold place_fields; rewrite Ht; exact R.
Qed.

(** What the server reads from the request of an order command. *)
Lemma order_request_parses cmd trader_id dst :
  cmd_type cmd = CMD_BUY \/ cmd_type cmd = CMD_SELL ->
  num_exact (cmd_price cmd) -> in_int (cmd_quantity cmd) ->
  nul_free (cmd_order_id cmd) = true -> nul_free trader_id = true -> nul_free (cmd_symbol cmd) = true ->
  (strlen (cmd_order_id cmd) < length (om_order_id dst) - 1)%nat ->
  (strlen trader_id < length (om_trader_id dst) - 1)%nat ->
  (strlen (cmd_symbol cmd) < length (om_symbol dst) - 1)%nat ->
  exists text m, format_command_as_json cmd trader_id = Some text /\
    parse_base_message (J := J) (Some text) = Some MSG_PLACE_ORDER /\
    parse_order_message (J := J) (Some text) (Some dst) = Ok (true, Some m) /\
    c_str (om_order_id m) = Ok (cmd_order_id cmd) /\ c_str (om_trader_id m) = Ok trader_id /\
    c_str (om_symbol m) = Ok (cmd_symbol cmd) /\ om_price m = cmd_price cmd /\
    om_quantity m = cmd_quantity cmd /\ om_is_buy m = is_buy_command (cmd_type cmd).
Proof.
  intros Ht Hx Hq N1 N2 N3 L1 L2 L3. destruct (format_order_json cmd trader_id Ht) as (j & -> & Hj).
  assert (Hone : in_int MSG_PLACE_ORDER) by (split; vm_compute; discriminate).
  destruct (parse_printed j _ Hj) as (text & j' & -> & Hp & Hj').
  { cbn [jnumbers place_fields order_fields]. split_and!; auto using num_exact_int. }
  exists text. erewrite parse_order_members; [|exact Hp | exact Hj' | repeat split | exact Hq].
  eexists. split; [reflexivity |]. split.
  - cbn [parse_base_message]. rewrite Hp.
    destruct (get_found _ _ "type" (JNum (d_of_Z MSG_PLACE_ORDER)) Hj' eq_refl) as (i & -> & Hi).
    now rewrite (is_number _ _ Hi), (value_int _ _ Hi Hone).
  - split; [reflexivity |]. cbn [om_order_id om_trader_id om_symbol om_price om_quantity om_is_buy].
    split_and!; auto using c_str_copied.
Qed.

(** The line of an order: four words separated by spaces. *)
Definition order_line_text (side symbol price quantity : string) : string :=
  side +:+ String " " (symbol +:+ String " " (price +:+ String " " quantity)).

Lemma parse_order_words now side symbol price quantity t :
  word DELIMITERS side -> word DELIMITERS symbol -> word DELIMITERS price -> word DELIMITERS quantity ->
  command_type side = t -> t = CMD_BUY \/ t = CMD_SELL ->
  (strlen (order_line_text side symbol price quantity) < 256)%nat -> (strlen symbol < 16)%nat ->
  validate_price (atof price) = true -> validate_quantity (atoi quantity) = true ->
  parse_command now (Some (order_line_text side symbol price quantity)) =
  mkCommand t symbol (atof price) (atoi quantity) (generate_order_id 32 now).
Proof.
  intros W1 W2 W3 W4 Ht Hbs Hl Hs Vp Vq. unfold parse_command. rewrite copy_str_short by exact Hl.
  unfold order_line_text. rewrite (strtok_word DELIMITERS side " " _ W1 eq_refl), Ht.
  rewrite (strtok_word DELIMITERS symbol " " _ W2 eq_refl), (copy_str_short 16 symbol Hs).
  unfold parse_order_tokens. rewrite (strtok_word DELIMITERS price " " _ W3 eq_refl), Vp, (strtok_last DELIMITERS quantity W4), Vq.
  destruct Hbs as [-> | ->]; reflexivity.
Qed.

(** ** Properties *)

(** An order command reaches the server as it was given: the request formatted for a
    buy or sell is typed as a place-order message, and the server's parser reads from it
    the command's order id, symbol, price, quantity and side and the client's trader id,
    whatever its struct held. *)
Theorem command_reaches_server cmd trader_id dst :
  cmd_type cmd = CMD_BUY \/ cmd_type cmd = CMD_SELL ->
  num_exact (cmd_price cmd) -> in_int (cmd_quantity cmd) ->
  nul_free (cmd_order_id cmd) = true -> nul_free trader_id = true -> nul_free (cmd_symbol cmd) = true ->
  (strlen (cmd_order_id cmd) < length (om_order_id dst) - 1)%nat ->
  (strlen trader_id < length (om_trader_id dst) - 1)%nat ->
  (strlen (cmd_symbol cmd) < length (om_symbol dst) - 1)%nat ->
  exists text m, format_command_as_json cmd trader_id = Some text /\
    parse_base_message (J := J) (Some text) = Some MSG_PLACE_ORDER /\
    parse_order_message (J := J) (Some text) (Some dst) = Ok (true, Some m) /\
    c_str (om_order_id m) = Ok (cmd_order_id cmd) /\ c_str (om_trader_id m) = Ok trader_id /\
    c_str (om_symbol m) = Ok (cmd_symbol cmd) /\ om_price m = cmd_price cmd /\
    om_quantity m = cmd_quantity cmd /\ om_is_buy m = is_buy_command (cmd_type cmd).
Proof. exact (order_request_parses cmd trader_id dst). Qed.

(** A cancel command is never sent: for it, as for help, quit and invalid commands,
    no request is formatted. *)
Theorem cancel_never_formatted cmd trader_id :
  cmd_type cmd <> CMD_BUY -> cmd_type cmd <> CMD_SELL -> cmd_type cmd <> CMD_VIEW ->
  format_command_as_json cmd trader_id = None.
Proof. intros. unfold format_command_as_json. destruct cJSON_CreateObject; [|reflexivity]. now destruct (cmd_type cmd). Qed.

End Format.

(** The command of an order line, if it is accepted. *)
Lemma parse_order_tokens_spec now t symbol rest :
  (t = CMD_BUY \/ t = CMD_SELL) ->
  let cmd := parse_order_tokens now t symbol rest in
  cmd_symbol cmd = symbol /\
  (cmd_type cmd = CMD_INVALID \/
   (cmd_type cmd = t /\ validate_price (cmd_price cmd) = true /\ validate_quantity (cmd_quantity cmd) = true /\
    valid_binary prec emax (cmd_price cmd) = true /\ cmd_order_id cmd = generate_order_id 32 now)).
Proof.
  intros Ht cmd. subst cmd. unfold parse_order_tokens. destruct (strtok DELIMITERS rest) as [[tok1 rest1]|]; [|auto].
  destruct (validate_price (atof tok1)) eqn:Vp; cbn [negb]; [|auto].
  destruct (strtok DELIMITERS rest1) as [[tok2 rest2]|]; [|auto].
  destruct (validate_quantity (atoi tok2)) eqn:Vq; cbn [negb]; [|auto].
  split; [reflexivity |]. right. cbn. auto using atof_valid.
Qed.

(** A line accepted as a buy or sell always carries a price the protocol allows (or one
    that is not a number), a quantity from 1 to 1000000, a symbol that fits its array and
    the clock's order id; no other line yields an order. *)
Theorem parse_command_valid now input :
  let cmd := parse_command now (Some input) in
  (cmd_type cmd = CMD_BUY \/ cmd_type cmd = CMD_SELL) ->
  price_spec (cmd_price cmd) /\ quantity_spec (cmd_quantity cmd) /\ (strlen (cmd_symbol cmd) < 16)%nat /\
  cmd_order_id cmd = generate_order_id 32 now.
Proof.
  intros cmd. subst cmd. unfold parse_command. destruct (strtok DELIMITERS _) as [[tok rest]|]; [|cbn; intuition discriminate].
  assert (Hord : forall t tok2 rest2, (t = CMD_BUY \/ t = CMD_SELL) ->
    let cmd := parse_order_tokens now t (copy_str 16 tok2) rest2 in
    (cmd_type cmd = CMD_BUY \/ cmd_type cmd = CMD_SELL) ->
    price_spec (cmd_price cmd) /\ quantity_spec (cmd_quantity cmd) /\ (strlen (cmd_symbol cmd) < 16)%nat /\
    cmd_order_id cmd = generate_order_id 32 now).
  { intros t tok2 rest2 Ht. cbv zeta. intros Hc. pose proof (parse_order_tokens_spec now t (copy_str 16 tok2) rest2 Ht) as H.
    cbv zeta in H. destruct H as [Hs [Hi|(_ & Vp & Vq & Vv & Hid)]]; [intuition congruence |].
    rewrite Hs. unfold copy_str. rewrite length_substring. split_and!; auto; [now apply validate_price_spec in Vp |
      now apply validate_quantity_spec in Vq | lia]. }
  destruct (command_type tok); cbn [cmd_type bare]; try (intuition discriminate);
    (destruct (strtok DELIMITERS rest) as [[tok2 rest2]|]; [|cbn; intuition discriminate]);
    try (cbn; intuition discriminate); apply Hord; auto.
Qed.

(** ** Witnesses and examples *)

Import RefJson.

Definition buy_line : string := "buy AAPL 150.25 100".

Lemma parse_command_valid_witness :
  price_spec (cmd_price (parse_command 1700000000 (Some buy_line))) /\
  quantity_spec (cmd_quantity (parse_command 1700000000 (Some buy_line))) /\
  (strlen (cmd_symbol (parse_command 1700000000 (Some buy_line))) < 16)%nat /\
  cmd_order_id (parse_command 1700000000 (Some buy_line)) = generate_order_id 32 1700000000.
Proof. apply (parse_command_valid 1700000000 buy_line). left. vm_compute. reflexivity. Defined.

Definition buy_command : Command := mkCommand CMD_BUY "AAPL" (d_of_ratio 15025 100) 100 "ORD1700000000".

Lemma command_reaches_server_witness :
  exists text m, format_command_as_json (J := jvalue) buy_command "TRADER42" = Some text /\
    parse_base_message (J := jvalue) (Some text) = Some MSG_PLACE_ORDER /\
    parse_order_message (J := jvalue) (Some text) (Some dirty_order) = Ok (true, Some m) /\
    c_str (om_order_id m) = Ok "ORD1700000000"%string /\ c_str (om_trader_id m) = Ok "TRADER42"%string /\
    c_str (om_symbol m) = Ok "AAPL"%string /\ om_price m = d_of_ratio 15025 100 /\
    om_quantity m = 100%Z /\ om_is_buy m = true.
Proof.
  refine (command_reaches_server (J := jvalue) buy_command "TRADER42" dirty_order (or_introl eq_refl) _ _
    eq_refl eq_refl eq_refl _ _ _); try (cbn; lia); [vm_compute; reflexivity | split; vm_compute; discriminate].
Defined.

Lemma cancel_never_formatted_witness :
  format_command_as_json (J := jvalue) (parse_command 0 (Some "CANCEL ORD7"%string)) "T" = None.
Proof. apply (cancel_never_formatted (J := jvalue)); vm_compute; discriminate. Defined.

(** A price that is not a number and a quantity beyond the machine's range are
    accepted from the command line: "nan" passes the price check, and 4294967297 is read
    as 1. *)
Theorem command_accepts_nan_and_wraps :
  cmd_type (parse_command 0 (Some "BUY AAPL nan 4294967297"%string)) = CMD_BUY /\
  d_is_nan (cmd_price (parse_command 0 (Some "BUY AAPL nan 4294967297"%string))) = true /\
  cmd_quantity (parse_command 0 (Some "BUY AAPL nan 4294967297"%string)) = 1%Z.
Proof. vm_compute. auto. Qed.
