(* ===== verification/OrderEntry.v ===== *)
(** * The client's order limits (src/src/client/order_entry.c)

    The client's active orders as a list, newest first, with a count and a running
    notional value.  Operations run under the entry's mutex. *)

From Stdlib Require Import Ascii String ZArith Lia SpecFloat.
From stdpp Require Import base list numbers strings.
From S2P Require Import Prelude CDouble CString.

Record OrderEntryConfig : Type := mkOrderEntryConfig {
  oec_trader_id : string;
  oec_max_orders : Z;
  oec_max_notional : double
}.

Record OrderRecord : Type := mkOrderRecord {
  or_order_id : string;
  or_symbol : string;
  or_price : double;
  or_quantity : Z;
  or_is_buy : bool
}.

Record OrderEntry : Type := mkOrderEntry {
  active_orders : list OrderRecord;
  active_count : Z;
  total_notional : double;
  oe_max_orders : Z;
  max_notional : double;
  oe_trader_id : option string
}.

(** [strdup_ok]: the copy of the trader id succeeded; the source does not check. *)
Definition order_entry_create (calloc_ok strdup_ok : bool) (config : OrderEntryConfig) : option OrderEntry :=
  if negb calloc_ok then None
  else Some (mkOrderEntry [] 0 d_zero (oec_max_orders config) (oec_max_notional config)
               (if strdup_ok then Some (oec_trader_id config) else None)).

(** The records freed with the entry. *)
Definition order_entry_destroy (entry : option OrderEntry) : list OrderRecord :=
  match entry with None => [] | Some e => active_orders e end.

Definition notional (price : double) (quantity : Z) : double := d_mul price (d_of_Z quantity).

Definition order_entry_submit (calloc_ok : bool) (entry : option OrderEntry) (symbol : option string)
    (price : double) (quantity : Z) (is_buy : bool) : res (Z * option OrderEntry) :=
  match entry, symbol with
  | Some e, Some symbol =>
      let new_notional := notional price quantity in
      if (oe_max_orders e <=? active_count e)%Z then Ok ((-1)%Z, entry)
      else if d_gt (d_add (total_notional e) new_notional) (max_notional e) then Ok ((-1)%Z, entry)
      else if negb calloc_ok then Ok ((-1)%Z, entry)
      else
        n ← int_add (active_count e) 1;
        let record := mkOrderRecord (snprintf 32 ("ORD" +:+ print_int n)) (copy_str 16 symbol) price quantity is_buy in
        Ok (0%Z, Some (mkOrderEntry (record :: active_orders e) n (d_add (total_notional e) new_notional)
                         (oe_max_orders e) (max_notional e) (oe_trader_id e)))
  | _, _ => Ok ((-1)%Z, entry)
  end.

(** The unlinking loop. *)
Fixpoint unlink_record (rs : list OrderRecord) (order_id : string) : option (list OrderRecord * OrderRecord) :=
  match rs with
  | [] => None
  | r :: rs =>
      if str_eq (or_order_id r) order_id then Some (rs, r)
      else match unlink_record rs order_id with
           | Some (rest, r') => Some (r :: rest, r')
           | None => None
           end
  end.

Definition order_entry_cancel (entry : option OrderEntry) (order_id : option string) : res (Z * option OrderEntry) :=
  match entry, order_id with
  | Some e, Some id =>
      match unlink_record (active_orders e) id with
      | None => Ok ((-1)%Z, entry)
      | Some (rest, r) =>
          n ← int_add (active_count e) (-1);
          Ok (0%Z, Some (mkOrderEntry rest n (d_sub (total_notional e) (notional (or_price r) (or_quantity r)))
                           (oe_max_orders e) (max_notional e) (oe_trader_id e)))
      end
  | _, _ => Ok ((-1)%Z, entry)
  end.

Definition order_entry_get_active_orders (entry : option OrderEntry) : Z :=
  match entry with Some e => active_count e | None => 0%Z end.

Definition order_entry_get_total_notional (entry : option OrderEntry) : double :=
  match entry with Some e => total_notional e | None => d_zero end.

(** ** Invariant and lemmas *)

Definition entry_wf (e : OrderEntry) : Prop :=
  active_count e = Z.of_nat (length (active_orders e)) /\
  (0 <= oe_max_orders e <= INT_MAX)%Z /\ (active_count e <= oe_max_orders e)%Z.

Lemma unlink_record_spec rs id :
  match unlink_record rs id with
  | Some (rest, r) => exists pre post, rs = pre ++ r :: post /\ rest = pre ++ post /\ or_order_id r = id /\
      Forall (fun x => or_order_id x <> id) pre
  | None => Forall (fun x => or_order_id x <> id) rs
  end.
Proof.
  induction rs as [|r rs IH]; cbn; [constructor |]. destruct (str_eq (or_order_id r) id) eqn:E.
  - apply str_eq_spec in E. exists [], rs. auto.
  - assert (Hne : or_order_id r <> id) by (intros D; apply str_eq_spec in D; congruence).
    destruct (unlink_record rs id) as [[rest r']|]; [|now constructor].
    destruct IH as (pre & post & -> & -> & Hid & HF). exists (r :: pre), post. split_and!; auto.
Qed.

(** ** Properties *)

(** Submitting an order succeeds exactly when the number of active orders is below the
    limit and the rounded notional total stays within its limit; then the order is
    recorded first, the count and total are updated, and neither limit is exceeded. *)
Theorem submit_respects_limits e symbol price q is_buy :
  entry_wf e ->
  let total := d_add (total_notional e) (notional price q) in
  if (active_count e <? oe_max_orders e)%Z && negb (d_gt total (max_notional e))
  then exists e' r, order_entry_submit true (Some e) (Some symbol) price q is_buy = Ok (0%Z, Some e') /\
    entry_wf e' /\ active_orders e' = r :: active_orders e /\ or_price r = price /\ or_quantity r = q /\
    or_is_buy r = is_buy /\ total_notional e' = total /\ d_gt (total_notional e') (max_notional e') = false
  else order_entry_submit true (Some e) (Some symbol) price q is_buy = Ok ((-1)%Z, Some e).
Proof.
  intros (Hc & Hm & Hl) total. cbn [order_entry_submit]. fold total.
  destruct (Z.ltb_spec (active_count e) (oe_max_orders e)), (Z.leb_spec (oe_max_orders e) (active_count e));
    try lia; cbn [andb]; [|reflexivity].
  destruct (d_gt total (max_notional e)) eqn:Hg; cbn [negb]; [reflexivity |].
  rewrite int_add_ok by (unfold in_int, INT_MIN; lia). cbn [mbind res_bind]. do 2 eexists.
  split; [reflexivity |]. cbn. split_and!; auto. unfold entry_wf. cbn [active_count active_orders length oe_max_orders]. lia.
Qed.

Definition sample_entry : OrderEntry :=
  mkOrderEntry [mkOrderRecord "ORD1" "AAPL" (d_of_Z 150) 10 true] 1 (d_of_Z 1500) 1000 (d_of_Z 10000000) (Some "TRADER1"%string).

Lemma sample_entry_wf : entry_wf sample_entry.
Proof. unfold entry_wf. cbn. split_and!; try lia. unfold INT_MAX. lia. Qed.

Lemma submit_respects_limits_witness :
  exists e' r, order_entry_submit true (Some sample_entry) (Some "MSFT"%string) (d_of_Z 300) 5 false = Ok (0%Z, Some e') /\
    entry_wf e' /\ active_orders e' = r :: active_orders sample_entry /\ or_price r = d_of_Z 300 /\ or_quantity r = 5%Z /\
    or_is_buy r = false /\ total_notional e' = d_of_Z 3000 /\ d_gt (total_notional e') (max_notional e') = false.
Proof. exact (submit_respects_limits sample_entry "MSFT" (d_of_Z 300) 5 false sample_entry_wf). Defined.

(** Cancelling removes the most recent order with the id, if there is one, keeps the
    others in order and keeps the count right; otherwise it fails and changes nothing. *)
Theorem cancel_removes_one e id :
  entry_wf e ->
  match unlink_record (active_orders e) id with
  | Some (rest, r) => exists e' pre post, order_entry_cancel (Some e) (Some id) = Ok (0%Z, Some e') /\ entry_wf e' /\
      active_orders e = pre ++ r :: post /\ active_orders e' = pre ++ post /\ or_order_id r = id /\
      Forall (fun x => or_order_id x <> id) pre /\
      total_notional e' = d_sub (total_notional e) (notional (or_price r) (or_quantity r))
  | None => order_entry_cancel (Some e) (Some id) = Ok ((-1)%Z, Some e) /\
      Forall (fun x => or_order_id x <> id) (active_orders e)
  end.
Proof.
  intros (Hc & Hm & Hl). cbn [order_entry_cancel]. pose proof (unlink_record_spec (active_orders e) id) as Hu.
  destruct (unlink_record (active_orders e) id) as [[rest r]|]; [|auto].
  destruct Hu as (pre & post & E & -> & Hid & HF). rewrite E, length_app in Hc. cbn [length] in Hc.
  rewrite int_add_ok by (unfold in_int, INT_MIN; lia). cbn [mbind res_bind]. do 3 eexists.
  split; [reflexivity |]. cbn. split_and!; eauto. unfold entry_wf. cbn [active_count active_orders oe_max_orders].
  rewrite length_app. lia.
Qed.

Lemma cancel_removes_one_witness :
  exists e' pre post, order_entry_cancel (Some sample_entry) (Some "ORD1"%string) = Ok (0%Z, Some e') /\ entry_wf e' /\
      active_orders sample_entry = pre ++ mkOrderRecord "ORD1" "AAPL" (d_of_Z 150) 10 true :: post /\
      active_orders e' = pre ++ post /\ "ORD1"%string = "ORD1"%string /\
      Forall (fun x => or_order_id x <> "ORD1"%string) pre /\ total_notional e' = d_zero.
Proof. exact (cancel_removes_one sample_entry "ORD1" sample_entry_wf). Defined.

(** Two submissions, a cancellation of the first, a submission. *)
Definition submit_cancel_submit : res (list string) :=
  '(_, e) ← order_entry_submit true (Some sample_entry) (Some "MSFT"%string) (d_of_Z 300) 5 false;
  '(_, e) ← order_entry_cancel e (Some "ORD1"%string);
  '(_, e) ← order_entry_submit true e (Some "TSLA"%string) (d_of_Z 200) 5 true;
  e ← deref e;
  Ok (or_order_id <$> active_orders e).

(** Order ids are not unique: numbering by the current count, a submission after a
    cancellation reuses the id of an order that is still active. *)
Theorem order_ids_repeat : submit_cancel_submit = Ok ["ORD2"; "ORD2"]%string.
Proof. vm_compute. reflexivity. Qed.
