(* ===== verification/TradeHistory.v ===== *)
(** * The client's trade history (src/src/client/trade_history.c)

    Recorded trades as a list, newest first, with a count and a limit. *)

From Stdlib Require Import Ascii String ZArith Lia SpecFloat.
From stdpp Require Import base list numbers strings.
From S2P Require Import Prelude CDouble CString Protocol.

Record TradeHistoryConfig : Type := mkTradeHistoryConfig {
  thc_max_trades : Z;
  thc_record_all_trades : bool
}.

Record TradeHistory : Type := mkTradeHistory {
  th_trades : list TradeMessage;
  trade_count : Z;
  max_trades : Z;
  record_all_trades : bool
}.

Definition trade_history_create (calloc_ok : bool) (config : TradeHistoryConfig) : option TradeHistory :=
  if negb calloc_ok then None
  else Some (mkTradeHistory [] 0 (thc_max_trades config) (thc_record_all_trades config)).

(** The records freed with the history. *)
Definition trade_history_destroy (history : option TradeHistory) : list TradeMessage :=
  match history with None => [] | Some h => th_trades h end.

(** The first record leaves when the limit is reached. *)
Definition evict (h : TradeHistory) : res TradeHistory :=
  if (max_trades h <=? trade_count h)%Z then
    match th_trades h with
    | [] => UB NullDeref
    | _ :: rest => n ← int_add (trade_count h) (-1); Ok (mkTradeHistory rest n (max_trades h) (record_all_trades h))
    end
  else Ok h.

Definition trade_history_add_trade (calloc_ok : bool) (history : option TradeHistory) (trade : option TradeMessage)
    : res (Z * option TradeHistory) :=
  match history, trade with
  | Some h, Some t =>
      h ← evict h;
      if negb calloc_ok then Ok ((-1)%Z, Some h)
      else
        n ← int_add (trade_count h) 1;
        Ok (0%Z, Some (mkTradeHistory (t :: th_trades h) n (max_trades h) (record_all_trades h)))
  | _, _ => Ok ((-1)%Z, history)
  end.

(** The return value and what is written to the caller's array. *)
Definition trade_history_get_trades (history : option TradeHistory) (limit : Z) : Z * list TradeMessage :=
  match history with
  | None => ((-1)%Z, [])
  | Some h => (0%Z, take (Z.to_nat limit) (th_trades h))
  end.

(** Whether a record is of the symbol. *)
Definition of_symbol (t : TradeMessage) (symbol : string) : res bool :=
  s ← c_str (tm_symbol t); Ok (str_eq s symbol).

(** The three loops. *)
Fixpoint sum_prices (ts : list TradeMessage) (symbol : string) (total : double) (count : Z) : res (double * Z) :=
  match ts with
  | [] => Ok (total, count)
  | t :: ts =>
      m ← of_symbol t symbol;
      if (m : bool) then n ← int_add count 1; sum_prices ts symbol (d_add total (tm_price t)) n
      else sum_prices ts symbol total count
  end.

Fixpoint sum_volume (ts : list TradeMessage) (symbol : string) (total : Z) : res Z :=
  match ts with
  | [] => Ok total
  | t :: ts =>
      m ← of_symbol t symbol;
      if (m : bool) then n ← int_add total (tm_quantity t); sum_volume ts symbol n
      else sum_volume ts symbol total
  end.

Fixpoint sum_value (ts : list TradeMessage) (symbol : string) (value : double) (total : Z) : res (double * Z) :=
  match ts with
  | [] => Ok (value, total)
  | t :: ts =>
      m ← of_symbol t symbol;
      if (m : bool) then
        n ← int_add total (tm_quantity t);
        sum_value ts symbol (d_add value (d_mul (tm_price t) (d_of_Z (tm_quantity t)))) n
      else sum_value ts symbol value total
  end.

Definition trade_history_get_avg_price (history : option TradeHistory) (symbol : option string) : res double :=
  match history, symbol with
  | Some h, Some symbol =>
      '(total, count) ← sum_prices (th_trades h) symbol d_zero 0;
      Ok (if (0 <? count)%Z then d_div total (d_of_Z count) else d_zero)
  | _, _ => Ok d_zero
  end.

Definition trade_history_get_volume (history : option TradeHistory) (symbol : option string) : res Z :=
  match history, symbol with
  | Some h, Some symbol => sum_volume (th_trades h) symbol 0
  | _, _ => Ok 0%Z
  end.

Definition trade_history_get_vwap (history : option TradeHistory) (symbol : option string) : res double :=
  match history, symbol with
  | Some h, Some symbol =>
      '(value, total) ← sum_value (th_trades h) symbol d_zero 0;
      Ok (if (0 <? total)%Z then d_div value (d_of_Z total) else d_zero)
  | _, _ => Ok d_zero
  end.

(** ** Invariant and lemmas *)

Definition history_wf (h : TradeHistory) : Prop :=
  trade_count h = Z.of_nat (length (th_trades h)) /\ (0 < max_trades h <= INT_MAX)%Z /\
  (trade_count h <= max_trades h)%Z.

(** Whether a record's name is terminated and equal to the symbol, and the records of a
    symbol. *)
Definition is_named (symbol : string) (t : TradeMessage) : bool :=
  match c_str (tm_symbol t) with Ok s => str_eq s symbol | _ => false end.

Definition named (symbol : string) (ts : list TradeMessage) : list TradeMessage := List.filter (is_named symbol) ts.

Definition volume (ts : list TradeMessage) : Z := foldr (fun t n => tm_quantity t + n)%Z 0%Z ts.

Lemma of_symbol_ok t symbol : is_ok (c_str (tm_symbol t)) -> of_symbol t symbol = Ok (is_named symbol t).
Proof. intros [s Hs]. unfold of_symbol, is_named. now rewrite Hs. Qed.

Lemma sum_volume_spec ts symbol total :
  Forall (fun t => is_ok (c_str (tm_symbol t))) ts -> Forall (fun t => 0 <= tm_quantity t)%Z ts ->
  (0 <= total)%Z -> (total + volume (named symbol ts) <= INT_MAX)%Z ->
  sum_volume ts symbol total = Ok (total + volume (named symbol ts))%Z.
Proof.
  intros Hn. revert total. induction Hn as [|t ts Ht Hn IH]; intros total Hq Ht0 Hmax.
  { cbn. f_equal. lia. }
  apply Forall_cons in Hq as [Hq Hqs]. assert (Hnn : (0 <= volume (named symbol ts))%Z).
  { clear -Hqs. induction Hqs as [|x xs Hx _ IH]; [cbn; lia |]. unfold named in *. cbn [List.filter].
    destruct (is_named symbol x); [|exact IH]. cbn [volume foldr]. fold (volume (List.filter (is_named symbol) xs)). lia. }
  unfold named in *. cbn [sum_volume List.filter] in *. rewrite (of_symbol_ok _ _ Ht). cbn [mbind res_bind].
  destruct (is_named symbol t).
  - cbn [volume foldr] in *. fold (volume (List.filter (is_named symbol) ts)) in *.
    rewrite int_add_ok by (unfold in_int, INT_MIN; lia). cbn [mbind res_bind]. rewrite IH by (auto; lia). f_equal. lia.
  - now apply IH.
Qed.

Lemma add_trade_spec h t :
  history_wf h ->
  exists h', trade_history_add_trade true (Some h) (Some t) = Ok (0%Z, Some h') /\ history_wf h' /\
    th_trades h' = t :: (if (trade_count h <? max_trades h)%Z then th_trades h else tail (th_trades h)).
Proof.
  intros (Hc & Hm & Hl). cbn [trade_history_add_trade]. unfold evict.
  destruct (Z.leb_spec (max_trades h) (trade_count h)) as [Hge|Hlt].
  - rewrite (proj2 (Z.ltb_ge _ _) Hge). destruct (th_trades h) as [|t0 rest] eqn:E; [cbn in Hc; lia |].
    cbn [length] in Hc. rewrite int_add_ok by (unfold in_int, INT_MIN; lia). cbn [mbind res_bind negb trade_count].
    rewrite int_add_ok by (unfold in_int, INT_MIN; lia). cbn [mbind res_bind]. eexists. split; [reflexivity |].
    split; [|reflexivity]. unfold history_wf. cbn [trade_count th_trades max_trades length]. lia.
  - rewrite (proj2 (Z.ltb_lt _ _) Hlt). cbn [mbind res_bind negb].
    rewrite int_add_ok by (unfold in_int, INT_MIN; lia). cbn [mbind res_bind]. eexists. split; [reflexivity |].
    split; [|reflexivity]. unfold history_wf. cbn [trade_count th_trades max_trades length]. lia.
Qed.

(** ** Properties *)

(** Recording a trade always succeeds on a well-formed history and puts it first;
    below the limit nothing is lost, and at the limit the record that leaves is the most
    recent one, so the oldest trades stay for ever. *)
Theorem add_trade_evicts_newest h t :
  history_wf h ->
  exists h', trade_history_add_trade true (Some h) (Some t) = Ok (0%Z, Some h') /\ history_wf h' /\
    th_trades h' = t :: (if (trade_count h <? max_trades h)%Z then th_trades h else tail (th_trades h)).
Proof. apply add_trade_spec. Qed.

Definition sample_fill (id : string) (q : Z) : TradeMessage :=
  mkTradeMessage (strncpy_buf (zero_buffer 16) "AAPL") (strncpy_buf (zero_buffer 32) id)
    (strncpy_buf (zero_buffer 32) "S1") (d_of_Z 150) q 1700000000.

Definition full_history : TradeHistory := mkTradeHistory [sample_fill "B2" 5; sample_fill "B1" 7] 2 2 true.

Lemma full_history_wf : history_wf full_history.
Proof. unfold history_wf. cbn. unfold INT_MAX. lia. Qed.

Lemma add_trade_evicts_newest_witness :
  exists h', trade_history_add_trade true (Some full_history) (Some (sample_fill "B3" 1)) = Ok (0%Z, Some h') /\
    history_wf h' /\ th_trades h' = [sample_fill "B3" 1; sample_fill "B1" 7].
Proof. exact (add_trade_evicts_newest full_history (sample_fill "B3" 1) full_history_wf). Defined.

(** The volume of a symbol is the sum of the quantities of its recorded trades, when
    their names are terminated, quantities are not negative and the sum fits an [int]. *)
Theorem volume_correct h symbol :
  Forall (fun t => is_ok (c_str (tm_symbol t))) (th_trades h) ->
  Forall (fun t => 0 <= tm_quantity t)%Z (th_trades h) ->
  (volume (named symbol (th_trades h)) <= INT_MAX)%Z ->
  trade_history_get_volume (Some h) (Some symbol) = Ok (volume (named symbol (th_trades h))).
Proof. intros Hn Hq Hm. cbn [trade_history_get_volume]. rewrite sum_volume_spec by (auto; lia). f_equal. Qed.

Lemma volume_correct_witness : trade_history_get_volume (Some full_history) (Some "AAPL"%string) = Ok 12%Z.
Proof.
  apply (volume_correct full_history "AAPL").
  - repeat constructor; eexists; reflexivity.
  - by_decide.
  - vm_compute. discriminate.
Defined.
