(* ===== verification/OrderLoader.v ===== *)
(** * Loading orders from a file (src/src/utils/order_loader.c)

    The file system is a function from names to contents; [fgets] splits a content into
    lines of at most 1023 characters.  Each order line becomes an order in the store
    and a node of the book. *)

From Stdlib Require Import Ascii String ZArith Lia SpecFloat.
From stdpp Require Import base list numbers strings gmap.
From S2P Require Import Prelude SortedAssoc CDouble CString Order AvlTree OrderBook MatchSpec BookRefine.

Definition MAX_LINE_LENGTH : nat := 1024.
Definition CSV_DELIMITER : string := ",".
Definition TXT_DELIMITER : string := String " " (String (ascii_of_nat 9) "").
Definition newline : ascii := ascii_of_nat 10.

Inductive FileType : Type :=
| FILE_TYPE_CSV
| FILE_TYPE_TXT
| FILE_TYPE_UNKNOWN.

Definition determine_file_type (filename : string) : FileType :=
  match after_last "." filename with
  | None => FILE_TYPE_UNKNOWN
  | Some extension =>
      if str_case_eq extension "csv" then FILE_TYPE_CSV
      else if str_case_eq extension "txt" then FILE_TYPE_TXT
      else FILE_TYPE_UNKNOWN
  end.

(** Without trailing white space. *)
Fixpoint rtrim (s : string) : string :=
  match s with
  | EmptyString => EmptyString
  | String c s =>
      match rtrim s with
      | EmptyString => if isspace c then EmptyString else String c EmptyString
      | r => String c r
      end
  end.

(** The string [trim_whitespace] returns. *)
Definition trim_whitespace (s : string) : string := rtrim (skip_while isspace s).

(** What the argument of [trim_whitespace] is afterwards: a NUL is written after its last
    character that is not white space, unless there is none. *)
Definition trim_in_place (s : string) : string :=
  match skip_while isspace s with
  | EmptyString => s
  | _ => rtrim s
  end.

(** The fields of an order line: [None] when the line is rejected. *)
Record order_line : Type := mkOrderLine {
  ol_order_id : string;
  ol_trader_id : string;
  ol_symbol : string;
  ol_is_buy : bool;
  ol_price : double;
  ol_quantity : Z
}.

Definition parse_fields (line : string) (file_type : FileType) : option order_line :=
  let delimiter := match file_type with FILE_TYPE_CSV => CSV_DELIMITER | _ => TXT_DELIMITER end in
  '(token, rest) ← strtok delimiter line;
  let order_id := copy_str MAX_ID_LENGTH (trim_whitespace token) in
  '(token, rest) ← strtok delimiter rest;
  let trader_id := copy_str MAX_ID_LENGTH (trim_whitespace token) in
  '(token, rest) ← strtok delimiter rest;
  let symbol := copy_str MAX_SYMBOL_LENGTH (trim_whitespace token) in
  '(token, rest) ← strtok delimiter rest;
  let side := copy_str 10 (trim_whitespace token) in
  '(token, rest) ← strtok delimiter rest;
  let price := atof (trim_whitespace token) in
  if d_le price d_zero then None
  else
    '(token, rest) ← strtok delimiter rest;
    let quantity := atoi (trim_whitespace token) in
    if (quantity <=? 0)%Z then None
    else Some (mkOrderLine order_id trader_id symbol (str_case_eq side "BUY") price quantity).

Definition parse_order_line (malloc_ok : bool) (now : Z) (h : order_heap) (line : string) (file_type : FileType)
    : option loc * order_heap :=
  match parse_fields line file_type with
  | None => (None, h)
  | Some f => order_create malloc_ok now h (ol_order_id f) (ol_trader_id f) (ol_symbol f) (ol_price f)
                (ol_quantity f) (ol_is_buy f)
  end.

(** ** Reading lines *)

(** At most [n] characters, through the first newline. *)
Fixpoint fgets_line (n : nat) (s : string) : string * string :=
  match n, s with
  | S n, String c s =>
      if Ascii.eqb c newline then (String c EmptyString, s)
      else let '(a, b) := fgets_line n s in (String c a, b)
  | _, _ => (EmptyString, s)
  end.

(** All the lines successive [fgets] calls return. *)
Fixpoint read_lines (fuel : nat) (content : string) : list string :=
  match fuel, content with
  | S fuel, String _ _ => let '(line, rest) := fgets_line (MAX_LINE_LENGTH - 1) content in line :: read_lines fuel rest
  | _, _ => []
  end.

Definition file_lines (content : string) : list string := read_lines (strlen content) content.

(** The text of a line that is parsed; [None] for empty lines and comments.  A line is
    the C string in the buffer: it ends at a NUL byte of the file. *)
Definition line_text (line : string) : option string :=
  let line := before_first newline (before_first NUL line) in
  match trim_whitespace line with
  | EmptyString => None
  | String c _ => if Ascii.eqb c "#" then None else Some (trim_in_place line)
  end.

(** ** The loop; [now n] and the allocations are those of the [n]-th line *)

Record loader : Type := mkLoader {
  ld_now : nat -> Z;
  ld_order : nat -> bool;
  ld_node : nat -> bool
}.

Fixpoint load_lines (ld : loader) (file_type : FileType) (n : nat) (lines : list string) (h : order_heap)
    (book : option OrderBook) (loaded : Z) : res (Z * order_heap * option OrderBook) :=
  match lines with
  | [] => Ok (loaded, h, book)
  | line :: lines =>
      match line_text line with
      | None => load_lines ld file_type (S n) lines h book loaded
      | Some text =>
          let '(order, h) := parse_order_line (ld_order ld n) (ld_now ld n) h text file_type in
          match order with
          | None => load_lines ld file_type (S n) lines h book loaded
          | Some l =>
              '(r, book) ← order_book_add_order (ld_node ld n) h book (Some l);
              if (r =? 0)%Z then
                loaded ← int_add loaded 1;
                load_lines ld file_type (S n) lines h book loaded
              else
                h ← order_destroy h (Some l);
                load_lines ld file_type (S n) lines h book loaded
          end
      end
  end.

Definition load_orders_from_file (ld : loader) (fs : string -> option string) (filename : option string)
    (h : order_heap) (book : option OrderBook) : res (Z * order_heap * option OrderBook) :=
  match filename, book with
  | Some name, Some _ =>
      match determine_file_type name with
      | FILE_TYPE_UNKNOWN => Ok ((-1)%Z, h, book)
      | ft =>
          match fs name with
          | None => Ok ((-1)%Z, h, book)
          | Some content =>
              let lines := file_lines content in
              match ft with
              | FILE_TYPE_CSV =>
                  match lines with
                  | [] => Ok ((-1)%Z, h, book)
                  | _ :: lines => load_lines ld ft 1 lines h book 0
                  end
              | _ => load_lines ld ft 0 lines h book 0
              end
          end
      end
  | _, _ => Ok ((-1)%Z, h, book)
  end.

(** ** Lemmas *)

Lemma fgets_line_app n s : let '(a, b) := fgets_line n s in (a +:+ b) = s /\ (n <> 0%nat -> s <> ""%string -> a <> ""%string).
Proof.
  revert s. induction n as [|n IH]; intros [|c s]; cbn; try (split; [reflexivity | congruence]).
  destruct (Ascii.eqb c newline); [split; [reflexivity | discriminate] |]. specialize (IH s).
  destruct (fgets_line n s) as [a b]. destruct IH as [IH _]. split; [rewrite <- IH; reflexivity | discriminate].
Qed.

Fixpoint concat_strings (l : list string) : string :=
  match l with [] => EmptyString | s :: l => s +:+ concat_strings l end.

(** Reading ends with nothing left: the fuel is enough and no character is lost. *)
Lemma read_lines_concat fuel content : (strlen content <= fuel)%nat -> concat_strings (read_lines fuel content) = content.
Proof.
  revert content. induction fuel as [|fuel IH]; intros [|c s] Hl; try reflexivity; [cbn in Hl; lia |].
  cbn [read_lines]. pose proof (fgets_line_app (MAX_LINE_LENGTH - 1) (String c s)) as H.
  destruct (fgets_line (MAX_LINE_LENGTH - 1) (String c s)) as [a b]. destruct H as [Happ Hne].
  cbn [concat_strings]. rewrite IH; [exact Happ |]. specialize (Hne ltac:(discriminate) ltac:(discriminate)).
  rewrite <- Happ, strlen_app in Hl. destruct a; [contradiction |]. cbn in Hl. unfold strlen in *. lia.
Qed.

Lemma file_lines_whole content : concat_strings (file_lines content) = content.
Proof. apply read_lines_concat. reflexivity. Qed.

Lemma parse_fields_short line ft f :
  parse_fields line ft = Some f ->
  (strlen (ol_order_id f) < MAX_ID_LENGTH)%nat /\ (strlen (ol_trader_id f) < MAX_ID_LENGTH)%nat /\
  (strlen (ol_symbol f) < MAX_SYMBOL_LENGTH)%nat /\ (0 < ol_quantity f)%Z /\ d_le (ol_price f) d_zero = false /\
  valid_binary prec emax (ol_price f) = true.
Proof.
  unfold parse_fields. intros H. do 5 (apply bind_Some in H as ([? ?] & _ & H)).
  destruct (d_le _ _) eqn:Hp in H; [discriminate |]. apply bind_Some in H as ([qty ?] & _ & H).
  destruct (Z.leb_spec (atoi (trim_whitespace qty)) 0); [discriminate |]. injection H as <-.
  cbn [ol_order_id ol_trader_id ol_symbol ol_quantity ol_price]. unfold copy_str. rewrite !length_substring.
  unfold MAX_ID_LENGTH, MAX_SYMBOL_LENGTH. split_and!; auto using atof_valid; lia.
Qed.

Lemma book_wf_new_order h b l o : h !! l = None -> book_wf h b -> book_wf (<[l := o]> h) b.
Proof.
  intros Hl. assert (He : forall buy e, entry_ok h buy e -> entry_ok (<[l := o]> h) buy e).
  { intros buy e. unfold entry_ok. destruct (decide (e.2 = l)) as [->|Hne]; [now rewrite Hl |].
    now rewrite lookup_insert_ne by congruence. }
  unfold book_wf. repeat case_match; auto. intros [(? & ? & F1) (? & ? & F2)].
  split; split_and!; auto; (eapply Forall_impl; [eassumption |]; auto).
Qed.

(** The orders the lines become, each with the time its line is read at. *)
Fixpoint orders_made (ld : loader) (file_type : FileType) (n : nat) (lines : list string) : list Order :=
  match lines with
  | [] => []
  | line :: lines =>
      match (text ← line_text line; parse_fields text file_type) with
      | None => orders_made ld file_type (S n) lines
      | Some f =>
          mkOrder (ol_order_id f) (ol_trader_id f) (ol_symbol f) (ol_price f) (ol_quantity f) (ol_quantity f) (ol_is_buy f)
            (ld_now ld n) false :: orders_made ld file_type (S n) lines
      end
  end.

(** The orders of one side of a book. *)
Definition resting (h : order_heap) (b : OrderBook) (buy : bool) : list Order := orders_of h (side_entries b buy).

Definition of_side (buy : bool) (os : list Order) : list Order := List.filter (fun o => eqb (o_is_buy_order o) buy) os.

(** No two of the orders have the same side, price and second. *)
Definition no_ties (os : list Order) : Prop :=
  NoDup ((fun o => (o_is_buy_order o, key_rank (order_key o))) <$> os).

Lemma orders_of_perm h es es' : es ≡ₚ es' -> orders_of h es ≡ₚ orders_of h es'.
Proof.
  induction 1 as [|e es es' _ IH|e1 e2 es|es1 es2 es3 _ IH1 _ IH2]; cbn; auto.
  - destruct (h !! e.2); [now constructor | exact IH].
  - destruct (h !! e1.2), (h !! e2.2); auto. constructor.
  - now transitivity (orders_of h es2).
Qed.

Lemma resting_fresh h b l o buy : h !! l = None -> book_wf h b -> resting (<[l := o]> h) b buy = resting h b buy.
Proof.
  intros Hl Hwf. destruct (book_wf_side h b buy Hwf) as (t & Ht & _ & _ & HF). unfold resting, side_entries. rewrite Ht.
  apply orders_of_frame. eapply Forall_impl; [exact HF |]. intros e He El. unfold entry_ok in He. now rewrite El, Hl in He.
Qed.

(** One order added. *)
Lemma resting_added h b b1 l o buy :
  h !! l = None -> book_wf h b ->
  side_entries b1 (o_is_buy_order o) ≡ₚ (order_key o, l) :: side_entries b (o_is_buy_order o) ->
  side_entries b1 (negb (o_is_buy_order o)) = side_entries b (negb (o_is_buy_order o)) ->
  resting (<[l := o]> h) b1 buy ≡ₚ of_side buy [o] ++ resting h b buy.
Proof.
  intros Hl Hwf H1 H2. rewrite <- (resting_fresh h b l o buy Hl Hwf). unfold resting, of_side. cbn [List.filter].
  destruct (eqb (o_is_buy_order o) buy) eqn:E.
  - apply eqb_prop in E as <-. rewrite (orders_of_perm _ _ _ H1). cbn. now rewrite lookup_insert_eq.
  - assert (buy = negb (o_is_buy_order o)) as -> by (revert E; destruct buy, (o_is_buy_order o); cbn; congruence). now rewrite H2.
Qed.

(** The orders still to come stay untied. *)
Lemma untied_added b b1 l o o' :
  side_entries b1 (o_is_buy_order o) ≡ₚ (order_key o, l) :: side_entries b (o_is_buy_order o) ->
  side_entries b1 (negb (o_is_buy_order o)) = side_entries b (negb (o_is_buy_order o)) ->
  (o_is_buy_order o, key_rank (order_key o)) <> (o_is_buy_order o', key_rank (order_key o')) ->
  untied b o' -> untied b1 o'.
Proof.
  unfold untied. intros H1 H2 Hne Hu. destruct (decide (o_is_buy_order o' = o_is_buy_order o)) as [E|E].
  - rewrite E in *. rewrite H1. constructor; [|exact Hu]. cbn. congruence.
  - assert (o_is_buy_order o' = negb (o_is_buy_order o)) as E'
      by (revert E; destruct (o_is_buy_order o'), (o_is_buy_order o); cbn; congruence).
    rewrite E' in *. now rewrite H2.
Qed.

(** The loop adds every order of its lines. *)
Lemma load_lines_spec ld ft n lines h b loaded :
  book_wf h b -> (forall k, ld_order ld k = true) -> (forall k, ld_node ld k = true) ->
  Forall (fun o => d_is_nan (o_price o) = false /\ untied b o) (orders_made ld ft n lines) ->
  no_ties (orders_made ld ft n lines) ->
  (0 <= loaded)%Z -> (loaded + Z.of_nat (length lines) <= INT_MAX)%Z ->
  exists h' b', load_lines ld ft n lines h (Some b) loaded =
      Ok (loaded + Z.of_nat (length (orders_made ld ft n lines)), h', Some b')%Z /\
    book_wf h' b' /\ h ⊆ h' /\
    forall buy, resting h' b' buy ≡ₚ of_side buy (orders_made ld ft n lines) ++ resting h b buy.
Proof.
  intros Hwf Ho Hn. revert n h b loaded Hwf. induction lines as [|line lines IH]; intros n h b loaded Hwf HF Hd H0 Hmax.
  { exists h, b. cbn. split_and!; auto. do 3 f_equal. lia. }
  cbn [load_lines orders_made length] in *.
  destruct (line_text line) as [text|]; cbn [mbind option_bind] in *; [|apply IH; auto; lia].
  unfold parse_order_line. destruct (parse_fields text ft) as [f|] eqn:Ef; [|apply IH; auto; lia].
  destruct (parse_fields_short _ _ _ Ef) as (L1 & L2 & L3 & _ & _ & Hv).
  rewrite Ho, order_create_spec by assumption. set (l := fresh (dom h)). set (os := orders_made ld ft (S n) lines) in *.
  set (o := mkOrder _ _ _ _ _ _ _ _ _) in *. pose proof (fresh_loc h : h !! l = None) as Hfresh. rewrite Hn.
  apply Forall_cons in HF as [[Hnan Hu] HF]. apply NoDup_cons in Hd as [Hni Hd].
  destruct (add_order_files (<[l := o]> h) b l o (book_wf_new_order _ _ _ o Hfresh Hwf) (lookup_insert_eq h l o)
    (conj Hv Hnan) Hu) as (b1 & Eadd & Hwf1 & _ & E1 & E2). rewrite Eadd.
  cbn [mbind res_bind Z.eqb]. rewrite int_add_ok by (unfold in_int, INT_MIN; lia). cbn [mbind res_bind].
  destruct (IH (S n) (<[l := o]> h) b1 (loaded + 1)%Z Hwf1) as (h' & b' & E & H1 & H2 & H3); try lia; [|exact Hd |].
  { rewrite Forall_forall in HF |- *. intros o' Ho'. destruct (HF o' Ho') as [? Hu']. split; [assumption |].
    eapply untied_added; eauto. intros Heq. apply Hni. rewrite Heq.
    apply (list_elem_of_fmap_2 (fun o => (o_is_buy_order o, key_rank (order_key o)))). exact Ho'. }
  fold os in E, H3. rewrite E. exists h', b'. cbn [length]. split_and!; auto; [do 3 f_equal; lia | etransitivity; [|exact H2]; now apply insert_subseteq |].
  intros buy. rewrite (H3 buy), (resting_added h b b1 l o buy Hfresh Hwf E1 E2). unfold of_side. cbn [List.filter].
  destruct (eqb (o_is_buy_order o) buy); cbn [app]; [|reflexivity]. symmetry. apply Permutation_middle.
Qed.

(** The lines that may hold orders, and the number of the first: the header of a CSV file
    is skipped. *)
Definition data_lines (file_type : FileType) (content : string) : nat * list string :=
  match file_type with
  | FILE_TYPE_CSV => (1%nat, tail (file_lines content))
  | _ => (0%nat, file_lines content)
  end.

(** ** Properties *)

(** Loading never loses text: the lines [fgets] delivers, put together, are the file,
    however long its lines are. *)
Theorem file_lines_lossless content : concat_strings (file_lines content) = content.
Proof. apply file_lines_whole. Qed.

(** C33: loading a csv or txt file that exists (and, for csv, is not empty) into a
    well-formed book puts every order of the file in the book: the call returns the number
    of its order lines (those with six fields, a positive price and a positive quantity),
    and each side of the book then holds the orders it held and those of the file of that
    side, under their ids, traders, symbols, prices and quantities.  This is for prices that
    are numbers, memory that is available, and orders of which no two of one side, in the
    file or in the book, have the same price and second (a tie is counted and dropped, see
    [load_counts_dropped]). *)
Theorem load_orders_correct ld fs name content h b :
  let ft := determine_file_type name in
  let '(n, lines) := data_lines ft content in
  let os := orders_made ld ft n lines in
  ft <> FILE_TYPE_UNKNOWN -> fs name = Some content -> (ft = FILE_TYPE_CSV -> content <> ""%string) ->
  book_wf h b -> (forall k, ld_order ld k = true) -> (forall k, ld_node ld k = true) ->
  Forall (fun o => d_is_nan (o_price o) = false /\ untied b o) os -> no_ties os ->
  (Z.of_nat (length lines) <= INT_MAX)%Z ->
  exists h' b', load_orders_from_file ld fs (Some name) h (Some b) = Ok (Z.of_nat (length os), h', Some b') /\
    book_wf h' b' /\ h ⊆ h' /\ forall buy, resting h' b' buy ≡ₚ of_side buy os ++ resting h b buy.
Proof.
  intros ft. destruct (data_lines ft content) as [n lines] eqn:El. intros os Hft Hfs Hcsv Hwf Ho Hn HF Hd Hmax.
  destruct (load_lines_spec ld ft n lines h b 0 Hwf Ho Hn HF Hd ltac:(lia) ltac:(lia)) as (h' & b' & E & H).
  exists h', b'. split; [|exact H]. rewrite Z.add_0_l in E. fold os in E. rewrite <- E. unfold load_orders_from_file. rewrite Hfs. fold ft.
  destruct ft; cbn in El; injection El as <- <-; try reflexivity; [|contradiction].
  destruct (file_lines content) eqn:Ec; [|reflexivity]. destruct Hcsv; [reflexivity |].
  rewrite <- (file_lines_whole content), Ec. reflexivity.
Qed.

Definition eol_string : string := String newline "".
Definition sample_content : string :=
  "# bids" +:+ eol_string +:+ "O1 T1 AAPL BUY 150.25 100" +:+ eol_string +:+ "O2 T2 AAPL sell -3 10" +:+ eol_string +:+
  "O3 T3 AAPL SELL 151 10".
Definition sample_loader : loader := mkLoader (fun n => Z.of_nat n) (fun _ => true) (fun _ => true).

Lemma load_orders_correct_witness :
  exists h' b', load_orders_from_file sample_loader (fun _ => Some sample_content) (Some "orders.txt"%string) sample_heap
      (Some sample_book) = Ok (2%Z, h', Some b') /\ book_wf h' b' /\ sample_heap ⊆ h' /\
    forall buy, resting h' b' buy ≡ₚ
      of_side buy [mkOrder "O1" "T1" "AAPL" (d_of_ratio 601 4) 100 100 true 1 false;
                   mkOrder "O3" "T3" "AAPL" (d_of_Z 151) 10 10 false 3 false] ++ resting sample_heap sample_book buy.
Proof.
  apply (load_orders_correct sample_loader (fun _ => Some sample_content) "orders.txt" sample_content sample_heap sample_book);
    try reflexivity; try discriminate; [apply sample_book_wf | by_decide..].
Defined.

(** Two orders at one price read in one second are both counted as loaded, but the second
    is not in the book. *)
Theorem load_counts_dropped :
  let now := mkLoader (fun _ => 7%Z) (fun _ => true) (fun _ => true) in
  let content := "O1 T1 AAPL BUY 150 100" +:+ eol_string +:+ "O2 T2 AAPL BUY 150 10" in
  match load_orders_from_file now (fun _ => Some content) (Some "orders.txt"%string) ∅
          (order_book_create true true true (Some (mkTradeBroadcaster true))) with
  | Ok (loaded, h, Some b) => loaded = 2%Z /\ (o_order_id <$> resting h b true) = ["O1"%string] /\ resting h b false = []
  | _ => False
  end.
Proof. vm_compute. auto. Qed.
