(* ===== verification/MarketMonitor.v ===== *)
(** * The client's market monitor (src/src/client/market_monitor.c)

    A table of followed symbols, each with its latest book and trade.  A snapshot is
    copied with its array pointers, so the arrays are those of the caller: the model
    keeps their contents in the copy.  What is printed is the text written to the
    standard output. *)

From Stdlib Require Import Ascii String ZArith Lia SpecFloat.
From stdpp Require Import base list numbers strings.
From S2P Require Import Prelude CDouble CString Protocol JsonProtocol.

Record MarketMonitorConfig : Type := mkMarketMonitorConfig {
  mmc_max_symbols : Z;
  mmc_update_interval_ms : Z;
  mmc_display_full_depth : bool
}.

Record MarketSymbol : Type := mkMarketSymbol {
  ms_symbol : buffer;
  latest_book : BookSnapshot;
  latest_trade : TradeMessage;
  has_update : bool
}.

Record MarketMonitor : Type := mkMarketMonitor {
  mm_symbols : list MarketSymbol;
  symbol_count : Z;
  max_symbols : Z;
  update_interval_ms : Z;
  display_full_depth : bool
}.

(** ** Printing *)

Definition tab : string := String (ascii_of_nat 9) "".
Definition eol : string := String (ascii_of_nat 10) "".
Definition clear_screen : string :=
  String (ascii_of_nat 27) "[2J" +:+ String (ascii_of_nat 27) "[H".

(** A level as [%.2f\t%d] prints it. *)
Definition level_text (price : double) (quantity : Z) : string := print_double2 price +:+ tab +:+ print_int quantity.

(** The rows [i .. i + n - 1]. *)
Fixpoint print_rows (snapshot : BookSnapshot) (i n : nat) : res string :=
  match n with
  | O => Ok ""%string
  | S n =>
      price ← arr_get (bs_bid_prices snapshot) i;
      quantity ← arr_get (bs_bid_quantities snapshot) i;
      ask ← (if (Z.of_nat i <? bs_num_asks snapshot)%Z then
               ask_price ← arr_get (bs_ask_prices snapshot) i;
               ask_quantity ← arr_get (bs_ask_quantities snapshot) i;
               Ok (tab +:+ tab +:+ level_text ask_price ask_quantity)
             else Ok ""%string);
      rest ← print_rows snapshot (S i) n;
      Ok (level_text price quantity +:+ ask +:+ eol +:+ rest)
  end.

Definition book_title (symbol : string) : string :=
  eol +:+ symbol +:+ " Order Book:" +:+ eol +:+
  "Bids:" +:+ tab +:+ tab +:+ tab +:+ "Asks:" +:+ eol +:+
  "Price" +:+ tab +:+ "Size" +:+ tab +:+ tab +:+ "Price" +:+ tab +:+ "Size" +:+ eol +:+
  "----------------------------------------" +:+ eol.

Definition print_book_snapshot (snapshot : BookSnapshot) (full_depth : bool) : res string :=
  symbol ← c_str (bs_symbol snapshot);
  let depth := if full_depth then bs_num_bids snapshot
               else if (5 <? bs_num_bids snapshot)%Z then 5%Z else bs_num_bids snapshot in
  rows ← print_rows snapshot 0 (Z.to_nat depth);
  Ok (book_title symbol +:+ rows +:+ eol).

(** ** Operations *)

Definition zero_snapshot : BookSnapshot :=
  mkBookSnapshot (zero_buffer 16) 0 0 0 ArrNull ArrNull ArrNull ArrNull.
Definition zero_trade : TradeMessage :=
  mkTradeMessage (zero_buffer 16) (zero_buffer 32) (zero_buffer 32) d_zero 0 0.

(** [symbols_ok]: the array was allocated. *)
Definition market_monitor_create (calloc_ok symbols_ok : bool) (config : MarketMonitorConfig) : option MarketMonitor :=
  if negb calloc_ok then None
  else if negb symbols_ok then None
  else Some (mkMarketMonitor
               (replicate (Z.to_nat (mmc_max_symbols config)) (mkMarketSymbol (zero_buffer 16) zero_snapshot zero_trade false))
               0 (mmc_max_symbols config) (mmc_update_interval_ms config) (mmc_display_full_depth config)).

(** [free] of one array. *)
Definition free_arr {A : Type} (a : arr A) : res unit :=
  match a with ArrFreed => UB DoubleFree | _ => Ok tt end.

(** The loop over the books' arrays. *)
Fixpoint free_books (ss : list MarketSymbol) (i n : nat) : res unit :=
  match n with
  | O => Ok tt
  | S n =>
      match ss !! i with
      | None => UB OutOfBounds
      | Some s =>
          _ ← free_arr (bs_bid_prices (latest_book s));
          _ ← free_arr (bs_bid_quantities (latest_book s));
          _ ← free_arr (bs_ask_prices (latest_book s));
          _ ← free_arr (bs_ask_quantities (latest_book s));
          free_books ss (S i) n
      end
  end.

Definition market_monitor_destroy (monitor : option MarketMonitor) : res unit :=
  match monitor with
  | None => Ok tt
  | Some m => free_books (mm_symbols m) 0 (Z.to_nat (symbol_count m))
  end.

(** The search loop shared by the operations. *)
Definition find_monitored (m : MarketMonitor) (symbol : string) : res (option nat) :=
  find_name (ms_symbol <$> mm_symbols m) symbol 0 (Z.to_nat (symbol_count m)).

Definition with_symbols (m : MarketMonitor) (ss : list MarketSymbol) (count : Z) : MarketMonitor :=
  mkMarketMonitor ss count (max_symbols m) (update_interval_ms m) (display_full_depth m).

Definition market_monitor_subscribe (monitor : option MarketMonitor) (symbol : option string)
    : res (Z * option MarketMonitor) :=
  match monitor, symbol with
  | Some m, Some symbol =>
      if (max_symbols m <=? symbol_count m)%Z then Ok ((-1)%Z, monitor)
      else
        found ← find_monitored m symbol;
        match (found : option nat) with
        | Some _ => Ok (0%Z, monitor)
        | None =>
            let i := Z.to_nat (symbol_count m) in
            match mm_symbols m !! i with
            | None => UB OutOfBounds
            | Some s =>
                name ← strncpy (ms_symbol s) symbol 15;
                let s := mkMarketSymbol name (latest_book s) (latest_trade s) (has_update s) in
                count ← int_add (symbol_count m) 1;
                Ok (0%Z, Some (with_symbols m (<[i := s]> (mm_symbols m)) count))
            end
        end
  | _, _ => Ok ((-1)%Z, monitor)
  end.

(** The two updates differ in what they store. *)
Definition update_entry (m : MarketMonitor) (symbol : string) (f : MarketSymbol -> MarketSymbol)
    : res (Z * option MarketMonitor) :=
  found ← find_monitored m symbol;
  match (found : option nat) with
  | Some i => Ok (0%Z, Some (with_symbols m (alter f i (mm_symbols m)) (symbol_count m)))
  | None => Ok ((-1)%Z, Some m)
  end.

Definition market_monitor_update_book (monitor : option MarketMonitor) (snapshot : option BookSnapshot)
    : res (Z * option MarketMonitor) :=
  match monitor, snapshot with
  | Some m, Some snapshot =>
      if (symbol_count m <=? 0)%Z then Ok ((-1)%Z, monitor)
      else
        symbol ← c_str (bs_symbol snapshot);
        update_entry m symbol (fun s => mkMarketSymbol (ms_symbol s) snapshot (latest_trade s) true)
  | _, _ => Ok ((-1)%Z, monitor)
  end.

(** Also prints a line for the trade, returned with the result. *)
Definition trade_line (symbol : string) (trade : TradeMessage) : string :=
  eol +:+ "TRADE: " +:+ symbol +:+ " " +:+ print_double2 (tm_price trade) +:+ " x " +:+
  print_int (tm_quantity trade) +:+ eol.

Definition market_monitor_update_trade (monitor : option MarketMonitor) (trade : option TradeMessage)
    : res (Z * option MarketMonitor * string) :=
  match monitor, trade with
  | Some m, Some trade =>
      if (symbol_count m <=? 0)%Z then Ok ((-1)%Z, monitor, ""%string)
      else
        symbol ← c_str (tm_symbol trade);
        '(r, m) ← update_entry m symbol (fun s => mkMarketSymbol (ms_symbol s) (latest_book s) trade (has_update s));
        Ok (r, m, if (r =? 0)%Z then trade_line symbol trade else ""%string)
  | _, _ => Ok ((-1)%Z, monitor, ""%string)
  end.

(** The loop of [market_monitor_display]. *)
Fixpoint display_books (ss : list MarketSymbol) (full_depth : bool) (i n : nat) : res string :=
  match n with
  | O => Ok ""%string
  | S n =>
      match ss !! i with
      | None => UB OutOfBounds
      | Some s =>
          text ← (if has_update s then print_book_snapshot (latest_book s) full_depth else Ok ""%string);
          rest ← display_books ss full_depth (S i) n;
          Ok (text +:+ rest)
      end
  end.

Definition market_monitor_display (monitor : option MarketMonitor) : res string :=
  match monitor with
  | None => Ok ""%string
  | Some m =>
      text ← display_books (mm_symbols m) (display_full_depth m) 0 (Z.to_nat (symbol_count m));
      Ok (clear_screen +:+ text)
  end.

Definition clear_update (s : MarketSymbol) : MarketSymbol :=
  mkMarketSymbol (ms_symbol s) (latest_book s) (latest_trade s) false.

Definition market_monitor_clear (monitor : option MarketMonitor) : option MarketMonitor * string :=
  match monitor with
  | None => (None, ""%string)
  | Some m =>
      let n := Z.to_nat (symbol_count m) in
      (Some (with_symbols m (fmap clear_update (take n (mm_symbols m)) ++ drop n (mm_symbols m)) (symbol_count m)),
       clear_screen)
  end.

(** ** Lemmas *)

(** The names in use, one per counted entry; the names of the other entries are zeroed. *)
Definition monitor_wf (m : MarketMonitor) (names : list string) : Prop :=
  Z.of_nat (length (mm_symbols m)) = max_symbols m /\ symbol_count m = Z.of_nat (length names) /\
  (symbol_count m <= max_symbols m <= INT_MAX)%Z /\
  (forall k name, names !! k = Some name -> exists s, mm_symbols m !! k = Some s /\ c_str (ms_symbol s) = Ok name) /\
  (forall k s, (length names <= k)%nat -> mm_symbols m !! k = Some s -> ms_symbol s = zero_buffer 16).

Lemma find_monitored_spec m names symbol :
  monitor_wf m names -> find_monitored m symbol = Ok (fst <$> list_find (fun x => x = symbol) names).
Proof.
  intros (_ & Hc & _ & Hn & _). unfold find_monitored. rewrite Hc, Nat2Z.id, (find_name_spec names).
  - now destruct (list_find _ names) as [[k x]|].
  - intros k name (s & Hs & Hcs)%Hn. exists (ms_symbol s). cbn [Nat.add]. rewrite list_lookup_fmap, Hs. auto.
Qed.

(** Writing the content of an entry keeps the table of names. *)
Lemma update_entry_spec m names symbol f :
  monitor_wf m names -> (forall s, ms_symbol (f s) = ms_symbol s) ->
  match list_find (fun x => x = symbol) names with
  | Some (i, _) => exists s, mm_symbols m !! i = Some s /\ c_str (ms_symbol s) = Ok symbol /\
      update_entry m symbol f = Ok (0%Z, Some (with_symbols m (<[i := f s]> (mm_symbols m)) (symbol_count m))) /\
      monitor_wf (with_symbols m (<[i := f s]> (mm_symbols m)) (symbol_count m)) names
  | None => update_entry m symbol f = Ok ((-1)%Z, Some m) /\ symbol ∉ names
  end.
Proof.
  intros Hwf Hf. unfold update_entry. rewrite (find_monitored_spec m names symbol Hwf). cbn [mbind res_bind].
  destruct (list_find (fun x => x = symbol) names) as [[i x]|] eqn:E; cbn [fmap option_fmap option_map fst].
  - apply list_find_Some in E as (Hi & -> & _). destruct Hwf as (Hl & Hc & Hm & Hn & Hz).
    destruct (Hn _ _ Hi) as (s & Hs & Hcs). exists s. split_and!; auto.
    + do 4 f_equal. rewrite list_insert_alter. apply list_alter_ext; congruence.
    + unfold with_symbols. split_and!; cbn [mm_symbols symbol_count max_symbols]; auto; try tauto.
      * now rewrite length_insert.
      * intros k name Hk. destruct (decide (k = i)) as [->|Hne].
        -- exists (f s). rewrite list_lookup_insert_eq by eauto using lookup_lt_Some. rewrite Hf. split; [reflexivity | congruence].
        -- rewrite list_lookup_insert_ne by congruence. eauto.
      * intros k s' Hk. apply lookup_lt_Some in Hi. rewrite list_lookup_insert_ne by lia. eauto.
  - split; [reflexivity |]. apply list_find_None in E. rewrite Forall_forall in E. intros Hin. now apply (E symbol).
Qed.

Lemma update_trade_spec m names trade symbol :
  monitor_wf m names -> c_str (tm_symbol trade) = Ok symbol ->
  exists r m', market_monitor_update_trade (Some m) (Some trade) =
    Ok (r, Some m', if bool_decide (symbol ∈ names) then trade_line symbol trade else ""%string) /\ monitor_wf m' names.
Proof.
  intros Hwf Hs. cbn [market_monitor_update_trade]. pose proof Hwf as (_ & Hc & _).
  destruct (Z.leb_spec (symbol_count m) 0).
  - destruct names; [|cbn in Hc; lia]. rewrite bool_decide_eq_false_2 by (intros []%not_elem_of_nil). eauto.
  - rewrite Hs. cbn [mbind res_bind].
    pose proof (update_entry_spec m names symbol (fun s => mkMarketSymbol (ms_symbol s) (latest_book s) trade (has_update s))
      Hwf (fun _ => eq_refl)) as H0.
    destruct (list_find _ names) as [[i x]|] eqn:E.
    + apply list_find_Some in E as (Hi & -> & _). rewrite bool_decide_eq_true_2 by eauto using list_elem_of_lookup_2.
      destruct H0 as (s & _ & _ & -> & Hwf'). cbn. eauto.
    + destruct H0 as [-> Hni]. rewrite bool_decide_eq_false_2 by exact Hni. cbn. eauto.
Qed.

(** The rows of a book whose arrays hold the given levels. *)
Fixpoint rows_text (bids asks : list (double * Z)) : string :=
  match bids with
  | [] => ""%string
  | b :: bids =>
      level_text b.1 b.2 +:+
      (match asks with a :: _ => tab +:+ tab +:+ level_text a.1 a.2 | [] => ""%string end) +:+ eol +:+
      rows_text bids (tail asks)
  end.

Definition cells_hold {A : Type} (a : arr A) (f : double * Z -> A) (lv : list (double * Z)) : Prop :=
  forall k x, lv !! k = Some x -> arr_get a k = Ok (f x).

Lemma drop_cons_head {A : Type} (l : list A) k : tail (drop k l) = drop (S k) l.
Proof. revert k. induction l as [|x l IH]; intros [|k]; cbn; auto. Qed.

Lemma print_rows_spec s bids asks n i :
  cells_hold (bs_bid_prices s) fst bids -> cells_hold (bs_bid_quantities s) snd bids ->
  cells_hold (bs_ask_prices s) fst asks -> cells_hold (bs_ask_quantities s) snd asks ->
  bs_num_asks s = Z.of_nat (length asks) -> (i + n <= length bids)%nat ->
  print_rows s i n = Ok (rows_text (take n (drop i bids)) (drop i asks)).
Proof.
  intros Hbp Hbq Hap Haq Hna. revert i. induction n as [|n IH]; intros i Hi; [reflexivity |]. cbn [print_rows].
  destruct (lookup_lt_is_Some_2 bids i) as [b Hb]; [lia |]. rewrite (Hbp _ _ Hb), (Hbq _ _ Hb). cbn [mbind res_bind].
  rewrite (drop_S _ _ _ Hb). cbn [take rows_text]. rewrite IH, drop_cons_head by lia.
  destruct (Z.ltb_spec (Z.of_nat i) (bs_num_asks s)).
  - destruct (lookup_lt_is_Some_2 asks i) as [a Ha]; [lia |]. rewrite (Hap _ _ Ha), (Haq _ _ Ha).
    cbn [mbind res_bind]. rewrite (drop_S asks _ _ Ha). reflexivity.
  - cbn [mbind res_bind]. rewrite (drop_ge asks i), (drop_ge asks (S i)) by lia. reflexivity.
Qed.

(** ** Properties *)

(** Subscribing to a symbol in a monitor with room left returns 0 and leaves the
    followed names as they were, with the symbol (cut to 15 characters) appended unless
    it was there; a full monitor refuses with -1, even a symbol it follows. *)
Theorem monitor_subscribe_correct m names symbol :
  monitor_wf m names -> nul_free symbol = true ->
  if (Z.of_nat (length names) <? max_symbols m)%Z
  then exists m', market_monitor_subscribe (Some m) (Some symbol) = Ok (0%Z, Some m') /\
         monitor_wf m' (if bool_decide (symbol ∈ names) then names else names ++ [copy_str 16 symbol])
  else market_monitor_subscribe (Some m) (Some symbol) = Ok ((-1)%Z, Some m).
Proof.
  intros Hwf Hf. cbn [market_monitor_subscribe]. rewrite (find_monitored_spec m names symbol Hwf).
  pose proof Hwf as (Hl & Hc & Hm & Hn & Hz). rewrite Hc in *.
  destruct (Z.ltb_spec (Z.of_nat (length names)) (max_symbols m)); destruct (Z.leb_spec (max_symbols m) (Z.of_nat (length names)));
    try lia; [|reflexivity]. cbn [mbind res_bind].
  destruct (list_find (fun x => x = symbol) names) as [[i x]|] eqn:E; cbn [fmap option_fmap option_map fst].
  - apply list_find_Some in E as (Hi & -> & _). exists m.
    rewrite bool_decide_eq_true_2 by eauto using list_elem_of_lookup_2. auto.
  - apply list_find_None in E. rewrite Forall_forall in E. rewrite bool_decide_eq_false_2 by (intros Hin; now apply (E symbol)).
    rewrite Nat2Z.id. destruct (lookup_lt_is_Some_2 (mm_symbols m) (length names)) as [s Hs]; [lia |].
    rewrite Hs, int_add_ok by (unfold in_int, INT_MIN; lia).
    pose proof (Hz _ _ (Nat.le_refl _) Hs) as Ez. rewrite Ez, strncpy_ok by (cbn; lia). cbn [mbind res_bind]. eexists. split; [reflexivity |].
    unfold monitor_wf, with_symbols. cbn [mm_symbols symbol_count max_symbols]. rewrite length_insert, length_app.
    split_and!; auto; [cbn; lia | lia | tauto | |].
    + intros k name Hk. apply lookup_app_Some in Hk as [Hk|[Hk Hk1]].
      * rewrite list_lookup_insert_ne; eauto. apply lookup_lt_Some in Hk. lia.
      * apply list_lookup_singleton_Some in Hk1 as [Hk1 <-]. assert (k = length names) as -> by lia. eexists.
        rewrite list_lookup_insert_eq by eauto using lookup_lt_Some. split; [reflexivity |]. cbn [ms_symbol].
        now apply c_str_zeroed.
    + intros k s' Hk. cbn in Hk. rewrite list_lookup_insert_ne by lia. apply Hz. lia.
Qed.

(** A book update for a followed symbol returns 0 and replaces the book of the first
    entry of that name, marking it updated, and nothing else; for another symbol it
    returns -1 and changes nothing.  The followed names never change. *)
Theorem monitor_update_book_correct m names snapshot symbol :
  monitor_wf m names -> c_str (bs_symbol snapshot) = Ok symbol ->
  match list_find (fun x => x = symbol) names with
  | Some (i, _) => exists m' s s', market_monitor_update_book (Some m) (Some snapshot) = Ok (0%Z, Some m') /\
      monitor_wf m' names /\ mm_symbols m !! i = Some s /\ mm_symbols m' = <[i := s']> (mm_symbols m) /\
      latest_book s' = snapshot /\ has_update s' = true /\ latest_trade s' = latest_trade s
  | None => market_monitor_update_book (Some m) (Some snapshot) = Ok ((-1)%Z, Some m)
  end.
Proof.
  intros Hwf Hs. cbn [market_monitor_update_book]. pose proof Hwf as (_ & Hc & _).
  destruct (Z.leb_spec (symbol_count m) 0).
  - destruct names; [reflexivity | cbn in Hc; lia].
  - rewrite Hs. cbn [mbind res_bind].
    pose proof (update_entry_spec m names symbol (fun s => mkMarketSymbol (ms_symbol s) snapshot (latest_trade s) true)
      Hwf (fun _ => eq_refl)) as H0.
    destruct (list_find _ names) as [[i x]|]; [|apply H0].
    destruct H0 as (s & Hi & _ & -> & Hwf'). do 3 eexists. split_and!; eauto.
Qed.

(** Displaying a book prints one row per bid, five at most unless the full depth is
    asked for, the bid followed by the ask of the same rank when there is one: asks
    beyond the number of displayed bids are not shown, however many there are. *)
Theorem print_book_snapshot_correct s full symbol bids asks :
  c_str (bs_symbol s) = Ok symbol -> bs_num_bids s = Z.of_nat (length bids) -> bs_num_asks s = Z.of_nat (length asks) ->
  cells_hold (bs_bid_prices s) fst bids -> cells_hold (bs_bid_quantities s) snd bids ->
  cells_hold (bs_ask_prices s) fst asks -> cells_hold (bs_ask_quantities s) snd asks ->
  print_book_snapshot s full =
  Ok (book_title symbol +:+ rows_text (if full then bids else take 5 bids) asks +:+ eol).
Proof.
  intros Hs Hb Ha Hbp Hbq Hap Haq. unfold print_book_snapshot. rewrite Hs, Hb. cbn [mbind res_bind]. destruct full.
  - rewrite Nat2Z.id, (print_rows_spec s bids asks) by (auto; lia). cbn [mbind res_bind].
    now rewrite !drop_0, firstn_all.
  - destruct (Z.ltb_spec 5 (Z.of_nat (length bids))).
    + rewrite (print_rows_spec s bids asks) by (auto; lia). cbn [mbind res_bind]. now rewrite !drop_0.
    + rewrite Nat2Z.id, (print_rows_spec s bids asks) by (auto; lia). cbn [mbind res_bind].
      now rewrite !drop_0, firstn_all, (take_ge bids 5) by lia.
Qed.

(** ** Concrete instances *)

Definition sample_monitor : MarketMonitor :=
  mkMarketMonitor
    [mkMarketSymbol (strncpy_fill (zero_buffer 16) "AAPL" 15) zero_snapshot zero_trade false;
     mkMarketSymbol (zero_buffer 16) zero_snapshot zero_trade false] 1 2 1000 false.

Lemma sample_monitor_wf : monitor_wf sample_monitor ["AAPL"%string].
Proof.
  split_and!; try reflexivity; try (cbn; unfold INT_MAX; lia).
  - intros [|k] name Hk; [|discriminate]. injection Hk as <-. eexists. split; reflexivity.
  - intros [|[|k]] s Hk; [cbn in Hk; lia | | discriminate]. intros [= <-]. reflexivity.
Qed.

Lemma monitor_subscribe_correct_witness :
  exists m', market_monitor_subscribe (Some sample_monitor) (Some "GOOG"%string) = Ok (0%Z, Some m') /\
    monitor_wf m' ["AAPL"%string; "GOOG"%string].
Proof. exact (monitor_subscribe_correct sample_monitor _ "GOOG" sample_monitor_wf eq_refl). Defined.

(** One bid, two asks. *)
Definition lopsided : BookSnapshot :=
  mkBookSnapshot (strncpy_fill (zero_buffer 16) "AAPL" 15) 1 2 0
    (Arr [Some (d_of_Z 150)]) (Arr [Some 10%Z]) (Arr [Some (d_of_Z 151); Some (d_of_Z 152)]) (Arr [Some 20; Some 30]%Z).

Lemma monitor_update_book_correct_witness :
  exists m' s s', market_monitor_update_book (Some sample_monitor) (Some lopsided) = Ok (0%Z, Some m') /\
    monitor_wf m' ["AAPL"%string] /\ mm_symbols sample_monitor !! 0%nat = Some s /\
    mm_symbols m' = <[0%nat := s']> (mm_symbols sample_monitor) /\
    latest_book s' = lopsided /\ has_update s' = true /\ latest_trade s' = latest_trade s.
Proof. exact (monitor_update_book_correct sample_monitor _ lopsided "AAPL" sample_monitor_wf eq_refl). Defined.

Lemma print_book_snapshot_correct_witness :
  print_book_snapshot lopsided false =
  Ok (book_title "AAPL" +:+ rows_text [(d_of_Z 150, 10%Z)] [(d_of_Z 151, 20%Z); (d_of_Z 152, 30%Z)] +:+ eol).
Proof.
  apply (print_book_snapshot_correct lopsided false "AAPL" [(d_of_Z 150, 10%Z)] [(d_of_Z 151, 20%Z); (d_of_Z 152, 30%Z)]);
    try reflexivity; intros [|[|k]] x Hx; try discriminate; injection Hx as <-; reflexivity.
Defined.
