(* ===== verification/WsClient.v ===== *)
(** * The WebSocket client (src/src/client/ws_client.c)

    libwebsockets is not part of the repository: [LwsClient] lists what the program asks
    of it, on a world [W] that also holds the state the callbacks work on.  The service
    thread is a loop over calls of [lws_service]; each delivers some events. *)

From Stdlib Require Import Ascii String ZArith Lia SpecFloat.
From stdpp Require Import base list numbers strings.
From S2P Require Import Prelude CDouble CString ClientCommands.

(** A [struct lws*] that is not null. *)
Definition connection := positive.

(** [lws_client_connect_via_info] to a host and port, and [lws_write]. *)
Class LwsClient (W : Type) : Type := {
  lws_connect : option string -> Z -> W -> option connection * W;
  lws_client_write : option connection -> string -> W -> Z * W
}.

Inductive client_reason : Type :=
| LWS_CALLBACK_CLIENT_ESTABLISHED
| LWS_CALLBACK_CLIENT_CLOSED
| LWS_CALLBACK_CLIENT_RECEIVE
| LWS_CALLBACK_CLIENT_CONNECTION_ERROR
| LWS_CALLBACK_CLIENT_OTHER.

Record WSClientConfig : Type := mkWSClientConfig {
  wcc_server_host : string;
  wcc_server_port : Z;
  wcc_reconnect_interval_ms : Z;
  wcc_ping_interval_ms : Z
}.

Section WsClient.

Context {W : Type} `{L : LwsClient W}.

(** Callbacks run on the world, with the pointer they were registered with. *)
Definition plain_callback : Type := option positive -> W -> res W.

Record WSClient : Type := mkWSClient {
  wc_connection : option connection;
  wc_running : bool;
  wc_connected : bool;
  wc_host : option string;
  wc_port : Z;
  wc_reconnect_interval_ms : Z;
  wc_ping_interval_ms : Z;
  wc_connect_cb : option plain_callback;
  wc_disconnect_cb : option plain_callback;
  wc_message_cb : option (string -> plain_callback);
  wc_user_data : option positive;
  wc_command_callback : option (Command -> plain_callback);
  wc_command_data : option positive
}.

Definition with_link (c : WSClient) (conn : option connection) (running connected : bool) : WSClient :=
  mkWSClient conn running connected (wc_host c) (wc_port c) (wc_reconnect_interval_ms c) (wc_ping_interval_ms c)
    (wc_connect_cb c) (wc_disconnect_cb c) (wc_message_cb c) (wc_user_data c) (wc_command_callback c) (wc_command_data c).
Definition with_callbacks (c : WSClient) (connect disconnect : option plain_callback)
    (message : option (string -> plain_callback)) (data : option positive) : WSClient :=
  mkWSClient (wc_connection c) (wc_running c) (wc_connected c) (wc_host c) (wc_port c) (wc_reconnect_interval_ms c)
    (wc_ping_interval_ms c) connect disconnect message data (wc_command_callback c) (wc_command_data c).

(** [strdup_ok]: the host was copied; the source does not check. *)
Definition ws_client_create (calloc_ok strdup_ok context_ok : bool) (config : WSClientConfig) : option WSClient :=
  if negb calloc_ok then None
  else if negb context_ok then None
  else Some (mkWSClient None false false (if strdup_ok then Some (wcc_server_host config) else None)
               (wcc_server_port config) (wcc_reconnect_interval_ms config) (wcc_ping_interval_ms config)
               None None None None None None).

Definition ws_client_set_connect_callback (client : option WSClient) (cb : option plain_callback)
    (data : option positive) : option WSClient :=
  (fun c => with_callbacks c cb (wc_disconnect_cb c) (wc_message_cb c) data) <$> client.
Definition ws_client_set_disconnect_callback (client : option WSClient) (cb : option plain_callback)
    (data : option positive) : option WSClient :=
  (fun c => with_callbacks c (wc_connect_cb c) cb (wc_message_cb c) data) <$> client.
Definition ws_client_set_message_callback (client : option WSClient) (cb : option (string -> plain_callback))
    (data : option positive) : option WSClient :=
  (fun c => with_callbacks c (wc_connect_cb c) (wc_disconnect_cb c) cb data) <$> client.
Definition ws_client_set_command_callback (client : option WSClient) (cb : option (Command -> plain_callback))
    (data : option positive) : option WSClient :=
  (fun c => mkWSClient (wc_connection c) (wc_running c) (wc_connected c) (wc_host c) (wc_port c)
              (wc_reconnect_interval_ms c) (wc_ping_interval_ms c) (wc_connect_cb c) (wc_disconnect_cb c)
              (wc_message_cb c) (wc_user_data c) cb data) <$> client.

(** A callback that may be null. *)
Definition call (cb : option plain_callback) (data : option positive) (w : W) : res W :=
  match cb with Some f => f data w | None => Ok w end.

(** One event; [inp] is the C string at the address the library passes: the received
    text and whatever precedes the next NUL of the receive buffer. *)
Definition callback_trading (client : WSClient) (reason : client_reason) (inp : string) (w : W)
    : res (WSClient * W) :=
  match reason with
  | LWS_CALLBACK_CLIENT_ESTABLISHED =>
      let client := with_link client (wc_connection client) (wc_running client) true in
      w ← call (wc_connect_cb client) (wc_user_data client) w; Ok (client, w)
  | LWS_CALLBACK_CLIENT_CLOSED =>
      let client := with_link client (wc_connection client) (wc_running client) false in
      w ← call (wc_disconnect_cb client) (wc_user_data client) w; Ok (client, w)
  | LWS_CALLBACK_CLIENT_RECEIVE =>
      w ← call ((fun f => f inp) <$> wc_message_cb client) (wc_user_data client) w; Ok (client, w)
  | LWS_CALLBACK_CLIENT_CONNECTION_ERROR =>
      Ok (with_link client (wc_connection client) (wc_running client) false, w)
  | LWS_CALLBACK_CLIENT_OTHER => Ok (client, w)
  end.

(** ** The service thread *)

Definition max_retries : Z := 3.
Definition backoff_ms : list Z := [1000; 2000; 4000]%Z.

(** How a turn of the loop ends: the loop goes on, or the process exits. *)
Inductive turn : Type :=
| Again (client : WSClient) (retry_count : Z) (w : W)
| Exit (w : W).

(** The body of the loop after [lws_service]. *)
Definition service_turn (client : WSClient) (retry_count : Z) (w : W) : res turn :=
  if negb (wc_connected client) && wc_running client then
    if (retry_count <? max_retries)%Z then
      match backoff_ms !! Z.to_nat retry_count with
      | None => UB OutOfBounds
      | Some _ =>
          let '(conn, w) := lws_connect (wc_host client) (wc_port client) w in
          n ← int_add retry_count 1;
          Ok (Again (with_link client conn (wc_running client) (wc_connected client)) n w)
      end
    else
      let client := with_link client (wc_connection client) false (wc_connected client) in
      w ← call (wc_disconnect_cb client) (wc_user_data client) w;
      w ← call ((fun f => f (bare CMD_QUIT)) <$> wc_command_callback client) (wc_command_data client) w;
      Ok (Exit w)
  else Ok (Again client retry_count w).

(** What happens during one [lws_service]: library events, or another thread stopping
    the client. *)
Inductive service_event : Type :=
| EvLws (reason : client_reason) (inp : string)
| EvStop.

Fixpoint run_events (evs : list service_event) (client : WSClient) (w : W) : res (WSClient * W) :=
  match evs with
  | [] => Ok (client, w)
  | EvStop :: evs => run_events evs (with_link client (wc_connection client) false (wc_connected client)) w
  | EvLws reason inp :: evs =>
      '(client, w) ← callback_trading client reason inp w;
      run_events evs client w
  end.

(** The loop, over the events of the successive calls of [lws_service]. *)
Fixpoint service_thread (batches : list (list service_event)) (client : WSClient) (retry_count : Z) (w : W)
    : res turn :=
  match batches with
  | [] => Ok (Again client retry_count w)
  | evs :: batches =>
      if negb (wc_running client) then Ok (Again client retry_count w)
      else
        '(client, w) ← run_events evs client w;
        t ← service_turn client retry_count w;
        match t with
        | Again client n w => service_thread batches client n w
        | Exit w => Ok (Exit w)
        end
  end.

(** ** The rest of the interface *)

Definition ws_client_connect (thread_ok : bool) (client : option WSClient) (w : W) : Z * option WSClient * W :=
  match client with
  | None => ((-1)%Z, None, w)
  | Some c =>
      if negb thread_ok then ((-1)%Z, Some (with_link c (wc_connection c) false (wc_connected c)), w)
      else
        let '(conn, w) := lws_connect (wc_host c) (wc_port c) w in
        match conn with
        | None => ((-1)%Z, Some (with_link c None false (wc_connected c)), w)
        | Some _ => (0%Z, Some (with_link c conn true (wc_connected c)), w)
        end
  end.

(** [None]: the process has exited. *)
Definition ws_client_disconnect (client : option WSClient) : option (option WSClient) :=
  match client with
  | None => Some None
  | Some c => if negb (wc_running c) then Some client else None
  end.

(** What is freed with the client, its copy of the host; [None]: the process has exited. *)
Definition ws_client_destroy (client : option WSClient) : option (list string) :=
  match client with
  | None => Some []
  | Some c =>
      match (if wc_running c then ws_client_disconnect (Some c) else Some (Some c)) with
      | None => None
      | Some _ => Some (match wc_host c with Some host => [host] | None => [] end)
      end
  end.

Definition ws_client_is_connected (client : option WSClient) : bool :=
  match client with Some c => wc_connected c | None => false end.

Definition ws_client_send (malloc_ok : bool) (client : option WSClient) (message : option string) (w : W) : Z * W :=
  match client, message with
  | Some c, Some m =>
      if negb (wc_connected c) then ((-1)%Z, w)
      else if negb malloc_ok then ((-1)%Z, w)
      else
        let '(result, w) := lws_client_write (wc_connection c) m w in
        ((if (result <? 0)%Z then -1 else 0)%Z, w)
  | _, _ => ((-1)%Z, w)
  end.

(** ** Lemmas *)

(** The connected flag after some events. *)
Definition link_after (connected : bool) (ev : service_event) : bool :=
  match ev with
  | EvLws LWS_CALLBACK_CLIENT_ESTABLISHED _ => true
  | EvLws LWS_CALLBACK_CLIENT_CLOSED _ | EvLws LWS_CALLBACK_CLIENT_CONNECTION_ERROR _ => false
  | _ => connected
  end.

(** The number of turns that end without a connection. *)
Fixpoint losses (connected : bool) (batches : list (list service_event)) : Z :=
  match batches with
  | [] => 0%Z
  | evs :: batches =>
      let connected := foldl link_after connected evs in
      ((if connected then 0 else 1) + losses connected batches)%Z
  end.

Lemma losses_nonneg b batches : (0 <= losses b batches)%Z.
Proof.
  revert b. induction batches as [|evs batches IH]; intros b; cbn; [lia |].
  specialize (IH (foldl link_after b evs)). destruct (foldl link_after b evs); lia.
Qed.

Definition is_stop (ev : service_event) : bool := match ev with EvStop => true | _ => false end.

(** The texts received during some events. *)
Definition received (evs : list service_event) : list string :=
  omap (fun ev => match ev with EvLws LWS_CALLBACK_CLIENT_RECEIVE inp => Some inp | _ => None end) evs.

Section Attempts.

(** The log of connection attempts a world carries, and an invariant of it under which the
    callbacks return for the texts of [heard] and do not connect themselves. *)
Context (dials : W -> list (option string * Z)) (inv : W -> Prop) (heard : list string).

Definition logged : Prop := forall host port w,
  inv w -> inv (snd (lws_connect host port w)) /\ dials (snd (lws_connect host port w)) = dials w ++ [(host, port)].

Definition settles (cb : option plain_callback) : Prop :=
  forall data w, inv w -> exists w', call cb data w = Ok w' /\ inv w' /\ dials w' = dials w.

Definition quiet (c : WSClient) : Prop :=
  settles (wc_connect_cb c) /\ settles (wc_disconnect_cb c) /\
  Forall (fun inp => settles ((fun f => f inp) <$> wc_message_cb c)) heard /\
  settles ((fun f => f (bare CMD_QUIT)) <$> wc_command_callback c).

(** Where the client connects to. *)
Definition target (c : WSClient) : option string * Z := (wc_host c, wc_port c).

Lemma callback_trading_quiet c reason inp w :
  quiet c -> inv w -> received [EvLws reason inp] ⊆ heard ->
  exists c' w', callback_trading c reason inp w = Ok (c', w') /\ quiet c' /\ inv w' /\ dials w' = dials w /\
    wc_running c' = wc_running c /\ target c' = target c /\ wc_connected c' = link_after (wc_connected c) (EvLws reason inp).
Proof.
  intros Hq Hi Hh. pose proof Hq as (H1 & H2 & H3 & _).
  destruct reason; cbn [callback_trading with_link wc_connect_cb wc_disconnect_cb wc_user_data].
  - destruct (H1 (wc_user_data c) w Hi) as (w' & -> & ? & ?). cbn. eauto 12.
  - destruct (H2 (wc_user_data c) w Hi) as (w' & -> & ? & ?). cbn. eauto 12.
  - rewrite Forall_forall in H3. destruct (H3 inp (Hh inp (list_elem_of_here _ _)) (wc_user_data c) w Hi) as (w' & -> & ? & ?).
    cbn. eauto 12.
  - cbn. eauto 12.
  - cbn. eauto 12.
Qed.

Lemma run_events_quiet evs c w :
  quiet c -> inv w -> received evs ⊆ heard -> forallb (fun ev => negb (is_stop ev)) evs = true ->
  exists c' w', run_events evs c w = Ok (c', w') /\ quiet c' /\ inv w' /\ dials w' = dials w /\
    wc_running c' = wc_running c /\ target c' = target c /\ wc_connected c' = foldl link_after (wc_connected c) evs.
Proof.
  revert c w. induction evs as [|ev evs IH]; intros c w Hq Hi Hh Hs; [cbn; eauto 12 |].
  destruct ev as [reason inp|]; [|discriminate]. cbn [run_events foldl].
  assert (Hh1 : received [EvLws reason inp] ⊆ heard /\ received evs ⊆ heard).
  { change (received (EvLws reason inp :: evs)) with (received ([EvLws reason inp] ++ evs)) in Hh.
    unfold received in *. rewrite omap_app in Hh. split; intros x Hx; apply Hh, elem_of_app; auto. }
  destruct Hh1 as [Hh1 Hh2].
  destruct (callback_trading_quiet c reason inp w Hq Hi Hh1) as (c1 & w1 & -> & Hq1 & Hi1 & Hd1 & Hr1 & Ht1 & Hc1). cbn [mbind res_bind].
  destruct (IH c1 w1 Hq1 Hi1 Hh2 Hs) as (c2 & w2 & -> & Hq2 & Hi2 & Hd2 & Hr2 & Ht2 & Hc2). exists c2, w2. rewrite Hc2, Hc1.
  split_and!; auto; congruence.
Qed.

(** From [n] attempts made on. *)
Lemma service_thread_spec batches c w n :
  logged -> quiet c -> inv w -> wc_running c = true -> Forall (fun evs => received evs ⊆ heard) batches ->
  forallb (forallb (fun ev => negb (is_stop ev))) batches = true -> (0 <= n <= 3)%Z ->
  if (n + losses (wc_connected c) batches <=? max_retries)%Z
  then exists c' w', service_thread batches c n w = Ok (Again c' (n + losses (wc_connected c) batches) w') /\
    wc_running c' = true /\ dials w' = dials w ++ replicate (Z.to_nat (losses (wc_connected c) batches)) (target c)
  else exists w', service_thread batches c n w = Ok (Exit w') /\
    dials w' = dials w ++ replicate (Z.to_nat (max_retries - n)) (target c).
Proof.
  intros Hlog. revert c w n. unfold max_retries.
  induction batches as [|evs batches IH]; intros c w n Hq Hi Hr Hh Hs Hn.
  { cbn [losses service_thread]. rewrite Z.add_0_r. destruct (Z.leb_spec n 3); [|lia]. cbn. rewrite app_nil_r. eauto. }
  cbn in Hs. apply andb_true_iff in Hs as [Hs1 Hs2]. apply Forall_cons in Hh as [Hh1 Hh2].
  cbn [losses service_thread]. rewrite Hr. cbn [negb].
  destruct (run_events_quiet evs c w Hq Hi Hh1 Hs1) as (c1 & w1 & -> & Hq1 & Hi1 & Hd1 & Hr1 & Ht1 & <-). cbn [mbind res_bind].
  unfold service_turn. rewrite Hr1, Hr. rewrite <- Ht1, <- Hd1. destruct (wc_connected c1) eqn:Hc; cbn [negb andb].
  { cbn [mbind res_bind]. rewrite Z.add_0_l. specialize (IH c1 w1 n Hq1 Hi1 ltac:(congruence) Hh2 Hs2 Hn). now rewrite Hc in IH. }
  unfold max_retries. pose proof (losses_nonneg false batches). destruct (Z.ltb_spec n 3).
  - assert (is_Some (backoff_ms !! Z.to_nat n)) as [d ->] by (apply lookup_lt_is_Some_2; cbn; lia).
    destruct (Hlog (wc_host c1) (wc_port c1) w1 Hi1) as [Hi2 Hd2].
    destruct (lws_connect (wc_host c1) (wc_port c1) w1) as [conn w2]. cbn [snd] in Hi2, Hd2.
    rewrite int_add_ok by (unfold in_int, INT_MIN, INT_MAX; lia). cbn [mbind res_bind].
    specialize (IH (with_link c1 conn true (wc_connected c1)) w2 (n + 1)%Z Hq1 Hi2 eq_refl Hh2 Hs2 ltac:(lia)).
    change (target (with_link c1 conn true (wc_connected c1))) with (target c1) in IH.
    cbn [with_link wc_connected] in IH. rewrite Hc, Hd2 in IH. rewrite Z.add_assoc.
    replace (Z.to_nat (1 + losses false batches)) with (S (Z.to_nat (losses false batches))) by lia.
    replace (Z.to_nat (3 - n)) with (S (Z.to_nat (3 - (n + 1)))) by lia.
    cbn [replicate]. change (wc_host c1, wc_port c1) with (target c1) in IH. rewrite <- !app_assoc in IH. exact IH.
  - destruct (Z.leb_spec (n + (1 + losses false batches)) 3); [lia |].
    pose proof Hq1 as (_ & H2 & _ & H4). cbn [with_link wc_disconnect_cb wc_user_data wc_command_callback wc_command_data].
    destruct (H2 (wc_user_data c1) w1 Hi1) as (w2 & -> & Hi2 & Hd2). cbn [mbind res_bind].
    destruct (H4 (wc_command_data c1) w2 Hi2) as (w3 & -> & _ & Hd3). cbn. exists w3. split; [reflexivity |].
    assert (n = 3%Z) as -> by lia. cbn. rewrite app_nil_r. congruence.
Qed.

(** ** Properties *)

(** C31: the service thread attempts to reconnect three times at most in the life of the
    client: while nobody stops the client, each of the first three turns that end without a
    connection makes one attempt, to the configured host and port, and the fourth makes none
    and exits the process, even if every attempt had succeeded and connections were up in
    between.  This is for callbacks that return for the texts received and do not connect
    themselves (the message handler of the program does not return for every text, see
    [trade_note_crashes_client]). *)
Theorem service_thread_budget batches c w :
  logged -> quiet c -> inv w -> wc_running c = true -> Forall (fun evs => received evs ⊆ heard) batches ->
  forallb (forallb (fun ev => negb (is_stop ev))) batches = true ->
  if (losses (wc_connected c) batches <=? max_retries)%Z
  then exists c' w', service_thread batches c 0 w = Ok (Again c' (losses (wc_connected c) batches) w') /\
    wc_running c' = true /\ dials w' = dials w ++ replicate (Z.to_nat (losses (wc_connected c) batches)) (target c)
  else exists w', service_thread batches c 0 w = Ok (Exit w') /\ dials w' = dials w ++ replicate 3 (target c).
Proof. intros Hl Hq Hi Hr Hh Hs. exact (service_thread_spec batches c w 0 Hl Hq Hi Hr Hh Hs ltac:(lia)). Qed.

End Attempts.

End WsClient.

Arguments WSClient W : clear implicits.
Arguments turn W : clear implicits.

(** ** A concrete instance *)

(** A world that logs the connection attempts; every write is taken whole. *)
#[export] Instance logging_lws : LwsClient (list (option string * Z)) :=
  {| lws_connect host port w := (Some 1%positive, w ++ [(host, port)]);
     lws_client_write _ s w := (Z.of_nat (strlen s), w) |}.

(** A client whose message callback returns for one text only. *)
Definition fresh_client : WSClient (list (option string * Z)) :=
  mkWSClient None true false (Some "localhost"%string) 8080 5000 30000 None None
    (Some (fun text _ w => if String.eqb text "hello" then Ok w else UB NullDeref)) None None None.

(** Four losses, each reconnection succeeding. *)
Definition flapping : list (list service_event) :=
  let up := [EvLws LWS_CALLBACK_CLIENT_ESTABLISHED ""; EvLws LWS_CALLBACK_CLIENT_RECEIVE "hello"] in
  let down := [EvLws LWS_CALLBACK_CLIENT_CLOSED ""] in
  [up; down; up; down; up; down; up; down].

Lemma service_thread_budget_witness :
  exists w', service_thread flapping fresh_client 0 [] = Ok (Exit w') /\
    w' = [] ++ replicate 3 (Some "localhost"%string, 8080%Z).
Proof.
  apply (service_thread_budget (fun w => w) (fun _ => True) ["hello"%string] flapping fresh_client []).
  - intros host port w _. split; [exact I | reflexivity].
  - split_and!; [| |constructor; [|constructor] |]; intros data w _; eexists; split_and!; reflexivity.
  - exact I.
  - reflexivity.
  - by_decide.
  - reflexivity.
Defined.
