(* ===== verification/ClientApp.v ===== *)
(** * The client program (src/src/client/command_line.c, src/src/client/client_app.c)

    The input loop parses lines and hands commands on; [handle_command] sends requests,
    [handle_message] records trades and prints what the server sends.  The file's static
    variables are the record [App]; printed text is appended to [app_out].  Calls of
    [exit] are outcomes of their own. *)

From Stdlib Require Import Ascii String ZArith Lia SpecFloat.
From stdpp Require Import base list numbers strings.
From S2P Require Import Prelude CDouble CString CJson Protocol JsonProtocol ClientCommands OrderEntry TradeHistory.
From S2P Require Import MarketMonitor WsClient.

(** ** The command line *)

Section CommandLine.

Context {W : Type}.

(** A command callback; [None] when it ends the process. *)
Definition command_callback : Type := Command -> option positive -> W -> res (option W).

Record CommandLine : Type := mkCommandLine {
  cl_running : bool;
  cl_callback : option command_callback;
  cl_user_data : option positive
}.

Definition command_line_create (calloc_ok : bool) : option CommandLine :=
  if negb calloc_ok then None else Some (mkCommandLine false None None).

Definition command_line_set_callback (cmd_line : option CommandLine) (cb : option command_callback)
    (data : option positive) : option CommandLine :=
  (fun c => mkCommandLine (cl_running c) cb data) <$> cmd_line.

Definition command_line_start (thread_ok : bool) (cmd_line : option CommandLine) : Z * option CommandLine :=
  match cmd_line with
  | None => ((-1)%Z, None)
  | Some c =>
      if cl_running c then ((-1)%Z, cmd_line)
      else if thread_ok then (0%Z, Some (mkCommandLine true (cl_callback c) (cl_user_data c)))
      else ((-1)%Z, Some (mkCommandLine false (cl_callback c) (cl_user_data c)))
  end.

Definition command_line_stop (cmd_line : option CommandLine) : option CommandLine :=
  match cmd_line with
  | None => None
  | Some c => if negb (cl_running c) then cmd_line else Some (mkCommandLine false (cl_callback c) (cl_user_data c))
  end.

Definition call_command (c : CommandLine) (cmd : Command) (w : W) : res (option W) :=
  match cl_callback c with
  | Some cb => cb cmd (cl_user_data c) w
  | None => Ok (Some w)
  end.

(** What is freed, as it is then: a running command line has been stopped. *)
Definition command_line_destroy (cmd_line : option CommandLine) : option CommandLine :=
  match cmd_line with
  | None => None
  | Some c => if cl_running c then command_line_stop (Some c) else Some c
  end.

(** The body of the input thread's loop, with what [readline] returned (null at the end of
    the input) and the clock when the line is parsed; [None] when the process has ended.
    [printf] appends to standard output. *)
Definition input_turn (printf : string -> W -> W) (now : Z) (line : option string) (c : CommandLine) (w : W)
    : res (option (CommandLine * W)) :=
  match line with
  | None | Some EmptyString => Ok (Some (c, w))
  | Some line =>
      let cmd := parse_command now (Some line) in
      match cmd_type cmd with
      | CMD_QUIT =>
          let c := mkCommandLine false (cl_callback c) (cl_user_data c) in
          w ← call_command c cmd w;
          Ok (match (w : option W) with Some w => Some (c, w) | None => None end)
      | CMD_HELP => Ok (Some (c, printf print_command_help w))
      | CMD_INVALID => Ok (Some (c, w))
      | _ =>
          w ← call_command c cmd w;
          Ok (match (w : option W) with Some w => Some (c, w) | None => None end)
      end
  end.

(** The input thread, over the lines it reads; after [QUIT] the flag is clear, so the loop
    ends as its [break] does. *)
Fixpoint input_thread (printf : string -> W -> W) (lines : list (Z * option string)) (c : CommandLine) (w : W)
    : res (option (CommandLine * W)) :=
  match lines with
  | [] => Ok (Some (c, w))
  | (now, line) :: lines =>
      if negb (cl_running c) then Ok (Some (c, w))
      else
        r ← input_turn printf now line c w;
        match (r : option (CommandLine * W)) with
        | Some (c, w) => input_thread printf lines c w
        | None => Ok None
        end
  end.

End CommandLine.

Arguments CommandLine W : clear implicits.

(** ** The program *)

(** [printf("%8s")] of a formatted number. *)
Definition pad8 (s : string) : string := String.concat "" (replicate (8 - strlen s) " "%string) +:+ s.
Definition rule : string := "----------------------------------------" +:+ eol.
Definition prompt : string := eol +:+ "trading> ".

Section ClientApp.

Context {J : Type} `{CJ : CJson J} {W : Type} `{L : LwsClient W}.

Record App : Type := mkApp {
  app_running : bool;
  app_view : bool;
  app_history : option TradeHistory;
  app_monitor : option MarketMonitor;
  app_out : string;
  app_net : W
}.

Definition print_app (a : App) (text : string) : App :=
  mkApp (app_running a) (app_view a) (app_history a) (app_monitor a) (app_out a +:+ text) (app_net a).
Definition set_view (a : App) (v : bool) : App :=
  mkApp (app_running a) v (app_history a) (app_monitor a) (app_out a) (app_net a).
Definition set_net (a : App) (w : W) : App :=
  mkApp (app_running a) (app_view a) (app_history a) (app_monitor a) (app_out a) w.
Definition set_records (a : App) (h : option TradeHistory) (m : option MarketMonitor) : App :=
  mkApp (app_running a) (app_view a) h m (app_out a) (app_net a).

(** The client's callbacks work on the program's state. *)
#[export] Instance lws_app : LwsClient App :=
  {| lws_connect host port a := let '(c, w) := lws_connect host port (app_net a) in (c, set_net a w);
     lws_client_write c text a := let '(r, w) := lws_client_write c text (app_net a) in (r, set_net a w) |}.

(** A command from the user; [pid] is the process id and [None] the end of the process. *)
Definition handle_command (pid : Z) (malloc_ok : bool) (ws : option (WSClient App)) (cmd : Command) (a : App)
    : option App :=
  match cmd_type cmd with
  | CMD_QUIT => None
  | _ =>
      let a := match cmd_type cmd with CMD_VIEW => set_view a true | _ => a end in
      if negb (ws_client_is_connected ws) then Some a
      else
        let trader_id := snprintf 32 ("TRADER" +:+ print_int pid) in
        match format_command_as_json (J := J) cmd trader_id with
        | None => Some a
        | Some json => Some (snd (ws_client_send malloc_ok ws (Some json) a))
        end
  end.

(** ** Messages from the server *)

(** [cJSON_GetObjectItem(o, k)->valuestring] where it is printed. *)
Definition string_at (o : option J) (k : string) : res string :=
  i ← deref (get_item o k); deref (valuestring i).

(** A member that is present and of the kind. *)
Definition checked_item (o : J) (k : string) (kind : J -> bool) : option J :=
  match cJSON_GetObjectItem o k with
  | Some i => if kind i then Some i else None
  | None => None
  end.

Definition accepted_text (id symbol side : string) (price : double) (quantity : Z) : string :=
  eol +:+ "=== Order Successfully Placed ===" +:+ eol +:+
  "  Order ID: " +:+ id +:+ eol +:+ "  Symbol:   " +:+ symbol +:+ eol +:+ "  Side:     " +:+ side +:+ eol +:+
  "  Price:    $" +:+ print_double2 price +:+ eol +:+ "  Quantity: " +:+ print_int quantity +:+ eol +:+
  "===============================" +:+ eol +:+ prompt.

Definition show_accepted (root : J) (a : App) : res App :=
  match checked_item root "Trade Details" cJSON_IsObject with
  | None => Ok a
  | Some details =>
      match checked_item details "Order ID" cJSON_IsString, checked_item details "Symbol" cJSON_IsString,
            checked_item details "Price" cJSON_IsNumber, checked_item details "Quantity" cJSON_IsNumber,
            checked_item details "Type" cJSON_IsString with
      | Some id, Some symbol, Some price, Some quantity, Some type =>
          id ← deref (valuestring id); symbol ← deref (valuestring symbol); side ← deref (valuestring type);
          Ok (print_app a (accepted_text id symbol side (valuedouble price) (valueint quantity)))
      | _, _, _, _, _ => Ok a
      end
  end.

Definition show_rejected (root : J) (a : App) : res App :=
  order_id ← string_at (Some root) "order_id";
  reason ← string_at (Some root) "reason";
  Ok (print_app a (eol +:+ "=== Order Rejected ===" +:+ eol +:+ "  Order ID: " +:+ order_id +:+ eol +:+
        "  Reason:   " +:+ reason +:+ eol +:+ "===================" +:+ eol +:+ prompt)).

Definition executed_text (symbol buy sell : string) (price : double) (quantity : Z) : string :=
  eol +:+ "=== Trade Executed ===" +:+ eol +:+ "  Symbol:    " +:+ symbol +:+ eol +:+
  "  Price:     $" +:+ print_double2 price +:+ eol +:+ "  Quantity:  " +:+ print_int quantity +:+ eol +:+
  "  Buy ID:    " +:+ buy +:+ eol +:+ "  Sell ID:   " +:+ sell +:+ eol +:+ "===================" +:+ eol +:+ prompt.

(** [stack] is what the uninitialised [trade] holds. *)
Definition record_trade (calloc_ok : bool) (stack : TradeMessage) (message : string) (a : App) : res App :=
  '(parsed, trade) ← parse_trade_message (J := J) (Some message) (Some stack);
  if negb (parsed : bool) then Ok a
  else
    trade ← deref trade;
    '(_, history) ← trade_history_add_trade calloc_ok (app_history a) (Some trade);
    '(_, monitor, line) ← market_monitor_update_trade (app_monitor a) (Some trade);
    symbol ← c_str (tm_symbol trade); buy ← c_str (tm_buy_order_id trade); sell ← c_str (tm_sell_order_id trade);
    Ok (print_app (set_records a history monitor)
          (line +:+ executed_text symbol buy sell (tm_price trade) (tm_quantity trade))).

(** The price and the quantity of a level, and a row of the displayed book. *)
Definition level_at (level : option J) : res (double * Z) :=
  price ← deref (get_item level "price");
  quantity ← deref (get_item level "quantity");
  Ok (valuedouble price, valueint quantity).

Definition bid_cell (l : double * Z) : string := pad8 (print_double2 l.1) +:+ "  " +:+ pad8 (print_int l.2) +:+ "  |".
Definition no_bid_cell : string := "                   |".
Definition ask_cell (l : double * Z) : string := "  " +:+ pad8 (print_double2 l.1) +:+ "  " +:+ pad8 (print_int l.2).

Definition view_row (bids asks : J) (num_bids num_asks : Z) (i : Z) : res string :=
  bid ← (if (i <? num_bids)%Z then l ← level_at (cJSON_GetArrayItem bids (num_bids - 1 - i)); Ok (bid_cell l)
         else Ok no_bid_cell);
  ask ← (if (i <? num_asks)%Z then l ← level_at (cJSON_GetArrayItem asks i); Ok (ask_cell l) else Ok ""%string);
  Ok (bid +:+ ask +:+ eol).

Fixpoint view_rows (bids asks : J) (num_bids num_asks : Z) (i n : nat) : res string :=
  match n with
  | O => Ok ""%string
  | S n =>
      row ← view_row bids asks num_bids num_asks (Z.of_nat i);
      rest ← view_rows bids asks num_bids num_asks (S i) n;
      Ok (row +:+ rest)
  end.

Definition view_title (symbol : string) : string :=
  eol +:+ "=== Order Book: " +:+ symbol +:+ " ===" +:+ eol +:+ rule +:+
  "      BIDS          |        ASKS       " +:+ eol +:+ "  Price    Volume   |   Price    Volume " +:+ eol +:+ rule.

Definition empty_note (num_bids num_asks : Z) : string :=
  if (num_bids =? 0)%Z && (num_asks =? 0)%Z then "        (Empty Order Book)             " +:+ eol else ""%string.

Definition show_book (root : J) (a : App) : res App :=
  if negb (app_view a) then Ok a
  else
    symbol_item ← deref (cJSON_GetObjectItem root "symbol");
    match cJSON_GetObjectItem root "bids", cJSON_GetObjectItem root "asks" with
    | Some bids, Some asks =>
        symbol ← deref (valuestring symbol_item);
        let num_bids := cJSON_GetArraySize bids in
        let num_asks := cJSON_GetArraySize asks in
        let max_rows := if (num_asks <? num_bids)%Z then num_bids else num_asks in
        rows ← view_rows bids asks num_bids num_asks 0 (Z.to_nat max_rows);
        Ok (set_view (print_app a (view_title symbol +:+ rows +:+ rule +:+ empty_note num_bids num_asks +:+ prompt)) false)
    | _, _ => Ok a
    end.

Definition show_status (root : J) (a : App) : res App :=
  status ← string_at (Some root) "status";
  Ok (print_app a (eol +:+ "Server Status: " +:+ status +:+ eol +:+ prompt)).

Definition handle_message (calloc_ok : bool) (stack : TradeMessage) (message : string) (a : App) : res App :=
  match parse_base_message (J := J) (Some message) with
  | None => Ok a
  | Some msg_type =>
      match cJSON_Parse (J := J) message with
      | None => Ok a
      | Some root =>
          if (msg_type =? MSG_ORDER_ACCEPTED)%Z then show_accepted root a
          else if (msg_type =? MSG_ORDER_REJECTED)%Z then show_rejected root a
          else if (msg_type =? MSG_TRADE_EXECUTED)%Z then record_trade calloc_ok stack message a
          else if (msg_type =? MSG_BOOK_SNAPSHOT)%Z then show_book root a
          else if (msg_type =? MSG_SERVER_STATUS)%Z then show_status root a
          else Ok a
      end
  end.

(** ** Lemmas *)

Context `{CL : !CJsonLaws J}.

(** A row of the display: a bid and an ask, either may be missing. *)
Definition row_text (bid ask : option (double * Z)) : string :=
  (match bid with Some l => bid_cell l | None => no_bid_cell end) +:+
  (match ask with Some l => ask_cell l | None => ""%string end) +:+ eol.

(** The rows [i .. i + n - 1] of two lists of levels, best first. *)
Fixpoint rows_of (bids asks : list (double * Z)) (i n : nat) : string :=
  match n with
  | O => ""%string
  | S n => row_text (bids !! i) (asks !! i) +:+ rows_of bids asks (S i) n
  end.

Definition book_view (symbol : string) (bids asks : list (double * Z)) : string :=
  view_title symbol +:+ rows_of bids asks 0 (Nat.max (length bids) (length asks)) +:+ rule +:+
  empty_note (Z.of_nat (length bids)) (Z.of_nat (length asks)) +:+ prompt.

Lemma level_at_repr items lv k l :
  repr items (JArr (map level_json lv)) -> lv !! k = Some l -> in_int l.2 ->
  level_at (cJSON_GetArrayItem items (Z.of_nat k)) = Ok l.
Proof.
  intros Hi Hk Hq. destruct l as [p q]. destruct (get_array_item _ _ k (level_json (p, q)) Hi) as (i & -> & Hl).
  { change (map level_json lv) with (level_json <$> lv). now rewrite list_lookup_fmap, Hk. }
  unfold level_at. cbn [get_item]. destruct (get_found _ _ "price" (JNum p) Hl eq_refl) as (ip & -> & H1).
  destruct (get_found _ _ "quantity" (JNum (d_of_Z q)) Hl eq_refl) as (iq & -> & H2). cbn [deref mbind res_bind].
  now rewrite (value_double _ _ H1), (value_int _ _ H2 Hq).
Qed.

Lemma view_row_spec bj aj bids asks i :
  repr bj (JArr (map level_json bids)) -> repr aj (JArr (map level_json asks)) ->
  Forall (fun pq => in_int (snd pq)) (bids ++ asks) ->
  view_row bj aj (Z.of_nat (length bids)) (Z.of_nat (length asks)) (Z.of_nat i) =
  Ok (row_text (reverse bids !! i) (asks !! i)).
Proof.
  intros Hb Ha [Fb Fa]%Forall_app. rewrite Forall_lookup in Fb, Fa. unfold view_row, row_text.
  assert (Hask : (if (Z.of_nat i <? Z.of_nat (length asks))%Z
     then l ← level_at (cJSON_GetArrayItem aj (Z.of_nat i)); Ok (ask_cell l) else Ok ""%string) =
     Ok (match asks !! i with Some l => ask_cell l | None => ""%string end)).
  { destruct (Z.ltb_spec (Z.of_nat i) (Z.of_nat (length asks))); [|now rewrite lookup_ge_None_2 by lia].
    destruct (lookup_lt_is_Some_2 asks i) as [l Hl]; [lia |].
    rewrite (level_at_repr _ _ _ _ Ha Hl (Fa _ _ Hl)), Hl. reflexivity. }
  destruct (Z.ltb_spec (Z.of_nat i) (Z.of_nat (length bids))).
  - rewrite reverse_lookup by lia. destruct (lookup_lt_is_Some_2 bids (length bids - S i)) as [l Hl]; [lia |].
    replace (Z.of_nat (length bids) - 1 - Z.of_nat i)%Z with (Z.of_nat (length bids - S i)) by lia.
    rewrite (level_at_repr _ _ _ _ Hb Hl (Fb _ _ Hl)), Hl. cbn [mbind res_bind]. rewrite Hask. reflexivity.
  - rewrite (lookup_ge_None_2 (reverse bids)) by (rewrite length_reverse; lia). cbn [mbind res_bind]. rewrite Hask. reflexivity.
Qed.

Lemma view_rows_spec bj aj bids asks n i :
  repr bj (JArr (map level_json bids)) -> repr aj (JArr (map level_json asks)) ->
  Forall (fun pq => in_int (snd pq)) (bids ++ asks) ->
  view_rows bj aj (Z.of_nat (length bids)) (Z.of_nat (length asks)) i n = Ok (rows_of (reverse bids) asks i n).
Proof.
  intros Hb Ha HF. revert i. induction n as [|n IH]; intros i; [reflexivity |]. cbn [view_rows rows_of].
  rewrite (view_row_spec bj aj bids asks i Hb Ha HF). cbn [mbind res_bind]. rewrite IH. reflexivity.
Qed.

(** ** Properties *)

(** C25: a book the server serialises is displayed, once for each view command, with one
    row per level of the longer side, bids from the last of the snapshot to the first
    (best first) beside the asks in the order of the snapshot; a snapshot nobody asked
    for prints nothing and changes nothing. *)
Theorem view_shows_book ok stack s sym bids asks a :
  c_str (bs_symbol s) = Ok sym ->
  bs_num_bids s = Z.of_nat (length bids) -> bs_num_asks s = Z.of_nat (length asks) ->
  arr_values (bs_bid_prices s) (length bids) = Some (map fst bids) ->
  arr_values (bs_bid_quantities s) (length bids) = Some (map snd bids) ->
  arr_values (bs_ask_prices s) (length asks) = Some (map fst asks) ->
  arr_values (bs_ask_quantities s) (length asks) = Some (map snd asks) ->
  Forall (fun pq => num_exact (fst pq) /\ in_int (snd pq)) (bids ++ asks) ->
  exists text, serialize_book_snapshot (J := J) (Some s) = Ok (Some text) /\
    handle_message ok stack text a =
    Ok (if app_view a then set_view (print_app a (book_view sym (reverse bids) asks)) false else a).
Proof.
  intros Hs Nb Na V1 V2 V3 V4 HF.
  destruct (snapshot_text s sym bids asks) as (text & j & -> & Hp & Hj); auto. exists text. split; [reflexivity |].
  unfold handle_message. rewrite (snapshot_base_type text j sym bids asks Hp Hj), Hp. cbn [Z.eqb MSG_BOOK_SNAPSHOT
    MSG_ORDER_ACCEPTED MSG_ORDER_REJECTED MSG_TRADE_EXECUTED Pos.eqb]. unfold show_book.
  destruct (app_view a); [cbn [negb] | reflexivity].
  destruct (get_found _ _ "symbol" (JStr sym) Hj eq_refl) as (i1 & -> & H1).
  destruct (get_found _ _ "bids" (JArr (map level_json bids)) Hj eq_refl) as (i2 & -> & H2).
  destruct (get_found _ _ "asks" (JArr (map level_json asks)) Hj eq_refl) as (i3 & -> & H3).
  cbn [deref mbind res_bind]. rewrite (value_string _ _ H1), (get_array_size _ _ H2), (get_array_size _ _ H3), !length_map.
  cbn [deref mbind res_bind]. rewrite (view_rows_spec i2 i3 bids asks _ _ H2 H3 (Forall_impl _ _ _ HF (fun pq H => proj2 H))).
  cbn [mbind res_bind]. unfold book_view. rewrite length_reverse. do 7 f_equal.
  destruct (Z.ltb_spec (Z.of_nat (length asks)) (Z.of_nat (length bids))); lia.
Qed.

(** C30: a trade message is recorded and shown: whatever else the object carries, its
    strings, price and quantity become the newest record of the history, which stays
    well-formed, the monitor keeps following the same symbols, and the trade is printed,
    after the monitor's own line if it follows the symbol. *)
Theorem trade_message_recorded stack text j fs sym buy sell price q ts a h m names :
  cJSON_Parse text = Some j -> repr j (JObj fs) ->
  jlookup "type" fs = Some (JNum (d_of_Z MSG_TRADE_EXECUTED)) -> trade_members fs sym buy sell price q ts ->
  in_int q -> (0 <= ts < 2 ^ 53)%Z ->
  length (tm_symbol stack) = 16%nat -> length (tm_buy_order_id stack) = 32%nat -> length (tm_sell_order_id stack) = 32%nat ->
  nul_free sym = true -> nul_free buy = true -> nul_free sell = true ->
  (strlen sym < 15)%nat -> (strlen buy < 31)%nat -> (strlen sell < 31)%nat ->
  app_history a = Some h -> history_wf h -> app_monitor a = Some m -> monitor_wf m names ->
  exists a' h' m' t, handle_message true stack text a = Ok a' /\
    app_history a' = Some h' /\ history_wf h' /\ head (th_trades h') = Some t /\
    c_str (tm_symbol t) = Ok sym /\ c_str (tm_buy_order_id t) = Ok buy /\ c_str (tm_sell_order_id t) = Ok sell /\
    tm_price t = price /\ tm_quantity t = q /\ tm_timestamp t = ts /\
    app_monitor a' = Some m' /\ monitor_wf m' names /\
    app_out a' = app_out a +:+ ((if bool_decide (sym ∈ names) then trade_line sym t else ""%string) +:+
                               executed_text sym buy sell price q).
Proof.
  intros Hp Hj Ht HM Hq Hts L1 L2 L3 N1 N2 N3 S1 S2 S3 Ha Hh Hm Hwf. unfold handle_message.
  rewrite (base_message_spec text j fs MSG_TRADE_EXECUTED Hp Hj), Hp by
    (first [split; vm_compute; discriminate | intros d; rewrite Ht; congruence]).
  unfold base_type. rewrite Ht. cbn [Z.eqb MSG_ORDER_ACCEPTED MSG_ORDER_REJECTED MSG_TRADE_EXECUTED Pos.eqb].
  unfold record_trade. rewrite (parse_trade_members text j fs sym buy sell price q ts stack Hp Hj HM Hq Hts).
  cbn [mbind res_bind negb deref]. set (t := mkTradeMessage _ _ _ _ _ _).
  assert (C1 : c_str (tm_symbol t) = Ok sym) by (apply c_str_copied; auto; lia).
  assert (C2 : c_str (tm_buy_order_id t) = Ok buy) by (apply c_str_copied; auto; lia).
  assert (C3 : c_str (tm_sell_order_id t) = Ok sell) by (apply c_str_copied; auto; lia).
  rewrite Ha. destruct (add_trade_spec h t Hh) as (h' & -> & Hh' & Et). cbn [mbind res_bind].
  rewrite Hm. destruct (update_trade_spec m names t sym Hwf C1) as (r & m' & -> & Hwf'). cbn [mbind res_bind].
  rewrite C1, C2, C3. cbn [mbind res_bind]. do 4 eexists. split_and!; try reflexivity; eauto. now rewrite Et.
Qed.

End ClientApp.

Arguments App W : clear implicits.

(** ** Concrete instances *)

Import RefJson.

Definition sample_app (view : bool) : App nat :=
  mkApp true view (Some full_history) (Some sample_monitor) "" 0%nat.

Lemma view_shows_book_witness :
  exists text, serialize_book_snapshot (J := jvalue) (Some sample_snapshot) = Ok (Some text) /\
    handle_message (J := jvalue) true zero_trade text (sample_app true) =
    Ok (set_view (print_app (sample_app true) (book_view "MSFT" [(d_of_Z 99, 10%Z)] [(d_of_Z 101, 0%Z)])) false).
Proof.
  refine (view_shows_book (J := jvalue) true zero_trade sample_snapshot "MSFT" [(d_of_Z 99, 10%Z)]
    [(d_of_Z 101, 0%Z)] (sample_app true) eq_refl eq_refl eq_refl eq_refl eq_refl eq_refl eq_refl _).
  repeat constructor; try reflexivity; vm_compute; discriminate.
Defined.

Definition executed_fields : list (string * jvalue) :=
  [("type", JNum (d_of_Z 104)); ("symbol", JStr "AAPL"); ("buy_order_id", JStr "B1"); ("sell_order_id", JStr "S1");
   ("price", JNum (d_of_Z 150)); ("quantity", JNum (d_of_Z 10)); ("timestamp", JNum (d_of_Z 1700000000))]%string.

Lemma trade_message_recorded_witness :
  exists a' h' m' t, handle_message (J := jvalue) true zero_trade (print (JObj executed_fields)) (sample_app false) = Ok a' /\
    app_history a' = Some h' /\ history_wf h' /\ head (th_trades h') = Some t /\
    c_str (tm_symbol t) = Ok "AAPL"%string /\ c_str (tm_buy_order_id t) = Ok "B1"%string /\
    c_str (tm_sell_order_id t) = Ok "S1"%string /\ tm_price t = d_of_Z 150 /\ tm_quantity t = 10%Z /\
    tm_timestamp t = 1700000000%Z /\ app_monitor a' = Some m' /\ monitor_wf m' ["AAPL"%string] /\
    app_out a' = "" +:+ (trade_line "AAPL" t +:+ executed_text "AAPL" "B1" "S1" (d_of_Z 150) 10).
Proof.
  refine (trade_message_recorded (J := jvalue) zero_trade (print (JObj executed_fields)) (JObj executed_fields)
    executed_fields "AAPL" "B1" "S1" (d_of_Z 150) 10 1700000000 (sample_app false) full_history sample_monitor
    ["AAPL"%string] _ _ eq_refl _ _ _ eq_refl eq_refl eq_refl eq_refl eq_refl eq_refl _ _ _ eq_refl full_history_wf eq_refl
    sample_monitor_wf).
  all: first [vm_compute; reflexivity | split; vm_compute; first [reflexivity | discriminate] | vm_compute; lia |
    (split_and!; reflexivity) | idtac].
Defined.
