(* ===== verification/ClientProgram.v ===== *)
(** * The client's main (src/src/client/client_app.c)

    [main] creates the components, registers the callbacks, connects and starts the
    command line; from then on the input thread, the service thread, signals and the main
    loop drive the program.  [ClientProgram] holds what the file's static variables point
    to; [client_start] is [main] up to its loop, [client_cleanup] what follows it, and
    [client_step] a step of one of the threads.  The process may end in any of them. *)

From Stdlib Require Import Ascii String ZArith Lia SpecFloat.
From stdpp Require Import base list numbers strings.
From S2P Require Import Prelude CDouble CString CJson Protocol JsonProtocol ClientCommands OrderEntry TradeHistory.
From S2P Require Import MarketMonitor WsClient ClientApp.

Definition client_ws_config : WSClientConfig := mkWSClientConfig "localhost" 8080 5000 30000.
Definition order_config : OrderEntryConfig := mkOrderEntryConfig "TRADER1" 1000 (d_of_Z 10000000).
Definition history_config : TradeHistoryConfig := mkTradeHistoryConfig 1000 true.
Definition monitor_config : MarketMonitorConfig := mkMarketMonitorConfig 100 1000 false.

Definition EXIT_SUCCESS : Z := 0.
Definition EXIT_FAILURE : Z := 1.

(** The components of the program. *)
Inductive client_component : Type :=
| TheClient
| TheLine
| TheOrders
| TheHistory
| TheMonitor.

#[export] Instance client_component_eq_dec : EqDecision client_component.
Proof. solve_decision. Defined.

Section ClientProgram.

Context {J : Type} `{CJ : CJson J} {W : Type} `{L : LwsClient W}.

(** What the command line's callback works on: the connection and the program's state. *)
Record ClientState : Type := mkClientState {
  cst_ws : option (WSClient (App W));
  cst_app : App W
}.

Record ClientProgram : Type := mkClientProgram {
  cp_line : option (CommandLine ClientState);
  cp_state : ClientState;
  cp_orders : option OrderEntry;
  cp_retries : Z;
  cp_live : list client_component
}.

(** The process runs on, waits for a thread that has not ended, or has exited, with the
    components that were not destroyed. *)
Inductive outcome : Type :=
| Runs (p : ClientProgram)
| Waits (p : ClientProgram)
| Exits (status : Z) (a : App W) (left : list client_component).

Definition set_app_running (a : App W) (r : bool) : App W :=
  mkApp r (app_view a) (app_history a) (app_monitor a) (app_out a) (app_net a).
Definition with_state (p : ClientProgram) (st : ClientState) : ClientProgram :=
  mkClientProgram (cp_line p) st (cp_orders p) (cp_retries p) (cp_live p).
Definition with_line (p : ClientProgram) (line : option (CommandLine ClientState)) (st : ClientState) : ClientProgram :=
  mkClientProgram line st (cp_orders p) (cp_retries p) (cp_live p).

(** [handle_connect] and [handle_disconnect] only log. *)
Definition handle_connect : plain_callback (W := App W) := fun _ a => Ok a.
Definition handle_disconnect : plain_callback (W := App W) := fun _ a => Ok a.

(** The callbacks of [main]: [handle_message] of [ClientApp], and [handle_command] with the
    connection as its user data. *)
Definition message_callback (calloc_ok : bool) (stack : TradeMessage) : string -> plain_callback (W := App W) :=
  fun message _ a => handle_message (J := J) calloc_ok stack message a.
Definition command_handler (pid : Z) (malloc_ok : bool) : command_callback (W := ClientState) :=
  fun cmd _ st =>
    Ok ((fun a => mkClientState (cst_ws st) a) <$> handle_command (J := J) pid malloc_ok (cst_ws st) cmd (cst_app st)).

(** ** Starting *)

(** What may fail while the program starts. *)
Record client_flags : Type := mkClientFlags {
  cf_client : bool; cf_host : bool; cf_context : bool; cf_line : bool; cf_orders : bool; cf_trader : bool;
  cf_history : bool; cf_monitor : bool; cf_symbols : bool; cf_service : bool; cf_input : bool
}.

(** What follows the main loop, and the label [cleanup].  Destroying a command line that
    runs joins its thread; destroying a connection that runs ends the process with [exit(0)]
    before it is freed.  The records freed with the history and the orders are the results of
    their destructors; here only the components are followed. *)
Definition client_cleanup (p : ClientProgram) : res outcome :=
  let a := cst_app (cp_state p) in
  let line := cp_line p in
  let ws := cst_ws (cp_state p) in
  _ ← market_monitor_destroy (app_monitor a);
  live ← destroyed TheMonitor (app_monitor a) (cp_live p);
  let _ := trade_history_destroy (app_history a) in
  live ← destroyed TheHistory (app_history a) live;
  let _ := order_entry_destroy (cp_orders p) in
  live ← destroyed TheOrders (cp_orders p) live;
  if match line with Some c => cl_running c | None => false end
  then Ok (Waits (mkClientProgram (command_line_stop line) (cp_state p) (cp_orders p) (cp_retries p) live))
  else
    live ← destroyed TheLine (command_line_destroy line) live;
    match ws_client_destroy ws with
    | None => Ok (Exits 0 a live)
    | Some _ => live ← destroyed TheClient ws live; Ok (Exits EXIT_SUCCESS a live)
    end.

(** [main] until its loop; the order entry, the history and the monitor may be null. *)
Definition client_start (f : client_flags) (pid : Z) (calloc_ok malloc_ok : bool) (stack : TradeMessage) (w : W) : res outcome :=
  let a0 := mkApp true false None None "" w in
  let client := ws_client_create (cf_client f) (cf_host f) (cf_context f) client_ws_config in
  let live := created TheClient client [] in
  match client with
  | None => Ok (Exits EXIT_FAILURE a0 live)
  | Some _ =>
      let line := command_line_create (W := ClientState) (cf_line f) in
      let live := created TheLine line live in
      match line with
      | None =>
          match ws_client_destroy client with
          | None => Ok (Exits 0 a0 live)
          | Some _ => live ← destroyed TheClient client live; Ok (Exits EXIT_FAILURE a0 live)
          end
      | Some _ =>
          let orders := order_entry_create (cf_orders f) (cf_trader f) order_config in
          let live := created TheOrders orders live in
          let history := trade_history_create (cf_history f) history_config in
          let live := created TheHistory history live in
          let monitor := market_monitor_create (cf_monitor f) (cf_symbols f) monitor_config in
          let live := created TheMonitor monitor live in
          let a := mkApp true false history monitor "" w in
          let ws := ws_client_set_connect_callback client (Some handle_connect) None in
          let ws := ws_client_set_disconnect_callback ws (Some handle_disconnect) None in
          let ws := ws_client_set_message_callback ws (Some (message_callback calloc_ok stack)) None in
          let line := command_line_set_callback line (Some (command_handler pid malloc_ok)) (Some 1%positive) in
          let '(r, ws, a) := ws_client_connect (cf_service f) ws a in
          let p := mkClientProgram line (mkClientState ws a) orders 0 live in
          if negb (r =? 0)%Z then client_cleanup p
          else
            let '(r, line) := command_line_start (cf_input f) line in
            let p := with_line p line (cp_state p) in
            if negb (r =? 0)%Z then client_cleanup p else Ok (Runs p)
      end
  end.

(** ** Running *)

Definition print_state (text : string) (st : ClientState) : ClientState :=
  mkClientState (cst_ws st) (print_app (cst_app st) text).

(** The input thread reads a line. *)
Definition read_line (now : Z) (line : option string) (c : CommandLine ClientState) (p : ClientProgram) : res outcome :=
  r ← input_turn print_state now line c (cp_state p);
  Ok (match (r : option (CommandLine ClientState * ClientState)) with
      | Some (c, st) => Runs (with_line p (Some c) st)
      | None => Exits 0 (cst_app (cp_state p)) (cp_live p)
      end).

(** A signal, handled outside the input thread.  Stopping the command line joins the input
    thread, which is in [readline]: [typed] is the line it returns, [None] while the user
    types nothing.  Disconnecting then ends the process. *)
Definition handle_signal (typed : option (Z * option string)) (p : ClientProgram) : res outcome :=
  let p := with_state p (mkClientState (cst_ws (cp_state p)) (set_app_running (cst_app (cp_state p)) false)) in
  stopped ← match cp_line p with
            | Some c =>
                if negb (cl_running c) then Ok (Runs p)
                else
                  let c := mkCommandLine false (cl_callback c) (cl_user_data c) in
                  match typed with
                  | None => Ok (Waits (with_line p (Some c) (cp_state p)))
                  | Some (now, line) => read_line now line c p
                  end
            | None => Ok (Runs p)
            end;
  match (stopped : outcome) with
  | Runs p =>
      Ok (match ws_client_disconnect (cst_ws (cp_state p)) with
          | None => Exits 0 (cst_app (cp_state p)) (cp_live p)
          | Some _ => Runs p
          end)
  | o => Ok o
  end.

(** The service thread: one [lws_service] and the rest of the loop's body. *)
Definition serve (evs : list service_event) (p : ClientProgram) : res outcome :=
  match cst_ws (cp_state p) with
  | None => Ok (Runs p)
  | Some ws =>
      if negb (wc_running ws) then Ok (Runs p)
      else
        '(ws, a) ← run_events evs ws (cst_app (cp_state p));
        t ← service_turn ws (cp_retries p) a;
        Ok (match (t : turn (App W)) with
            | Again ws n a => Runs (mkClientProgram (cp_line p) (mkClientState (Some ws) a) (cp_orders p) n (cp_live p))
            | Exit a => Exits 0 a (cp_live p)
            end)
  end.

Inductive client_event : Type :=
| CLine (now : Z) (line : option string)
| CServe (evs : list service_event)
| CSignal (typed : option (Z * option string))
| CMain.

(** One step of one thread; the main loop only looks at its flag. *)
Definition client_step (p : ClientProgram) (ev : client_event) : res outcome :=
  match ev with
  | CLine now line =>
      match cp_line p with
      | Some c => if cl_running c then read_line now line c p else Ok (Runs p)
      | None => Ok (Runs p)
      end
  | CServe evs => serve evs p
  | CSignal typed => handle_signal typed p
  | CMain => if app_running (cst_app (cp_state p)) then Ok (Runs p) else client_cleanup p
  end.

(** ** Lemmas *)

(** What a command sends: the text and the side effect on the view flag. *)
Definition command_text (pid : Z) (cmd : Command) : option string :=
  format_command_as_json (J := J) cmd (snprintf 32 ("TRADER" +:+ print_int pid)).

(** The state after a command that was sent, or had nothing to send. *)
Definition after_command (pid : Z) (cmd : Command) (ws : WSClient (App W)) (a : App W) : App W :=
  let a := match cmd_type cmd with CMD_VIEW => set_view a true | _ => a end in
  match command_text pid cmd with
  | None => a
  | Some json => set_net a (snd (lws_client_write (wc_connection ws) json (app_net a)))
  end.

Lemma handle_command_spec pid cmd ws a :
  cmd_type cmd <> CMD_QUIT -> wc_connected ws = true ->
  handle_command (J := J) pid true (Some ws) cmd a = Some (after_command pid cmd ws a).
Proof.
  intros Hq Hc. unfold handle_command, after_command. fold (command_text pid cmd). cbn [ws_client_is_connected]. rewrite Hc. cbn [negb].
  assert (Hsend : forall a : App W, snd (ws_client_send true (Some ws) (command_text pid cmd) a) =
    match command_text pid cmd with None => a
    | Some json => set_net a (snd (lws_client_write (wc_connection ws) json (app_net a))) end).
  { intros a'. destruct (command_text pid cmd) as [json|]; [|reflexivity]. cbn [ws_client_send]. rewrite Hc. cbn [negb lws_client_write lws_app].
    destruct (lws_client_write (wc_connection ws) json (app_net a')) as [r w]. reflexivity. }
  destruct (cmd_type cmd); try contradiction; destruct (command_text pid cmd) as [json|] eqn:E; rewrite <- ?Hsend; reflexivity.
Qed.

(** A program with a running command line and an open connection. *)
Definition connected_program (pid : Z) (p : ClientProgram) (c : CommandLine ClientState) (ws : WSClient (App W)) : Prop :=
  cp_line p = Some c /\ cl_callback c = Some (command_handler pid true) /\
  cst_ws (cp_state p) = Some ws /\ wc_connected ws = true.

(** What a line does. *)
Definition line_effect (pid now : Z) (line : string) (ws : WSClient (App W)) (a : App W) : option (App W) :=
  let cmd := parse_command now (Some line) in
  match line with
  | EmptyString => Some a
  | _ =>
      match cmd_type cmd with
      | CMD_QUIT => None
      | CMD_HELP => Some (print_app a print_command_help)
      | CMD_INVALID => Some a
      | _ => Some (after_command pid cmd ws a)
      end
  end.

Lemma read_line_spec pid now line c ws p :
  cl_callback c = Some (command_handler pid true) -> cst_ws (cp_state p) = Some ws -> wc_connected ws = true ->
  read_line now (Some line) c p =
    Ok (match line_effect pid now line ws (cst_app (cp_state p)) with
        | None => Exits 0 (cst_app (cp_state p)) (cp_live p)
        | Some a => Runs (with_line p (Some c) (mkClientState (Some ws) a))
        end).
Proof.
  intros Hcb Hws Hc. unfold read_line, line_effect. destruct (cp_state p) as [ws' a]. cbn [cst_ws cst_app] in *. subst ws'.
  destruct line as [|ch line]; [reflexivity |]. cbn [input_turn]. set (cmd := parse_command now (Some (String ch line))).
  assert (Hcall : cmd_type cmd <> CMD_QUIT -> call_command c cmd (mkClientState (Some ws) a) =
    Ok (Some (mkClientState (Some ws) (after_command pid cmd ws a)))).
  { intros Hq. unfold call_command. rewrite Hcb. unfold command_handler. cbn [cst_ws cst_app]. now rewrite handle_command_spec. }
  destruct (cmd_type cmd) eqn:Et; try (rewrite Hcall by discriminate; reflexivity); try reflexivity.
  unfold call_command. cbn [cl_callback]. rewrite Hcb. unfold command_handler, handle_command. rewrite Et. reflexivity.
Qed.

Lemma order_side (buy : bool) side :
  str_case_eq side (if buy then "BUY" else "SELL") = true -> command_type side = if buy then CMD_BUY else CMD_SELL.
Proof.
  unfold command_type. destruct buy; intros H; [now rewrite H |]. unfold str_case_eq in *.
  apply String.eqb_eq in H. now rewrite H.
Qed.

(** ** Properties *)

(** C40: how [main] of the client starts, on every combination of failures, the threads it
    starts taking no turn before it is done.  When the connection object or the command line
    cannot be created it ends with [EXIT_FAILURE] and nothing left; when the service thread
    cannot be started or the connection is refused it destroys every component it created,
    each once, and ends with [EXIT_SUCCESS]; when the input thread cannot be started it
    destroys all but the connection object, whose destruction ends the process with status 0;
    otherwise it runs, with the command line and the connection running, their callbacks
    registered, and alive exactly the components that were created. *)
Theorem client_start_status f pid ok1 ok2 stack w :
  let host := if cf_host f then Some "localhost"%string else None in
  let '(conn, w') := lws_connect host 8080 w in
  let orders := order_entry_create (cf_orders f) (cf_trader f) order_config in
  let history := trade_history_create (cf_history f) history_config in
  let monitor := market_monitor_create (cf_monitor f) (cf_symbols f) monitor_config in
  if negb (cf_client f && cf_context f && cf_line f)
  then client_start f pid ok1 ok2 stack w = Ok (Exits EXIT_FAILURE (mkApp true false None None "" w) [])
  else if negb (cf_service f && bool_decide (is_Some conn))
  then exists a, client_start f pid ok1 ok2 stack w = Ok (Exits EXIT_SUCCESS a [])
  else if negb (cf_input f)
  then exists a, client_start f pid ok1 ok2 stack w = Ok (Exits 0 a [TheClient])
  else exists p c ws, client_start f pid ok1 ok2 stack w = Ok (Runs p) /\
    cp_line p = Some c /\ cl_running c = true /\ cl_callback c = Some (command_handler pid ok2) /\
    cst_ws (cp_state p) = Some ws /\ wc_running ws = true /\ wc_connection ws = conn /\
    wc_connect_cb ws = Some handle_connect /\ wc_disconnect_cb ws = Some handle_disconnect /\
    wc_message_cb ws = Some (message_callback ok1 stack) /\
    cp_orders p = orders /\ cst_app (cp_state p) = mkApp true false history monitor "" w' /\
    cp_live p = created TheMonitor monitor (created TheHistory history (created TheOrders orders [TheLine; TheClient])).
Proof.
  destruct f as [client host context line orders trader history monitor symbols service input].
  cbv zeta. unfold client_start.
  cbn [cf_client cf_host cf_context cf_line cf_orders cf_trader cf_history cf_monitor cf_symbols cf_service cf_input].
  set (h := if host then _ else _).
  destruct client, context; cbn [ws_client_create negb andb created]; try (destruct (lws_connect h 8080 w); reflexivity).
  destruct line; cbn [command_line_create negb andb created]; [|destruct (lws_connect h 8080 w); reflexivity].
  cbn [ws_client_set_connect_callback ws_client_set_disconnect_callback ws_client_set_message_callback command_line_set_callback
    fmap option_fmap option_map ws_client_connect lws_connect lws_app with_callbacks wc_host wc_port app_net].
  change (wcc_server_host client_ws_config) with "localhost"%string. change (wcc_server_port client_ws_config) with 8080%Z. fold h.
  destruct (lws_connect h 8080 w) as [[conn|] w'].
  - rewrite bool_decide_eq_true_2 by eauto. destruct service; cbn [negb andb Z.eqb].
    + destruct input; cbn [command_line_start cl_running negb Z.eqb]; [do 3 eexists; split_and!; reflexivity |].
      destruct orders, trader, history, monitor, symbols; eexists; reflexivity.
    + destruct orders, trader, history, monitor, symbols; eexists; reflexivity.
  - rewrite bool_decide_eq_false_2 by (intros [? [=]]).
    destruct service; cbn [negb andb Z.eqb]; destruct orders, trader, history, monitor, symbols; eexists; reflexivity.
Qed.

(** A line typed into a connected client does exactly one thing: an order or view
    command is formatted with the process's trader name and written to the connection once
    (a view also arms the display), help prints the help, quit ends the process with status
    0, and an empty line, an invalid command or a cancellation sends nothing. *)
Lemma typed_line_handled pid now line p c ws :
  connected_program pid p c ws -> cl_running c = true ->
  client_step p (CLine now (Some line)) =
    Ok (match line_effect pid now line ws (cst_app (cp_state p)) with
        | None => Exits 0 (cst_app (cp_state p)) (cp_live p)
        | Some a => Runs (with_line p (Some c) (mkClientState (Some ws) a))
        end).
Proof.
  intros (Hl & Hcb & Hws & Hc) Hr. cbn [client_step]. rewrite Hl, Hr. now apply (read_line_spec pid).
Qed.

(** C39: an order typed into a connected client, as the side in any case, a symbol of at
    most 14 characters, a price and a quantity the protocol allows (the price one that
    printing preserves), is sent: the step writes one text to the connection and changes
    nothing else, and the server's parser reads from that text a place-order message with
    that symbol, price, quantity and side, the order id of the clock and the trader name of
    the process. *)
Theorem typed_order_sent `{CL : !CJsonLaws J} pid now (buy : bool) side symbol price quantity p c ws dst :
  connected_program pid p c ws -> cl_running c = true ->
  str_case_eq side (if buy then "BUY" else "SELL") = true ->
  word DELIMITERS side -> word DELIMITERS symbol -> word DELIMITERS price -> word DELIMITERS quantity ->
  (strlen (order_line_text side symbol price quantity) < 256)%nat -> (strlen symbol < 15)%nat -> nul_free symbol = true ->
  price_spec (atof price) -> num_exact (atof price) -> quantity_spec (atoi quantity) ->
  (0 <= now <= INT64_MAX)%Z -> (0 <= pid <= INT_MAX)%Z ->
  length (om_order_id dst) = 32%nat -> length (om_trader_id dst) = 32%nat -> length (om_symbol dst) = 16%nat ->
  let a := cst_app (cp_state p) in
  exists text m,
    client_step p (CLine now (Some (order_line_text side symbol price quantity))) =
      Ok (Runs (with_line p (Some c) (mkClientState (Some ws)
            (set_net a (snd (lws_client_write (wc_connection ws) text (app_net a))))))) /\
    parse_base_message (J := J) (Some text) = Some MSG_PLACE_ORDER /\
    parse_order_message (J := J) (Some text) (Some dst) = Ok (true, Some m) /\
    c_str (om_order_id m) = Ok ("ORD" +:+ print_int now)%string /\ c_str (om_trader_id m) = Ok ("TRADER" +:+ print_int pid)%string /\
    c_str (om_symbol m) = Ok symbol /\ om_price m = atof price /\ om_quantity m = atoi quantity /\ om_is_buy m = buy.
Proof.
  intros Hp Hr Hside W1 W2 W3 W4 Hl Hs Hf Vp Hx Vq Hn Hpid L1 L2 L3 a.
  pose proof (print_int_length now Hn) as Ln.
  pose proof (print_int_length pid ltac:(unfold INT_MAX, INT64_MAX in *; lia)) as Lp.
  assert (Hid : generate_order_id 32 now = ("ORD" +:+ print_int now)%string) by (apply snprintf_short; rewrite strlen_app; cbn; lia).
  assert (Htr : snprintf 32 ("TRADER" +:+ print_int pid) = ("TRADER" +:+ print_int pid)%string)
    by (apply snprintf_short; rewrite strlen_app; cbn; lia).
  pose proof (parse_order_words now side symbol price quantity (if buy then CMD_BUY else CMD_SELL) W1 W2 W3 W4
    (order_side buy side Hside) ltac:(destruct buy; auto) Hl ltac:(lia)
    (proj2 (validate_price_spec _ (atof_valid price)) Vp) (proj2 (validate_quantity_spec _) Vq)) as Hc.
  rewrite Hid in Hc. set (cmd := mkCommand _ _ _ _ _) in Hc.
  destruct (order_request_parses (J := J) cmd ("TRADER" +:+ print_int pid) dst) as (text & m & Ef & Eb & Eo & H);
    cbn [cmd cmd_type cmd_price cmd_quantity cmd_order_id cmd_symbol]; rewrite ?nul_free_app, ?print_int_nul_free, ?strlen_app; auto;
    try (cbn [strlen String.length]; unfold strlen in *; lia); [destruct buy; auto | unfold quantity_spec, in_int, INT_MIN, INT_MAX in *; lia |].
  exists text, m. split_and!; try tauto; [|cbn in H; destruct buy; tauto].
  rewrite (typed_line_handled pid now _ p c ws Hp Hr). unfold line_effect. rewrite Hc.
  assert (Hne : exists ch r, order_line_text side symbol price quantity = String ch r).
  { destruct W1 as [W1 _]. destruct side as [|ch side]; [congruence | eexists _, _; reflexivity]. }
  destruct Hne as (ch & r & ->). unfold after_command, command_text. rewrite Htr. fold a.
  replace (cmd_type cmd) with (if buy then CMD_BUY else CMD_SELL) by reflexivity. rewrite Ef. now destruct buy.
Qed.

(** A signal does not end a connected client by itself: the handler joins the input
    thread, so the process waits until the user types another line; that line is still
    carried out (an order is still sent) before the process exits with status 0. *)
Theorem signal_waits_for_line pid now line p c ws :
  connected_program pid p c ws -> cl_running c = true -> wc_running ws = true ->
  (exists p', client_step p (CSignal None) = Ok (Waits p')) /\
  client_step p (CSignal (Some (now, Some line))) =
  let a := set_app_running (cst_app (cp_state p)) false in
  Ok (Exits 0 (match line_effect pid now line ws a with Some a' => a' | None => a end) (cp_live p)).
Proof.
  intros (Hl & Hcb & Hws & Hc) Hr Hw. cbn [client_step]. unfold handle_signal. cbn [with_state cp_line]. rewrite Hl, Hr. cbn [negb].
  split; [eexists; reflexivity |]. set (p1 := with_state p _).
  pose proof (read_line_spec pid now line (mkCommandLine false (cl_callback c) (cl_user_data c)) ws p1 Hcb Hws Hc) as E.
  unfold p1 in E at 2. cbn [with_state cp_state cst_app] in E. rewrite E. cbn [mbind res_bind].
  destruct (line_effect _ _ _ _ _) as [a|]; [|reflexivity]. cbn [with_line cp_state cst_ws ws_client_disconnect]. now rewrite Hw.
Qed.

(** The client's order entry is created with limits but never consulted: no step of the
    program changes it, so it stays without orders, and no order is refused for the limits
    on count and notional of [order_config]. *)
Theorem order_entry_never_consulted p ev p' :
  client_step p ev = Ok (Runs p') \/ client_step p ev = Ok (Waits p') -> cp_orders p' = cp_orders p.
Proof.
  assert (Hread : forall now line c q o, read_line now line c q = Ok o ->
    match o with Runs q' | Waits q' => cp_orders q' = cp_orders q | Exits _ _ _ => True end).
  { intros now line c q o E. unfold read_line in E. apply bind_ok in E as (r & _ & E). repeat case_match; simplify_eq; auto. }
  cut (forall o, client_step p ev = Ok o -> match o with Runs q' | Waits q' => cp_orders q' = cp_orders p | Exits _ _ _ => True end).
  { intros H [E|E]; exact (H _ E). }
  intros o E. destruct ev as [now line|evs|typed|]; cbn [client_step] in E.
  - repeat case_match; simplify_eq; eauto; now apply (Hread _ _ _ _ _ E).
  - unfold serve in E. repeat case_match; simplify_eq; auto. all: apply bind_ok in E as ([ws a] & _ & E);
      apply bind_ok in E as (t & _ & E); repeat case_match; simplify_eq; auto.
  - unfold handle_signal in E. apply bind_ok in E as (o1 & E1 & E).
    assert (H1 : match o1 with Runs q' | Waits q' => cp_orders q' = cp_orders p | Exits _ _ _ => True end).
    { repeat case_match; simplify_eq; auto; apply (Hread _ _ _ _ _ E1). }
    repeat case_match; simplify_eq; auto.
  - unfold client_cleanup in E. repeat case_match; simplify_eq; auto; try contradiction;
      repeat (apply bind_ok in E as (? & _ & E)); repeat case_match; simplify_eq; auto;
      repeat (apply bind_ok in E as (? & _ & E)); simplify_eq; auto.
Qed.

End ClientProgram.

Arguments ClientState W : clear implicits.
Arguments ClientProgram W : clear implicits.
Arguments outcome W : clear implicits.

(** ** Concrete instances *)

Import RefJson.

(** A world that keeps what was written. *)
#[local] Instance log_lws : LwsClient (list string) :=
  {| lws_connect _ _ w := (Some 1%positive, w); lws_client_write _ text w := (Z.of_nat (strlen text), w ++ [text]) |}.

Definition sample_client : WSClient (App (list string)) :=
  mkWSClient (Some 1%positive) true true (Some "localhost"%string) 8080 5000 30000 (Some handle_connect) (Some handle_disconnect)
    (Some (message_callback (J := jvalue) true zero_trade)) None None None.
Definition sample_line : CommandLine (ClientState (list string)) :=
  mkCommandLine true (Some (command_handler (J := jvalue) 42 true)) (Some 1%positive).
Definition logged_app (running view : bool) (out : string) (written : list string) : App (list string) :=
  mkApp running view None None out written.
Definition sample_program : ClientProgram (list string) :=
  mkClientProgram (Some sample_line) (mkClientState (Some sample_client) (logged_app true false "" [])) None 0
    [TheLine; TheClient].

Lemma sample_program_connected : connected_program (J := jvalue) 42 sample_program sample_line sample_client.
Proof. now split_and!. Qed.

(** The request of the sample order. *)
Definition sample_order_text : string :=
  match command_text (J := jvalue) 42 (parse_command 1700000000 (Some buy_line)) with Some text => text | None => "" end.

(** The history cannot be allocated and the service thread cannot be started. *)
Lemma client_start_status_witness :
  exists a, client_start (J := jvalue)
    (mkClientFlags true true true true true true false true true false true) 42 true true zero_trade ([] : list string) =
    Ok (Exits EXIT_SUCCESS a []).
Proof.
  exact (client_start_status (J := jvalue) (mkClientFlags true true true true true true false true true false true) 42
    true true zero_trade ([] : list string)).
Defined.

Lemma typed_order_sent_witness :
  exists text m,
    client_step sample_program (CLine 1700000000 (Some buy_line)) =
      Ok (Runs (with_line sample_program (Some sample_line)
            (mkClientState (Some sample_client) (logged_app true false "" [text])))) /\
    parse_base_message (J := jvalue) (Some text) = Some MSG_PLACE_ORDER /\
    parse_order_message (J := jvalue) (Some text) (Some dirty_order) = Ok (true, Some m) /\
    c_str (om_order_id m) = Ok "ORD1700000000"%string /\ c_str (om_trader_id m) = Ok "TRADER42"%string /\
    c_str (om_symbol m) = Ok "AAPL"%string /\ om_price m = d_of_ratio 15025 100 /\ om_quantity m = 100%Z /\ om_is_buy m = true.
Proof.
  refine (typed_order_sent (J := jvalue) 42 1700000000 true "buy" "AAPL" "150.25" "100" sample_program sample_line sample_client
    dirty_order sample_program_connected eq_refl eq_refl _ _ _ _ _ _ eq_refl _ _ _ _ _ eq_refl eq_refl eq_refl);
    try by_decide; try (vm_compute; reflexivity); try (cbn; lia); try (unfold INT64_MAX, INT_MAX; lia).
Defined.

Lemma signal_waits_for_line_witness :
  (exists p', client_step sample_program (CSignal None) = Ok (Waits p')) /\
  client_step sample_program (CSignal (Some (1700000000%Z, Some buy_line))) =
  Ok (Exits 0 (logged_app false false "" [sample_order_text]) [TheLine; TheClient]).
Proof.
  destruct (signal_waits_for_line (J := jvalue) 42 1700000000 buy_line sample_program sample_line sample_client
    sample_program_connected eq_refl eq_refl) as [H1 H2]. split; [exact H1 |]. rewrite H2.
  assert (E : line_effect (J := jvalue) 42 1700000000 buy_line sample_client (logged_app false false "" []) =
    Some (logged_app false false "" [sample_order_text])) by (vm_compute; reflexivity).
  change (set_app_running (cst_app (cp_state sample_program)) false) with (logged_app false false "" []).
  cbv zeta. now rewrite E.
Defined.
