(* ===== verification/EndToEnd.v ===== *)
(** * From a command to a trade, and back

    Theorems that cross the network: the request the client formats for an order command
    is received, queued, taken by a worker and placed in a book; the text the server
    notifies a trade with is read by the client. *)

From Stdlib Require Import Ascii String ZArith Lia SpecFloat.
From stdpp Require Import base list numbers strings gmap fin_maps.
From S2P Require Import Prelude CDouble CString CJson Protocol JsonProtocol Order AvlTree OrderBook MatchSpec BookRefine.
From S2P Require Import WsServer Handlers HandlerQueue HandlerBooks HandlerSafety ServerApp ClientCommands TradeHistory MarketMonitor WsClient ClientApp.

Section EndToEnd.

Context {J : Type} `{CJ : CJson J} `{CL : !CJsonLaws J} {N : Type} `{L : Lws N}.

(** ** Lemmas *)



(** ** Properties *)


(** A client that reads a trade notification of the server dereferences a null
    pointer: the text is typed as a rejection, whose [order_id] it does not have. *)
Theorem trade_note_crashes_client {W : Type} (a : App W) ok stack time_str n :
  num_exact (tn_price n) -> in_int (tn_quantity n) ->
  exists text, trade_note_text (J := J) time_str n = Some text /\
    handle_message (J := J) ok stack text a = UB NullDeref.
Proof.
  intros Hp Hq. destruct (trade_note_parses time_str n Hp Hq) as (text & j & Et & Ep & Hj & Eb).
  exists text. split; [exact Et |]. unfold handle_message. rewrite Eb, Ep.
  cbn [Z.eqb MSG_ORDER_REJECTED MSG_ORDER_ACCEPTED Pos.eqb]. unfold show_rejected, string_at. cbn [get_item].
  pose proof (get_object_item _ _ "order_id" Hj) as H. cbn in H. now rewrite H.
Qed.

End EndToEnd.

(** ** Concrete instances *)

Import RefJson.




Lemma trade_note_crashes_client_witness :
  exists text, trade_note_text (J := jvalue) "t" sample_note = Some text /\
    handle_message (J := jvalue) true zero_trade text (sample_app false) = UB NullDeref.
Proof.
  apply (trade_note_crashes_client (J := jvalue) (sample_app false) true zero_trade "t" sample_note);
    [reflexivity | split; vm_compute; discriminate].
Defined.
